(* ===== verification/_CoqProject ===== *)
-Q . S2P
Prelude.v
Memory.v
LibMem.v
LibString.v
Bits.v
Ports.v
Pic.v
Rtc.v
Console.v
Printing.v
Keyboard.v
Paging.v
FileSys.v
FsScreen.v
Process.v
Syscall.v
Descriptors.v
ReadWrite.v
Typing.v
Calls.v
Exec.v
ExecSpec.v
ExecProps.v
Execute.v
Frame.v
Idt.v
Entry.v
Boot.v
Startup.v
Start.v
UserLib.v
Emulate.v
Blink.v
Fish.v
User.v
UserRun.v
UserErr.v
UserLs.v
UserCount.v
UserExec.v
UserPong.v
UserSig.v
UserShell.v
UserGrep.v
