(* ===== verification/Prelude.v ===== *)
(** * Project_myOS: a verification library of the kernel

    Project_myOS is a small 32-bit x86 kernel (src/student-distrib/) with a
    read-only file system, six processes, one text terminal and ten system
    calls, and the user programs that run on it (src/syscalls/, src/fish/).
    This library translates its C and assembly code into executable Rocq
    functions and proves what they do.

    ** How the program hangs together

    boot.S enters entry of kernel.c with what the loader left; entry prints
    it, sets up the descriptors, the devices, the file system and the pages,
    and executes the program shell.  A key press raises an
    interrupt: the gate idt.c installed leads to a stub of handler.S, which
    calls the keyboard driver, which edits the line being typed and echoes it
    on the text console of lib.c; three hot keys print the file system.  A program reaches the kernel with int 0x80: asm_linkage of
    handler.S checks the number and jumps to a function of systemcall.c.  read
    and write go through the descriptor table in the process's control block
    to the terminal, the clock or files.c.  execute parses a command, finds
    the program in the file system, builds a page directory (mypaging.c),
    loads the program, fills a control block and enters it with iret; halt
    restores the parent and leaves by the parent's frame.

    ** The files, and the code they model

    Prelude      machine integers u8 ... s32, faults and the error monad [res],
                 loops, lists; Memory: the flat byte memory and its frame
                 lemmas ([changes_only], [separate]); Bits: C bit fields.
    Ports        lib.h inb and outb over a device given by the class PortIO,
                 the wider accesses and the flag macros.
    LibMem       lib.c memset*, memcpy, memmove; LibString: strlen, strrev,
                 itoa, strncmp, strcpy, strncpy; Console: the cursor,
                 scrolling, putc, puts, printf, clear; Printing: calls of
                 printf with a literal format.
    Pic, Rtc     i8259.c and rtc.c; the clock chip is the class Cmos.
    Keyboard     keyboard.c: [mods] and [line] are its globals, [kb] the driver
                 with its console; what the hot keys run is the class Hotkeys.
    Paging       mypaging.c and the entries of x86_desc.h, with vidmap's tables.
    FileSys      files.c, state [fs] (its globals) and the image in memory;
                 FsScreen: the three commands that print it, the instance of
                 Hotkeys the kernel uses.
    Process      systemcall.h: the layout of pcb_t and file_descriptor, and
                 [kernel], the state of the whole kernel: the terminal (whose
                 console holds the linear memory) and, as fields beside that
                 memory, the pages, the globals of systemcall.c and the TSS's
                 esp0.
    Syscall      systemcall.c read, write, open, close, getargs, vidmap,
                 set_handler, sigreturn; Descriptors: the table they implement;
                 ReadWrite, Calls: their properties; Typing: a read of
                 descriptor 0 from the keys that are pressed, over the class
                 KeyQueue of the keyboard controller.
    Exec         systemcall.c execute and halt, handler.S asm_linkage; ExecSpec,
                 ExecProps, Execute: what they establish.
    Idt          idt.c: the table; the exception handlers and the stubs of
                 handler.S as statements a processor [cpu] steps through.
    Entry        kernel.c with multiboot.h and the descriptors of x86_desc.h,
                 state [machine]; Boot: what it prints, Startup: entry as a
                 whole; Start: boot.S and the descriptor table of x86_desc.S,
                 with the processor's registers in [boot_state].
    Frame        which calls leave the processes alone, and what memory a call
                 of a process that keeps to its own may write.
    UserLib      ece391support.c: the string functions; User: ece391syscall.S,
                 fdputs, and ece391cat.c.
    Emulate      ece391emulate.c, the same calls under Linux, given by the class
                 Linux.
    Blink        fish/blink.S with the allocator of fish.c: the list of blinking
                 characters, the commands on it and the tick; Fish: main and
                 add_frames of fish.c over it and the calls of Emulate.
    UserRun      what a program may rely on between its calls: the record
                 [running] and how each call keeps it, reads of files, of the
                 directory and of the clock included; the class Text of the
                 strings a program can pass.
    UserErr      ece391syserr.c; UserLs: ece391ls.c, ece391hello.c and
                 ece391testprint.c; UserCount: ece391counter.c.
    UserExec     the execute wrapper, across the life of the child it starts,
                 and what its caller relies on meanwhile ([child_left] is what
                 a child must leave); UserShell: ece391shell.c.
    UserPong     ece391pingpong.c, a program that never ends; UserSig:
                 ece391sigtest.c; UserGrep: ece391grep.c.

    ** Conventions

    A definition has the name of the C function it models.  Addresses the
    linker or the compiler choose (symbols, string literals, local buffers)
    are parameters, gathered in the record [layout] for systemcall.c; what is
    assumed of them is that they do not overlap ([separate]).  A device is a
    parameter with its documented laws, and recorded traces and a concrete
    clock chip are the instances the witnesses use.  A handler or a call is
    one step; a call that waits takes the interrupts it sees from a schedule,
    an argument, and ends in [Hang] when the schedule does.  Only read takes
    one: it sets the interrupt flag ([taken]), with which programs and the
    other calls run clear.  Other faults are results too: an access outside an array, a call through a null pointer.

    C loops run on [while] and [whileM], whose fuel [fuel32] is 2^32 + 1
    iterations in binary: a loop over 32-bit addresses that is not over by then
    has wrapped around.  [while_total] and [whileM_total] ask for a variant
    that starts within 2^32, so a theorem about a loop includes that it ends:
    [returns x Q] says that [x] ends without a fault, in a result with [Q].

    The memory is linear.  The 4 MB at 128 MB, where programs run, are a
    window: a change of CR3 to another process's directory stores the bytes
    there under the old frame and shows those of the new one (Exec.v).  The
    identity-mapped rest is shared by all directories, as Paging.v proves.

    ** What is proved

    - Data: itoa writes the numeral of its value, digit by digit below the
      radix; memset, memcpy and memmove
      equal their byte-wise references; the string functions; the bit fields.
    - Devices: the masks and commands the interrupt controllers see; the rate
      the clock ticks at; the screen as a grid that putc, printf and scrolling
      refine; the keyboard as a line editor, with the line a reader gets.
    - Paging: what the MMU translates each address to under every directory
      the kernel builds, and that no two processes share a user frame.
    - File system: mounting, lookup by name, read_data against the content of
      a file, directory listing, the commands that print.
    - Descriptors: open, close, read and write refine a table of eight slots;
      every sequence of calls of a process that keeps to the rules keeps its
      invariant; bad arguments are rejected; open and close round trip.
    - Processes: execute enters a program that is loaded whole, and returns -1
      for each kind of bad command; halt after execute restores the parent;
      the processes are a stack of at most six, on whose newest block the TSS
      points; what the gate does to the registers; no call but execute, halt
      and vidmap touches pages or processes, and a call with the caller's own
      pointers writes only the regions listed for it.
    - Interrupts: the gate each vector gets, who may use it, what the
      exception handlers report, and that they never leave their loop.
    - Boot: from the first instruction of boot.S to the first of the shell,
      with the segments and the interrupt entries at that point; what entry
      prints, and when it gives up.
    - Programs: cat ends and prints the file it is given; ls lists the
      directory; hello, from the scancodes in the keyboard controller to the
      greeting on the screen; counter, the same with its numbers; what the
      error tests of syserr say about this kernel; the string functions of the
      user library; the shell, a whole session of typed commands from the keys
      to the screen, with the programs it runs; pingpong, the wall it draws
      for every tick of the clock; sigtest, which this kernel stops at its
      first fault; grep, the lines it prints against a search of the files as
      texts, whatever way its buffer cuts them.
    - Under Linux: the command line a program gets back against the kernel's,
      and the directory as a file.
    - The fish: the commands and the tick refine a list of blinkers; the whole
      demonstration shows what two drawings, as texts, say it should.
    Each is stated over the executable definitions and, where it has
    hypotheses, is applied to a concrete kernel by the lemma of the same name
    with _witness.

    ** Bounds

    A file has at most 1023 blocks of 4096 bytes, which its inode has room
    for; the directory has 63 entries; the line buffer 1024 bytes, of which
    128 can be typed; a string that is printed at most 1024 characters; a
    command's arguments at most what arg_buf holds.  Reads are of fewer than
    2^31 bytes, as the C types have it.  A drawing of the fish has less than
    818 characters, so that its last row has a 16-bit location.  The strings of
    argv under Linux span less than 2 GB.

    ** Not modelled

    - test.c: manual tests, commented out where they are called.
    - The string functions of fish/ece391support.c and the wrappers of
      fish/ece391syscall.S: copies of those in src/syscalls/.
    - The machine code of the program files: the shell's session is about any
      programs that print, return a status and keep to their own memory.
    - A store of the kernel through a program's pointer to the page tables or
      the globals of systemcall.c: these are fields, not bytes.  systemcall.c
      does not check the pointers, so the theorems on calls ask for pointers
      to memory of the caller's own, and say what else is written.
    - The interrupt flag beyond what is said of read, of boot and of the
      exception handlers; interrupts in the middle of a handler, the TLB, and
      what the processor does on a jump to address 0 beyond that it happens. *)

From Stdlib Require Export ZArith Lia.
From stdpp Require Export base gmap list numbers strings.

#[global] Open Scope Z_scope.

(** ** Machine integers

    A C integer is a [Z]; [u8], [u16], [u32] reduce it modulo the width,
    [s8] and [s32] read the same bits as a two's complement number. *)

Definition u8 (z : Z) : Z := z mod 256.
Definition u16 (z : Z) : Z := z mod 65536.
Definition u32 (z : Z) : Z := z mod 4294967296.
Definition s8 (z : Z) : Z := (z + 128) mod 256 - 128.
Definition s32 (z : Z) : Z := (z + 2147483648) mod 4294967296 - 2147483648.

(** ** Outcomes

    What a C function can end in besides a result: a loop that never ends,
    an access outside an array, a division by zero, a call through a null
    function pointer. *)

Inductive fault :=
  | Hang
  | OutOfBounds
  | DivideError
  | NullCall.

Inductive res (A : Type) :=
  | Ok (a : A)
  | Err (f : fault).
Arguments Ok {A} _.
Arguments Err {A} _.

#[export] Instance fault_eq_dec : EqDecision fault.
Proof. solve_decision. Defined.

Definition res_bind {A B} (x : res A) (k : A → res B) : res B :=
  match x with Ok a => k a | Err f => Err f end.

#[export] Instance res_ret : MRet res := @Ok.
#[export] Instance res_mbind : MBind res := λ A B k x, res_bind x k.

Lemma res_bind_Ok {A B} (x : res A) (k : A → res B) (b : B) :
  x ≫= k = Ok b ↔ ∃ a, x = Ok a ∧ k a = Ok b.
Proof. destruct x as [a|f]; cbn; split; [eauto|naive_solver..]. Qed.

Lemma bind_Ok {A B} (a : A) (k : A → res B) : Ok a ≫= k = k a.
Proof. reflexivity. Qed.
Lemma bind_Err {A B} f (k : A → res B) : Err f ≫= k = Err f.
Proof. reflexivity. Qed.

(** [returns x Q]: the computation ends, without a fault, in a result with
    property [Q] (a total-correctness triple). *)
Definition returns {A} (x : res A) (Q : A → Prop) : Prop := ∃ a, x = Ok a ∧ Q a.

Lemma returns_Ok {A} (a : A) (Q : A → Prop) : Q a → returns (Ok a) Q.
Proof. by exists a. Qed.
Lemma returns_mret {A} (a : A) (Q : A → Prop) : Q a → returns (mret a) Q.
Proof. by exists a. Qed.
Lemma returns_mono {A} (x : res A) (P Q : A → Prop) :
  returns x P → (∀ a, P a → Q a) → returns x Q.
Proof. intros (a & -> & ?) HPQ. exists a. auto. Qed.
Lemma returns_bind {A B} (x : res A) (k : A → res B) P Q :
  returns x P → (∀ a, P a → returns (k a) Q) → returns (x ≫= k) Q.
Proof. intros (a & -> & Ha) Hk. apply (Hk a Ha). Qed.
(** Two steps at once. *)
Lemma returns_bind2 {A B C} (x : res A) (f : A → res B) (g : B → res C) P Q :
  returns (x ≫= f) P → (∀ b, P b → returns (g b) Q) → returns (x ≫= λ a, f a ≫= g) Q.
Proof. intros (b & E & Hb) Hg. destruct x as [a|]; [|done]. cbn in *. rewrite E. by apply Hg. Qed.
Lemma returns_eq {A} (x : res A) (a : A) : returns x (λ r, r = a) ↔ x = Ok a.
Proof. split; [by intros (? & -> & ->) | intros ->; by exists a]. Qed.
Lemma returns_inv {A} (x : res A) Q a : returns x Q → x = Ok a → Q a.
Proof. intros (a' & -> & ?) [= ->]. done. Qed.

(** ** Automation *)

(** Integer side conditions, with division and modulo by constants. *)
Ltac zlia := first [ lia | Z.to_euclidean_division_equations; lia ].

(** Conjunctions of side conditions. *)
Ltac side := split_and?; intros; first [ done | lia | congruence | eauto with lia ].

Ltac unfold_mach := unfold u8, u16, u32, s8, s32 in *.

(** Case analysis on the integer tests in sight, then [lia] on the leaves. *)
Ltac case_z :=
  repeat match goal with
  | |- context [Z.eqb ?a ?b] => destruct (Z.eqb_spec a b)
  | |- context [Z.ltb ?a ?b] => destruct (Z.ltb_spec a b)
  | |- context [Z.leb ?a ?b] => destruct (Z.leb_spec a b)
  | H : context [Z.eqb ?a ?b] |- _ => destruct (Z.eqb_spec a b)
  | H : context [Z.ltb ?a ?b] |- _ => destruct (Z.ltb_spec a b)
  | H : context [Z.leb ?a ?b] |- _ => destruct (Z.leb_spec a b)
  end.

Ltac cases_z := case_z; try (exfalso; lia).

(** Evaluation of a decidable closed proposition. *)
Ltac by_decide := refine (bool_decide_unpack _ _); vm_compute; exact I.

Create HintDb machine.
Create Rewrite HintDb machine.

Lemma u8_range z : 0 ≤ u8 z < 256.
Proof. unfold u8. zlia. Qed.
Lemma u16_range z : 0 ≤ u16 z < 65536.
Proof. unfold u16. zlia. Qed.
Lemma u32_range z : 0 ≤ u32 z < 4294967296.
Proof. unfold u32. zlia. Qed.
Lemma s8_range z : -128 ≤ s8 z < 128.
Proof. unfold s8. zlia. Qed.
Lemma s32_range z : -2147483648 ≤ s32 z < 2147483648.
Proof. unfold s32. zlia. Qed.
Lemma u8_small z : 0 ≤ z < 256 → u8 z = z.
Proof. apply Z.mod_small. Qed.
Lemma u16_small z : 0 ≤ z < 65536 → u16 z = z.
Proof. apply Z.mod_small. Qed.
Lemma u32_small z : 0 ≤ z < 4294967296 → u32 z = z.
Proof. apply Z.mod_small. Qed.
Lemma s8_small z : -128 ≤ z < 128 → s8 z = z.
Proof. intros. unfold s8. rewrite Z.mod_small; lia. Qed.
Lemma s32_small z : -2147483648 ≤ z < 2147483648 → s32 z = z.
Proof. intros. unfold s32. rewrite Z.mod_small; lia. Qed.
Lemma u8_s8 z : u8 (s8 z) = u8 z.
Proof. unfold u8, s8. zlia. Qed.
Lemma s8_u8 z : s8 (u8 z) = s8 z.
Proof. unfold u8, s8. zlia. Qed.
Lemma u32_s32 z : u32 (s32 z) = u32 z.
Proof. unfold u32, s32. zlia. Qed.
Lemma s32_u32 z : s32 (u32 z) = s32 z.
Proof. unfold u32, s32. zlia. Qed.
Lemma s8_inj a b : 0 ≤ a < 256 → 0 ≤ b < 256 → s8 a = s8 b → a = b.
Proof. unfold s8. zlia. Qed.

#[export] Hint Resolve u8_range u16_range u32_range s8_range s32_range : machine.
#[export] Hint Rewrite u8_small u16_small u32_small s8_small s32_small using lia : machine.
#[export] Hint Rewrite u8_s8 s8_u8 u32_s32 s32_u32 : machine.

Ltac mach := autorewrite with machine.

(** ** Loops

    A [while] loop is a body that either continues with a new state or
    leaves with a result.  It is run on binary fuel, so that the bound can be
    the number of addresses of the machine and the definition still
    evaluates: the loop leaves as soon as the body does. *)

Section loops.
Context {St R : Type} (body : St → St + R).

Fixpoint run (fuel : positive) (s : St) : St + R :=
  match fuel with
  | xH => body s
  | xO p =>
      match run p s with inl s' => run p s' | inr r => inr r end
  | xI p =>
      match body s with
      | inl s' => match run p s' with inl s'' => run p s'' | inr r => inr r end
      | inr r => inr r
      end
  end.

(** The unary reference: at most [n] iterations. *)
Fixpoint run_nat (n : nat) (s : St) : St + R :=
  match n with
  | O => inl s
  | S n' => match body s with inl s' => run_nat n' s' | inr r => inr r end
  end.

Lemma run_nat_add n k s :
  run_nat (n + k) s = match run_nat n s with inl s' => run_nat k s' | inr r => inr r end.
Proof.
  revert s; induction n as [|n IH]; intros s; cbn; [done|].
  destruct (body s); [apply IH | done].
Qed.

Lemma run_run_nat p s : run p s = run_nat (Pos.to_nat p) s.
Proof.
  revert s; induction p as [p IH|p IH|]; intros s.
  - rewrite Pos2Nat.inj_xI. cbn -[Nat.mul]. destruct (body s) as [s'|r]; [|done].
    replace (2 * Pos.to_nat p)%nat with (Pos.to_nat p + Pos.to_nat p)%nat by lia.
    rewrite run_nat_add, IH. destruct (run_nat _ s'); [apply IH | done].
  - rewrite Pos2Nat.inj_xO.
    replace (2 * Pos.to_nat p)%nat with (Pos.to_nat p + Pos.to_nat p)%nat by lia.
    rewrite run_nat_add. cbn. rewrite IH. destruct (run_nat _ s); [apply IH | done].
  - change (Pos.to_nat 1) with 1%nat. cbn. by destruct (body s).
Qed.

(** Total correctness of a loop: an invariant, a variant and the exit. *)
Lemma run_nat_total (I : St → Prop) (V : St → Z) (Q : R → Prop) n s :
  (∀ s, I s → match body s with
              | inl s' => I s' ∧ 0 ≤ V s' < V s
              | inr r => Q r
              end) →
  I s → 0 ≤ V s < Z.of_nat n → ∃ r, run_nat n s = inr r ∧ Q r.
Proof.
  intros Hbody. revert s; induction n as [|n IH]; intros s HI HV; [lia|].
  cbn. specialize (Hbody s HI). destruct (body s) as [s'|r]; [|by eauto].
  destruct Hbody. apply IH; [done|lia].
Qed.
End loops.

(** One more than the number of byte addresses: a scan that has not stopped
    after that many steps has wrapped around the address space. *)
Definition fuel32 : positive := 4294967297.

Definition while {St R} (body : St → St + res R) (s : St) : res R :=
  match run body fuel32 s with inr r => r | inl _ => Err Hang end.

Lemma while_total {St R} (I : St → Prop) (V : St → Z) (body : St → St + res R)
    (Q : R → Prop) s :
  I s → 0 ≤ V s ≤ 4294967296 →
  (∀ s, I s → match body s with
              | inl s' => I s' ∧ 0 ≤ V s' < V s
              | inr x => returns x Q
              end) →
  returns (while body s) Q.
Proof.
  intros HI HV Hbody. unfold while. rewrite run_run_nat.
  destruct (run_nat_total body I V (λ x, returns x Q) (Pos.to_nat fuel32) s)
    as (r & -> & HQ); [done..| |done].
  rewrite positive_nat_Z. unfold fuel32. lia.
Qed.

(** Partial correctness: what holds of any result the loop returns. *)
Lemma while_partial {St R} (body : St → St + res R) (I : St → Prop)
    (Q : R → Prop) s r :
  I s →
  (∀ s, I s → match body s with inl s' => I s' | inr (Ok r) => Q r | inr (Err _) => True end) →
  while body s = Ok r → Q r.
Proof.
  intros HI Hbody. unfold while. rewrite run_run_nat.
  generalize (Pos.to_nat fuel32) as n. intros n; revert s HI.
  induction n as [|n IH]; intros s HI; cbn; [done|].
  specialize (Hbody s HI). destruct (body s) as [s'|[r'|]]; [by apply IH| |done].
  by intros [= ->].
Qed.

(** Conversion never needs to look inside a loop. *)
#[global] Opaque while.

(** [for (i = lo; i < lo + n; i++) s = f i s] *)
Fixpoint for_ {St} (n : nat) (i : Z) (f : Z → St → St) (s : St) : St :=
  match n with
  | O => s
  | S n' => for_ n' (i + 1) f (f i s)
  end.

(** The invariant rule of a counted loop. *)
Lemma for_inv {St} (P : Z → St → Prop) (f : Z → St → St) n i s :
  P i s →
  (∀ j s, i ≤ j < i + Z.of_nat n → P j s → P (j + 1) (f j s)) →
  P (i + Z.of_nat n) (for_ n i f s).
Proof.
  revert i s; induction n as [|n IH]; intros i s HP Hstep; cbn [for_].
  - by replace (i + Z.of_nat 0) with i by lia.
  - replace (i + Z.of_nat (S n)) with (i + 1 + Z.of_nat n) by lia.
    apply IH; [apply Hstep; [lia|done] | intros; apply Hstep; [lia|done]].
Qed.

Lemma for_snoc {St} (f : Z → St → St) n i s :
  for_ (S n) i f s = f (i + Z.of_nat n) (for_ n i f s).
Proof.
  revert i s; induction n as [|n IH]; intros i s.
  - cbn. f_equal. lia.
  - change (for_ (S n) i f s) with (for_ n (i + 1) f (f i s)).
    change (for_ (S (S n)) i f s)
      with (for_ (S n) (i + 1) f (f i s)).
    rewrite IH. f_equal. lia.
Qed.

(** The character codes of a literal. *)
Definition codes (s : string) : list Z :=
  (λ c, Z.of_N (Ascii.N_of_ascii c)) <$> String.list_ascii_of_string s.

(** ** Busy waiting

    A driver that spins on a flag an interrupt handler clears.  [sched] is
    what happens between two tests of the flag: each element is delivered by
    [deliver], which runs the handlers.  A wait that outlives the schedule has
    not returned. *)

Section spin.
Context {Ev St : Type} (busy : St → bool) (deliver : Ev → St → res St).

Fixpoint spin (sched : list Ev) (s : St) : res (St * list Ev) :=
  if busy s then
    match sched with
    | [] => Err Hang
    | e :: sched' => s' ← deliver e s; spin sched' s'
    end
  else Ok (s, sched).

(** The wait consumes a prefix of the schedule: the shortest one after which
    the flag is clear. *)
Lemma spin_prefix (I : St → Prop) sched s s' rest :
  I s →
  (∀ e s s1, I s → busy s = true → deliver e s = Ok s1 → I s1) →
  spin sched s = Ok (s', rest) →
  I s' ∧ busy s' = false ∧ ∃ pre, sched = pre ++ rest.
Proof.
  intros HI Hstep. revert s HI; induction sched as [|e sched IH]; intros s HI; cbn [spin].
  - destruct (busy s) eqn:E; [done|]. intros [= -> <-]. split_and!; [done..|by exists []].
  - destruct (busy s) eqn:E.
    + intros (s1 & Hs1 & Hspin)%res_bind_Ok.
      destruct (IH s1 ltac:(eauto) Hspin) as (? & ? & pre & ->).
      split_and!; [done..|]. by exists (e :: pre).
    + intros [= -> <-]. split_and!; [done..|by exists []].
Qed.

(** Events that keep the flag set are absorbed. *)
Lemma spin_busy_step e sched s s1 :
  busy s = true → deliver e s = Ok s1 → spin (e :: sched) s = spin sched s1.
Proof. intros Hb Hd. cbn. by rewrite Hb, Hd. Qed.

Lemma spin_done sched s : busy s = false → spin sched s = Ok (s, sched).
Proof. intros Hb. destruct sched; cbn; by rewrite Hb. Qed.
End spin.

(** ** Loops whose body can fail *)

Definition whileM {St R} (body : St → res (St + R)) (s : St) : res R :=
  while (λ s, match body s with
              | Ok (inl s') => inl s'
              | Ok (inr r) => inr (Ok r)
              | Err f => inr (Err f)
              end) s.

Lemma whileM_total {St R} (I : St → Prop) (V : St → Z) (body : St → res (St + R))
    (Q : R → Prop) s :
  I s → 0 ≤ V s ≤ 4294967296 →
  (∀ s, I s → returns (body s) (λ x, match x with
              | inl s' => I s' ∧ 0 ≤ V s' < V s
              | inr r => Q r
              end)) →
  returns (whileM body s) Q.
Proof.
  intros HI HV Hbody. unfold whileM. apply while_total with (I := I) (V := V); [done..|].
  intros s' Hs'. destruct (Hbody s' Hs') as ([s''|r] & -> & HQ); [done|by apply returns_Ok].
Qed.

(** Partial correctness: what holds of any result the loop returns. *)
Lemma whileM_partial {St R} (body : St → res (St + R)) (I : St → Prop) (Q : R → Prop) s r :
  I s → (∀ s x, I s → body s = Ok x → match x with inl s' => I s' | inr r => Q r end) →
  whileM body s = Ok r → Q r.
Proof.
  intros HI Hbody. unfold whileM. apply while_partial with (I := I); [done|].
  intros s' Hs'. specialize (Hbody s'). destruct (body s') as [[s''|r']|] eqn:E; try done.
  - exact (Hbody _ Hs' eq_refl).
  - exact (Hbody _ Hs' eq_refl).
Qed.

#[global] Opaque whileM.

(** ** Arrays with bounds *)

Definition arr_get (l : list Z) (i : Z) : res Z :=
  if i <? 0 then Err OutOfBounds
  else match l !! Z.to_nat i with Some v => Ok v | None => Err OutOfBounds end.

Definition arr_set (l : list Z) (i v : Z) : res (list Z) :=
  if (i <? 0) || (Z.of_nat (length l) <=? i) then Err OutOfBounds
  else Ok (<[Z.to_nat i := v]> l).

(** An array that holds [l] and zeros behind it. *)
Definition holds (size : nat) (l arr : list Z) : Prop :=
  (length l ≤ size)%nat ∧ arr = l ++ replicate (size - length l) 0.

Lemma holds_nil size : holds size [] (replicate size 0).
Proof. split; cbn; [lia|]. by rewrite Nat.sub_0_r. Qed.

Lemma holds_length size l arr : holds size l arr → length arr = size.
Proof. intros [? ->]. rewrite length_app, length_replicate. lia. Qed.

Lemma holds_get size l arr i x :
  holds size l arr → 0 ≤ i → l !! Z.to_nat i = Some x → arr_get arr i = Ok x.
Proof.
  intros [? ->] Hi Hx. unfold arr_get. case_z; [lia|].
  by rewrite (lookup_app_l_Some _ _ _ _ Hx).
Qed.

Lemma holds_push size l arr x :
  holds size l arr → (length l < size)%nat →
  ∃ arr', arr_set arr (Z.of_nat (length l)) x = Ok arr' ∧ holds size (l ++ [x]) arr'.
Proof.
  intros Hh Hlt. pose proof (holds_length _ _ _ Hh) as Hlen. destruct Hh as [_ ->].
  unfold arr_set. rewrite Hlen. case_z; cbn [orb]; try lia.
  eexists; split; [done|]. split; [rewrite length_app; cbn; lia|].
  rewrite Nat2Z.id. replace (size - length l)%nat with (S (size - length (l ++ [x])))
    by (rewrite length_app; cbn; lia).
  cbn [replicate]. replace (length l) with (length l + 0)%nat by lia.
  rewrite insert_app_r. cbn. by rewrite <- app_assoc.
Qed.

Lemma holds_pop size l arr x :
  holds size (l ++ [x]) arr →
  ∃ arr', arr_set arr (Z.of_nat (length l)) 0 = Ok arr' ∧ holds size l arr'.
Proof.
  intros Hh. pose proof (holds_length _ _ _ Hh) as Hlen. destruct Hh as [Hle Harr].
  rewrite length_app in Hle. cbn in Hle. unfold arr_set. rewrite Hlen.
  case_z; cbn [orb]; try lia. eexists; split; [done|]. split; [lia|].
  rewrite Harr, Nat2Z.id, <- app_assoc. cbn [app].
  replace (length l) with (length l + 0)%nat at 1 by lia. rewrite insert_app_r. cbn.
  rewrite length_app. cbn. f_equal.
  by replace (size - length l)%nat with (S (size - (length l + 1)))%nat by lia.
Qed.

(** Zeroing every element. *)
Definition zero_all (size : Z) (arr : list Z) : list Z :=
  for_ (Z.to_nat size) 0 (λ i arr, <[Z.to_nat i := 0]> arr) arr.

Lemma zero_all_spec size arr :
  length arr = Z.to_nat size → zero_all size arr = replicate (Z.to_nat size) 0.
Proof.
  intros Hlen. unfold zero_all.
  assert (∀ k, k = Z.to_nat size → length (for_ k 0 (λ i arr, <[Z.to_nat i := 0]> arr) arr) = k ∧
    ∀ j, 0 ≤ j < 0 + Z.of_nat k →
      for_ k 0 (λ i arr, <[Z.to_nat i := 0]> arr) arr !! Z.to_nat j = Some 0) as Hk.
  { intros k ->. apply (for_inv (λ i a, length a = Z.to_nat size ∧
      ∀ j, 0 ≤ j < i → a !! Z.to_nat j = Some 0)).
    - split; [done|lia].
    - intros i a Hi [Hl Ha]. rewrite length_insert. split; [done|]. intros j Hj.
      destruct (decide (j = i)) as [->|]; [apply list_lookup_insert_eq; lia|].
      rewrite list_lookup_insert_ne by lia. apply Ha. lia. }
  destruct (Hk _ eq_refl) as [Hl Ha]. apply list_eq. intros i.
  destruct (decide (i < Z.to_nat size)%nat).
  - rewrite lookup_replicate_2 by done. rewrite <- (Nat2Z.id i) at 1. apply Ha. lia.
  - rewrite !lookup_ge_None_2; [done|rewrite length_replicate; lia|lia].
Qed.
