(* ===== verification/Memory.v ===== *)
(** * The flat byte memory

    Kernel and user code share one linear address space.  A memory maps an
    address to a byte; a cell that was never written holds 0, as the .bss
    section does.  Two memories are equivalent when they hold the same bytes,
    which is coarser than equality of the maps. *)

From S2P Require Import Prelude.
From Stdlib Require Export Strings.Byte.

Abbreviation byte := Init.Byte.byte.

Definition Z_of_byte (b : byte) : Z := Z.of_N (Byte.to_N b).
Definition byte_of_Z (z : Z) : byte := default x00 (Byte.of_N (Z.to_N (u8 z))).

Lemma Z_of_byte_range b : 0 ≤ Z_of_byte b < 256.
Proof. unfold Z_of_byte. pose proof (Byte.to_N_bounded b). lia. Qed.

Lemma Z_of_byte_of_Z z : Z_of_byte (byte_of_Z z) = u8 z.
Proof.
  unfold byte_of_Z, Z_of_byte. pose proof (u8_range z).
  destruct (Byte.of_N (Z.to_N (u8 z))) as [b|] eqn:E; cbn.
  - apply Byte.to_of_N in E. rewrite E. lia.
  - apply Byte.of_N_None_iff in E. lia.
Qed.

Record mem := Mem { cells : gmap Z byte }.

Definition rd (m : mem) (a : Z) : Z := Z_of_byte (default x00 (cells m !! a)).
Definition wr (m : mem) (a v : Z) : mem := Mem (<[a := byte_of_Z v]> (cells m)).
Definition mem0 : mem := Mem ∅.

(** 32-bit little-endian words. *)
Definition rd32 (m : mem) (a : Z) : Z :=
  rd m a + 256 * rd m (a + 1) + 65536 * rd m (a + 2) + 16777216 * rd m (a + 3).
Definition wr32 (m : mem) (a v : Z) : mem :=
  wr (wr (wr (wr m a v) (a + 1) (v / 256)) (a + 2) (v / 65536)) (a + 3) (v / 16777216).

(** ** Reading back *)

Lemma rd_range m a : 0 ≤ rd m a < 256.
Proof. apply Z_of_byte_range. Qed.

Lemma rd_wr m a v b : rd (wr m a v) b = if b =? a then u8 v else rd m b.
Proof.
  unfold rd, wr; cbn [cells]. destruct (Z.eqb_spec b a) as [->|].
  - rewrite lookup_insert_eq. apply Z_of_byte_of_Z.
  - by rewrite lookup_insert_ne.
Qed.

Lemma rd_wr_eq m a v : rd (wr m a v) a = u8 v.
Proof. by rewrite rd_wr, Z.eqb_refl. Qed.
Lemma rd_wr_ne m a v b : a ≠ b → rd (wr m a v) b = rd m b.
Proof. intros. rewrite rd_wr. case_z; [lia|done]. Qed.

Lemma rd_u8 m a : u8 (rd m a) = rd m a.
Proof. apply u8_small, rd_range. Qed.

Lemma rd_mem0 a : rd mem0 a = 0.
Proof. reflexivity. Qed.

Lemma rd_cells m a : rd m a = Z_of_byte (default x00 (cells m !! a)).
Proof. reflexivity. Qed.

#[global] Opaque rd wr.

#[export] Hint Resolve rd_range : machine.
#[export] Hint Rewrite rd_wr_eq rd_u8 : machine.
#[export] Hint Rewrite rd_wr_ne using lia : machine.

Lemma rd32_range m a : 0 ≤ rd32 m a < 4294967296.
Proof.
  unfold rd32. pose proof (rd_range m a). pose proof (rd_range m (a + 1)).
  pose proof (rd_range m (a + 2)). pose proof (rd_range m (a + 3)). lia.
Qed.

Lemma rd32_wr32_eq m a v : rd32 (wr32 m a v) a = u32 v.
Proof.
  unfold rd32, wr32. mach. unfold u8, u32. zlia.
Qed.

Lemma rd_wr32_ne m a v b : b < a ∨ a + 4 ≤ b → rd (wr32 m a v) b = rd m b.
Proof. intros. unfold wr32. by mach. Qed.

Lemma rd32_wr32_ne m a v b :
  b + 4 ≤ a ∨ a + 4 ≤ b → rd32 (wr32 m a v) b = rd32 m b.
Proof. intros. unfold rd32. rewrite !rd_wr32_ne by lia. done. Qed.

Lemma rd32_wr_ne m a v b : a < b ∨ b + 4 ≤ a → rd32 (wr m a v) b = rd32 m b.
Proof. intros. unfold rd32. by mach. Qed.

#[export] Hint Resolve rd32_range : machine.
#[export] Hint Rewrite rd32_wr32_eq : machine.
#[export] Hint Rewrite rd_wr32_ne rd32_wr32_ne rd32_wr_ne using lia : machine.

(** ** Equivalent memories *)

#[export] Instance mem_equiv : Equiv mem := λ m1 m2, ∀ a, rd m1 a = rd m2 a.

#[export] Instance mem_equivalence : Equivalence (≡@{mem}).
Proof.
  split.
  - by intros m a.
  - intros m1 m2 H a. symmetry. apply H.
  - intros m1 m2 m3 H12 H23 a. by rewrite (H12 a), (H23 a).
Qed.

#[export] Instance rd_proper : Proper ((≡) ==> eq ==> eq) rd.
Proof. intros m1 m2 Hm a _ <-. apply Hm. Qed.

#[export] Instance rd32_proper : Proper ((≡) ==> eq ==> eq) rd32.
Proof. intros m1 m2 Hm a _ <-. unfold rd32. by rewrite !Hm. Qed.

#[export] Instance wr_proper : Proper ((≡) ==> eq ==> eq ==> (≡)) wr.
Proof. intros m1 m2 Hm a _ <- v _ <- b. rewrite !rd_wr. by rewrite Hm. Qed.

#[export] Instance wr32_proper : Proper ((≡) ==> eq ==> eq ==> (≡)) wr32.
Proof. intros m1 m2 Hm a _ <- v _ <-. unfold wr32. by rewrite Hm. Qed.

(** ** Blocks of bytes *)

Abbreviation zlen l := (Z.of_nat (length l)).

Definition bytes (m : mem) (a n : Z) : list Z := (λ i, rd m (a + i)) <$> seqZ 0 n.

Fixpoint wr_bytes (m : mem) (a : Z) (l : list Z) : mem :=
  match l with
  | [] => m
  | v :: l' => wr_bytes (wr m a v) (a + 1) l'
  end.

Lemma zlen_cons {A} (x : A) l : zlen (x :: l) = 1 + zlen l.
Proof. cbn. lia. Qed.
Lemma zlen_app {A} (l1 l2 : list A) : zlen (l1 ++ l2) = zlen l1 + zlen l2.
Proof. rewrite length_app. lia. Qed.
Lemma zlen_bytes m a n : 0 ≤ n → zlen (bytes m a n) = n.
Proof. intros. unfold bytes. rewrite length_fmap, length_seqZ. lia. Qed.
Lemma zlen_replicate {A} n (x : A) : 0 ≤ n → zlen (replicate (Z.to_nat n) x) = n.
Proof. intros. rewrite length_replicate. lia. Qed.

#[export] Hint Rewrite @zlen_cons @zlen_app @length_fmap : machine.
#[export] Hint Rewrite zlen_bytes @zlen_replicate using lia : machine.

Lemma bytes_0 m a n : n ≤ 0 → bytes m a n = [].
Proof. intros. unfold bytes. by rewrite seqZ_nil. Qed.

Lemma seqZ_shift_ext {A} (f g : Z → A) a b n k :
  n = k → (∀ i, 0 ≤ i < n → f (a + i) = g (b + i)) →
  f <$> seqZ a n = g <$> seqZ b k.
Proof.
  intros <- Hfg. apply list_eq. intros i. rewrite !list_lookup_fmap.
  destruct (decide (Z.of_nat i < n)).
  - rewrite !lookup_seqZ_lt by lia. cbn. f_equal. apply Hfg. lia.
  - by rewrite !lookup_seqZ_ge by lia.
Qed.

Lemma bytes_cons m a n : 0 < n → bytes m a n = rd m a :: bytes m (a + 1) (n - 1).
Proof.
  intros. unfold bytes. rewrite (seqZ_cons 0 n), fmap_cons by lia.
  f_equal; [f_equal; lia|]. apply seqZ_shift_ext; [lia|]. intros. f_equal. lia.
Qed.

Lemma bytes_app m a n k : 0 ≤ n → 0 ≤ k →
  bytes m a (n + k) = bytes m a n ++ bytes m (a + n) k.
Proof.
  intros. unfold bytes. rewrite seqZ_app, fmap_app by lia. f_equal.
  apply seqZ_shift_ext; [lia|]. intros. f_equal. lia.
Qed.

Lemma bytes_snoc m a n : 0 ≤ n → bytes m a (n + 1) = bytes m a n ++ [rd m (a + n)].
Proof.
  intros. rewrite bytes_app by lia. f_equal. rewrite bytes_cons, bytes_0 by lia. done.
Qed.

Lemma bytes_ext m1 m2 a1 a2 n :
  (∀ i, 0 ≤ i < n → rd m1 (a1 + i) = rd m2 (a2 + i)) → bytes m1 a1 n = bytes m2 a2 n.
Proof.
  intros Hrd. unfold bytes. apply list_fmap_ext. intros i x Hx.
  apply lookup_seqZ in Hx. apply Hrd. lia.
Qed.

Lemma lookup_bytes m a n i :
  0 ≤ i < n → bytes m a n !! Z.to_nat i = Some (rd m (a + i)).
Proof.
  intros. unfold bytes. rewrite list_lookup_fmap, lookup_seqZ_lt by lia.
  cbn. do 2 f_equal. lia.
Qed.

Lemma bytes_eq_lookup m a (l : list Z) i c :
  bytes m a (zlen l) = l → 0 ≤ i → l !! Z.to_nat i = Some c → rd m (a + i) = c.
Proof.
  intros Hl Hi Hc. pose proof (lookup_lt_Some _ _ _ Hc).
  rewrite <- Hl in Hc. rewrite lookup_bytes in Hc by lia. congruence.
Qed.

Lemma bytes_range m a n : Forall (λ c, 0 ≤ c < 256) (bytes m a n).
Proof. unfold bytes. apply Forall_fmap, Forall_true. intros; apply rd_range. Qed.

Lemma rd_wr_bytes m a l b :
  rd (wr_bytes m a l) b =
    if (a <=? b) && (b <? a + zlen l) then u8 (l !!! Z.to_nat (b - a)) else rd m b.
Proof.
  revert m a; induction l as [|v l IH]; intros m a; cbn [wr_bytes]; mach.
  - cbn [length]. case_z; cbn [andb]; try lia; done.
  - rewrite IH, rd_wr. case_z; cbn [andb]; try lia; try done.
    + by replace (Z.to_nat (b - a)) with O by lia.
    + by replace (Z.to_nat (b - a)) with (S (Z.to_nat (b - (a + 1)))) by lia.
Qed.

(** ** Frames *)

(** [m'] differs from [m] at most on the [n] bytes from [lo] on. *)
Definition same_except (lo n : Z) (m m' : mem) : Prop :=
  ∀ a, ¬ (lo ≤ a < lo + n) → rd m' a = rd m a.

Definition disjoint_regions (a n b k : Z) : Prop := a + n ≤ b ∨ b + k ≤ a.

Lemma same_except_refl lo n m : same_except lo n m m.
Proof. by intros a. Qed.
Lemma same_except_trans lo n m1 m2 m3 :
  same_except lo n m1 m2 → same_except lo n m2 m3 → same_except lo n m1 m3.
Proof. intros H12 H23 a Ha. by rewrite H23, H12. Qed.
Lemma same_except_weaken lo n lo' n' m m' :
  same_except lo n m m' → lo' ≤ lo → lo + n ≤ lo' + n' → same_except lo' n' m m'.
Proof. intros H ?? a Ha. apply H. lia. Qed.
Lemma same_except_wr lo n m a v : lo ≤ a < lo + n → same_except lo n m (wr m a v).
Proof. intros ? b Hb. apply rd_wr_ne. lia. Qed.
Lemma same_except_wr32 lo n m a v :
  lo ≤ a → a + 4 ≤ lo + n → same_except lo n m (wr32 m a v).
Proof. intros ?? b Hb. apply rd_wr32_ne. lia. Qed.

Lemma same_except_rd lo n m m' a :
  same_except lo n m m' → a < lo ∨ lo + n ≤ a → rd m' a = rd m a.
Proof. intros H ?. apply H. lia. Qed.
Lemma same_except_rd32 lo n m m' a :
  same_except lo n m m' → disjoint_regions lo n a 4 → rd32 m' a = rd32 m a.
Proof.
  unfold disjoint_regions. intros H ?. unfold rd32.
  by rewrite !(same_except_rd lo n m m') by (done || lia).
Qed.
Lemma same_except_bytes lo n m m' a k :
  same_except lo n m m' → disjoint_regions lo n a k → bytes m' a k = bytes m a k.
Proof.
  unfold disjoint_regions. intros H ?. apply bytes_ext. intros i Hi.
  apply (same_except_rd lo n); [done|lia].
Qed.

(** ** C strings *)

(** [cstr m s l]: the bytes from [s] on are [l], none of them 0, and a 0. *)
Definition cstr (m : mem) (s : Z) (l : list Z) : Prop :=
  Forall (λ c, c ≠ 0) l ∧ bytes m s (zlen l) = l ∧ rd m (s + zlen l) = 0.

#[export] Instance cstr_dec m s l : Decision (cstr m s l).
Proof. apply _. Defined.

Lemma cstr_char m s l i :
  cstr m s l → 0 ≤ i < zlen l →
  l !! Z.to_nat i = Some (rd m (s + i)) ∧ rd m (s + i) ≠ 0.
Proof.
  intros (Hnz & Hb & _) Hi.
  assert (l !! Z.to_nat i = Some (rd m (s + i))) as Hl.
  { rewrite <- Hb at 1. by apply lookup_bytes. }
  split; [done|]. by apply (Forall_lookup_1 _ _ _ _ Hnz Hl).
Qed.

Lemma cstr_end m s l : cstr m s l → rd m (s + zlen l) = 0.
Proof. by intros (_ & _ & ?). Qed.

Lemma cstr_nil m s : cstr m s [] ↔ rd m s = 0.
Proof.
  unfold cstr. cbn [length]. rewrite Z.add_0_r. split; [by intros (_ & _ & ?)|].
  intros; split_and!; [constructor | by apply bytes_0 | done].
Qed.

Lemma cstr_cons m s c l :
  cstr m s (c :: l) ↔ rd m s = c ∧ c ≠ 0 ∧ cstr m (s + 1) l.
Proof.
  unfold cstr. mach. rewrite bytes_cons by lia.
  replace (1 + zlen l - 1) with (zlen l) by lia.
  replace (s + (1 + zlen l)) with (s + 1 + zlen l) by lia.
  rewrite Forall_cons. naive_solver congruence.
Qed.

(** A string is determined by its address. *)
Lemma cstr_unique m s l1 l2 : cstr m s l1 → cstr m s l2 → l1 = l2.
Proof.
  revert s l2; induction l1 as [|c1 l1 IH]; intros s [|c2 l2].
  - done.
  - rewrite cstr_nil, cstr_cons. intros ? (? & ? & _). congruence.
  - rewrite cstr_nil, cstr_cons. intros (? & ? & _). congruence.
  - rewrite !cstr_cons. intros (? & _ & H1) (? & _ & H2). f_equal; [congruence|].
    by apply (IH (s + 1)).
Qed.

Lemma cstr_frame lo n m m' s l :
  same_except lo n m m' → disjoint_regions lo n s (zlen l + 1) →
  cstr m s l → cstr m' s l.
Proof.
  intros Hs Hd (? & Hb & He). unfold disjoint_regions in Hd. split_and!; [done| |].
  - rewrite (same_except_bytes lo n m m') by (done || unfold disjoint_regions; lia). done.
  - rewrite (same_except_rd lo n m m') by (done || lia). done.
Qed.

#[export] Instance bytes_proper : Proper ((≡) ==> eq ==> eq ==> eq) bytes.
Proof. intros m1 m2 Hm a _ <- n _ <-. apply bytes_ext. intros; apply Hm. Qed.

#[export] Instance cstr_proper : Proper ((≡) ==> eq ==> eq ==> iff) cstr.
Proof. intros m1 m2 Hm s _ <- l _ <-. unfold cstr. by rewrite Hm. Qed.

(** ** Overlays: the shape of a block write

    [mk] is [m] with the [k] bytes from [s] on replaced by [g 0 .. g (k-1)]. *)
Definition overlay (s k : Z) (g : Z → Z) (m mk : mem) : Prop :=
  ∀ b, rd mk b = if (s <=? b) && (b <? s + k) then g (b - s) else rd m b.

Lemma overlay_0 s g m : overlay s 0 g m m.
Proof. intros b. case_z; cbn; [lia|done..]. Qed.

Lemma overlay_in s k g m mk b :
  overlay s k g m mk → s ≤ b < s + k → rd mk b = g (b - s).
Proof. intros H ?. rewrite H. case_z; cbn; [done|lia..]. Qed.

Lemma overlay_out s k g m mk b :
  overlay s k g m mk → b < s ∨ s + k ≤ b → rd mk b = rd m b.
Proof. intros H ?. rewrite H. case_z; cbn; [lia|done..]. Qed.

Lemma overlay_same_except s k g m mk : overlay s k g m mk → same_except s k m mk.
Proof. intros H b ?. apply (overlay_out s k g); [done|lia]. Qed.

Lemma overlay_wr s k g m mk a v :
  overlay s k g m mk → 0 ≤ k → a = s + k → g k = u8 v →
  overlay s (k + 1) g m (wr mk a v).
Proof.
  intros H ? -> Hg b. rewrite rd_wr, H. case_z; cbn; try lia; try done.
  by replace (b - s) with k by lia.
Qed.

Lemma overlay_wr32 s k g m mk a v :
  overlay s k g m mk → 0 ≤ k → a = s + k →
  (∀ i, 0 ≤ i < 4 → g (k + i) = u8 (v / 256 ^ i)) →
  overlay s (k + 4) g m (wr32 mk a v).
Proof.
  intros H ? -> Hg. unfold wr32.
  replace (k + 4) with (k + 1 + 1 + 1 + 1) by lia.
  apply overlay_wr; [apply overlay_wr; [apply overlay_wr; [apply overlay_wr|..]|..]|..];
    try lia; [done|..].
  - rewrite <- (Z.add_0_r k), Hg by lia. by rewrite Z.pow_0_r, Z.div_1_r.
  - by rewrite Hg by lia.
  - rewrite <- Z.add_assoc, Hg by lia. done.
  - rewrite <- !Z.add_assoc, Hg by lia. done.
Qed.

(** The byte [i] of a loaded word. *)
Lemma rd32_byte m a i : 0 ≤ i < 4 → u8 (rd32 m a / 256 ^ i) = rd m (a + i).
Proof.
  intros Hi. unfold rd32, u8. pose proof (rd_range m a). pose proof (rd_range m (a + 1)).
  pose proof (rd_range m (a + 2)). pose proof (rd_range m (a + 3)).
  assert (i = 0 ∨ i = 1 ∨ i = 2 ∨ i = 3) as [-> | [-> | [-> | ->]]] by lia;
    rewrite ?Z.add_0_r; cbn [Z.pow Z.pow_pos Pos.iter Z.mul Pos.mul]; zlia.
Qed.

Lemma overlay_wr_bytes s l m mk :
  overlay s (zlen l) (λ i, u8 (l !!! Z.to_nat i)) m mk ↔ mk ≡ wr_bytes m s l.
Proof. split; intros H b; [rewrite rd_wr_bytes; apply H | by rewrite H, rd_wr_bytes]. Qed.

Lemma overlay_ext s k g1 g2 m mk :
  overlay s k g1 m mk → (∀ i, 0 ≤ i < k → g1 i = g2 i) → overlay s k g2 m mk.
Proof. intros H Hg b. rewrite H. case_z; cbn; [apply Hg; lia|done..]. Qed.

(** What a block write of [l ++ [0]] at [d] establishes. *)
Lemma wr_bytes_same_except m a l m' :
  m' ≡ wr_bytes m a l → same_except a (zlen l) m m'.
Proof. intros H%overlay_wr_bytes. by eapply overlay_same_except. Qed.

Lemma wr_bytes_read m a l m' :
  m' ≡ wr_bytes m a l → Forall (λ c, 0 ≤ c < 256) l → bytes m' a (zlen l) = l.
Proof.
  intros H%overlay_wr_bytes Hl. apply list_eq. intros i.
  destruct (decide (i < length l)%nat) as [Hi|Hi].
  - destruct (lookup_lt_is_Some_2 l i Hi) as [c Hc].
    rewrite <- (Nat2Z.id i) at 1. rewrite lookup_bytes by lia.
    rewrite (overlay_in _ _ _ _ _ _ H) by lia.
    replace (a + Z.of_nat i - a) with (Z.of_nat i) by lia.
    rewrite Nat2Z.id, (list_lookup_total_correct _ _ _ Hc), u8_small; [done|].
    by apply (Forall_lookup_1 _ _ _ _ Hl Hc).
  - rewrite !lookup_ge_None_2; [done|lia|].
    unfold bytes. rewrite length_fmap, length_seqZ. lia.
Qed.

Lemma wr_bytes_cstr m d l m' :
  Forall (λ c, 0 < c < 256) l → m' ≡ wr_bytes m d (l ++ [0]) → cstr m' d l.
Proof.
  intros Hl Hm'. apply wr_bytes_read in Hm'.
  2: { apply Forall_app; split; [|repeat constructor; lia].
       eapply Forall_impl; [done|]. intros; cbn in *; lia. }
  rewrite zlen_app in Hm'. change (zlen [0]) with 1 in Hm'. rewrite bytes_snoc in Hm' by lia.
  apply app_inj_tail in Hm' as [Hb He].
  split_and!; [|done|done]. eapply Forall_impl; [done|]. intros; cbn in *; lia.
Qed.

#[export] Instance wr_bytes_proper : Proper ((≡) ==> eq ==> eq ==> (≡)) wr_bytes.
Proof. intros m1 m2 Hm a _ <- l _ <- b. rewrite !rd_wr_bytes. by rewrite Hm. Qed.

Lemma wr_bytes_app m a l1 l2 :
  wr_bytes m a (l1 ++ l2) = wr_bytes (wr_bytes m a l1) (a + zlen l1) l2.
Proof.
  revert m a; induction l1 as [|c l1 IH]; intros m a; cbn [app wr_bytes].
  - f_equal. cbn. lia.
  - rewrite IH. f_equal. cbn [length]. lia.
Qed.

(** Rewriting the first bytes of a block that was just written. *)
Lemma wr_bytes_overwrite m a l1 l2 t :
  length l1 = length l2 → wr_bytes (wr_bytes m a (l1 ++ t)) a l2 ≡ wr_bytes m a (l2 ++ t).
Proof.
  intros Hlen b. rewrite !rd_wr_bytes, !zlen_app, Hlen.
  destruct (decide (b < a + zlen l2)).
  - case_z; cbn [andb]; try lia; try done. f_equal.
    rewrite !list_lookup_total_alt, lookup_app_l by lia. done.
  - case_z; cbn [andb]; try lia; try done. f_equal.
    rewrite !list_lookup_total_alt, !lookup_app_r by lia. by rewrite Hlen.
Qed.

(** ** Several regions

    A region is its first address and its size. *)

Definition inside (r : Z * Z) (a : Z) : Prop := fst r ≤ a < fst r + snd r.

(** [m'] differs from [m] at most inside the regions [rs]. *)
Definition changes_only (rs : list (Z * Z)) (m m' : mem) : Prop :=
  ∀ a, Forall (λ r, ¬ inside r a) rs → rd m' a = rd m a.

Definition apart (r s : Z * Z) : Prop := disjoint_regions (fst r) (snd r) (fst s) (snd s).

#[export] Instance apart_dec r s : Decision (apart r s).
Proof. unfold apart, disjoint_regions. apply _. Defined.

(** Pairwise disjoint regions. *)
Fixpoint separate (rs : list (Z * Z)) : Prop :=
  match rs with
  | [] => True
  | r :: rs' => Forall (apart r) rs' ∧ separate rs'
  end.

#[export] Instance separate_dec rs : Decision (separate rs).
Proof. induction rs as [|r rs IH]; cbn; apply _. Defined.

Lemma apart_sym r s : apart r s → apart s r.
Proof. unfold apart, disjoint_regions. lia. Qed.

Lemma separate_apart rs i j r s :
  separate rs → rs !! i = Some r → rs !! j = Some s → i ≠ j → apart r s.
Proof.
  revert i j; induction rs as [|q rs IH]; intros i j Hs Hi Hj Hne; [done|].
  destruct Hs as [Hq Hrs].
  destruct i as [|i], j as [|j]; cbn in Hi, Hj; simplify_eq.
  - by apply (Forall_lookup_1 _ _ _ _ Hq Hj).
  - apply apart_sym. by apply (Forall_lookup_1 _ _ _ _ Hq Hi).
  - apply (IH i j); done || lia.
Qed.

(** A region is apart from those before it. *)
Lemma separate_before rs i r : separate rs → rs !! i = Some r → Forall (apart r) (take i rs).
Proof.
  intros Hs Hr. apply Forall_lookup_2. intros j s Hj.
  apply lookup_take_Some in Hj as [Hj Hlt]. by apply (separate_apart rs i j); [..|lia].
Qed.

Lemma changes_only_refl rs m : changes_only rs m m.
Proof. by intros a. Qed.
Lemma changes_only_trans rs m1 m2 m3 :
  changes_only rs m1 m2 → changes_only rs m2 m3 → changes_only rs m1 m3.
Proof. intros H12 H23 a Ha. by rewrite H23, H12. Qed.
Lemma changes_only_mono rs rs' m m' : changes_only rs m m' → rs ⊆ rs' → changes_only rs' m m'.
Proof. intros H Hsub a Ha. apply H. rewrite Forall_forall in *. eauto. Qed.
Lemma same_except_changes lo n m m' rs :
  same_except lo n m m' → (lo, n) ∈ rs → changes_only rs m m'.
Proof. intros H Hin a Ha. apply H. rewrite Forall_forall in Ha. by apply (Ha (lo, n)). Qed.
Lemma wr_changes rs r m a v : r ∈ rs → inside r a → changes_only rs m (wr m a v).
Proof.
  intros Hr Ha b Hb. apply rd_wr_ne. intros ->. rewrite Forall_forall in Hb. by apply (Hb r).
Qed.
Lemma wr32_changes rs r m a v :
  r ∈ rs → fst r ≤ a → a + 4 ≤ fst r + snd r → changes_only rs m (wr32 m a v).
Proof.
  intros Hr Ha1 Ha2 b Hb. apply rd_wr32_ne. rewrite Forall_forall in Hb.
  specialize (Hb r Hr). unfold inside in Hb. lia.
Qed.

(** What is apart from the changed regions stays. *)
Lemma changes_rd rs m m' a : changes_only rs m m' → Forall (λ r, ¬ inside r a) rs → rd m' a = rd m a.
Proof. intros H. apply H. Qed.

Lemma apart_not_inside rs a n b :
  Forall (apart (a, n)) rs → a ≤ b < a + n → Forall (λ r, ¬ inside r b) rs.
Proof.
  intros Ha Hb. eapply Forall_impl; [exact Ha|]. intros r Hr.
  unfold apart, disjoint_regions, inside in *. cbn in Hr. lia.
Qed.

Lemma changes_same_bytes rs m m' a n :
  changes_only rs m m' → Forall (apart (a, n)) rs → bytes m' a n = bytes m a n.
Proof.
  intros H Ha. apply bytes_ext. intros i Hi. apply H. eapply apart_not_inside; [exact Ha|lia].
Qed.

Lemma changes_same_rd32 rs m m' a n b :
  changes_only rs m m' → Forall (apart (a, n)) rs → a ≤ b → b + 4 ≤ a + n →
  rd32 m' b = rd32 m b.
Proof.
  intros H Ha Hb1 Hb2. unfold rd32.
  by rewrite !(changes_rd rs m m') by (done || (eapply apart_not_inside; [exact Ha|lia])).
Qed.

Lemma changes_same_cstr rs m m' s l :
  changes_only rs m m' → Forall (apart (s, zlen l + 1)) rs → cstr m s l → cstr m' s l.
Proof.
  intros H Ha (Hnz & Hb & He). split_and!; [done| |].
  - rewrite <- Hb at 2. apply (changes_same_bytes rs); [done|].
    eapply Forall_impl; [exact Ha|]. unfold apart, disjoint_regions. cbn. intros; lia.
  - rewrite <- He. apply H. eapply apart_not_inside; [exact Ha|lia].
Qed.

(** A part of a region is apart from what the region is apart from. *)
Lemma apart_part a n b k r : apart (a, n) r → a ≤ b → b + k ≤ a + n → apart (b, k) r.
Proof. unfold apart, disjoint_regions. cbn. lia. Qed.
