(* ===== verification/LibMem.v ===== *)
(** * lib.c: block operations

    memset, memset_word, memset_dword, memcpy and memmove are inline
    assembly.  Each is modelled instruction by instruction on the registers it
    uses, and proved equal to the byte-wise reference. *)

From S2P Require Import Prelude Memory.

(** ** String instructions *)

(** [rep stosl] with DF clear: store EAX at EDI, ECX times. *)
Definition rep_stosl (eax : Z) (m : mem) (edi ecx : Z) : res (mem * Z) :=
  while (λ '(m, edi, ecx),
    if ecx =? 0 then inr (Ok (m, edi))
    else inl (wr32 m edi eax, u32 (edi + 4), u32 (ecx - 1))) (m, edi, ecx).

(** [rep stosw] with DF clear: store AX at EDI, ECX times. *)
Definition rep_stosw (eax : Z) (m : mem) (edi ecx : Z) : res (mem * Z) :=
  while (λ '(m, edi, ecx),
    if ecx =? 0 then inr (Ok (m, edi))
    else inl (wr (wr m edi eax) (edi + 1) (eax / 256), u32 (edi + 2), u32 (ecx - 1)))
    (m, edi, ecx).

(** [rep movsl] with DF clear. *)
Definition rep_movsl (m : mem) (esi edi ecx : Z) : res (mem * Z * Z) :=
  while (λ '(m, esi, edi, ecx),
    if ecx =? 0 then inr (Ok (m, esi, edi))
    else inl (wr32 m edi (rd32 m esi), u32 (esi + 4), u32 (edi + 4), u32 (ecx - 1)))
    (m, esi, edi, ecx).

(** [rep movsb]; [d] is 1 with DF clear and -1 with DF set. *)
Definition rep_movsb (d : Z) (m : mem) (esi edi ecx : Z) : res mem :=
  while (λ '(m, esi, edi, ecx),
    if ecx =? 0 then inr (Ok m)
    else inl (wr m edi (rd m esi), u32 (esi + d), u32 (edi + d), u32 (ecx - 1)))
    (m, esi, edi, ecx).

(** ** memset *)

(** The loop at [.memset_top]: leave at [.memset_done] when ECX is 0, at
    [.memset_aligned] when EDI is a multiple of 4. *)
Definition memset_top (eax : Z) (m : mem) (edi ecx : Z) : res (bool * mem * Z * Z) :=
  while (λ '(m, edi, ecx),
    if ecx =? 0 then inr (Ok (false, m, edi, ecx))
    else if Z.land edi 3 =? 0 then inr (Ok (true, m, edi, ecx))
    else inl (wr m edi eax, u32 (edi + 1), u32 (ecx - 1))) (m, edi, ecx).

(** The loop at [.memset_bottom]. *)
Definition memset_bottom (eax : Z) (m : mem) (edi edx : Z) : res mem :=
  while (λ '(m, edi, edx),
    if edx =? 0 then inr (Ok m)
    else inl (wr m edi eax, u32 (edi + 1), u32 (edx - 1))) (m, edi, edx).

Definition memset (m : mem) (s c n : Z) : res mem :=
  let c := Z.land c 0xFF in
  let eax := Z.lor (Z.lor (Z.lor (Z.shiftl c 24) (Z.shiftl c 16)) (Z.shiftl c 8)) c in
  '(aligned, m, edi, ecx) ← memset_top eax m s n;
  if aligned : bool then
    '(m, edi) ← rep_stosl eax m edi (Z.shiftr ecx 2);
    memset_bottom eax m edi (Z.land ecx 3)
  else Ok m.

Definition memset_word (m : mem) (s c n : Z) : res mem :=
  '(m, _) ← rep_stosw c m s n; Ok m.

Definition memset_dword (m : mem) (s c n : Z) : res mem :=
  '(m, _) ← rep_stosl c m s n; Ok m.

(** ** memcpy and memmove *)

Definition memcpy_top (m : mem) (esi edi ecx : Z) : res (bool * mem * Z * Z * Z) :=
  while (λ '(m, esi, edi, ecx),
    if ecx =? 0 then inr (Ok (false, m, esi, edi, ecx))
    else if Z.land edi 3 =? 0 then inr (Ok (true, m, esi, edi, ecx))
    else inl (wr m edi (rd m esi), u32 (esi + 1), u32 (edi + 1), u32 (ecx - 1)))
    (m, esi, edi, ecx).

Definition memcpy_bottom (m : mem) (esi edi edx : Z) : res mem :=
  while (λ '(m, esi, edi, edx),
    if edx =? 0 then inr (Ok m)
    else inl (wr m edi (rd m esi), u32 (esi + 1), u32 (edi + 1), u32 (edx - 1)))
    (m, esi, edi, edx).

Definition memcpy (m : mem) (dest src n : Z) : res mem :=
  '(aligned, m, esi, edi, ecx) ← memcpy_top m src dest n;
  if aligned : bool then
    '(m, esi, edi) ← rep_movsl m esi edi (Z.shiftr ecx 2);
    memcpy_bottom m esi edi (Z.land ecx 3)
  else Ok m.

(** The result and the direction flag the routine returns with: [std] is
    executed on the backward path and nothing clears DF again. *)
Definition memmove (m : mem) (dest src n : Z) : res (mem * bool) :=
  if dest <=? src then m' ← rep_movsb 1 m src dest n; Ok (m', false)
  else m' ← rep_movsb (-1) m (u32 (src + n - 1)) (u32 (dest + n - 1)) n; Ok (m', true).

(** ** The loops fill a prefix of the block *)

Section fill.
Context (m0 : mem) (s eax n : Z) (Hs : 0 ≤ s) (Hn : s + n < 4294967296).

Lemma memset_top_spec :
  0 ≤ n →
  returns (memset_top eax m0 s n) (λ '(b, m, edi, ecx), ∃ k,
    edi = s + k ∧ ecx = n - k ∧ 0 ≤ k ≤ n ∧ overlay s k (λ _, u8 eax) m0 m ∧
    (b = false → k = n)).
Proof.
  intros Hpos. unfold memset_top.
  apply while_total with
    (I := λ '(m, edi, ecx), ∃ k,
            edi = s + k ∧ ecx = n - k ∧ 0 ≤ k ≤ n ∧ overlay s k (λ _, u8 eax) m0 m)
    (V := λ '(m, edi, ecx), ecx).
  - exists 0. split_and!; try lia. apply overlay_0.
  - lia.
  - intros [[m edi] ecx] (k & -> & -> & Hk & Hm). case_z.
    + apply returns_Ok. exists k. side.
    + apply returns_Ok. exists k. side.
    + mach. split; [exists (k + 1)|lia].
      split_and!; try lia. apply overlay_wr; side.
Qed.

Lemma memset_bottom_spec m k :
  0 ≤ k ≤ n → overlay s k (λ _, u8 eax) m0 m →
  returns (memset_bottom eax m (s + k) (n - k)) (overlay s n (λ _, u8 eax) m0).
Proof.
  intros Hk Hm. unfold memset_bottom.
  apply while_total with
    (I := λ '(m, edi, edx), ∃ k,
            edi = s + k ∧ edx = n - k ∧ 0 ≤ k ≤ n ∧ overlay s k (λ _, u8 eax) m0 m)
    (V := λ '(m, edi, edx), edx); [by exists k | lia |].
  clear k m Hk Hm. intros [[m edi] edx] (k & -> & -> & Hk & Hm). case_z.
  - apply returns_Ok. by replace n with k by lia.
  - mach. split; [exists (k + 1)|lia]. split_and!; try lia. apply overlay_wr; side.
Qed.

Lemma rep_stosl_spec m k c (g : Z → Z) :
  0 ≤ c → 0 ≤ k → k + 4 * c ≤ n → overlay s k g m0 m →
  (∀ q i, 0 ≤ q < c → 0 ≤ i < 4 → g (k + 4 * q + i) = u8 (eax / 256 ^ i)) →
  returns (rep_stosl eax m (s + k) c)
    (λ '(m, edi), edi = s + (k + 4 * c) ∧ overlay s (k + 4 * c) g m0 m).
Proof.
  intros Hc Hk Hkn Hm Hg. unfold rep_stosl.
  apply while_total with
    (I := λ '(m, edi, ecx), ∃ q, edi = s + (k + 4 * q) ∧ ecx = c - q ∧ 0 ≤ q ≤ c ∧
            overlay s (k + 4 * q) g m0 m)
    (V := λ '(m, edi, ecx), ecx).
  - exists 0. split_and!; try lia. by replace (k + 4 * 0) with k by lia.
  - lia.
  - intros [[m' edi] ecx] (q & -> & -> & Hq & Hm'). case_z.
    + apply returns_Ok. by replace c with q by lia.
    + mach. split; [exists (q + 1)|lia]. split_and!; try lia.
      replace (k + 4 * (q + 1)) with (k + 4 * q + 4) by lia.
      apply overlay_wr32; side.
Qed.
End fill.

(** The word that repeats the byte [c], byte by byte. *)
Definition splat (c : Z) : Z :=
  Z.lor (Z.lor (Z.lor (Z.shiftl c 24) (Z.shiftl c 16)) (Z.shiftl c 8)) c.

Lemma splat_bytes c i : 0 ≤ c < 256 → 0 ≤ i < 4 → u8 (splat c / 256 ^ i) = c.
Proof.
  intros Hc Hi.
  assert (Forall (λ c, Forall (λ i, u8 (splat c / 256 ^ i) = c) (seqZ 0 4)) (seqZ 0 256))
    as Hall by by_decide.
  rewrite Forall_forall in Hall. specialize (Hall c). rewrite Forall_forall in Hall.
  apply Hall; apply elem_of_seqZ; lia.
Qed.

Lemma land_255 c : Z.land c 0xFF = u8 c.
Proof. change 0xFF with (Z.ones 8). by rewrite Z.land_ones by lia. Qed.

(** The split of a count into words and remaining bytes. *)
Lemma words_and_bytes n : 0 ≤ n →
  4 * Z.shiftr n 2 + Z.land n 3 = n ∧ 0 ≤ Z.shiftr n 2 ∧ 0 ≤ Z.land n 3 < 4.
Proof.
  intros. change 3 with (Z.ones 2). rewrite Z.land_ones, Z.shiftr_div_pow2 by lia.
  change (2 ^ 2) with 4. zlia.
Qed.

(** memset as the routine computes it, in terms of the overlay. *)
Lemma memset_overlay m s c n :
  0 ≤ s → 0 ≤ n → s + n < 4294967296 →
  returns (memset m s c n) (overlay s n (λ _, u8 c) m).
Proof.
  intros Hs Hn Hsn. unfold memset. rewrite land_255. fold (splat (u8 c)).
  pose proof (u8_range c) as Hc.
  assert (u8 (splat (u8 c)) = u8 c) as Hlow.
  { rewrite <- (splat_bytes (u8 c) 0) at 2 by lia. by rewrite Z.pow_0_r, Z.div_1_r. }
  eapply returns_bind; [by apply memset_top_spec|].
  intros [[[[] m1] edi] ecx] (k & -> & -> & Hk & Hm1 & Hdone).
  - destruct (words_and_bytes (n - k)) as (Hsum & Hw & Hb); [lia|].
    eapply returns_bind.
    { eapply (rep_stosl_spec m s _ n); try done; try lia.
      intros q i _ Hi. cbn. by rewrite Hlow, splat_bytes. }
    intros [m2 edi] [-> Hm2]. cbn beta iota.
    replace (Z.land (n - k) 3) with (n - (k + 4 * Z.shiftr (n - k) 2)) by lia.
    eapply returns_mono; [apply memset_bottom_spec; try done; lia|].
    intros m3 Hm3. eapply overlay_ext; [done|]. by intros.
  - apply returns_Ok. rewrite Hdone in Hm1 by done.
    eapply overlay_ext; [done|]. by intros.
Qed.

(** ** The copying loops *)

Section copy.
Context (m0 : mem) (dest src n : Z).
Context (Hd : 0 ≤ dest) (Hdn : dest + n < 4294967296).
Context (Hs : 0 ≤ src) (Hsn : src + n < 4294967296).

(** [k] bytes copied upwards. *)
Definition copied (k : Z) : mem → mem → Prop := overlay dest k (λ i, rd m0 (src + i)).

(** What is left of the source is intact while copying upwards, when the
    destination does not start inside the source. *)
Lemma copied_src m k i :
  dest ≤ src ∨ src + n ≤ dest → copied k m0 m → k ≤ i < n → 0 ≤ k →
  rd m (src + i) = rd m0 (src + i).
Proof. intros ? Hm ??. eapply overlay_out; [done|]. lia. Qed.

Lemma copied_byte m k :
  dest ≤ src ∨ src + n ≤ dest → copied k m0 m → 0 ≤ k < n →
  copied (k + 1) m0 (wr m (dest + k) (rd m (src + k))).
Proof.
  intros ? Hm ?. apply overlay_wr; [done|lia..|].
  mach. symmetry. by apply (copied_src m k); [..|lia|lia].
Qed.

Lemma copied_word m k :
  dest ≤ src ∨ src + n ≤ dest → copied k m0 m → 0 ≤ k → k + 4 ≤ n →
  copied (k + 4) m0 (wr32 m (dest + k) (rd32 m (src + k))).
Proof.
  intros ? Hm ??. apply overlay_wr32; [done|lia..|]. intros i Hi.
  rewrite rd32_byte by lia. rewrite <- Z.add_assoc. symmetry.
  by apply (copied_src m k); [..|lia|lia].
Qed.

Context (Hn : 0 ≤ n) (Hov : dest ≤ src ∨ src + n ≤ dest).

Lemma memcpy_top_spec :
  returns (memcpy_top m0 src dest n) (λ '(b, m, esi, edi, ecx), ∃ k,
    esi = src + k ∧ edi = dest + k ∧ ecx = n - k ∧ 0 ≤ k ≤ n ∧ copied k m0 m ∧
    (b = false → k = n)).
Proof.
  unfold memcpy_top.
  apply while_total with
    (I := λ '(m, esi, edi, ecx), ∃ k, esi = src + k ∧ edi = dest + k ∧ ecx = n - k ∧
            0 ≤ k ≤ n ∧ copied k m0 m)
    (V := λ '(m, esi, edi, ecx), ecx).
  - exists 0. split_and!; try lia. apply overlay_0.
  - lia.
  - intros [[[m esi] edi] ecx] (k & -> & -> & -> & Hk & Hm). case_z.
    + apply returns_Ok. exists k. side.
    + apply returns_Ok. exists k. side.
    + mach. split; [exists (k + 1)|lia]. split_and!; try lia. apply copied_byte; side.
Qed.

Lemma memcpy_bottom_spec m k :
  0 ≤ k ≤ n → copied k m0 m →
  returns (memcpy_bottom m (src + k) (dest + k) (n - k)) (copied n m0).
Proof.
  intros Hk Hm. unfold memcpy_bottom.
  apply while_total with
    (I := λ '(m, esi, edi, edx), ∃ k, esi = src + k ∧ edi = dest + k ∧ edx = n - k ∧
            0 ≤ k ≤ n ∧ copied k m0 m)
    (V := λ '(m, esi, edi, edx), edx); [by exists k | lia |].
  clear k m Hk Hm. intros [[[m esi] edi] edx] (k & -> & -> & -> & Hk & Hm). case_z.
  - apply returns_Ok. by replace n with k by lia.
  - mach. split; [exists (k + 1)|lia]. split_and!; try lia. apply copied_byte; side.
Qed.

Lemma rep_movsl_spec m k c :
  0 ≤ c → 0 ≤ k → k + 4 * c ≤ n → copied k m0 m →
  returns (rep_movsl m (src + k) (dest + k) c) (λ '(m, esi, edi),
    esi = src + (k + 4 * c) ∧ edi = dest + (k + 4 * c) ∧ copied (k + 4 * c) m0 m).
Proof.
  intros Hc Hk Hkn Hm. unfold rep_movsl.
  apply while_total with
    (I := λ '(m, esi, edi, ecx), ∃ q, esi = src + (k + 4 * q) ∧
            edi = dest + (k + 4 * q) ∧ ecx = c - q ∧ 0 ≤ q ≤ c ∧ copied (k + 4 * q) m0 m)
    (V := λ '(m, esi, edi, ecx), ecx).
  - exists 0. split_and!; try lia. by replace (k + 4 * 0) with k by lia.
  - lia.
  - intros [[[m' esi] edi] ecx] (q & -> & -> & -> & Hq & Hm'). case_z.
    + apply returns_Ok. by replace c with q by lia.
    + mach. split; [exists (q + 1)|lia]. split_and!; try lia.
      replace (k + 4 * (q + 1)) with (k + 4 * q + 4) by lia. apply copied_word; side.
Qed.

Lemma memcpy_overlay : returns (memcpy m0 dest src n) (copied n m0).
Proof.
  unfold memcpy. eapply returns_bind; [apply memcpy_top_spec|].
  intros [[[[[] m1] esi] edi] ecx] (k & -> & -> & -> & Hk & Hm1 & Hdone).
  - destruct (words_and_bytes (n - k)) as (Hsum & Hw & Hb); [lia|].
    eapply returns_bind; [by apply rep_movsl_spec; [..|lia|]; try lia|].
    intros [[m2 esi] edi] (-> & -> & Hm2). cbn beta iota.
    replace (Z.land (n - k) 3) with (n - (k + 4 * Z.shiftr (n - k) 2)) by lia.
    apply memcpy_bottom_spec; [lia|done].
  - apply returns_Ok. by rewrite Hdone in Hm1.
Qed.

(** Upwards byte copy. *)
Lemma rep_movsb_up : returns (rep_movsb 1 m0 src dest n) (copied n m0).
Proof.
  unfold rep_movsb.
  apply while_total with
    (I := λ '(m, esi, edi, edx), ∃ k, esi = src + k ∧ edi = dest + k ∧ edx = n - k ∧
            0 ≤ k ≤ n ∧ copied k m0 m)
    (V := λ '(m, esi, edi, edx), edx).
  - exists 0. split_and!; try lia. apply overlay_0.
  - lia.
  - intros [[[m esi] edi] edx] (k & -> & -> & -> & Hk & Hm). case_z.
    + apply returns_Ok. by replace n with k by lia.
    + mach. split; [exists (k + 1)|lia]. split_and!; try lia. apply copied_byte; side.
Qed.
End copy.

(** Downwards byte copy, for a destination above the source. *)
Lemma rep_movsb_down m0 dest src n :
  0 ≤ src → src < dest → 0 ≤ n → dest + n < 4294967296 →
  returns (rep_movsb (-1) m0 (u32 (src + n - 1)) (u32 (dest + n - 1)) n)
    (overlay dest n (λ i, rd m0 (src + i)) m0).
Proof.
  intros Hs Hsd Hn Hdn. unfold rep_movsb.
  apply while_total with
    (I := λ '(m, esi, edi, ecx), 0 ≤ ecx ≤ n ∧ esi = u32 (src + ecx - 1) ∧
            edi = u32 (dest + ecx - 1) ∧
            overlay (dest + ecx) (n - ecx) (λ i, rd m0 (src + ecx + i)) m0 m)
    (V := λ '(m, esi, edi, ecx), ecx).
  - split_and!; try lia; try done. replace (n - n) with 0 by lia. apply overlay_0.
  - lia.
  - intros [[[m esi] edi] c] (Hc & -> & -> & Hm). case_z.
    + apply returns_Ok. subst c. rewrite Z.add_0_r, Z.sub_0_r in Hm.
      eapply overlay_ext; [done|]. intros. by rewrite Z.add_0_r.
    + rewrite !(u32_small (src + c - 1)), !(u32_small (dest + c - 1)) by lia.
      rewrite (u32_small (c - 1)) by lia.
      split; [|lia]. split_and!; [lia.. | f_equal; lia | f_equal; lia |].
      intros b. rewrite rd_wr, (overlay_out _ _ _ _ _ (src + c - 1) Hm), (Hm b) by lia.
      case_z; cbn [andb]; try lia; try done; mach; f_equal; lia.
Qed.

(** ** What the routines promise *)

Section contracts.
Context (m : mem) (dest src n : Z).
Context (Hd : 0 ≤ dest) (Hdn : dest + n < 4294967296) (Hn : 0 ≤ n).

(** memset writes [n] copies of the low byte of [c]. *)
Lemma memset_fills c :
  returns (memset m dest c n) (λ m', m' ≡ wr_bytes m dest (replicate (Z.to_nat n) (u8 c))).
Proof.
  eapply returns_mono; [by apply memset_overlay|]. intros m' Hm'.
  apply overlay_wr_bytes. mach. eapply overlay_ext; [done|]. intros i Hi. cbn.
  rewrite lookup_total_replicate_2 by lia. unfold u8. zlia.
Qed.

Lemma copied_bytes m' :
  overlay dest n (λ i, rd m (src + i)) m m' → m' ≡ wr_bytes m dest (bytes m src n).
Proof.
  intros Hm'. apply overlay_wr_bytes. mach. eapply overlay_ext; [done|]. intros i Hi. cbn.
  erewrite list_lookup_total_correct by (by apply lookup_bytes). by mach.
Qed.

Context (Hs : 0 ≤ src) (Hsn : src + n < 4294967296).

Lemma memcpy_copies :
  dest ≤ src ∨ src + n ≤ dest →
  returns (memcpy m dest src n) (λ m', m' ≡ wr_bytes m dest (bytes m src n)).
Proof.
  intros Hov. eapply returns_mono; [by apply memcpy_overlay|]. intros m'. apply copied_bytes.
Qed.

Lemma memmove_moves :
  returns (memmove m dest src n) (λ '(m', df),
    m' ≡ wr_bytes m dest (bytes m src n) ∧ df = bool_decide (src < dest)).
Proof.
  unfold memmove. case_z.
  - eapply returns_bind; [apply rep_movsb_up; try done; lia|]. intros m' Hm'.
    apply returns_Ok. rewrite bool_decide_eq_false_2 by lia. split; [by apply copied_bytes|done].
  - eapply returns_bind; [by apply rep_movsb_down; lia|]. intros m' Hm'.
    apply returns_Ok. rewrite bool_decide_eq_true_2 by lia. split; [by apply copied_bytes|done].
Qed.
End contracts.

(** memset_dword writes [n] words, that is [4 * n] bytes. *)
Lemma memset_dword_words m s c n :
  0 ≤ s → 0 ≤ n → s + 4 * n < 4294967296 →
  returns (memset_dword m s c n)
    (overlay s (4 * n) (λ i, u8 (c / 256 ^ (i mod 4))) m).
Proof.
  intros Hs Hn Hsn. unfold memset_dword.
  rewrite <- (Z.add_0_r s) at 1.
  eapply returns_bind.
  { apply (rep_stosl_spec m s c (4 * n)) with (k := 0) (g := λ i, u8 (c / 256 ^ (i mod 4)));
      try lia; [apply overlay_0|].
    intros q i Hq Hi. do 3 f_equal. zlia. }
  intros [m' edi] [-> Hm']. by apply returns_Ok.
Qed.

(** ** Properties *)

(** memset, whose body fills single bytes up to a 4-byte boundary, then
    words, then the remaining bytes, writes the low byte of [c] to each of the
    [n] bytes from [s] on and to no other one, whatever the alignment. *)
Theorem memset_correct m s c n :
  0 ≤ s → 0 ≤ n → s + n < 4294967296 →
  returns (memset m s c n) (λ m', m' ≡ wr_bytes m s (replicate (Z.to_nat n) (u8 c))).
Proof. intros. by apply memset_fills. Qed.

Lemma memset_correct_witness :
  returns (memset mem0 5 0x141 11) (λ m', m' ≡ wr_bytes mem0 5 (replicate 11 0x41)).
Proof. apply (memset_correct mem0 5 0x141 11); lia. Defined.

(** memcpy returns and leaves the source's original bytes at the
    destination and nothing else changed, when the blocks do not overlap or
    the destination starts below the source. *)
Theorem memcpy_correct m dest src n :
  0 ≤ dest → 0 ≤ src → 0 ≤ n → dest + n < 4294967296 → src + n < 4294967296 →
  dest ≤ src ∨ src + n ≤ dest →
  returns (memcpy m dest src n) (λ m', m' ≡ wr_bytes m dest (bytes m src n)).
Proof. intros. by apply memcpy_copies. Qed.

Lemma memcpy_correct_witness :
  let m := wr_bytes mem0 10 [1; 2; 3; 4; 5; 6; 7] in
  returns (memcpy m 8 10 7) (λ m', m' ≡ wr_bytes m 8 [1; 2; 3; 4; 5; 6; 7]).
Proof.
  apply (memcpy_correct (wr_bytes mem0 10 [1; 2; 3; 4; 5; 6; 7]) 8 10 7); lia.
Defined.

(** C40: memmove moves a block correctly whatever the overlap, choosing the
    copying direction from the order of the addresses; when it copied
    downwards it returns with the direction flag still set. *)
Theorem memmove_correct m dest src n :
  0 ≤ dest → 0 ≤ src → 0 ≤ n → dest + n < 4294967296 → src + n < 4294967296 →
  returns (memmove m dest src n) (λ '(m', df),
    m' ≡ wr_bytes m dest (bytes m src n) ∧ df = bool_decide (src < dest)).
Proof. intros. by apply memmove_moves. Qed.

Lemma memmove_correct_witness :
  let m := wr_bytes mem0 10 [1; 2; 3; 4; 5; 6; 7] in
  returns (memmove m 12 10 7) (λ '(m', df),
    m' ≡ wr_bytes m 12 [1; 2; 3; 4; 5; 6; 7] ∧ df = true).
Proof.
  apply (memmove_correct (wr_bytes mem0 10 [1; 2; 3; 4; 5; 6; 7]) 12 10 7); lia.
Defined.
