(* ===== verification/LibString.v ===== *)
(** * lib.c: strings

    strlen, strrev, itoa, strncmp, strcpy and strncpy over the flat memory.
    The user-space copies of ece391support.c are separate functions. *)

From S2P Require Import Prelude Memory.

(** ** The functions *)

Definition strlen (m : mem) (s : Z) : res Z :=
  while (λ len, if rd m (s + len) =? 0 then inr (Ok len) else inl (u32 (len + 1))) 0.

Definition strrev (m : mem) (s : Z) : res mem :=
  len ← strlen m s;
  while (λ '(m, beg, end_),
    if beg <? end_ then
      let tmp := rd m (s + end_) in
      inl (wr (wr m (s + end_) (rd m (s + beg))) (s + beg) tmp, s32 (beg + 1), s32 (end_ - 1))
    else inr (Ok m)) (m, 0, s32 (u32 (len - 1))).

(** [static int8_t lookup[]], with its terminating 0. *)
Definition lookup_digits : list Z := codes "0123456789ABCDEFGHIJKLMNOPQRSTUVWXYZ" ++ [0].

(** The place-value loop of itoa; the result is the memory and [newbuf]. *)
Definition itoa_digits (radix : Z) (m : mem) (newbuf newval : Z) : res (mem * Z) :=
  while (λ '(m, newbuf, newval),
    if 0 <? newval then
      if u32 radix =? 0 then inr (Err DivideError) else
      match lookup_digits !! Z.to_nat (newval mod u32 radix) with
      | Some c => inl (wr m newbuf c, newbuf + 1, newval / u32 radix)
      | None => inr (Err OutOfBounds)
      end
    else inr (Ok (m, newbuf))) (m, newbuf, newval).

Definition itoa (m : mem) (value buf radix : Z) : res mem :=
  let value := u32 value in
  if value =? 0 then Ok (wr (wr m buf 48) (buf + 1) 0)
  else
    '(m, newbuf) ← itoa_digits radix m buf value;
    strrev (wr m newbuf 0) buf.

Definition strncmp (m : mem) (s1 s2 n : Z) : res Z :=
  while (λ i,
    if u32 i <? n then
      let a := s8 (rd m (s1 + i)) in
      let b := s8 (rd m (s2 + i)) in
      if negb (a =? b) || (a =? 0) then inr (Ok (a - b)) else inl (s32 (i + 1))
    else inr (Ok 0)) 0.

Definition strcpy (m : mem) (dest src : Z) : res mem :=
  while (λ '(m, i),
    if rd m (src + i) =? 0 then inr (Ok (wr m (dest + i) 0))
    else inl (wr m (dest + i) (rd m (src + i)), s32 (i + 1))) (m, 0).

Definition strncpy (m : mem) (dest src n : Z) : res mem :=
  '(m, i) ← while (λ '(m, i),
    if negb (rd m (src + i) =? 0) && (u32 i <? n)
    then inl (wr m (dest + i) (rd m (src + i)), s32 (i + 1))
    else inr (Ok (m, i))) (m, 0);
  while (λ '(m, i),
    if u32 i <? n then inl (wr m (dest + i) 0, s32 (i + 1)) else inr (Ok m)) (m, i).

(** ** strlen *)

Lemma strlen_cstr m s l : cstr m s l → zlen l < 4294967296 → strlen m s = Ok (zlen l).
Proof.
  intros Hl Hlen. unfold strlen.
  apply returns_eq, while_total with (I := λ len, 0 ≤ len ≤ zlen l) (V := λ len, zlen l - len).
  - lia.
  - lia.
  - intros len Hk. destruct (Z.eqb_spec (rd m (s + len)) 0) as [Hz|Hz].
    + apply returns_Ok. destruct (decide (len = zlen l)) as [->|]; [done|].
      by destruct (cstr_char m s l len Hl) as [_ ?]; [lia|].
    + assert (len ≠ zlen l) by (intros ->; apply Hz; by apply cstr_end). mach. lia.
Qed.

(** Conversely a returned length is the distance to the first 0. *)
Lemma strlen_inv m s n :
  strlen m s = Ok n → 0 ≤ n < 4294967296 ∧ cstr m s (bytes m s n).
Proof.
  unfold strlen. apply while_partial with
    (I := λ len, 0 ≤ len < 4294967296 ∧ Forall (λ c, c ≠ 0) (bytes m s len))
    (Q := λ n, 0 ≤ n < 4294967296 ∧ cstr m s (bytes m s n)).
  - split; [lia|]. rewrite bytes_0 by lia. constructor.
  - intros len [Hlen Hnz]. destruct (Z.eqb_spec (rd m (s + len)) 0) as [Hz|Hz].
    + split; [done|]. unfold cstr. rewrite zlen_bytes by lia. done.
    + destruct (decide (len + 1 < 4294967296)).
      * mach. split; [lia|]. rewrite bytes_snoc by lia.
        apply Forall_app; split; [done|]. by constructor.
      * replace (len + 1) with 4294967296 by lia.
        change (u32 4294967296) with 0. split; [lia|]. rewrite bytes_0 by lia. constructor.
Qed.

(** ** strncmp *)

(** Comparison of two texts up to [n] characters, reading a 0 at the end. *)
Fixpoint compare_upto (n : nat) (l1 l2 : list Z) : Z :=
  match n with
  | O => 0
  | S n' =>
      let a := s8 (List.hd 0 l1) in
      let b := s8 (List.hd 0 l2) in
      if negb (a =? b) || (a =? 0) then a - b else compare_upto n' (tail l1) (tail l2)
  end.

Definition text (l : list Z) : Prop := Forall (λ c, 0 < c < 256) l.

Lemma cstr_text m s l : cstr m s l → text l.
Proof.
  intros (Hnz & Hb & _). apply Forall_lookup_2. intros i c Hc.
  pose proof (Forall_lookup_1 _ _ _ _ Hnz Hc).
  assert (rd m (s + Z.of_nat i) = c) as <-.
  { apply (bytes_eq_lookup m s l); [done|lia|]. by rewrite Nat2Z.id. }
  pose proof (rd_range m (s + Z.of_nat i)). lia.
Qed.

Lemma cstr_head m s l : cstr m s l → rd m s = List.hd 0 l.
Proof. destruct l as [|c l]; [by rewrite cstr_nil|]. rewrite cstr_cons. naive_solver. Qed.

Lemma cstr_tail m s l : cstr m s l → rd m s ≠ 0 → cstr m (s + 1) (tail l).
Proof.
  destruct l as [|c l]; [by rewrite cstr_nil|]. rewrite cstr_cons. naive_solver.
Qed.

(** The result is 0 exactly for texts that agree on their first [n] characters. *)
Lemma compare_upto_0 n l1 l2 :
  text l1 → text l2 → (compare_upto n l1 l2 = 0 ↔ take n l1 = take n l2).
Proof.
  assert (s8 0 = 0) as H0 by done.
  assert (∀ c, 0 < c < 256 → s8 c ≠ 0) as Hs8.
  { intros c ? Hc. pose proof (s8_inj c 0). lia. }
  revert l1 l2; induction n as [|n IH]; intros l1 l2 H1 H2; [done|].
  destruct H1 as [|a l1 Ha H1], H2 as [|b l2 Hb H2]; cbn [compare_upto List.hd tail take].
  - by rewrite H0.
  - specialize (Hs8 b Hb). rewrite H0. case_z; cbn; try (exfalso; lia); split; [lia|done].
  - specialize (Hs8 a Ha). rewrite H0. case_z; cbn; try (exfalso; lia); split; [lia|done].
  - specialize (Hs8 a Ha). case_z; cbn; try (exfalso; lia).
    + assert (a = b) as <- by (apply s8_inj; lia).
      rewrite IH by done. split; [congruence|by intros [= ->]].
    + split; [lia|by intros [= ->]].
Qed.

Lemma strncmp_cstr m s1 s2 l1 l2 n :
  cstr m s1 l1 → cstr m s2 l2 → 0 ≤ n < 2147483648 →
  strncmp m s1 s2 n = Ok (compare_upto (Z.to_nat n) l1 l2).
Proof.
  intros H1 H2 Hn. unfold strncmp. apply returns_eq, while_total with
    (I := λ i, 0 ≤ i ≤ n ∧ ∃ k1 k2, cstr m (s1 + i) k1 ∧ cstr m (s2 + i) k2 ∧
            compare_upto (Z.to_nat (n - i)) k1 k2 = compare_upto (Z.to_nat n) l1 l2)
    (V := λ i, n - i).
  - split; [lia|]. exists l1, l2. by rewrite !Z.add_0_r, Z.sub_0_r.
  - lia.
  - intros i (Hi & k1 & k2 & Hk1 & Hk2 & <-). mach.
    destruct (Z.ltb_spec i n); cbn [negb].
    + replace (Z.to_nat (n - i)) with (S (Z.to_nat (n - (i + 1)))) by lia. cbn [compare_upto].
      rewrite <- (cstr_head _ _ _ Hk1), <- (cstr_head _ _ _ Hk2).
      destruct (Z.eqb_spec (s8 (rd m (s1 + i))) (s8 (rd m (s2 + i)))) as [He|He]; cbn.
      * destruct (Z.eqb_spec (s8 (rd m (s1 + i))) 0) as [Hz|Hz]; [by apply returns_Ok|].
        mach. split; [|lia]. split; [lia|]. exists (tail k1), (tail k2).
        rewrite !Z.add_assoc. split_and!; [|  | done];
          apply cstr_tail; try done; intros Hr; rewrite Hr in *; done.
      * by apply returns_Ok.
    + apply returns_Ok. by replace (Z.to_nat (n - i)) with O by lia.
Qed.

(** ** strcpy and strncpy *)

Lemma cstr_bound m s l i :
  cstr m s l → 0 ≤ i ≤ zlen l → rd m (s + i) = 0 → i = zlen l.
Proof.
  intros Hl Hi Hz. destruct (decide (i = zlen l)) as [|]; [done|].
  destruct (cstr_char m s l i Hl) as [_ ?]; [lia|done].
Qed.

(** The character at [i] of a text followed by its 0. *)
Lemma cstr_app_char m s l i :
  cstr m s l → 0 ≤ i ≤ zlen l → (l ++ [0]) !!! Z.to_nat i = rd m (s + i).
Proof.
  intros Hl Hi. apply list_lookup_total_correct. destruct (decide (i = zlen l)) as [->|].
  - rewrite (cstr_end m s l) by done. rewrite Nat2Z.id. apply list_lookup_middle. done.
  - destruct (cstr_char m s l i Hl) as [Hc _]; [lia|].
    rewrite lookup_app_l by lia. done.
Qed.

Lemma strcpy_cstr m dest src l :
  cstr m src l → zlen l < 2147483647 →
  disjoint_regions dest (zlen l + 1) src (zlen l + 1) →
  returns (strcpy m dest src) (λ m', m' ≡ wr_bytes m dest (l ++ [0])).
Proof.
  unfold disjoint_regions. intros Hl Hlen Hdis. unfold strcpy.
  apply while_total with
    (I := λ '(mk, i), 0 ≤ i ≤ zlen l ∧
            overlay dest i (λ i, u8 ((l ++ [0]) !!! Z.to_nat i)) m mk)
    (V := λ '(mk, i), zlen l - i).
  - split; [lia|apply overlay_0].
  - lia.
  - intros [mk i] [Hi Hmk]. rewrite (overlay_out _ _ _ _ _ (src + i) Hmk) by lia.
    assert (overlay dest (i + 1) (λ i, u8 ((l ++ [0]) !!! Z.to_nat i)) m
              (wr mk (dest + i) (rd m (src + i)))) as Hnext.
    { apply overlay_wr; [done|lia|done|]. by rewrite (cstr_app_char m src). }
    destruct (Z.eqb_spec (rd m (src + i)) 0) as [Hz|Hz].
    + apply returns_Ok, overlay_wr_bytes. rewrite zlen_app. change (zlen [0]) with 1.
      rewrite Hz in Hnext. by rewrite <- (cstr_bound m src l i).
    + assert (i ≠ zlen l) by (intros ->; apply Hz; by apply cstr_end). mach. side.
Qed.

(** What strncpy leaves in its buffer. *)
Definition padded (l : list Z) (n : Z) : list Z :=
  take (Z.to_nat n) l ++ replicate (Z.to_nat (n - zlen l)) 0.

Lemma zlen_padded l n : 0 ≤ n → zlen (padded l n) = n.
Proof. intros. unfold padded. rewrite length_app, length_take, length_replicate. lia. Qed.

Lemma padded_char m src l n i :
  cstr m src l → 0 ≤ i < n →
  padded l n !!! Z.to_nat i = if i <? zlen l then rd m (src + i) else 0.
Proof.
  intros Hl Hi. apply list_lookup_total_correct. unfold padded. case_z.
  - rewrite lookup_app_l by (rewrite length_take; lia). rewrite lookup_take_lt by lia.
    by destruct (cstr_char m src l i Hl) as [Hc _]; [lia|].
  - rewrite lookup_app_r by (rewrite length_take; lia).
    apply lookup_replicate_2. rewrite length_take. lia.
Qed.

(** strncpy writes exactly [n] characters: a prefix of the text, padded with 0. *)
Lemma strncpy_cstr m dest src l n :
  cstr m src l → 0 ≤ n < 2147483648 →
  disjoint_regions dest n src (Z.min n (zlen l) + 1) →
  returns (strncpy m dest src n) (λ m', m' ≡ wr_bytes m dest (padded l n)).
Proof.
  unfold disjoint_regions. intros Hl Hn Hdis. unfold strncpy.
  set (copied i := overlay dest i (λ i, u8 (padded l n !!! Z.to_nat i)) m).
  assert (∀ mk i v, copied i mk → 0 ≤ i < n →
            v = (if i <? zlen l then rd m (src + i) else 0) →
            copied (i + 1) (wr mk (dest + i) v)) as Hstep.
  { intros mk i v Hmk Hi ->. apply overlay_wr; [done|lia|done|].
    by rewrite (padded_char m src). }
  eapply (returns_bind _ _ (λ '(mk, i), i = Z.min n (zlen l) ∧ copied i mk)).
  - apply while_total with
      (I := λ '(mk, i), 0 ≤ i ≤ Z.min n (zlen l) ∧ copied i mk) (V := λ '(mk, i), n - i).
    + split; [lia|apply overlay_0].
    + lia.
    + intros [mk i] [Hi Hmk]. rewrite (overlay_out _ _ _ _ _ (src + i) Hmk) by lia. mach.
      destruct (Z.eqb_spec (rd m (src + i)) 0) as [Hz|Hz]; cbn [negb andb].
      * assert (i = zlen l) as -> by (apply (cstr_bound m src); done || lia).
        apply returns_Ok. side.
      * assert (i ≠ zlen l) by (intros ->; apply Hz; by apply cstr_end).
        destruct (Z.ltb_spec i n); [|apply returns_Ok; side].
        mach. split; [split; [lia|]|lia]. apply Hstep; [done|lia|]. by case_z; [|lia].
  - intros [mk i] [-> Hmk].
    apply while_total with
      (I := λ '(mk, i), Z.min n (zlen l) ≤ i ≤ n ∧ copied i mk) (V := λ '(mk, i), n - i).
    + side.
    + lia.
    + clear mk Hmk. intros [mk i] [Hi Hmk]. mach. destruct (Z.ltb_spec i n).
      * mach. split; [split; [lia|]|lia]. apply Hstep; [done|lia|]. by case_z; [lia|].
      * apply returns_Ok, overlay_wr_bytes. by replace (zlen (padded l n)) with i
          by (rewrite zlen_padded; lia).
Qed.

(** ** strrev *)

Lemma strrev_overlay m s l :
  cstr m s l → zlen l < 2147483648 →
  returns (strrev m s) (overlay s (zlen l) (λ i, rd m (s + (zlen l - 1 - i))) m).
Proof.
  intros Hl Hlen. unfold strrev. rewrite (strlen_cstr m s l) by (done || lia). cbn.
  rewrite s32_u32, s32_small by lia.
  apply while_total with
    (I := λ '(mk, b, e), b + e = zlen l - 1 ∧ 0 ≤ b ≤ e + 2 ∧ ∀ i,
       rd mk i = if ((s <=? i) && (i <? s + b)) || ((s + e <? i) && (i <? s + zlen l))
                 then rd m (s + (zlen l - 1 - (i - s))) else rd m i)
    (V := λ '(mk, b, e), e + 2).
  - split_and!; [lia..|]. intros i. case_z; cbn; try done; lia.
  - lia.
  - intros [[mk b] e] (Hbe & Hb & Hmk). destruct (Z.ltb_spec b e) as [Hlt|Hge].
    + mach. split; [|lia]. split_and!; [lia..|]. intros i.
      rewrite !rd_wr. unfold u8. rewrite !Z.mod_small by apply rd_range.
      case_z; cbn [andb orb]; try lia; rewrite Hmk; case_z; cbn [andb orb]; try lia;
        f_equal; lia.
    + apply returns_Ok. intros i. rewrite Hmk. case_z; cbn [andb orb]; try lia; f_equal; lia.
Qed.

Lemma cstr_lookup_total m s l i :
  cstr m s l → 0 ≤ i < zlen l → l !!! Z.to_nat i = rd m (s + i).
Proof.
  intros Hl Hi. apply list_lookup_total_correct.
  by destruct (cstr_char m s l i Hl) as [? _].
Qed.

(** Reversal of a string in place. *)
Lemma strrev_cstr m s l :
  cstr m s l → zlen l < 2147483648 →
  returns (strrev m s) (λ m', m' ≡ wr_bytes m s (reverse l)).
Proof.
  intros Hl Hlen. eapply returns_mono; [by apply strrev_overlay|]. intros m' Hm'.
  apply overlay_wr_bytes. rewrite length_reverse. eapply overlay_ext; [done|].
  intros i Hi. cbn. rewrite <- (cstr_lookup_total m s l) by (done || lia).
  rewrite !list_lookup_total_alt, reverse_lookup by lia.
  replace (length l - S (Z.to_nat i))%nat with (Z.to_nat (zlen l - 1 - i)) by lia.
  destruct (cstr_char m s l (zlen l - 1 - i) Hl) as [-> _]; [lia|]. cbn. by mach.
Qed.

(** ** itoa *)

(** Reference: the digits of [v], least significant first, then the numeral. *)
Fixpoint digits_le (fuel : nat) (radix v : Z) : list Z :=
  match fuel with
  | O => []
  | S n => if v =? 0 then [] else v mod radix :: digits_le n radix (v / radix)
  end.

Definition digit_char (d : Z) : Z := lookup_digits !!! Z.to_nat d.

Definition numeral (radix v : Z) : list Z :=
  if v =? 0 then [48] else reverse (digit_char <$> digits_le 32 radix v).

(** The value of a digit, 0 to 9 then the capital letters, and what a numeral
    denotes in a radix, read from the left. *)
Definition digit_value (c : Z) : option Z :=
  if (48 <=? c) && (c <=? 57) then Some (c - 48)
  else if (65 <=? c) && (c <=? 90) then Some (c - 55) else None.

Definition numeral_value (radix : Z) (l : list Z) : option Z :=
  foldl (λ acc c, v ← acc; d ← digit_value c; if d <? radix then Some (v * radix + d) else None) (Some 0) l.

Lemma lookup_digits_char d :
  0 ≤ d < 36 →
  lookup_digits !! Z.to_nat d = Some (digit_char d) ∧ 48 ≤ digit_char d < 91 ∧
  digit_value (digit_char d) = Some d.
Proof.
  intros Hd.
  assert (Forall (λ d, lookup_digits !! Z.to_nat d = Some (digit_char d) ∧
            48 ≤ digit_char d < 91 ∧ digit_value (digit_char d) = Some d) (seqZ 0 36)) as Hall
    by by_decide.
  rewrite Forall_forall in Hall. apply Hall, elem_of_seqZ. lia.
Qed.

Section radix.
Context (radix : Z) (Hr : 2 ≤ radix ≤ 36).

Lemma digits_le_range n v : 0 ≤ v → Forall (λ d, 0 ≤ d < radix) (digits_le n radix v).
Proof.
  revert v; induction n as [|n IH]; intros v Hv; cbn; [constructor|].
  case_z; [constructor|]. constructor; [apply Z.mod_pos_bound; lia|]. apply IH, Z.div_pos; lia.
Qed.

Lemma digits_le_length n v : (length (digits_le n radix v) ≤ n)%nat.
Proof.
  revert v; induction n as [|n IH]; intros v; cbn; [lia|]. case_z; cbn; [lia|].
  specialize (IH (v / radix)). lia.
Qed.

Lemma digits_le_length_pow n k v :
  0 ≤ v < radix ^ Z.of_nat k → (length (digits_le n radix v) ≤ k)%nat.
Proof.
  revert k v; induction n as [|n IH]; intros k v Hv; cbn; [lia|].
  case_z; cbn; [lia|]. destruct k as [|k]; [cbn in Hv; lia|].
  apply le_n_S, IH. rewrite Nat2Z.inj_succ, Z.pow_succ_r in Hv by lia.
  split; [apply Z.div_pos; lia|]. apply Z.div_lt_upper_bound; lia.
Qed.

Lemma half v n : 0 ≤ v < 2 ^ Z.of_nat (S n) → 0 ≤ v / radix < 2 ^ Z.of_nat n.
Proof.
  rewrite Nat2Z.inj_succ, Z.pow_succ_r by lia. intros Hv. split; [apply Z.div_pos; lia|].
  apply Z.div_lt_upper_bound; [lia|]. assert (0 < 2 ^ Z.of_nat n) by lia. nia.
Qed.

Lemma digits_le_value n v :
  0 ≤ v < 2 ^ Z.of_nat n → numeral_value radix (reverse (digit_char <$> digits_le n radix v)) = Some v.
Proof.
  revert v; induction n as [|n IH]; intros v Hv; cbn [digits_le].
  - cbn in *. f_equal. lia.
  - case_z; [by subst|]. rewrite fmap_cons, reverse_cons. unfold numeral_value in *.
    rewrite foldl_app, IH by by apply half. cbn [foldl mbind option_bind].
    pose proof (Z.mod_pos_bound v radix). pose proof (Z.div_mod v radix).
    destruct (lookup_digits_char (v mod radix)) as (_ & _ & ->); [lia|]. cbn [mbind option_bind].
    rewrite (proj2 (Z.ltb_lt _ _)) by lia. f_equal. lia.
Qed.

(** A numeral denotes its number. *)
Lemma numeral_value_numeral v : 0 ≤ v < 4294967296 → numeral_value radix (numeral radix v) = Some v.
Proof.
  intros Hv. unfold numeral. case_z; [|by apply digits_le_value].
  subst. cbn. by rewrite (proj2 (Z.ltb_lt _ _)) by lia.
Qed.

(** Its first digit is not 0. *)
Lemma digits_le_last n v :
  0 < v < 2 ^ Z.of_nat n → ∃ d, last (digits_le n radix v) = Some d ∧ 0 < d < radix.
Proof.
  revert v; induction n as [|n IH]; intros v Hv; cbn [digits_le]; [cbn in Hv; lia|].
  rewrite (proj2 (Z.eqb_neq v 0)) by lia. rewrite last_cons.
  destruct (decide (v / radix = 0)) as [Hq|Hq].
  - exists v. assert (v mod radix = v) as Hm by (pose proof (Z.div_mod v radix); lia).
    pose proof (Z.mod_pos_bound v radix). rewrite Hq, Hm. split; [by destruct n|lia].
  - pose proof (half v n). destruct (IH (v / radix)) as (d & -> & Hd); [lia|]. by exists d.
Qed.

Lemma numeral_head v :
  0 ≤ v < 4294967296 → ∃ c l, numeral radix v = c :: l ∧ (c = 48 → l = []).
Proof.
  intros Hv. unfold numeral. case_z; [by exists 48, []|].
  destruct (digits_le_last 32 v) as (d & Hl & Hd); [lia|].
  apply last_Some in Hl as [l ->]. rewrite fmap_app, reverse_app. eexists _, _. split; [reflexivity|].
  destruct (lookup_digits_char d) as (_ & _ & Hc); [lia|]. intros E. rewrite E in Hc. cbn in Hc. simplify_eq. lia.
Qed.

Lemma digit_chars_text n v :
  0 ≤ v → Forall (λ c, 48 ≤ c < 91) (digit_char <$> digits_le n radix v).
Proof.
  intros Hv. apply Forall_fmap. eapply Forall_impl; [by apply digits_le_range|].
  intros d Hd. cbn in *. destruct (lookup_digits_char d) as (_ & ? & _); [lia|done].
Qed.

Lemma numeral_text v : 0 ≤ v → Forall (λ c, 48 ≤ c < 91) (numeral radix v).
Proof.
  intros Hv. unfold numeral. case_z; [by repeat constructor|].
  apply Forall_reverse, digit_chars_text. done.
Qed.

Lemma numeral_length v : (length (numeral radix v) ≤ 32)%nat.
Proof.
  unfold numeral. case_z; [cbn; lia|]. rewrite length_reverse, length_fmap.
  apply digits_le_length.
Qed.

Lemma numeral_length_pow k v :
  (0 < k)%nat → 0 ≤ v < radix ^ Z.of_nat k → (length (numeral radix v) ≤ k)%nat.
Proof.
  intros Hk Hv. unfold numeral. case_z; [cbn; lia|]. rewrite length_reverse, length_fmap.
  by apply digits_le_length_pow.
Qed.
End radix.

(** The digits already written and those to come make up the numeral. *)
Lemma itoa_digits_spec radix m buf v :
  2 ≤ radix ≤ 36 → 0 ≤ v < 4294967296 →
  returns (itoa_digits radix m buf v) (λ '(m', nb),
    let ds := digit_char <$> digits_le 32 radix v in
    nb = buf + zlen ds ∧ overlay buf (zlen ds) (λ i, ds !!! Z.to_nat i) m m').
Proof.
  intros Hr Hv. unfold itoa_digits. rewrite !(u32_small radix) by lia.
  set (ds := digit_char <$> digits_le 32 radix v).
  apply while_total with
    (I := λ '(mk, nb, nv), ∃ pre n, 0 ≤ nv < 2 ^ Z.of_nat n ∧ nb = buf + zlen pre ∧
       ds = pre ++ (digit_char <$> digits_le n radix nv) ∧
       overlay buf (zlen pre) (λ i, ds !!! Z.to_nat i) m mk)
    (V := λ '(mk, nb, nv), nv).
  - exists [], 32%nat. change (2 ^ Z.of_nat 32) with 4294967296. split; [lia|]. split; [cbn; lia|].
    split; [done|apply overlay_0].
  - lia.
  - intros [[mk nb] nv] (pre & n & Hnv & -> & Hds & Hmk). cases_z.
    + destruct n as [|n]; [cbn in Hnv; lia|].
      destruct (lookup_digits_char (nv mod radix)) as (-> & Hc & _).
      { pose proof (Z.mod_pos_bound nv radix). lia. }
      pose proof (half radix Hr nv n Hnv). split; [|split; [lia|apply Z.div_lt; lia]].
      cbn [digits_le] in Hds. rewrite (proj2 (Z.eqb_neq nv 0)), fmap_cons in Hds by lia.
      exists (pre ++ [digit_char (nv mod radix)]), n. split_and!; [lia|lia| | |].
      * rewrite zlen_app. cbn. lia.
      * by rewrite <- app_assoc.
      * rewrite zlen_app. apply overlay_wr; [done|lia|done|].
        rewrite Nat2Z.id, u8_small by lia. apply list_lookup_total_correct.
        rewrite Hds. by apply list_lookup_middle.
    + apply returns_Ok. replace nv with 0 in Hds by lia.
      assert (ds = pre) as ->; [|done].
      rewrite Hds. destruct n; cbn; by rewrite app_nil_r.
Qed.

Lemma itoa_numeral m v buf radix :
  2 ≤ radix ≤ 36 → 0 ≤ v < 4294967296 →
  returns (itoa m v buf radix) (λ m', m' ≡ wr_bytes m buf (numeral radix v ++ [0])).
Proof.
  intros Hr Hv. unfold itoa, numeral. rewrite u32_small by lia.
  destruct (Z.eqb_spec v 0) as [_|Hnz]; [by apply returns_Ok|].
  set (ds := digit_char <$> digits_le 32 radix v).
  assert (text ds) as Htext.
  { eapply Forall_impl; [apply (digit_chars_text radix Hr 32 v); lia|].
    intros c Hc. cbn in *. lia. }
  eapply returns_bind; [by apply itoa_digits_spec|]. intros [m1 nb] [-> Hm1]. fold ds in Hm1 |- *.
  assert (wr m1 (buf + zlen ds) 0 ≡ wr_bytes m buf (ds ++ [0])) as Hm2.
  { rewrite wr_bytes_app. cbn [wr_bytes]. f_equiv. apply overlay_wr_bytes.
    eapply overlay_ext; [done|]. intros i Hi. cbn. symmetry. apply u8_small.
    destruct (lookup_lt_is_Some_2 ds (Z.to_nat i)) as [c Hc]; [lia|].
    rewrite (list_lookup_total_correct _ _ _ Hc).
    pose proof (Forall_lookup_1 _ _ _ _ Htext Hc). cbn in *. lia. }
  eapply returns_mono.
  - apply strrev_cstr; [by apply (wr_bytes_cstr m); [|done]|].
    unfold ds. rewrite length_fmap. pose proof (digits_le_length radix 32 v). lia.
  - intros m' ->. rewrite Hm2. apply wr_bytes_overwrite. by rewrite length_reverse.
Qed.

(** ** Properties *)

(** strncmp on two C strings returns, and returns 0 exactly when their
    first [n] characters agree. *)
Theorem strncmp_decides m s1 s2 l1 l2 n :
  cstr m s1 l1 → cstr m s2 l2 → 0 ≤ n < 2147483648 →
  returns (strncmp m s1 s2 n) (λ r, r = 0 ↔ take (Z.to_nat n) l1 = take (Z.to_nat n) l2).
Proof.
  intros H1 H2 Hn. rewrite (strncmp_cstr m s1 s2 l1 l2 n) by done. apply returns_Ok.
  apply compare_upto_0; by eapply cstr_text.
Qed.

Lemma strncmp_decides_witness :
  let m := wr_bytes (wr_bytes mem0 0 [115; 104; 0]) 8 [115; 104; 120; 0] in
  returns (strncmp m 0 8 2) (λ r, r = 0 ↔ [115; 104] = [115; 104]).
Proof.
  apply (strncmp_decides (wr_bytes (wr_bytes mem0 0 [115; 104; 0]) 8 [115; 104; 120; 0])
           0 8 [115; 104] [115; 104; 120] 2); [by_decide..|lia].
Defined.

(** The function strncpy writes exactly [n] characters: the string cut at [n], or the
    string padded with 0 up to [n]; strcpy writes the string and its 0. *)
Theorem string_copies m dest src l n :
  cstr m src l → 0 ≤ n < 2147483648 → zlen l < 2147483647 →
  disjoint_regions dest (Z.max n (zlen l + 1)) src (zlen l + 1) →
  returns (strncpy m dest src n) (λ m', m' ≡ wr_bytes m dest (padded l n)) ∧
  returns (strcpy m dest src) (λ m', m' ≡ wr_bytes m dest (l ++ [0])).
Proof.
  unfold disjoint_regions. intros Hl Hn Hlen Hd.
  split; [apply strncpy_cstr | apply strcpy_cstr]; try done; unfold disjoint_regions; lia.
Qed.

Lemma string_copies_witness :
  let m := wr_bytes mem0 64 [108; 115; 0] in
  returns (strncpy m 0 64 4) (λ m', m' ≡ wr_bytes m 0 [108; 115; 0; 0]) ∧
  returns (strcpy m 0 64) (λ m', m' ≡ wr_bytes m 0 [108; 115; 0]).
Proof.
  apply (string_copies (wr_bytes mem0 64 [108; 115; 0]) 0 64 [108; 115] 4);
    [by_decide|lia|cbn; lia|unfold disjoint_regions; cbn; lia].
Defined.

(** C39: itoa writes, for a radix from 2 to 36, a C string of at most 32
    characters that denotes the value: reading it from the left, each of its
    characters is a digit below the radix (0 to 9, then the capital letters),
    and their positional value is the number; the first is not 0, but for the
    numeral 0 itself.  Only the string's bytes are written. *)
Theorem itoa_roundtrip m v buf radix :
  2 ≤ radix ≤ 36 → 0 ≤ v < 4294967296 →
  returns (itoa m v buf radix) (λ m', ∃ c l,
    cstr m' buf (c :: l) ∧ zlen (c :: l) ≤ 32 ∧ numeral_value radix (c :: l) = Some v ∧ (c = 48 → l = []) ∧
    same_except buf (zlen (c :: l) + 1) m m').
Proof.
  intros Hr Hv. eapply returns_mono; [by apply itoa_numeral|]. intros m' Hm'.
  destruct (numeral_head radix Hr v Hv) as (c & l & E & Hc). exists c, l. rewrite <- E. split_and!.
  - eapply wr_bytes_cstr; [|exact Hm']. eapply Forall_impl; [by apply numeral_text; lia|].
    intros x Hx. cbn in Hx. lia.
  - pose proof (numeral_length radix v). lia.
  - by apply numeral_value_numeral.
  - exact Hc.
  - pose proof (wr_bytes_same_except _ _ _ _ Hm') as Hs. by rewrite zlen_app in Hs.
Qed.

Lemma itoa_roundtrip_witness :
  returns (itoa mem0 48879 100 16) (λ m', ∃ c l,
    cstr m' 100 (c :: l) ∧ zlen (c :: l) ≤ 32 ∧ numeral_value 16 (c :: l) = Some 48879 ∧ (c = 48 → l = []) ∧
    same_except 100 (zlen (c :: l) + 1) mem0 m').
Proof. apply (itoa_roundtrip mem0 48879 100 16); lia. Defined.

(** Strrev reverses a string in place, its 0 and the bytes around it kept,
    and strlen returns the number of characters before the first 0. *)
Theorem strrev_strlen m s l :
  cstr m s l → zlen l < 2147483648 →
  strlen m s = Ok (zlen l) ∧
  returns (strrev m s) (λ m', cstr m' s (reverse l) ∧ same_except s (zlen l) m m').
Proof.
  intros Hl Hlen. split; [apply strlen_cstr; [done|lia]|].
  eapply returns_mono; [by apply strrev_cstr|]. intros m' Hm'.
  pose proof (wr_bytes_same_except _ _ _ _ Hm') as Hs. rewrite length_reverse in Hs.
  pose proof (cstr_text _ _ _ Hl) as Ht.
  split; [split_and!|done].
  - apply Forall_reverse. by destruct Hl.
  - eapply wr_bytes_read; [exact Hm'|]. apply Forall_reverse. eapply Forall_impl; [exact Ht|].
    intros c Hc. cbn in Hc. lia.
  - rewrite length_reverse. rewrite (same_except_rd _ _ _ _ _ Hs) by lia. by apply cstr_end.
Qed.

Lemma strrev_strlen_witness :
  let m := wr_bytes mem0 7 [49; 50; 51; 0] in
  strlen m 7 = Ok 3 ∧
  returns (strrev m 7) (λ m', cstr m' 7 [51; 50; 49] ∧ same_except 7 3 m m').
Proof.
  apply (strrev_strlen (wr_bytes mem0 7 [49; 50; 51; 0]) 7 [49; 50; 51]);
    [by_decide|cbn; lia].
Defined.
