(* ===== verification/Bits.v ===== *)
(** * Bit fields of machine words

    x86_desc.h lays out page table entries and gates as C bit fields.
    [set_bits lo w v x] stores the low [w] bits of [v] at bit [lo] of [x] and
    keeps the other bits, as an assignment to a bit field does. *)

From S2P Require Import Prelude.

Definition get_bits (lo w x : Z) : Z := Z.land (Z.shiftr x lo) (Z.ones w).
Definition set_bits (lo w v x : Z) : Z :=
  Z.lor (Z.ldiff x (Z.shiftl (Z.ones w) lo)) (Z.shiftl (Z.land v (Z.ones w)) lo).

Lemma testbit_ones w i : 0 ≤ w → 0 ≤ i → Z.testbit (Z.ones w) i = (i <? w).
Proof. intros. rewrite Z.testbit_ones by lia. by rewrite (proj2 (Z.leb_le _ _)) by lia. Qed.

Lemma testbit_set_bits lo w v x i :
  0 ≤ lo → 0 ≤ w → 0 ≤ i →
  Z.testbit (set_bits lo w v x) i =
    if (lo <=? i) && (i <? lo + w) then Z.testbit v (i - lo) else Z.testbit x i.
Proof.
  intros. unfold set_bits. rewrite Z.lor_spec, Z.ldiff_spec, !Z.shiftl_spec by lia.
  destruct (Z.leb_spec lo i); cbn [andb].
  - rewrite Z.land_spec, testbit_ones by lia. case_z; try lia; cbn;
      by rewrite ?andb_false_r, ?andb_true_r, ?orb_false_r.
  - rewrite (Z.testbit_neg_r (Z.ones w)), (Z.testbit_neg_r (Z.land _ _)) by lia.
    by rewrite andb_true_r, orb_false_r.
Qed.

Lemma testbit_get_bits lo w x i :
  0 ≤ lo → 0 ≤ w → 0 ≤ i → Z.testbit (get_bits lo w x) i = (i <? w) && Z.testbit x (i + lo).
Proof.
  intros. unfold get_bits. rewrite Z.land_spec, Z.shiftr_spec, testbit_ones by lia. apply andb_comm.
Qed.

(** Reading a field back, and reading another field. *)
Lemma get_set_eq lo w v x : 0 ≤ lo → 0 ≤ w → get_bits lo w (set_bits lo w v x) = Z.land v (Z.ones w).
Proof.
  intros. apply Z.bits_inj'. intros i Hi.
  rewrite testbit_get_bits, testbit_set_bits, Z.land_spec, testbit_ones by lia.
  case_z; cbn [andb]; try lia; rewrite ?andb_false_r, ?andb_true_r; try done. f_equal. lia.
Qed.

Lemma get_set_ne lo w v x lo' w' :
  0 ≤ lo → 0 ≤ w → 0 ≤ lo' → 0 ≤ w' → lo + w ≤ lo' ∨ lo' + w' ≤ lo →
  get_bits lo' w' (set_bits lo w v x) = get_bits lo' w' x.
Proof.
  intros. apply Z.bits_inj'. intros i Hi. rewrite !testbit_get_bits, testbit_set_bits by lia.
  case_z; cbn [andb]; try lia; done.
Qed.

Lemma get_bits_range lo w x : 0 ≤ w → 0 ≤ get_bits lo w x < 2 ^ w.
Proof. intros. unfold get_bits. rewrite Z.land_ones by lia. apply Z.mod_pos_bound. lia. Qed.

(** A field that fits its width. *)
Lemma land_ones_small v w : 0 ≤ w → 0 ≤ v < 2 ^ w → Z.land v (Z.ones w) = v.
Proof. intros. rewrite Z.land_ones by lia. by apply Z.mod_small. Qed.

(** Storing into a [k]-bit word keeps it one. *)
Lemma set_bits_range lo w v x k :
  0 ≤ lo → 0 ≤ w → lo + w ≤ k → 0 ≤ x < 2 ^ k → 0 ≤ set_bits lo w v x < 2 ^ k.
Proof.
  intros Hlo Hw Hk Hx.
  assert (Z.land (set_bits lo w v x) (Z.ones k) = set_bits lo w v x) as <-.
  - apply Z.bits_inj'. intros i Hi. rewrite Z.land_spec, testbit_ones, testbit_set_bits by lia.
    destruct (Z.ltb_spec i k); [by rewrite andb_true_r|].
    rewrite andb_false_r. case_z; cbn [andb]; try lia; symmetry;
      rewrite <- (Z.mod_small x (2 ^ k)) by lia; apply Z.mod_pow2_bits_high; lia.
  - rewrite Z.land_ones by lia. apply Z.mod_pos_bound. lia.
Qed.

(** Two adjacent fields as one. *)
Lemma get_bits_split lo a b x :
  0 ≤ lo → 0 ≤ a → 0 ≤ b →
  get_bits lo (a + b) x = get_bits lo a x + 2 ^ a * get_bits (lo + a) b x.
Proof.
  intros. unfold get_bits. rewrite !Z.land_ones, <- Z.shiftr_shiftr, Z.pow_add_r by lia.
  rewrite (Z.shiftr_div_pow2 _ a) by lia. apply Z.rem_mul_r; lia.
Qed.

#[global] Opaque get_bits set_bits.

Create Rewrite HintDb bits.
#[export] Hint Rewrite get_set_eq using lia : bits.
#[export] Hint Rewrite get_set_ne using lia : bits.

(** The fields of a word built by a sequence of field assignments. *)
Ltac fields := repeat first [ rewrite get_set_eq by lia | rewrite get_set_ne by lia ].
