(* ===== verification/Ports.v ===== *)
(** * lib.h: port input and output

    The devices behind the ports are not part of the repository.  [PortIO]
    is what the drivers need of them: a device state with the effect of
    outb and inb.  [trace] is the instance that records the writes. *)

From S2P Require Import Prelude.

Class PortIO (D : Type) := {
  dev_out : Z → Z → D → D;        (* byte, port *)
  dev_in : Z → D → Z * D          (* port *)
}.

(** [outb(data, port)] sends the low byte of [data]; [inb] zero-extends. *)
Definition outb `{PortIO D} (data port : Z) (d : D) : D := dev_out (u8 data) (u16 port) d.
Definition inb `{PortIO D} (port : Z) (d : D) : Z * D :=
  let '(v, d) := dev_in (u16 port) d in (u8 v, d).

(** The wider accesses, byte by byte: the low byte is the one of the lower
    port.  [inw] and [inl] zero-extend, [outw] and [outl] send the low bytes of
    [data].  The module keeps [inl] from being taken for the constructor. *)
Module Wide.
Definition inw `{PortIO D} (port : Z) (d : D) : Z * D :=
  let '(lo, d) := inb port d in
  let '(hi, d) := inb (port + 1) d in (lo + 256 * hi, d).
Definition inl `{PortIO D} (port : Z) (d : D) : Z * D :=
  let '(lo, d) := inw port d in
  let '(hi, d) := inw (port + 2) d in (lo + 65536 * hi, d).
Definition outw `{PortIO D} (data port : Z) (d : D) : D :=
  outb (data / 256) (port + 1) (outb data port d).
Definition outl `{PortIO D} (data port : Z) (d : D) : D :=
  outw (data / 65536) (port + 2) (outw data port d).

End Wide.

(** ** The flags

    cli and its relatives, on EFLAGS as a word.  popfl in the kernel loads all
    flags but VM, VIF and VIP (bits 17, 19 and 20), which it keeps, and RF (bit
    16), which it clears. *)
Module Flags.
Definition IF := 0x200.
Definition is_on (flags : Z) : bool := Z.testbit flags 9.

Definition cli (flags : Z) : Z := Z.ldiff flags IF.
Definition sti (flags : Z) : Z := Z.lor flags IF.
(** What is stored in the variable, and the flags behind it. *)
Definition cli_and_save (flags : Z) : Z * Z := (flags, cli flags).
Definition popfl (v flags : Z) : Z :=
  Z.lor (Z.land flags 0x1A0000) (Z.ldiff (u32 v) 0x1B0000).
Definition restore_flags (saved flags : Z) : Z := popfl saved flags.

Lemma if_bit i : 0 ≤ i → Z.testbit IF i = (i =? 9).
Proof. intros Hi. change IF with (2 ^ 9). rewrite Z.pow2_bits_eqb by lia. apply Z.eqb_sym. Qed.

(** A critical section: interrupts are off in it, and behind it as they were
    before, whatever it does to the flags in between; sections nest. *)
Lemma critical_section flags inside :
  let '(saved, f) := cli_and_save flags in
  is_on f = false ∧ is_on (restore_flags saved inside) = is_on flags ∧
  ∀ i, 0 ≤ i → i ≠ 9 → Z.testbit f i = Z.testbit flags i.
Proof.
  unfold cli_and_save, cli, restore_flags, popfl, is_on. split_and!.
  - rewrite Z.ldiff_spec, if_bit by done. apply andb_false_r.
  - rewrite Z.lor_spec, Z.land_spec, Z.ldiff_spec. change (Z.testbit 0x1A0000 9) with false.
    change (Z.testbit 0x1B0000 9) with false. rewrite andb_false_r, andb_true_r. cbn [orb]. unfold u32. change 4294967296 with (2 ^ 32).
    by rewrite Z.mod_pow2_bits_low by lia.
  - intros i Hi Hne. rewrite Z.ldiff_spec, if_bit by done. rewrite (proj2 (Z.eqb_neq _ _)) by done.
    by rewrite andb_true_r.
Qed.

Lemma sti_on flags : is_on (sti flags) = true.
Proof. unfold is_on, sti. rewrite Z.lor_spec, if_bit by done. apply orb_true_r. Qed.
End Flags.

(** Every write in order, the latest first; reads are answered by [answers]. *)
Record trace := Trace { writes : list (Z * Z); answers : list Z }.

#[export] Instance trace_io : PortIO trace := {
  dev_out v p t := Trace ((v, p) :: writes t) (answers t);
  dev_in p t :=
    match answers t with
    | [] => (0, t)
    | v :: vs => (v, Trace (writes t) vs)
    end
}.

Definition silent : trace := Trace [] [].

(** The byte range of every read. *)
Lemma inb_range `{PortIO D} p (d : D) : 0 ≤ fst (inb p d) < 256.
Proof. unfold inb. destruct (dev_in _ d). apply u8_range. Qed.

(** A device whose ports hold what was last written to them: the wide accesses
    are inverse to each other. *)
Definition latches : Type := Z → Z.

#[export] Instance latches_io : PortIO latches := {
  dev_out v p l := λ q, if q =? p then v else l q;
  dev_in p l := (l p, l)
}.

Import Wide.

Lemma outw_inw (data port : Z) (l : latches) :
  fst (inw port (outw data port l)) = u16 data.
Proof.
  unfold inw, outw, inb, outb. cbn. rewrite Z.eqb_refl.
  assert (u16 port =? u16 (port + 1) = false) as -> by (apply Z.eqb_neq; unfold u16; zlia).
  rewrite Z.eqb_refl. unfold u8, u16. zlia.
Qed.

Lemma outl_inl (data port : Z) (l : latches) :
  fst (inl port (outl data port l)) = u32 data.
Proof.
  unfold inl, outl, inw, outw, inb, outb. cbn. rewrite !Z.eqb_refl.
  assert (∀ i j, 0 ≤ i < 4 → 0 ≤ j < 4 → i ≠ j → u16 (port + i) =? u16 (port + j) = false) as Hne.
  { intros i j Hi Hj Hij. apply Z.eqb_neq. unfold u16. zlia. }
  replace (u16 port) with (u16 (port + 0)) by (by rewrite Z.add_0_r). rewrite <- !Z.add_assoc. change (2 + 1) with 3.
  rewrite !Hne by lia. unfold u8, u32. zlia.
Qed.
