(* ===== verification/Pic.v ===== *)
(** * i8259.c: the interrupt controllers

    State: the two mask bytes the driver shadows, and the device.  A line is
    masked when its bit is set; lines 0-7 are the master's, 8-15 the slave's. *)

From S2P Require Import Prelude Ports.

Definition MASTER_8259_PORT := 0x20.
Definition SLAVE_8259_PORT := 0xA0.
Definition ICW1 := 0x11.
Definition ICW2_MASTER := 0x20.
Definition ICW2_SLAVE := 0x28.
Definition ICW3_MASTER := 0x04.
Definition ICW3_SLAVE := 0x02.
Definition ICW4 := 0x01.
Definition SLAVE_IRQ := 2.
Definition EOI := 0x60.

Record pic := Pic { master_mask : Z; slave_mask : Z }.

(** The initial values of the two globals. *)
Definition pic0 : pic := Pic 0xff 0xff.

Section operations.
Context `{PortIO D}.

Definition i8259_init (d : D) : D :=
  let d := outb ICW1 MASTER_8259_PORT d in
  let d := outb ICW2_MASTER (MASTER_8259_PORT + 1) d in
  let d := outb ICW3_MASTER (MASTER_8259_PORT + 1) d in
  let d := outb ICW4 (MASTER_8259_PORT + 1) d in
  let d := outb ICW1 SLAVE_8259_PORT d in
  let d := outb ICW2_SLAVE (SLAVE_8259_PORT + 1) d in
  let d := outb ICW3_SLAVE (SLAVE_8259_PORT + 1) d in
  outb ICW4 (SLAVE_8259_PORT + 1) d.

(** The two statements every case of the switches consists of. *)
Definition set_master (mask : Z) (p : pic) (d : D) : pic * D :=
  (Pic mask (slave_mask p), outb mask (MASTER_8259_PORT + 1) d).
Definition set_slave (mask : Z) (p : pic) (d : D) : pic * D :=
  (Pic (master_mask p) mask, outb mask (SLAVE_8259_PORT + 1) d).

Definition enable_irq (irq_num : Z) (p : pic) (d : D) : pic * D :=
  if (irq_num <? 0) || (15 <? irq_num) then (p, d)
  else match irq_num with
  | 0 => set_master (Z.land 0xfe (master_mask p)) p d
  | 1 => set_master (Z.land 0xfd (master_mask p)) p d
  | 2 => set_master (Z.land 0xfb (master_mask p)) p d
  | 3 => set_master (Z.land 0xf7 (master_mask p)) p d
  | 4 => set_master (Z.land 0xef (master_mask p)) p d
  | 5 => set_master (Z.land 0xdf (master_mask p)) p d
  | 6 => set_master (Z.land 0xbf (master_mask p)) p d
  | 7 => set_master (Z.land 0x7f (master_mask p)) p d
  | 8 => set_slave (Z.land 0xfe (slave_mask p)) p d
  | 9 => set_slave (Z.land 0xfd (slave_mask p)) p d
  | 10 => set_slave (Z.land 0xfb (slave_mask p)) p d
  | 11 => set_slave (Z.land 0xf7 (slave_mask p)) p d
  | 12 => set_slave (Z.land 0xef (slave_mask p)) p d
  | 13 => set_slave (Z.land 0xdf (slave_mask p)) p d
  | 14 => set_slave (Z.land 0xbf (slave_mask p)) p d
  | 15 => set_slave (Z.land 0x7f (slave_mask p)) p d
  | _ => (p, d)
  end.

Definition disable_irq (irq_num : Z) (p : pic) (d : D) : pic * D :=
  if (irq_num <? 0) || (15 <? irq_num) then (p, d)
  else match irq_num with
  | 0 => set_master (Z.lor 0x01 (master_mask p)) p d
  | 1 => set_master (Z.lor 0x02 (master_mask p)) p d
  | 2 => set_master (Z.lor 0x04 (master_mask p)) p d
  | 3 => set_master (Z.lor 0x08 (master_mask p)) p d
  | 4 => set_master (Z.lor 0x10 (master_mask p)) p d
  | 5 => set_master (Z.lor 0x20 (master_mask p)) p d
  | 6 => set_master (Z.lor 0x40 (master_mask p)) p d
  | 7 => set_master (Z.lor 0x80 (master_mask p)) p d
  | 8 => set_slave (Z.lor 0x01 (slave_mask p)) p d
  | 9 => set_slave (Z.lor 0x02 (slave_mask p)) p d
  | 10 => set_slave (Z.lor 0x04 (slave_mask p)) p d
  | 11 => set_slave (Z.lor 0x08 (slave_mask p)) p d
  | 12 => set_slave (Z.lor 0x10 (slave_mask p)) p d
  | 13 => set_slave (Z.lor 0x20 (slave_mask p)) p d
  | 14 => set_slave (Z.lor 0x40 (slave_mask p)) p d
  | 15 => set_slave (Z.lor 0x80 (slave_mask p)) p d
  | _ => (p, d)
  end.

Definition send_eoi (irq_num : Z) (d : D) : D :=
  if (irq_num <? 0) || (15 <? irq_num) then d
  else if (0 <=? irq_num) && (irq_num <? 8)
  then outb (Z.lor EOI irq_num) MASTER_8259_PORT d
  else
    let d := outb (Z.lor EOI (irq_num - 8)) SLAVE_8259_PORT d in
    outb (Z.lor EOI SLAVE_IRQ) MASTER_8259_PORT d.
End operations.

(** ** Specification: sixteen lines, each masked or not *)

Definition masked (p : pic) (line : Z) : bool :=
  if line <? 8 then Z.testbit (master_mask p) line else Z.testbit (slave_mask p) (line - 8).

Definition pic_ok (p : pic) : Prop := 0 ≤ master_mask p < 256 ∧ 0 ≤ slave_mask p < 256.

(** The mask register of the controller that owns a line: value and port. *)
Definition mask_byte (p : pic) (line : Z) : Z :=
  if line <? 8 then master_mask p else slave_mask p.
Definition mask_port (line : Z) : Z :=
  if line <? 8 then MASTER_8259_PORT + 1 else SLAVE_8259_PORT + 1.

Lemma pic0_ok : pic_ok pic0.
Proof. unfold pic_ok, pic0. cbn. lia. Qed.

(** Splits a line number into its sixteen values. *)
Ltac each_line l :=
  let H := fresh in
  assert (l = 0 ∨ l = 1 ∨ l = 2 ∨ l = 3 ∨ l = 4 ∨ l = 5 ∨ l = 6 ∨ l = 7 ∨ l = 8 ∨ l = 9 ∨
          l = 10 ∨ l = 11 ∨ l = 12 ∨ l = 13 ∨ l = 14 ∨ l = 15) as H by lia;
  repeat destruct H as [->|H]; [..|subst l].

(** The bits a case of a switch clears or sets. *)
Definition bit_mask (line : Z) : Z := 2 ^ (line mod 8).

Lemma byte_fix m : 0 ≤ m < 256 → Z.land m 255 = m.
Proof. intros. change 255 with (Z.ones 8). rewrite Z.land_ones by lia. by apply Z.mod_small. Qed.

Lemma byte_land a m : 0 ≤ m < 256 → 0 ≤ Z.land a m < 256.
Proof.
  intros Hm. rewrite <- (byte_fix m), Z.land_assoc by done. change 255 with (Z.ones 8).
  rewrite Z.land_ones by lia. by apply Z.mod_pos_bound.
Qed.

Lemma byte_lor a m : 0 ≤ a < 256 → 0 ≤ m < 256 → 0 ≤ Z.lor a m < 256.
Proof.
  intros Ha Hm. rewrite <- (byte_fix m), <- (byte_fix a), <- Z.land_lor_distr_l by done.
  change 255 with (Z.ones 8). rewrite Z.land_ones by lia. by apply Z.mod_pos_bound.
Qed.

Lemma with_bit m k j :
  0 ≤ k < 8 → 0 ≤ j < 8 → 0 ≤ m < 256 →
  (Z.testbit (Z.land (255 - 2 ^ k) m) j = negb (j =? k) && Z.testbit m j) ∧
  (Z.testbit (Z.lor (2 ^ k) m) j = (j =? k) || Z.testbit m j) ∧
  0 ≤ Z.land (255 - 2 ^ k) m < 256 ∧ 0 ≤ Z.lor (2 ^ k) m < 256.
Proof.
  intros Hk Hj Hm.
  assert (Forall (λ k, Forall (λ j,
    Z.testbit (255 - 2 ^ k) j = negb (j =? k) ∧ Z.testbit (2 ^ k) j = (j =? k) ∧
    0 ≤ 255 - 2 ^ k < 256 ∧ 0 ≤ 2 ^ k < 256) (seqZ 0 8)) (seqZ 0 8)) as Hall
    by by_decide.
  rewrite Forall_forall in Hall. specialize (Hall k ltac:(apply elem_of_seqZ; lia)).
  rewrite Forall_forall in Hall. specialize (Hall j ltac:(apply elem_of_seqZ; lia)).
  destruct Hall as (H1 & H2 & H3 & H4). rewrite Z.land_spec, Z.lor_spec, H1, H2.
  split_and!; [done|done|..]; apply byte_land || apply byte_lor; done.
Qed.

(** The two switches, uniformly in the line. *)
Section uniform.
Context `{PortIO D} (line : Z) (p : pic) (d : D) (Hl : 0 ≤ line < 16).

Definition set_mask (line mask : Z) (p : pic) (d : D) : pic * D :=
  if line <? 8 then set_master mask p d else set_slave mask p d.

Lemma enable_irq_uniform :
  enable_irq line p d = set_mask line (Z.land (255 - bit_mask line) (mask_byte p line)) p d.
Proof. each_line line; reflexivity. Qed.

Lemma disable_irq_uniform :
  disable_irq line p d = set_mask line (Z.lor (bit_mask line) (mask_byte p line)) p d.
Proof. each_line line; reflexivity. Qed.

Lemma set_mask_spec mask :
  0 ≤ mask < 256 → pic_ok p →
  let '(p', d') := set_mask line mask p d in
  pic_ok p' ∧ d' = outb (mask_byte p' line) (mask_port line) d ∧
  ∀ l, 0 ≤ l < 16 →
    masked p' l = if Bool.eqb (l <? 8) (line <? 8) then Z.testbit mask (l mod 8) else masked p l.
Proof.
  unfold set_mask, pic_ok, mask_byte, mask_port, masked. intros Hm [Hp1 Hp2].
  destruct (Z.ltb_spec line 8); cbn; (split; [lia|]); (split; [done|]);
    intros l ?; case_z; cbn; try done; f_equal; zlia.
Qed.
End uniform.

Lemma mask_byte_range p l : pic_ok p → 0 ≤ mask_byte p l < 256.
Proof. unfold pic_ok, mask_byte. case_z; lia. Qed.

Lemma masked_byte p l : 0 ≤ l < 16 → masked p l = Z.testbit (mask_byte p l) (l mod 8).
Proof. intros. unfold masked, mask_byte. case_z; f_equal; zlia. Qed.

Lemma same_line l line :
  0 ≤ l < 16 → 0 ≤ line < 16 → Bool.eqb (l <? 8) (line <? 8) = true →
  (l mod 8 =? line mod 8) = (l =? line).
Proof. case_z; cbn; try done; zlia. Qed.

(** What enable_irq and disable_irq do to a line and to the hardware. *)
Section lines.
Context `{PortIO D} (line : Z) (p : pic) (d : D).

Lemma irq_switch_spec (f : Z → Z) (b : bool) :
  0 ≤ line < 16 → pic_ok p →
  (∀ m, 0 ≤ m < 256 → 0 ≤ f m < 256 ∧ ∀ j, 0 ≤ j < 8 →
     Z.testbit (f m) j = if j =? line mod 8 then b else Z.testbit m j) →
  let '(p', d') := set_mask line (f (mask_byte p line)) p d in
  pic_ok p' ∧ d' = outb (mask_byte p' line) (mask_port line) d ∧
  ∀ l, 0 ≤ l < 16 → masked p' l = if l =? line then b else masked p l.
Proof.
  intros Hl Hp Hf. pose proof (mask_byte_range p line Hp) as Hm.
  destruct (Hf _ Hm) as [Hr Hb].
  pose proof (set_mask_spec line p d Hl (f (mask_byte p line)) Hr Hp) as Hspec.
  destruct (set_mask _ _ _ _) as [p' d']. destruct Hspec as (Hok & Hd & Hmask).
  split_and!; [done|done|]. intros l ?. rewrite Hmask by done.
  destruct (Bool.eqb (l <? 8) (line <? 8)) eqn:He.
  - rewrite Hb by zlia. rewrite same_line by done. destruct (l =? line); [done|].
    rewrite masked_byte by done. f_equal. unfold mask_byte.
    destruct (l <? 8), (line <? 8); done.
  - destruct (Z.eqb_spec l line) as [->|]; [|done]. by rewrite Bool.eqb_reflx in He.
Qed.
End lines.

Lemma enable_irq_spec `{PortIO D} line p (d : D) :
  pic_ok p → 0 ≤ line < 16 →
  let '(p', d') := enable_irq line p d in
  pic_ok p' ∧ d' = outb (mask_byte p' line) (mask_port line) d ∧
  ∀ l, 0 ≤ l < 16 → masked p' l = if l =? line then false else masked p l.
Proof.
  intros Hp Hl. rewrite enable_irq_uniform by done.
  apply (irq_switch_spec line p d (λ m, Z.land (255 - bit_mask line) m) false); try done.
  intros m Hm. unfold bit_mask. split; [|intros j Hj].
  - destruct (with_bit m (line mod 8) 0) as (_ & _ & ? & _); done || zlia.
  - destruct (with_bit m (line mod 8) j ltac:(zlia) Hj Hm) as (-> & _).
    by destruct (j =? line mod 8).
Qed.

Lemma disable_irq_spec `{PortIO D} line p (d : D) :
  pic_ok p → 0 ≤ line < 16 →
  let '(p', d') := disable_irq line p d in
  pic_ok p' ∧ d' = outb (mask_byte p' line) (mask_port line) d ∧
  ∀ l, 0 ≤ l < 16 → masked p' l = if l =? line then true else masked p l.
Proof.
  intros Hp Hl. rewrite disable_irq_uniform by done.
  apply (irq_switch_spec line p d (λ m, Z.lor (bit_mask line) m) true); try done.
  intros m Hm. unfold bit_mask. split; [|intros j Hj].
  - destruct (with_bit m (line mod 8) 0) as (_ & _ & _ & ?); done || zlia.
  - destruct (with_bit m (line mod 8) j ltac:(zlia) Hj Hm) as (_ & -> & _).
    by destruct (j =? line mod 8).
Qed.

(** Enabling a line clears that line's mask bit and no other one, keeps
    both shadow masks bytes, and writes the owning controller's new mask,
    once, to that controller's data port; a number that is not a line changes
    nothing. *)
Theorem enable_irq_unmasks `{PortIO D} line p (d : D) :
  pic_ok p →
  let '(p', d') := enable_irq line p d in
  pic_ok p' ∧
  (if (0 <=? line) && (line <? 16)
   then d' = outb (mask_byte p' line) (mask_port line) d ∧
        ∀ l, 0 ≤ l < 16 → masked p' l = if l =? line then false else masked p l
   else p' = p ∧ d' = d).
Proof.
  intros Hp. destruct ((0 <=? line) && (line <? 16)) eqn:E.
  - assert (0 ≤ line < 16) as Hl by (revert E; case_z; cbn; lia || done).
    pose proof (enable_irq_spec line p d Hp Hl) as Hs. by destruct (enable_irq line p d).
  - replace (enable_irq line p d) with (p, d); [done|]. unfold enable_irq.
    revert E. case_z; cbn; try lia; done.
Qed.

Lemma enable_irq_unmasks_witness :
  let '(p', d') := enable_irq 1 pic0 silent in
  pic_ok p' ∧ d' = outb 0xfd 0x21 silent ∧
  ∀ l, 0 ≤ l < 16 → masked p' l = if l =? 1 then false else masked pic0 l.
Proof. exact (enable_irq_unmasks 1 pic0 silent pic0_ok). Defined.

(** Disabling a line sets that line's mask bit and no other one, keeps
    both shadow masks bytes, and writes the owning controller's new mask,
    once, to that controller's data port; a number that is not a line changes
    nothing. *)
Theorem disable_irq_masks `{PortIO D} line p (d : D) :
  pic_ok p →
  let '(p', d') := disable_irq line p d in
  pic_ok p' ∧
  (if (0 <=? line) && (line <? 16)
   then d' = outb (mask_byte p' line) (mask_port line) d ∧
        ∀ l, 0 ≤ l < 16 → masked p' l = if l =? line then true else masked p l
   else p' = p ∧ d' = d).
Proof.
  intros Hp. destruct ((0 <=? line) && (line <? 16)) eqn:E.
  - assert (0 ≤ line < 16) as Hl by (revert E; case_z; cbn; lia || done).
    pose proof (disable_irq_spec line p d Hp Hl) as Hs. by destruct (disable_irq line p d).
  - replace (disable_irq line p d) with (p, d); [done|]. unfold disable_irq.
    revert E. case_z; cbn; try lia; done.
Qed.

Lemma disable_irq_masks_witness :
  let '(p', d') := disable_irq 8 (Pic 0xfb 0xfe) silent in
  pic_ok p' ∧ d' = outb 0xff 0xa1 silent ∧
  ∀ l, 0 ≤ l < 16 → masked p' l = if l =? 8 then true else masked (Pic 0xfb 0xfe) l.
Proof.
  apply (disable_irq_masks 8 (Pic 0xfb 0xfe) silent). unfold pic_ok. cbn. lia.
Defined.

(** The end of interrupt of a line goes as a specific EOI to the
    controller that raised it; for a slave line the slave is acknowledged
    first and then the master's cascade line 2, and nothing else is written. *)
Theorem send_eoi_sequence line :
  writes (send_eoi line silent) =
    if (0 <=? line) && (line <? 8) then [(0x60 + line, 0x20)]
    else if (8 <=? line) && (line <? 16) then [(0x62, 0x20); (0x60 + (line - 8), 0xa0)]
    else [].
Proof.
  destruct (decide (0 ≤ line < 16)) as [Hl|Hl].
  - each_line line; reflexivity.
  - unfold send_eoi. case_z; cbn; try lia; done.
Qed.
