(* ===== verification/Rtc.v ===== *)
(** * rtc.c: the real-time clock driver

    State: the flag [rtc_interrupt_occurred] a reader spins on, the interrupt
    controllers' masks, and the device.  [Cmos] states the documented
    behaviour of the clock chip behind ports 0x70 and 0x71. *)

From S2P Require Import Prelude Memory Ports Pic.

Definition RTC_IRQ := 8.
Definition RTC_PORT := 0x70.
Definition CMOS_PORT := 0x71.
Definition PIE_ENABLE := 0x40.
Definition REGA := 0x8A.
Definition REGB := 0x8B.
Definition REGC := 0x8C.
Definition RESET_RV := 0xf0.
Definition SLAVE := 2.

(** A port-mapped device that contains the clock: [cmos_reg d r] is register
    [r].  A write to 0x70 selects the register the next access of 0x71 uses
    (bit 7 is the NMI mask); reading register A or B changes neither. *)
Class Cmos (D : Type) `{PortIO D} := {
  cmos_sel : D → Z;
  cmos_reg : D → Z → Z;
  cmos_select v d : cmos_sel (dev_out v RTC_PORT d) = Z.land v 0x7f;
  cmos_select_reg v d r : cmos_reg (dev_out v RTC_PORT d) r = cmos_reg d r;
  cmos_write v d r : cmos_reg (dev_out v CMOS_PORT d) r =
    if r =? cmos_sel d then v else cmos_reg d r;
  cmos_read d : cmos_sel d ∈ [0xA; 0xB] → fst (dev_in CMOS_PORT d) = cmos_reg d (cmos_sel d);
  cmos_read_reg d r : r ∈ [0xA; 0xB] → cmos_reg (snd (dev_in CMOS_PORT d)) r = cmos_reg d r;
  cmos_other v p d r : p ≠ RTC_PORT → p ≠ CMOS_PORT → cmos_reg (dev_out v p d) r = cmos_reg d r
}.

Section operations.
Context `{PortIO D}.

(** Read, modify and write back register [reg]; both drivers' sequences
    select the register again before the write. *)
Definition rtc_init (p : pic) (d : D) : pic * D :=
  let d := outb REGB RTC_PORT d in
  let '(prev, d) := inb CMOS_PORT d in
  let prev := s8 prev in
  let d := outb REGB RTC_PORT d in
  let d := outb (Z.lor prev PIE_ENABLE) CMOS_PORT d in
  let rate := 0x0f in
  let d := outb REGA RTC_PORT d in
  let '(prev, d) := inb CMOS_PORT d in
  let prev := s8 prev in
  let d := outb REGA RTC_PORT d in
  let d := outb (Z.lor (Z.land prev RESET_RV) rate) CMOS_PORT d in
  let '(p, d) := enable_irq SLAVE p d in
  enable_irq RTC_IRQ p d.

(** The first component is [rtc_interrupt_occurred]. *)
Definition rtc_handler (d : D) : Z * D :=
  let d := outb REGC RTC_PORT d in
  let '(_, d) := inb CMOS_PORT d in
  (0, send_eoi RTC_IRQ d).

(** The switch of rtc_write. *)
Definition rtc_rate (frequency : Z) : option Z :=
  match frequency with
  | 1024 => Some 0x06
  | 512 => Some 0x07
  | 256 => Some 0x08
  | 128 => Some 0x09
  | 64 => Some 0x0A
  | 32 => Some 0x0B
  | 16 => Some 0x0C
  | 8 => Some 0x0D
  | 4 => Some 0x0E
  | 2 => Some 0x0F
  | 0 => Some 0x00
  | _ => None
  end.

Definition rtc_write (m : mem) (fd buf nbytes : Z) (d : D) : Z * D :=
  if negb (nbytes =? 4) then (-1, d)
  else
    let frequency := s32 (rd32 m buf) in
    if 1024 <? frequency then (-1, d)
    else match rtc_rate frequency with
    | None => (-1, d)
    | Some rate =>
        let d := outb REGA RTC_PORT d in
        let '(prev, d) := inb CMOS_PORT d in
        let prev := s8 prev in
        let d := outb REGA RTC_PORT d in
        let d := outb (Z.lor (Z.land prev RESET_RV) rate) CMOS_PORT d in
        (nbytes, d)
    end.

Definition rtc_open (filename : Z) : Z := 0.
Definition rtc_close : Z := 0.
End operations.

(** rtc_read over any state that contains the flag: set it and spin until an
    interrupt delivered meanwhile has cleared it. *)
Definition rtc_read {Ev St} (flag : St → Z) (set_flag : Z → St → St)
    (deliver : Ev → St → res St) (sched : list Ev) (s : St) : res (Z * St * list Ev) :=
  '(s, rest) ← spin (λ s, flag s =? 1) deliver sched (set_flag 1 s);
  Ok (0, s, rest).

(** ** The read-modify-write sequence *)

Section laws.
Context `{Cmos D}.
Implicit Types d : D.

Lemma outb_select reg d :
  0 ≤ reg < 256 →
  cmos_sel (outb reg RTC_PORT d) = Z.land reg 0x7f ∧
  ∀ r, cmos_reg (outb reg RTC_PORT d) r = cmos_reg d r.
Proof.
  intros Hreg. unfold outb. change (u16 RTC_PORT) with RTC_PORT. rewrite u8_small by done.
  split; [apply cmos_select | intros; apply cmos_select_reg].
Qed.

Lemma outb_other v p d r :
  u16 p ≠ RTC_PORT → u16 p ≠ CMOS_PORT → cmos_reg (outb v p d) r = cmos_reg d r.
Proof. intros. unfold outb. by apply cmos_other. Qed.

Lemma update_register reg (f : Z → Z) d :
  reg = REGA ∨ reg = REGB →
  let d1 := outb reg RTC_PORT d in
  let '(prev, d2) := inb CMOS_PORT d1 in
  let d3 := outb reg RTC_PORT d2 in
  let d4 := outb (f (s8 prev)) CMOS_PORT d3 in
  ∀ r, r ∈ [0xA; 0xB] →
    cmos_reg d4 r =
      if r =? Z.land reg 0x7f then u8 (f (s8 (cmos_reg d r))) else cmos_reg d r.
Proof.
  intros Hreg. assert (0 ≤ reg < 256) as Hr by (destruct Hreg; subst; done).
  assert (Z.land reg 0x7f ∈ [0xA; 0xB]) as Hin.
  { destruct Hreg as [-> | ->]; cbn; set_solver. }
  cbn zeta. destruct (outb_select reg d Hr) as [Hs1 Hr1].
  set (d1 := outb reg RTC_PORT d) in *.
  destruct (inb CMOS_PORT d1) as [prev d2] eqn:E.
  intros r Hin'. destruct (outb_select reg d2 Hr) as [Hs3 Hr3].
  assert (∀ r, r ∈ [0xA; 0xB] → cmos_reg d2 r = cmos_reg d1 r) as Hr2.
  { intros r' ?. rewrite <- (cmos_read_reg d1) by done. revert E. unfold inb.
    change (u16 CMOS_PORT) with CMOS_PORT. by destruct (dev_in CMOS_PORT d1); intros [= _ <-]. }
  assert (prev = u8 (cmos_reg d (Z.land reg 0x7f))) as ->.
  { rewrite <- Hr1, <- Hs1, <- cmos_read by by rewrite Hs1. revert E. unfold inb.
    change (u16 CMOS_PORT) with CMOS_PORT. by destruct (dev_in CMOS_PORT d1); intros [= <- _]. }
  unfold outb at 1. change (u16 CMOS_PORT) with CMOS_PORT.
  rewrite cmos_write, Hs3, s8_u8, Hr3, Hr2, Hr1 by done.
  destruct (Z.eqb_spec r (Z.land reg 0x7f)) as [->|]; done.
Qed.

(** Replacing the low nibble of a register by a rate. *)
Lemma set_rate v rate :
  0 ≤ v < 256 → 0 ≤ rate < 16 →
  u8 (Z.lor (Z.land (s8 v) RESET_RV) rate) = v - v mod 16 + rate.
Proof.
  intros Hv Hrate.
  assert (Forall (λ v, Forall (λ rate, u8 (Z.lor (Z.land (s8 v) RESET_RV) rate) =
            v - v mod 16 + rate) (seqZ 0 16)) (seqZ 0 256)) as Hall
    by by_decide.
  rewrite Forall_forall in Hall. specialize (Hall v). rewrite Forall_forall in Hall.
  apply Hall; apply elem_of_seqZ; lia.
Qed.

Lemma set_pie v :
  0 ≤ v < 256 → u8 (Z.lor (s8 v) PIE_ENABLE) = Z.lor v 0x40.
Proof.
  intros Hv.
  assert (Forall (λ v, u8 (Z.lor (s8 v) PIE_ENABLE) = Z.lor v 0x40) (seqZ 0 256)) as Hall
    by by_decide.
  rewrite Forall_forall in Hall. apply Hall, elem_of_seqZ. lia.
Qed.

(** The frequencies the driver accepts: 0 (off) and the powers of two from 2 to 1024. *)
Definition accepted (frequency : Z) : Prop :=
  frequency ∈ [0; 2; 4; 8; 16; 32; 64; 128; 256; 512; 1024].

#[export] Instance accepted_dec f : Decision (accepted f).
Proof. apply _. Defined.

Lemma rtc_rate_spec f :
  match rtc_rate f with
  | Some rate => accepted f ∧ 0 ≤ rate < 16 ∧ (f ≠ 0 → Z.shiftr 32768 (rate - 1) = f)
  | None => ¬ accepted f
  end.
Proof.
  destruct (decide (accepted f)) as [Hf|Hf].
  - unfold accepted in *. rewrite !elem_of_cons, elem_of_nil in Hf.
    repeat destruct Hf as [->|Hf]; [..|done]; cbn;
      (split; [set_solver|split; [lia|by intros]]).
  - destruct (rtc_rate f) as [rate|] eqn:E; [|done]. exfalso. apply Hf. revert E.
    unfold rtc_rate, accepted. rewrite !elem_of_cons.
    repeat case_match; intros; try discriminate; subst; tauto.
Qed.
End laws.

(** A concrete clock: writes to other ports are ignored. *)
Record chip := Chip { chip_sel : Z; chip_regs : Z → Z }.

#[export] Instance chip_io : PortIO chip := {
  dev_out v p c :=
    if p =? RTC_PORT then Chip (Z.land v 0x7f) (chip_regs c)
    else if p =? CMOS_PORT then Chip (chip_sel c) (λ r, if r =? chip_sel c then v else chip_regs c r)
    else c;
  dev_in p c := (if p =? CMOS_PORT then chip_regs c (chip_sel c) else 0, c)
}.

#[export] Program Instance chip_cmos : Cmos chip := {
  cmos_sel := chip_sel;
  cmos_reg := chip_regs
}.
Next Obligation. done. Qed.
Next Obligation. done. Qed.
Next Obligation. done. Qed.
Next Obligation. done. Qed.
Next Obligation. done. Qed.
Next Obligation. intros v p d r ??. cbn. by cases_z. Qed.

(** ** Properties *)

Section properties.
Context `{Cmos D}.

Lemma send_eoi_other line d r : cmos_reg (send_eoi line d) r = cmos_reg d r.
Proof.
  unfold send_eoi. repeat case_match; try done; rewrite ?outb_other by done; done.
Qed.

Lemma set_mask_other line mask p d r :
  cmos_reg (snd (set_mask line mask p d)) r = cmos_reg d r.
Proof. unfold set_mask. case_match; cbn; by rewrite outb_other. Qed.

Lemma enable_irq_other line p d r :
  0 ≤ line < 16 → cmos_reg (snd (enable_irq line p d)) r = cmos_reg d r.
Proof. intros. rewrite enable_irq_uniform by done. apply set_mask_other. Qed.
End properties.

(** rtc_write accepts exactly 4-byte requests for frequency 0 or a power
    of two from 2 to 1024.  It then returns 4 and sets the low nibble of
    register A to the rate with 32768 >> (rate - 1) = frequency, keeping the
    high nibble and register B.  Any other request returns -1 and does not
    touch the device. *)
Theorem rtc_write_sets_rate `{Cmos D} m fd buf nbytes (d : D) :
  0 ≤ cmos_reg d 0xA < 256 →
  let frequency := s32 (rd32 m buf) in
  let '(r, d') := rtc_write m fd buf nbytes d in
  if decide (nbytes = 4 ∧ accepted frequency) then
    r = 4 ∧ cmos_reg d' 0xB = cmos_reg d 0xB ∧
    ∃ rate, 0 ≤ rate < 16 ∧ (frequency ≠ 0 → Z.shiftr 32768 (rate - 1) = frequency) ∧
      cmos_reg d' 0xA = cmos_reg d 0xA - cmos_reg d 0xA mod 16 + rate
  else r = -1 ∧ d' = d.
Proof.
  intros HA. cbn zeta. unfold rtc_write. pose proof (rtc_rate_spec (s32 (rd32 m buf))) as Hrate.
  destruct (Z.eqb_spec nbytes 4) as [->|]; cbn [negb]; [|case_decide; by intuition].
  destruct (Z.ltb_spec 1024 (s32 (rd32 m buf))) as [Hbig|_].
  { case_decide as Hd; [|done]. destruct Hd as [_ Hd]. revert Hd. unfold accepted.
    rewrite !elem_of_cons, elem_of_nil. lia. }
  destruct (rtc_rate _) as [rate|]; [|case_decide; by intuition].
  destruct Hrate as (Hacc & Hr & Hshift).
  pose proof (update_register REGA (λ v, Z.lor (Z.land v RESET_RV) rate) d (or_introl eq_refl)) as Hu.
  cbn zeta in *. destruct (inb _ _) as [prev d2]. rewrite decide_True by done.
  split_and!; [done| |exists rate; split_and!; [lia|lia|done|]].
  - rewrite Hu by set_solver. done.
  - rewrite Hu by set_solver. by apply set_rate.
Qed.

(** The clock with registers A = 0x26 and B = 0x02 asked for 32 Hz. *)
Definition chip_boot : chip := Chip 0 (λ r, if r =? 0xA then 0x26 else 0x02).

Lemma rtc_write_sets_rate_witness :
  let d' := snd (rtc_write (wr32 mem0 100 32) 2 100 4 chip_boot) in
  cmos_reg d' 0xB = 0x02 ∧ ∃ rate, cmos_reg d' 0xA = 0x20 + rate ∧ Z.shiftr 32768 (rate - 1) = 32.
Proof.
  pose proof (rtc_write_sets_rate (wr32 mem0 100 32) 2 100 4 chip_boot ltac:(by vm_compute)) as Hw.
  rewrite rd32_wr32_eq in Hw. change (s32 (u32 32)) with 32 in Hw.
  destruct (rtc_write _ _ _ _ _) as [r d']. cbn zeta in *.
  rewrite decide_True in Hw by (split; [done|unfold accepted; set_solver]).
  destruct Hw as (_ & HB & rate & _ & Hf & HA). split; [exact HB|].
  exists rate. split; [exact HA|]. apply Hf. lia.
Defined.

(** rtc_init turns the periodic interrupt on (bit 6 of register B, its
    other bits kept), selects the 2 Hz rate 15 in the low nibble of register A
    (its high nibble kept), and unmasks exactly the cascade line 2 and the
    clock's line 8. *)
Theorem rtc_init_enables_clock `{Cmos D} p (d : D) :
  0 ≤ cmos_reg d 0xA < 256 → 0 ≤ cmos_reg d 0xB < 256 → pic_ok p →
  let '(p', d') := rtc_init p d in
  cmos_reg d' 0xB = Z.lor (cmos_reg d 0xB) 0x40 ∧
  cmos_reg d' 0xA = cmos_reg d 0xA - cmos_reg d 0xA mod 16 + 15 ∧
  pic_ok p' ∧
  ∀ l, 0 ≤ l < 16 → masked p' l = if (l =? 2) || (l =? 8) then false else masked p l.
Proof.
  intros HA HB Hp. unfold rtc_init.
  pose proof (update_register REGB (λ v, Z.lor v PIE_ENABLE) d (or_intror eq_refl)) as Hb.
  cbn zeta in *. destruct (inb _ (outb REGB RTC_PORT d)) as [prev d1].
  set (d2 := outb (Z.lor (s8 prev) PIE_ENABLE) CMOS_PORT (outb REGB RTC_PORT d1)) in *.
  pose proof (update_register REGA (λ v, Z.lor (Z.land v RESET_RV) 0x0f) d2 (or_introl eq_refl)) as Ha.
  cbn zeta in *. destruct (inb _ (outb REGA RTC_PORT d2)) as [prev' d3].
  set (d4 := outb (Z.lor (Z.land (s8 prev') RESET_RV) 0x0f) CMOS_PORT
               (outb REGA RTC_PORT d3)) in *.
  pose proof (enable_irq_spec SLAVE p d4 Hp ltac:(done)) as H2.
  pose proof (λ r, enable_irq_other SLAVE p d4 r ltac:(done)) as O2.
  destruct (enable_irq SLAVE p d4) as [p2 d5]. destruct H2 as (Hp2 & _ & Hm2).
  pose proof (enable_irq_spec RTC_IRQ p2 d5 Hp2 ltac:(done)) as H8.
  pose proof (λ r, enable_irq_other RTC_IRQ p2 d5 r ltac:(done)) as O8.
  destruct (enable_irq RTC_IRQ p2 d5) as [p3 d6]. destruct H8 as (Hp3 & _ & Hm8).
  cbn [snd] in *. rewrite !O8, !O2, !Ha, !Hb by set_solver. cbn.
  split_and!; [by apply set_pie|by apply set_rate|done|].
  intros l Hl. rewrite Hm8, Hm2 by done. unfold SLAVE, RTC_IRQ.
  by destruct (l =? 2), (l =? 8).
Qed.

Lemma rtc_init_enables_clock_witness :
  let '(p', d') := rtc_init pic0 chip_boot in
  cmos_reg d' 0xB = 0x42 ∧ cmos_reg d' 0xA = 0x2f ∧ pic_ok p' ∧
  ∀ l, 0 ≤ l < 16 → masked p' l = if (l =? 2) || (l =? 8) then false else masked pic0 l.
Proof.
  exact (rtc_init_enables_clock pic0 chip_boot ltac:(by vm_compute) ltac:(by vm_compute) pic0_ok).
Defined.
