(* ===== verification/Console.v ===== *)
(** * lib.c: the text console

    State: the two cursor coordinates lib.c keeps, the memory with the video
    page at 0xB8000 (a character byte and an attribute byte per cell), and the
    device behind the ports.  The abstract console is a grid of 25 rows of 80
    characters with a cursor position; every operation refines it. *)

From S2P Require Import Prelude Memory LibString Ports.

Definition VIDEO := 0xB8000.
Definition NUM_COLS := 80.
Definition NUM_ROWS := 25.
Definition ATTRIB := 0x7.

Record con (D : Type) := Con { vmem : mem; screen_x : Z; screen_y : Z; dev : D }.
Arguments Con {D} _ _ _ _.
Arguments vmem {D} _.
Arguments screen_x {D} _.
Arguments screen_y {D} _.
Arguments dev {D} _.

Section operations.
Context {D : Type}.
Implicit Types c : con D.

Definition set_vmem (m : mem) c := Con m (screen_x c) (screen_y c) (dev c).

(** The address of cell [i]: [video_mem + (i << 1)]. *)
Definition cell (i : Z) : Z := VIDEO + Z.shiftl i 1.

(** [*cell = ch; *(cell + 1) = ATTRIB] *)
Definition put_cell (i ch : Z) (m : mem) : mem := wr (wr m (cell i) ch) (cell i + 1) ATTRIB.

(** The first loop of terminal_scroll_down moves every row up by one. *)
Definition shift_rows (m : mem) : mem :=
  for_ (Z.to_nat ((NUM_ROWS - 1) * NUM_COLS)) 0 (λ i m,
    let m := wr m (cell i) (rd m (cell (i + NUM_COLS))) in
    wr m (cell i + 1) (rd m (cell (i + NUM_COLS) + 1))) m.

(** The second loop blanks the last row. *)
Definition blank_last (m : mem) : mem :=
  for_ (Z.to_nat NUM_COLS) 0 (λ i, put_cell ((NUM_ROWS - 1) * NUM_COLS + i) 32) m.

Definition terminal_scroll_down c : con D :=
  let m := blank_last (shift_rows (vmem c)) in
  Con m (screen_x c) (if 0 <? screen_y c then screen_y c - 1 else screen_y c) (dev c).

Definition update_terminal_cursor `{PortIO D} c : con D :=
  let pos := u16 (screen_y c * NUM_COLS + screen_x c) in
  let d := outb 0x0F 0x3D4 (dev c) in
  let d := outb (Z.land pos 0xFF) 0x3D5 d in
  let d := outb 0x0E 0x3D4 d in
  let d := outb (Z.land (Z.shiftr pos 8) 0xFF) 0x3D5 d in
  Con (vmem c) (screen_x c) (screen_y c) d.

(** Blank the cell under the cursor. *)
Definition blank_cursor c : con D :=
  set_vmem (put_cell (NUM_COLS * screen_y c + screen_x c) 32 (vmem c)) c.

Definition back_space c : con D :=
  if screen_x c =? 0 then
    if screen_y c =? 0 then c
    else blank_cursor (Con (vmem c) (NUM_COLS - 1) (screen_y c - 1) (dev c))
  else blank_cursor (Con (vmem c) (screen_x c - 1) (screen_y c) (dev c)).

Definition init_screen_x_and_y c : con D := Con (vmem c) 0 0 (dev c).

Definition clear c : con D :=
  let m := for_ (Z.to_nat (NUM_ROWS * NUM_COLS)) 0 (λ i, put_cell i 32) (vmem c) in
  Con m 0 0 (dev c).

Definition clear_screen c : con D := clear (Con (vmem c) 0 0 (dev c)).

Definition putc (ch : Z) c : con D :=
  let ch := u8 ch in
  if (ch =? 10) || (ch =? 13) then
    let c := Con (vmem c) 0 (screen_y c + 1) (dev c) in
    if NUM_ROWS <=? screen_y c then terminal_scroll_down c else c
  else
    let m := put_cell (NUM_COLS * screen_y c + screen_x c) ch (vmem c) in
    let x := screen_x c + 1 in
    let y := screen_y c + Z.quot x NUM_COLS in
    let c := Con m (Z.rem x NUM_COLS) y (dev c) in
    if NUM_ROWS <=? screen_y c then terminal_scroll_down c else c.

Definition puts (s : Z) c : res (con D * Z) :=
  while (λ '(c, index),
    let ch := rd (vmem c) (s + index) in
    if ch =? 0 then inr (Ok (c, index)) else inl (putc ch c, s32 (index + 1))) (c, 0).

(** [i = starting_index; while (i < 8) conv_buf[i++] = '0'] *)
Definition pad_zeros (conv i : Z) (m : mem) : mem :=
  for_ (Z.to_nat (8 - i)) i (λ i m, wr m (conv + i) 48) m.

(** A numeral written by itoa at [at_] and printed from [from]. *)
Definition put_number (value at_ from radix : Z) c : res (con D) :=
  m ← itoa (vmem c) value at_ radix;
  '(c, _) ← puts from (set_vmem m c);
  Ok c.

(** The conversion switch; [esp] is what the stack holds after the format,
    [conv] the address of the conversion buffer. *)
Definition convert (conv spec : Z) (alternate : bool) (esp : list Z) c : res (con D * list Z) :=
  match spec, esp with
  | 37, _ => Ok (putc 37 c, esp)
  | 120, v :: esp =>
      if alternate then
        m ← itoa (vmem c) v (conv + 8) 16;
        starting_index ← strlen m (conv + 8);
        '(c, _) ← puts (conv + starting_index) (set_vmem (pad_zeros conv starting_index m) c);
        Ok (c, esp)
      else c ← put_number v conv conv 16 c; Ok (c, esp)
  | 117, v :: esp => c ← put_number v conv conv 10 c; Ok (c, esp)
  | 100, v :: esp =>
      if s32 v <? 0
      then c ← put_number (- s32 v) (conv + 1) conv 10 (set_vmem (wr (vmem c) conv 45) c);
           Ok (c, esp)
      else c ← put_number (s32 v) conv conv 10 c; Ok (c, esp)
  | 99, v :: esp => Ok (putc v c, esp)
  | 115, v :: esp => '(c, _) ← puts v c; Ok (c, esp)
  | 120, [] | 117, [] | 100, [] | 99, [] | 115, [] => Err OutOfBounds
  | _, _ => Ok (c, esp)
  end.

(** The [format_char_switch] loop: skip the [#] flags. *)
Definition skip_flags (m : mem) (buf : Z) : res (bool * Z) :=
  while (λ '(alternate, buf),
    if rd m buf =? 35 then inl (true, buf + 1) else inr (Ok (alternate, buf))) (false, buf).

Definition printf (conv format : Z) (esp : list Z) c : res (con D * Z) :=
  while (λ '(c, buf, esp),
    let ch := rd (vmem c) buf in
    if ch =? 0 then inr (Ok (c, buf - format))
    else if ch =? 37 then
      match ('(alternate, buf) ← skip_flags (vmem c) (buf + 1);
             '(c, esp) ← convert conv (rd (vmem c) buf) alternate esp c;
             Ok (c, buf, esp)) with
      | Ok (c, buf, esp) => inl (c, buf + 1, esp)
      | Err f => inr (Err f)
      end
    else inl (putc ch c, buf + 1, esp)) (c, format, esp).

Definition test_interrupts c : con D :=
  set_vmem (for_ (Z.to_nat (NUM_ROWS * NUM_COLS)) 0
    (λ i m, wr m (cell i) (rd m (cell i) + 1)) (vmem c)) c.
End operations.

(** ** The video page as a grid *)

Definition cells_count := 2000.
Definition page_size := 4000.

Definition grid (m : mem) : list Z := (λ i, rd m (cell i)) <$> seqZ 0 cells_count.

(** Every cell carries the standard attribute. *)
Definition attributes_ok (m : mem) : Prop :=
  ∀ i, 0 ≤ i < cells_count → rd m (cell i + 1) = ATTRIB.

(** Only the video page differs. *)
Abbreviation outside_video := (same_except VIDEO page_size).

Lemma cell_eq i : cell i = VIDEO + 2 * i.
Proof. unfold cell. rewrite Z.shiftl_mul_pow2 by lia. lia. Qed.

#[export] Hint Rewrite cell_eq : machine.

Lemma length_grid m : length (grid m) = 2000%nat.
Proof. unfold grid. rewrite length_fmap, length_seqZ. done. Qed.

Lemma lookup_grid m i : 0 ≤ i < cells_count → grid m !! Z.to_nat i = Some (rd m (cell i)).
Proof.
  unfold cells_count. intros. unfold grid.
  rewrite list_lookup_fmap, lookup_seqZ_lt by (unfold cells_count; lia). cbn. do 3 f_equal. lia.
Qed.

Lemma grid_eq m l :
  length l = 2000%nat →
  (∀ i, 0 ≤ i < cells_count → l !! Z.to_nat i = Some (rd m (cell i))) → grid m = l.
Proof.
  unfold cells_count. intros Hlen Hl. apply list_eq. intros i.
  destruct (decide (i < 2000)%nat) as [Hi|Hi].
  - rewrite <- (Nat2Z.id i), lookup_grid, Hl by (unfold cells_count; lia). done.
  - rewrite !lookup_ge_None_2; [done|lia|]. rewrite length_grid. lia.
Qed.

Lemma rd_put_cell i ch m a :
  rd (put_cell i ch m) a =
    if a =? VIDEO + 2 * i then u8 ch else if a =? VIDEO + 2 * i + 1 then ATTRIB else rd m a.
Proof.
  unfold put_cell. rewrite !rd_wr, cell_eq. case_z; try lia; done.
Qed.

Lemma put_cell_outside i ch m : 0 ≤ i < cells_count → outside_video m (put_cell i ch m).
Proof. unfold cells_count, page_size. intros ? a ?. rewrite rd_put_cell. case_z; try lia; done. Qed.

Lemma grid_put_cell i ch m :
  0 ≤ i < cells_count → grid (put_cell i ch m) = <[Z.to_nat i := u8 ch]> (grid m).
Proof.
  intros Hi. apply grid_eq; [by rewrite length_insert, length_grid|]. intros j Hj.
  unfold cells_count in *. rewrite rd_put_cell, cell_eq. case_z; try lia.
  - assert (j = i) as -> by lia. rewrite list_lookup_insert_eq; [done|]. rewrite length_grid. lia.
  - rewrite list_lookup_insert_ne, lookup_grid, cell_eq by (unfold cells_count; lia). done.
Qed.

Lemma attributes_put_cell i ch m : attributes_ok m → attributes_ok (put_cell i ch m).
Proof.
  intros Hm j Hj. rewrite rd_put_cell, cell_eq. case_z; try done; try lia.
  rewrite <- cell_eq. by apply Hm.
Qed.

(** A run of cells filled with one character. *)
Lemma fill_cells lo n ch m :
  0 ≤ lo → lo + Z.of_nat n ≤ cells_count →
  let m' := for_ n 0 (λ i, put_cell (lo + i) ch) m in
  ∀ a, rd m' a =
    if (VIDEO + 2 * lo <=? a) && (a <? VIDEO + 2 * (lo + Z.of_nat n))
    then if (a - VIDEO) mod 2 =? 0 then u8 ch else ATTRIB else rd m a.
Proof.
  intros Hlo Hn m'. unfold cells_count in *.
  apply (for_inv (λ i m', ∀ a, rd m' a =
    if (VIDEO + 2 * lo <=? a) && (a <? VIDEO + 2 * (lo + i))
    then if (a - VIDEO) mod 2 =? 0 then u8 ch else ATTRIB else rd m a)
    (λ i, put_cell (lo + i) ch) n 0 m).
  - intros a. case_z; cbn; try lia; done.
  - intros j mj Hj Hmj a. rewrite rd_put_cell, Hmj. case_z; cbn [andb]; try done; zlia.
Qed.

Lemma rd_shift_rows m a :
  rd (shift_rows m) a =
    if (VIDEO <=? a) && (a <? VIDEO + 3840) then rd m (a + 160) else rd m a.
Proof.
  unfold shift_rows.
  apply (for_inv (λ i m', ∀ a, rd m' a =
    if (VIDEO <=? a) && (a <? VIDEO + 2 * i) then rd m (a + 160) else rd m a)
    _ (Z.to_nat ((NUM_ROWS - 1) * NUM_COLS)) 0 m).
  - intros b. case_z; cbn; try lia; done.
  - intros j mj Hj Hmj b. rewrite !rd_wr, !Hmj, !cell_eq. unfold NUM_COLS in *.
    pose proof (rd_range m (VIDEO + 2 * (j + 80))). pose proof (rd_range m (VIDEO + 2 * (j + 80) + 1)).
    case_z; cbn [andb]; try lia; try done; mach; f_equal; lia.
Qed.

(** Scrolling: all rows move up by one and the last one is blank. *)
Definition scrolled (l : list Z) : list Z := drop 80 l ++ replicate 80 32.

Lemma length_scrolled l : length l = 2000%nat → length (scrolled l) = 2000%nat.
Proof. intros Hl. unfold scrolled. rewrite length_app, length_drop, length_replicate. lia. Qed.

Lemma rd_scroll m a :
  rd (blank_last (shift_rows m)) a =
    if (VIDEO <=? a) && (a <? VIDEO + 3840) then rd m (a + 160)
    else if (VIDEO + 3840 <=? a) && (a <? VIDEO + 4000)
    then if (a - VIDEO) mod 2 =? 0 then 32 else ATTRIB else rd m a.
Proof.
  unfold blank_last. pose proof (fill_cells 1920 80 32 (shift_rows m)) as Hf. cbn zeta in Hf.
  change ((NUM_ROWS - 1) * NUM_COLS) with 1920. change (Z.to_nat NUM_COLS) with 80%nat.
  rewrite Hf by (unfold cells_count; lia). rewrite rd_shift_rows.
  case_z; cbn [andb]; try lia; done.
Qed.

Lemma grid_scroll m : grid (blank_last (shift_rows m)) = scrolled (grid m).
Proof.
  apply grid_eq; [apply length_scrolled, length_grid|]. intros i Hi. unfold cells_count in *.
  rewrite rd_scroll, cell_eq. unfold scrolled. case_z; cbn [andb]; try (exfalso; zlia).
  - rewrite lookup_app_l by (rewrite length_drop, length_grid; lia).
    rewrite lookup_drop. replace (80 + Z.to_nat i)%nat with (Z.to_nat (i + 80)) by lia.
    rewrite lookup_grid, cell_eq by (unfold cells_count; lia). do 2 f_equal. lia.
  - rewrite lookup_app_r by (rewrite length_drop, length_grid; lia).
    apply lookup_replicate_2. rewrite length_drop, length_grid. lia.
Qed.

Lemma scroll_outside m : outside_video m (blank_last (shift_rows m)).
Proof. unfold page_size. intros a ?. rewrite rd_scroll. case_z; cbn [andb]; try lia; done. Qed.

Lemma attributes_scroll m : attributes_ok m → attributes_ok (blank_last (shift_rows m)).
Proof.
  intros Hm i Hi. rewrite rd_scroll, cell_eq. unfold cells_count in *.
  case_z; cbn [andb]; try done; try (exfalso; zlia).
  replace (VIDEO + 2 * i + 1 + 160) with (cell (i + 80) + 1) by (rewrite cell_eq; lia).
  apply Hm. unfold cells_count. lia.
Qed.

(** ** Abstract screens and refinement *)

Record screen := Screen { text : list Z; pos : Z }.

Definition blank_screen : screen := Screen (replicate 2000 32) 0.

Definition scroll_if_full (s : screen) : screen :=
  if 2000 <=? pos s then Screen (scrolled (text s)) (pos s - 80) else s.

(** Print one character: a line end moves to the next row, any other one is
    stored under the cursor; past the last cell the screen scrolls. *)
Definition show_char (ch : Z) (s : screen) : screen :=
  scroll_if_full
    (if (ch =? 10) || (ch =? 13) then Screen (text s) ((pos s / 80 + 1) * 80)
     else Screen (<[Z.to_nat (pos s) := ch]> (text s)) (pos s + 1)).

Definition show (l : list Z) (s : screen) : screen := foldl (λ s ch, show_char ch s) s l.

(** Erase the character before the cursor. *)
Definition unshow (s : screen) : screen :=
  if pos s =? 0 then s else Screen (<[Z.to_nat (pos s - 1) := 32]> (text s)) (pos s - 1).

(** The console state [c] displays the screen [s]. *)
Record shows {D} (c : con D) (s : screen) : Prop := {
  shows_x : 0 ≤ screen_x c < NUM_COLS;
  shows_y : 0 ≤ screen_y c < NUM_ROWS;
  shows_pos : pos s = NUM_COLS * screen_y c + screen_x c;
  shows_text : grid (vmem c) = text s;
  shows_attributes : attributes_ok (vmem c)
}.

Section refinement.
Context {D : Type}.
Implicit Types c : con D.

Lemma shows_length c s : shows c s → length (text s) = 2000%nat.
Proof. intros [_ _ _ <- _]. apply length_grid. Qed.

Lemma shows_range c s : shows c s → 0 ≤ pos s < 2000.
Proof. intros [Hx Hy -> _ _]. unfold NUM_COLS, NUM_ROWS in *. lia. Qed.

(** Scrolling after the cursor has left the last row. *)
Lemma scroll_shows c s :
  0 ≤ screen_x c < NUM_COLS → 0 ≤ screen_y c ≤ NUM_ROWS →
  pos s = NUM_COLS * screen_y c + screen_x c →
  grid (vmem c) = text s → attributes_ok (vmem c) →
  shows (if NUM_ROWS <=? screen_y c then terminal_scroll_down c else c) (scroll_if_full s).
Proof.
  unfold NUM_COLS, NUM_ROWS, scroll_if_full. intros Hx Hy Hpos Htext Hattr.
  case_z; try lia; [|by constructor; unfold NUM_COLS, NUM_ROWS; done || lia].
  constructor; cbn; unfold NUM_COLS, NUM_ROWS in *; case_z; try lia.
  - rewrite <- Htext. apply grid_scroll.
  - by apply attributes_scroll.
Qed.

Lemma putc_shows ch c s : shows c s → shows (putc ch c) (show_char (u8 ch) s).
Proof.
  intros Hs. pose proof (shows_range c s Hs) as Hr. destruct Hs as [Hx Hy Hpos Htext Hattr].
  unfold putc, show_char. unfold NUM_COLS, NUM_ROWS in *.
  destruct ((u8 ch =? 10) || (u8 ch =? 13)).
  - apply scroll_shows; cbn; unfold NUM_COLS, NUM_ROWS; try done; zlia.
  - pose proof (Z.quot_div_nonneg (screen_x c + 1) 80).
    pose proof (Z.rem_mod_nonneg (screen_x c + 1) 80).
    apply scroll_shows; cbn; unfold NUM_COLS, NUM_ROWS; try zlia.
    + rewrite grid_put_cell, Htext by (unfold cells_count; lia).
      unfold u8. rewrite Z.mod_mod by lia. do 2 f_equal; lia.
    + by apply attributes_put_cell.
Qed.

Lemma putc_outside ch c s : shows c s → outside_video (vmem c) (vmem (putc ch c)).
Proof.
  intros Hs. pose proof (shows_range c s Hs) as Hr. destruct Hs as [Hx Hy Hpos _ _].
  unfold putc. unfold NUM_COLS, NUM_ROWS in *.
  pose proof (put_cell_outside (80 * screen_y c + screen_x c) (u8 ch) (vmem c)) as Hput.
  unfold cells_count in Hput. specialize (Hput ltac:(lia)).
  destruct ((u8 ch =? 10) || (u8 ch =? 13)); case_match; cbn; try done;
    [apply scroll_outside|].
  eapply same_except_trans; [exact Hput|apply scroll_outside].
Qed.

Lemma back_space_shows c s : shows c s → shows (back_space c) (unshow s).
Proof.
  intros Hs. pose proof (shows_range c s Hs) as Hr. destruct Hs as [Hx Hy Hpos Htext Hattr].
  unfold back_space, unshow, blank_cursor. unfold NUM_COLS, NUM_ROWS in *.
  case_z; try lia; [by constructor|..];
    (constructor; cbn; unfold NUM_COLS, NUM_ROWS in *; try lia;
     [rewrite grid_put_cell, Htext by (unfold cells_count; lia); f_equal; lia
     |by apply attributes_put_cell]).
Qed.

Lemma back_space_outside c s : shows c s → outside_video (vmem c) (vmem (back_space c)).
Proof.
  intros Hs. pose proof (shows_range c s Hs) as Hr. destruct Hs as [Hx Hy Hpos _ _].
  unfold back_space, blank_cursor. unfold NUM_COLS, NUM_ROWS in *. case_z; cbn;
    [apply same_except_refl|apply put_cell_outside; unfold cells_count; lia..].
Qed.

Lemma clear_shows c : shows (clear c) blank_screen ∧ outside_video (vmem c) (vmem (clear c)).
Proof.
  pose proof (fill_cells 0 2000 32 (vmem c)) as Hf. cbn zeta in Hf.
  assert (∀ a, rd (vmem (clear c)) a =
    if (VIDEO <=? a) && (a <? VIDEO + 4000)
    then if (a - VIDEO) mod 2 =? 0 then 32 else ATTRIB else rd (vmem c) a) as Hrd.
  { intros a. rewrite <- Hf by (unfold cells_count; lia). done. }
  split.
  - constructor; try done.
    + apply grid_eq; [done|]. intros i Hi. unfold cells_count in *. rewrite Hrd, cell_eq.
      change (text blank_screen) with (replicate 2000 32). rewrite lookup_replicate_2 by lia. case_z; cbn [andb]; done || exfalso; zlia.
    + intros i Hi. unfold cells_count in *. rewrite Hrd, cell_eq.
      case_z; cbn [andb]; done || exfalso; zlia.
  - unfold page_size. intros a Ha. rewrite Hrd. case_z; cbn [andb]; done || lia.
Qed.
End refinement.

(** ** puts and printf *)

(** What a step that prints [out] does: the screen, and the memory outside
    the video page and the conversion buffer. *)
Definition scratch_size := 64.

Definition kept (conv : Z) (m m' : mem) : Prop :=
  ∀ a, ¬ (VIDEO ≤ a < VIDEO + page_size) → ¬ (conv ≤ a < conv + scratch_size) → rd m' a = rd m a.

Definition clear_of (conv a n : Z) : Prop :=
  disjoint_regions VIDEO page_size a n ∧ disjoint_regions conv scratch_size a n.

Lemma kept_refl conv m : kept conv m m.
Proof. by intros a. Qed.
Lemma kept_trans conv m1 m2 m3 : kept conv m1 m2 → kept conv m2 m3 → kept conv m1 m3.
Proof. intros H1 H2 a ??. by rewrite H2, H1. Qed.
Lemma kept_video conv m m' : outside_video m m' → kept conv m m'.
Proof. intros H a ??. by apply H. Qed.
Lemma kept_scratch conv lo n m m' :
  same_except lo n m m' → conv ≤ lo → lo + n ≤ conv + scratch_size → kept conv m m'.
Proof. intros H ?? a ??. apply H. lia. Qed.

Lemma kept_cstr conv m m' s l :
  kept conv m m' → clear_of conv s (zlen l + 1) → cstr m s l → cstr m' s l.
Proof.
  unfold clear_of, disjoint_regions. intros Hk [Hv Hc] (Hnz & Hb & He).
  assert (∀ i, 0 ≤ i ≤ zlen l → rd m' (s + i) = rd m (s + i)) as Hrd by (intros; apply Hk; lia).
  split_and!; [done| |].
  - rewrite <- Hb at 2. apply bytes_ext. intros; apply Hrd; lia.
  - rewrite Hrd by lia. done.
Qed.

Lemma show_app l1 l2 s : show (l1 ++ l2) s = show l2 (show l1 s).
Proof. apply foldl_app. Qed.

Section printing.
Context {D : Type}.
Implicit Types c : con D.

Lemma puts_shows a l c s :
  shows c s → cstr (vmem c) a l → zlen l < 2147483648 →
  disjoint_regions VIDEO page_size a (zlen l + 1) →
  returns (puts a c) (λ '(c', n),
    n = zlen l ∧ shows c' (show l s) ∧ outside_video (vmem c) (vmem c') ∧ dev c' = dev c).
Proof.
  intros Hs Hl Hlen Hd. unfold puts.
  apply while_total with
    (I := λ '(c', i), ∃ pre suf, l = pre ++ suf ∧ i = zlen pre ∧ shows c' (show pre s) ∧
            outside_video (vmem c) (vmem c') ∧ dev c' = dev c)
    (V := λ '(c', i), zlen l - i).
  - by exists [], l.
  - lia.
  - intros [c' i] (pre & suf & -> & -> & Hs' & Ho & Hdev).
    unfold disjoint_regions in Hd.
    rewrite (same_except_rd _ _ _ _ _ Ho) by (rewrite zlen_app in *; lia).
    destruct suf as [|ch suf].
    + rewrite app_nil_r in *. rewrite (cstr_end _ _ _ Hl). cbn. by apply returns_Ok.
    + destruct (cstr_char _ _ _ (zlen pre) Hl) as [Hch Hnz]; [mach; lia|].
      rewrite Nat2Z.id, list_lookup_middle in Hch by done. injection Hch as Hch.
      rewrite (proj2 (Z.eqb_neq _ _) Hnz), <- Hch.
      assert (u8 ch = ch) as Hu by (rewrite Hch; apply rd_u8).
      pose proof (putc_shows ch c' _ Hs') as Hs''. rewrite Hu in Hs''.
      rewrite zlen_app, zlen_cons in *. mach. split; [|lia].
      exists (pre ++ [ch]), suf. split_and!; [by rewrite <- app_assoc|mach; cbn; lia| | |].
      * by rewrite show_app.
      * eapply same_except_trans; [done|]. by eapply putc_outside.
      * rewrite <- Hdev. unfold putc. by repeat case_match.
Qed.

Lemma shows_kept c s m :
  shows c s → (∀ a, VIDEO ≤ a < VIDEO + page_size → rd m a = rd (vmem c) a) →
  shows (set_vmem m c) s.
Proof.
  unfold page_size. intros [Hx Hy Hpos Htext Hattr] Hm. constructor; try done; cbn.
  - rewrite <- Htext. apply list_fmap_ext. intros i x Hx'. apply lookup_seqZ in Hx'.
    unfold cells_count in *. apply Hm. rewrite cell_eq. lia.
  - intros i Hi. rewrite <- (Hattr i Hi). apply Hm. unfold cells_count in *. rewrite cell_eq. lia.
Qed.

(** [c'] is [c] after printing [out], up to the conversion buffer. *)
Definition printed (conv : Z) c (s : screen) (out : list Z) c' : Prop :=
  shows c' (show out s) ∧ kept conv (vmem c) (vmem c') ∧ dev c' = dev c.

Lemma printed_putc conv c s ch : shows c s → printed conv c s [u8 ch] (putc ch c).
Proof.
  intros Hs. split_and!; [by apply putc_shows|by eapply kept_video, putc_outside|].
  unfold putc. by repeat case_match.
Qed.

Lemma printed_puts conv c m a l s :
  shows c s → kept conv (vmem c) m → (∀ a, VIDEO ≤ a < VIDEO + page_size → rd m a = rd (vmem c) a) →
  cstr m a l → zlen l < 2147483648 → disjoint_regions VIDEO page_size a (zlen l + 1) →
  returns (puts a (set_vmem m c)) (λ '(c', _), printed conv c s l c').
Proof.
  intros Hs Hk Hv Hl Hlen Hd. eapply returns_mono.
  - apply puts_shows; try done. by apply shows_kept.
  - intros [c' n] (_ & Hs' & Ho & Hdev). split_and!; [done| |done].
    eapply kept_trans; [exact Hk|]. by apply kept_video.
Qed.
End printing.

(** ** The format language *)

(** The eight-digit form of [%#x]. *)
Definition zero_padded (l : list Z) : list Z := replicate (8 - length l) 48 ++ l.

Definition signed_numeral (v : Z) : list Z :=
  if v <? 0 then 45 :: numeral 10 (- v) else numeral 10 v.

Definition specifiers : list Z := codes "%#xudcs".

(** One conversion: with or without the [#] flag, the specifier takes [esp]
    to [esp'] and prints [out].  A string argument lies outside the video page
    and the conversion buffer. *)
Inductive conversion (m : mem) (conv : Z) : bool → Z → list Z → list Z → list Z → Prop :=
  | C_percent alt esp : conversion m conv alt 37 esp esp [37]
  | C_hex v esp :
      0 ≤ v < 4294967296 → conversion m conv false 120 (v :: esp) esp (numeral 16 v)
  | C_hex8 v esp :
      0 ≤ v < 4294967296 →
      conversion m conv true 120 (v :: esp) esp (zero_padded (numeral 16 v))
  | C_unsigned alt v esp :
      0 ≤ v < 4294967296 → conversion m conv alt 117 (v :: esp) esp (numeral 10 v)
  | C_signed alt v esp :
      0 ≤ v < 4294967296 → conversion m conv alt 100 (v :: esp) esp (signed_numeral (s32 v))
  | C_char alt v esp : conversion m conv alt 99 (v :: esp) esp [u8 v]
  | C_string alt v l esp :
      cstr m v l → zlen l < 2147483648 → clear_of conv v (zlen l + 1) →
      conversion m conv alt 115 (v :: esp) esp l
  | C_unknown alt ch esp : ch ∉ specifiers → conversion m conv alt ch esp esp [].

(** [formats m conv f esp out]: the format [f] with the arguments [esp]
    prints [out]. *)
Inductive formats (m : mem) (conv : Z) : list Z → list Z → list Z → Prop :=
  | F_nil esp : formats m conv [] esp []
  | F_char ch f esp out :
      ch ≠ 37 → formats m conv f esp out → formats m conv (ch :: f) esp (ch :: out)
  | F_conv (n : nat) spec f esp esp' o out :
      spec ≠ 35 →
      conversion m conv (negb (n =? 0)%nat) spec esp esp' o → formats m conv f esp' out →
      formats m conv (37 :: replicate n 35 ++ spec :: f) esp (o ++ out).

Section numbers.
Context {D : Type} (conv : Z) (c : con D) (s : screen).
Context (Hs : shows c s) (Hdis : disjoint_regions VIDEO page_size conv scratch_size).

(** A numeral written behind the characters [pre] and printed with them. *)
Lemma put_number_prints m pre from v radix :
  2 ≤ radix ≤ 36 → 0 ≤ v < 4294967296 →
  same_except conv scratch_size (vmem c) m → Forall (λ ch, ch ≠ 0) pre →
  conv ≤ from → bytes m from (zlen pre) = pre →
  from + zlen pre + 33 ≤ conv + scratch_size →
  returns (put_number v (from + zlen pre) from radix (set_vmem m c))
    (printed conv c s (pre ++ numeral radix v)).
Proof.
  unfold disjoint_regions in Hdis.
  intros Hr Hv Hm Hpre Hfrom Hb Hsize. unfold put_number. cbn [vmem set_vmem].
  pose proof (numeral_length radix v) as Hlen.
  eapply returns_bind; [by apply itoa_numeral|]. intros m' Hm'.
  pose proof (wr_bytes_same_except _ _ _ _ Hm') as Hse.
  rewrite zlen_app in Hse. change (zlen [0]) with 1 in Hse.
  assert (cstr m' (from + zlen pre) (numeral radix v)) as Hnum.
  { eapply wr_bytes_cstr; [|exact Hm']. eapply Forall_impl; [by apply numeral_text; lia|].
    intros ch Hch. cbn in Hch. lia. }
  assert (same_except conv scratch_size (vmem c) m') as Hall.
  { eapply same_except_trans; [exact Hm|]. eapply same_except_weaken; [exact Hse|lia..]. }
  eapply returns_bind.
  - change (set_vmem m' (set_vmem m c)) with (set_vmem m' c).
    apply (printed_puts conv c m' from (pre ++ numeral radix v)); try done.
    + by eapply kept_scratch; [exact Hall|lia..].
    + intros a Ha. apply Hall. unfold page_size in *. lia.
    + destruct Hnum as (Hnz & Hbn & He). split_and!.
      * by apply Forall_app.
      * rewrite zlen_app, bytes_app, Hbn by lia. f_equal.
        rewrite (same_except_bytes _ _ _ _ _ _ Hse); [done|]. unfold disjoint_regions. lia.
      * rewrite zlen_app, Z.add_assoc. done.
    + rewrite zlen_app. unfold scratch_size, page_size in *. lia.
    + rewrite zlen_app. unfold disjoint_regions, scratch_size, page_size in *. lia.
  - intros [c' n] Hp. by apply returns_Ok.
Qed.

Lemma rd_pad_zeros i m a :
  0 ≤ i → rd (pad_zeros conv i m) a =
    if (conv + i <=? a) && (a <? conv + 8) then 48 else rd m a.
Proof.
  intros Hi. unfold pad_zeros. destruct (Z.leb_spec i 8).
  - replace (conv + 8) with (conv + (i + Z.of_nat (Z.to_nat (8 - i)))) by lia.
    apply (for_inv (λ j m', ∀ a, rd m' a =
      if (conv + i <=? a) && (a <? conv + j) then 48 else rd m a)).
    + intros b. case_z; cbn; try lia; done.
    + intros j mj Hj Hmj b. rewrite rd_wr, Hmj. case_z; cbn [andb]; done || lia.
  - replace (Z.to_nat (8 - i)) with O by lia. cbn. case_z; cbn; done || lia.
Qed.

Lemma pad_zeros_cstr m l :
  cstr m (conv + 8) l → zlen l ≤ 8 →
  cstr (pad_zeros conv (zlen l) m) (conv + zlen l) (zero_padded l).
Proof.
  intros (Hnz & Hb & He) Hlen. unfold zero_padded, cstr.
  pose proof (rd_pad_zeros (zlen l) m) as Hpad.
  replace (8 - length l)%nat with (Z.to_nat (8 - zlen l)) by lia.
  rewrite zlen_app, zlen_replicate by lia.
  replace (conv + zlen l + (8 - zlen l + zlen l)) with (conv + 8 + zlen l) by lia.
  split_and!.
  - apply Forall_app; split; [|done]. by apply Forall_replicate.
  - rewrite bytes_app by lia. f_equal.
    + apply list_eq. intros i. destruct (decide (i < Z.to_nat (8 - zlen l))%nat).
      * rewrite <- (Nat2Z.id i) at 1. rewrite lookup_bytes, lookup_replicate_2 by lia.
        rewrite Hpad by lia. case_z; cbn [andb]; done || lia.
      * rewrite !lookup_ge_None_2; [done|rewrite length_replicate; lia|].
        unfold bytes. rewrite length_fmap, length_seqZ. lia.
    + replace (conv + zlen l + (8 - zlen l)) with (conv + 8) by lia.
      transitivity (bytes m (conv + 8) (zlen l)); [|exact Hb]. apply bytes_ext. intros i Hi.
      rewrite Hpad by lia. case_z; cbn [andb]; done || lia.
  - rewrite Hpad by lia. case_z; cbn [andb]; done || lia.
Qed.

Lemma hex_length v : 0 ≤ v < 4294967296 → (length (numeral 16 v) ≤ 8)%nat.
Proof.
  intros. apply numeral_length_pow; [lia|lia|]. change (16 ^ Z.of_nat 8) with 4294967296. lia.
Qed.

Lemma hex8_prints v esp :
  0 ≤ v < 4294967296 →
  returns (convert conv 120 true (v :: esp) c) (λ '(c', esp'),
    esp' = esp ∧ printed conv c s (zero_padded (numeral 16 v)) c').
Proof.
  unfold disjoint_regions, scratch_size in Hdis. intros Hv.
  change (convert conv 120 true (v :: esp) c) with
    (m ← itoa (vmem c) v (conv + 8) 16; i ← strlen m (conv + 8);
     '(c, _) ← puts (conv + i) (set_vmem (pad_zeros conv i m) c); Ok (c, esp)).
  pose proof (hex_length v Hv) as Hlen. pose proof (numeral_text 16 ltac:(lia) v) as Htext.
  set (l := numeral 16 v) in *.
  eapply returns_bind; [apply itoa_numeral; [lia|exact Hv]|]. intros m Hm. fold l in Hm.
  assert (cstr m (conv + 8) l) as Hl.
  { eapply wr_bytes_cstr; [|exact Hm]. eapply Forall_impl; [apply Htext; lia|].
    intros ch Hch. cbn in Hch. lia. }
  apply wr_bytes_same_except in Hm. rewrite zlen_app in Hm. change (zlen [0]) with 1 in Hm.
  rewrite (strlen_cstr m _ l) by (exact Hl || lia).
  rewrite bind_Ok.
  assert (∀ a, ¬ (conv ≤ a < conv + scratch_size) →
            rd (pad_zeros conv (zlen l) m) a = rd (vmem c) a) as Hm'.
  { unfold scratch_size. intros a Ha. rewrite rd_pad_zeros by lia.
    case_z; cbn [andb]; try lia; apply Hm; lia. }
  eapply returns_bind.
  - apply (printed_puts conv c (pad_zeros conv (zlen l) m) _ (zero_padded l) s Hs).
    + intros a ? Ha. by apply Hm'.
    + intros a Ha. apply Hm'. unfold scratch_size, page_size in *. lia.
    + apply pad_zeros_cstr; [exact Hl|lia].
    + unfold zero_padded. rewrite zlen_app, length_replicate. lia.
    + unfold zero_padded, disjoint_regions, page_size in *. rewrite zlen_app, length_replicate. lia.
  - intros [c' n] Hp. by apply returns_Ok.
Qed.

Lemma printed_nil : printed conv c s [] c.
Proof. split_and!; [done|apply kept_refl|done]. Qed.

Lemma plain_number_prints v radix :
  2 ≤ radix ≤ 36 → 0 ≤ v < 4294967296 →
  returns (put_number v conv conv radix c) (printed conv c s (numeral radix v)).
Proof.
  intros Hr Hv. pose proof (put_number_prints (vmem c) [] conv v radix) as Hp.
  cbn [length app] in Hp. rewrite Z.add_0_r in Hp.
  replace (set_vmem (vmem c) c) with c in Hp by by destruct c.
  unfold scratch_size in *. apply Hp; try lia; done || by apply bytes_0.
Qed.

Lemma signed_number_prints v esp alt :
  0 ≤ v < 4294967296 →
  returns (convert conv 100 alt (v :: esp) c) (λ '(c', esp'),
    esp' = esp ∧ printed conv c s (signed_numeral (s32 v)) c').
Proof.
  intros Hv. cbn [convert]. unfold signed_numeral. pose proof (s32_range v).
  destruct (Z.ltb_spec (s32 v) 0).
  - eapply returns_bind.
    + apply (put_number_prints _ [45] conv (- s32 v) 10); try lia.
      * apply same_except_wr. unfold scratch_size. lia.
      * by repeat constructor.
      * rewrite bytes_cons, bytes_0 by (cbn; lia). by mach.
      * cbn. unfold scratch_size. lia.
    + intros c' Hc'. by apply returns_Ok.
  - eapply returns_bind; [apply plain_number_prints; lia|]. intros c' Hc'. by apply returns_Ok.
Qed.

Lemma convert_prints m alt spec esp esp' o :
  kept conv m (vmem c) → conversion m conv alt spec esp esp' o →
  returns (convert conv spec alt esp c) (λ '(c', e), e = esp' ∧ printed conv c s o c').
Proof.
  intros Hk Ho. destruct Ho as [alt esp|v esp Hv|v esp Hv|alt v esp Hv|alt v esp Hv|alt v esp
    |alt v l esp Hl Hlen Hclear|alt ch esp Hch].
  - apply returns_Ok. split; [done|]. by apply (printed_putc conv c s 37).
  - cbn [convert]. eapply returns_bind; [by apply plain_number_prints; lia|].
    intros c' Hc'. by apply returns_Ok.
  - by apply hex8_prints.
  - cbn [convert]. eapply returns_bind; [by apply plain_number_prints; lia|].
    intros c' Hc'. by apply returns_Ok.
  - by apply signed_number_prints.
  - apply returns_Ok. split; [done|]. by apply printed_putc.
  - cbn [convert]. eapply returns_bind.
    + pose proof (printed_puts conv c (vmem c) v l s) as Hp.
      replace (set_vmem (vmem c) c) with c in Hp by by destruct c.
      apply Hp; try done; [by apply (kept_cstr conv m)|apply Hclear].
    + intros [c' n] Hc'. by apply returns_Ok.
  - replace (convert conv ch alt esp c) with (Ok (c, esp)).
    { apply returns_Ok. split; [done|apply printed_nil]. }
    unfold specifiers in Hch. cbn in Hch. unfold convert.
    repeat case_match; subst; try done; exfalso; apply Hch; set_solver.
Qed.
End numbers.

Lemma printed_trans {D} conv (c1 c2 c3 : con D) s o1 o2 :
  printed conv c1 s o1 c2 → printed conv c2 (show o1 s) o2 c3 → printed conv c1 s (o1 ++ o2) c3.
Proof.
  intros (Hs & Hk & Hd) (Hs' & Hk' & Hd'). split_and!.
  - by rewrite show_app.
  - by eapply kept_trans.
  - congruence.
Qed.

Lemma skip_flags_spec m buf n spec f :
  cstr m buf (replicate n 35 ++ spec :: f) → spec ≠ 35 → Z.of_nat n < 4294967296 →
  skip_flags m buf = Ok (negb (n =? 0)%nat, buf + Z.of_nat n).
Proof.
  intros Hf Hspec Hn. unfold skip_flags. apply returns_eq, while_total with
    (I := λ '(alt, b), ∃ k, (k ≤ n)%nat ∧ b = buf + Z.of_nat (n - k) ∧
       cstr m b (replicate k 35 ++ spec :: f) ∧ alt = negb (n - k =? 0)%nat)
    (V := λ '(alt, b), buf + Z.of_nat n - b).
  - exists n. rewrite Nat.sub_diag, Z.add_0_r. done.
  - lia.
  - intros [alt b] (k & Hk & -> & Hc & ->). pose proof Hc as Hc'.
    destruct k as [|k]; cbn [replicate app] in Hc; apply cstr_cons in Hc as (-> & _ & Hc).
    + rewrite (proj2 (Z.eqb_neq _ _)) by done. apply returns_Ok. by rewrite Nat.sub_0_r.
    + split; [|lia]. exists k. split_and!; [lia|lia|done|].
      destruct (n - k)%nat eqn:E; [lia|done].
Qed.

Lemma cstr_drop m a l1 l2 : cstr m a (l1 ++ l2) → cstr m (a + zlen l1) l2.
Proof.
  revert a; induction l1 as [|x l1 IH]; intros a; cbn [app].
  - cbn. by rewrite Z.add_0_r.
  - intros (_ & _ & H)%cstr_cons. apply IH in H. rewrite zlen_cons.
    by replace (a + (1 + zlen l1)) with (a + 1 + zlen l1) by lia.
Qed.

(** What is left of the format after the part already printed. *)
Lemma format_tail conv m a l1 l2 :
  cstr m a (l1 ++ l2) → clear_of conv a (zlen (l1 ++ l2) + 1) →
  cstr m (a + zlen l1) l2 ∧ clear_of conv (a + zlen l1) (zlen l2 + 1).
Proof.
  intros Hl [Hv Hc]. split; [by apply cstr_drop|]. rewrite zlen_app in *.
  unfold clear_of, disjoint_regions in *. lia.
Qed.

Section printf.
Context {D : Type} (conv : Z) (c : con D) (s : screen).
Context (Hs : shows c s) (Hdis : disjoint_regions VIDEO page_size conv scratch_size).

Lemma printf_prints format f esp out :
  cstr (vmem c) format f → zlen f < 2147483648 → clear_of conv format (zlen f + 1) →
  formats (vmem c) conv f esp out →
  returns (printf conv format esp c) (λ '(c', n), n = zlen f ∧ printed conv c s out c').
Proof.
  intros Hf Hlen Hclear Hout. unfold printf.
  apply while_total with
    (I := λ '(c', buf, esp'), ∃ f' o1 o2, buf = format + (zlen f - zlen f') ∧ zlen f' ≤ zlen f ∧
       cstr (vmem c) buf f' ∧ clear_of conv buf (zlen f' + 1) ∧
       formats (vmem c) conv f' esp' o2 ∧ out = o1 ++ o2 ∧ printed conv c s o1 c')
    (V := λ '(c', buf, esp'), format + zlen f - buf).
  - exists f, [], out. split_and!; try done; try lia.
  - lia.
  - intros [[c' buf] esp'] (f' & o1 & o2 & -> & Hle & Hf' & Hcl' & Hfmt & -> & Hp).
    set (buf := format + (zlen f - zlen f')) in *.
    assert (cstr (vmem c') buf f') as Hnow by (eapply kept_cstr; [apply Hp|exact Hcl'|exact Hf']).
    destruct Hfmt as [esp0|ch f0 esp0 o2 Hch Hfmt|n spec f0 esp0 esp1 o o2 Hspec Hcv Hfmt].
    + apply cstr_nil in Hnow as ->. cbn. apply returns_Ok. rewrite app_nil_r.
      split; [cbn in *; lia|done].
    + apply cstr_cons in Hnow as (-> & Hnz & _).
      rewrite (proj2 (Z.eqb_neq ch 0)), (proj2 (Z.eqb_neq ch 37)) by done.
      pose proof (format_tail conv _ _ [ch] f0 Hf' Hcl') as [Hf0 Hcl0].
      pose proof (zlen_cons ch f0) as Hz. change (zlen [ch]) with 1 in *.
      split; [|unfold buf; lia].
      exists f0, (o1 ++ [ch]), o2.
      replace (format + (zlen f - zlen f0)) with (buf + 1) by (unfold buf; lia).
      split_and!; try done; [lia|by rewrite <- app_assoc|].
      eapply printed_trans; [exact Hp|]. pose proof (printed_putc conv c' _ ch (proj1 Hp)) as Hpc.
      apply cstr_cons in Hf' as (Hrd & _). by rewrite <- Hrd, rd_u8, Hrd in Hpc.
    + pose proof Hnow as Hnow'. apply cstr_cons in Hnow as (-> & Hnz & Hfl). cbn [Z.eqb Pos.eqb].
      assert (zlen (37 :: replicate n 35 ++ spec :: f0) = Z.of_nat n + zlen f0 + 2) as Hn.
      { rewrite zlen_cons, zlen_app, zlen_cons, length_replicate. lia. }
      rewrite (skip_flags_spec _ _ n spec f0) by (done || lia). rewrite bind_Ok.
      assert (cstr (vmem c') (buf + 1 + Z.of_nat n) (spec :: f0)) as Hsp.
      { apply cstr_drop in Hfl. by rewrite length_replicate in Hfl. }
      apply cstr_cons in Hsp as (-> & _ & Hsp).
      destruct (convert_prints conv c' (show o1 s) (proj1 Hp) Hdis (vmem c)
        (negb (n =? 0)%nat) spec esp0 esp1 o) as ([c1 e1] & -> & -> & Hp1);
        [apply Hp|done|]. rewrite bind_Ok.
      pose proof (format_tail conv (vmem c) buf (37 :: replicate n 35 ++ [spec]) f0) as Ht.
      replace ((37 :: replicate n 35 ++ [spec]) ++ f0) with (37 :: replicate n 35 ++ spec :: f0)
        in Ht by by rewrite <- app_comm_cons, <- app_assoc.
      specialize (Ht Hf' Hcl') as [Hf0 Hcl0].
      rewrite zlen_cons, zlen_app, length_replicate in Hf0, Hcl0. cbn [length] in Hf0, Hcl0.
      split; [|unfold buf; lia].
      exists f0, (o1 ++ o), o2.
      replace (buf + 1 + Z.of_nat n + 1) with (buf + (1 + (Z.of_nat n + Z.of_nat 1))) by lia.
      split_and!; try done; [unfold buf; lia|lia|by rewrite <- app_assoc|].
      by eapply printed_trans.
Qed.
End printf.

(** ** Properties *)

(** A cleared console, for the witnesses. *)
Definition fresh (m : mem) : con trace := clear (Con m 0 0 silent).

Lemma fresh_shows m : shows (fresh m) blank_screen.
Proof. exact (proj1 (clear_shows (Con m 0 0 silent))). Qed.

#[global] Opaque clear for_.

(** C38: putc keeps the cursor on the 80 by 25 page and the standard attribute
    in every cell, and refines the abstract screen: a line end moves to the
    next row, any other character is stored under the cursor, the last column
    wraps and the last row scrolls every row up by one; no byte outside the
    video page changes. *)
Theorem putc_refines {D} ch (c : con D) s :
  shows c s →
  shows (putc ch c) (show_char (u8 ch) s) ∧ outside_video (vmem c) (vmem (putc ch c)).
Proof. intros Hs. split; [by apply putc_shows|by eapply putc_outside]. Qed.

Lemma putc_refines_witness :
  shows (putc 65 (fresh mem0)) (Screen (65 :: replicate 1999 32) 1) ∧
  outside_video (vmem (fresh mem0)) (vmem (putc 65 (fresh mem0))).
Proof. exact (putc_refines 65 (fresh mem0) blank_screen (fresh_shows mem0)). Defined.

(** A call of back_space erases the character before the cursor, going back to the
    end of the previous row from column 0 and doing nothing in the upper left
    corner; clear_screen blanks the page and homes the cursor whatever the
    state was; both touch only the video page. *)
Theorem erasing_refines {D} (c : con D) s :
  shows c s →
  shows (back_space c) (unshow s) ∧ outside_video (vmem c) (vmem (back_space c)) ∧
  shows (clear_screen c) blank_screen ∧ outside_video (vmem c) (vmem (clear_screen c)).
Proof.
  intros Hs. split; [by apply back_space_shows|]. split; [by eapply back_space_outside|].
  exact (clear_shows (Con (vmem c) 0 0 (dev c))).
Qed.

Lemma erasing_refines_witness :
  let c := fresh mem0 in
  shows (back_space c) blank_screen ∧ outside_video (vmem c) (vmem (back_space c)) ∧
  shows (clear_screen c) blank_screen ∧ outside_video (vmem c) (vmem (clear_screen c)).
Proof. exact (erasing_refines (fresh mem0) blank_screen (fresh_shows mem0)). Defined.

(** The function update_terminal_cursor programs the CRT controller with the position
    of the cursor: the low byte into register 0x0F, then the high byte into
    register 0x0E. *)
Theorem cursor_follows_screen m x y s :
  shows (Con m x y silent) s →
  writes (dev (update_terminal_cursor (Con m x y silent))) =
    [(pos s / 256, 0x3D5); (0x0E, 0x3D4); (pos s mod 256, 0x3D5); (0x0F, 0x3D4)].
Proof.
  intros Hs. pose proof (shows_range _ _ Hs) as Hr. destruct Hs as [_ _ Hpos _ _].
  cbn [screen_x screen_y] in Hpos. unfold update_terminal_cursor, outb. cbn.
  replace (y * NUM_COLS + x) with (pos s) by lia.
  rewrite (u16_small (pos s)) by lia. change 255 with (Z.ones 8).
  rewrite !Z.land_ones, Z.shiftr_div_pow2 by lia. change (2 ^ 8) with 256.
  rewrite !u8_small by zlia. rewrite (Z.mod_small (pos s / 256)) by zlia. done.
Qed.

Lemma cursor_follows_screen_witness :
  writes (dev (update_terminal_cursor (fresh mem0))) =
    [(0, 0x3D5); (0x0E, 0x3D4); (0, 0x3D5); (0x0F, 0x3D4)].
Proof. exact (cursor_follows_screen (vmem (fresh mem0)) 0 0 blank_screen (fresh_shows mem0)). Defined.

(** C37: printf terminates on every well-formed format, returns the length of
    the format and prints exactly what the format denotes: the literal
    characters, the numerals of %x, %u and %d, the eight zero-padded digits of
    %#x, the characters of %c and the strings of %s; unknown conversions print
    nothing.  Only the video page and the conversion buffer change. *)
Theorem printf_correct {D} conv format f esp out (c : con D) s :
  shows c s → disjoint_regions VIDEO page_size conv scratch_size →
  cstr (vmem c) format f → zlen f < 2147483648 → clear_of conv format (zlen f + 1) →
  formats (vmem c) conv f esp out →
  returns (printf conv format esp c) (λ '(c', n), n = zlen f ∧
    shows c' (show out s) ∧ kept conv (vmem c) (vmem c') ∧ dev c' = dev c).
Proof. intros. by apply printf_prints. Qed.

(** The format %#x=%d with the arguments 14 and 4294967254, read as -42. *)
Lemma printf_correct_witness :
  let c := fresh (wr_bytes mem0 100 (codes "%#x=%d" ++ [0])) in
  returns (printf 4096 100 [14; 4294967254] c) (λ '(c', n), n = 6 ∧
    shows c' (show (codes "0000000E=-42") blank_screen) ∧ kept 4096 (vmem c) (vmem c') ∧
    dev c' = silent).
Proof.
  apply (printf_correct 4096 100 (codes "%#x=%d") [14; 4294967254] (codes "0000000E=-42")
           (fresh (wr_bytes mem0 100 (codes "%#x=%d" ++ [0])))).
  - apply fresh_shows.
  - unfold disjoint_regions, VIDEO, page_size, scratch_size. lia.
  - by_decide.
  - cbn; lia.
  - unfold clear_of, disjoint_regions, VIDEO, page_size, scratch_size. cbn. lia.
  - apply (F_conv _ _ 1 120 (codes "=%d") [14; 4294967254] [4294967254]
             (codes "0000000E") (codes "=-42")); [done|apply C_hex8; lia|].
    apply F_char; [done|].
    apply (F_conv _ _ 0 100 [] [4294967254] [] (codes "-42") []); [done| |apply F_nil].
    apply (C_signed _ _ false 4294967254 []); lia.
Defined.
