(* ===== verification/Printing.v ===== *)
(** * Printing with literal formats

    A call of printf with a string literal, what it needs of the literal, and
    the formats of the kernel's messages a conversion at a time. *)

From S2P Require Import Prelude Memory LibString Ports Console.

(** Where the literals are is the linker's choice. *)
Definition say {D} (conv : Z) (lit : list Z → Z) (s : list Z) (args : list Z) (c : con D) : res (con D) :=
  '(c, _) ← printf conv (lit s) args c; Ok c.

(** The literal [s] lies in [m], clear of what printing changes. *)
Definition literal_ok (conv : Z) (lit : list Z → Z) (m : mem) (s : list Z) : Prop :=
  cstr m (lit s) s ∧ clear_of conv (lit s) (zlen s + 1).

Lemma literal_kept conv lit m m' s : kept conv m m' → literal_ok conv lit m s → literal_ok conv lit m' s.
Proof. intros Hk [Hl Hc]. split; [|done]. by eapply kept_cstr. Qed.

Lemma say_prints {D} conv lit t args out (c : con D) s :
  disjoint_regions VIDEO page_size conv scratch_size →
  shows c s → literal_ok conv lit (vmem c) t → zlen t < 2147483648 → formats (vmem c) conv t args out →
  returns (say conv lit t args c) (λ c', printed conv c s out c').
Proof.
  intros Hdis Hs [Hl Hc] Hz Hf. unfold say. eapply returns_bind; [by apply (printf_prints conv c s)|].
  intros [c' n] [_ Hp]. by apply returns_Ok.
Qed.

(** ** Formats, a conversion at a time *)
Definition hex8 (v : Z) : list Z := zero_padded (numeral 16 v).

Section formats.
Context (m : mem) (conv : Z).

Lemma formats_plain p f esp out :
  Forall (λ c, c ≠ 37) p → formats m conv f esp out → formats m conv (p ++ f) esp (p ++ out).
Proof. intros Hp Hf. induction Hp; [done|]. cbn. by apply F_char. Qed.

Lemma formats_hex8 v f esp out :
  0 ≤ v < 4294967296 → formats m conv f esp out → formats m conv (codes "%#x" ++ f) (v :: esp) (hex8 v ++ out).
Proof. intros Hv Hf. apply (F_conv m conv 1 120 f _ esp); [done|by apply C_hex8|done]. Qed.

Lemma formats_hex v f esp out :
  0 ≤ v < 4294967296 → formats m conv f esp out → formats m conv (codes "%x" ++ f) (v :: esp) (numeral 16 v ++ out).
Proof. intros Hv Hf. apply (F_conv m conv 0 120 f _ esp); [done|by apply C_hex|done]. Qed.

Lemma formats_unsigned v f esp out :
  0 ≤ v < 4294967296 → formats m conv f esp out → formats m conv (codes "%u" ++ f) (v :: esp) (numeral 10 v ++ out).
Proof. intros Hv Hf. apply (F_conv m conv 0 117 f _ esp); [done|by apply C_unsigned|done]. Qed.

Lemma formats_signed v f esp out :
  0 ≤ v < 2147483648 → formats m conv f esp out → formats m conv (codes "%d" ++ f) (v :: esp) (signed_numeral v ++ out).
Proof.
  intros Hv Hf. apply (F_conv m conv 0 100 f _ esp); [done| |done].
  rewrite <- (s32_small v) at 2 by lia. apply C_signed; lia.
Qed.

Lemma formats_string v l f esp out :
  cstr m v l → zlen l < 2147483648 → clear_of conv v (zlen l + 1) →
  formats m conv f esp out → formats m conv (codes "%s" ++ f) (v :: esp) (l ++ out).
Proof. intros Hl Hz Hc Hf. apply (F_conv m conv 0 115 f _ esp); [done|by apply C_string|done]. Qed.

(** A literal without a conversion. *)
Lemma plain_formats s args : Forall (λ ch, ch ≠ 37) s → formats m conv s args s.
Proof. induction 1; by constructor. Qed.
End formats.
