(* ===== verification/Keyboard.v ===== *)
(** * keyboard.c: the keyboard driver and the terminal line discipline

    State: the modifier flags, the line being typed ([buffer]), the line a
    reader may take ([storage_buffer]), and the console they echo to.  The
    three file system commands behind Ctrl-1, Ctrl-2 and Ctrl-3 are an
    interface, [Hotkeys], so that the driver is verified apart from files.c. *)

From S2P Require Import Prelude Memory Ports Pic Console.

Definition KEYBOARD_IRQ := 1.
Definition KEYBOARD_PORT := 0x60.
Definition BUF_SIZE := 1024.

(** ** The scancode tables *)

(** Entries that the initializer does not give are 0. *)
Definition table (l : list Z) : list Z := l ++ replicate (128 - length l) 0.

Definition norm : list Z := table
  ([0; 27] ++ codes "1234567890-=" ++ [8; 9] ++ codes "qwertyuiop[]" ++ [10; 0] ++
   codes "asdfghjkl;'`" ++ [0; 92] ++ codes "zxcvbnm,./" ++ [0; 42; 0; 32]).
Definition cap_norm : list Z := table
  ([0; 27] ++ codes "1234567890-=" ++ [8; 9] ++ codes "QWERTYUIOP[]" ++ [10; 0] ++
   codes "ASDFGHJKL:'`" ++ [0; 92] ++ codes "ZXCVBNM,./" ++ [0; 42; 0; 32]).
Definition shift_norm : list Z := table
  ([0; 27] ++ codes "!@#$%^&*()_+" ++ [8; 9] ++ codes "QWERTYUIOP{}" ++ [10; 0] ++
   codes "ASDFGHJKL:" ++ [34; 126] ++ [0; 92] ++ codes "ZXCVBNM<>?" ++ [0; 42; 0; 32]).
Definition cap_shift : list Z := table
  ([0; 27] ++ codes "!@#$%^&*()_+" ++ [8; 9] ++ codes "qwertyuiop{}" ++ [10; 0] ++
   codes "asdfghjkl:" ++ [34; 126] ++ [0; 92] ++ codes "zxcvbnm<>?" ++ [0; 42; 0; 32]).

(** ** State *)

Record mods := Mods {
  caps_flag : Z;
  shift_left_flag : Z;
  shift_right_flag : Z;
  ctrl_left_flag : Z;
  ctrl_right_flag : Z
}.

Record line := Line {
  buffer : list Z;
  storage_buffer : list Z;
  buffer_content_counter : Z;
  storage_buffer_counter : Z;
  backspacable_counter : Z;
  readable_flag : Z
}.

Record kb (D F : Type) := Kb {
  kcon : con D;
  kfs : F;
  kmods : mods;
  kline : line;
  index_file : Z
}.
Arguments Kb {D F} _ _ _ _ _.
Arguments kcon {D F} _.
Arguments kfs {D F} _.
Arguments kmods {D F} _.
Arguments kline {D F} _.
Arguments index_file {D F} _.

(** What the driver calls in files.c, over the state [F] of the file system:
    the three commands end, and keep the screen and the file system sound. *)
Class Hotkeys (D F : Type) := {
  files_test : con D → F → res (con D * F);
  print_allfile_name : con D → F → res (con D * F);
  file_index : Z → con D → F → res (con D * F);
  fs_sound : F → mem → Prop;
  fs_sound_video f m m' : outside_video m m' → fs_sound f m → fs_sound f m';
  files_test_sound c s f : shows c s → fs_sound f (vmem c) →
    returns (files_test c f) (λ '(c', f'), (∃ s', shows c' s') ∧ fs_sound f' (vmem c'));
  print_allfile_name_sound c s f : shows c s → fs_sound f (vmem c) →
    returns (print_allfile_name c f) (λ '(c', f'), (∃ s', shows c' s') ∧ fs_sound f' (vmem c'));
  file_index_sound a c s f : shows c s → fs_sound f (vmem c) →
    returns (file_index a c f) (λ '(c', f'), (∃ s', shows c' s') ∧ fs_sound f' (vmem c'))
}.

Section operations.
Context `{PortIO D, Hotkeys D F}.
Implicit Types (k : kb D F) (l : line).

Definition set_con (c : con D) k := Kb c (kfs k) (kmods k) (kline k) (index_file k).
Definition set_mods (m : mods) k := Kb (kcon k) (kfs k) m (kline k) (index_file k).
Definition set_line l k := Kb (kcon k) (kfs k) (kmods k) l (index_file k).
Definition set_con_fs (x : con D * F) k := Kb (fst x) (snd x) (kmods k) (kline k) (index_file k).

Definition set_backspacable (n : Z) l :=
  Line (buffer l) (storage_buffer l) (buffer_content_counter l) (storage_buffer_counter l) n
    (readable_flag l).
Definition set_readable (r : Z) l :=
  Line (buffer l) (storage_buffer l) (buffer_content_counter l) (storage_buffer_counter l)
    (backspacable_counter l) r.
Definition set_buffer (b : list Z) (n : Z) l :=
  Line b (storage_buffer l) n (storage_buffer_counter l) (backspacable_counter l)
    (readable_flag l).
Definition set_storage (b : list Z) (n : Z) l :=
  Line (buffer l) b (buffer_content_counter l) n (backspacable_counter l) (readable_flag l).

Definition clear_buf l : line := set_buffer (zero_all BUF_SIZE (buffer l)) 0 l.
Definition clear_storage_buf l : line := set_storage (zero_all BUF_SIZE (storage_buffer l)) 0 l.

(** keyboard_init leaves [storage_buffer_counter] as it is. *)
Definition keyboard_init (p : pic) k : pic * kb D F :=
  let l := kline k in
  let l := Line (zero_all BUF_SIZE (buffer l)) (zero_all BUF_SIZE (storage_buffer l)) 0
             (storage_buffer_counter l) 0 0 in
  let c := update_terminal_cursor (init_screen_x_and_y (kcon k)) in
  let '(p, d) := enable_irq KEYBOARD_IRQ p (dev c) in
  (p, Kb (Con (vmem c) (screen_x c) (screen_y c) d) (kfs k) (kmods k) l 0).

Definition print_buf k : res (kb D F * Z) :=
  '(c, i) ← whileM (λ '(c, i),
    if i <? buffer_content_counter (kline k) then
      ch ← arr_get (buffer (kline k)) i; Ok (inl (putc ch c, i + 1))
    else Ok (inr (c, i))) (kcon k, 0);
  Ok (set_line (set_backspacable 0 (kline k)) (set_con (update_terminal_cursor c) k), i).

(** What terminal_read does once the line is readable. *)
Definition take_line (buf nbytes : Z) k : res (kb D F * Z) :=
  if readable_flag (kline k) =? 0 then Ok (k, -1)
  else
    '(m, i) ← whileM (λ '(m, i),
      if (i <? storage_buffer_counter (kline k)) && (i <? nbytes) then
        ch ← arr_get (storage_buffer (kline k)) i; Ok (inl (wr m (buf + i) ch, i + 1))
      else Ok (inr (m, i))) (vmem (kcon k), 0);
    Ok (set_line (set_readable 0 (clear_storage_buf (kline k))) (set_con (set_vmem m (kcon k)) k), i).

(** [while (!readable_flag);], with the interrupts that arrive meanwhile, over
    any state that contains the terminal. *)
Definition terminal_read {Ev St} (tty : St → kb D F) (set_tty : kb D F → St → St)
    (deliver : Ev → St → res St) (sched : list Ev) (buf nbytes : Z) (s : St) :
    res (St * Z * list Ev) :=
  '(s, rest) ← spin (λ s, readable_flag (kline (tty s)) =? 0) deliver sched s;
  '(k, n) ← take_line buf nbytes (tty s);
  Ok (set_tty k s, n, rest).

Definition terminal_write (fd buf nbytes : Z) k : res (kb D F * Z) :=
  l ← whileM (λ '(l, i),
    if i <? nbytes then
      b ← arr_set (buffer l) i (s8 (rd (vmem (kcon k)) (buf + i)));
      Ok (inl (set_buffer b (buffer_content_counter l + 1) l, i + 1))
    else Ok (inr l)) (kline k, 0);
  '(k, bytes_written) ← print_buf (set_line l k);
  Ok (set_line (set_backspacable 0 (clear_buf (kline k))) k, bytes_written).

Definition terminal_open (filename : Z) (p : pic) k : pic * kb D F * Z := (keyboard_init p k, 0).

(** The modifier flags, set and reset in the order of the code. *)
Definition update_mods (ch : Z) (m : mods) : mods :=
  let right := if ch =? 0x36 then 1 else shift_right_flag m in
  let left := if ch =? 0x2A then 1 else shift_left_flag m in
  let ctrl := if ch =? 0x1D then 1 else ctrl_left_flag m in
  let caps := if (ch =? 0x3A) && (caps_flag m =? 0) then 1
              else if (ch =? 0x3A) && (caps_flag m =? 1) then 0 else caps_flag m in
  let right := if ch =? 0xB6 then 0 else right in
  let left := if ch =? 0xAA then 0 else left in
  let ctrl := if ch =? 0x9D then 0 else ctrl in
  Mods caps left right ctrl (ctrl_right_flag m).

Definition ctrl_held (m : mods) : bool := (ctrl_left_flag m =? 1) || (ctrl_right_flag m =? 1).

Definition clear_terminal k : kb D F :=
  let c := clear_screen (kcon k) in
  let l := clear_storage_buf (set_backspacable 0 (clear_buf (kline k))) in
  set_line l (set_con (update_terminal_cursor c) k).

(** The ENTER branch. *)
Definition enter_key k : res (kb D F) :=
  let c := update_terminal_cursor (putc 10 (kcon k)) in
  let l := clear_storage_buf (set_readable 0 (set_backspacable 0 (kline k))) in
  '(l, i) ← whileM (λ '(l, i),
    if i <? buffer_content_counter l then
      ch ← arr_get (buffer l) i;
      b ← arr_set (storage_buffer l) i ch;
      Ok (inl (set_storage b (storage_buffer_counter l + 1) l, i + 1))
    else Ok (inr (l, i))) (l, 0);
  b ← arr_set (storage_buffer l) i 10;
  let l := set_readable 1 (set_storage b (storage_buffer_counter l + 1) l) in
  Ok (set_line (clear_buf l) (set_con c k)).

Definition backspace_key k : res (kb D F) :=
  let c := update_terminal_cursor (back_space (kcon k)) in
  let l := set_backspacable (backspacable_counter (kline k) - 1) (kline k) in
  if 0 <? buffer_content_counter l then
    let n := buffer_content_counter l - 1 in
    b ← arr_set (buffer l) n 0;
    Ok (set_line (set_buffer b n l) (set_con c k))
  else Ok (set_line l (set_con c k)).

Definition tab_key k : kb D F :=
  let c := update_terminal_cursor (putc 32 (putc 32 (kcon k))) in
  set_line (set_backspacable (backspacable_counter (kline k) + 2) (kline k)) (set_con c k).

(** The table the modifiers select. *)
Definition keymap (m : mods) : list Z :=
  if caps_flag m =? 1 then
    if Z.lor (shift_left_flag m) (shift_right_flag m) =? 1 then cap_shift else cap_norm
  else
    if Z.lor (shift_left_flag m) (shift_right_flag m) =? 1 then shift_norm else norm.

Definition char_key (ch : Z) k : res (kb D F) :=
  let l := kline k in
  if buffer_content_counter l <? 128 then
    v ← arr_get (keymap (kmods k)) ch;
    let c := putc v (kcon k) in
    b ← arr_set (buffer l) (buffer_content_counter l) (s8 v);
    let l := set_buffer b (buffer_content_counter l + 1) l in
    Ok (set_line (set_backspacable (backspacable_counter l + 1) l)
          (set_con (update_terminal_cursor c) k))
  else Ok k.

Definition process_keyboard_input (character_info : Z) k : res (kb D F) :=
  let k := set_mods (update_mods character_info (kmods k)) k in
  let ctrl := ctrl_held (kmods k) in
  if ctrl && (character_info =? 0x26) then Ok (clear_terminal k)
  else if ctrl && (character_info =? 0x2) then
    x ← files_test (kcon k) (kfs k); Ok (set_con_fs x k)
  else if ctrl && (character_info =? 0x3) then
    x ← print_allfile_name (kcon k) (kfs k); Ok (set_con_fs x k)
  else if ctrl && (character_info =? 0x4) then
    '(c, f) ← file_index (index_file k) (kcon k) (kfs k);
    Ok (Kb c f (kmods k) (kline k) (s32 (index_file k + 1)))
  else if 0x3A <? character_info then Ok k
  else
    base ← arr_get norm character_info;
    if base =? 10 then enter_key k
    else if (base =? 8) && (0 <? backspacable_counter (kline k)) then backspace_key k
    else if base =? 8 then Ok k
    else if base =? 9 then Ok (tab_key k)
    else if (character_info =? 0x36) || (character_info =? 0x2A) || (character_info =? 0x1D)
    then Ok k
    else if character_info =? 0x3A then Ok k
    else char_key character_info k.

Definition set_dev (d : D) (c : con D) : con D := Con (vmem c) (screen_x c) (screen_y c) d.

(** The handler once the scancode has been read from the controller. *)
Definition handle_scancode (character_info : Z) k : res (kb D F) :=
  k ← process_keyboard_input character_info k;
  Ok (set_con (set_dev (send_eoi KEYBOARD_IRQ (dev (kcon k))) (kcon k)) k).

Definition keyboard_interrupt_handler k : res (kb D F) :=
  let '(character_info, d) := inb KEYBOARD_PORT (dev (kcon k)) in
  handle_scancode (u8 character_info) (set_con (set_dev d (kcon k)) k).
End operations.

(** ** The abstract terminal *)

Inductive key :=
  | KeyChar (v : Z)
  | KeyEnter
  | KeyBackspace
  | KeyTab
  | KeyClear
  | KeyCommand (n : Z)
  | KeyNone.

(** What a scancode means once the modifiers are up to date. *)
Definition decode (m : mods) (ch : Z) : key :=
  if ctrl_held m && (ch =? 0x26) then KeyClear
  else if ctrl_held m && ((2 <=? ch) && (ch <=? 4)) then KeyCommand ch
  else if (0x3A <=? ch) || (ch =? 0x36) || (ch =? 0x2A) || (ch =? 0x1D) then KeyNone
  else if ch =? 0x1C then KeyEnter
  else if ch =? 0x0E then KeyBackspace
  else if ch =? 0x0F then KeyTab
  else KeyChar (keymap m !!! Z.to_nat ch).

Record tty := Tty {
  t_screen : screen;
  typed : list Z;      (* the line being typed *)
  stored : list Z;     (* the line a reader may take *)
  ready : bool;
  erasable : Z         (* how many cells a backspace may still erase *)
}.

(** A line is limited to 128 characters before its end. *)
Definition line_max : nat := 128.

Definition tty_key (x : key) (t : tty) : tty :=
  match x with
  | KeyChar v =>
      if (length (typed t) <? line_max)%nat
      then Tty (show_char v (t_screen t)) (typed t ++ [v]) (stored t) (ready t) (erasable t + 1)
      else t
  | KeyEnter => Tty (show_char 10 (t_screen t)) [] (typed t ++ [10]) true 0
  | KeyBackspace =>
      if 0 <? erasable t
      then Tty (unshow (t_screen t)) (removelast (typed t)) (stored t) (ready t) (erasable t - 1)
      else t
  | KeyTab => Tty (show [32; 32] (t_screen t)) (typed t) (stored t) (ready t) (erasable t + 2)
  | KeyClear => Tty blank_screen [] [] (ready t) 0
  | KeyCommand _ | KeyNone => t
  end.

Definition ascii (v : Z) : Prop := 0 ≤ v < 128.

(** The driver state [l] on the console [c] represents the terminal [t]. *)
Record represents {D} (c : con D) (l : line) (t : tty) : Prop := {
  rep_screen : shows c (t_screen t);
  rep_buffer : holds 1024 (typed t) (buffer l);
  rep_counter : buffer_content_counter l = zlen (typed t);
  rep_typed : (length (typed t) ≤ line_max)%nat ∧ Forall ascii (typed t);
  rep_storage : holds 1024 (stored t) (storage_buffer l);
  rep_storage_counter : storage_buffer_counter l = zlen (stored t);
  rep_stored : (length (stored t) ≤ S line_max)%nat ∧ Forall ascii (stored t);
  rep_erasable : backspacable_counter l = erasable t ∧ 0 ≤ erasable t;
  rep_ready : readable_flag l = if ready t then 1 else 0
}.

Lemma zero_buffer l arr : holds 1024 l arr → holds 1024 [] (zero_all BUF_SIZE arr).
Proof.
  intros Hh. rewrite zero_all_spec by (rewrite (holds_length _ _ _ Hh); done). apply holds_nil.
Qed.

Lemma update_terminal_cursor_shows `{PortIO D} (c : con D) s :
  shows c s → shows (update_terminal_cursor c) s.
Proof. by intros []. Qed.

#[export] Hint Resolve update_terminal_cursor_shows putc_shows back_space_shows zero_buffer : core.

Lemma keymap_range m : Forall ascii (keymap m).
Proof.
  unfold keymap, ascii. repeat case_match; by_decide.
Qed.

Lemma keymap_length m : length (keymap m) = 128%nat.
Proof. unfold keymap. by repeat case_match. Qed.

Lemma keymap_get m ch :
  0 ≤ ch < 128 → arr_get (keymap m) ch = Ok (keymap m !!! Z.to_nat ch) ∧
    ascii (keymap m !!! Z.to_nat ch).
Proof.
  intros Hch. destruct (lookup_lt_is_Some_2 (keymap m) (Z.to_nat ch)) as [v Hv].
  { rewrite keymap_length. lia. }
  unfold arr_get. case_z; [lia|]. rewrite Hv, (list_lookup_total_correct _ _ _ Hv).
  split; [done|]. exact (Forall_lookup_1 _ _ _ _ (keymap_range m) Hv).
Qed.

(** The classification of the codes up to 0x3A by the unshifted table. *)
Lemma norm_get ch :
  0 ≤ ch ≤ 0x3A →
  arr_get norm ch = Ok (norm !!! Z.to_nat ch) ∧
  (norm !!! Z.to_nat ch =? 10) = (ch =? 0x1C) ∧
  (norm !!! Z.to_nat ch =? 8) = (ch =? 0x0E) ∧
  (norm !!! Z.to_nat ch =? 9) = (ch =? 0x0F).
Proof.
  intros Hch.
  assert (Forall (λ ch, norm !! Z.to_nat ch = Some (norm !!! Z.to_nat ch) ∧
    (norm !!! Z.to_nat ch =? 10) = (ch =? 0x1C) ∧
    (norm !!! Z.to_nat ch =? 8) = (ch =? 0x0E) ∧
    (norm !!! Z.to_nat ch =? 9) = (ch =? 0x0F)) (seqZ 0 59)) as Hall by by_decide.
  rewrite Forall_forall in Hall. destruct (Hall ch) as [Hl Hc]; [apply elem_of_seqZ; lia|].
  split; [|done]. unfold arr_get. rewrite Hl. by rewrite (proj2 (Z.ltb_ge ch 0)) by lia.
Qed.

(** ** The driver refines the abstract terminal *)

Section refinement.
Context `{PortIO D, Hotkeys D F}.
Implicit Types (k : kb D F) (t : tty).

Lemma clear_terminal_refines k t :
  represents (kcon k) (kline k) t →
  represents (kcon (clear_terminal k)) (kline (clear_terminal k)) (tty_key KeyClear t).
Proof.
  intros [Hs Hb Hc Ht Hst Hsc Hsd He Hr]. constructor; cbn; try done; eauto.
  - apply update_terminal_cursor_shows, clear_shows.
  - unfold line_max. split; [lia|done].
  - unfold line_max. split; [lia|done].
Qed.

(** Copying the typed line into the storage buffer. *)
Lemma copy_line l ty :
  holds 1024 ty (buffer l) → buffer_content_counter l = zlen ty → (length ty ≤ line_max)%nat →
  holds 1024 [] (storage_buffer l) → storage_buffer_counter l = 0 →
  returns (whileM (λ '(l, i),
    if i <? buffer_content_counter l then
      ch ← arr_get (buffer l) i;
      b ← arr_set (storage_buffer l) i ch;
      Ok (inl (set_storage b (storage_buffer_counter l + 1) l, i + 1))
    else Ok (inr (l, i))) (l, 0))
  (λ '(l', i), i = zlen ty ∧ ∃ b, l' = set_storage b (zlen ty) l ∧ holds 1024 ty b).
Proof.
  unfold line_max. intros Hb Hc Hlen Hst Hsc.
  apply whileM_total with
    (I := λ '(l', i), ∃ pre suf b, ty = pre ++ suf ∧ i = zlen pre ∧
            l' = set_storage b (zlen pre) l ∧ holds 1024 pre b)
    (V := λ '(l', i), zlen ty - i).
  - exists [], ty, (storage_buffer l). split_and!; [done|done| |done].
    destruct l; cbn in *. by rewrite Hsc.
  - lia.
  - intros [l' i] (pre & suf & b & -> & -> & -> & Hpre). cbn [set_storage buffer_content_counter].
    rewrite Hc. destruct suf as [|x suf].
    + rewrite app_nil_r in *. rewrite Z.ltb_irrefl.
      apply returns_Ok. split; [done|]. by exists b.
    + rewrite zlen_app, zlen_cons. rewrite (proj2 (Z.ltb_lt _ _)) by lia.
      cbn [buffer].
      rewrite (holds_get 1024 (pre ++ x :: suf) _ _ x); [|done|lia|].
      2: { rewrite Nat2Z.id. by apply list_lookup_middle. }
      rewrite bind_Ok. cbn [storage_buffer set_storage].
      destruct (holds_push 1024 pre b x) as (b' & -> & Hb'); [done| |].
      { rewrite length_app in Hlen. cbn in Hlen. lia. }
      rewrite bind_Ok. apply returns_Ok. cbn [storage_buffer_counter]. split; [|lia].
      exists (pre ++ [x]), suf, b'. rewrite zlen_app. split_and!; try done.
      by rewrite <- app_assoc.
Qed.

Lemma enter_key_refines k t :
  represents (kcon k) (kline k) t →
  returns (enter_key k) (λ k', represents (kcon k') (kline k') (tty_key KeyEnter t) ∧
    kmods k' = kmods k ∧ kfs k' = kfs k ∧ outside_video (vmem (kcon k)) (vmem (kcon k'))).
Proof.
  intros [Hs Hb Hc [Hlen Hasc] Hst Hsc Hsd He Hr]. unfold enter_key.
  eapply returns_bind.
  { apply (copy_line _ (typed t)); cbn; eauto. }
  intros [l i] [-> (b & -> & Hcopy)]. cbn [storage_buffer set_storage].
  destruct (holds_push 1024 (typed t) b 10) as (b' & -> & Hb'); [done|unfold line_max in *; lia|].
  rewrite bind_Ok. apply returns_Ok. cbn [kmods kfs set_line set_con]. split_and!; try done.
  - constructor; cbn; try done; eauto.
    + unfold line_max. split; [lia|done].
    + rewrite zlen_app. done.
    + split; [rewrite length_app; cbn; lia|]. apply Forall_app; split; [done|].
      repeat constructor; unfold ascii; lia.
  - by apply (putc_outside 10 _ (t_screen t)).
Qed.

Lemma removelast_snoc {A} (l : list A) x : removelast (l ++ [x]) = l.
Proof. apply removelast_last. Qed.

Lemma backspace_key_refines k t :
  represents (kcon k) (kline k) t → 0 < erasable t →
  returns (backspace_key k) (λ k', represents (kcon k') (kline k') (tty_key KeyBackspace t) ∧
    kmods k' = kmods k ∧ kfs k' = kfs k ∧ outside_video (vmem (kcon k)) (vmem (kcon k'))).
Proof.
  intros [Hs Hb Hc [Hlen Hasc] Hst Hsc Hsd [He Hpos] Hr] Her. unfold backspace_key.
  cbn [tty_key set_backspacable buffer_content_counter buffer].
  rewrite (proj2 (Z.ltb_lt 0 (erasable t))) by done. rewrite Hc.
  assert (outside_video (vmem (kcon k)) (vmem (back_space (kcon k)))) as Ho
    by (by eapply back_space_outside).
  destruct (typed t) as [|x ty _] eqn:Hty using rev_ind.
  - cbn. apply returns_Ok. split_and!; try done.
    constructor; cbn; rewrite ?Hty; try done; eauto; try lia.
  - rewrite zlen_app. rewrite (proj2 (Z.ltb_lt _ _)) by (cbn; lia).
    destruct (holds_pop 1024 ty (buffer (kline k)) x) as (b & Hset & Hb'); [done|].
    replace (zlen ty + zlen [x] - 1) with (zlen ty) by (cbn; lia).
    rewrite Hset, bind_Ok, removelast_snoc. apply returns_Ok.
    rewrite length_app in Hlen. cbn in Hlen. apply Forall_app in Hasc as [Hasc _].
    split_and!; try done. constructor; cbn; try done; eauto; try lia.
    split; [lia|done].
Qed.

Lemma tab_key_refines k t :
  represents (kcon k) (kline k) t →
  represents (kcon (tab_key k)) (kline (tab_key k)) (tty_key KeyTab t) ∧
  outside_video (vmem (kcon k)) (vmem (kcon (tab_key k))).
Proof.
  intros [Hs Hb Hc [Hlen Hasc] Hst Hsc Hsd [He Hpos] Hr].
  pose proof (putc_shows 32 _ _ Hs) as Hs1. split.
  - constructor; cbn; try done; eauto; lia.
  - eapply same_except_trans; [by apply (putc_outside 32 _ (t_screen t))|].
    cbn. by eapply (putc_outside 32).
Qed.

Lemma char_key_refines ch k t :
  represents (kcon k) (kline k) t → 0 ≤ ch < 128 →
  returns (char_key ch k) (λ k',
    represents (kcon k') (kline k') (tty_key (KeyChar (keymap (kmods k) !!! Z.to_nat ch)) t) ∧
    kmods k' = kmods k ∧ kfs k' = kfs k ∧ outside_video (vmem (kcon k)) (vmem (kcon k'))).
Proof.
  intros Hrep Hch. pose proof Hrep as [Hs Hb Hc [Hlen Hasc] Hst Hsc Hsd [He Hpos] Hr].
  unfold char_key. rewrite Hc. cbn [tty_key]. unfold line_max.
  destruct (keymap_get (kmods k) ch Hch) as [Hget Hv].
  set (v := keymap (kmods k) !!! Z.to_nat ch) in *. unfold ascii in Hv.
  destruct (Nat.ltb_spec (length (typed t)) 128) as [Hlt|Hge].
  - rewrite (proj2 (Z.ltb_lt _ _)) by lia. rewrite Hget, bind_Ok.
    destruct (holds_push 1024 (typed t) (buffer (kline k)) (s8 v)) as (b & -> & Hb');
      [done|lia|]. rewrite bind_Ok. apply returns_Ok.
    assert (s8 v = v) as Hs8 by (by mach). assert (u8 v = v) as Hu8 by (by mach).
    rewrite Hs8 in Hb'. split_and!; try done.
    + constructor; cbn; try done; eauto; try lia.
      * pose proof (putc_shows v _ _ Hs) as Hp. rewrite Hu8 in Hp. eauto.
      * rewrite zlen_app. cbn. lia.
      * split; [rewrite length_app; cbn; unfold line_max; lia|]. apply Forall_app; split; [done|].
        repeat constructor; unfold ascii; lia.
    + by eapply (putc_outside v).
  - rewrite (proj2 (Z.ltb_ge _ _)) by lia. apply returns_Ok. split_and!; done.
Qed.

(** What a key does to the abstract terminal; the file system commands leave
    some screen. *)
Definition key_effect (x : key) (t t' : tty) : Prop :=
  match x with
  | KeyCommand _ =>
      ∃ s', t' = Tty s' (typed t) (stored t) (ready t) (erasable t)
  | _ => t' = tty_key x t
  end.

(** The state of the driver, with a sound file system. *)
Definition driver_ok k t : Prop :=
  represents (kcon k) (kline k) t ∧ fs_sound (kfs k) (vmem (kcon k)).

(** The memory is only touched inside the video page and the file system not
    at all, commands apart. *)
Definition key_frame (x : key) k k' : Prop :=
  match x with
  | KeyCommand _ => True
  | _ => outside_video (vmem (kcon k)) (vmem (kcon k')) ∧ kfs k' = kfs k
  end.

Lemma command_refines k t x (r : res (con D * F)) i :
  represents (kcon k) (kline k) t → (∃ n, x = KeyCommand n) →
  returns r (λ '(c', f'), (∃ s', shows c' s') ∧ fs_sound f' (vmem c')) →
  returns ('(c, f) ← r; Ok (Kb c f (kmods k) (kline k) i)) (λ k', ∃ t',
    key_effect x t t' ∧ driver_ok k' t' ∧ kmods k' = kmods k ∧ key_frame x k k').
Proof.
  intros [Hs Hb Hc Hty Hst Hsc Hsd He Hr] [n ->] Hret. eapply returns_bind; [exact Hret|].
  intros [c' f'] [[s' Hs'] Hf']. apply returns_Ok.
  exists (Tty s' (typed t) (stored t) (ready t) (erasable t)).
  split; [by exists s'|]. by split_and!.
Qed.

Lemma plain_refines k t x (r : res (kb D F)) :
  driver_ok k t → (∀ n, x ≠ KeyCommand n) →
  returns r (λ k', represents (kcon k') (kline k') (tty_key x t) ∧
    kmods k' = kmods k ∧ kfs k' = kfs k ∧ outside_video (vmem (kcon k)) (vmem (kcon k'))) →
  returns r (λ k', ∃ t',
    key_effect x t t' ∧ driver_ok k' t' ∧ kmods k' = kmods k ∧ key_frame x k k').
Proof.
  intros [_ Hf] Hx Hr. eapply returns_mono; [exact Hr|]. intros k' (Hrep & Hm & Hfs & Ho).
  exists (tty_key x t). 
  split_and!; [destruct x; try done; by destruct (Hx n)|split; [done|]|done|by destruct x].
  rewrite Hfs. by eapply fs_sound_video.
Qed.

Lemma dispatch_refines ch k t :
  driver_ok k t → 0 ≤ ch < 256 →
  returns (process_keyboard_input ch k) (λ k', ∃ t',
    let m := update_mods ch (kmods k) in
    key_effect (decode m ch) t t' ∧ driver_ok k' t' ∧ kmods k' = m ∧ key_frame (decode m ch) k k').
Proof.
  intros [Hrep Hf] Hch. unfold process_keyboard_input.
  set (m := update_mods ch (kmods k)). set (k0 := set_mods m k).
  assert (represents (kcon k0) (kline k0) t) as Hrep0 by done.
  assert (driver_ok k0 t) as Hok0 by done.
  change (kmods k0) with m. unfold decode.
  destruct (ctrl_held m && (ch =? 0x26)) eqn:Eclear.
  { apply (plain_refines k0); [done|done|]. apply returns_Ok.
    split; [by apply clear_terminal_refines|]. split_and!; [done|done|].
    exact (proj2 (clear_shows (Con (vmem (kcon k)) 0 0 (dev (kcon k))))). }
  destruct (ctrl_held m && ((2 <=? ch) && (ch <=? 4))) eqn:Ecmd.
  { apply andb_true_iff in Ecmd as [-> Hrange]. apply andb_true_iff in Hrange as [H2 H4].
    apply Z.leb_le in H2, H4. cbn [andb].
    assert (ch = 2 ∨ ch = 3 ∨ ch = 4) as [-> | [-> | ->]] by lia; cbn [Z.eqb Pos.eqb].
    - pose proof (command_refines k0 t (KeyCommand 2) _ (index_file k0) Hrep0 ltac:(eauto)
        (files_test_sound _ _ _ (rep_screen _ _ _ Hrep0) Hf)) as Hcmd.
      change (kcon k0) with (kcon k) in *. change (kfs k0) with (kfs k) in *.
      revert Hcmd. by destruct (files_test (kcon k) (kfs k)) as [[]|].
    - pose proof (command_refines k0 t (KeyCommand 3) _ (index_file k0) Hrep0 ltac:(eauto)
        (print_allfile_name_sound _ _ _ (rep_screen _ _ _ Hrep0) Hf)) as Hcmd.
      change (kcon k0) with (kcon k) in *. change (kfs k0) with (kfs k) in *.
      revert Hcmd. by destruct (print_allfile_name (kcon k) (kfs k)) as [[]|].
    - exact (command_refines k0 t (KeyCommand 4) _ (s32 (index_file k0 + 1)) Hrep0 ltac:(eauto)
        (file_index_sound (index_file k0) _ _ _ (rep_screen _ _ _ Hrep0) Hf)). }
  assert (∀ n, 2 ≤ n ≤ 4 → ctrl_held m && (ch =? n) = false) as Hnc.
  { intros n Hn. destruct (ctrl_held m); [|done]. cbn [andb] in *. apply Z.eqb_neq. intros ->.
    revert Ecmd. case_z; cbn; lia || done. }
  rewrite !Hnc by lia. clear Hnc Eclear Ecmd.
  destruct (Z.ltb_spec 0x3A ch) as [Hbig|Hsmall].
  { rewrite (proj2 (Z.leb_le _ _)) by lia. cbn [orb]. apply (plain_refines k0); [done|done|].
    by apply returns_Ok. }
  destruct (norm_get ch) as (-> & E1C & E0E & E0F); [lia|]. rewrite bind_Ok, E1C, E0E, E0F.
  destruct (Z.eqb_spec ch 0x1C) as [->|H1C].
  { apply (plain_refines k0); [done|done|]. by apply enter_key_refines. }
  destruct (Z.eqb_spec ch 0x0E) as [->|H0E].
  { cbn [andb orb Z.leb Z.eqb Z.compare Pos.compare Pos.compare_cont Pos.eqb].
    apply (plain_refines k0); [done|done|].
    change (kline k0) with (kline k). destruct (rep_erasable _ _ _ Hrep) as [-> _].
    destruct (Z.ltb_spec 0 (erasable t)) as [Hpos|Hneg]; [by apply backspace_key_refines|].
    apply returns_Ok. cbn [tty_key]. rewrite (proj2 (Z.ltb_ge _ _)) by lia. done. }
  destruct (Z.eqb_spec ch 0x0F) as [->|H0F].
  { apply (plain_refines k0); [done|done|]. apply returns_Ok.
    destruct (tab_key_refines k0 t Hrep0). done. }
  cbn [andb].
  destruct ((ch =? 0x36) || (ch =? 0x2A) || (ch =? 0x1D)) eqn:Emod.
  { rewrite <- !orb_assoc in *. rewrite Emod, orb_true_r.
    apply (plain_refines k0); [done|done|]. by apply returns_Ok. }
  rewrite <- !orb_assoc in *. rewrite Emod, orb_false_r.
  destruct (Z.eqb_spec ch 0x3A) as [->|H3A].
  { apply (plain_refines k0); [done|done|]. by apply returns_Ok. }
  rewrite (proj2 (Z.leb_gt _ _)) by lia.
  apply (plain_refines k0); [done|done|]. apply (char_key_refines ch k0 t); [done|lia].
Qed.
End refinement.

Lemma shows_set_dev {D} (d : D) c s : shows c s → shows (set_dev d c) s.
Proof. by intros []. Qed.

Section handler.
Context `{PortIO D, Hotkeys D F}.
Implicit Types (k : kb D F) (t : tty).

Lemma represents_set_dev d k t :
  represents (kcon k) (kline k) t →
  represents (kcon (set_con (set_dev d (kcon k)) k)) (kline k) t.
Proof. intros []. constructor; try done. by apply shows_set_dev. Qed.

(** One scancode, from the state [k] to the state the handler leaves. *)
Definition scancode_effect (ch : Z) k t k' : Prop :=
  ∃ t', let m := update_mods ch (kmods k) in
  key_effect (decode m ch) t t' ∧ driver_ok k' t' ∧ kmods k' = m ∧ key_frame (decode m ch) k k'.

Lemma handle_scancode_refines ch k t :
  driver_ok k t → 0 ≤ ch < 256 → returns (handle_scancode ch k) (scancode_effect ch k t).
Proof.
  intros Hok Hch. eapply returns_bind; [by apply dispatch_refines|].
  intros k' (t' & He & [Hrep Hf] & Hm & Hfr). apply returns_Ok. exists t'.
  split; [exact He|]. split; [split; [exact (represents_set_dev _ k' t' Hrep)|exact Hf]|]. by split.
Qed.

(** ** The line a reader gets *)

(** The abstract run of scancodes that neither end the line nor call the file
    system; [None] when one of them does. *)
Fixpoint type_keys (m : mods) (t : tty) (keys : list Z) : option (mods * tty) :=
  match keys with
  | [] => Some (m, t)
  | ch :: keys =>
      let m := update_mods ch m in
      match decode m ch with
      | KeyCommand _ | KeyEnter => None
      | x => type_keys m (tty_key x t) keys
      end
  end.

Lemma enter_decode m : decode (update_mods 0x1C m) 0x1C = KeyEnter.
Proof. unfold decode. cbn. by rewrite !andb_false_r. Qed.

Lemma ready_plain x t : x ≠ KeyEnter → ready (tty_key x t) = ready t.
Proof. destruct x; cbn; try done; by case_match. Qed.

(** Scancodes are bytes. *)
Definition scancodes (keys : list Z) : Prop := Forall (λ ch, 0 ≤ ch < 256) keys.

Lemma reader_waits keys rest m t k :
  driver_ok k t → ready t = false → scancodes keys →
  ∀ t1, type_keys (kmods k) t keys = Some (m, t1) →
  returns (spin (λ k, readable_flag (kline k) =? 0) handle_scancode (keys ++ 0x1C :: rest) k)
    (λ '(k', rest'), rest' = rest ∧ driver_ok k' (tty_key KeyEnter t1) ∧
       outside_video (vmem (kcon k)) (vmem (kcon k'))).
Proof.
  revert k t; induction keys as [|ch keys IH]; intros k t Hok Hready Hsc t1 Hrun.
  - injection Hrun as _ <-. cbn [app spin].
    destruct (handle_scancode_refines 0x1C k t Hok) as (k' & Hk' & t' & He & Hok' & _ & Hfr); [lia|].
    rewrite enter_decode in He, Hfr. cbn in He. subst t'.
    rewrite (rep_ready _ _ _ (proj1 Hok)), Hready. cbn [Z.eqb]. rewrite Hk', bind_Ok.
    rewrite spin_done by (by rewrite (rep_ready _ _ _ (proj1 Hok'))).
    apply returns_Ok. split_and!; [done|exact Hok'|exact (proj1 Hfr)].
  - apply Forall_cons in Hsc as [Hch Hsc]. cbn [app spin type_keys] in *.
    destruct (handle_scancode_refines ch k t Hok Hch) as (k' & Hk' & t' & He & Hok' & Hm & Hfr).
    rewrite (rep_ready _ _ _ (proj1 Hok)), Hready. cbn [Z.eqb]. rewrite Hk', bind_Ok.
    rewrite <- Hm in *.
    assert (t' = tty_key (decode (kmods k') ch) t ∧ decode (kmods k') ch ≠ KeyEnter ∧
            outside_video (vmem (kcon k)) (vmem (kcon k')) ∧
            type_keys (kmods k') t' keys = Some (m, t1)) as (Ht' & Hne & Ho & Hrun').
    { destruct (decode (kmods k') ch); try discriminate; cbn in He; subst t';
        (split_and!; [done|done|exact (proj1 Hfr)|done]). }
    assert (ready t' = false) as Hready' by (subst t'; by rewrite ready_plain).
    eapply returns_mono; [by eapply IH|].
    intros [k'' rest'] (-> & Hok'' & Ho'). split_and!; [done|done|].
    by eapply same_except_trans.
Qed.

(** The copy out of the storage buffer. *)
Lemma take_line_correct buf nbytes k t :
  represents (kcon k) (kline k) t → ready t = true → 0 ≤ nbytes →
  disjoint_regions VIDEO page_size buf nbytes →
  returns (take_line buf nbytes k) (λ '(k', n),
    n = Z.min nbytes (zlen (stored t)) ∧
    vmem (kcon k') ≡ wr_bytes (vmem (kcon k)) buf (take (Z.to_nat nbytes) (stored t)) ∧
    represents (kcon k') (kline k') (Tty (t_screen t) (typed t) [] false (erasable t)) ∧
    kmods k' = kmods k ∧ kfs k' = kfs k).
Proof.
  intros [Hs Hb Hc Hty Hst Hsc [Hlen Hasc] He Hr] Hready Hn Hd.
  unfold take_line. rewrite Hr, Hready. cbn [Z.eqb]. rewrite Hsc.
  set (n := Z.min nbytes (zlen (stored t))).
  set (g := λ i, u8 (stored t !!! Z.to_nat i)).
  eapply returns_bind.
  { apply whileM_total with
      (I := λ '(m, i), 0 ≤ i ≤ n ∧ overlay buf i g (vmem (kcon k)) m)
      (V := λ '(m, i), zlen (stored t) - i)
      (Q := λ '(m, i), i = n ∧ overlay buf n g (vmem (kcon k)) m).
    - split; [lia|apply overlay_0].
    - unfold line_max in *. lia.
    - intros [m i] [Hi Hm]. destruct ((i <? zlen (stored t)) && (i <? nbytes)) eqn:E.
      + apply andb_true_iff in E as [E1%Z.ltb_lt E2%Z.ltb_lt].
        destruct (lookup_lt_is_Some_2 (stored t) (Z.to_nat i)) as [ch Hch]; [lia|].
        rewrite (holds_get 1024 (stored t) _ _ ch), bind_Ok by (done || lia). apply returns_Ok.
        split; [|lia]. split; [lia|]. apply overlay_wr; [done|lia|done|].
        unfold g. by rewrite (list_lookup_total_correct _ _ _ Hch).
      + apply returns_Ok. assert (i = n) as ->; [|done].
        apply andb_false_iff in E as [E%Z.ltb_ge|E%Z.ltb_ge]; lia. }
  intros [m i] [-> Hm]. apply returns_Ok.
  assert (same_except buf n (vmem (kcon k)) m) as Hsame by by eapply overlay_same_except.
  unfold disjoint_regions in Hd. split_and!; try done.
  - apply overlay_wr_bytes. rewrite length_take.
    replace (Z.of_nat (Z.to_nat nbytes `min` length (stored t))) with n by lia.
    eapply overlay_ext; [exact Hm|]. intros j Hj. unfold g.
    rewrite !list_lookup_total_alt, lookup_take_lt by lia. done.
  - constructor; try done; cbn [kcon kline set_line set_con set_readable clear_storage_buf
      set_storage storage_buffer storage_buffer_counter]; eauto.
    + apply shows_kept; [done|]. intros a Ha. apply Hsame. lia.
    + unfold line_max. split; [cbn; lia|done].
Qed.

(** ** Writing to the terminal *)

Lemma insert_prefix (bs arr : list Z) i x :
  (i < length arr)%nat → bs !! i = Some x →
  <[i := x]> (take i bs ++ drop i arr) = take (S i) bs ++ drop (S i) arr.
Proof.
  intros Hi Hx. pose proof (lookup_lt_Some _ _ _ Hx) as Hlt.
  assert (length (take i bs) = i) as Hl by (rewrite length_take; lia).
  rewrite <- Hl at 1. replace (length (take i bs)) with (length (take i bs) + 0)%nat by lia.
  rewrite insert_app_r. rewrite (take_S_r _ _ _ Hx), <- app_assoc. f_equal.
  destruct (lookup_lt_is_Some_2 arr i Hi) as [y Hy]. by rewrite (drop_S _ _ _ Hy).
Qed.

Lemma print_buf_prints k s :
  shows (kcon k) s → 0 ≤ buffer_content_counter (kline k) ≤ zlen (buffer (kline k)) →
  zlen (buffer (kline k)) ≤ BUF_SIZE →
  returns (print_buf k) (λ '(k', n),
    n = buffer_content_counter (kline k) ∧
    shows (kcon k') (show (u8 <$> take (Z.to_nat n) (buffer (kline k))) s) ∧
    outside_video (vmem (kcon k)) (vmem (kcon k')) ∧
    kline k' = set_backspacable 0 (kline k) ∧ kmods k' = kmods k ∧ kfs k' = kfs k).
Proof.
  unfold BUF_SIZE. intros Hs Hn Hlen. unfold print_buf.
  set (l := kline k) in *. eapply returns_bind.
  { apply whileM_total with
      (I := λ '(c, i), 0 ≤ i ≤ buffer_content_counter l ∧
         shows c (show (u8 <$> take (Z.to_nat i) (buffer l)) s) ∧
         outside_video (vmem (kcon k)) (vmem c))
      (V := λ '(c, i), buffer_content_counter l - i)
      (Q := λ '(c, i), i = buffer_content_counter l ∧
         shows c (show (u8 <$> take (Z.to_nat i) (buffer l)) s) ∧
         outside_video (vmem (kcon k)) (vmem c)).
    - by split_and!; [lia|lia| |].
    - lia.
    - intros [c i] (Hi & Hc & Ho). destruct (Z.ltb_spec i (buffer_content_counter l)).
      + destruct (lookup_lt_is_Some_2 (buffer l) (Z.to_nat i)) as [ch Hch]; [lia|].
        assert (arr_get (buffer l) i = Ok ch) as ->.
        { unfold arr_get. rewrite (proj2 (Z.ltb_ge _ _)) by lia. by rewrite Hch. }
        rewrite bind_Ok. apply returns_Ok. split; [|lia]. split_and!; [lia|lia| |].
        * replace (Z.to_nat (i + 1)) with (S (Z.to_nat i)) by lia.
          rewrite (take_S_r _ _ _ Hch), fmap_app, show_app. by apply putc_shows.
        * eapply same_except_trans; [exact Ho|]. by eapply putc_outside.
      + apply returns_Ok. split; [lia|done]. }
  intros [c i] (-> & Hc & Ho). apply returns_Ok. split_and!; try done.
  by apply update_terminal_cursor_shows.
Qed.

Lemma map_u8_id (l : list Z) : Forall (λ c, 0 ≤ c < 256) l → u8 <$> l = l.
Proof. induction 1 as [|c l Hc _ IH]; [done|]. cbn. rewrite IH. by mach. Qed.

Lemma map_u8_s8 (l : list Z) : u8 <$> (s8 <$> l) = u8 <$> l.
Proof. induction l as [|c l IH]; [done|]. cbn. rewrite IH. by mach. Qed.

(** The characters terminal_write prints: the caller's bytes, and behind them
    whatever the line buffer still held of a line being typed. *)
Definition written (bs ty : list Z) : list Z :=
  bs ++ take (length ty) (drop (length bs) (ty ++ replicate (1024 - length ty) 0)).

Lemma terminal_write_prints fd buf nbytes k t :
  represents (kcon k) (kline k) t → 0 ≤ nbytes → nbytes + zlen (typed t) ≤ BUF_SIZE →
  returns (terminal_write fd buf nbytes k) (λ '(k', n),
    n = nbytes + zlen (typed t) ∧
    represents (kcon k') (kline k')
      (Tty (show (written (bytes (vmem (kcon k)) buf nbytes) (typed t)) (t_screen t))
         [] (stored t) (ready t) 0) ∧
    outside_video (vmem (kcon k)) (vmem (kcon k')) ∧ kmods k' = kmods k ∧ kfs k' = kfs k).
Proof.
  unfold BUF_SIZE. intros [Hs Hb Hc [Hlen Hasc] Hst Hsc Hsd He Hr] Hn Hmax. unfold terminal_write.
  pose proof (zlen_bytes (vmem (kcon k)) buf nbytes Hn) as Hzb.
  set (bs := bytes (vmem (kcon k)) buf nbytes) in *.
  assert (length bs = Z.to_nat nbytes) as Hbs by lia.
  pose proof (holds_length _ _ _ Hb) as Hl0. set (arr := buffer (kline k)) in *.
  set (copied i := take i (s8 <$> bs) ++ drop i arr).
  assert (∀ i, (i ≤ length bs)%nat → length (copied i) = 1024%nat) as Hcl.
  { intros i Hi. unfold copied. rewrite length_app, length_take, length_fmap, length_drop. lia. }
  eapply returns_bind.
  { apply whileM_total with
      (I := λ '(l, i), 0 ≤ i ≤ nbytes ∧
         l = set_buffer (copied (Z.to_nat i)) (zlen (typed t) + i) (kline k))
      (V := λ '(l, i), nbytes - i)
      (Q := λ l, l = set_buffer (copied (Z.to_nat nbytes)) (zlen (typed t) + nbytes) (kline k)).
    - split; [lia|]. rewrite Z.add_0_r, <- Hc. unfold copied, arr. cbn. by destruct (kline k).
    - lia.
    - intros [l i] [Hi ->]. destruct (Z.ltb_spec i nbytes) as [Hlt|Hge].
      + cbn [buffer set_buffer buffer_content_counter].
        assert ((s8 <$> bs) !! Z.to_nat i = Some (s8 (rd (vmem (kcon k)) (buf + i)))) as Hx.
        { rewrite list_lookup_fmap. unfold bs. by rewrite lookup_bytes by lia. }
        assert (arr_set (copied (Z.to_nat i)) i (s8 (rd (vmem (kcon k)) (buf + i))) =
                Ok (copied (S (Z.to_nat i)))) as ->.
        { unfold arr_set. rewrite Hcl by lia. rewrite (proj2 (Z.ltb_ge i 0)) by lia.
          rewrite (proj2 (Z.leb_gt _ _)) by lia. cbn [orb]. f_equal.
          apply insert_prefix; [lia|done]. }
        rewrite bind_Ok. apply returns_Ok. split; [|lia]. split; [lia|].
        replace (Z.to_nat (i + 1)) with (S (Z.to_nat i)) by lia. unfold set_buffer. cbn.
        f_equal. lia.
      + apply returns_Ok. by replace nbytes with i by lia. }
  intros l ->. set (l := set_buffer _ _ _).
  eapply returns_bind.
  { apply (print_buf_prints (set_line l k) (t_screen t)); [done|..].
    - unfold l. cbn. rewrite Hcl by lia. lia.
    - unfold l. cbn. rewrite Hcl by lia. done. }
  intros [k' n] (-> & Hs' & Ho & Hl & Hm & Hf). apply returns_Ok.
  cbn [kline set_line] in *. unfold l in Hs' |- *.
  cbn [buffer_content_counter set_buffer buffer] in *.
  split_and!; [lia| |done|done|done].
  constructor; cbn; try done; rewrite ?Hl; cbn; eauto.
  - replace (written bs (typed t)) with
      (u8 <$> take (Z.to_nat (zlen (typed t) + nbytes)) (copied (Z.to_nat nbytes))); [done|].
    unfold written, copied. replace (Z.to_nat (zlen (typed t) + nbytes))
      with (length (s8 <$> bs) + length (typed t))%nat by (rewrite length_fmap; lia).
    rewrite (take_ge (s8 <$> bs)) by (rewrite length_fmap; lia).
    rewrite take_app_add, fmap_app. f_equal.
    + rewrite map_u8_s8. apply map_u8_id, bytes_range.
    + destruct Hb as [_ Harr]. rewrite Harr, <- Hbs. apply map_u8_id.
      apply Forall_take, Forall_drop, Forall_app. split.
      * eapply Forall_impl; [exact Hasc|]. unfold ascii. intros; cbn in *; lia.
      * apply Forall_replicate. lia.
  - rewrite zero_all_spec by (apply Hcl; lia). apply holds_nil.
  - unfold line_max. split; [lia|done].
Qed.
End handler.

(** ** The modifier keys *)

(** The flags after a sequence of scancodes. *)
Definition track (m : mods) (keys : list Z) : mods := foldl (λ m ch, update_mods ch m) m keys.

(** The last of the codes [on] and [off] in a history decides a held key. *)
Fixpoint last_event (on off : Z) (keys : list Z) (now : Z) : Z :=
  match keys with
  | [] => now
  | ch :: keys =>
      last_event on off keys (if ch =? on then 1 else if ch =? off then 0 else now)
  end.

Fixpoint presses (code : Z) (keys : list Z) : Z :=
  match keys with [] => 0 | ch :: keys => (if ch =? code then 1 else 0) + presses code keys end.

Lemma update_caps m ch :
  caps_flag m = 0 ∨ caps_flag m = 1 →
  caps_flag (update_mods ch m) = (caps_flag m + (if ch =? 0x3A then 1 else 0)) mod 2.
Proof.
  unfold update_mods. cbn. intros [-> | ->]; destruct (ch =? 0x3A); reflexivity.
Qed.

(** ** Keys as characters *)

Definition is_letter (v : Z) : bool := (97 <=? v) && (v <=? 122).

(** Shift and caps lock on a US layout: caps lock applies to letters only and
    shift inverts it. *)
Definition layout (caps shift : bool) (ch : Z) : Z :=
  let base := norm !!! Z.to_nat ch in
  if is_letter base then (if xorb caps shift then base - 32 else base)
  else if shift then shift_norm !!! Z.to_nat ch else base.

Definition mods_of (caps left right : bool) : mods :=
  Mods (Z.b2z caps) (Z.b2z left) (Z.b2z right) 0 0.

(** A file system without commands, for the witnesses. *)
Program Definition quiet_hotkeys D F : Hotkeys D F := {|
  files_test c f := Ok (c, f);
  print_allfile_name c f := Ok (c, f);
  file_index a c f := Ok (c, f);
  fs_sound f m := True
|}.
Next Obligation. done. Qed.
Next Obligation. intros. apply returns_Ok. split; [by eexists|done]. Qed.
Next Obligation. intros. apply returns_Ok. split; [by eexists|done]. Qed.
Next Obligation. intros. apply returns_Ok. split; [by eexists|done]. Qed.
#[export] Instance no_hotkeys D : Hotkeys D unit := quiet_hotkeys D unit.

Definition no_mods : mods := mods_of false false false.
Definition empty_line : line := Line (replicate 1024 0) (replicate 1024 0) 0 0 0 0.
Definition idle : tty := Tty blank_screen [] [] false 0.
Definition fresh_kb (m : mem) : kb trace unit := Kb (fresh m) tt no_mods empty_line 0.

Lemma fresh_kb_ok m : driver_ok (fresh_kb m) idle.
Proof.
  split; [|done]. constructor; cbn [t_screen typed stored ready erasable idle]; try done.
  - apply fresh_shows.
  - apply (holds_nil 1024).
  - unfold line_max. split; [cbn; lia|done].
  - apply (holds_nil 1024).
  - unfold line_max. split; [cbn; lia|done].
Qed.

(** ** Properties *)

(** C33: every keyboard interrupt ends and refines the abstract terminal: the
    modifiers follow the scancode, an ordinary key is echoed and appended to a
    line of at most 128 characters, ENTER makes the line plus a newline
    readable, backspace erases only what was typed since, Tab echoes two
    blanks, Ctrl-L clears, the file system commands only redraw the screen;
    the buffers' counters stay within the arrays and, commands apart, only the
    video page changes and no file system global does. *)
Theorem keyboard_refines `{PortIO D, Hotkeys D F} ch (k : kb D F) t :
  driver_ok k t → 0 ≤ ch < 256 →
  returns (handle_scancode ch k) (λ k', ∃ t',
    let m := update_mods ch (kmods k) in
    key_effect (decode m ch) t t' ∧ driver_ok k' t' ∧ kmods k' = m ∧
    key_frame (decode m ch) k k').
Proof. intros. by apply handle_scancode_refines. Qed.

Lemma keyboard_refines_witness :
  returns (handle_scancode 0x1E (fresh_kb mem0)) (λ k', ∃ t',
    t' = Tty (show_char 97 blank_screen) [97] [] false 1 ∧ driver_ok k' t' ∧
    kmods k' = no_mods ∧ key_frame (KeyChar 97) (fresh_kb mem0) k').
Proof. exact (keyboard_refines 0x1E (fresh_kb mem0) idle (fresh_kb_ok mem0) ltac:(lia)). Defined.

(** C34: a blocked terminal_read returns as soon as ENTER is typed, whatever
    keys come before it, pressed or released, other than the hot keys CTRL-1,
    CTRL-2 and CTRL-3, which run a file system command: it delivers the line as edited, with its newline,
    cut to the size of the caller's buffer, returns the number of characters,
    and leaves the terminal without a line to read; outside the video page and
    the caller's buffer the memory is as before. *)
Theorem terminal_read_line `{PortIO D, Hotkeys D F} keys rest buf nbytes (k : kb D F) t m t1 :
  driver_ok k t → ready t = false → scancodes keys →
  type_keys (kmods k) t keys = Some (m, t1) →
  0 ≤ nbytes → disjoint_regions VIDEO page_size buf nbytes →
  returns (terminal_read (λ k, k) (λ k _, k) handle_scancode (keys ++ 0x1C :: rest) buf nbytes k)
    (λ '(k', n, rest'), rest' = rest ∧
       let l := take (Z.to_nat nbytes) (typed t1 ++ [10]) in
       n = zlen l ∧ bytes (vmem (kcon k')) buf n = l ∧
       represents (kcon k') (kline k') (Tty (show_char 10 (t_screen t1)) [] [] false 0) ∧
       ∀ a, ¬ (VIDEO ≤ a < VIDEO + page_size) → ¬ (buf ≤ a < buf + n) →
         rd (vmem (kcon k')) a = rd (vmem (kcon k)) a).
Proof.
  intros Hok Hready Hsc Hrun Hn Hd. unfold terminal_read.
  eapply returns_bind; [by apply (reader_waits keys rest m t k Hok Hready Hsc t1)|].
  intros [k1 rest'] (-> & [Hrep Hf] & Ho).
  eapply returns_bind; [by apply (take_line_correct buf nbytes k1 _ Hrep)|].
  intros [k2 n] (-> & Hm & Hrep2 & _ & _). apply returns_Ok. cbn [tty_key stored] in *.
  set (l := take (Z.to_nat nbytes) (typed t1 ++ [10])) in *.
  assert (Z.min nbytes (zlen (typed t1 ++ [10])) = zlen l) as ->.
  { unfold l. rewrite length_take. lia. }
  split_and!; [done|done| |exact Hrep2|].
  - apply (wr_bytes_read (vmem (kcon k1))); [exact Hm|]. apply Forall_take.
    destruct (rep_stored _ _ _ Hrep) as [_ Hasc]. eapply Forall_impl; [exact Hasc|].
    unfold ascii. intros; cbn in *; lia.
  - intros a Hv Hb. rewrite (wr_bytes_same_except _ _ _ _ Hm) by done. by apply Ho.
Qed.

(** The keys l, s, x, backspace and ENTER, read into a 32-byte buffer. *)
Lemma terminal_read_line_witness :
  returns (terminal_read (λ k, k) (λ k _, k) handle_scancode
             [0x26; 0x1F; 0x2D; 0x0E; 0x1C; 0x10] 4096 32 (fresh_kb mem0))
    (λ '(k', n, rest'), rest' = [0x10] ∧
       n = 3 ∧ bytes (vmem (kcon k')) 4096 n = [108; 115; 10] ∧
       represents (kcon k') (kline k')
         (Tty (show_char 10 (unshow (show [108; 115; 120] blank_screen))) [] [] false 0) ∧
       ∀ a, ¬ (VIDEO ≤ a < VIDEO + page_size) → ¬ (4096 ≤ a < 4096 + n) →
         rd (vmem (kcon k')) a = rd (vmem (kcon (fresh_kb mem0))) a).
Proof.
  apply (terminal_read_line [0x26; 0x1F; 0x2D; 0x0E] [0x10] 4096 32 (fresh_kb mem0) idle no_mods
    (Tty (unshow (show [108; 115; 120] blank_screen)) [108; 115] [] false 2)).
  - apply fresh_kb_ok.
  - reflexivity.
  - unfold scancodes. repeat constructor; lia.
  - vm_compute. reflexivity.
  - lia.
  - unfold disjoint_regions, VIDEO, page_size. lia.
Defined.

(** C35: terminal_write prints the caller's bytes, but counts from the line
    being typed: with k characters typed ahead it also prints k characters of
    the stale line buffer, returns nbytes + k and discards the typed line;
    with none it prints exactly the bytes and returns nbytes.  The bound keeps
    the copy inside the 1024-byte buffer, which the code does not check. *)
Theorem terminal_write_correct `{PortIO D, Hotkeys D F} fd buf nbytes (k : kb D F) t :
  represents (kcon k) (kline k) t → 0 ≤ nbytes → nbytes + zlen (typed t) ≤ BUF_SIZE →
  returns (terminal_write fd buf nbytes k) (λ '(k', n),
    n = nbytes + zlen (typed t) ∧
    represents (kcon k') (kline k')
      (Tty (show (written (bytes (vmem (kcon k)) buf nbytes) (typed t)) (t_screen t))
         [] (stored t) (ready t) 0) ∧
    outside_video (vmem (kcon k)) (vmem (kcon k'))).
Proof.
  intros Hrep Hn Hmax. eapply returns_mono; [by apply terminal_write_prints|].
  intros [k' n] (? & ? & ? & _ & _). by split_and!.
Qed.

Lemma terminal_write_correct_witness :
  let m := wr_bytes mem0 4096 [104; 105] in
  returns (terminal_write 1 4096 2 (fresh_kb m)) (λ '(k', n), n = 2 ∧
    represents (kcon k') (kline k') (Tty (show [104; 105] blank_screen) [] [] false 0) ∧
    outside_video (vmem (fresh m)) (vmem (kcon k'))).
Proof.
  apply (terminal_write_correct 1 4096 2 (fresh_kb (wr_bytes mem0 4096 [104; 105])) idle);
    [apply fresh_kb_ok|lia|cbn; unfold BUF_SIZE; lia].
Defined.

(** C36: after any sequence of scancodes each held modifier is down exactly
    when its last event was a press, and caps lock is the parity of its
    presses. *)
Theorem modifiers_track keys m :
  caps_flag m = 0 ∨ caps_flag m = 1 →
  let m' := track m keys in
  shift_left_flag m' = last_event 0x2A 0xAA keys (shift_left_flag m) ∧
  shift_right_flag m' = last_event 0x36 0xB6 keys (shift_right_flag m) ∧
  ctrl_left_flag m' = last_event 0x1D 0x9D keys (ctrl_left_flag m) ∧
  caps_flag m' = (caps_flag m + presses 0x3A keys) mod 2.
Proof.
  revert m; induction keys as [|ch keys IH]; intros m Hcaps; cbn [track foldl last_event presses].
  - split_and!; try done. destruct Hcaps as [-> | ->]; reflexivity.
  - pose proof (update_caps m ch Hcaps) as Hup.
    destruct (IH (update_mods ch m)) as (Hl & Hr & Hc & Hcp).
    { rewrite Hup. pose proof (Z.mod_pos_bound (caps_flag m + (if ch =? 0x3A then 1 else 0)) 2). lia. }
    unfold track in *. rewrite Hl, Hr, Hc, Hcp, Hup. split_and!.
    + f_equal. cbn. case_z; done || lia.
    + f_equal. cbn. case_z; done || lia.
    + f_equal. cbn. case_z; done || lia.
    + rewrite Z.add_mod_idemp_l by lia. f_equal. lia.
Qed.

Lemma modifiers_track_witness :
  let m' := track no_mods [0x2A; 0x3A; 0xAA; 0x36; 0x1D; 0x9D] in
  shift_left_flag m' = 0 ∧ shift_right_flag m' = 1 ∧ ctrl_left_flag m' = 0 ∧ caps_flag m' = 1.
Proof.
  exact (modifiers_track [0x2A; 0x3A; 0xAA; 0x36; 0x1D; 0x9D] no_mods (or_introl eq_refl)).
Defined.

(** For every scancode with a table entry and every state of caps lock
    and the two shift keys, the table lookup gives the character of the layout
    where caps lock applies to letters only and shift inverts it, with one
    exception: caps lock without shift turns the semicolon into a colon. *)
Theorem keymap_layout :
  Forall (λ ch, Forall (λ caps, Forall (λ left, Forall (λ right,
    keymap (mods_of caps left right) !!! Z.to_nat ch =
      if (ch =? 0x27) && caps && negb (left || right) then 58
      else layout caps (left || right) ch)
    [false; true]) [false; true]) [false; true]) (seqZ 0 128).
Proof. by_decide. Qed.
