(* ===== verification/Paging.v ===== *)
(** * mypaging.c: page directories and tables

    State: the two page tables, the six page directories, and the control
    registers.  The symbols' addresses are the linker's and are parameters.
    The specification is the address translation the MMU performs on that
    state. *)

From S2P Require Import Prelude Bits.

Definition ADDRESS_SHIFT := 12.
Definition PAGE_DIRECTORY_SIZE := 1024.
Definition PAGE_TABLE_SIZE := 1024.
Definition PROGRAM_IMG : nat := 32.
Definition VIDEO_MEM : nat := 33.

(** Where the linker places the tables; each is aligned to a page. *)
Record symbols := Symbols { directories_at : Z; shell_at : Z; video_at : Z }.

Definition page_aligned (a : Z) : Prop := 0 ≤ a < 4294967296 ∧ a mod 4096 = 0.

Record symbols_ok (y : symbols) : Prop := {
  directories_aligned : page_aligned (directories_at y);
  directories_end : directories_at y + 6 * 4096 ≤ 4294967296;
  shell_aligned : page_aligned (shell_at y);
  video_aligned : page_aligned (video_at y);
  tables_differ : shell_at y ≠ video_at y
}.

Record paging := Paging {
  page_table_shell : list Z;
  page_table_video : list Z;
  page_directories : list (list Z);
  cr0 : Z;
  cr3 : Z;
  cr4 : Z
}.

(** ** Entries: every field assignment, in the order of the code *)

(** A [pe_4KB]. *)
Definition set_pe_4KB (present read_write user_supervisor base_addr : Z) (w : Z) : Z :=
  let w := set_bits 0 1 present w in
  let w := set_bits 1 1 read_write w in
  let w := set_bits 2 1 user_supervisor w in
  let w := set_bits 3 1 0 w in    (* write_through *)
  let w := set_bits 4 1 0 w in    (* cache_disabled *)
  let w := set_bits 5 1 0 w in    (* accessed *)
  let w := set_bits 6 1 0 w in    (* dirty *)
  let w := set_bits 7 1 0 w in    (* pat *)
  let w := set_bits 8 1 0 w in    (* global *)
  let w := set_bits 9 3 0 w in    (* available *)
  set_bits 12 20 base_addr w.

(** A [pde_4KB]: a directory entry that points to a page table. *)
Definition set_pde_4KB (base_addr : Z) (w : Z) : Z :=
  let w := set_bits 0 1 1 w in    (* present *)
  let w := set_bits 1 1 1 w in    (* read_write *)
  let w := set_bits 2 1 1 w in    (* user_supervisor *)
  let w := set_bits 3 1 0 w in    (* write_through *)
  let w := set_bits 4 1 0 w in    (* cache_disabled *)
  let w := set_bits 5 1 0 w in    (* accessed *)
  let w := set_bits 6 1 0 w in    (* reserved *)
  let w := set_bits 7 1 0 w in    (* page_size *)
  let w := set_bits 8 1 0 w in    (* global_page *)
  let w := set_bits 9 3 0 w in    (* available *)
  set_bits 12 20 base_addr w.

(** A [pde_4MB]: a directory entry that maps a 4 MB page; its nine reserved
    bits are never assigned. *)
Definition set_pde_4MB (present read_write user_supervisor page_size global base_addr : Z)
    (w : Z) : Z :=
  let w := set_bits 0 1 present w in
  let w := set_bits 1 1 read_write w in
  let w := set_bits 2 1 user_supervisor w in
  let w := set_bits 3 1 0 w in    (* write_through *)
  let w := set_bits 4 1 0 w in    (* cache_disabled *)
  let w := set_bits 5 1 0 w in    (* accessed *)
  let w := set_bits 6 1 0 w in    (* dirty *)
  let w := set_bits 7 1 page_size w in
  let w := set_bits 8 1 global w in
  let w := set_bits 9 3 0 w in    (* available *)
  let w := set_bits 12 1 0 w in   (* pat *)
  set_bits 22 10 base_addr w.

Definition update (i : Z) (f : Z → Z) (t : list Z) : list Z := alter f (Z.to_nat i) t.

Definition flag (b : bool) : Z := if b then 1 else 0.

(** The loop over a page table that leaves only entry [only] present. *)
Definition fill_table (only : Z) (base : Z → Z) (t : list Z) : list Z :=
  for_ (Z.to_nat PAGE_TABLE_SIZE) 0 (λ i,
    update i (set_pe_4KB (flag (i =? only)) (flag (i =? only)) (flag (i =? only)) (base i))) t.

Section operations.
Context (y : symbols).

(** [base_addr = (int)page_table_shell >> ADDRESS_SHIFT] *)
Definition table_base (at_ : Z) : Z := Z.shiftr (s32 at_) ADDRESS_SHIFT.

(** The three assembly blocks that load CR3, CR4 and CR0. *)
Definition load_cr3 (address : Z) (p : paging) : paging :=
  Paging (page_table_shell p) (page_table_video p) (page_directories p)
    (cr0 p) (Z.land address 0xFFFFFFE7) (cr4 p).
Definition enable_paging (p : paging) : paging :=
  Paging (page_table_shell p) (page_table_video p) (page_directories p)
    (Z.lor (cr0 p) 0x80000000) (cr3 p) (Z.lor (cr4 p) 0x10).

(** [&page_directories[n]] *)
Definition directory_at (n : Z) : Z := directories_at y + 4096 * n.

(** Assignments to the entries of directory [n]. *)
Definition update_directory (n : Z) (f : list Z → list Z) (p : paging) : res paging :=
  if (n <? 0) || (5 <? n) then Err OutOfBounds
  else Ok (Paging (page_table_shell p) (page_table_video p)
             (alter f (Z.to_nat n) (page_directories p)) (cr0 p) (cr3 p) (cr4 p)).

Definition set_shell_table (p : paging) : paging :=
  Paging (fill_table 184 (λ i, i) (page_table_shell p)) (page_table_video p)
    (page_directories p) (cr0 p) (cr3 p) (cr4 p).

Definition set_video_table (p : paging) : paging :=
  Paging (page_table_shell p) (fill_table 0 (λ _, 184) (page_table_video p))
    (page_directories p) (cr0 p) (cr3 p) (cr4 p).

Definition init_directory (d : list Z) : list Z :=
  let d := update 0 (set_pde_4KB (table_base (shell_at y))) d in
  for_ 1023 1 (λ i,
    update i (set_pde_4MB (flag (i =? 1)) (flag (i =? 1)) 0 (flag (i =? 1)) (flag (i =? 1)) i)) d.

Definition init_paging (p : paging) : res paging :=
  p ← update_directory 0 init_directory (set_shell_table p);
  Ok (enable_paging (load_cr3 (directories_at y) p)).

Definition process_directory (process : Z) (d : list Z) : list Z :=
  let d := update 0 (set_pde_4KB (table_base (shell_at y))) d in
  let d := update 1 (set_pde_4MB 1 1 0 1 1 1) d in
  let d := for_ 1022 2 (λ i, update i (set_pde_4MB 0 0 0 1 0 0)) d in
  update (Z.of_nat PROGRAM_IMG) (set_pde_4MB 1 1 1 1 0 (process + 1)) d.

Definition create_paging (process : Z) (p : paging) : res paging :=
  if (7 <=? process) || (process <? 0) then Ok p
  else
    p ← update_directory (process - 1) (process_directory process) (set_shell_table p);
    Ok (enable_paging (load_cr3 (directory_at (process - 1)) p)).

(** The page part of vidmap for process [process]. *)
Definition map_video (process : Z) (p : paging) : res paging :=
  update_directory (process - 1)
    (update (Z.of_nat VIDEO_MEM) (set_pde_4KB (table_base (video_at y)))) (set_video_table p).

(** ** Specification: the translation of the MMU *)

Record mapping := Mapping { physical : Z; writable : bool; user : bool }.

#[export] Instance mapping_eq_dec : EqDecision mapping.
Proof. solve_decision. Defined.

Definition table_at (a : Z) (p : paging) : option (list Z) :=
  if a =? shell_at y then Some (page_table_shell p)
  else if a =? video_at y then Some (page_table_video p) else None.

Definition active_directory (p : paging) : option (list Z) :=
  let n := (Z.land (cr3 p) 0xFFFFF000 - directories_at y) / 4096 in
  if n <? 0 then None else page_directories p !! Z.to_nat n.

Definition walk_table (t : list Z) (e v : Z) : option mapping :=
  pe ← t !! Z.to_nat (v / 4096 mod 1024);
  if get_bits 0 1 pe =? 0 then None
  else Some (Mapping (get_bits 12 20 pe * 4096 + v mod 4096)
               ((get_bits 1 1 e =? 1) && (get_bits 1 1 pe =? 1))
               ((get_bits 2 1 e =? 1) && (get_bits 2 1 pe =? 1))).

Definition walk_directory (d : list Z) (p : paging) (v : Z) : option mapping :=
  e ← d !! Z.to_nat (v / 4194304);
  if get_bits 0 1 e =? 0 then None
  else if (get_bits 7 1 e =? 1) && Z.testbit (cr4 p) 4 then
    Some (Mapping (get_bits 22 10 e * 4194304 + v mod 4194304)
            (get_bits 1 1 e =? 1) (get_bits 2 1 e =? 1))
  else t ← table_at (get_bits 12 20 e * 4096) p; walk_table t e v.

(** Translation of the linear address [v]. *)
Definition translate (p : paging) (v : Z) : option mapping :=
  if Z.testbit (cr0 p) 31 then d ← active_directory p; walk_directory d p v
  else Some (Mapping v true true).
End operations.

(** ** The fields of an entry *)

(** What the MMU looks at. *)
Definition entry_flags (e : Z) : Z * Z * Z := (get_bits 0 1 e, get_bits 1 1 e, get_bits 2 1 e).

Lemma bit_value v : 0 ≤ v < 2 → Z.land v (Z.ones 1) = v.
Proof. intros. by apply land_ones_small. Qed.

Lemma pe_4KB_fields present rw us base w :
  0 ≤ present < 2 → 0 ≤ rw < 2 → 0 ≤ us < 2 → 0 ≤ base < 2 ^ 20 →
  entry_flags (set_pe_4KB present rw us base w) = (present, rw, us) ∧
  get_bits 12 20 (set_pe_4KB present rw us base w) = base.
Proof.
  intros. unfold entry_flags, set_pe_4KB. fields. rewrite !bit_value by done.
  split; [done|]. by apply land_ones_small.
Qed.

Lemma pde_4KB_fields base w :
  entry_flags (set_pde_4KB base w) = (1, 1, 1) ∧ get_bits 7 1 (set_pde_4KB base w) = 0 ∧
  get_bits 12 20 (set_pde_4KB base w) = Z.land base (Z.ones 20).
Proof. unfold entry_flags, set_pde_4KB. fields. done. Qed.

Lemma pde_4MB_fields present rw us size global base w :
  0 ≤ present < 2 → 0 ≤ rw < 2 → 0 ≤ us < 2 → 0 ≤ size < 2 → 0 ≤ base < 2 ^ 10 →
  entry_flags (set_pde_4MB present rw us size global base w) = (present, rw, us) ∧
  get_bits 7 1 (set_pde_4MB present rw us size global base w) = size ∧
  get_bits 22 10 (set_pde_4MB present rw us size global base w) = base.
Proof.
  intros. unfold entry_flags, set_pde_4MB. fields. rewrite !bit_value by done.
  split_and!; [done|done|]. by apply land_ones_small.
Qed.

#[global] Opaque set_pe_4KB set_pde_4KB set_pde_4MB.

(** ** Filling a table *)

Lemma lookup_update i f t j :
  0 ≤ i → update i f t !! j = if decide (j = Z.to_nat i) then f <$> (t !! j) else t !! j.
Proof.
  intros. unfold update. case_decide as Hj.
  - subst. apply list_lookup_alter_eq.
  - by apply list_lookup_alter_ne.
Qed.

Lemma length_update i f t : length (update i f t) = length t.
Proof. apply length_alter. Qed.

Lemma loop_update (f : Z → Z → Z) n lo t :
  0 ≤ lo →
  let t' := for_ n lo (λ i, update i (f i)) t in
  length t' = length t ∧
  ∀ j, t' !! j = if decide (lo ≤ Z.of_nat j < lo + Z.of_nat n) then f (Z.of_nat j) <$> (t !! j)
                 else t !! j.
Proof.
  intros Hlo. refine (for_inv (λ k t', length t' = length t ∧ ∀ j,
    t' !! j = if decide (lo ≤ Z.of_nat j < k) then f (Z.of_nat j) <$> (t !! j) else t !! j)
    (λ i, update i (f i)) n lo t _ _).
  - split; [done|]. intros j. by rewrite decide_False by lia.
  - intros k t' Hk [Hlen Ht']. rewrite length_update. split; [done|]. intros j.
    rewrite lookup_update, Ht' by lia. repeat case_decide; try lia; subst; try done.
    by rewrite Z2Nat.id by lia.
Qed.

Lemma fill_table_entry only base t j :
  length t = 1024%nat → (j < 1024)%nat → (∀ i, 0 ≤ i < 1024 → 0 ≤ base i < 2 ^ 20) →
  ∃ e, fill_table only base t !! j = Some e ∧
    entry_flags e = (flag (Z.of_nat j =? only), flag (Z.of_nat j =? only), flag (Z.of_nat j =? only)) ∧
    get_bits 12 20 e = base (Z.of_nat j).
Proof.
  intros Hlen Hj Hb. unfold fill_table.
  destruct (loop_update (λ i, set_pe_4KB (flag (i =? only)) (flag (i =? only)) (flag (i =? only))
    (base i)) (Z.to_nat PAGE_TABLE_SIZE) 0 t ltac:(lia)) as [_ Ht]. rewrite Ht.
  unfold PAGE_TABLE_SIZE. rewrite decide_True by lia.
  destruct (lookup_lt_is_Some_2 t j) as [w ->]; [lia|]. cbn. eexists. split; [done|].
  assert (0 ≤ flag (Z.of_nat j =? only) < 2) by (destruct (_ =? _); cbn; lia).
  apply pe_4KB_fields; try done. apply Hb. lia.
Qed.

Lemma length_fill_table only base t : length (fill_table only base t) = length t.
Proof.
  unfold fill_table. destruct (loop_update (λ i, set_pe_4KB (flag (i =? only))
    (flag (i =? only)) (flag (i =? only)) (base i)) (Z.to_nat PAGE_TABLE_SIZE) 0 t) as [-> _]; lia.
Qed.

Lemma fill_table_walk only base t e v :
  length t = 1024%nat → (∀ i, 0 ≤ i < 1024 → 0 ≤ base i < 2 ^ 20) → 0 ≤ v →
  entry_flags e = (1, 1, 1) →
  walk_table (fill_table only base t) e v =
    if v / 4096 mod 1024 =? only
    then Some (Mapping (base only * 4096 + v mod 4096) true true) else None.
Proof.
  intros Hlen Hb Hv He. pose proof (Z.mod_pos_bound (v / 4096) 1024).
  destruct (fill_table_entry only base t (Z.to_nat (v / 4096 mod 1024)) Hlen)
    as (pe & Hpe & Hf & Hbase); [lia|done|].
  unfold walk_table. rewrite Hpe. cbn [mbind option_bind].
  rewrite Z2Nat.id in * by lia. unfold entry_flags in *. injection He as _ -> ->.
  injection Hf as Hp Hrw Hus. rewrite Hp, Hrw, Hus, Hbase.
  destruct (Z.eqb_spec (v / 4096 mod 1024) only) as [->|]; done.
Qed.

#[global] Opaque fill_table.

Lemma table_base_bits a : page_aligned a → Z.land (table_base a) (Z.ones 20) * 4096 = a.
Proof.
  intros [Ha Hmod]. unfold table_base, ADDRESS_SHIFT.
  rewrite Z.land_ones, Z.shiftr_div_pow2 by lia.
  change (2 ^ 12) with 4096. change (2 ^ 20) with 1048576. unfold s32. zlia.
Qed.

Lemma cr3_base a : page_aligned a → Z.land (Z.land a 0xFFFFFFE7) 0xFFFFF000 = a.
Proof.
  intros [Ha Hmod]. rewrite <- Z.land_assoc. change (Z.land 0xFFFFFFE7 0xFFFFF000) with 0xFFFFF000.
  change 0xFFFFF000 with (Z.ldiff (Z.ones 32) (Z.ones 12)).
  rewrite Z.ldiff_land, Z.land_assoc, <- Z.ldiff_land, Z.land_ones by lia.
  rewrite Z.mod_small, Z.ldiff_ones_r by lia.
  rewrite Z.shiftr_div_pow2, Z.shiftl_mul_pow2 by lia. change (2 ^ 12) with 4096. zlia.
Qed.

(** ** Directories *)

Record paging_ok (p : paging) : Prop := {
  shell_length : length (page_table_shell p) = 1024%nat;
  video_length : length (page_table_video p) = 1024%nat;
  directories_length : length (page_directories p) = 6%nat;
  directory_length n d : page_directories p !! n = Some d → length d = 1024%nat
}.

(** A directory entry as the MMU reads it: a table, a 4 MB page, or nothing. *)
Inductive pde :=
  | Table (at_ : Z)
  | Page (frame : Z) (us : bool)
  | Absent.

Definition reads_as (e : Z) (x : pde) : Prop :=
  match x with
  | Table a => entry_flags e = (1, 1, 1) ∧ get_bits 7 1 e = 0 ∧ get_bits 12 20 e * 4096 = a
  | Page f us => entry_flags e = (1, 1, flag us) ∧ get_bits 7 1 e = 1 ∧ get_bits 22 10 e = f
  | Absent => get_bits 0 1 e = 0
  end.

(** Every entry of [d] reads as [x] says. *)
Definition directory_is (x : Z → pde) (d : list Z) : Prop :=
  length d = 1024%nat ∧
  ∀ i, 0 ≤ i < 1024 → ∃ e, d !! Z.to_nat i = Some e ∧ reads_as e (x i).

Lemma directory_update x d i f a :
  directory_is x d → 0 ≤ i < 1024 → (∀ w, reads_as (f w) a) →
  directory_is (λ j, if j =? i then a else x j) (update i f d).
Proof.
  intros [Hlen Hd] Hi Hf. split; [by rewrite length_update|]. intros j Hj.
  rewrite lookup_update by lia. destruct (Hd j Hj) as (e & He & Hx).
  destruct (Z.eqb_spec j i) as [->|Hne].
  - rewrite decide_True by done. rewrite He. cbn. eauto.
  - rewrite decide_False by lia. eauto.
Qed.

Section directories.
Context (y : symbols) (Hy : symbols_ok y).

Definition kernel_entries (i : Z) : pde :=
  if i =? 0 then Table (shell_at y) else if i =? 1 then Page 1 false else Absent.

Definition process_entries (process i : Z) : pde :=
  if i =? 32 then Page (process + 1) true else kernel_entries i.

Definition video_entries (process i : Z) : pde :=
  if i =? 33 then Table (video_at y) else process_entries process i.

Lemma table_reads a w : page_aligned a → reads_as (set_pde_4KB (table_base a) w) (Table a).
Proof.
  intros Ha. unfold reads_as. destruct (pde_4KB_fields (table_base a) w) as (-> & -> & Hb).
  split_and!; [done|done|]. rewrite Hb. by apply table_base_bits.
Qed.

Lemma page_reads us global f w :
  0 ≤ f < 1024 → reads_as (set_pde_4MB 1 1 (flag us) 1 global f w) (Page f us).
Proof. intros. apply pde_4MB_fields; done || by destruct us. Qed.

Lemma absent_reads rw us size global f w :
  0 ≤ rw < 2 → 0 ≤ us < 2 → 0 ≤ size < 2 → 0 ≤ f < 1024 →
  reads_as (set_pde_4MB 0 rw us size global f w) Absent.
Proof.
  intros. destruct (pde_4MB_fields 0 rw us size global f w) as (Hf & _); [done..|].
  by injection Hf.
Qed.

Lemma init_directory_is d :
  length d = 1024%nat → directory_is kernel_entries (init_directory y d).
Proof.
  intros Hlen.
  set (f := λ i, set_pde_4MB (flag (i =? 1)) (flag (i =? 1)) 0 (flag (i =? 1)) (flag (i =? 1)) i).
  set (d0 := update 0 (set_pde_4KB (table_base (shell_at y))) d).
  change (init_directory y d) with (for_ 1023 1 (λ i, update i (f i)) d0).
  destruct (loop_update f 1023 1 d0 ltac:(lia)) as [Hl Hget]. unfold d0 in *. split; [by rewrite Hl, length_update|].
  intros i Hi. rewrite Hget, lookup_update, Z2Nat.id by lia.
  destruct (lookup_lt_is_Some_2 d (Z.to_nat i)) as [w ->]; [lia|]. unfold kernel_entries.
  destruct (Z.eqb_spec i 0) as [->|Hi0].
  - rewrite decide_False, decide_True by lia. cbn. eexists. split; [done|].
    apply table_reads, Hy.
  - rewrite decide_True, decide_False by lia. cbn. eexists. split; [done|]. unfold f.
    destruct (Z.eqb_spec i 1) as [->|Hi1]; cbn [flag].
    + by apply (page_reads false).
    + apply absent_reads; lia.
Qed.

Lemma process_directory_is process d :
  length d = 1024%nat → 1 ≤ process ≤ 6 →
  directory_is (process_entries process) (process_directory y process d).
Proof.
  intros Hlen Hp. set (f := λ _ : Z, set_pde_4MB 0 0 0 1 0 0).
  set (d1 := update 1 (set_pde_4MB 1 1 0 1 1 1)
               (update 0 (set_pde_4KB (table_base (shell_at y))) d)).
  change (process_directory y process d) with
    (update 32 (set_pde_4MB 1 1 1 1 0 (process + 1)) (for_ 1022 2 (λ i, update i (f i)) d1)).
  destruct (loop_update f 1022 2 d1 ltac:(lia)) as [Hl Hget].
  apply directory_update; [|lia|intros w; by apply (page_reads true); lia].
  split; [by rewrite Hl; unfold d1; rewrite !length_update|].
  intros i Hi. rewrite Hget, Z2Nat.id by lia. unfold d1. rewrite !lookup_update by lia.
  destruct (lookup_lt_is_Some_2 d (Z.to_nat i)) as [w ->]; [lia|]. unfold kernel_entries.
  destruct (Z.eqb_spec i 0) as [->|Hi0]; [|destruct (Z.eqb_spec i 1) as [->|Hi1]].
  - rewrite decide_False, decide_False, decide_True by lia. cbn. eexists.
    split; [done|]. apply table_reads, Hy.
  - rewrite decide_False, decide_True, decide_False by lia. cbn. eexists.
    split; [done|]. by apply (page_reads false).
  - rewrite decide_True, decide_False, decide_False by lia. cbn. eexists. split; [done|].
    apply absent_reads; lia.
Qed.
End directories.

(** ** Address maps *)

Definition kernel_map (v : Z) : option mapping :=
  if (0xB8000 <=? v) && (v <? 0xB9000) then Some (Mapping v true true)
  else if (0x400000 <=? v) && (v <? 0x800000) then Some (Mapping v true false)
  else None.

(** Process [n] sees its own 4 MB frame at 128 MB. *)
Definition user_map (process v : Z) : option mapping :=
  if (0x8000000 <=? v) && (v <? 0x8400000)
  then Some (Mapping (v - 0x8000000 + (process + 1) * 0x400000) true true) else kernel_map v.

Definition video_map (process v : Z) : option mapping :=
  if (0x8400000 <=? v) && (v <? 0x8401000)
  then Some (Mapping (v - 0x8400000 + 0xB8000) true true) else user_map process v.

Section translation.
Context (y : symbols) (Hy : symbols_ok y).

(** Paging is on and the active directory reads as [x]; the tables are as the
    code fills them. *)
Record mapped_by (x : Z → pde) (p : paging) : Prop := {
  paging_on : Z.testbit (cr0 p) 31 = true;
  large_pages : Z.testbit (cr4 p) 4 = true;
  active : ∃ d, active_directory y p = Some d ∧ directory_is x d;
  shell_filled : ∃ t, length t = 1024%nat ∧ page_table_shell p = fill_table 184 (λ i, i) t
}.

Definition video_filled (p : paging) : Prop :=
  ∃ t, length t = 1024%nat ∧ page_table_video p = fill_table 0 (λ _, 184) t.

Lemma walk_shell p x e v :
  mapped_by x p → reads_as e (Table (shell_at y)) → 0 ≤ v < 4294967296 →
  (t ← table_at y (get_bits 12 20 e * 4096) p; walk_table t e v) =
    if v / 4096 mod 1024 =? 184 then Some (Mapping (184 * 4096 + v mod 4096) true true) else None.
Proof.
  intros [_ _ _ (t & Hlen & Ht)] (Hf & _ & ->) Hv. unfold table_at. rewrite Z.eqb_refl, Ht.
  apply (fill_table_walk 184 (λ i, i) t e v Hlen); [intros; lia|lia|exact Hf].
Qed.

Lemma walk_video p e v :
  video_filled p → reads_as e (Table (video_at y)) → 0 ≤ v < 4294967296 →
  (t ← table_at y (get_bits 12 20 e * 4096) p; walk_table t e v) =
    if v / 4096 mod 1024 =? 0 then Some (Mapping (184 * 4096 + v mod 4096) true true) else None.
Proof.
  intros (t & Hlen & Ht) (Hf & _ & ->) Hv. unfold table_at.
  rewrite (proj2 (Z.eqb_neq _ _)) by (pose proof (tables_differ y Hy); done).
  rewrite Z.eqb_refl, Ht. cbn [mbind option_bind].
  pose proof (fill_table_walk 0 (λ _, 184) t e v Hlen ltac:(intros; lia) ltac:(lia) Hf) as Hw.
  cbn beta in Hw. exact Hw.
Qed.

(** The walk of an entry that is not a table. *)
Definition walk_page (x : pde) (v : Z) : option mapping :=
  match x with
  | Page f us => Some (Mapping (f * 0x400000 + v mod 0x400000) true us)
  | _ => None
  end.

Lemma translate_entry x p v :
  mapped_by x p → 0 ≤ v < 4294967296 →
  match x (v / 0x400000) with
  | Table a => ∃ e, reads_as e (Table a) ∧
      translate y p v = (t ← table_at y (get_bits 12 20 e * 4096) p; walk_table t e v)
  | x => translate y p v = walk_page x v
  end.
Proof.
  intros [Hpg Hpse (d & Hd & Hlen & Hx) _] Hv.
  assert (0 ≤ v / 0x400000 < 1024) as Hi by zlia.
  destruct (Hx _ Hi) as (e & He & Hr).
  assert (translate y p v = walk_directory y d p v) as ->.
  { unfold translate. by rewrite Hpg, Hd. }
  unfold walk_directory. rewrite He. cbn [mbind option_bind]. rewrite Hpse.
  destruct (x (v / 0x400000)) as [a|f us|]; cbn [walk_page reads_as] in *.
  - exists e. split; [done|]. destruct Hr as (Hf & -> & _). injection Hf as -> _ _. done.
  - destruct Hr as (Hf & -> & ->). injection Hf as -> -> ->. by destruct us.
  - by rewrite Hr.
Qed.

Lemma kernel_entry_map x p v :
  mapped_by x p → 0 ≤ v < 4294967296 →
  x (v / 0x400000) = kernel_entries y (v / 0x400000) → translate y p v = kernel_map v.
Proof.
  intros Hm Hv Hx. pose proof (translate_entry x p v Hm Hv) as Ht. rewrite Hx in Ht.
  unfold kernel_entries, kernel_map in *.
  destruct (Z.eqb_spec (v / 0x400000) 0) as [H0|H0];
    [|destruct (Z.eqb_spec (v / 0x400000) 1) as [H1|H1]].
  - destruct Ht as (e & He & ->). rewrite (walk_shell p x e v Hm He Hv).
    case_z; cbn [andb]; try (exfalso; zlia); try done. do 2 f_equal. zlia.
  - rewrite Ht. cbn [walk_page]. case_z; cbn [andb]; try (exfalso; zlia). do 2 f_equal. zlia.
  - rewrite Ht. case_z; cbn [andb]; try (exfalso; zlia); done.
Qed.

Lemma kernel_mapped p v :
  mapped_by (kernel_entries y) p → 0 ≤ v < 4294967296 → translate y p v = kernel_map v.
Proof. intros Hm Hv. by apply (kernel_entry_map (kernel_entries y)). Qed.

Lemma process_entry_map x process p v :
  mapped_by x p → 0 ≤ v < 4294967296 →
  x (v / 0x400000) = process_entries y process (v / 0x400000) →
  translate y p v = user_map process v.
Proof.
  intros Hm Hv Hx. unfold user_map. unfold process_entries in Hx.
  destruct (Z.eqb_spec (v / 0x400000) 32) as [H32|H32].
  - pose proof (translate_entry x p v Hm Hv) as Ht. rewrite Hx in Ht. rewrite Ht.
    cbn [walk_page]. case_z; cbn [andb]; try (exfalso; zlia). do 2 f_equal. zlia.
  - rewrite (kernel_entry_map x p v Hm Hv Hx). case_z; cbn [andb]; try (exfalso; zlia); done.
Qed.

Lemma process_mapped process p v :
  mapped_by (process_entries y process) p → 0 ≤ v < 4294967296 →
  translate y p v = user_map process v.
Proof. intros Hm Hv. by apply (process_entry_map (process_entries y process)). Qed.

Lemma video_mapped process p v :
  mapped_by (video_entries y process) p → video_filled p → 0 ≤ v < 4294967296 →
  translate y p v = video_map process v.
Proof.
  intros Hm Hf Hv. unfold video_map. destruct (decide (v / 0x400000 = 33)) as [H33|H33].
  - pose proof (translate_entry _ p v Hm Hv) as Ht. unfold video_entries in Ht at 1.
    rewrite H33 in Ht. cbn [Z.eqb Pos.eqb] in Ht. destruct Ht as (e & He & ->).
    rewrite (walk_video p e v Hf He Hv). unfold user_map, kernel_map.
    case_z; cbn [andb]; try (exfalso; zlia); try done. do 2 f_equal. zlia.
  - rewrite (process_entry_map _ process p v Hm Hv).
    + case_z; cbn [andb]; try (exfalso; zlia); done.
    + unfold video_entries. by rewrite (proj2 (Z.eqb_neq _ _)).
Qed.

(** ** What the operations establish *)

Lemma directory_aligned n : 0 ≤ n < 6 → page_aligned (directory_at y n).
Proof.
  intros Hn. destruct Hy as [[Hd Hm] He _ _ _]. unfold directory_at, page_aligned. split; [lia|zlia].
Qed.

Lemma active_loaded p n :
  0 ≤ n < 6 → cr3 p = Z.land (directory_at y n) 0xFFFFFFE7 →
  active_directory y p = page_directories p !! Z.to_nat n.
Proof.
  intros Hn Hcr3. unfold active_directory. rewrite Hcr3, cr3_base by by apply directory_aligned.
  unfold directory_at. replace (directories_at y + 4096 * n - directories_at y) with (n * 4096) by lia.
  rewrite Z.div_mul by lia. by rewrite (proj2 (Z.ltb_ge _ _)) by lia.
Qed.

Lemma paging_bits p :
  Z.testbit (cr0 (enable_paging p)) 31 = true ∧ Z.testbit (cr4 (enable_paging p)) 4 = true.
Proof. cbn [enable_paging cr0 cr4]. rewrite !Z.lor_spec. by rewrite !orb_true_r. Qed.

Lemma update_directory_ok n f p :
  paging_ok p → 0 ≤ n < 6 → (∀ d, length d = 1024%nat → length (f d) = 1024%nat) →
  returns (update_directory n f p) (λ p', paging_ok p' ∧
    page_table_shell p' = page_table_shell p ∧ page_table_video p' = page_table_video p ∧
    cr0 p' = cr0 p ∧ cr3 p' = cr3 p ∧ cr4 p' = cr4 p ∧
    (∃ d, page_directories p !! Z.to_nat n = Some d ∧ length d = 1024%nat ∧
          page_directories p' !! Z.to_nat n = Some (f d)) ∧
    ∀ k, k ≠ Z.to_nat n → page_directories p' !! k = page_directories p !! k).
Proof.
  intros [Hs Hv Hl Hd] Hn Hf. unfold update_directory.
  rewrite (proj2 (Z.ltb_ge n 0)), (proj2 (Z.ltb_ge 5 n)) by lia. cbn [orb].
  apply returns_Ok. cbn. destruct (lookup_lt_is_Some_2 (page_directories p) (Z.to_nat n))
    as [d Hd']; [lia|].
  assert (∀ k, k ≠ Z.to_nat n →
    alter f (Z.to_nat n) (page_directories p) !! k = page_directories p !! k) as Hother
    by (intros; by apply list_lookup_alter_ne).
  assert (alter f (Z.to_nat n) (page_directories p) !! Z.to_nat n = Some (f d)) as Hthis
    by (by rewrite list_lookup_alter_eq, Hd').
  split_and!; try done; [|by exists d; split_and!; eauto].
  constructor; cbn; try done; [by rewrite length_alter|].
  intros k d' Hk. destruct (decide (k = Z.to_nat n)) as [->|Hne].
  - rewrite Hthis in Hk. injection Hk as <-. eauto.
  - rewrite Hother in Hk by done. eauto.
Qed.

Lemma fill_shell_ok p : paging_ok p → paging_ok (set_shell_table p).
Proof. intros []. constructor; cbn; try done. by rewrite length_fill_table. Qed.

Lemma fill_video_ok p : paging_ok p → paging_ok (set_video_table p).
Proof. intros []. constructor; cbn; try done. by rewrite length_fill_table. Qed.
End translation.

Section results.
Context (y : symbols) (Hy : symbols_ok y).

(** The control registers and the shell table a loading function leaves. *)
Lemma loaded p p1 n f :
  paging_ok p → 0 ≤ n < 6 → (∀ d, length d = 1024%nat → length (f d) = 1024%nat) →
  update_directory n f (set_shell_table p) = Ok p1 →
  let p' := enable_paging (load_cr3 (directory_at y n) p1) in
  paging_ok p' ∧ page_table_video p' = page_table_video p ∧
  (∀ k, k ≠ Z.to_nat n → page_directories p' !! k = page_directories p !! k) ∧
  ∀ x, (∀ d, length d = 1024%nat → directory_is x (f d)) → mapped_by y x p'.
Proof.
  intros Hok Hn Hf Hup. pose proof (update_directory_ok n f (set_shell_table p)
    (fill_shell_ok p Hok) Hn Hf) as Hspec.
  apply (returns_inv _ _ p1) in Hspec; [|done].
  destruct Hspec as (Hok1 & Hs & Hv & _ & _ & _ & (d & Hd & Hdl & Hd1) & Hk). cbn zeta.
  split_and!; [by (destruct Hok1; constructor)| | |].
  - cbn. by rewrite Hv.
  - intros k Hne. cbn. by rewrite Hk.
  - intros x Hx. destruct (paging_bits (load_cr3 (directory_at y n) p1)) as [H31 H4].
    constructor; [exact H31|exact H4| |].
    + exists (f d). split; [|by apply Hx]. rewrite (active_loaded y Hy _ n) by done. exact Hd1.
    + exists (page_table_shell p). split; [by destruct Hok|]. cbn. by rewrite Hs.
Qed.

Lemma init_paging_result p :
  paging_ok p →
  returns (init_paging y p) (λ p', paging_ok p' ∧ mapped_by y (kernel_entries y) p' ∧
    ∀ n, n ≠ O → page_directories p' !! n = page_directories p !! n).
Proof.
  intros Hok. unfold init_paging.
  assert (∀ d, length d = 1024%nat → length (init_directory y d) = 1024%nat) as Hf
    by (intros; by apply init_directory_is).
  destruct (update_directory_ok 0 (init_directory y) (set_shell_table p) (fill_shell_ok p Hok)
    ltac:(lia) Hf) as (p1 & Hp1 & _). rewrite Hp1, bind_Ok. apply returns_Ok.
  destruct (loaded p p1 0 _ Hok ltac:(lia) Hf Hp1) as (Hok' & _ & Hk & Hm).
  unfold directory_at in *. rewrite Z.mul_0_r, Z.add_0_r in *.
  split_and!; [done| |done]. apply Hm. by apply init_directory_is.
Qed.

Lemma create_paging_result process p :
  paging_ok p → 1 ≤ process ≤ 6 →
  returns (create_paging y process p) (λ p', paging_ok p' ∧
    mapped_by y (process_entries y process) p' ∧ page_table_video p' = page_table_video p ∧
    cr3 p' = Z.land (directory_at y (process - 1)) 0xFFFFFFE7 ∧
    ∀ n, n ≠ Z.to_nat (process - 1) → page_directories p' !! n = page_directories p !! n).
Proof.
  intros Hok Hp. unfold create_paging.
  rewrite (proj2 (Z.leb_gt 7 process)), (proj2 (Z.ltb_ge process 0)) by lia. cbn [orb].
  assert (∀ d, length d = 1024%nat → length (process_directory y process d) = 1024%nat) as Hf
    by (intros; by apply process_directory_is).
  destruct (update_directory_ok (process - 1) (process_directory y process) (set_shell_table p)
    (fill_shell_ok p Hok) ltac:(lia) Hf) as (p1 & Hp1 & _). rewrite Hp1, bind_Ok. apply returns_Ok.
  destruct (loaded p p1 (process - 1) _ Hok ltac:(lia) Hf Hp1) as (Hok' & Hv & Hk & Hm).
  split_and!; [done| |done|done|done]. apply Hm. intros. by apply process_directory_is.
Qed.

Lemma map_video_result process p :
  paging_ok p → 1 ≤ process ≤ 6 →
  mapped_by y (process_entries y process) p → cr3 p = Z.land (directory_at y (process - 1)) 0xFFFFFFE7 →
  returns (map_video y process p) (λ p', paging_ok p' ∧ cr3 p' = cr3 p ∧
    mapped_by y (video_entries y process) p' ∧ video_filled p' ∧
    ∀ n, n ≠ Z.to_nat (process - 1) → page_directories p' !! n = page_directories p !! n).
Proof.
  intros Hok Hp Hm Hcr3. unfold map_video.
  set (f := update (Z.of_nat VIDEO_MEM) (set_pde_4KB (table_base (video_at y)))).
  assert (∀ d, length d = 1024%nat → length (f d) = 1024%nat) as Hf
    by (intros d ?; unfold f; by rewrite length_update).
  eapply returns_mono.
  { apply (update_directory_ok (process - 1) f (set_video_table p) (fill_video_ok p Hok)
      ltac:(lia) Hf). }
  intros p' (Hok' & Hs & Hv & H0 & H3 & H4 & (d & Hd & Hdl & Hd') & Hk).
  cbn in Hs, Hv, H0, H3, H4, Hd, Hk.
  destruct Hm as [Hon Hpse (d0 & Hact & Hx) Hsh].
  split_and!; [done|done| | |done].
  - constructor; [by rewrite H0|by rewrite H4| |by rewrite Hs].
    exists (f d). split.
    + rewrite (active_loaded y Hy _ (process - 1)) by (lia || congruence). done.
    + rewrite (active_loaded y Hy _ (process - 1)) in Hact by (lia || done).
      assert (d0 = d) as -> by congruence. unfold f.
      apply (directory_update _ d 33 _ (Table (video_at y)) Hx); [lia|].
      intros w. by apply table_reads, Hy.
  - exists (page_table_video p). split; [by destruct Hok|done].
Qed.
End results.

(** ** Properties *)

(** A boot state, for the witnesses: zeroed tables at fixed places. *)
Definition boot_symbols : symbols := Symbols 0x410000 0x420000 0x421000.
Definition boot_paging : paging :=
  Paging (replicate 1024 0) (replicate 1024 0) (replicate 6 (replicate 1024 0)) 0x11 0 0.

Lemma boot_symbols_ok : symbols_ok boot_symbols.
Proof. constructor; cbn; unfold page_aligned; cbn; done || lia. Qed.

Lemma boot_paging_ok : paging_ok boot_paging.
Proof.
  constructor; cbn [boot_paging page_table_shell page_table_video page_directories];
    try apply length_replicate.
  intros n d [-> _]%lookup_replicate. apply length_replicate.
Qed.

(** After init_paging the MMU maps exactly the video page, one to one and
    for every privilege, and the kernel's 4 MB page, one to one and for the
    supervisor only; every other address of the 4 GB space faults. *)
Theorem init_paging_maps y p :
  symbols_ok y → paging_ok p →
  returns (init_paging y p) (λ p', paging_ok p' ∧
    ∀ v, 0 ≤ v < 4294967296 → translate y p' v = kernel_map v).
Proof.
  intros Hy Hok. eapply returns_mono; [by apply init_paging_result|].
  intros p' (Hok' & Hm & _). split; [done|]. intros v Hv. by apply kernel_mapped.
Qed.

Lemma init_paging_maps_witness :
  returns (init_paging boot_symbols boot_paging) (λ p', paging_ok p' ∧
    ∀ v, 0 ≤ v < 4294967296 → translate boot_symbols p' v = kernel_map v).
Proof. exact (init_paging_maps boot_symbols boot_paging boot_symbols_ok boot_paging_ok). Defined.

(** C31: create_paging for process n (1 to 6) gives it the kernel's map plus
    its own 4 MB frame n + 1 at 128 MB, readable, writable and accessible to
    the user, and nothing else, whatever the directory held before; it loads
    that directory and leaves the directories of the other processes alone. *)
Theorem create_paging_maps y process p :
  symbols_ok y → paging_ok p → 1 ≤ process ≤ 6 →
  returns (create_paging y process p) (λ p', paging_ok p' ∧
    (∀ v, 0 ≤ v < 4294967296 → translate y p' v = user_map process v) ∧
    ∀ n, n ≠ Z.to_nat (process - 1) → page_directories p' !! n = page_directories p !! n).
Proof.
  intros Hy Hok Hp. eapply returns_mono; [by apply create_paging_result|].
  intros p' (Hok' & Hm & _ & _ & Hk). split_and!; [done| |done].
  intros v Hv. by apply process_mapped.
Qed.

Lemma create_paging_maps_witness :
  returns (create_paging boot_symbols 2 boot_paging) (λ p', paging_ok p' ∧
    (∀ v, 0 ≤ v < 4294967296 → translate boot_symbols p' v = user_map 2 v) ∧
    ∀ n, n ≠ 1%nat → page_directories p' !! n = page_directories boot_paging !! n).
Proof.
  exact (create_paging_maps boot_symbols 2 boot_paging boot_symbols_ok boot_paging_ok ltac:(lia)).
Defined.

(** C32: two processes are isolated: when each of two different processes has
    its paging loaded, no address the user may access in the one translates to
    a physical byte the user may access in the other, the video page apart,
    and none translates into the kernel's 4 MB page. *)
Theorem processes_isolated y p q sp sq vp vq mp mq :
  symbols_ok y → 1 ≤ p ≤ 6 → 1 ≤ q ≤ 6 → p ≠ q → paging_ok sp → paging_ok sq →
  0 ≤ vp < 4294967296 → 0 ≤ vq < 4294967296 →
  (s ← create_paging y p sp; Ok (translate y s vp)) = Ok (Some mp) →
  (s ← create_paging y q sq; Ok (translate y s vq)) = Ok (Some mq) →
  user mp = true → user mq = true →
  ¬ (0x400000 ≤ physical mp < 0x800000) ∧
  (physical mp = physical mq → 0xB8000 ≤ physical mp < 0xB9000).
Proof.
  intros Hy Hp Hq Hpq Hsp Hsq Hvp Hvq Ep Eq Up Uq.
  destruct (create_paging_result y Hy p sp Hsp Hp) as (s1 & E1 & _ & M1 & _).
  destruct (create_paging_result y Hy q sq Hsq Hq) as (s2 & E2 & _ & M2 & _).
  rewrite E1, bind_Ok in Ep. rewrite E2, bind_Ok in Eq.
  injection Ep as Ep. injection Eq as Eq.
  rewrite (process_mapped y p s1 vp M1 Hvp) in Ep. rewrite (process_mapped y q s2 vq M2 Hvq) in Eq.
  unfold user_map, kernel_map in *.
  repeat case_match; simplify_eq; cbn [physical user] in *; try done;
    repeat match goal with
    | H : (_ && _) = true |- _ => apply andb_true_iff in H as [?%Z.leb_le ?%Z.ltb_lt]
    | H : (_ && _) = false |- _ => clear H
    end; lia.
Qed.

Lemma processes_isolated_witness :
  let mp := Mapping 0x848000 true true in
  let mq := Mapping 0xC48000 true true in
  ¬ (0x400000 ≤ physical mp < 0x800000) ∧
  (physical mp = physical mq → 0xB8000 ≤ physical mp < 0xB9000).
Proof.
  apply (processes_isolated boot_symbols 1 2 boot_paging boot_paging 0x8048000 0x8048000
    (Mapping 0x848000 true true) (Mapping 0xC48000 true true));
    try exact boot_symbols_ok; try exact boot_paging_ok; try lia; reflexivity || by_decide.
Defined.

(** In a process whose paging is loaded, vidmap's page part adds exactly
    one page: the 4 KB at 132 MB reach the video page for the user, and every
    other translation stays; the other directories are not touched. *)
Theorem map_video_maps y process p p1 :
  symbols_ok y → paging_ok p → 1 ≤ process ≤ 6 → create_paging y process p = Ok p1 →
  returns (map_video y process p1) (λ p', paging_ok p' ∧
    (∀ v, 0 ≤ v < 4294967296 → translate y p' v = video_map process v) ∧
    ∀ n, n ≠ Z.to_nat (process - 1) → page_directories p' !! n = page_directories p !! n).
Proof.
  intros Hy Hok Hp E. pose proof (create_paging_result y Hy process p Hok Hp) as Hc.
  apply (returns_inv _ _ p1) in Hc as (Hok1 & Hm1 & _ & Hcr3 & Hk1); [|done].
  eapply returns_mono; [by apply map_video_result|].
  intros p' (Hok' & _ & Hm & Hf & Hk). split_and!; [done| |].
  - intros v Hv. by apply video_mapped.
  - intros n Hn. by rewrite Hk, Hk1.
Qed.

Lemma map_video_maps_witness :
  ∃ p1, create_paging boot_symbols 1 boot_paging = Ok p1 ∧
  returns (map_video boot_symbols 1 p1) (λ p', paging_ok p' ∧
    (∀ v, 0 ≤ v < 4294967296 → translate boot_symbols p' v = video_map 1 v) ∧
    ∀ n, n ≠ 0%nat → page_directories p' !! n = page_directories boot_paging !! n).
Proof.
  destruct (create_paging_result boot_symbols boot_symbols_ok 1 boot_paging boot_paging_ok
    ltac:(lia)) as (p1 & E & _). exists p1. split; [exact E|].
  exact (map_video_maps boot_symbols 1 boot_paging p1 boot_symbols_ok boot_paging_ok ltac:(lia) E).
Defined.
