(* ===== verification/FileSys.v ===== *)
(** * files.c: the read-only file system

    The image lies in memory as the boot loader put it: a boot block with 63
    directory entries of 64 bytes, then the inodes and the data blocks of 4096
    bytes each.  State: the memory and the globals of files.c.  [boot_at] is
    the address of my_boot_block, [lit] places the string literals, and
    functions with local variables take their addresses. *)

From S2P Require Import Prelude Memory LibMem LibString Ports Console.

Definition FS_UNIT_SIZE := 4096.
Definition SIZE_FS_DENTRIES := 63.
Definition SUCCESS := 0.
Definition FAIL := -1.
Definition SBUFSIZE := 33.

(** [file_addr], [dentries], [inodes] and the counters. *)
Record fs := Fs {
  st_boot_block : Z;
  st_inode : Z;
  st_data : Z;
  dentries : Z;
  inodes : Z;
  length_of_file : Z;
  entry_counter : Z;
  flag_open : Z
}.

Definition set_length (n : Z) (f : fs) : fs :=
  Fs (st_boot_block f) (st_inode f) (st_data f) (dentries f) (inodes f) n (entry_counter f)
    (flag_open f).
Definition set_entry_counter (n : Z) (f : fs) : fs :=
  Fs (st_boot_block f) (st_inode f) (st_data f) (dentries f) (inodes f) (length_of_file f) n
    (flag_open f).
Definition set_flag_open (n : Z) (f : fs) : fs :=
  Fs (st_boot_block f) (st_inode f) (st_data f) (dentries f) (inodes f) (length_of_file f)
    (entry_counter f) n.

(** [&dentries[i]] with its fields filename, filetype and inode, and
    [&inodes[k]] with its fields length and data_blocks[b]. *)
Definition dentry_at (f : fs) (i : Z) : Z := u32 (dentries f + 64 * i).
Definition filetype_at (d : Z) : Z := d + 32.
Definition inode_at (d : Z) : Z := d + 36.
Definition inode_addr (f : fs) (k : Z) : Z := u32 (inodes f + FS_UNIT_SIZE * k).
Definition data_block (m : mem) (f : fs) (k b : Z) : Z := rd32 m (inode_addr f k + 4 + 4 * b).

Section operations.
Context (boot_at : Z).

Definition dentries_num (m : mem) : Z := rd32 m boot_at.
Definition inodes_num (m : mem) : Z := rd32 m (boot_at + 4).
Definition datablocks_num (m : mem) : Z := rd32 m (boot_at + 8).

Definition filesystem_init (fs_start fs_end : Z) (m : mem) (f : fs) : res (mem * fs * Z) :=
  if fs_start =? fs_end then Ok (m, f, FAIL)
  else
    m ← memcpy m boot_at fs_start (SIZE_FS_DENTRIES + 1);
    let inode := u32 (fs_start + FS_UNIT_SIZE) in
    let data := u32 (fs_start + (inodes_num m + 1) * FS_UNIT_SIZE) in
    Ok (m, Fs fs_start inode data (u32 (fs_start + (SIZE_FS_DENTRIES + 1))) inode
             (length_of_file f) 0 (flag_open f), SUCCESS).

Definition dentry_copy (index dentry : Z) (m : mem) (f : fs) : res mem :=
  m ← strcpy m dentry (dentry_at f index);
  let m := wr32 m (filetype_at dentry) (rd32 m (filetype_at (dentry_at f index))) in
  Ok (wr32 m (inode_at dentry) (rd32 m (inode_at (dentry_at f index)))).

(** The assignment of 30 to [size] in the loop is always overwritten. *)
Definition read_dentry_by_name (fname dentry : Z) (m : mem) (f : fs) : res (mem * Z) :=
  length ← strlen m fname;
  if s32 length <=? 0 then Ok (m, FAIL)
  else whileM (λ i,
    if i <? SIZE_FS_DENTRIES then
      sizefile ← strlen m fname;
      sizedentry ← strlen m (dentry_at f i);
      let size := if s32 sizedentry <? s32 sizefile then s32 sizefile else s32 sizedentry in
      c ← strncmp m (dentry_at f i) fname (u32 size);
      if c =? 0 then
        m ← dentry_copy i dentry m f; Ok (inr (m, SUCCESS))
      else Ok (inl (i + 1))
    else Ok (inr (m, FAIL))) 0.

Definition read_dentry_by_index (index dentry : Z) (m : mem) (f : fs) : res (mem * Z) :=
  let index := u32 index in
  if (SIZE_FS_DENTRIES <=? index) || (inodes_num m <=? index) then Ok (m, FAIL)
  else m ← dentry_copy index dentry m f; Ok (m, SUCCESS).

(** Address of data block number [n]. *)
Definition block_addr (f : fs) (n : Z) : Z := u32 (st_data f + n * FS_UNIT_SIZE).

(** At the end of a data block: the state at the start of the next one, or
    [None] when its number is invalid. *)
Definition next_block (inode : Z) (m : mem) (f : fs) (read_data block addr : Z) :
    option (Z * Z * Z) :=
  if FS_UNIT_SIZE <=? read_data then
    let n := data_block m f inode (block + 1) in
    if datablocks_num m <=? n then None else Some (0, block + 1, block_addr f n)
  else Some (read_data, block, addr).

Definition read_data (inode offset buf length : Z) (m : mem) (f : fs) : res (mem * fs * Z) :=
  let read_data_block := offset / FS_UNIT_SIZE in
  let read_data := offset mod FS_UNIT_SIZE in
  if rd32 m (inode_addr f inode) <=? offset then Ok (m, f, 0)
  else if (inodes_num m <=? inode) || (datablocks_num m <=? data_block m f inode read_data_block)
  then Ok (m, set_length 0 f, FAIL)
  else
    let read_addr := u32 (block_addr f (data_block m f inode read_data_block) + read_data) in
    whileM (λ '(m, i, read_data, block, addr),
      if u32 i <? length then
        match next_block inode m f read_data block addr with
        | None => Ok (inr (m, f, FAIL))
        | Some (read_data, block, addr) =>
            if rd32 m (inode_addr f inode) <=? u32 (i + offset)
            then Ok (inr (m, set_length i f, i))
            else Ok (inl (wr m (buf + i) (rd m addr), s32 (i + 1), read_data + 1, block, addr + 1))
        end
      else Ok (inr (m, set_length i f, i))) (m, 0, read_data, read_data_block, read_addr).

(** [d] is the address of the local dentry. *)
Definition file_load (d fname addr : Z) (m : mem) (f : fs) : res (mem * fs * Z) :=
  if fname =? 0 then Ok (m, f, -1)
  else
    n ← strlen m fname;
    if n =? 0 then Ok (m, f, -1)
    else
      '(m, r) ← read_dentry_by_name fname d m f;
      if r =? -1 then Ok (m, f, -1)
      else
        let inode := rd32 m (inode_at d) in
        read_data inode 0 addr (rd32 m (inode_addr f inode)) m f.

Definition file_read (d buf offset length name : Z) (m : mem) (f : fs) : res (mem * fs * Z) :=
  if (name =? 0) || (buf =? 0) || (u32 length <=? 0) then Ok (m, f, -1)
  else
    '(m, r) ← read_dentry_by_name name d m f;
    if r =? -1 then Ok (m, f, -1)
    else read_data (rd32 m (inode_at d)) (u32 offset) buf (u32 length) m f.

Definition file_open (fs_start fs_end : Z) (m : mem) (f : fs) : res (mem * fs * Z) :=
  '(m, f, _) ← filesystem_init fs_start fs_end m (set_flag_open 1 f);
  Ok (m, f, SUCCESS).

Definition file_close : Z := SUCCESS.
Definition file_write : Z := FAIL.
Definition directory_write : Z := FAIL.
Definition directory_close : Z := SUCCESS.
Definition directory_open : Z := SUCCESS.

(** [while(i < SBUFSIZE) buf[i++] = 0] *)
Definition clear_name (buf : Z) (m : mem) : mem :=
  for_ (Z.to_nat SBUFSIZE) 0 (λ i m, wr m (buf + i) 0) m.

Definition directory_read (buf offset length name : Z) (m : mem) (f : fs) : res (mem * fs * Z) :=
  let num_node := s32 (dentries_num m) in
  let m := clear_name buf m in
  if num_node <=? entry_counter f then Ok (m, set_entry_counter 0 f, SUCCESS)
  else
    size ← strlen m (dentry_at f (entry_counter f));
    let size := if SBUFSIZE - 1 <=? s32 size then SBUFSIZE - 1 else s32 size in
    m ← strncpy m buf (dentry_at f (entry_counter f)) (u32 size);
    n ← strlen m buf;
    Ok (m, set_entry_counter (entry_counter f + 1) f, s32 n).
End operations.

(** ** Mounted images *)

Definition file_length (m : mem) (f : fs) (k : Z) : Z := rd32 m (inode_addr f k).

(** Byte [i] of the file of inode [k], and its content. *)
Definition file_byte (m : mem) (f : fs) (k i : Z) : Z :=
  rd m (block_addr f (data_block m f k (i / FS_UNIT_SIZE)) + i mod FS_UNIT_SIZE).
Definition content (m : mem) (f : fs) (k : Z) : list Z :=
  (λ i, file_byte m f k i) <$> seqZ 0 (file_length m f k).

Definition max_file : Z := 1023 * FS_UNIT_SIZE.

Section image.
Context (boot_at : Z).

Definition image_end (m : mem) (f : fs) : Z := st_data f + datablocks_num boot_at m * FS_UNIT_SIZE.

Record mounted (m : mem) (f : fs) : Prop := {
  boot_range : 0 ≤ boot_at ∧ boot_at + 64 < 4294967296;
  image_range : 0 < st_boot_block f ∧ image_end m f + 4096 < 4294967296;
  image_layout : dentries f = st_boot_block f + 64 ∧ inodes f = st_boot_block f + FS_UNIT_SIZE ∧
    st_data f = st_boot_block f + (inodes_num boot_at m + 1) * FS_UNIT_SIZE;
  inode_lengths k : 0 ≤ k < inodes_num boot_at m → file_length m f k ≤ max_file;
  inode_blocks k b : 0 ≤ k < inodes_num boot_at m → 0 ≤ b → b * FS_UNIT_SIZE < file_length m f k →
    data_block m f k b < datablocks_num boot_at m
}.

(** A region the file system does not use. *)
Definition off_image (m : mem) (f : fs) (a n : Z) : Prop :=
  disjoint_regions (st_boot_block f) (image_end m f - st_boot_block f) a n ∧
  disjoint_regions boot_at 64 a n.

(** [m'] holds the same image. *)
Definition image_kept (f : fs) (m m' : mem) : Prop :=
  bytes m' boot_at 64 = bytes m boot_at 64 ∧
  ∀ a, st_boot_block f ≤ a < image_end m f → rd m' a = rd m a.

Lemma kept_rd32_boot f m m' i :
  image_kept f m m' → 0 ≤ i → i + 4 ≤ 64 → rd32 m' (boot_at + i) = rd32 m (boot_at + i).
Proof.
  intros [Hb _] Hi Hi4. assert (∀ j, 0 ≤ j < 64 → rd m' (boot_at + j) = rd m (boot_at + j)) as Hrd.
  { intros j Hj. pose proof (lookup_bytes m' boot_at 64 j Hj) as H1.
    rewrite Hb, (lookup_bytes m boot_at 64 j Hj) in H1. congruence. }
  unfold rd32. rewrite <- !Z.add_assoc, !Hrd by lia. done.
Qed.

Lemma kept_counts f m m' :
  image_kept f m m' → inodes_num boot_at m' = inodes_num boot_at m ∧
    datablocks_num boot_at m' = datablocks_num boot_at m ∧
    dentries_num boot_at m' = dentries_num boot_at m.
Proof.
  intros Hk. unfold inodes_num, datablocks_num, dentries_num.
  rewrite (kept_rd32_boot f m m' 4), (kept_rd32_boot f m m' 8) by (done || lia).
  split_and!; [done|done|]. pose proof (kept_rd32_boot f m m' 0 Hk) as H0.
  rewrite Z.add_0_r in H0. apply H0; lia.
Qed.

Lemma kept_rd32 f m m' a :
  image_kept f m m' → st_boot_block f ≤ a → a + 4 ≤ image_end m f → rd32 m' a = rd32 m a.
Proof. intros [_ Hk] ??. unfold rd32. rewrite !Hk by lia. done. Qed.

Lemma kept_refl_image f m : image_kept f m m.
Proof. by split. Qed.

Lemma overlay_image f m mk s k g :
  off_image m f s k → overlay s k g m mk → image_kept f m mk.
Proof.
  unfold off_image, disjoint_regions. intros [Hi Hb] Hm. split.
  - apply bytes_ext. intros i ?. apply (overlay_out _ _ _ _ _ _ Hm). lia.
  - intros a ?. apply (overlay_out _ _ _ _ _ _ Hm). lia.
Qed.

Section inode.
Context (m : mem) (f : fs) (Hm : mounted m f) (k : Z) (Hk : 0 ≤ k < inodes_num boot_at m).

Lemma inode_addr_eq :
  inode_addr f k = st_boot_block f + FS_UNIT_SIZE * (k + 1) ∧
  st_boot_block f ≤ inode_addr f k ∧ inode_addr f k + FS_UNIT_SIZE ≤ st_data f.
Proof.
  destruct Hm as [_ [Hs He] (_ & Hi & Hd) _ _]. unfold image_end, inode_addr, FS_UNIT_SIZE in *.
  pose proof (rd32_range m (boot_at + 8)). unfold datablocks_num in *.
  rewrite Hi, u32_small by lia. lia.
Qed.

Lemma block_addr_eq n :
  0 ≤ n < datablocks_num boot_at m → block_addr f n = st_data f + n * FS_UNIT_SIZE ∧
    st_boot_block f ≤ block_addr f n ∧ block_addr f n + FS_UNIT_SIZE ≤ image_end m f.
Proof.
  intros Hn. destruct Hm as [_ [Hs He] (_ & Hi & Hd) _ _].
  unfold image_end, block_addr, FS_UNIT_SIZE in *. rewrite u32_small by lia. lia.
Qed.

Lemma data_block_range b : 0 ≤ data_block m f k b.
Proof. apply rd32_range. Qed.

(** Blocks of a file lie inside the image. *)
Lemma file_block b :
  0 ≤ b → b * FS_UNIT_SIZE < file_length m f k →
  let n := data_block m f k b in
  0 ≤ n < datablocks_num boot_at m ∧ st_boot_block f ≤ block_addr f n ∧
  block_addr f n + FS_UNIT_SIZE ≤ image_end m f.
Proof.
  intros Hb Hlen. cbn zeta. pose proof (inode_blocks m f Hm k b Hk Hb Hlen) as Hn.
  pose proof (data_block_range b) as H0. destruct (block_addr_eq (data_block m f k b)) as (_ & ? & ?); lia.
Qed.

(** The fields of the inode are read from the image, one block number past
    the last one included. *)
Lemma kept_inode m' b :
  image_kept f m m' → 0 ≤ b ≤ 1023 → 0 < datablocks_num boot_at m →
  file_length m' f k = file_length m f k ∧ data_block m' f k b = data_block m f k b.
Proof.
  intros Hkept Hb HD. destruct inode_addr_eq as (_ & Hlo & Hhi). unfold image_end, FS_UNIT_SIZE in *.
  split; apply (kept_rd32 f m m' _ Hkept); unfold image_end, FS_UNIT_SIZE; lia.
Qed.

Lemma kept_byte m' i :
  image_kept f m m' → 0 ≤ i < file_length m f k → file_byte m' f k i = file_byte m f k i.
Proof.
  intros Hkept Hi. pose proof (inode_lengths m f Hm k Hk) as Hmax. unfold max_file, FS_UNIT_SIZE in *.
  destruct (file_block (i / 4096)) as (Hn & Hlo & Hhi); unfold FS_UNIT_SIZE in *; [zlia|zlia|].
  unfold file_byte, FS_UNIT_SIZE.
  destruct (kept_inode m' (i / 4096) Hkept) as [_ ->]; [zlia|lia|].
  apply Hkept. zlia.
Qed.
End inode.
End image.

(** ** read_data *)

Section read.
Context (boot_at : Z) (m : mem) (f : fs) (Hm : mounted boot_at m f).
Context (k : Z) (Hk : 0 ≤ k < inodes_num boot_at m).
Context (offset buf length : Z) (Ho : 0 ≤ offset < file_length m f k).
Context (Hlen : 0 ≤ length < 2147483648).

(** How many bytes are left from [offset] on, up to [length]. *)
Definition readable : Z := Z.min length (file_length m f k - offset).

(** The block check at the end of a file that fills its last block. *)
Definition dead_end : bool :=
  (readable <? length) && (file_length m f k mod FS_UNIT_SIZE =? 0) &&
  (datablocks_num boot_at m <=? data_block m f k (file_length m f k / FS_UNIT_SIZE)).

Context (Hbuf : off_image boot_at m f buf readable).

(** The cursor of the loop after [i] bytes. *)
Definition at_byte (i read_data block addr : Z) : Prop :=
  0 ≤ block ∧ 0 ≤ read_data ≤ FS_UNIT_SIZE ∧ block * FS_UNIT_SIZE + read_data = offset + i ∧
  (read_data < FS_UNIT_SIZE → addr = block_addr f (data_block m f k block) + read_data) ∧
  (read_data = 0 → i = 0).

Definition read_prefix (i : Z) : mem → Prop :=
  overlay buf i (λ i, file_byte m f k (offset + i)) m.

Lemma read_prefix_kept i mi : 0 ≤ i ≤ readable → read_prefix i mi → image_kept boot_at f m mi.
Proof.
  intros Hi Hmi. eapply overlay_image; [|exact Hmi].
  unfold off_image, disjoint_regions in *. lia.
Qed.

(** Some block exists, and the file is not longer than an inode can say. *)
Lemma file_facts : 0 < datablocks_num boot_at m ∧ file_length m f k ≤ max_file.
Proof.
  split; [|by apply (inode_lengths boot_at m f Hm)].
  destruct (file_block boot_at m f Hm k Hk 0) as [? _]; lia.
Qed.

(** Moving to the next block: either the cursor is inside a block afterwards,
    or the file has ended at a block boundary and the check fails. *)
Lemma next_block_spec i mi r b addr :
  0 ≤ i ≤ readable → i < length → read_prefix i mi → at_byte i r b addr →
  match next_block boot_at k mi f r b addr with
  | Some (r', b', addr') =>
      0 ≤ b' ∧ 0 ≤ r' < FS_UNIT_SIZE ∧ b' * FS_UNIT_SIZE + r' = offset + i ∧
      addr' = block_addr f (data_block m f k b') + r' ∧
      (offset + i = file_length m f k → dead_end = false)
  | None => i = readable ∧ dead_end = true
  end.
Proof.
  intros Hi Hil Hmi (Hb & Hr & Hpos & Haddr & Hr0).
  destruct file_facts as [HD Hmax]. pose proof (read_prefix_kept i mi Hi Hmi) as Hkept.
  destruct (kept_counts boot_at f m mi Hkept) as (_ & HDi & _).
  unfold next_block, dead_end, readable, max_file, FS_UNIT_SIZE in *. rewrite HDi.
  destruct (Z.leb_spec 4096 r) as [Hend|Hin].
  - destruct (kept_inode boot_at m f Hm k Hk mi (b + 1) Hkept) as [_ ->]; [lia|lia|].
    destruct (Z.leb_spec (datablocks_num boot_at m) (data_block m f k (b + 1))) as [Hbad|Hgood].
    + assert (offset + i = file_length m f k) as Heof.
      { destruct (decide (offset + i < file_length m f k)); [|lia].
        pose proof (inode_blocks boot_at m f Hm k (b + 1) Hk). unfold FS_UNIT_SIZE in *. lia. }
      split; [lia|]. replace (file_length m f k / 4096) with (b + 1) by zlia.
      case_z; cbn [andb]; first [done | exfalso; zlia].
    + split_and!; try lia. intros Heof.
      replace (file_length m f k / 4096) with (b + 1) by zlia.
      case_z; cbn [andb]; first [done | exfalso; lia].
  - split_and!; try lia. intros Heof.
    case_z; cbn [andb]; first [done | exfalso; zlia].
Qed.

Lemma read_loop_spec :
  let b0 := offset / FS_UNIT_SIZE in
  let r0 := offset mod FS_UNIT_SIZE in
  returns (whileM (λ '(m, i, read_data, block, addr),
      if u32 i <? length then
        match next_block boot_at k m f read_data block addr with
        | None => Ok (inr (m, f, FAIL))
        | Some (read_data, block, addr) =>
            if rd32 m (inode_addr f k) <=? u32 (i + offset)
            then Ok (inr (m, set_length i f, i))
            else Ok (inl (wr m (buf + i) (rd m addr), s32 (i + 1), read_data + 1, block, addr + 1))
        end
      else Ok (inr (m, set_length i f, i)))
    (m, 0, r0, b0, block_addr f (data_block m f k b0) + r0))
  (λ '(m', f', r), read_prefix readable m' ∧
     if dead_end then r = FAIL ∧ f' = f else r = readable ∧ f' = set_length readable f).
Proof.
  intros b0 r0. destruct file_facts as [HD Hmax].
  apply whileM_total with
    (I := λ '(mi, i, r, b, addr), 0 ≤ i ≤ readable ∧ read_prefix i mi ∧ at_byte i r b addr)
    (V := λ '(mi, i, r, b, addr), length - i).
  - unfold readable, at_byte, max_file, FS_UNIT_SIZE in *. unfold b0, r0, FS_UNIT_SIZE.
    split_and!; try lia; try zlia; apply overlay_0.
  - lia.
  - intros [[[[mi i] r] b] addr] (Hi & Hmi & Hat).
    assert (file_length mi f k = file_length m f k) as Hfl.
    { apply (kept_inode boot_at m f Hm k Hk mi 0); [by eapply read_prefix_kept|lia|done]. }
    unfold readable, max_file, FS_UNIT_SIZE in *. rewrite (u32_small i) by lia.
    destruct (Z.ltb_spec i length) as [Hil|Hil].
    + pose proof (next_block_spec i mi r b addr ltac:(unfold readable; lia) Hil Hmi Hat) as Hnext.
      destruct (next_block _ _ _ _ _ _ _) as [[[r' b'] addr']|].
      * destruct Hnext as (Hb' & Hr' & Hpos & -> & Hde). unfold FS_UNIT_SIZE in *.
        unfold file_length in Hfl at 1. rewrite Hfl, u32_small by lia.
        destruct (Z.leb_spec (file_length m f k) (i + offset)) as [Heof|Hmore]; apply returns_Ok.
        -- rewrite Hde by lia. replace (length `min` (file_length m f k - offset)) with i by lia.
           done.
        -- rewrite s32_small by lia. split; [|lia]. split_and!; [lia|lia| |].
           ++ apply overlay_wr; [done|lia|done|]. rewrite rd_u8.
              assert ((offset + i) / 4096 = b') as Hdiv by zlia.
              assert ((offset + i) mod 4096 = r') as Hmod by zlia.
              assert (file_byte m f k (offset + i) = rd m (block_addr f (data_block m f k b') + r'))
                as -> by (unfold file_byte, FS_UNIT_SIZE; by rewrite Hdiv, Hmod).
              symmetry. apply (read_prefix_kept i mi); [unfold readable; lia|done|].
              destruct (file_block boot_at m f Hm k Hk b') as (_ & ? & ?);
                unfold FS_UNIT_SIZE in *; lia.
           ++ unfold at_byte, FS_UNIT_SIZE. split_and!; try lia.
      * destruct Hnext as [-> ->]. by apply returns_Ok.
    + apply returns_Ok. assert (length `min` (file_length m f k - offset) = i) as Hmin by lia.
      rewrite Hmin. split; [done|]. unfold dead_end, readable. rewrite Hmin.
      by rewrite (proj2 (Z.ltb_ge i length)) by lia.
Qed.

Lemma read_data_spec :
  returns (read_data boot_at k offset buf length m f) (λ '(m', f', r),
    read_prefix readable m' ∧
    if dead_end then r = FAIL ∧ f' = f else r = readable ∧ f' = set_length readable f).
Proof.
  unfold read_data. pose proof read_loop_spec as Hloop. cbn zeta in Hloop.
  destruct (inode_addr_eq boot_at m f Hm k Hk) as (_ & Hlo & Hhi).
  destruct file_facts as [HD Hmax].
  change (rd32 m (inode_addr f k)) with (file_length m f k).
  rewrite (proj2 (Z.leb_gt _ _)), (proj2 (Z.leb_gt (inodes_num boot_at m) k)) by lia. cbn [orb].
  assert (offset / FS_UNIT_SIZE * FS_UNIT_SIZE < file_length m f k) as Hblk
    by (unfold FS_UNIT_SIZE; zlia).
  destruct (file_block boot_at m f Hm k Hk (offset / FS_UNIT_SIZE)) as (Hn & Hlo' & Hhi');
    [unfold FS_UNIT_SIZE; zlia|exact Hblk|].
  rewrite (proj2 (Z.leb_gt _ _)) by lia.
  destruct (image_range boot_at m f Hm) as [Hs He].
  rewrite (u32_small (_ + _)) by (unfold FS_UNIT_SIZE in *; zlia). exact Hloop.
Qed.
End read.

(** ** Directory entries *)

(** The names of the 63 entries, read as C strings.  A name that fills its 32
    bytes runs on into the type field. *)
Definition names (m : mem) (f : fs) (ns : list (list Z)) : Prop :=
  length ns = 63%nat ∧
  ∀ i n, ns !! i = Some n → cstr m (dentry_at f (Z.of_nat i)) n ∧ zlen n < 2147483647.

(** The dentry at [d] is a copy of entry [i], whose name is [l]. *)
Definition dentry_is (m m' : mem) (f : fs) (d i : Z) (l : list Z) : Prop :=
  cstr m' d l ∧ rd32 m' (filetype_at d) = rd32 m (filetype_at (dentry_at f i)) ∧
  rd32 m' (inode_at d) = rd32 m (inode_at (dentry_at f i)) ∧ same_except d 40 m m'.

Section entries.
Context (boot_at : Z) (m : mem) (f : fs) (Hm : mounted boot_at m f).

Lemma dentry_at_eq i :
  0 ≤ i < 63 → st_boot_block f + 64 ≤ dentry_at f i ∧
  dentry_at f i + 64 ≤ st_boot_block f + FS_UNIT_SIZE ∧ dentry_at f i + 64 ≤ image_end boot_at m f.
Proof.
  intros Hi. destruct Hm as [_ [Hs He] (Hd & _ & Hdata) _ _]. unfold image_end, FS_UNIT_SIZE in *.
  pose proof (rd32_range m (boot_at + 8)). pose proof (rd32_range m (boot_at + 4)).
  unfold dentry_at, inodes_num, datablocks_num in *. rewrite Hd, u32_small by lia. lia.
Qed.

Lemma dentry_copy_spec i d l :
  0 ≤ i < 63 → cstr m (dentry_at f i) l → zlen l ≤ 31 → off_image boot_at m f d 40 →
  returns (dentry_copy i d m f) (λ m', dentry_is m m' f d i l).
Proof.
  unfold off_image, disjoint_regions. intros Hi Hl Hlen [Hoff _].
  destruct (dentry_at_eq i Hi) as (Hlo & _ & Hhi). unfold dentry_copy.
  eapply returns_bind.
  { apply (strcpy_cstr m d (dentry_at f i) l Hl); [lia|]. unfold disjoint_regions. lia. }
  intros m1 Hm1. pose proof (wr_bytes_same_except _ _ _ _ Hm1) as Hsame.
  rewrite zlen_app in Hsame. change (zlen [0]) with 1 in Hsame.
  pose proof (wr_bytes_cstr _ _ _ _ (cstr_text _ _ _ Hl) Hm1) as Hcopy.
  apply returns_Ok. unfold dentry_is, filetype_at, inode_at.
  rewrite rd32_wr32_ne by lia.
  rewrite !(same_except_rd32 _ _ _ _ _ Hsame) by (unfold disjoint_regions; lia).
  split_and!.
  - apply (cstr_frame (d + 36) 4 (wr32 m1 (d + 32) (rd32 m (dentry_at f i + 32)))).
    + apply same_except_wr32; lia.
    + unfold disjoint_regions; lia.
    + apply (cstr_frame (d + 32) 4 m1); [apply same_except_wr32; lia|unfold disjoint_regions; lia|done].
  - rewrite rd32_wr32_ne, rd32_wr32_eq by lia. apply u32_small, rd32_range.
  - rewrite rd32_wr32_eq. apply u32_small, rd32_range.
  - eapply same_except_trans; [eapply same_except_weaken; [exact Hsame|lia..]|].
    eapply same_except_trans; apply same_except_wr32; lia.
Qed.

(** The comparison of the loop decides equality of the whole names. *)
Lemma compare_whole l1 l2 :
  LibString.text l1 → LibString.text l2 →
  compare_upto (Nat.max (length l1) (length l2)) l1 l2 = 0 ↔ l1 = l2.
Proof.
  intros H1 H2. rewrite compare_upto_0 by done. rewrite !take_ge by lia. done.
Qed.

Lemma list_find_here (l n : list Z) ns i :
  ns !! i = Some n → (∀ j y, ns !! j = Some y → (j < i)%nat → y ≠ l) → n = l →
  list_find (λ n, n = l) ns = Some (i, n).
Proof. intros Hi Hbefore Hn. apply list_find_Some. split_and!; [done|done|]. eauto. Qed.

Lemma read_dentry_by_name_spec fname d l ns :
  names m f ns → cstr m fname l → 0 < zlen l < 2147483647 →
  (∀ i, list_find (λ n, n = l) ns = Some (i, l) → zlen l ≤ 31 ∧ off_image boot_at m f d 40) →
  returns (read_dentry_by_name fname d m f) (λ '(m', r),
    match list_find (λ n, n = l) ns with
    | Some (i, _) => r = SUCCESS ∧ dentry_is m m' f d (Z.of_nat i) l
    | None => r = FAIL ∧ m' = m
    end).
Proof.
  intros [Hlen Hns] Hl Hpos Hd. unfold read_dentry_by_name.
  rewrite (strlen_cstr m fname l) by (done || lia). rewrite bind_Ok.
  rewrite s32_small, (proj2 (Z.leb_gt _ _)) by lia.
  apply whileM_total with
    (I := λ i, 0 ≤ i ≤ 63 ∧ ∀ j n, ns !! j = Some n → (j < Z.to_nat i)%nat → n ≠ l)
    (V := λ i, 63 - i).
  - split; [lia|]. intros; lia.
  - lia.
  - intros i [Hi Hbefore]. unfold SIZE_FS_DENTRIES. destruct (Z.ltb_spec i 63) as [Hlt|Hge].
    + destruct (lookup_lt_is_Some_2 ns (Z.to_nat i)) as [n Hn]; [lia|].
      destruct (Hns _ _ Hn) as [Hcn Hnl]. rewrite Z2Nat.id in Hcn by lia.
      rewrite bind_Ok, (strlen_cstr _ _ _ Hcn), bind_Ok by lia. rewrite !s32_small by lia.
      set (size := if zlen n <? zlen l then zlen l else zlen n).
      assert (size = Z.of_nat (Nat.max (length n) (length l))) as Hsize
        by (unfold size; case_z; lia).
      rewrite u32_small by lia. rewrite (strncmp_cstr m _ _ n l size) by (done || lia).
      rewrite bind_Ok, Hsize, Nat2Z.id.
      pose proof (compare_whole n l (cstr_text _ _ _ Hcn) (cstr_text _ _ _ Hl)) as Hcmp.
      destruct (Z.eqb_spec (compare_upto (Nat.max (length n) (length l)) n l) 0) as [Heq|Hne].
      * apply Hcmp in Heq as ->. pose proof (list_find_here l l ns _ Hn Hbefore eq_refl) as Hfind.
        destruct (Hd _ Hfind) as [Hshort Hoff].
        eapply returns_bind; [apply (dentry_copy_spec i d l); done || lia|].
        intros m' Hm'. apply returns_Ok. rewrite Hfind, Z2Nat.id by lia. done.
      * apply returns_Ok. split; [|lia]. split; [lia|]. intros j n' Hj Hji.
        destruct (decide (j = Z.to_nat i)) as [->|]; [|apply (Hbefore j n' Hj); lia].
        rewrite Hn in Hj. injection Hj as <-. by rewrite <- Hcmp.
    + apply returns_Ok. assert (list_find (λ n, n = l) ns = None) as ->; [|done].
      apply list_find_None, Forall_lookup. intros j n Hj.
      apply (Hbefore j n Hj). apply lookup_lt_Some in Hj. lia.
Qed.
End entries.

(** ** Reading files by name *)

(** Memory that only changed on two blocks. *)
Definition same_except2 (a n b k : Z) (m m' : mem) : Prop :=
  ∀ x, ¬ (a ≤ x < a + n) → ¬ (b ≤ x < b + k) → rd m' x = rd m x.

Lemma same_except_image boot_at m f m' a n :
  same_except a n m m' → off_image boot_at m f a n → image_kept boot_at f m m'.
Proof.
  unfold off_image, disjoint_regions. intros Hs [Hi Hb]. split.
  - apply bytes_ext. intros i ?. apply Hs. lia.
  - intros x ?. apply Hs. lia.
Qed.

(** An image survives writes outside it, and so do its contents. *)
Lemma mounted_kept boot_at m f m' :
  mounted boot_at m f → image_kept boot_at f m m' →
  mounted boot_at m' f ∧ (∀ k, 0 ≤ k < inodes_num boot_at m → content m' f k = content m f k) ∧
  image_end boot_at m' f = image_end boot_at m f.
Proof.
  intros Hm Hk. destruct (kept_counts boot_at f m m' Hk) as (HN & HD & _).
  assert (image_end boot_at m' f = image_end boot_at m f) as He by (unfold image_end; by rewrite HD).
  assert (∀ k, 0 ≤ k < inodes_num boot_at m → file_length m' f k = file_length m f k) as Hlen.
  { intros k Hin. destruct (inode_addr_eq boot_at m f Hm k Hin) as (_ & ? & ?).
    apply (kept_rd32 boot_at f m m' _ Hk); [done|]. unfold image_end, FS_UNIT_SIZE in *.
    pose proof (rd32_range m (boot_at + 8)). unfold datablocks_num. lia. }
  split_and!; [|intros k Hin|done].
  - pose proof Hm as [Hb Hr Hl Hil Hib]. constructor; [done|by rewrite He|by rewrite HN| |].
    + intros k. rewrite HN. intros Hin. rewrite Hlen by done. by apply Hil.
    + intros k b. rewrite HN, HD. intros Hin Hb0 Hlt. rewrite Hlen in Hlt by done.
      pose proof (Hib k b Hin Hb0 Hlt) as Hblk. pose proof (Hil k Hin).
      pose proof (data_block_range m f k b).
      destruct (kept_inode boot_at m f Hm k Hin m' b Hk) as [_ ->]; [|lia|done].
      unfold max_file, FS_UNIT_SIZE in *. lia.
  - unfold content. rewrite Hlen by done. apply list_fmap_ext. intros i x Hx.
    apply lookup_seqZ in Hx. apply (kept_byte boot_at m f Hm k Hin m'); [done|lia].
Qed.

Lemma zlen_content m f k : zlen (content m f k) = file_length m f k.
Proof.
  unfold content. rewrite length_fmap, length_seqZ. pose proof (rd32_range m (inode_addr f k)).
  unfold file_length. lia.
Qed.

(** The bytes a read delivers. *)
Definition slice (offset length : Z) (l : list Z) : list Z :=
  take (Z.to_nat length) (drop (Z.to_nat offset) l).

Lemma zlen_slice offset length l :
  0 ≤ offset ≤ zlen l → 0 ≤ length → zlen (slice offset length l) = Z.min length (zlen l - offset).
Proof. intros. unfold slice. rewrite length_take, length_drop. lia. Qed.

Lemma read_prefix_slice m f k offset buf length m' :
  0 ≤ offset < file_length m f k → 0 ≤ length →
  read_prefix m f k offset buf (readable m f k offset length) m' →
  m' ≡ wr_bytes m buf (slice offset length (content m f k)).
Proof.
  intros Ho Hl Hm'. pose proof (zlen_content m f k) as Hz.
  apply overlay_wr_bytes. rewrite zlen_slice, Hz by lia.
  eapply overlay_ext; [exact Hm'|]. intros i Hi. cbn. unfold slice, content.
  rewrite list_lookup_total_alt, lookup_take_lt, lookup_drop by lia.
  replace (Z.to_nat offset + Z.to_nat i)%nat with (Z.to_nat (offset + i)) by lia.
  rewrite list_lookup_fmap, lookup_seqZ_lt by lia. cbn.
  rewrite Z2Nat.id by lia. unfold file_byte at 2. rewrite rd_u8. done.
Qed.

Section by_name.
Context (boot_at : Z) (m : mem) (f : fs) (Hm : mounted boot_at m f).
Context (ns : list (list Z)) (Hns : names m f ns).
Context (fname : Z) (l : list Z) (Hl : cstr m fname l) (Hlen : 0 < zlen l < 2147483647).
Context (i : nat) (Hi : list_find (λ n, n = l) ns = Some (i, l)) (Hshort : zlen l ≤ 31).

(** The inode of the entry that is found. *)
Definition found_inode : Z := rd32 m (inode_at (dentry_at f (Z.of_nat i))).

Context (Hk : found_inode < inodes_num boot_at m).
Context (d : Z) (Hd : off_image boot_at m f d 40).

Lemma read_found buf offset length :
  0 ≤ offset < file_length m f found_inode → 0 ≤ length < 2147483648 →
  off_image boot_at m f buf (readable m f found_inode offset length) →
  returns ('(m, r) ← read_dentry_by_name fname d m f;
           if r =? -1 then Ok (m, f, -1)
           else read_data boot_at (rd32 m (inode_at d)) offset buf length m f)
    (λ '(m', f', r), let l := slice offset length (content m f found_inode) in
       bytes m' buf (zlen l) = l ∧ same_except2 d 40 buf (zlen l) m m' ∧
       if dead_end boot_at m f found_inode offset length then r = -1 ∧ f' = f
       else r = zlen l ∧ f' = set_length (zlen l) f).
Proof.
  intros Ho Hlength Hbuf.
  pose proof (read_dentry_by_name_spec boot_at m f Hm fname d l ns Hns Hl Hlen) as Hname.
  eapply returns_bind; [apply Hname; intros; by split|]. rewrite Hi.
  intros [m1 r1] (-> & Hc & _ & Hino & Hsame). cbn [Z.eqb SUCCESS].
  fold found_inode in Hino. rewrite Hino.
  assert (0 ≤ found_inode) as Hk0 by apply rd32_range.
  pose proof (same_except_image boot_at m f m1 d 40 Hsame Hd) as Hkept.
  destruct (mounted_kept boot_at m f m1 Hm Hkept) as (Hm1 & Hcont & Hend).
  destruct (kept_counts boot_at f m m1 Hkept) as (HN & HD & _).
  assert (file_length m1 f found_inode = file_length m f found_inode) as Hfl
    by (rewrite <- !zlen_content, Hcont; done).
  assert (readable m1 f found_inode offset length = readable m f found_inode offset length) as Hrd
    by (unfold readable; by rewrite Hfl).
  assert (dead_end boot_at m1 f found_inode offset length =
          dead_end boot_at m f found_inode offset length) as Hde.
  { destruct (file_facts boot_at m f Hm found_inode ltac:(lia) offset Ho) as [HD0 Hmax].
    unfold dead_end. rewrite Hrd, Hfl, HD.
    destruct (kept_inode boot_at m f Hm found_inode ltac:(lia) m1
      (file_length m f found_inode / FS_UNIT_SIZE) Hkept) as [_ ->]; [|done|done].
    unfold max_file, FS_UNIT_SIZE in *. zlia. }
  assert (zlen (slice offset length (content m f found_inode)) =
          readable m f found_inode offset length) as Hz.
  { rewrite zlen_slice, zlen_content by (rewrite ?zlen_content; lia). done. }
  eapply returns_mono.
  { apply (read_data_spec boot_at m1 f Hm1 found_inode); rewrite ?HN, ?Hfl, ?Hrd; try lia.
    unfold off_image in *. by rewrite Hend. }
  intros [[m' f'] r] [Hpre Hr]. rewrite Hrd in Hpre.
  rewrite Hde, Hrd in Hr. rewrite Hz. split_and!; [| |exact Hr].
  - pose proof (read_prefix_slice m1 f found_inode offset buf length m' ltac:(lia) ltac:(lia)) as Hw.
    rewrite Hrd, Hcont in Hw by lia. specialize (Hw Hpre). rewrite <- Hz.
    apply (wr_bytes_read m1); [done|]. apply Forall_take, Forall_drop, Forall_fmap, Forall_true.
    intros x. apply rd_range.
  - intros x Hx1 Hx2. rewrite (overlay_out _ _ _ _ _ x Hpre) by lia. apply Hsame. lia.
Qed.
End by_name.

(** ** Listing the directory *)

Lemma clear_name_spec buf m :
  overlay buf SBUFSIZE (λ _, 0) m (clear_name buf m).
Proof.
  unfold clear_name. pose proof (for_inv (λ i mi, overlay buf i (λ _, 0) m mi)
    (λ i m, wr m (buf + i) 0) (Z.to_nat SBUFSIZE) 0 m) as Hfor.
  apply Hfor; [apply overlay_0|]. intros j mj Hj Hmj. by apply overlay_wr; [|lia|lia|].
Qed.

(** What directory_read leaves in its 33-byte buffer for the name [n]. *)
Definition listed (n : list Z) : list Z := take 32 n ++ replicate (33 - length (take 32 n)) 0.

Section listing.
Context (boot_at : Z) (m : mem) (f : fs) (Hm : mounted boot_at m f).
Context (buf : Z) (Hbuf : off_image boot_at m f buf SBUFSIZE).

(** A buffer of 33 bytes that holds the first 32 characters of [n] and zeros. *)
Definition listing (n : list Z) : mem → mem → Prop :=
  overlay buf SBUFSIZE (λ i, if i <? Z.min 32 (zlen n) then n !!! Z.to_nat i else 0).

Lemma listing_bytes n m' : listing n m m' → bytes m' buf SBUFSIZE = listed n.
Proof.
  intros Hm'. unfold SBUFSIZE. apply list_eq. intros i. destruct (decide (i < 33)%nat) as [Hi|Hi].
  - rewrite <- (Nat2Z.id i) at 1. rewrite lookup_bytes by lia.
    rewrite (overlay_in _ _ _ _ _ _ Hm') by (unfold SBUFSIZE; lia).
    replace (buf + Z.of_nat i - buf) with (Z.of_nat i) by lia. unfold listed. case_z.
    + rewrite lookup_app_l by (rewrite length_take; lia). rewrite lookup_take_lt, Nat2Z.id by lia.
      symmetry. apply list_lookup_lookup_total_lt. lia.
    + rewrite lookup_app_r by (rewrite length_take; lia). symmetry. apply lookup_replicate_2.
      rewrite length_take. lia.
  - rewrite !lookup_ge_None_2; [done|..]; unfold listed, bytes;
      rewrite ?length_app, ?length_replicate, ?length_take, ?length_fmap, ?length_seqZ; lia.
Qed.

Lemma listing_cstr n m' :
  LibString.text n → listing n m m' → cstr m' buf (take 32 n).
Proof.
  intros Hn Hm'. assert (zlen (take 32 n) = Z.min 32 (zlen n)) as Hz by (rewrite length_take; lia).
  assert (∀ i, 0 ≤ i < 33 →
    rd m' (buf + i) = if i <? Z.min 32 (zlen n) then n !!! Z.to_nat i else 0) as Hrd.
  { intros i Hi. rewrite (overlay_in _ _ _ _ _ _ Hm') by (unfold SBUFSIZE; lia).
    by replace (buf + i - buf) with i by lia. }
  split_and!.
  - apply Forall_take. eapply Forall_impl; [exact Hn|]. intros; cbn in *; lia.
  - rewrite Hz. apply list_eq. intros i. destruct (decide (Z.of_nat i < Z.min 32 (zlen n))).
    + rewrite <- (Nat2Z.id i) at 1. rewrite lookup_bytes, Hrd by lia.
      rewrite (proj2 (Z.ltb_lt _ _)) by lia. rewrite lookup_take_lt, Nat2Z.id by lia.
      symmetry. apply list_lookup_lookup_total_lt. lia.
    + rewrite !lookup_ge_None_2; [done|rewrite length_take; lia|].
      unfold bytes. rewrite length_fmap, length_seqZ. lia.
  - rewrite Hz, Hrd by lia. by rewrite Z.ltb_irrefl.
Qed.

Lemma directory_read_spec offset length name :
  0 ≤ entry_counter f → s32 (dentries_num boot_at m) ≤ 63 →
  (∀ n, entry_counter f < s32 (dentries_num boot_at m) → n = entry_counter f →
     ∃ l, cstr m (dentry_at f n) l ∧ zlen l < 64) →
  returns (directory_read boot_at buf offset length name m f) (λ '(m', f', r),
    if s32 (dentries_num boot_at m) <=? entry_counter f
    then listing [] m m' ∧ r = 0 ∧ f' = set_entry_counter 0 f
    else ∃ l, cstr m (dentry_at f (entry_counter f)) l ∧ listing l m m' ∧
         r = Z.min 32 (zlen l) ∧ f' = set_entry_counter (entry_counter f + 1) f).
Proof.
  intros Hc Hnum Hname. unfold directory_read.
  pose proof (clear_name_spec buf m) as Hclear. set (m0 := clear_name buf m) in *.
  pose proof (overlay_same_except _ _ _ _ _ Hclear) as Hsame0.
  destruct (Z.leb_spec (s32 (dentries_num boot_at m)) (entry_counter f)) as [Hend|Hmore].
  - apply returns_Ok. split_and!; try done. eapply overlay_ext; [exact Hclear|].
    intros i Hi. cbn. by case_z; [lia|].
  - destruct (Hname _ Hmore eq_refl) as (l & Hl & Hll). set (c := entry_counter f) in *.
    destruct (dentry_at_eq boot_at m f Hm c) as (Hlo & _ & Hhi); [lia|].
    unfold off_image, disjoint_regions, SBUFSIZE in Hbuf. destruct Hbuf as [Hbi _].
    assert (cstr m0 (dentry_at f c) l) as Hl0.
    { eapply cstr_frame; [exact Hsame0| |exact Hl]. unfold disjoint_regions, SBUFSIZE. lia. }
    rewrite (strlen_cstr _ _ _ Hl0), bind_Ok, s32_small by lia.
    set (size := if SBUFSIZE - 1 <=? zlen l then SBUFSIZE - 1 else zlen l).
    assert (size = Z.min 32 (zlen l)) as Hsize by (unfold size, SBUFSIZE; case_z; lia).
    rewrite u32_small by lia. eapply returns_bind.
    { apply (strncpy_cstr m0 buf (dentry_at f c) l size Hl0); [lia|].
      unfold disjoint_regions. lia. }
    intros m1 Hm1%overlay_wr_bytes. rewrite zlen_padded in Hm1 by lia.
    assert (listing l m m1) as Hlist.
    { intros b. rewrite (Hm1 b), (Hclear b). unfold SBUFSIZE.
      case_z; cbn [andb]; try lia; try done.
      rewrite (padded_char m0 _ _ _ _ Hl0) by lia. case_z; try lia.
      rewrite rd_u8. symmetry. apply (cstr_lookup_total m0); [done|lia]. }
    rewrite (strlen_cstr m1 buf (take 32 l)), bind_Ok; [|by apply listing_cstr; [eapply cstr_text|]|].
    2: { rewrite length_take. lia. }
    apply returns_Ok. exists l. split_and!; [done|done| |done].
    rewrite length_take, s32_small by lia. lia.
Qed.
End listing.

(** ** The directory of a mounted image *)

(** A mounted image with its names, each entry with a valid inode. *)
Record fs_ok (boot_at : Z) (ns : list (list Z)) (m : mem) (f : fs) : Prop := {
  fs_mounted : mounted boot_at m f;
  fs_names : names m f ns;
  fs_short : Forall (λ n, zlen n < 64) ns;
  fs_inodes i : 0 ≤ i < 63 → rd32 m (inode_at (dentry_at f i)) < inodes_num boot_at m
}.

Lemma all_from_list (P : Z → Prop) n :
  Forall P (seqZ 0 n) → ∀ i, 0 ≤ i < n → P i.
Proof. rewrite Forall_forall. intros Hall i Hi. apply Hall, elem_of_seqZ. lia. Qed.

(** Images with one inode and one block, for the witnesses. *)
Definition one_inode (boot_at : Z) (ns : list (list Z)) (m : mem) (f : fs) : Prop :=
  (0 ≤ boot_at ∧ boot_at + 64 < 4294967296) ∧
  (0 < st_boot_block f ∧ image_end boot_at m f + 4096 < 4294967296) ∧
  (dentries f = st_boot_block f + 64 ∧ inodes f = st_boot_block f + FS_UNIT_SIZE ∧
    st_data f = st_boot_block f + (inodes_num boot_at m + 1) * FS_UNIT_SIZE) ∧
  inodes_num boot_at m = 1 ∧ file_length m f 0 ≤ 4096 ∧ data_block m f 0 0 < datablocks_num boot_at m ∧
  length ns = 63%nat ∧
  Forall (λ i, cstr m (dentry_at f i) (ns !!! Z.to_nat i) ∧ zlen (ns !!! Z.to_nat i) < 64) (seqZ 0 63) ∧
  Forall (λ i, rd32 m (inode_at (dentry_at f i)) < inodes_num boot_at m) (seqZ 0 63).

Lemma one_inode_fs boot_at ns m f : one_inode boot_at ns m f → fs_ok boot_at ns m f.
Proof.
  intros (H1 & H2 & H3 & HN & HL & HD & Hlen & Hnm & Hin).
  pose proof (all_from_list _ _ Hnm) as Hnames. pose proof (all_from_list _ _ Hin) as Hinodes.
  assert (∀ i n, ns !! i = Some n → cstr m (dentry_at f (Z.of_nat i)) n ∧ zlen n < 64) as Hn.
  { intros i n Hi. pose proof (lookup_lt_Some _ _ _ Hi) as Hlt.
    specialize (Hnames (Z.of_nat i) ltac:(lia)). cbn beta in Hnames.
    by rewrite Nat2Z.id, (list_lookup_total_correct _ _ _ Hi) in Hnames. }
  constructor; [|split; [done|]| |exact Hinodes].
  - constructor; [done|done|done|intros k Hk|intros k b Hk Hb Hlt]; rewrite HN in Hk;
      replace k with 0 in * by lia; [unfold max_file, FS_UNIT_SIZE; lia|].
    unfold FS_UNIT_SIZE in Hlt. replace b with 0 by lia. done.
  - intros i n Hi. destruct (Hn i n Hi). split; [done|lia].
  - apply Forall_lookup_2. intros i n Hi. by destruct (Hn i n Hi).
Qed.

(** Only the mount's fields say where the image is. *)
Definition fs_same (f f' : fs) : Prop := ∃ n e o,
  f' = set_length n (set_entry_counter e (set_flag_open o f)).

Lemma fs_same_refl f : fs_same f f.
Proof. destruct f. by eexists _, _, _. Qed.
Lemma fs_same_length n f : fs_same f (set_length n f).
Proof. exists n, (entry_counter f), (flag_open f). by destruct f. Qed.
Lemma fs_same_counter n f : fs_same f (set_entry_counter n f).
Proof. exists (length_of_file f), n, (flag_open f). by destruct f. Qed.
Lemma fs_same_trans f1 f2 f3 : fs_same f1 f2 → fs_same f2 f3 → fs_same f1 f3.
Proof. intros (n & e & o & ->) (n' & e' & o' & ->). by exists n', e', o'. Qed.

Lemma fs_ok_same boot_at ns m f f' : fs_same f f' → fs_ok boot_at ns m f → fs_ok boot_at ns m f'.
Proof.
  intros (n & e & o & ->) [[] ? ? ?]. constructor; try assumption. by constructor.
Qed.

(** The regions of memory it occupies. *)
Definition fs_regions (boot_at : Z) (m : mem) (f : fs) : list (Z * Z) :=
  [(st_boot_block f, image_end boot_at m f - st_boot_block f); (boot_at, 64)].

(** The image, its contents and its entries stay when other memory changes. *)
Lemma fs_ok_kept boot_at ns m m' f rs :
  fs_ok boot_at ns m f → changes_only rs m m' →
  Forall (λ r, Forall (apart r) (fs_regions boot_at m f)) rs →
  fs_ok boot_at ns m' f ∧ image_kept boot_at f m m' ∧
  (∀ i, 0 ≤ i < 63 → rd32 m' (filetype_at (dentry_at f i)) = rd32 m (filetype_at (dentry_at f i)) ∧
     rd32 m' (inode_at (dentry_at f i)) = rd32 m (inode_at (dentry_at f i))).
Proof.
  intros [Hm [Hl Hn] Hsh Hin] Hc Ha.
  assert (∀ i s, fs_regions boot_at m f !! i = Some s → Forall (apart s) rs) as Hap.
  { intros i s Hi. eapply Forall_impl; [exact Ha|]. intros r Hr. apply apart_sym.
    by apply (Forall_lookup_1 _ _ _ _ Hr Hi). }
  pose proof (Hap 0%nat _ eq_refl) as A0. pose proof (Hap 1%nat _ eq_refl) as A1.
  assert (image_kept boot_at f m m') as Hk.
  { split; [by apply (changes_same_bytes rs)|]. intros a Hlt. apply Hc.
    eapply apart_not_inside; [exact A0|lia]. }
  destruct (mounted_kept _ m f m' Hm Hk) as (Hm' & _ & He).
  destruct (kept_counts _ f m m' Hk) as (HN & _ & _).
  assert (∀ i b, 0 ≤ i < 63 → 0 ≤ b ≤ 60 →
    rd32 m' (dentry_at f i + b) = rd32 m (dentry_at f i + b)) as Hent.
  { intros i b Hi Hb. destruct (dentry_at_eq _ m f Hm i Hi) as (? & _ & ?).
    apply (kept_rd32 boot_at f); [done|lia|lia]. }
  unfold filetype_at, inode_at in *.
  split_and!; [|done|intros i Hi; split; apply Hent; lia].
  constructor; unfold filetype_at, inode_at; try done.
  - split; [done|]. intros i n Hi. destruct (Hn i n Hi) as [Hcs Hz]. split; [|done].
    pose proof (lookup_lt_Some _ _ _ Hi). pose proof (Forall_lookup_1 _ _ _ _ Hsh Hi) as Hzn.
    destruct (dentry_at_eq _ m f Hm (Z.of_nat i)) as (? & _ & ?); [lia|].
    eapply changes_same_cstr; [exact Hc| |exact Hcs]. eapply Forall_impl; [exact A0|].
    intros r Hr. cbn in Hzn. eapply apart_part; [exact Hr|lia..].
  - intros i Hi. rewrite Hent, HN by lia. by apply Hin.
Qed.

(** ** Mounting *)

(** The globals after the mount of the image at [fs_start]. *)
Definition mount_globals (fs_start : Z) (m : mem) (f : fs) : fs :=
  let inode := u32 (fs_start + FS_UNIT_SIZE) in
  Fs fs_start inode (u32 (fs_start + (inodes_num fs_start m + 1) * FS_UNIT_SIZE))
    (u32 (fs_start + (SIZE_FS_DENTRIES + 1))) inode (length_of_file f) 0 (flag_open f).

(** The image does not depend on which copy of the counts is read. *)
Lemma mounted_boot b b' m f :
  mounted b m f → inodes_num b' m = inodes_num b m → datablocks_num b' m = datablocks_num b m →
  0 ≤ b' ∧ b' + 64 < 4294967296 → mounted b' m f.
Proof.
  intros [_ Hr Hl Hil Hib] HN HD Hb. unfold image_end in *.
  constructor; unfold image_end; rewrite ?HN, ?HD; done.
Qed.

(** [mounted fs_start] reads the counts from the image itself. *)
Lemma filesystem_init_spec boot_at fs_start fs_end m f :
  let f' := mount_globals fs_start m f in
  fs_start ≠ fs_end → mounted fs_start m f' →
  0 ≤ boot_at → boot_at + 64 < 4294967296 →
  disjoint_regions fs_start (image_end fs_start m f' - fs_start) boot_at 64 →
  returns (filesystem_init boot_at fs_start fs_end m f) (λ '(m', f'', r),
    r = SUCCESS ∧ f'' = f' ∧ mounted boot_at m' f' ∧ image_kept fs_start f' m m' ∧
    (∀ k, 0 ≤ k < inodes_num fs_start m → content m' f' k = content m f' k) ∧
    inodes_num boot_at m' = inodes_num fs_start m ∧ same_except boot_at 64 m m').
Proof.
  intros f' Hne Hm Hb0 Hb1 Hdis. unfold filesystem_init.
  rewrite (proj2 (Z.eqb_neq _ _)) by done.
  pose proof Hm as [_ [Hs He] (Hdn & Hin & Hdata) Hil Hib].
  change (st_boot_block f') with fs_start in *.
  assert (fs_start + 64 ≤ image_end fs_start m f') as Hhead.
  { unfold image_end, FS_UNIT_SIZE in *. pose proof (rd32_range m (fs_start + 8)).
    pose proof (rd32_range m (fs_start + 4)). unfold inodes_num, datablocks_num in *. lia. }
  unfold disjoint_regions in Hdis. eapply returns_bind.
  { unfold SIZE_FS_DENTRIES. apply memcpy_copies; try lia. }
  intros m' Hm'. change (SIZE_FS_DENTRIES + 1) with 64 in *.
  pose proof (wr_bytes_same_except _ _ _ _ Hm') as Hsame. rewrite zlen_bytes in Hsame by lia.
  assert (bytes m' boot_at 64 = bytes m fs_start 64) as Hcopy.
  { pose proof (wr_bytes_read _ _ _ _ Hm' (bytes_range _ _ _)) as H.
    by rewrite zlen_bytes in H by lia. }
  assert (∀ i, 0 ≤ i → i + 4 ≤ 64 → rd32 m' (boot_at + i) = rd32 m (fs_start + i)) as Hrd.
  { intros i Hi Hi4. assert (∀ j, 0 ≤ j < 64 → rd m' (boot_at + j) = rd m (fs_start + j)) as Hb.
    { intros j Hj. pose proof (lookup_bytes m' boot_at 64 j Hj) as H1.
      rewrite Hcopy, lookup_bytes in H1 by done. congruence. }
    unfold rd32. by rewrite <- !Z.add_assoc, !Hb by lia. }
  assert (image_kept fs_start f' m m') as Hkept.
  { split; [apply bytes_ext; intros i Hi|intros a Ha]; apply Hsame; change (st_boot_block f') with fs_start in *; lia. }
  destruct (mounted_kept fs_start m f' m' Hm Hkept) as (Hm1 & Hcont & _).
  destruct (kept_counts fs_start f' m m' Hkept) as (HN1 & HD1 & _).
  assert (inodes_num boot_at m' = inodes_num fs_start m) as HN by (unfold inodes_num; by rewrite Hrd).
  assert (datablocks_num boot_at m' = datablocks_num fs_start m) as HD
    by (unfold datablocks_num; by rewrite Hrd).
  apply returns_Ok. split; [done|]. split.
  { unfold f', mount_globals. by rewrite HN. }
  split_and!; [|done|done|done|done].
  apply (mounted_boot fs_start); [done|by rewrite HN, HN1|by rewrite HD, HD1|done].
Qed.

(** ** Properties *)

(** A one-file image at 0x10000 for the witnesses: the file a with the text
    xyz, an empty second block, and the mount that reads it. *)
Definition demo_image : mem :=
  let m := wr32 (wr32 (wr32 mem0 0x10000 1) 0x10004 1) 0x10008 1 in
  let m := wr32 (wr_bytes m 0x10040 [97; 0]) 0x10060 2 in
  let m := wr32 m 0x11000 3 in
  wr_bytes m 0x12000 [120; 121; 122].
Definition demo_globals : fs := Fs 0 0 0 0 0 0 0 0.
Definition demo_fs : fs := mount_globals 0x10000 demo_image demo_globals.
Definition demo_names : list (list Z) := [97] :: replicate 62 [].

Lemma demo_mounted : mounted 0x10000 demo_image demo_fs.
Proof.
  assert (inodes_num 0x10000 demo_image = 1) as HN by by_decide.
  assert (file_length demo_image demo_fs 0 = 3) as HL by by_decide.
  constructor; [lia|by_decide|by_decide|intros k Hk|intros k b Hk Hb Hlt]; rewrite HN in Hk;
    replace k with 0 in * by lia; rewrite HL in *; unfold max_file, FS_UNIT_SIZE in *; [lia|].
  replace b with 0 by lia. by_decide.
Qed.

Lemma demo_named : names demo_image demo_fs demo_names.
Proof.
  assert (Forall (λ i, cstr demo_image (dentry_at demo_fs i) (demo_names !!! Z.to_nat i) ∧
    zlen (demo_names !!! Z.to_nat i) < 2147483647) (seqZ 0 63)) as Hall by by_decide.
  rewrite Forall_forall in Hall. split; [reflexivity|]. intros i n Hi.
  pose proof (lookup_lt_Some _ _ _ Hi) as Hlt. change (length demo_names) with 63%nat in Hlt.
  specialize (Hall (Z.of_nat i)). rewrite Nat2Z.id, (list_lookup_total_correct _ _ _ Hi) in Hall.
  apply Hall, elem_of_seqZ. lia.
Qed.

(** C29: on a mounted image read_data copies, for every valid inode, offset and
    length, exactly the bytes of the file from the offset on, cut at its end,
    across block boundaries and to the caller's buffer only, and returns their
    number; past the end it returns 0 and writes nothing.  The one exception
    is a read past the end of a file that fills its last block: it delivers
    the bytes but returns -1 when the unused next block number is invalid. *)
Theorem read_data_correct boot_at m f k offset buf length :
  mounted boot_at m f → 0 ≤ k < inodes_num boot_at m →
  0 ≤ offset < file_length m f k → 0 ≤ length < 2147483648 →
  off_image boot_at m f buf (Z.min length (file_length m f k - offset)) →
  returns (read_data boot_at k offset buf length m f) (λ '(m', f', r),
    let l := slice offset length (content m f k) in
    m' ≡ wr_bytes m buf l ∧
    if dead_end boot_at m f k offset length then r = FAIL ∧ f' = f
    else r = zlen l ∧ f' = set_length (zlen l) f) ∧
  ∀ offset', file_length m f k <= offset' →
    read_data boot_at k offset' buf length m f = Ok (m, f, 0).
Proof.
  intros Hm Hk Ho Hlen Hoff. split.
  - eapply returns_mono; [by apply (read_data_spec boot_at m f Hm k Hk offset buf length)|].
    intros [[m' f'] r] [Hpre Hr]. cbn zeta.
    rewrite zlen_slice, zlen_content by (rewrite ?zlen_content; lia).
    split; [by apply read_prefix_slice; [|lia|]|exact Hr].
  - intros offset' Hpast. unfold read_data. fold (file_length m f k).
    by rewrite (proj2 (Z.leb_le _ _)).
Qed.

Lemma read_data_correct_witness :
  returns (read_data 0x10000 0 1 0x500 10 demo_image demo_fs) (λ '(m', f', r),
    m' ≡ wr_bytes demo_image 0x500 [121; 122] ∧ r = 2 ∧ f' = set_length 2 demo_fs) ∧
  ∀ offset', file_length demo_image demo_fs 0 <= offset' →
    read_data 0x10000 0 offset' 0x500 10 demo_image demo_fs = Ok (demo_image, demo_fs, 0).
Proof.
  assert (slice 1 10 (content demo_image demo_fs 0) = [121; 122]) as Hs by by_decide.
  assert (dead_end 0x10000 demo_image demo_fs 0 1 10 = false) as Hd by by_decide.
  pose proof (read_data_correct 0x10000 demo_image demo_fs 0 1 0x500 10 demo_mounted
    ltac:(by_decide) ltac:(by_decide) ltac:(lia)) as H. cbn zeta in H. rewrite Hs, Hd in H.
  apply H. unfold off_image, disjoint_regions. by_decide.
Defined.

(** C30: read_dentry_by_name, given a name of 1 to 31 characters, finds exactly
    the first of the 63 directory entries whose name, as a C string, equals it,
    and then copies its name, type and inode to the caller's dentry and touches
    nothing else; if there is none it returns -1 and changes nothing. *)
Theorem lookup_by_name boot_at m f ns fname d l :
  mounted boot_at m f → names m f ns → cstr m fname l → 0 < zlen l ≤ 31 →
  off_image boot_at m f d 40 →
  returns (read_dentry_by_name fname d m f) (λ '(m', r),
    match list_find (λ n, n = l) ns with
    | Some (i, _) => r = SUCCESS ∧ dentry_is m m' f d (Z.of_nat i) l
    | None => r = FAIL ∧ m' = m
    end).
Proof.
  intros Hm Hns Hl Hlen Hd. apply (read_dentry_by_name_spec boot_at); try done; [lia|].
  intros. split; [lia|done].
Qed.

Lemma lookup_by_name_witness :
  let m := wr_bytes demo_image 0x500 [97; 0] in
  returns (read_dentry_by_name 0x500 0x600 m demo_fs) (λ '(m', r),
    r = SUCCESS ∧ dentry_is m m' demo_fs 0x600 0 [97]).
Proof.
  assert (image_kept 0x10000 demo_fs demo_image (wr_bytes demo_image 0x500 [97; 0])) as Hk.
  { apply (same_except_image _ _ _ _ 0x500 2).
    - by apply (wr_bytes_same_except demo_image 0x500 [97; 0]).
    - unfold off_image, disjoint_regions. by_decide. }
  destruct (mounted_kept _ _ _ _ demo_mounted Hk) as (Hm & _ & He).
  apply (lookup_by_name 0x10000 (wr_bytes demo_image 0x500 [97; 0]) demo_fs demo_names 0x500 0x600 [97]).
  - exact Hm.
  - destruct demo_named as [Hl Hn]. split; [exact Hl|]. intros i n Hi.
    destruct (Hn i n Hi) as [Hc Hz]. split; [|exact Hz].
    eapply cstr_frame; [apply (wr_bytes_same_except demo_image 0x500 [97; 0]); reflexivity| |exact Hc].
    pose proof (lookup_lt_Some _ _ _ Hi) as Hlt. change (length demo_names) with 63%nat in Hlt.
    destruct (dentry_at_eq 0x10000 demo_image demo_fs demo_mounted (Z.of_nat i)) as (Hlo & _); [lia|].
    change (st_boot_block demo_fs) with 0x10000 in Hlo. unfold disjoint_regions. cbn. lia.
  - by_decide.
  - cbn. lia.
  - unfold off_image, disjoint_regions. rewrite He. by_decide.
Defined.

(** Mounting a well-formed image copies its boot block and sets the
    globals so that the whole image is readable; the image, every file's
    content and all memory outside the 64-byte copy stay as they are. *)
Theorem mount_correct boot_at fs_start fs_end m f :
  let f' := mount_globals fs_start m f in
  fs_start ≠ fs_end → mounted fs_start m f' →
  0 ≤ boot_at → boot_at + 64 < 4294967296 →
  disjoint_regions fs_start (image_end fs_start m f' - fs_start) boot_at 64 →
  returns (filesystem_init boot_at fs_start fs_end m f) (λ '(m', f'', r),
    r = SUCCESS ∧ f'' = f' ∧ mounted boot_at m' f' ∧
    (∀ k, 0 ≤ k < inodes_num boot_at m' → content m' f' k = content m f' k) ∧
    same_except boot_at 64 m m').
Proof.
  intros f' Hne Hm Hb0 Hb1 Hd. eapply returns_mono; [by apply filesystem_init_spec|].
  intros [[m' f''] r] (Hr & Hf & Hm' & _ & Hc & HN & Hs). rewrite HN. by split_and!.
Qed.

Lemma mount_correct_witness :
  returns (filesystem_init 0x800 0x10000 0x13000 demo_image demo_globals) (λ '(m', f'', r),
    r = SUCCESS ∧ f'' = demo_fs ∧ mounted 0x800 m' demo_fs ∧
    (∀ k, 0 ≤ k < inodes_num 0x800 m' → content m' demo_fs k = content demo_image demo_fs k) ∧
    same_except 0x800 64 demo_image m').
Proof.
  apply (mount_correct 0x800 0x10000 0x13000 demo_image demo_globals);
    [lia|exact demo_mounted|lia|lia|unfold disjoint_regions; by_decide].
Defined.

(** Successive directory_read calls list the entries in order: each call
    puts the first 32 characters of the next name, padded with zeros, into the
    33-byte buffer and returns their number; after the last entry it returns 0
    with an empty buffer and starts over. *)
Theorem directory_read_lists boot_at m f buf offset length name :
  mounted boot_at m f → off_image boot_at m f buf SBUFSIZE →
  0 ≤ entry_counter f → s32 (dentries_num boot_at m) ≤ 63 →
  (∀ n, entry_counter f < s32 (dentries_num boot_at m) → n = entry_counter f →
     ∃ l, cstr m (dentry_at f n) l ∧ zlen l < 64) →
  returns (directory_read boot_at buf offset length name m f) (λ '(m', f', r),
    same_except buf SBUFSIZE m m' ∧
    if s32 (dentries_num boot_at m) <=? entry_counter f
    then bytes m' buf SBUFSIZE = listed [] ∧ r = 0 ∧ entry_counter f' = 0
    else ∃ l, cstr m (dentry_at f (entry_counter f)) l ∧ bytes m' buf SBUFSIZE = listed l ∧
         r = Z.min 32 (zlen l) ∧ entry_counter f' = entry_counter f + 1).
Proof.
  intros Hm Hbuf Hc Hnum Hnames.
  eapply returns_mono; [by apply (directory_read_spec boot_at m f Hm buf Hbuf)|].
  intros [[m' f'] r]. case_z.
  - intros (Hl & -> & ->). split; [by eapply overlay_same_except|].
    split_and!; try done. by eapply listing_bytes.
  - intros (l & Hl & Hlist & -> & ->). split; [by eapply overlay_same_except|].
    exists l. split_and!; try done. by eapply listing_bytes.
Qed.

Lemma directory_read_lists_witness :
  returns (directory_read 0x10000 0x500 0 32 0 demo_image demo_fs) (λ '(m', f', r),
    same_except 0x500 SBUFSIZE demo_image m' ∧
    ∃ l, cstr demo_image (dentry_at demo_fs 0) l ∧ bytes m' 0x500 SBUFSIZE = listed l ∧
         r = Z.min 32 (zlen l) ∧ entry_counter f' = 1).
Proof.
  apply (directory_read_lists 0x10000 demo_image demo_fs 0x500 0 32 0 demo_mounted).
  - unfold off_image, disjoint_regions. by_decide.
  - by_decide.
  - by_decide.
  - intros n _ ->. exists [97]. by_decide.
Defined.
