(* ===== verification/FsScreen.v ===== *)
(** * files.c: the commands that print the file system

    print_allfile_name, files_test and file_index, which the keyboard driver
    runs on Ctrl-2, Ctrl-1 and Ctrl-3, and the proof that they provide what
    the driver asks of them (the class Hotkeys). *)

From S2P Require Import Prelude Memory LibString Ports Console Printing Keyboard FileSys.

(** The literals of the three functions, as character codes. *)
Definition RULE := codes "-----------------------------------------." ++ [10].
Definition ALL_FILES := codes " Below is all the file in this computer." ++ [10].
Definition BY_NAME := codes "   Reading file by name: 'frame0.txt'." ++ [10].
Definition BY_INDEX := codes "       Reading file by index: %d." ++ [10].
Definition T_RTC := codes "   Filetype: RTC".
Definition T_DIRECTORY := codes "   Filetype: Directory".
Definition T_REGULAR := codes "   Filetype: Regular file".
Definition T_INVALID := codes "   Filetype: Invalid file type".
Definition FAILED := codes "FAIL TO READ FILE." ++ [10].
Definition EMPTY_FILE := codes "READ FAIL: empty file.".
Definition NO_INDEX := codes "Read fail: Index does not exist".
Definition FRAME0 := codes "frame0.txt".
Definition PERCENT_C := codes "%c".
Definition BLANK := codes " ".
Definition NEWLINE := [10].

Definition literals : list (list Z) :=
  [RULE; ALL_FILES; BY_NAME; BY_INDEX; T_RTC; T_DIRECTORY; T_REGULAR; T_INVALID; FAILED;
   EMPTY_FILE; NO_INDEX; FRAME0; PERCENT_C; BLANK; NEWLINE].

(** Where the boot block, printf's buffer, the functions' local dentries and
    buffer, and the literals are. *)
Record places := Places {
  boot_of : Z;
  conv_of : Z;
  test_dentry : Z;
  test_buf : Z;
  index_dentry : Z;
  literal : list Z → Z
}.

Section operations.
Context {D : Type} (a : places).
Implicit Types (c : con D) (f : fs).

(** printf of a literal, its result dropped. *)
Definition print (s : list Z) (args : list Z) c : res (con D) :=
  '(c, _) ← printf (conv_of a) (literal a s) args c; Ok c.

(** [printf("%c", v)] for an int8_t argument. *)
Definition print_char (v : Z) c : res (con D) := print PERCENT_C [u32 (s8 v)] c.

(** The 32 characters of a name, blanks for zeros. *)
Definition print_padded (d : Z) c : res (con D) :=
  whileM (λ '(c, j),
    if j <? 32 then
      c ← (if negb (rd (vmem c) (d + j) =? 0) then print_char (rd (vmem c) (d + j)) c
           else print BLANK [] c);
      Ok (inl (c, j + 1))
    else Ok (inr c)) (c, 0).

Definition type_text (filetype : Z) : list Z :=
  if filetype =? 0 then T_RTC
  else if filetype =? 1 then T_DIRECTORY
  else if filetype =? 2 then T_REGULAR
  else T_INVALID.

(** One line of the listing. *)
Definition print_entry f (i : Z) c : res (con D) :=
  let d := dentry_at f i in
  c ← print_padded d c;
  c ← print (type_text (rd32 (vmem c) (filetype_at d))) [] c;
  print NEWLINE [] c.

Definition print_allfile_name c f : res (con D * fs) :=
  let num_node := s32 (dentries_num (boot_of a) (vmem c)) in
  let c := clear c in
  c ← print RULE [] c;
  c ← print ALL_FILES [] c;
  c ← print RULE [] c;
  c ← whileM (λ '(c, i),
    if i <? num_node then
      c ← print_entry f i c; Ok (inl (c, i + 1))
    else Ok (inr c)) (c, 1);
  Ok (c, f).

Definition files_test c f : res (con D * fs) :=
  let c := clear c in
  '(m, _) ← read_dentry_by_name (literal a FRAME0) (test_dentry a) (vmem c) f;
  c ← print RULE [] (set_vmem m c);
  c ← print BY_NAME [] c;
  c ← print RULE [] c;
  let inode := rd32 (vmem c) (inode_at (test_dentry a)) in
  let length := rd32 (vmem c) (inode_addr f inode) in
  '(m, f, r) ← read_data (boot_of a) inode 0 (test_buf a) length (vmem c) f;
  let c := set_vmem m c in
  if r =? SUCCESS then
    c ← whileM (λ '(c, i),
      if i <? length_of_file f then
        c ← print PERCENT_C [rd (vmem c) (test_buf a + i)] c; Ok (inl (c, i + 1))
      else Ok (inr c)) (c, 0);
    Ok (c, f)
  else c ← print FAILED [] c; Ok (c, f).

Definition file_index (index : Z) c f : res (con D * fs) :=
  let c := clear c in
  c ← print RULE [] c;
  c ← print BY_INDEX [u32 index] c;
  c ← print RULE [] c;
  let d := index_dentry a in
  '(m, r) ← read_dentry_by_index (boot_of a) index d (vmem c) f;
  let c := set_vmem m c in
  c ← (if r =? SUCCESS then
         n ← strlen m d;
         if n =? 0 then print EMPTY_FILE [] c
         else
           whileM (λ '(c, i),
             if i <? 32 then
               if rd (vmem c) (d + i) =? 0 then Ok (inr c)
               else c ← print_char (rd (vmem c) (d + i)) c; Ok (inl (c, i + 1))
             else Ok (inr c)) (c, 0)
       else print NO_INDEX [] c);
  c ← print NEWLINE [] c;
  Ok (c, f).
End operations.

(** ** What the commands rely on and keep

    A mounted image that has frame0.txt, small enough for the local buffer,
    the literals in place, and all of it apart from what the commands write. *)

Section soundness.
Context {D : Type} (a : places).
Implicit Types (c : con D) (f : fs).

Definition screen_regions : list (Z * Z) := [(VIDEO, page_size); (conv_of a, scratch_size)].
Definition local_regions : list (Z * Z) :=
  [(test_dentry a, 40); (test_buf a, 6000); (index_dentry a, 64)].

Definition read_regions (m : mem) (f : fs) : list (Z * Z) :=
  fs_regions (boot_of a) m f ++ ((λ s, (literal a s, zlen s + 1)) <$> literals).

Record commands_ok (f : fs) (m : mem) : Prop := {
  co_image : ∃ ns i, fs_ok (boot_of a) ns m f ∧
    list_find (λ n, n = FRAME0) ns = Some (i, FRAME0) ∧
    0 < file_length m f (found_inode m f i) ≤ 6000;
  co_entries : s32 (dentries_num (boot_of a) m) ≤ 63;
  co_literals s : s ∈ literals → cstr m (literal a s) s;
  co_apart : Forall (λ w, Forall (apart w) (read_regions m f)) (screen_regions ++ local_regions);
  co_screen : separate screen_regions ∧
    Forall (λ w, Forall (apart w) screen_regions) local_regions;
  co_locals : apart (test_dentry a, 40) (test_buf a, 6000)
}.

(** A console the commands can start from. *)
Definition good (f : fs) c : Prop := (∃ s, shows c s) ∧ commands_ok f (vmem c).

Lemma test_dentry_local : (test_dentry a, 40) ∈ local_regions.
Proof. unfold local_regions. set_solver. Qed.
Lemma test_buf_local : (test_buf a, 6000) ∈ local_regions.
Proof. unfold local_regions. set_solver. Qed.
Lemma index_dentry_local : (index_dentry a, 64) ∈ local_regions.
Proof. unfold local_regions. set_solver. Qed.
Lemma local_written : local_regions ⊆ screen_regions ++ local_regions.
Proof. set_solver. Qed.

(** The commands' own writes keep what they rely on. *)
Lemma commands_kept f m m' :
  commands_ok f m → changes_only (screen_regions ++ local_regions) m m' →
  commands_ok f m' ∧ (∀ k, 0 ≤ k < inodes_num (boot_of a) m → content m' f k = content m f k) ∧
  fs_regions (boot_of a) m' f = fs_regions (boot_of a) m f.
Proof.
  intros [(ns & i & Hfs & Hi & Hlen) Hnum Hlit Hap Hscr Hloc] Hc.
  destruct (fs_ok_kept _ ns m m' f _ Hfs Hc) as (Hfs' & Hk & Hent).
  { eapply Forall_impl; [exact Hap|]. intros w Hw. exact (Forall_take _ 2 _ Hw). }
  pose proof Hfs as [Hm [Hl _] _ Hin]. destruct (mounted_kept _ m f m' Hm Hk) as (_ & Hcont & He).
  assert (fs_regions (boot_of a) m' f = fs_regions (boot_of a) m f) as Hr
    by (unfold fs_regions; by rewrite He).
  destruct (kept_counts _ f m m' Hk) as (_ & _ & HD).
  split_and!; [|done|done]. constructor; [|by rewrite HD|intros s Hs| |done|done].
  - exists ns, i. split_and!; [done|done|..]; unfold found_inode in *.
    all: pose proof Hi as (Hx & _)%list_find_Some; apply lookup_lt_Some in Hx.
    all: destruct (Hent (Z.of_nat i)) as [_ ->]; [lia|].
    all: rewrite <- zlen_content, Hcont, zlen_content; [lia|split; [apply rd32_range|apply Hin; lia]].
  - eapply changes_same_cstr; [exact Hc| |by apply Hlit]. eapply Forall_impl; [exact Hap|].
    intros w Hw. apply apart_sym. unfold read_regions in Hw. apply Forall_app in Hw as [_ Hw].
    rewrite Forall_forall in Hw. apply (Hw (literal a s, zlen s + 1)).
    by apply (list_elem_of_fmap_2 (λ s, (literal a s, zlen s + 1))).
  - unfold read_regions. by rewrite Hr.
Qed.

(** ** Printing keeps the console good *)

(** [c'] is [c] after printing [out]; only the screen and printf's buffer
    changed. *)
Definition prints f (out : list Z) c c' : Prop :=
  good f c' ∧ changes_only screen_regions (vmem c) (vmem c') ∧
  ∀ s, shows c s → shows c' (show out s).

Lemma prints_refl f c : good f c → prints f [] c c.
Proof. intros ?. split_and!; [done|apply changes_only_refl|done]. Qed.

Lemma prints_trans f o1 o2 c1 c2 c3 :
  prints f o1 c1 c2 → prints f o2 c2 c3 → prints f (o1 ++ o2) c1 c3.
Proof.
  intros (_ & ? & H1) (? & ? & H2). split_and!; [done|by eapply changes_only_trans|].
  intros s Hs. rewrite show_app. auto.
Qed.

Lemma screen_changes m m' :
  changes_only screen_regions m m' → changes_only (screen_regions ++ local_regions) m m'.
Proof. intros ?. eapply changes_only_mono; [done|]. set_solver. Qed.

Lemma good_screen f c c' :
  good f c → (∃ s, shows c' s) → changes_only screen_regions (vmem c) (vmem c') → good f c'.
Proof.
  intros [_ Hok] Hs Hc. split; [done|].
  by apply (commands_kept f (vmem c) (vmem c') Hok), screen_changes.
Qed.

(** Every literal is apart from the screen. *)
Lemma literal_apart f m s :
  commands_ok f m → s ∈ literals → Forall (λ w, apart w (literal a s, zlen s + 1)) screen_regions.
Proof.
  intros [_ _ _ Hap _ _] Hs. apply Forall_app in Hap as [Hap _].
  eapply Forall_impl; [exact Hap|]. intros w Hw.
  unfold read_regions in Hw. apply Forall_app in Hw as [_ Hw]. rewrite Forall_forall in Hw.
  apply Hw. by apply (list_elem_of_fmap_2 (λ s, (literal a s, zlen s + 1))).
Qed.

Lemma print_good s args f out c :
  good f c → s ∈ literals → zlen s < 2147483648 →
  (∀ m, formats m (conv_of a) s args out) →
  returns (print a s args c) (prints f out c).
Proof.
  intros Hgood Hs Hz Hout. pose proof Hgood as [(scr & Hscr) Hok].
  pose proof (literal_apart f _ s Hok Hs) as Hw. pose proof Hok as [_ _ Hlit _ [Hsep _] _].
  unfold print. pose proof (printf_prints (conv_of a) c) as Hp.
  pose proof (separate_apart _ 0 1 _ _ Hsep eq_refl eq_refl ltac:(lia)) as Hdis.
  assert (clear_of (conv_of a) (literal a s) (zlen s + 1)) as Hclear
    by (split; [exact (Forall_lookup_1 _ _ 0%nat _ Hw eq_refl)
               |exact (Forall_lookup_1 _ _ 1%nat _ Hw eq_refl)]).
  destruct (Hp scr Hscr Hdis (literal a s) s args out (Hlit s Hs) Hz Hclear (Hout _))
    as ([c' n] & E & _ & Hshow & Hk & _). rewrite E, bind_Ok. apply returns_Ok.
  assert (changes_only screen_regions (vmem c) (vmem c')) as Hc.
  { intros b Hb. apply Forall_cons in Hb as [Hb1 Hb]. apply Forall_cons in Hb as [Hb2 _].
    unfold inside in *. cbn in *. by apply Hk. }
  split_and!; [apply (good_screen f c); [done|by eexists|done]|done|].
  intros scr' Hscr'. pose proof (Hp scr' Hscr' Hdis (literal a s) s args out (Hlit s Hs) Hz Hclear
    (Hout _)) as Hres. apply (returns_inv _ _ _ Hres) in E as (_ & ? & _). done.
Qed.

Lemma print_plain s f c :
  good f c → s ∈ literals → zlen s < 2147483648 → Forall (λ ch, ch ≠ 37) s →
  returns (print a s [] c) (prints f s c).
Proof. intros. apply print_good; [done..|]. intros. by apply plain_formats. Qed.

Lemma print_c_good v f c : good f c → returns (print a PERCENT_C [v] c) (prints f [u8 v] c).
Proof.
  intros Hg. apply print_good; [done|by_decide|done|]. intros m.
  exact (F_conv m (conv_of a) 0 99 [] [v] [] [u8 v] [] ltac:(done) (C_char _ _ _ _ _) (F_nil _ _ _)).
Qed.

Lemma print_char_good v f c :
  0 ≤ v < 256 → good f c → returns (print_char a v c) (prints f [v] c).
Proof.
  intros Hv Hg. replace [v] with [u8 (u32 (s8 v))]; [by apply print_c_good|].
  f_equal. unfold u8, u32, s8. zlia.
Qed.

(** The line file_index prints above the name. *)
Definition index_line (v : Z) : list Z :=
  codes "       Reading file by index: " ++ signed_numeral (s32 v) ++ codes "." ++ [10].

Lemma print_d_good v f c :
  good f c → returns (print a BY_INDEX [u32 v] c) (prints f (index_line v) c).
Proof.
  intros Hg. apply print_good; [done|by_decide|done|]. intros m. unfold index_line.
  do 30 (apply F_char; [done|]). rewrite <- (s32_u32 v).
  refine (F_conv m (conv_of a) 0 100 (codes "." ++ [10]) [u32 v] [] _ (codes "." ++ [10]) ltac:(done) _ _).
  - apply C_signed. apply u32_range.
  - apply plain_formats. by_decide.
Qed.

(** clear: the screen is blank and the rest is as before. *)
Lemma clear_good f c :
  good f c → good f (clear c) ∧ shows (clear c) blank_screen ∧
  changes_only screen_regions (vmem c) (vmem (clear c)).
Proof.
  intros Hg. destruct (clear_shows c) as [Hs Ho].
  assert (changes_only screen_regions (vmem c) (vmem (clear c))) as Hc
    by (apply (same_except_changes _ _ _ _ _ Ho); by left).
  split_and!; [|done|done]. by apply (good_screen f c); [|eexists|].
Qed.

(** A step that prints [o], after [o1] and before the rest. *)
Lemma prints_bind {B} f o1 o c0 c (x : res (con D)) (k : con D → res B) Q :
  prints f o1 c0 c → (good f c → returns x (prints f o c)) →
  (∀ c', prints f (o1 ++ o) c0 c' → returns (k c') Q) → returns (x ≫= k) Q.
Proof.
  intros H0 Hx Hk. eapply returns_bind; [apply Hx, H0|]. intros c' Hc'. apply Hk.
  by eapply prints_trans.
Qed.

Ltac plain := apply print_plain; [done|by_decide|done|by_decide].

(** ** The listing *)

(** The 32 bytes of a name, zeros as blanks. *)
Definition shown_name (m : mem) (d : Z) : list Z :=
  (λ v, if v =? 0 then 32 else v) <$> bytes m d 32.

Lemma print_padded_good d f c :
  good f c → Forall (λ w, apart (d, 32) w) screen_regions →
  returns (print_padded a d c) (prints f (shown_name (vmem c) d) c).
Proof.
  intros Hg Hd. unfold print_padded. set (l := shown_name (vmem c) d).
  apply whileM_total with
    (I := λ '(c', j), 0 ≤ j ≤ 32 ∧ prints f (take (Z.to_nat j) l) c c') (V := λ '(c', j), 32 - j).
  - split; [lia|by apply prints_refl].
  - lia.
  - intros [c' j] [Hj Hp]. assert (length l = 32%nat) as Hl by reflexivity.
    destruct (Z.ltb_spec j 32); cycle 1.
    { apply returns_Ok. by replace (Z.to_nat j) with (length l) in Hp by lia;
        rewrite firstn_all in Hp. }
    assert (rd (vmem c') (d + j) = rd (vmem c) (d + j)) as ->.
    { apply Hp. apply (apart_not_inside _ d 32); [exact Hd|lia]. }
    pose proof (rd_range (vmem c) (d + j)) as Hr.
    assert (l !! Z.to_nat j = Some (if rd (vmem c) (d + j) =? 0 then 32 else rd (vmem c) (d + j))) as Hlj.
    { unfold l, shown_name. by rewrite list_lookup_fmap, lookup_bytes by lia. }
    eapply (prints_bind f _ [if rd (vmem c) (d + j) =? 0 then 32 else rd (vmem c) (d + j)] c c' _ _ _ Hp).
    + intros Hg'. destruct (rd (vmem c) (d + j) =? 0); cbn [negb]; [plain|by apply print_char_good].
    + intros c1 Hp1. apply returns_Ok. split; [|lia]. split; [lia|].
      replace (Z.to_nat (j + 1)) with (S (Z.to_nat j)) by lia. by rewrite (take_S_r _ _ _ Hlj).
Qed.

Lemma type_text_good t f c :
  good f c → returns (print a (type_text t) [] c) (prints f (type_text t) c).
Proof. intros. unfold type_text. repeat case_match; plain. Qed.

(** The line of entry [i]. *)
Definition entry_line (m : mem) f (i : Z) : list Z :=
  shown_name m (dentry_at f i) ++ type_text (rd32 m (filetype_at (dentry_at f i))) ++ NEWLINE.

Definition listing_of (m : mem) f : list Z :=
  RULE ++ ALL_FILES ++ RULE ++
  mjoin (entry_line m f <$> seqZ 1 (s32 (dentries_num (boot_of a) m) - 1)).

(** An entry is apart from the screen. *)
Lemma entry_apart f m i n :
  commands_ok f m → 0 ≤ i < 63 → n ≤ 64 →
  Forall (λ w, apart (dentry_at f i, n) w) screen_regions.
Proof.
  intros [(ns & j & [Hm _ _ _] & _) _ _ Hap _ _] Hi Hn.
  destruct (dentry_at_eq _ m f Hm i Hi) as (? & _ & ?).
  apply Forall_app in Hap as [Hap _]. eapply Forall_impl; [exact Hap|]. intros w Hw.
  pose proof (apart_sym _ _ (Forall_lookup_1 _ _ 0%nat _ Hw eq_refl)) as Hw0.
  eapply apart_part; [exact Hw0|lia..].
Qed.

Lemma entry_line_kept f c c' i :
  good f c → changes_only screen_regions (vmem c) (vmem c') → 0 ≤ i < 63 →
  entry_line (vmem c') f i = entry_line (vmem c) f i.
Proof.
  intros [_ Hok] Hc Hi. pose proof (entry_apart f _ i 64 Hok Hi ltac:(lia)) as Hap.
  unfold entry_line, shown_name. rewrite (changes_same_bytes _ _ _ _ _ Hc).
  - by rewrite (changes_same_rd32 _ _ _ _ _ _ Hc Hap) by (unfold filetype_at; lia).
  - eapply Forall_impl; [exact Hap|]. intros w Hw. eapply apart_part; [exact Hw|lia..].
Qed.

Lemma print_entry_good f c i :
  good f c → 0 ≤ i < 63 →
  returns (print_entry a f i c) (prints f (entry_line (vmem c) f i) c).
Proof.
  intros Hg Hi. unfold print_entry. pose proof (prints_refl f c Hg) as P0. pose proof Hg as [_ Hok].
  eapply (prints_bind f [] _ c c _ _ _ P0).
  { intros. apply print_padded_good; [done|]. by apply (entry_apart f (vmem c)). }
  intros c1 P1. rewrite (changes_same_rd32 _ _ _ (dentry_at f i) 64 _ (proj1 (proj2 P1)));
    [|by apply (entry_apart f (vmem c))|unfold filetype_at; lia..].
  eapply (prints_bind f _ _ c _ _ _ _ P1); [intros; by apply type_text_good|]. intros c2 P2.
  eapply returns_mono; [apply (print_plain NEWLINE f); [apply P2|by_decide|done|by_decide]|].
  intros c3 P3. unfold entry_line. rewrite !app_assoc. exact (prints_trans _ _ _ _ _ _ P2 P3).
Qed.

(** What the listing prints after the screen was cleared. *)
Lemma print_allfile_name_good f c :
  good f c →
  returns (print_allfile_name a c f) (λ '(c', f'),
    f' = f ∧ prints f (listing_of (vmem c) f) (clear c) c').
Proof.
  intros Hg. unfold print_allfile_name. destruct (clear_good f c Hg) as (Hg0 & _ & Hc0).
  pose proof (prints_refl f (clear c) Hg0) as P0. set (c0 := clear c) in *.
  eapply (prints_bind f _ _ c0 _ _ _ _ P0); [intros; plain|]. intros c1 P1.
  eapply (prints_bind f _ _ c0 _ _ _ _ P1); [intros; plain|]. intros c2 P2.
  eapply (prints_bind f _ _ c0 _ _ _ _ P2); [intros; plain|]. intros c3 P3.
  set (n := s32 _). pose proof (s32_range (dentries_num (boot_of a) (vmem c))).
  pose proof Hg as [_ [_ Hnum _ _ _ _]].
  set (body i := mjoin (entry_line (vmem c) f <$> seqZ 1 i)).
  eapply returns_bind.
  { apply whileM_total with
      (I := λ '(c', i), 1 ≤ i ∧ (i ≤ n ∨ i = 1) ∧
         prints f (RULE ++ ALL_FILES ++ RULE ++ body (i - 1)) c0 c')
      (V := λ '(c', i), Z.max 0 (n - i))
      (Q := prints f (RULE ++ ALL_FILES ++ RULE ++ body (n - 1)) c0).
    - split_and!; [lia|lia|]. rewrite app_nil_l, <- app_assoc in P3.
      change (body (1 - 1)) with (@nil Z). rewrite app_nil_r. exact P3.
    - unfold n. lia.
    - intros [c' i] (Hi & Hin & Hp). destruct (Z.ltb_spec i n) as [Hlt|Hge].
      + eapply (prints_bind f _ _ c0 _ _ _ _ Hp).
        { intros Hg'. apply print_entry_good; [done|]. unfold n in *. lia. }
        intros c4 P4. apply returns_Ok. split; [|lia]. split_and!; [lia|lia|].
        rewrite (entry_line_kept f c c' i Hg) in P4; [|eapply changes_only_trans; [exact Hc0|apply Hp]|unfold n in *; lia].
        replace (body (i + 1 - 1)) with (body (i - 1) ++ entry_line (vmem c) f i).
        { by rewrite !app_assoc in P4 |- *. }
        unfold body. replace (i + 1 - 1) with ((i - 1) + 1) by lia.
        rewrite seqZ_app by lia. rewrite fmap_app. change (seqZ (1 + (i - 1)) 1) with [1 + (i - 1)].
        rewrite join_app. cbn. rewrite app_nil_r. do 2 f_equal. lia.
      + apply returns_Ok. assert (body (n - 1) = body (i - 1)) as ->; [|done].
        unfold body. destruct Hin as [Hin| ->]; [by replace n with i by lia|].
        by rewrite !seqZ_nil by lia. }
  intros c' Hc'. apply returns_Ok. split; [done|]. exact Hc'.
Qed.

(** ** The two readers *)

(** A change of the locals keeps the console good and the screen as it is. *)
Lemma set_local f c m :
  good f c → changes_only local_regions (vmem c) m →
  good f (set_vmem m c) ∧ ∀ s, shows c s → shows (set_vmem m c) s.
Proof.
  intros [(s & Hs) Hok] Hc. pose proof Hok as [_ _ _ _ [Hsep Hloc] _].
  assert (∀ s, shows c s → shows (set_vmem m c) s) as Hsh.
  { intros s' Hs'. apply shows_kept; [done|]. intros b Hb. apply Hc.
    eapply (apart_not_inside _ VIDEO page_size); [|exact Hb]. eapply Forall_impl; [exact Hloc|].
    intros w Hw. apply apart_sym. exact (Forall_lookup_1 _ _ 0%nat _ Hw eq_refl). }
  split; [|done]. split; [by exists s; apply Hsh|].
  apply (commands_kept f (vmem c) m Hok). exact (changes_only_mono _ _ _ _ Hc local_written).
Qed.

(** Equal words have equal bytes. *)
Lemma rd32_bytes m' m x z i : rd32 m' x = rd32 m z → 0 ≤ i < 4 → rd m' (x + i) = rd m (z + i).
Proof. intros E Hi. by rewrite <- (rd32_byte m' x i), <- (rd32_byte m z i), E. Qed.

(** dentry_copy of any name, also one that runs into the type field. *)
Lemma dentry_copy_any m f i d l :
  mounted (boot_of a) m f → 0 ≤ i < 63 → cstr m (dentry_at f i) l → zlen l < 64 →
  off_image (boot_of a) m f d 64 →
  returns (dentry_copy i d m f) (λ m', cstr m' d l ∧ same_except d 64 m m').
Proof.
  unfold off_image, disjoint_regions. intros Hm Hi Hl Hlen [Hoff _].
  destruct (dentry_at_eq _ m f Hm i Hi) as (Hlo & _ & Hhi). unfold dentry_copy.
  set (src := dentry_at f i) in *. eapply returns_bind.
  { apply (strcpy_cstr m d src l Hl); [lia|]. unfold disjoint_regions. lia. }
  intros m1 Hm1. pose proof (wr_bytes_same_except _ _ _ _ Hm1) as Hsame.
  pose proof (proj2 (overlay_wr_bytes _ _ _ _) Hm1) as Hov.
  rewrite zlen_app in Hsame, Hov. change (zlen [0]) with 1 in Hsame, Hov.
  apply returns_Ok. unfold filetype_at, inode_at.
  rewrite rd32_wr32_ne, !(same_except_rd32 _ _ _ _ _ Hsame) by (unfold disjoint_regions; lia).
  set (m' := wr32 _ _ _).
  assert (rd32 m' (d + 32) = rd32 m (src + 32) ∧ rd32 m' (d + 36) = rd32 m (src + 36)) as [H32 H36].
  { unfold m'. rewrite rd32_wr32_ne, !rd32_wr32_eq, !u32_small by (lia || apply rd32_range). done. }
  assert (∀ j, 0 ≤ j ≤ zlen l → rd m' (d + j) = rd m (src + j)) as Hrd.
  { intros j Hj. destruct (decide (32 ≤ j < 36)) as [Hin|]; [|destruct (decide (36 ≤ j < 40)) as [Hin|]].
    - pose proof (rd32_bytes m' m _ _ (j - 32) H32 ltac:(lia)) as E.
      by replace (d + 32 + (j - 32)) with (d + j) in E by lia;
        replace (src + 32 + (j - 32)) with (src + j) in E by lia.
    - pose proof (rd32_bytes m' m _ _ (j - 36) H36 ltac:(lia)) as E.
      by replace (d + 36 + (j - 36)) with (d + j) in E by lia;
        replace (src + 36 + (j - 36)) with (src + j) in E by lia.
    - unfold m'. rewrite !rd_wr32_ne by lia. rewrite (overlay_in _ _ _ _ _ _ Hov) by lia.
      replace (d + j - d) with j by lia. rewrite (cstr_app_char m src l j Hl) by lia. apply rd_u8. }
  destruct Hl as (Hnz & Hb & He). split.
  - split_and!; [done| |by rewrite Hrd by lia]. rewrite <- Hb at 2. apply bytes_ext.
    intros; apply Hrd; lia.
  - eapply same_except_trans; [eapply same_except_weaken; [exact Hsame|lia..]|].
    eapply same_except_trans; apply same_except_wr32; lia.
Qed.

(** Where the index command's dentry may lie. *)
Lemma local_off_image f m d n :
  commands_ok f m → (d, n) ∈ local_regions → off_image (boot_of a) m f d n.
Proof.
  intros [_ _ _ Hap _ _] Hin. apply Forall_app in Hap as [_ Hap].
  rewrite Forall_forall in Hap. pose proof (Hap _ Hin) as Hr.
  split; [exact (apart_sym _ _ (Forall_lookup_1 _ _ 0%nat _ Hr eq_refl))
         |exact (apart_sym _ _ (Forall_lookup_1 _ _ 1%nat _ Hr eq_refl))].
Qed.

(** What the string part of file_index prints. *)
Lemma print_name_good f c d l :
  good f c → cstr (vmem c) d l → zlen l < 64 → (d, 64) ∈ local_regions →
  returns
    (whileM (λ '(c, i),
       if i <? 32 then
         if rd (vmem c) (d + i) =? 0 then Ok (inr c)
         else c ← print_char a (rd (vmem c) (d + i)) c; Ok (inl (c, i + 1))
       else Ok (inr c)) (c, 0)) (prints f (take 32 l) c).
Proof.
  intros Hg Hl Hlen Hd. pose proof Hg as [_ [_ _ _ _ [_ Hloc] _]].
  rewrite Forall_forall in Hloc. pose proof (Hloc _ Hd) as Hap.
  apply whileM_total with
    (I := λ '(c', i), 0 ≤ i ≤ 32 ∧ i ≤ zlen l ∧ prints f (take (Z.to_nat i) l) c c')
    (V := λ '(c', i), 32 - i).
  - split_and!; [lia|lia|lia|by apply prints_refl].
  - lia.
  - intros [c' i] (Hi & Hil & Hp). destruct (Z.ltb_spec i 32); cycle 1.
    { apply returns_Ok. by replace 32%nat with (Z.to_nat i) by lia. }
    assert (rd (vmem c') (d + i) = rd (vmem c) (d + i)) as ->.
    { apply Hp. apply (apart_not_inside _ d 64); [exact Hap|lia]. }
    destruct (Z.eqb_spec (rd (vmem c) (d + i)) 0) as [Hz|Hnz].
    + apply returns_Ok. pose proof (cstr_bound _ _ _ i Hl (conj (proj1 Hi) Hil) Hz) as ->.
      rewrite Nat2Z.id, take_ge in Hp by lia. rewrite take_ge by lia. exact Hp.
    + pose proof (rd_range (vmem c) (d + i)) as Hr.
      assert (i < zlen l) as Hlt.
      { destruct (decide (i = zlen l)) as [->|]; [|lia]. by rewrite (cstr_end _ _ _ Hl) in Hnz. }
      destruct (cstr_char _ _ _ i Hl (conj (proj1 Hi) Hlt)) as [Hch _].
      eapply (prints_bind f _ _ c c' _ _ _ Hp); [intros; by apply print_char_good|].
      intros c1 Hp1. apply returns_Ok. split; [|lia]. split_and!; [lia|lia|lia|].
      replace (Z.to_nat (i + 1)) with (S (Z.to_nat i)) by lia. by rewrite (take_S_r _ _ _ Hch).
Qed.

(** The line under the heading. *)
Definition index_text (ns : list (list Z)) (inodes index : Z) : list Z :=
  if (63 <=? u32 index) || (inodes <=? u32 index) then NO_INDEX
  else match ns !! Z.to_nat (u32 index) with
       | Some [] => EMPTY_FILE
       | Some l => take 32 l
       | None => []
       end.

Lemma file_index_good index f c ns :
  good f c → fs_ok (boot_of a) ns (vmem c) f →
  returns (file_index a index c f) (λ '(c', f'), f' = f ∧ good f c' ∧
    shows c' (show (RULE ++ index_line index ++ RULE ++
      index_text ns (inodes_num (boot_of a) (vmem c)) index ++ NEWLINE) blank_screen)).
Proof.
  intros Hg Hfs0. unfold file_index. destruct (clear_good f c Hg) as (Hg0 & Hs0 & Hc0).
  pose proof (prints_refl f _ Hg0) as P0. set (c0 := clear c) in *.
  eapply (prints_bind f _ _ c0 _ _ _ _ P0); [intros; plain|]. intros c1 P1.
  eapply (prints_bind f _ _ c0 _ _ _ _ P1); [intros; by apply print_d_good|]. intros c2 P2.
  eapply (prints_bind f _ _ c0 _ _ _ _ P2); [intros; plain|]. intros c3 (Hg3 & Hc3 & Hsh3).
  specialize (Hsh3 _ Hs0). rewrite app_nil_l, <- app_assoc in Hsh3.
  destruct (fs_ok_kept _ ns (vmem c) (vmem c3) f screen_regions Hfs0) as (Hfs & Hkept & _).
  { by eapply changes_only_trans. }
  { pose proof Hg as [_ [_ _ _ Hap _ _]]. apply Forall_app in Hap as [Hap _].
    eapply Forall_impl; [exact Hap|]. intros w Hw. exact (Forall_take _ 2 _ Hw). }
  destruct (kept_counts _ f _ _ Hkept) as (HN & _ & _). rewrite <- HN. clear Hc0 Hc3 P0 P1 P2.
  assert (∀ c4 text, good f c4 → shows c4 (show (RULE ++ index_line index ++ RULE) blank_screen) →
    ∀ x, returns x (prints f text c4) →
    returns (c ← x; c ← print a NEWLINE [] c; Ok (c, f)) (λ '(c', f'), f' = f ∧ good f c' ∧
      shows c' (show (RULE ++ index_line index ++ RULE ++ text ++ NEWLINE) blank_screen))) as Hend.
  { intros c4 text Hg4 Hs4 x Hx. eapply returns_bind; [exact Hx|]. intros c5 (Hg5 & _ & Hs5).
    eapply returns_bind; [by apply (print_plain NEWLINE f); [|by_decide|done|by_decide]|].
    intros c6 (Hg6 & _ & Hs6). apply returns_Ok. split_and!; [done|done|].
    specialize (Hs6 _ (Hs5 _ Hs4)). by rewrite <- !show_app, <- !app_assoc in Hs6. }
  unfold read_dentry_by_index, index_text, SIZE_FS_DENTRIES. pose proof (u32_range index).
  destruct ((63 <=? u32 index) || (inodes_num (boot_of a) (vmem c3) <=? u32 index)) eqn:Hb.
  { rewrite bind_Ok. change (FAIL =? SUCCESS) with false. cbv iota.
    destruct (set_local f c3 (vmem c3) Hg3 (changes_only_refl _ _)) as [Hg4 Hsh4].
    apply (Hend (set_vmem (vmem c3) c3)); [done|by apply Hsh4|].
    apply print_plain; [done|by_decide|done|by_decide]. }
  apply orb_false_iff in Hb as [Hb%Z.leb_gt _].
  pose proof Hfs as [Hm [Hlen Hns] Hsh _].
  destruct (lookup_lt_is_Some_2 ns (Z.to_nat (u32 index))) as [l Hl]; [lia|]. rewrite Hl.
  destruct (Hns _ _ Hl) as [Hcs _]. rewrite Z2Nat.id in Hcs by lia.
  pose proof (Forall_lookup_1 _ _ _ _ Hsh Hl) as Hzl. cbn in Hzl.
  pose proof index_dentry_local as Hin.
  destruct (dentry_copy_any (vmem c3) f (u32 index) (index_dentry a) l) as (m4 & -> & Hcs4 & Hs4);
    [done|lia|done|lia|apply local_off_image; [apply Hg3|done]|]. rewrite !bind_Ok.
  destruct (set_local f c3 m4 Hg3) as [Hg4 Hsh4]; [by apply (same_except_changes _ _ _ _ _ Hs4)|].
  change (SUCCESS =? SUCCESS) with true. cbv iota.
  rewrite (strlen_cstr _ _ _ Hcs4), bind_Ok by lia.
  apply (Hend (set_vmem m4 c3)); [done|by apply Hsh4|]. destruct l as [|ch l0].
  - apply print_plain; [done|by_decide|done|by_decide].
  - rewrite (proj2 (Z.eqb_neq _ _)) by (rewrite zlen_cons; lia).
    by apply (print_name_good f (set_vmem m4 c3) _ (ch :: l0)).
Qed.

(** The dentry of frame0.txt in the local of files_test. *)
Lemma lookup_frame0 f c :
  good f c → ∃ ns i, fs_ok (boot_of a) ns (vmem c) f ∧ (i < 63)%nat ∧
    0 < file_length (vmem c) f (found_inode (vmem c) f i) ≤ 6000 ∧
    returns (read_dentry_by_name (literal a FRAME0) (test_dentry a) (vmem c) f)
      (λ '(m', _), rd32 m' (inode_at (test_dentry a)) = found_inode (vmem c) f i ∧
         same_except (test_dentry a) 40 (vmem c) m').
Proof.
  intros [_ Hok]. pose proof Hok as [(ns & i & Hfs & Hi & Hlen) _ Hlit _ _ _].
  pose proof Hi as (Hx & _)%list_find_Some. apply lookup_lt_Some in Hx.
  pose proof Hfs as [Hm Hns _ _]. pose proof Hns as [Hl _]. exists ns, i. split_and!; [done|lia|lia|lia|].
  eapply returns_mono.
  { apply (read_dentry_by_name_spec (boot_of a) _ f Hm _ (test_dentry a) FRAME0 ns Hns);
      [apply Hlit; by_decide|by_decide|].
    intros _ _. split; [by_decide|]. apply (local_off_image f _ _ _ Hok). apply test_dentry_local. }
  rewrite Hi. intros [m' r] (_ & _ & _ & Hino & Hs). done.
Qed.

(** Reading the whole of a file that fits the local buffer. *)
Lemma read_whole f c0 c4 k :
  good f c0 → good f c4 → changes_only (screen_regions ++ local_regions) (vmem c0) (vmem c4) →
  0 ≤ k < inodes_num (boot_of a) (vmem c0) → 0 < file_length (vmem c0) f k ≤ 6000 →
  ∃ m5 n, 0 < n ∧ read_data (boot_of a) k 0 (test_buf a) (file_length (vmem c4) f k) (vmem c4) f =
    Ok (m5, set_length n f, n) ∧ changes_only local_regions (vmem c4) m5.
Proof.
  intros [_ Hok0] [_ Hok4] Hc04 Hk Hlen. destruct (commands_kept f _ _ Hok0 Hc04) as (_ & Hcont & Hreg).
  pose proof Hok4 as [(ns4 & i4 & [Hm4 _ _ _] & _) _ _ _ _ _].
  pose proof Hok0 as [(ns & i & Hfs & _) _ _ Hap _ _].
  destruct (fs_ok_kept _ ns _ _ f _ Hfs Hc04) as (_ & Hkept & _).
  { eapply Forall_impl; [exact Hap|]. intros w Hw. exact (Forall_take _ 2 _ Hw). }
  destruct (kept_counts _ f _ _ Hkept) as (HN & _ & _).
  assert (file_length (vmem c4) f k = file_length (vmem c0) f k) as Hfl
    by (rewrite <- !zlen_content, Hcont; done).
  rewrite Hfl. set (n := file_length (vmem c0) f k) in *. exists (
    match read_data (boot_of a) k 0 (test_buf a) n (vmem c4) f with
    | Ok (m5, _, _) => m5 | Err _ => vmem c4 end), n.
  assert (readable (vmem c4) f k 0 n = n) as Hrd by (unfold readable; rewrite Hfl; clear -Hlen; lia).
  assert (off_image (boot_of a) (vmem c4) f (test_buf a) (readable (vmem c4) f k 0 n)) as Hoff.
  { rewrite Hrd. pose proof (local_off_image f (vmem c4) (test_buf a) 6000 Hok4 test_buf_local) as Ho.
    unfold off_image, disjoint_regions in *. clear -Ho Hlen. lia. }
  destruct (read_data_spec (boot_of a) (vmem c4) f Hm4 k ltac:(rewrite HN; exact Hk) 0 (test_buf a) n
    ltac:(rewrite Hfl; clear -Hlen; lia) ltac:(clear -Hlen; lia) Hoff) as ([[m5 f5] r5] & -> & Hpre & Hr).
  unfold dead_end in Hr. rewrite Hrd, (proj2 (Z.ltb_ge n n)) in Hr by reflexivity. cbn [andb] in Hr.
  destruct Hr as [-> ->]. split_and!; [clear -Hlen; lia|done|].
  rewrite Hrd in Hpre. pose proof (overlay_same_except _ _ _ _ _ Hpre) as Hs5.
  apply (same_except_changes (test_buf a) 6000); [|apply test_buf_local].
  eapply same_except_weaken; [exact Hs5|clear -Hlen; lia..].
Qed.

(** The message is the only outcome: a file of positive length is read with
    its length as the result, which the code takes for a failure. *)
Lemma files_test_good f c :
  good f c → returns (files_test a c f) (λ '(c', f'), good f c' ∧ (∃ n, f' = set_length n f) ∧
    shows c' (show (RULE ++ BY_NAME ++ RULE ++ FAILED) blank_screen)).
Proof.
  intros Hg. unfold files_test. destruct (clear_good f c Hg) as (Hg0 & Hs0 & _).
  destruct (lookup_frame0 f (clear c) Hg0) as (ns & i & Hfs & Hi & Hlen & ([m1 r1] & -> & Hino & Hs)).
  rewrite bind_Ok. set (c0 := clear c) in *.
  pose proof Hfs as [Hm [Hl _] _ Hin].
  pose proof (same_except_changes _ _ _ _ _ Hs test_dentry_local) as Hc1.
  destruct (set_local f c0 m1 Hg0 Hc1) as [Hg1 Hsh1].
  pose proof (prints_refl f _ Hg1) as P0. set (c1 := set_vmem m1 c0) in *.
  eapply (prints_bind f _ _ c1 _ _ _ _ P0); [intros; plain|]. intros c2 P2.
  eapply (prints_bind f _ _ c1 _ _ _ _ P2); [intros; plain|]. intros c3 P3.
  eapply (prints_bind f _ _ c1 _ _ _ _ P3); [intros; plain|]. intros c4 (Hg4 & Hc4 & Hsh4).
  specialize (Hsh4 _ (Hsh1 _ Hs0)).
  pose proof Hg4 as [_ Hok4]. pose proof Hok4 as [(ns4 & i4 & Hfs4 & _) _ _ _ [Hsep Hloc] Hdb].
  assert (rd32 (vmem c4) (inode_at (test_dentry a)) = found_inode (vmem c0) f i) as Hino4.
  { rewrite <- Hino. apply (changes_same_rd32 _ _ _ (test_dentry a) 40 _ Hc4);
      [exact (Forall_lookup_1 _ _ 0%nat _ Hloc eq_refl)|unfold inode_at; clear; lia..]. }
  set (k := found_inode (vmem c0) f i) in *. rewrite Hino4.
  assert (0 ≤ k < inodes_num (boot_of a) (vmem c0)) as Hk
    by (split; [apply rd32_range|apply Hin; lia]).
  assert (changes_only (screen_regions ++ local_regions) (vmem c0) (vmem c4)) as Hc04.
  { eapply changes_only_trans; [|by apply screen_changes].
    exact (changes_only_mono _ _ _ _ Hc1 local_written). }
  destruct (read_whole f c0 c4 k Hg0 Hg4 Hc04 Hk Hlen) as (m5 & n & Hn & E & Hc5).
  fold (file_length (vmem c4) f k). rewrite E, bind_Ok.
  rewrite (proj2 (Z.eqb_neq n SUCCESS)) by (unfold SUCCESS; clear -Hn; lia).
  destruct (set_local f c4 m5 Hg4 Hc5) as [Hg5 Hsh5].
  eapply returns_bind; [by apply (print_plain FAILED f); [|by_decide|done|by_decide]|].
  intros c6 (Hg6 & _ & Hsh6). apply returns_Ok. split_and!; [done|by eexists|].
  specialize (Hsh6 _ (Hsh5 _ Hsh4)). rewrite <- show_app in Hsh6. exact Hsh6.
Qed.
End soundness.

(** ** What the keyboard driver asks of the file system *)

Lemma commands_same a m f f' : fs_same f f' → commands_ok a f m → commands_ok a f' m.
Proof.
  intros Hf [(ns & i & Hfs & Hi) ? ? ? ? ?]. pose proof (fs_ok_same _ _ _ _ _ Hf Hfs).
  destruct Hf as (n & e & o & ->). constructor; try assumption. by exists ns, i.
Qed.

Lemma commands_video a f m m' : outside_video m m' → commands_ok a f m → commands_ok a f m'.
Proof.
  intros Ho Hok. apply (commands_kept a f m m' Hok).
  apply (same_except_changes _ _ _ _ _ Ho). by left.
Qed.

Program Definition fs_commands {D} (a : places) : Hotkeys D fs := {|
  Keyboard.files_test := files_test a;
  Keyboard.print_allfile_name := print_allfile_name a;
  Keyboard.file_index := file_index a;
  fs_sound := commands_ok a;
  fs_sound_video f m m' := commands_video a f m m'
|}.
Next Obligation.
  intros D a c s f Hs Hok. eapply returns_mono; [by apply files_test_good; split; [by eexists|]|].
  intros [c' f'] ([Hc Hok'] & (n & ->) & _). split; [done|].
  by apply (commands_same a _ f); [apply fs_same_length|].
Qed.
Next Obligation.
  intros D a c s f Hs Hok. eapply returns_mono; [by apply print_allfile_name_good; split; [by eexists|]|].
  intros [c' f'] (-> & [Hc Hok'] & _). done.
Qed.
Next Obligation.
  intros D a index c s f Hs Hok. pose proof Hok as [(ns & i & Hfs & _) _ _ _ _ _].
  eapply returns_mono; [by eapply file_index_good; [split; [by eexists|]|]|].
  intros [c' f'] (-> & [Hc Hok'] & _). done.
Qed.

(** ** Properties *)

(** The image of FileSys.v with a second entry, frame0.txt, and the literals
    from 0x20000 on. *)
Definition demo_places : places := {|
  boot_of := 0x10000; conv_of := 0x30000; test_dentry := 0x31000; test_buf := 0x32000;
  index_dentry := 0x34000;
  literal s := 0x20000 + 64 * Z.of_nat (default 0%nat (fst <$> list_find (λ t, t = s) literals))
|}.

Definition screen_image : mem :=
  let m := wr32 demo_image 0x10000 2 in
  let m := wr32 (wr_bytes m 0x10080 (FRAME0 ++ [0])) 0x100A0 2 in
  foldr (λ s m, wr_bytes m (literal demo_places s) (s ++ [0])) m literals.

Definition screen_names : list (list Z) := [97] :: FRAME0 :: replicate 61 [].
Definition screen_con : con trace := fresh screen_image.

Lemma screen_fs_ok : fs_ok 0x10000 screen_names (vmem screen_con) demo_fs.
Proof. by apply one_inode_fs; by_decide. Qed.

Lemma screen_good : good demo_places demo_fs screen_con.
Proof.
  split; [exists blank_screen; apply fresh_shows|]. constructor; [|by_decide| |by_decide|by_decide|by_decide].
  - exists screen_names, 1%nat. split; [exact screen_fs_ok|]. split; [reflexivity|by_decide].
  - assert (Forall (λ s, cstr (vmem screen_con) (literal demo_places s) s) literals) as Hall by by_decide.
    by rewrite Forall_forall in Hall.
Qed.

(** C28: the file system commands of the keyboard end, on any screen, with a
    redrawn page: the listing shows, after its heading, for every entry from 1
    on its 32 name characters, blanks for zeros, and its type; the index
    command shows the name of the entry, or that it is empty or does not
    exist; the reading test always reports a failure, although it reads
    frame0.txt correctly, because it takes the byte count for an error. *)
Theorem commands_print {D} a f (c : con D) ns index :
  good a f c → fs_ok (boot_of a) ns (vmem c) f →
  returns (print_allfile_name a c f) (λ '(c', f'), f' = f ∧ good a f c' ∧
    shows c' (show (listing_of a (vmem c) f) blank_screen)) ∧
  returns (file_index a index c f) (λ '(c', f'), f' = f ∧ good a f c' ∧
    shows c' (show (RULE ++ index_line index ++ RULE ++
      index_text ns (inodes_num (boot_of a) (vmem c)) index ++ NEWLINE) blank_screen)) ∧
  returns (files_test a c f) (λ '(c', f'), good a f c' ∧ (∃ n, f' = set_length n f) ∧
    shows c' (show (RULE ++ BY_NAME ++ RULE ++ FAILED) blank_screen)).
Proof.
  intros Hg Hfs. split_and!; [|by apply file_index_good|by apply files_test_good].
  eapply returns_mono; [by apply print_allfile_name_good|].
  intros [c' f'] (-> & Hg' & _ & Hs). split_and!; [done|done|]. apply Hs, clear_good with (1 := Hg).
Qed.

Lemma commands_print_witness :
  returns (print_allfile_name demo_places screen_con demo_fs) (λ '(c', f'), f' = demo_fs ∧
    good demo_places demo_fs c' ∧
    shows c' (show (listing_of demo_places (vmem screen_con) demo_fs) blank_screen)) ∧
  returns (file_index demo_places 0 screen_con demo_fs) (λ '(c', f'), f' = demo_fs ∧
    good demo_places demo_fs c' ∧
    shows c' (show (RULE ++ index_line 0 ++ RULE ++ [97] ++ NEWLINE) blank_screen)) ∧
  returns (files_test demo_places screen_con demo_fs) (λ '(c', f'), good demo_places demo_fs c' ∧
    (∃ n, f' = set_length n demo_fs) ∧
    shows c' (show (RULE ++ BY_NAME ++ RULE ++ FAILED) blank_screen)).
Proof.
  assert (index_text screen_names (inodes_num (boot_of demo_places) (vmem screen_con)) 0 = [97]) as Ht
    by by_decide.
  pose proof (commands_print demo_places demo_fs screen_con screen_names 0 screen_good screen_fs_ok) as H.
  rewrite Ht in H. exact H.
Defined.
