(* ===== verification/Process.v ===== *)
(** * systemcall.h: control blocks, descriptors and the state of the kernel

    A process control block lives in the flat memory, at the bottom of the
    process's 8 KB kernel stack.  The state of the kernel gathers the terminal
    (whose console holds the linear memory), the file system globals, the page
    tables, and the globals of systemcall.c. *)

From S2P Require Import Prelude Memory Ports Pic Rtc Console Keyboard Paging FileSys.

Definition BOTTOM_STACK := 0x00800000.
Definition STACK_SIZE := 0x2000.
Definition LAST_13BITS_MASK := 0xffffe000.
Definition USER_PROG_START := 0x08000000.
Definition USER_PROG_END := 0x08400000.
Definition ARG_SIZE := 1024.
Definition USE := 1.
Definition NOT_USE := 0.

(** ** Layout of a [pcb_t] at address [p] and of a [file_descriptor] at [d] *)

(** [BOTTOM_STACK - counter*STACK_SIZE], the control block of process [counter]. *)
Definition pcb_at (n : Z) : Z := u32 (BOTTOM_STACK - n * STACK_SIZE).

Definition pid_at (p : Z) : Z := p.
Definition parent_pid_at (p : Z) : Z := p + 1.
Definition parent_kernel_sp_at (p : Z) : Z := p + 4.
Definition parent_kernel_bp_at (p : Z) : Z := p + 8.
Definition file_array_at (p fd : Z) : Z := p + 16 + 48 * fd.
Definition arg_at (p : Z) : Z := p + 400.

Definition file_operation_at (d : Z) : Z := d.
Definition file_name_at (d : Z) : Z := d + 4.
Definition fd_inode_at (d : Z) : Z := d + 36.
Definition fileposition_at (d : Z) : Z := d + 40.
Definition flags_at (d : Z) : Z := d + 44.

(** ** Operation tables

    A table holds the addresses of open, read, write and close, 0 where there
    is none. *)

Inductive driver :=
  | Rtc_open | Rtc_read | Rtc_write | Rtc_close
  | Terminal_read | Terminal_write
  | File_open | File_read | File_write | File_close
  | Directory_open | Directory_read | Directory_write | Directory_close.

#[export] Instance driver_eq_dec : EqDecision driver.
Proof. solve_decision. Defined.

Definition stdin_t : list (option driver) := [None; Some Terminal_read; None; None].
Definition stdout_t : list (option driver) := [None; None; Some Terminal_write; None].
Definition rtc_t : list (option driver) :=
  [Some Rtc_open; Some Rtc_read; Some Rtc_write; Some Rtc_close].
Definition file_t : list (option driver) :=
  [Some File_open; Some File_read; Some File_write; Some File_close].
Definition directory_t : list (option driver) :=
  [Some Directory_open; Some Directory_read; Some Directory_write; Some Directory_close].

Definition SLOT_READ : nat := 1.
Definition SLOT_WRITE : nat := 2.
Definition SLOT_CLOSE : nat := 3.

(** ** Where things are

    Addresses the compiler and the linker choose: the page tables, the boot
    block copy, the five tables, the string literals, and the arrays that the
    system calls and the functions they call keep on the kernel stack. *)

Record layout := Layout {
  paging_symbols : symbols;
  boot_block_at : Z;
  stdin_at : Z; stdout_at : Z; rtc_at : Z; file_at : Z; directory_at : Z;
  lit_stdin : Z; lit_stdout : Z;          (* the lower-case names in open *)
  lit_STDIN : Z; lit_STDOUT : Z;          (* the names execute stores *)
  lit_empty : Z; lit_limit : Z;           (* the empty name; execute's message *)
  open_temp : Z;                          (* dentry_t temp in open *)
  file_read_dentry : Z;
  file_load_dentry : Z;
  magic_temp : Z;                         (* temp[4] in check_executable *)
  entry_buf : Z;                          (* buf[4] in execute *)
  arg_buf : Z;                            (* arg_buf[1024] in execute *)
  command_name : Z;                       (* command_name[32] in execute *)
  printf_conv : Z                         (* conv_buf in printf *)
}.

(** Resolution of a table's address. *)
Definition table_of (y : layout) (p : Z) : option (list (option driver)) :=
  if p =? stdin_at y then Some stdin_t
  else if p =? stdout_at y then Some stdout_t
  else if p =? rtc_at y then Some rtc_t
  else if p =? file_at y then Some file_t
  else if p =? directory_at y then Some directory_t
  else None.

(** [file_operation->slot]: a null table or a null entry faults at the call;
    any other address is not a table of the program. *)
Definition fetch (y : layout) (p : Z) (slot : nat) : res driver :=
  match table_of y p with
  | Some t => match t !! slot with Some (Some f) => Ok f | _ => Err NullCall end
  | None => if p =? 0 then Err NullCall else Err OutOfBounds
  end.

(** ** State

    The control blocks and everything a program passes by pointer are bytes of
    the memory in [term].  The page tables and the globals of systemcall.c are
    fields: the code reaches them by name only.  A store through a pointer
    could reach them too where a process passes the address of kernel data,
    which systemcall.c does not check; the theorems on calls are for processes
    that do not, and list the regions a call stores to, so that they hold
    wherever the linker puts the globals apart from these. *)

Record kernel (D : Type) := Kernel {
  term : kb D fs;                     (* terminal, memory, file system globals *)
  pages : paging;
  images : gmap Z (gmap Z byte);      (* program pages that are not mapped, by frame *)
  counter : Z;
  shell_entry_addr : Z;
  arg_size : Z;
  tss_esp0 : Z;
  rtc_interrupt_occurred : Z
}.
Arguments Kernel {D} _ _ _ _ _ _ _ _.
Arguments term {D} _.
Arguments pages {D} _.
Arguments images {D} _.
Arguments counter {D} _.
Arguments shell_entry_addr {D} _.
Arguments arg_size {D} _.
Arguments tss_esp0 {D} _.
Arguments rtc_interrupt_occurred {D} _.

Section state.
Context {D : Type}.
Implicit Types k : kernel D.

Definition kmem k : mem := vmem (kcon (term k)).

Definition set_term t k : kernel D := Kernel t (pages k) (images k) (counter k) (shell_entry_addr k)
  (arg_size k) (tss_esp0 k) (rtc_interrupt_occurred k).
Definition set_kcon c k : kernel D := set_term (Keyboard.set_con c (term k)) k.
Definition set_mem m k : kernel D := set_kcon (set_vmem m (kcon (term k))) k.
(** The terminal with other file system globals. *)
Definition set_kfs f k : kernel D :=
  let t := term k in set_term (Kb (kcon t) f (kmods t) (kline t) (index_file t)) k.
Definition set_counter n k : kernel D := Kernel (term k) (pages k) (images k) n (shell_entry_addr k)
  (arg_size k) (tss_esp0 k) (rtc_interrupt_occurred k).
Definition set_shell_entry e k : kernel D := Kernel (term k) (pages k) (images k) (counter k) e
  (arg_size k) (tss_esp0 k) (rtc_interrupt_occurred k).
Definition set_arg_size n k : kernel D := Kernel (term k) (pages k) (images k) (counter k)
  (shell_entry_addr k) n (tss_esp0 k) (rtc_interrupt_occurred k).
Definition set_esp0 e k : kernel D := Kernel (term k) (pages k) (images k) (counter k)
  (shell_entry_addr k) (arg_size k) e (rtc_interrupt_occurred k).
Definition set_rtc_flag b k : kernel D := Kernel (term k) (pages k) (images k) (counter k)
  (shell_entry_addr k) (arg_size k) (tss_esp0 k) b.
Definition set_pages p im k : kernel D := Kernel (term k) p im (counter k)
  (shell_entry_addr k) (arg_size k) (tss_esp0 k) (rtc_interrupt_occurred k).

(** [pcb->file_array[fd]] of the current process. *)
Definition current_pcb k : Z := pcb_at (counter k).
Definition descriptor k (fd : Z) : Z := file_array_at (current_pcb k) fd.

(** A file system call on the memory and the globals. *)
Definition fs_call {R} (call : mem → fs → res (mem * fs * R)) k : res (kernel D * R) :=
  '(m, f, r) ← call (kmem k) (kfs (term k));
  Ok (set_kfs f (set_mem m k), r).
End state.

(** ** The user window

    The linear memory shows at 128 MB the frame the active directory maps
    there.  Loading CR3 puts the bytes of the old frame aside and shows those
    of the new one; a frame that was never shown holds zeros. *)

Definition in_window (a : Z) : bool := (USER_PROG_START <=? a) && (a <? USER_PROG_END).

Definition program_frame (y : layout) (p : paging) : option Z :=
  physical <$> translate (paging_symbols y) p USER_PROG_START.

Definition window_of (c : gmap Z byte) : gmap Z byte := filter (λ x, in_window (fst x) = true) c.
Definition rest_of (c : gmap Z byte) : gmap Z byte := filter (λ x, in_window (fst x) = false) c.

Definition show_frame (old new : option Z) (im : gmap Z (gmap Z byte)) (m : mem) :
    gmap Z (gmap Z byte) * mem :=
  if decide (old = new) then (im, m)
  else
    let im := match old with Some a => <[a := window_of (cells m)]> im | None => im end in
    let frame := match new with Some a => default ∅ (im !! a) | None => ∅ end in
    (im, Mem (window_of frame ∪ rest_of (cells m))).

(** Outside the window nothing changes. *)
Lemma show_frame_outside old new im m a :
  in_window a = false → rd (snd (show_frame old new im m)) a = rd m a.
Proof.
  intros Ha. unfold show_frame. destruct (decide _); [done|]. cbn [snd]. rewrite !rd_cells.
  cbn [cells]. rewrite lookup_union. unfold window_of, rest_of. rewrite map_lookup_filter_None_2; cycle 1.
  { right. intros x _. cbn. by rewrite Ha. }
  rewrite option_union_left_id. destruct (cells m !! a) as [b|] eqn:E.
  - by rewrite (map_lookup_filter_Some_2 _ _ a b) by done.
  - rewrite map_lookup_filter_None_2; [done|by left].
Qed.

(** Inside it shows what was put aside for the new frame. *)
Lemma show_frame_inside old new im m a :
  old ≠ new → in_window a = true →
  rd (snd (show_frame old new im m)) a =
    match new with Some q => rd (Mem (default ∅ (im !! q))) a | None => 0 end.
Proof.
  intros Hne Ha. unfold show_frame. rewrite decide_False by done. cbn [snd]. rewrite rd_cells.
  cbn [cells]. rewrite lookup_union. unfold window_of, rest_of.
  rewrite (map_lookup_filter_None_2 (λ x, in_window (fst x) = false)); cycle 1.
  { right. intros x _. cbn. by rewrite Ha. }
  rewrite option_union_right_id.
  assert (∀ c, (filter (λ x, in_window (fst x) = true) c : gmap Z byte) !! a = c !! a) as Hw.
  { intros c. destruct (c !! a) as [b|] eqn:E.
    - by apply map_lookup_filter_Some_2.
    - apply map_lookup_filter_None_2. by left. }
  rewrite Hw. destruct new as [q|]; [|by rewrite lookup_empty].
  rewrite rd_cells. cbn [cells]. destruct old as [p|]; [|done].
  by rewrite lookup_insert_ne by congruence.
Qed.

Lemma show_frame_saves old new im m a :
  old ≠ new → fst (show_frame old new im m) =
    match old with Some a => <[a := window_of (cells m)]> im | None => im end ∧
  (in_window a = true → rd (Mem (window_of (cells m))) a = rd m a).
Proof.
  intros Hne. unfold show_frame. rewrite decide_False by done. split; [done|].
  intros Ha. rewrite !rd_cells. cbn [cells]. unfold window_of. destruct (cells m !! a) as [b|] eqn:E.
  - by rewrite (map_lookup_filter_Some_2 _ _ a b) by done.
  - rewrite map_lookup_filter_None_2; [done|by left].
Qed.

(** A change of the paging state, and of what the window shows. *)
Definition update_pages {D} (y : layout) (f : paging → res paging) (k : kernel D) : res (kernel D) :=
  p ← f (pages k);
  let '(im, m) := show_frame (program_frame y (pages k)) (program_frame y p) (images k) (kmem k) in
  Ok (set_mem m (set_pages p im k)).
