(* ===== verification/Syscall.v ===== *)
(** * systemcall.c: the system calls on descriptors

    read, write, open, close, getargs, vidmap, set_handler and sigreturn, over
    the state of Process.v.  An operation that waits consumes a schedule of
    interrupts. *)

From S2P Require Import Prelude Memory LibString Ports Pic Rtc Console Keyboard Paging FileSys Process.

(** The interrupts a waiting driver sees. *)
Inductive irq := IRQ_KEYBOARD | IRQ_RTC.

(** Those the processor takes of the ones the devices raise: with the interrupt
    flag clear none.  The flag is clear in programs (execute pushes the flags
    after cli) and where a call starts (the gate clears it); read alone sets
    it, so it is the one call that takes a schedule. *)
Definition taken (interrupt_flag : bool) (sched : list irq) : list irq :=
  if interrupt_flag then sched else [].

Definition VIDEO_ADDR := 0x8400000.

Section operations.
Context `{PortIO D, Hotkeys D fs} (y : layout).
Implicit Types k : kernel D.

Definition deliver (e : irq) k : res (kernel D) :=
  match e with
  | IRQ_KEYBOARD => t ← keyboard_interrupt_handler (term k); Ok (set_term t k)
  | IRQ_RTC =>
      let '(flag, d) := rtc_handler (dev (kcon (term k))) in
      Ok (set_rtc_flag flag (set_kcon (set_dev d (kcon (term k))) k))
  end.

(** The calls through the tables. *)

Definition call_read (f : driver) (buf offset nbytes name : Z) (sched : list irq) k :
    res (kernel D * Z * list irq) :=
  match f with
  | Terminal_read => terminal_read term set_term deliver sched buf nbytes k
  | Rtc_read =>
      '(r, k, rest) ← rtc_read rtc_interrupt_occurred set_rtc_flag deliver sched k;
      Ok (k, r, rest)
  | File_read =>
      '(k, r) ← fs_call (file_read (boot_block_at y) (file_read_dentry y) buf offset nbytes name) k;
      Ok (k, r, sched)
  | Directory_read =>
      '(k, r) ← fs_call (directory_read (boot_block_at y) buf offset nbytes name) k;
      Ok (k, r, sched)
  | _ => Err OutOfBounds
  end.

Definition call_write (f : driver) (fd buf nbytes : Z) k : res (kernel D * Z) :=
  match f with
  | Terminal_write => '(t, r) ← terminal_write fd buf nbytes (term k); Ok (set_term t k, r)
  | Rtc_write =>
      let '(r, d) := rtc_write (kmem k) fd buf nbytes (dev (kcon (term k))) in
      Ok (set_kcon (set_dev d (kcon (term k))) k, r)
  | File_write => Ok (k, file_write)
  | Directory_write => Ok (k, directory_write)
  | _ => Err OutOfBounds
  end.

Definition call_close (f : driver) : res Z :=
  match f with
  | Rtc_close => Ok rtc_close
  | File_close => Ok file_close
  | Directory_close => Ok directory_close
  | _ => Err OutOfBounds
  end.

Definition read (fd buf nbytes : Z) (sched : list irq) k : res (kernel D * Z * list irq) :=
  let interrupt_flag := true in                       (* sti *)
  if (fd <? 0) || (7 <? fd) || (buf =? 0) then Ok (k, -1, sched)
  else
    let d := descriptor k fd in
    if rd32 (kmem k) (flags_at d) =? 0 then Ok (k, -1, sched)
    else
      f ← fetch y (rd32 (kmem k) (file_operation_at d)) SLOT_READ;
      '(k, bytes, rest) ←
        call_read f buf (rd32 (kmem k) (fileposition_at d)) nbytes (file_name_at d)
          (taken interrupt_flag sched) k;
      let m := kmem k in
      Ok (set_mem (wr32 m (fileposition_at d) (u32 (rd32 m (fileposition_at d) + bytes))) k,
          bytes, rest).

Definition write (fd buf nbytes : Z) k : res (kernel D * Z) :=
  if (fd <? 0) || (7 <? fd) || (buf =? 0) then Ok (k, -1)
  else
    let d := descriptor k fd in
    if rd32 (kmem k) (flags_at d) =? 0 then Ok (k, -1)
    else
      f ← fetch y (rd32 (kmem k) (file_operation_at d)) SLOT_WRITE;
      call_write f fd buf nbytes k.

(** The two assignments for a standard stream. *)
Definition reopen (fd table : Z) k : kernel D :=
  let d := descriptor k fd in
  set_mem (wr32 (wr32 (kmem k) (file_operation_at d) table) (flags_at d) USE) k.

(** [vacant_fd]: the first free descriptor from 2 on, or -1. *)
Definition find_vacant k : res Z :=
  while (λ i,
    if i <? 8 then
      if rd32 (kmem k) (flags_at (descriptor k i)) =? 0 then inr (Ok i) else inl (i + 1)
    else inr (Ok (-1))) 2.

(** The table of a file type; an unknown type leaves the field. *)
Definition set_operations (filetype d : Z) (m : mem) : mem :=
  if filetype =? 2 then wr32 m (file_operation_at d) (file_at y)
  else if filetype =? 1 then wr32 m (file_operation_at d) (directory_at y)
  else if filetype =? 0 then wr32 m (file_operation_at d) (rtc_at y)
  else m.

Definition open (filename : Z) k : res (kernel D * Z) :=
  c ← strncmp (kmem k) (lit_stdin y) filename 5;
  if c =? 0 then Ok (reopen 0 (stdin_at y) k, 0)
  else
    c ← strncmp (kmem k) (lit_stdout y) filename 5;
    if c =? 0 then Ok (reopen 1 (stdout_at y) k, 0)
    else
      '(m, r) ← read_dentry_by_name filename (open_temp y) (kmem k) (kfs (term k));
      let k := set_mem m k in
      if r =? -1 then Ok (k, -1)
      else
        vacant_fd ← find_vacant k;
        if vacant_fd =? -1 then Ok (k, -1)
        else
          let d := descriptor k vacant_fd in
          let m := set_operations (rd32 m (filetype_at (open_temp y))) d m in
          let m := wr32 m (flags_at d) USE in
          let m := wr32 m (fd_inode_at d) (rd32 m (inode_at (open_temp y))) in
          let m := wr32 m (fileposition_at d) 0 in
          m ← strcpy m (file_name_at d) filename;
          Ok (set_mem m k, vacant_fd).

Definition close (fd : Z) k : res (kernel D * Z) :=
  if (fd <? 2) || (7 <? fd) then Ok (k, -1)
  else
    let d := descriptor k fd in
    let m := kmem k in
    if rd32 m (flags_at d) =? USE then
      f ← fetch y (rd32 m (file_operation_at d)) SLOT_CLOSE;
      ret ← call_close f;
      let m := wr32 m (fd_inode_at d) 0 in
      let m := wr32 m (flags_at d) NOT_USE in
      let m := wr32 m (fileposition_at d) 0 in
      let m := wr32 m (file_operation_at d) 0 in
      m ← strcpy m (file_name_at d) (lit_empty y);
      Ok (set_mem m k, ret)
    else Ok (k, -1).

Definition getargs (buf nbytes : Z) k : res (kernel D * Z) :=
  if (buf =? 0) || (nbytes <? arg_size k) then Ok (k, -1)
  else
    m ← strncpy (kmem k) buf (arg_at (current_pcb k)) (u32 nbytes);
    Ok (set_mem m k, 0).

Definition vidmap (screen_start : Z) k : res (kernel D * Z) :=
  if (screen_start <? USER_PROG_START) || (USER_PROG_END <=? screen_start) then Ok (k, -1)
  else
    k ← update_pages y (map_video (paging_symbols y) (counter k)) k;
    Ok (set_mem (wr32 (kmem k) screen_start VIDEO_ADDR) k, 0).

Definition set_handler (signum handler_address : Z) k : kernel D * Z := (k, -1).
Definition sigreturn k : kernel D * Z := (k, -1).
End operations.
