(* ===== verification/Descriptors.v ===== *)
(** * The descriptor table of a process

    Specification of open, close, read and write: a table of eight slots, each
    free or an open file, that the descriptors in the control block represent;
    and the refinement of that table by the system calls. *)

From S2P Require Import Prelude Memory LibString Ports Pic Rtc Console Keyboard Paging FileSys.
From S2P Require Import Process Syscall.

(** ** Abstract files *)

Inductive kind := Stdin | Stdout | Clock | Regular | Directory.

#[export] Instance kind_eq_dec : EqDecision kind.
Proof. solve_decision. Defined.

Record file := File { f_kind : kind; f_name : list Z; f_inode : Z; f_pos : Z }.

#[export] Instance file_eq_dec : EqDecision file.
Proof. solve_decision. Defined.

Abbreviation table := (list (option file)).

Definition kind_at (y : layout) (x : kind) : Z :=
  match x with
  | Stdin => stdin_at y
  | Stdout => stdout_at y
  | Clock => rtc_at y
  | Regular => file_at y
  | Directory => directory_at y
  end.

Definition kind_ops (x : kind) : list (option driver) :=
  match x with
  | Stdin => stdin_t
  | Stdout => stdout_t
  | Clock => rtc_t
  | Regular => file_t
  | Directory => directory_t
  end.

(** The kind the type field of a directory entry selects. *)
Definition kind_of (filetype : Z) : kind :=
  if filetype =? 2 then Regular else if filetype =? 1 then Directory else Clock.

(** The tables are at different addresses, none of them 0. *)
Record tables_ok (y : layout) : Prop := {
  tables_distinct : NoDup [0; stdin_at y; stdout_at y; rtc_at y; file_at y; directory_at y];
  tables_range x : 0 ≤ kind_at y x < 4294967296
}.

Lemma fetch_kind y x slot :
  tables_ok y →
  fetch y (kind_at y x) slot =
    match kind_ops x !! slot with Some (Some f) => Ok f | _ => Err NullCall end.
Proof.
  intros [Hd _]. unfold fetch, table_of.
  repeat match goal with
  | H : NoDup (_ :: _) |- _ => apply NoDup_cons in H as [?Hx H]
  end.
  destruct x; cbn [kind_at kind_ops];
    repeat match goal with
    | |- context [?a =? ?a] => rewrite (Z.eqb_refl a)
    | |- context [?a =? ?b] => rewrite (proj2 (Z.eqb_neq a b)) by (intros ?; set_solver)
    end; done.
Qed.

(** ** Representation *)

Definition descriptor_is (y : layout) (m : mem) (d : Z) (o : option file) : Prop :=
  match o with
  | None => rd32 m (flags_at d) = NOT_USE
  | Some f =>
      rd32 m (flags_at d) = USE ∧ rd32 m (file_operation_at d) = kind_at y (f_kind f) ∧
      cstr m (file_name_at d) (f_name f) ∧ zlen (f_name f) ≤ 31 ∧
      rd32 m (fd_inode_at d) = f_inode f ∧ rd32 m (fileposition_at d) = f_pos f
  end.

#[export] Instance descriptor_is_dec y m d o : Decision (descriptor_is y m d o).
Proof. unfold descriptor_is. destruct o; apply _. Defined.

Definition fd_table (y : layout) (m : mem) (p : Z) (t : table) : Prop :=
  length t = 8%nat ∧
  ∀ i o, t !! i = Some o → descriptor_is y m (file_array_at p (Z.of_nat i)) o.

(** A descriptor's 48 bytes decide what it represents. *)
Lemma descriptor_kept y m m' d o :
  bytes m' d 48 = bytes m d 48 → descriptor_is y m d o → descriptor_is y m' d o.
Proof.
  intros Hb. assert (∀ a, d ≤ a < d + 48 → rd m' a = rd m a) as Hrd.
  { intros a Ha. pose proof (lookup_bytes m' d 48 (a - d) ltac:(lia)) as H1.
    rewrite Hb, lookup_bytes in H1 by lia. replace (d + (a - d)) with a in H1 by lia. congruence. }
  assert (∀ a, d ≤ a → a + 4 ≤ d + 48 → rd32 m' a = rd32 m a) as Hrd32.
  { intros a ??. unfold rd32. rewrite !Hrd by lia. done. }
  unfold flags_at, file_operation_at, file_name_at, fd_inode_at, fileposition_at.
  destruct o as [f|]; cbn; unfold flags_at, file_operation_at, file_name_at, fd_inode_at,
    fileposition_at; rewrite !Hrd32 by lia; [|done].
  intros (? & ? & (Hnz & Hc & He) & ? & ? & ?). split_and!; try done. split_and!; [done| |].
  - rewrite <- Hc at 2. apply bytes_ext. intros i ?. apply Hrd. lia.
  - rewrite Hrd; [done|lia].
Qed.

Definition region_of (p fd : Z) : Z * Z := (file_array_at p fd, 48).

(** Changes outside the table's 384 bytes keep it. *)
Lemma fd_table_kept y rs m m' p t :
  changes_only rs m m' → Forall (apart (p + 16, 384)) rs → fd_table y m p t → fd_table y m' p t.
Proof.
  intros Hc Ha [Hlen Ht]. split; [done|]. intros i o Hi.
  apply (descriptor_kept y m); [|by apply Ht]. pose proof (lookup_lt_Some _ _ _ Hi).
  apply (changes_same_bytes rs); [done|]. eapply Forall_impl; [exact Ha|]. intros r Hr.
  eapply apart_part; [exact Hr|unfold file_array_at; lia..].
Qed.

(** A change of one descriptor. *)
Lemma fd_table_update y rs m m' p t fd o :
  fd_table y m p t → (fd < 8)%nat → changes_only (region_of p (Z.of_nat fd) :: rs) m m' →
  Forall (apart (p + 16, 384)) rs → descriptor_is y m' (file_array_at p (Z.of_nat fd)) o →
  fd_table y m' p (<[fd := o]> t).
Proof.
  intros [Hlen Ht] Hfd Hc Ha Ho. split; [by rewrite length_insert|]. intros i o' Hi.
  apply list_lookup_insert_Some in Hi as [(-> & -> & _)|[Hne Hi]]; [done|].
  apply (descriptor_kept y m); [|by apply Ht]. pose proof (lookup_lt_Some _ _ _ Hi).
  apply (changes_same_bytes _ _ _ _ _ Hc). constructor.
  - unfold apart, disjoint_regions, region_of, file_array_at. cbn. lia.
  - eapply Forall_impl; [exact Ha|]. intros r Hr.
    eapply apart_part; [exact Hr|unfold file_array_at; lia..].
Qed.

(** ** The world a process runs in

    A mounted image with its names, the literals, and a control block that
    represents a table whose first two slots are the standard streams; the
    regions of memory all this occupies are disjoint. *)

Definition kernel_regions (y : layout) (m : mem) (f : fs) (p : Z) : list (Z * Z) :=
  [ (st_boot_block f, image_end (boot_block_at y) m f - st_boot_block f);
    (boot_block_at y, 64);
    (lit_stdin y, 6); (lit_stdout y, 7); (lit_empty y, 1);
    (VIDEO, page_size);
    (p, 1424);
    (open_temp y, 40);
    (file_read_dentry y, 40) ].

(** Those a system call never writes. *)
Definition fixed_regions (y : layout) (m : mem) (f : fs) : list (Z * Z) :=
  take 5 (kernel_regions y m f 0).

Record image_ok (y : layout) (ns : list (list Z)) (m : mem) (f : fs) : Prop := {
  io_fs : fs_ok (boot_block_at y) ns m f;
  io_types i : 0 ≤ i < 63 → 0 ≤ rd32 m (filetype_at (dentry_at f i)) ≤ 2;
  io_stdin : cstr m (lit_stdin y) (codes "stdin");
  io_stdout : cstr m (lit_stdout y) (codes "stdout");
  io_empty : cstr m (lit_empty y) []
}.

(** The two standard streams, then files of the other kinds. *)
Definition from_disk (o : option file) : Prop :=
  match o with Some f => f_kind f ≠ Stdin ∧ f_kind f ≠ Stdout | None => True end.

Definition standard (t : table) : Prop :=
  ∃ f0 f1 rest, t = Some f0 :: Some f1 :: rest ∧ f_kind f0 = Stdin ∧ f_kind f1 = Stdout ∧
    Forall from_disk rest.

(** A regular file is open under a name the directory has, with its inode. *)
Definition named_file (m : mem) (f : fs) (ns : list (list Z)) (o : option file) : Prop :=
  match o with
  | Some x => f_kind x = Regular → f_name x ≠ [] ∧ ∃ i, list_find (λ n, n = f_name x) ns = Some (i, f_name x) ∧
      rd32 m (inode_at (dentry_at f (Z.of_nat i))) = f_inode x
  | None => True
  end.

Definition named (m : mem) (f : fs) (ns : list (list Z)) (t : table) : Prop :=
  Forall (named_file m f ns) t.

Record world {D} (y : layout) (ns : list (list Z)) (t : table) (k : kernel D) : Prop := {
  w_image : image_ok y ns (kmem k) (kfs (term k));
  w_table : fd_table y (kmem k) (current_pcb k) t;
  w_standard : standard t;
  w_named : named (kmem k) (kfs (term k)) ns t;
  w_separate :
    separate (kernel_regions y (kmem k) (kfs (term k)) (current_pcb k));
  w_counter : 1 ≤ counter k ≤ 6
}.

Lemma fixed_apart y m f p r :
  separate (kernel_regions y m f p) → r ∈ drop 5 (kernel_regions y m f p) →
  Forall (apart r) (fixed_regions y m f).
Proof.
  intros Hs [j Hj]%list_elem_of_lookup. rewrite lookup_drop in Hj.
  apply Forall_lookup_2. intros i s Hi. unfold fixed_regions in Hi.
  pose proof (lookup_lt_Some _ _ _ Hi) as Hlt. cbn in Hlt.
  rewrite lookup_take_lt in Hi by lia.
  assert (kernel_regions y m f p !! i = Some s) as Hi'
    by (repeat (destruct i as [|i]; [exact Hi|]); lia).
  by apply (separate_apart _ (5 + j) i _ _ Hs Hj Hi'); lia.
Qed.

(** Contents and entries of an image, as far as its regions keep. *)
Lemma image_ok_kept y ns m m' f rs :
  image_ok y ns m f → changes_only rs m m' →
  Forall (λ r, Forall (apart r) (fixed_regions y m f)) rs →
  image_ok y ns m' f ∧ image_kept (boot_block_at y) f m m' ∧
  (∀ i, 0 ≤ i < 63 → rd32 m' (filetype_at (dentry_at f i)) = rd32 m (filetype_at (dentry_at f i)) ∧
     rd32 m' (inode_at (dentry_at f i)) = rd32 m (inode_at (dentry_at f i))).
Proof.
  intros [Hfs Hty H1 H2 H3] Hc Ha.
  assert (∀ i s, fixed_regions y m f !! i = Some s → Forall (apart s) rs) as Hap.
  { intros i s Hi. eapply Forall_impl; [exact Ha|]. intros r Hr. apply apart_sym.
    by apply (Forall_lookup_1 _ _ _ _ Hr Hi). }
  destruct (fs_ok_kept _ ns m m' f rs Hfs Hc) as (Hfs' & Hk & Hent).
  { eapply Forall_impl; [exact Ha|]. intros r Hr. exact (Forall_take _ 2 _ Hr). }
  split_and!; [|done|done]. constructor; [done| | | |].
  - intros i Hi. destruct (Hent i Hi) as [-> _]. by apply Hty.
  - eapply changes_same_cstr; [exact Hc|exact (Hap 2%nat _ eq_refl)|done].
  - eapply changes_same_cstr; [exact Hc|exact (Hap 3%nat _ eq_refl)|done].
  - eapply changes_same_cstr; [exact Hc|exact (Hap 4%nat _ eq_refl)|done].
Qed.

(** ** Shared steps *)

(** The control blocks of the six processes. *)
Lemma pcb_at_eq n : 1 ≤ n ≤ 6 → pcb_at n = 0x800000 - n * 0x2000.
Proof. intros. unfold pcb_at, BOTTOM_STACK, STACK_SIZE. apply u32_small. lia. Qed.

Lemma named_kept y ns m m' f rs t :
  image_ok y ns m f → changes_only rs m m' →
  Forall (λ r, Forall (apart r) (fixed_regions y m f)) rs → named m f ns t → named m' f ns t.
Proof.
  intros Hi Hc Ha Hn. destruct (image_ok_kept _ _ _ _ _ _ Hi Hc Ha) as (_ & _ & He).
  eapply Forall_impl; [exact Hn|]. intros [x|] Hx; [|done]. intros Hk.
  destruct (Hx Hk) as (Hne & i & Hf & Hino). split; [done|]. exists i. split; [done|].
  rewrite <- Hino.
  apply He. apply list_find_Some in Hf as (Hi' & _). apply lookup_lt_Some in Hi'.
  destruct (fs_names _ _ _ _ (io_fs _ _ _ _ Hi)) as [Hl _]. lia.
Qed.

Lemma kernel_regions_kept {D} y ns t (k : kernel D) rs m' :
  world y ns t k → changes_only rs (kmem k) m' →
  Forall (λ r, Forall (apart r) (fixed_regions y (kmem k) (kfs (term k)))) rs →
  kernel_regions y m' (kfs (term k)) (current_pcb k) =
    kernel_regions y (kmem k) (kfs (term k)) (current_pcb k).
Proof.
  intros [Hi _ _ _ _ _] Hc Ha. destruct (image_ok_kept _ _ _ _ _ _ Hi Hc Ha) as (_ & Hk & _).
  destruct (mounted_kept _ _ _ _ (fs_mounted _ _ _ _ (io_fs _ _ _ _ Hi)) Hk) as (_ & _ & He).
  unfold kernel_regions. by rewrite He.
Qed.

(** A change of memory off the fixed regions, and the table it leaves. *)
Lemma world_change {D} y ns t t' (k : kernel D) rs m' :
  world y ns t k → changes_only rs (kmem k) m' →
  Forall (λ r, Forall (apart r) (fixed_regions y (kmem k) (kfs (term k)))) rs →
  fd_table y m' (current_pcb k) t' → standard t' → named (kmem k) (kfs (term k)) ns t' →
  world y ns t' (set_mem m' k).
Proof.
  intros Hw Hc Ha Ht Hs Hn. pose proof (kernel_regions_kept _ _ _ _ _ _ Hw Hc Ha) as Hr.
  destruct Hw as [Hi _ _ _ Hsep Hcnt]. destruct (image_ok_kept _ _ _ _ _ _ Hi Hc Ha) as (Hi' & _).
  constructor; try done; [exact (named_kept _ _ _ _ _ _ _ Hi Hc Ha Hn)|].
  change (separate (kernel_regions y m' (kfs (term k)) (current_pcb k))). by rewrite Hr.
Qed.

Definition first_free (t : table) : option nat := fst <$> list_find (λ o, o = None) t.

Lemma find_vacant_spec {D} y (k : kernel D) t :
  fd_table y (kmem k) (current_pcb k) t → standard t →
  find_vacant k = Ok (match first_free t with Some i => Z.of_nat i | None => -1 end).
Proof.
  intros [Hlen Ht] (f0 & f1 & rest & -> & _). unfold find_vacant, first_free.
  set (t := Some f0 :: Some f1 :: rest) in *.
  apply returns_eq, while_total with
    (I := λ i, 2 ≤ i ≤ 8 ∧ ∀ j o, t !! j = Some o → (j < Z.to_nat i)%nat → o ≠ None)
    (V := λ i, 8 - i).
  - split; [lia|]. intros j o Hj Hlt. change (Z.to_nat 2) with 2%nat in Hlt.
    destruct j as [|[|j]]; [..|lia]; cbn in Hj; by simplify_eq.
  - lia.
  - intros i [Hi Hb]. destruct (Z.ltb_spec i 8) as [Hlt|Hge].
    + destruct (lookup_lt_is_Some_2 t (Z.to_nat i)) as [o Ho]; [lia|].
      pose proof (Ht _ _ Ho) as Hd. rewrite Z2Nat.id in Hd by lia.
      unfold descriptor. destruct o as [f|]; cbn in Hd.
      * destruct Hd as (-> & _). change (USE =? 0) with false. cbv iota.
        split; [|lia]. split; [lia|]. intros j o Hj Hji.
        destruct (decide (j = Z.to_nat i)) as [->|]; [congruence|]. apply (Hb j o Hj). lia.
      * rewrite Hd. change (NOT_USE =? 0) with true. cbv iota. apply returns_Ok.
        assert (list_find (λ o, o = None) t = Some (Z.to_nat i, None)) as ->.
        { apply list_find_Some. split_and!; [done|done|]. intros j o Hj Hji. by apply (Hb j o). }
        cbn. lia.
    + apply returns_Ok. assert (list_find (λ o, o = None) t = None) as ->; [|done].
      apply list_find_None, Forall_lookup. intros j o Hj. apply (Hb j o Hj).
      apply lookup_lt_Some in Hj. lia.
Qed.

Lemma first_free_lt t i : length t = 8%nat → standard t → first_free t = Some i →
  (2 ≤ i < 8)%nat ∧ t !! i = Some None.
Proof.
  intros Hlen (f0 & f1 & rest & -> & _). unfold first_free. rewrite fmap_Some.
  intros ([j o] & (Hj & -> & _)%list_find_Some & ->). cbn in *.
  pose proof (lookup_lt_Some _ _ _ Hj). split; [|done].
  destruct j as [|[|j]]; cbn in *; try done; lia.
Qed.

Lemma standard_insert t i o :
  standard t → (2 ≤ i)%nat → from_disk o → standard (<[i := o]> t).
Proof.
  intros (f0 & f1 & rest & -> & ? & ? & Hrest) Hi Ho. destruct i as [|[|i]]; [lia..|]. cbn.
  exists f0, f1, (<[i := o]> rest). split_and!; [done..|]. by apply Forall_insert.
Qed.

Lemma standard_lookup t i f :
  standard t → (2 ≤ i)%nat → t !! i = Some (Some f) → f_kind f ∈ [Clock; Regular; Directory].
Proof.
  intros (f0 & f1 & rest & -> & _ & _ & Hrest) Hi Hf. destruct i as [|[|i]]; [lia..|]. cbn in Hf.
  destruct (Forall_lookup_1 _ _ _ _ Hrest Hf). destruct (f_kind f); set_solver.
Qed.

Lemma kind_of_disk n l i pos : from_disk (Some (File (kind_of n) l i pos)).
Proof. unfold from_disk, kind_of. cbn. by repeat case_match. Qed.

(** The comparison with a prefix of five characters. *)
Lemma compare_prefix m a filename s l :
  cstr m a s → cstr m filename l → (5 ≤ length s)%nat →
  ∃ c, strncmp m a filename 5 = Ok c ∧ (c = 0 ↔ take 5 l = take 5 s).
Proof.
  intros Hs Hl Hlen. exists (compare_upto 5 s l).
  split; [by apply (strncmp_cstr m a filename s l 5); [..|lia]|].
  rewrite compare_upto_0 by (by eapply cstr_text). done.
Qed.

(** ** Writing and clearing a descriptor *)

Lemma set_operations_kind y filetype d m :
  0 ≤ filetype ≤ 2 →
  set_operations y filetype d m = wr32 m (file_operation_at d) (kind_at y (kind_of filetype)).
Proof.
  intros Hf. unfold set_operations, kind_of. case_z; try done. lia.
Qed.

(** The four words of a descriptor. *)
Definition words (d op ino pos fl : Z) (m : mem) : Prop :=
  rd32 m (file_operation_at d) = op ∧ rd32 m (fd_inode_at d) = ino ∧
  rd32 m (fileposition_at d) = pos ∧ rd32 m (flags_at d) = fl.

Ltac fields_at := unfold file_operation_at, file_name_at, fd_inode_at, fileposition_at, flags_at in *.

(** Storing a name leaves the words. *)
Lemma store_name m d src l op ino pos fl :
  cstr m src l → zlen l ≤ 31 → disjoint_regions d 48 src (zlen l + 1) → words d op ino pos fl m →
  returns (strcpy m (file_name_at d) src) (λ m',
    words d op ino pos fl m' ∧ cstr m' (file_name_at d) l ∧ same_except d 48 m m').
Proof.
  intros Hl Hlen Hd Hw. unfold disjoint_regions in Hd. eapply returns_mono.
  { apply (strcpy_cstr m (file_name_at d) src l Hl); [lia|]. unfold disjoint_regions. fields_at. lia. }
  intros m' Hm'. pose proof (wr_bytes_same_except _ _ _ _ Hm') as Hs.
  rewrite zlen_app in Hs. change (zlen [0]) with 1 in Hs. split_and!.
  - unfold words in *. fields_at.
    rewrite !(same_except_rd32 _ _ _ _ _ Hs) by (unfold disjoint_regions; lia). done.
  - by apply (wr_bytes_cstr m _ l m' (cstr_text _ _ _ Hl)).
  - eapply same_except_weaken; [exact Hs|fields_at; lia..].
Qed.

Lemma words_same_except d m m1 m2 m3 m4 :
  same_except d 48 m m1 → same_except d 48 m1 m2 → same_except d 48 m2 m3 →
  same_except d 48 m3 m4 → same_except d 48 m m4.
Proof. intros. by do 3 (eapply same_except_trans; [eassumption|]). Qed.

Lemma fill_words d op ino pos fl m :
  let m' := wr32 (wr32 (wr32 (wr32 m (file_operation_at d) op) (flags_at d) fl)
              (fd_inode_at d) ino) (fileposition_at d) pos in
  words d (u32 op) (u32 ino) (u32 pos) (u32 fl) m' ∧ same_except d 48 m m'.
Proof.
  cbn zeta. split.
  - unfold words. fields_at. by mach.
  - eapply words_same_except; apply same_except_wr32; fields_at; lia.
Qed.

Lemma clear_words d m :
  let m' := wr32 (wr32 (wr32 (wr32 m (fd_inode_at d) 0) (flags_at d) NOT_USE)
              (fileposition_at d) 0) (file_operation_at d) 0 in
  words d 0 0 0 NOT_USE m' ∧ same_except d 48 m m'.
Proof.
  cbn zeta. split.
  - unfold words. fields_at. mach. done.
  - eapply words_same_except; apply same_except_wr32; fields_at; lia.
Qed.

(** ** open *)

(** What open does to the table, on an image whose names are [ns]: the first
    five letters select a standard stream; otherwise the first entry of that
    name is opened in the first free slot. *)
Definition open_spec (m : mem) (f : fs) (ns : list (list Z)) (t : table) (l : list Z) : table * Z :=
  if decide (take 5 l = codes "stdin") then (t, 0)
  else if decide (take 5 l = codes "stdou") then (t, 0)
  else match l, list_find (λ n, n = l) ns with
  | _ :: _, Some (i, _) =>
      let d := dentry_at f (Z.of_nat i) in
      match first_free t with
      | Some n =>
          (<[n := Some (File (kind_of (rd32 m (filetype_at d))) l (rd32 m (inode_at d)) 0)]> t,
           Z.of_nat n)
      | None => (t, -1)
      end
  | _, _ => (t, -1)
  end.

(** A string of the caller, away from what the kernel uses. *)
Record user_string {D} (y : layout) (k : kernel D) (a : Z) (l : list Z) : Prop := {
  us_cstr : cstr (kmem k) a l;
  us_short : zlen l ≤ 31;
  us_apart : Forall (apart (a, zlen l + 1))
    (kernel_regions y (kmem k) (kfs (term k)) (current_pcb k))
}.

(** Opening a standard stream again writes back what is there. *)
Lemma reopen_spec {D} y ns t (k : kernel D) fd f :
  tables_ok y → world y ns t k → (fd < 8)%nat → t !! fd = Some (Some f) →
  let k' := reopen (Z.of_nat fd) (kind_at y (f_kind f)) k in
  k' = set_mem (kmem k') k ∧ world y ns t k' ∧
  changes_only [(current_pcb k, 1424)] (kmem k) (kmem k').
Proof.
  intros Hy Hw Hfd Ht. cbn zeta. set (d := descriptor k (Z.of_nat fd)).
  set (m' := kmem (reopen (Z.of_nat fd) (kind_at y (f_kind f)) k)).
  assert (changes_only [region_of (current_pcb k) (Z.of_nat fd)] (kmem k) m') as Hc.
  { apply (same_except_changes d 48); [|by left].
    eapply same_except_trans; apply same_except_wr32; fields_at; lia. }
  pose proof Hw as [Hi Htab Hstd _ Hsep _].
  assert (descriptor_is y m' d (Some f)) as Hd.
  { destruct Htab as [_ Htab]. destruct (Htab _ _ Ht) as (Hf & Hop & Hn & Hz & Hino & Hpos).
    pose proof (tables_range y Hy (f_kind f)) as Hr.
    change (file_array_at (current_pcb k) (Z.of_nat fd)) with d in *.
    change m' with (wr32 (wr32 (kmem k) (file_operation_at d) (kind_at y (f_kind f)))
      (flags_at d) USE). cbn [descriptor_is]. fields_at. mach.
    rewrite (u32_small (kind_at _ _)) by done. split_and!; try done.
    eapply (changes_same_cstr [(d, 4); (d + 44, 4)]); [|rewrite !Forall_cons; split_and!|exact Hn].
    - eapply changes_only_trans; eapply wr32_changes.
      + left.
      + done.
      + done.
      + right. left.
      + done.
      + done.
    - unfold apart, disjoint_regions. cbn. lia.
    - unfold apart, disjoint_regions. cbn. lia.
    - constructor. }
  assert (changes_only [(current_pcb k, 1424)] (kmem k) m') as Hc'.
  { apply (same_except_changes (current_pcb k) 1424); [|by left].
    eapply same_except_trans; apply same_except_wr32; unfold d, descriptor, file_array_at;
      fields_at; lia. }
  split_and!; [done| |done].
  apply (world_change y ns t t k [(current_pcb k, 1424)]); try done.
  - constructor; [|done]. eapply fixed_apart; [exact Hsep|]. cbn. set_solver.
  - rewrite <- (list_insert_id t fd (Some f)) by done.
    apply (fd_table_update y [] (kmem k)); [done|done|done|constructor|exact Hd].
  - apply Hw.
Qed.

Lemma set_mem_id {D} (k : kernel D) : set_mem (kmem k) k = k.
Proof. by destruct k as [[[] ? ? ? ?] ? ? ? ? ? ? ?]. Qed.

Lemma region_in_pcb (k : Z) fd : (fd < 8)%nat → k ≤ file_array_at k (Z.of_nat fd) ∧
  file_array_at k (Z.of_nat fd) + 48 ≤ k + 400.
Proof. unfold file_array_at. lia. Qed.

(** A change of one descriptor of the current process. *)
Lemma world_descriptor {D} y ns t (k : kernel D) n o m' :
  world y ns t k → (2 ≤ n < 8)%nat → from_disk o → named_file (kmem k) (kfs (term k)) ns o →
  same_except (descriptor k (Z.of_nat n)) 48 (kmem k) m' →
  descriptor_is y m' (descriptor k (Z.of_nat n)) o →
  world y ns (<[n := o]> t) (set_mem m' k) ∧ changes_only [(current_pcb k, 1424)] (kmem k) m'.
Proof.
  intros Hw Hn Hk Hname Hs Ho. pose proof Hw as [_ Htab Hstd Hnm Hsep _].
  destruct (region_in_pcb (current_pcb k) n) as [Hlo Hhi]; [lia|].
  assert (changes_only [(current_pcb k, 1424)] (kmem k) m') as Hc.
  { apply (same_except_changes (current_pcb k) 1424); [|by left].
    eapply same_except_weaken; [exact Hs|unfold descriptor; lia..]. }
  split; [|done]. apply (world_change y ns t _ k [(current_pcb k, 1424)]); [done|done| | | |].
  - constructor; [|done]. eapply fixed_apart; [exact Hsep|]. cbn. set_solver.
  - apply (fd_table_update y [] (kmem k)); [done|lia| |constructor|exact Ho].
    apply (same_except_changes _ _ _ _ _ Hs). by left.
  - apply standard_insert; [done|lia|done].
  - by apply Forall_insert.
Qed.

(** Filling the free slot [n] from the dentry at [open_temp]. *)
Lemma open_slot {D} y ns t (k : kernel D) filename l n ft ino :
  tables_ok y → world y ns t k → user_string y k filename l → (2 ≤ n < 8)%nat →
  rd32 (kmem k) (filetype_at (open_temp y)) = ft → 0 ≤ ft ≤ 2 →
  rd32 (kmem k) (inode_at (open_temp y)) = ino →
  named_file (kmem k) (kfs (term k)) ns (Some (File (kind_of ft) l ino 0)) →
  let d := descriptor k (Z.of_nat n) in
  let m := set_operations y ft d (kmem k) in
  let m := wr32 m (flags_at d) USE in
  let m := wr32 m (fd_inode_at d) (rd32 m (inode_at (open_temp y))) in
  let m := wr32 m (fileposition_at d) 0 in
  returns (strcpy m (file_name_at d) filename) (λ m',
    world y ns (<[n := Some (File (kind_of ft) l ino 0)]> t) (set_mem m' k) ∧
    changes_only [(current_pcb k, 1424)] (kmem k) m').
Proof.
  intros Hy Hw [Hl Hlen Hap] Hn Hft Hft' Hino Hname. cbn zeta. set (d := descriptor k (Z.of_nat n)).
  pose proof (w_separate _ _ _ _ Hw) as Hsep.
  destruct (region_in_pcb (current_pcb k) n) as [Hlo Hhi]; [lia|].
  pose proof (separate_apart _ 7 6 _ _ Hsep eq_refl eq_refl ltac:(lia)) as H76.
  pose proof (Forall_lookup_1 _ _ 6%nat _ Hap eq_refl) as Hus.
  unfold apart, disjoint_regions in H76, Hus. cbn [fst snd] in H76, Hus.
  rewrite set_operations_kind by done.
  set (m1 := wr32 (wr32 (kmem k) _ _) (flags_at d) USE).
  assert (rd32 m1 (inode_at (open_temp y)) = ino) as ->.
  { unfold m1, inode_at. fields_at. rewrite !rd32_wr32_ne by (unfold d, descriptor; lia). done. }
  destruct (fill_words d (kind_at y (kind_of ft)) ino 0 USE (kmem k)) as [Hwords Hsame].
  unfold m1. pose proof (tables_range y Hy (kind_of ft)) as Hr.
  assert (0 ≤ ino < 4294967296) as Hir by (subst ino; apply rd32_range).
  rewrite !u32_small in Hwords by done || lia.
  eapply returns_mono.
  { eapply (store_name _ d filename l); [|done| |exact Hwords].
    - eapply cstr_frame; [exact Hsame| |exact Hl].
      unfold disjoint_regions, d, descriptor. lia.
    - unfold disjoint_regions, d, descriptor. lia. }
  intros m' ((Ho & Hi & Hp & Hf) & Hc & Hs). apply world_descriptor; [done|done|apply kind_of_disk|done| |].
  - by eapply same_except_trans.
  - cbn. by split_and!.
Qed.

(** The dentry at [open_temp] is that of entry [i]. *)
Lemma open_dentry {D} y ns t (k : kernel D) m1 i l :
  world y ns t k → 0 ≤ i < 63 → dentry_is (kmem k) m1 (kfs (term k)) (open_temp y) i l →
  world y ns t (set_mem m1 k) ∧ changes_only [(open_temp y, 40)] (kmem k) m1.
Proof.
  intros Hw Hi (_ & _ & _ & Hs). pose proof Hw as [_ Htab Hstd Hnm Hsep _].
  assert (changes_only [(open_temp y, 40)] (kmem k) m1) as Hc
    by (apply (same_except_changes _ _ _ _ _ Hs); by left).
  split; [|done]. apply (world_change y ns t t k [(open_temp y, 40)]); [done|done| | |done|done].
  - constructor; [|done]. eapply fixed_apart; [exact Hsep|]. cbn. set_solver.
  - apply (fd_table_kept y [(open_temp y, 40)] (kmem k)); [done| |done].
    pose proof (separate_apart _ 6 7 _ _ Hsep eq_refl eq_refl ltac:(lia)) as H67.
    constructor; [|done]. eapply apart_part; [exact H67|lia..].
Qed.

Lemma user_string_kept {D} y ns t (k : kernel D) m1 a l rs :
  world y ns t k → user_string y k a l → changes_only rs (kmem k) m1 →
  rs ⊆ drop 5 (kernel_regions y (kmem k) (kfs (term k)) (current_pcb k)) →
  user_string y (set_mem m1 k) a l.
Proof.
  intros Hw [Hl Hz Hap] Hc Hsub. pose proof (w_separate _ _ _ _ Hw) as Hsep.
  assert (Forall (λ r, Forall (apart r) (fixed_regions y (kmem k) (kfs (term k)))) rs) as Hfix.
  { rewrite Forall_forall. intros r Hr. eapply fixed_apart; [exact Hsep|]. by apply Hsub. }
  constructor; [|done|].
  - eapply changes_same_cstr; [exact Hc| |exact Hl]. rewrite Forall_forall. intros r Hr.
    apply Hsub in Hr. rewrite Forall_forall in Hap. apply Hap.
    rewrite <- (take_drop 5 (kernel_regions _ _ _ _)), elem_of_app. by right.
  - change (Forall (apart (a, zlen l + 1))
      (kernel_regions y m1 (kfs (term k)) (current_pcb k))).
    by rewrite (kernel_regions_kept _ _ _ _ _ _ Hw Hc Hfix).
Qed.

(** What open stores agrees with the directory. *)
Lemma entry_named {D} y ns t (k : kernel D) m1 l i pos :
  world y ns t k → l ≠ [] → 0 ≤ i < 63 → list_find (λ n, n = l) ns = Some (Z.to_nat i, l) →
  dentry_is (kmem k) m1 (kfs (term k)) (open_temp y) i l →
  let d := dentry_at (kfs (term k)) i in
  named_file m1 (kfs (term k)) ns (Some (File (kind_of (rd32 (kmem k) (filetype_at d))) l
    (rd32 (kmem k) (inode_at d)) pos)).
Proof.
  intros Hw Hne Hi Hf (_ & _ & _ & Hs). cbn zeta. intros _. split; [done|]. exists (Z.to_nat i). split; [done|].
  pose proof (w_separate _ _ _ _ Hw) as Hsep. cbn [f_inode]. rewrite Z2Nat.id by lia.
  eapply (image_ok_kept y ns (kmem k) m1 _ [(open_temp y, 40)]); [apply Hw| | |done].
  - apply (same_except_changes _ _ _ _ _ Hs). by left.
  - constructor; [|done]. eapply fixed_apart; [exact Hsep|]. cbn. set_solver.
Qed.

Definition open_changes {D} (y : layout) (k : kernel D) : list (Z * Z) :=
  [(open_temp y, 40); (current_pcb k, 1424)].

(** [k'] is [k] with another memory and the table [t']. *)
Definition leads_to {D} (y : layout) (ns : list (list Z)) (k : kernel D) (t' : table)
    (rs : list (Z * Z)) (k' : kernel D) : Prop :=
  k' = set_mem (kmem k') k ∧ world y ns t' k' ∧ changes_only rs (kmem k) (kmem k').

Lemma leads_to_refl {D} y ns (k : kernel D) t rs : world y ns t k → leads_to y ns k t rs k.
Proof. intros Hw. split_and!; [by rewrite set_mem_id|done|apply changes_only_refl]. Qed.

Lemma leads_to_mono {D} y ns (k : kernel D) t rs rs' k' :
  leads_to y ns k t rs k' → rs ⊆ rs' → leads_to y ns k t rs' k'.
Proof. intros (? & ? & ?) ?. split_and!; [done..|]. by eapply changes_only_mono. Qed.

(** Once the name has been looked up. *)
Lemma open_found {D} y ns t (k : kernel D) m1 filename l i :
  tables_ok y → world y ns t k → user_string y k filename l → l ≠ [] → 0 ≤ i < 63 →
  list_find (λ n, n = l) ns = Some (Z.to_nat i, l) →
  dentry_is (kmem k) m1 (kfs (term k)) (open_temp y) i l →
  returns
    (vacant_fd ← find_vacant (set_mem m1 k);
     if vacant_fd =? -1 then Ok (set_mem m1 k, -1)
     else
       let d := descriptor (set_mem m1 k) vacant_fd in
       let m := set_operations y (rd32 m1 (filetype_at (open_temp y))) d m1 in
       let m := wr32 m (flags_at d) USE in
       let m := wr32 m (fd_inode_at d) (rd32 m (inode_at (open_temp y))) in
       let m := wr32 m (fileposition_at d) 0 in
       m ← strcpy m (file_name_at d) filename;
       Ok (set_mem m (set_mem m1 k), vacant_fd))
    (λ '(k', r), match first_free t with
      | Some n => r = Z.of_nat n ∧
          let d := dentry_at (kfs (term k)) i in
          leads_to y ns k (<[n := Some (File (kind_of (rd32 (kmem k) (filetype_at d))) l
            (rd32 (kmem k) (inode_at d)) 0)]> t) (open_changes y k) k'
      | None => r = -1 ∧ leads_to y ns k t (open_changes y k) k'
      end).
Proof.
  intros Hy Hw Hus Hne Hi Hfind Hd. destruct (open_dentry y ns t k m1 i l Hw Hi Hd) as [Hw1 Hc1].
  set (k1 := set_mem m1 k) in *. pose proof Hw1 as [_ Htab Hstd _ _ _].
  rewrite (find_vacant_spec y k1 t Htab Hstd), bind_Ok.
  destruct (first_free t) as [n|] eqn:Hff; cycle 1.
  { apply returns_Ok. split; [done|]. split_and!; [done|done|].
    eapply changes_only_mono; [exact Hc1|]. unfold open_changes. set_solver. }
  destruct (first_free_lt t n (proj1 Htab) Hstd Hff) as [Hn _].
  rewrite (proj2 (Z.eqb_neq _ _)) by lia. pose proof Hd as (_ & Hft & Hino & _).
  pose proof (io_types _ _ _ _ (w_image _ _ _ _ Hw) i Hi) as Hty.
  rewrite Hft. eapply returns_bind.
  { eapply (open_slot y ns t k1 filename l n); 
      [exact Hy|exact Hw1| |exact Hn|exact Hft|exact Hty|exact Hino|].
    2: { apply (entry_named y ns t k m1 l i); done. }
    apply (user_string_kept y ns t k m1 filename l [(open_temp y, 40)]); [done|done|done|].
    cbn. set_solver. }
  intros m' [Hw' Hc']. apply returns_Ok. split; [done|]. split_and!; [done|done|].
  eapply changes_only_trans; (eapply changes_only_mono; [eassumption|]); unfold open_changes;
    set_solver.
Qed.

(** The lookup, the empty name included. *)
Lemma lookup_entry {D} y ns t (k : kernel D) filename l :
  world y ns t k → user_string y k filename l →
  returns (read_dentry_by_name filename (open_temp y) (kmem k) (kfs (term k))) (λ '(m1, r),
    match l, list_find (λ n, n = l) ns with
    | _ :: _, Some (i, n) => r = SUCCESS ∧ (i < 63)%nat ∧ n = l ∧
        dentry_is (kmem k) m1 (kfs (term k)) (open_temp y) (Z.of_nat i) l
    | _, _ => r = FAIL ∧ m1 = kmem k
    end).
Proof.
  intros Hw [Hl Hz _]. pose proof Hw as [[[Hm Hns _ _] _ _ _ _] _ _ _ Hsep _].
  destruct l as [|c l0].
  - unfold read_dentry_by_name. rewrite (strlen_cstr _ _ _ Hl) by (cbn; lia).
    rewrite bind_Ok. by apply returns_Ok.
  - remember (c :: l0) as l eqn:El. assert (0 < zlen l) by (rewrite El; cbn; lia).
    eapply returns_mono.
    { apply (read_dentry_by_name_spec (boot_block_at y) (kmem k) _ Hm filename (open_temp y) l ns);
        [done|done|lia|]. intros i _. split; [done|]. unfold off_image. split.
      - exact (separate_apart _ 0 7 _ _ Hsep eq_refl eq_refl ltac:(lia)).
      - exact (separate_apart _ 1 7 _ _ Hsep eq_refl eq_refl ltac:(lia)). }
    intros [m1 r] Hr. destruct (list_find _ ns) as [[i n]|] eqn:Hf; [|by subst l].
    pose proof Hf as (Hi & Hnl & _)%list_find_Some. apply lookup_lt_Some in Hi.
    destruct Hns as [Hlen _]. destruct Hr. rewrite El. rewrite <- El. split_and!; [done|lia|done|done].
Qed.

Lemma open_refines_table {D} y ns t (k : kernel D) filename l :
  tables_ok y → world y ns t k → user_string y k filename l →
  returns (open y filename k) (λ '(k', r),
    let '(t', r') := open_spec (kmem k) (kfs (term k)) ns t l in
    r = r' ∧ leads_to y ns k t' (open_changes y k) k').
Proof.
  intros Hy Hw Hus. pose proof Hw as [Hi Htab (f0 & f1 & rest & Ht & K0 & K1 & _) _ Hsep _].
  destruct (compare_prefix _ _ filename _ l (io_stdin _ _ _ _ Hi) (us_cstr _ _ _ _ Hus))
    as (c0 & E0 & C0); [cbn; lia|].
  destruct (compare_prefix _ _ filename _ l (io_stdout _ _ _ _ Hi) (us_cstr _ _ _ _ Hus))
    as (c1 & E1 & C1); [cbn; lia|].
  unfold open, open_spec. rewrite E0, bind_Ok. change (take 5 (codes "stdin")) with (codes "stdin") in C0.
  change (take 5 (codes "stdout")) with (codes "stdou") in C1.
  assert (t !! 0%nat = Some (Some f0) ∧ t !! 1%nat = Some (Some f1)) as [T0 T1] by by rewrite Ht.
  assert (∀ fd f x, t !! fd = Some (Some f) → (fd < 8)%nat → f_kind f = x →
    leads_to y ns k t (open_changes y k) (reopen (Z.of_nat fd) (kind_at y x) k)) as Hre.
  { intros fd f x Hf Hfd <-. destruct (reopen_spec y ns t k fd f Hy Hw Hfd Hf) as (He & Hw' & Hc).
    split_and!; [exact He|exact Hw'|]. eapply changes_only_mono; [exact Hc|].
    unfold open_changes. set_solver. }
  destruct (Z.eqb_spec c0 0) as [Hc0|Hc0].
  { rewrite decide_True by tauto. apply returns_Ok. split; [done|]. by apply (Hre 0%nat f0 Stdin); [|lia|]. }
  rewrite decide_False, E1, bind_Ok by tauto. destruct (Z.eqb_spec c1 0) as [Hc1|Hc1].
  { rewrite decide_True by tauto. apply returns_Ok. split; [done|]. by apply (Hre 1%nat f1 Stdout); [|lia|]. }
  rewrite decide_False by tauto.
  eapply returns_bind; [by apply (lookup_entry y ns t)|]. intros [m1 r] Hr.
  assert (r = FAIL ∧ m1 = kmem k → returns (if r =? -1 then Ok (set_mem m1 k, -1) else Err Hang)
    (λ '(k', r), r = -1 ∧ leads_to y ns k t (open_changes y k) k')) as Hfail.
  { intros [-> ->]. apply returns_Ok. split; [done|]. rewrite set_mem_id. by apply leads_to_refl. }
  destruct l as [|ch l0]; [destruct Hr as [-> ->]; by apply Hfail|].
  destruct (list_find _ ns) as [[i n]|] eqn:Hfind; [|destruct Hr as [-> ->]; by apply Hfail].
  destruct Hr as (-> & Hlt & -> & Hd). cbv zeta. change (SUCCESS =? -1) with false. cbv iota.
  eapply returns_mono; [apply (open_found y ns t k m1 filename _ (Z.of_nat i) Hy Hw Hus);
    [done|lia|by rewrite Nat2Z.id|exact Hd]|].
  intros [k' r]. by destruct (first_free t).
Qed.

(** ** close *)

Definition close_spec (t : table) (fd : Z) : table * Z :=
  match t !! Z.to_nat fd with
  | Some (Some _) => if (2 <=? fd) && (fd <=? 7) then (<[Z.to_nat fd := None]> t, 0) else (t, -1)
  | _ => (t, -1)
  end.

Lemma close_kind x :
  x ∈ [Clock; Regular; Directory] →
  ∃ f, kind_ops x !! SLOT_CLOSE = Some (Some f) ∧ call_close f = Ok 0.
Proof.
  intros [->|[->|[->|[]%not_elem_of_nil]%elem_of_cons]%elem_of_cons]%elem_of_cons; by eexists.
Qed.

Lemma close_refines_table {D} y ns t (k : kernel D) fd :
  tables_ok y → world y ns t k →
  returns (close y fd k) (λ '(k', r),
    let '(t', r') := close_spec t fd in
    r = r' ∧ leads_to y ns k t' [(current_pcb k, 1424)] k').
Proof.
  intros Hy Hw. pose proof Hw as [Hi [Hlen Htab] Hstd _ Hsep _]. unfold close, close_spec.
  destruct (decide (2 ≤ fd ≤ 7)) as [Hfd|Hfd]; cycle 1.
  { replace ((fd <? 2) || (7 <? fd)) with true by (symmetry; apply orb_true_iff; lia).
    replace ((2 <=? fd) && (fd <=? 7)) with false by (symmetry; apply andb_false_iff; lia).
    apply returns_Ok. destruct (t !! Z.to_nat fd) as [[f|]|]; (split; [done|by apply leads_to_refl]). }
  rewrite (proj2 (Z.ltb_ge fd 2)), (proj2 (Z.ltb_ge 7 fd)) by lia.
  rewrite (proj2 (Z.leb_le 2 fd)), (proj2 (Z.leb_le fd 7)) by lia. cbn [orb andb].
  destruct (lookup_lt_is_Some_2 t (Z.to_nat fd)) as [o Ho]; [lia|]. rewrite Ho.
  pose proof (Htab _ _ Ho) as Hd. rewrite Z2Nat.id in Hd by lia. cbv zeta.
  unfold descriptor. destruct o as [f|]; cbn in Hd; cycle 1.
  { rewrite Hd. apply returns_Ok. split; [done|by apply leads_to_refl]. }
  destruct Hd as (-> & -> & _). change (USE =? USE) with true. cbv iota.
  rewrite (fetch_kind y _ _ Hy).
  destruct (close_kind (f_kind f)) as (g & -> & Hg); [by eapply standard_lookup; [| |done]; [|lia]|].
  rewrite bind_Ok, Hg, bind_Ok. set (d := file_array_at _ _).
  destruct (clear_words d (kmem k)) as [Hwords Hsame].
  pose proof (separate_apart _ 6 4 _ _ Hsep eq_refl eq_refl ltac:(lia)) as H64.
  destruct (region_in_pcb (current_pcb k) (Z.to_nat fd)) as [Hlo Hhi]; [lia|].
  rewrite Z2Nat.id in Hlo, Hhi by lia. unfold apart, disjoint_regions in H64. cbn [fst snd] in H64.
  eapply returns_bind.
  { eapply (store_name _ d (lit_empty y) []); [|cbn; lia| |exact Hwords].
    - eapply cstr_frame; [exact Hsame| |exact (io_empty _ _ _ _ Hi)].
      unfold disjoint_regions. cbn. unfold d. lia.
    - unfold disjoint_regions. cbn. unfold d. lia. }
  intros m' ((_ & _ & _ & Hf) & _ & Hs). apply returns_Ok. split; [done|].
  destruct (world_descriptor y ns t k (Z.to_nat fd) None m' Hw ltac:(lia) I I) as [Hw' Hc].
  - unfold descriptor. rewrite Z2Nat.id by lia. by eapply same_except_trans.
  - unfold descriptor. rewrite Z2Nat.id by lia. exact Hf.
  - by split_and!.
Qed.
