(* ===== verification/ReadWrite.v ===== *)
(** * Reading and writing through descriptors

    What read and write do to a process's table and memory, by the kind of the
    descriptor. *)

From S2P Require Import Prelude Memory LibString Ports Pic Rtc Console Keyboard Paging FileSys.
From S2P Require Import Process Syscall Descriptors.

(** ** Reading a file by name *)

(** The bytes a read of inode [k] at [pos] delivers, and its result. *)
Definition read_outcome (boot_at : Z) (m : mem) (f : fs) (k pos nbytes : Z) : list Z * Z :=
  if file_length m f k <=? pos then ([], 0)
  else
    let l := slice pos nbytes (content m f k) in
    (l, if dead_end boot_at m f k pos nbytes then -1 else zlen l).

Lemma image_ok_same y ns m f f' : fs_same f f' → image_ok y ns m f → image_ok y ns m f'.
Proof.
  intros Hf [Hfs ? ? ? ?]. pose proof (fs_ok_same _ _ _ _ _ Hf Hfs). destruct Hf as (n & e & o & ->).
  by constructor.
Qed.

Section by_name.
Context (boot_at : Z) (m : mem) (f : fs) (Hm : mounted boot_at m f).
Context (ns : list (list Z)) (Hns : names m f ns).
Context (name : Z) (l : list Z) (Hl : cstr m name l) (Hlen : 0 < zlen l ≤ 31).
Context (i : nat) (Hi : list_find (λ n, n = l) ns = Some (i, l)).

Lemma file_read_spec d buf offset nbytes :
  found_inode m f i < inodes_num boot_at m → off_image boot_at m f d 40 →
  off_image boot_at m f buf nbytes →
  0 ≤ offset < 4294967296 → 0 < nbytes < 2147483648 → name ≠ 0 → buf ≠ 0 →
  returns (file_read boot_at d buf offset nbytes name m f) (λ '(m', f', r),
    let '(bs, n) := read_outcome boot_at m f (found_inode m f i) offset nbytes in
    bytes m' buf (zlen bs) = bs ∧ zlen bs ≤ nbytes ∧ same_except2 d 40 buf (zlen bs) m m' ∧
    r = n ∧ fs_same f f' ∧ entry_counter f' = entry_counter f).
Proof.
  intros Hk Hd Hbuf Ho Hn Hname Hb. unfold file_read.
  rewrite (proj2 (Z.eqb_neq _ _) Hname), (proj2 (Z.eqb_neq _ _) Hb).
  rewrite (u32_small nbytes), (u32_small offset) by lia.
  rewrite (proj2 (Z.leb_gt nbytes 0)) by lia. cbn [orb]. unfold read_outcome.
  destruct (Z.leb_spec (file_length m f (found_inode m f i)) offset) as [Heof|Hlt].
  - eapply returns_bind.
    { apply (read_dentry_by_name_spec boot_at m f Hm name d l ns Hns Hl); [lia|]. intros. split; [lia|done]. }
    rewrite Hi. intros [m1 r1] (-> & Hc & _ & Hino & Hsame). change (SUCCESS =? -1) with false. cbv iota.
    fold (found_inode m f i) in Hino. rewrite Hino.
    pose proof (same_except_image boot_at m f m1 d 40 Hsame Hd) as Hkept.
    destruct (mounted_kept boot_at m f m1 Hm Hkept) as (Hm1 & Hcont & _).
    assert (file_length m1 f (found_inode m f i) = file_length m f (found_inode m f i)) as Hfl.
    { rewrite <- !zlen_content, Hcont; [done|]. split; [apply rd32_range|done]. }
    unfold read_data. unfold file_length in Hfl, Heof. rewrite Hfl.
    rewrite (proj2 (Z.leb_le _ _)) by lia. apply returns_Ok. cbn [length].
    split_and!; [by apply bytes_0|lia| |done|apply fs_same_refl|done].
    intros x ??. by apply Hsame.
  - eapply returns_mono.
    { apply (read_found boot_at m f Hm ns Hns name l Hl ltac:(lia) i Hi ltac:(lia) Hk d Hd buf offset nbytes);
        [lia|lia|]. unfold off_image, disjoint_regions, readable in *. lia. }
    intros [[m' f'] r] (Hbytes & Hs & Hr). set (bs := slice _ _ _) in *.
    assert (zlen bs ≤ nbytes).
    { unfold bs. rewrite zlen_slice; rewrite ?zlen_content; lia. }
    split_and!; [done|done|done|..]; destruct (dead_end _ _ _ _ _ _); destruct Hr as [-> ->];
      first [done | apply fs_same_refl | apply fs_same_length].
Qed.
End by_name.

(** ** read on a regular file *)

Definition set_pos (pos : Z) (x : file) : file := File (f_kind x) (f_name x) (f_inode x) pos.

(** A buffer of the caller, away from what the kernel uses. *)
Definition user_buffer {D} (y : layout) (k : kernel D) (a n : Z) : Prop :=
  a ≠ 0 ∧ Forall (apart (a, n)) (kernel_regions y (kmem k) (kfs (term k)) (current_pcb k)).

(** [k'] is [k] with other memory and file system counters, and the table [t']. *)
Definition leads_to_fs {D} (y : layout) (ns : list (list Z)) (k : kernel D) (t' : table)
    (rs : list (Z * Z)) (k' : kernel D) : Prop :=
  (∃ f', fs_same (kfs (term k)) f' ∧ k' = set_kfs f' (set_mem (kmem k') k)) ∧
  world y ns t' k' ∧ changes_only rs (kmem k) (kmem k').

Lemma world_fs {D} y ns t (k : kernel D) f' :
  fs_same (kfs (term k)) f' → world y ns t k → world y ns t (set_kfs f' k).
Proof.
  intros Hf [Hi Ht Hs Hn Hsep Hcnt].
  destruct Hf as (n & e & o & Ef).
  constructor; [apply (image_ok_same _ _ _ (kfs (term k)) f'); [by exists n, e, o|done]|..];
    rewrite ?Ef; done.
Qed.

(** What a read of a file may change. *)
Definition read_changes {D} (y : layout) (k : kernel D) (buf n : Z) : list (Z * Z) :=
  [(file_read_dentry y, 40); (buf, n); (current_pcb k, 1424)].

Lemma off_image_regions {D} y (k : kernel D) a n :
  Forall (apart (a, n)) (take 2 (kernel_regions y (kmem k) (kfs (term k)) (current_pcb k))) →
  off_image (boot_block_at y) (kmem k) (kfs (term k)) a n.
Proof.
  intros [H0 [H1 _]%Forall_cons]%Forall_cons. by split; apply apart_sym in H0, H1.
Qed.

(** The call of file_read with a descriptor's name and position. *)
Lemma file_read_descriptor {D} y ns t (k : kernel D) fd x buf nbytes :
  world y ns t k → t !! fd = Some (Some x) → f_kind x = Regular →
  0 < nbytes < 2147483648 → user_buffer y k buf nbytes →
  returns (file_read (boot_block_at y) (file_read_dentry y) buf (f_pos x) nbytes
             (file_name_at (descriptor k (Z.of_nat fd))) (kmem k) (kfs (term k)))
    (λ '(m', f', r),
      let '(bs, n) := read_outcome (boot_block_at y) (kmem k) (kfs (term k)) (f_inode x)
                        (f_pos x) nbytes in
      bytes m' buf (zlen bs) = bs ∧ zlen bs ≤ nbytes ∧
      changes_only [(file_read_dentry y, 40); (buf, nbytes)] (kmem k) m' ∧ r = n ∧
      fs_same (kfs (term k)) f' ∧ entry_counter f' = entry_counter (kfs (term k))).
Proof.
  intros Hw Ht Hk Hn [Hb Hap]. pose proof Hw as [Hi Htab Hstd Hnm Hsep Hcnt].
  destruct (Forall_lookup_1 _ _ _ _ Hnm Ht Hk) as (Hne & i & Hf & Hino).
  destruct Htab as [_ Htab]. destruct (Htab _ _ Ht) as (_ & _ & Hname & Hz & _ & Hpos).
  pose proof (rd32_range (kmem k) (fileposition_at (file_array_at (current_pcb k) (Z.of_nat fd)))).
  assert (0 < current_pcb k) by (unfold current_pcb; rewrite pcb_at_eq; lia).
  assert (i < 63)%nat as Hi63.
  { pose proof Hf as (Hx & _)%list_find_Some. apply lookup_lt_Some in Hx.
    destruct (fs_names _ _ _ _ (io_fs _ _ _ _ Hi)). lia. }
  assert (zlen (f_name x) ≠ 0) by (destruct (f_name x); cbn; [done|lia]).
  fold (found_inode (kmem k) (kfs (term k)) i) in Hino.
  eapply returns_mono.
  { apply (file_read_spec (boot_block_at y) _ _ (fs_mounted _ _ _ _ (io_fs _ _ _ _ Hi)) ns (fs_names _ _ _ _ (io_fs _ _ _ _ Hi))
      _ (f_name x) Hname ltac:(lia) i Hf); try lia.
    - apply (fs_inodes _ _ _ _ (io_fs _ _ _ _ Hi)). lia.
    - apply off_image_regions. cbn. rewrite !Forall_cons. split_and!; [| |done].
      + exact (separate_apart _ 8 0 _ _ Hsep eq_refl eq_refl ltac:(lia)).
      + exact (separate_apart _ 8 1 _ _ Hsep eq_refl eq_refl ltac:(lia)).
    - by apply off_image_regions, Forall_take.
    - unfold descriptor, file_array_at, file_name_at. lia. }
  intros [[m' f'] r]. rewrite Hino. destruct (read_outcome _ _ _ _ _ _) as [bs n].
  intros (Hbytes & Hle & Hs & Hr & Hf'). split_and!; [done|done| |done|apply Hf'|apply Hf'].
  intros a Ha. apply Forall_cons in Ha as [Ha1 Ha]. apply Forall_cons in Ha as [Ha2 _].
  unfold inside in *. cbn in *. apply Hs; lia.
Qed.

(** Advancing the position of descriptor [fd]. *)
Lemma world_advance {D} y ns t (k : kernel D) fd x pos :
  world y ns t k → t !! fd = Some (Some x) →
  world y ns (<[fd := Some (set_pos (u32 pos) x)]> t)
    (set_mem (wr32 (kmem k) (fileposition_at (descriptor k (Z.of_nat fd))) (u32 pos)) k) ∧
  changes_only [(current_pcb k, 1424)] (kmem k)
    (wr32 (kmem k) (fileposition_at (descriptor k (Z.of_nat fd))) (u32 pos)).
Proof.
  intros Hw Ht. pose proof Hw as [_ Htab Hstd Hnm Hsep _]. set (d := descriptor k (Z.of_nat fd)).
  assert (fd < 8)%nat as Hfd by (pose proof (lookup_lt_Some _ _ _ Ht); destruct Htab; lia).
  destruct (region_in_pcb (current_pcb k) fd Hfd) as [Hlo Hhi].
  set (m' := wr32 _ _ _).
  assert (same_except (d + 40) 4 (kmem k) m') as Hs by (apply same_except_wr32; fields_at; lia).
  assert (changes_only [(current_pcb k, 1424)] (kmem k) m') as Hc.
  { apply (same_except_changes (current_pcb k) 1424); [|by left].
    eapply same_except_weaken; [exact Hs|unfold d, descriptor; lia..]. }
  split; [|done]. apply (world_change y ns t _ k [(current_pcb k, 1424)]); [done|done| | | |].
  - constructor; [|done]. eapply fixed_apart; [exact Hsep|]. cbn. set_solver.
  - apply (fd_table_update y [] (kmem k)); [done|done| |constructor|].
    + apply (same_except_changes d 48); [|by left]. eapply same_except_weaken; [exact Hs|lia..].
    + destruct Htab as [_ Htab]. destruct (Htab _ _ Ht) as (Hf & Hop & Hn & Hz & Hino & _).
      change (file_array_at (current_pcb k) (Z.of_nat fd)) with d in *.
      cbn. fields_at. rewrite !(same_except_rd32 _ _ _ _ _ Hs) by (unfold disjoint_regions; lia).
      split_and!; try done.
      * eapply cstr_frame; [exact Hs|unfold disjoint_regions; lia|done].
      * unfold m'. rewrite rd32_wr32_eq. apply u32_small, u32_range.
  - destruct Hstd as (f0 & f1 & rest & -> & K0 & K1 & Hrest).
    destruct fd as [|[|fd]]; cbn in *; simplify_eq.
    + by exists (set_pos (u32 pos) x), f1, rest.
    + by exists f0, (set_pos (u32 pos) x), rest.
    + exists f0, f1, (<[fd := Some (set_pos (u32 pos) x)]> rest). split_and!; [done..|].
      apply Forall_insert; [done|]. by apply (Forall_lookup_1 _ _ _ _ Hrest Ht).
  - apply Forall_insert; [done|]. by apply (Forall_lookup_1 _ _ _ _ Hnm Ht).
Qed.

(** Changes that spare the control block and the fixed regions. *)
Definition spares {D} (y : layout) (k : kernel D) (r : Z * Z) : Prop :=
  Forall (apart r) (fixed_regions y (kmem k) (kfs (term k))) ∧ apart r (current_pcb k, 1424).

Lemma world_spare {D} y ns t (k : kernel D) rs m' :
  world y ns t k → changes_only rs (kmem k) m' → Forall (spares y k) rs →
  world y ns t (set_mem m' k).
Proof.
  intros Hw Hc Ha. pose proof Hw as [_ Htab Hstd Hnm _ _].
  apply (world_change y ns t t k rs); [done|done| | |done|done].
  - eapply Forall_impl; [exact Ha|]. by intros r [Hr _].
  - apply (fd_table_kept y rs (kmem k)); [done| |done]. eapply Forall_impl; [exact Ha|].
    intros r [_ Hr]. eapply apart_part; [apply apart_sym, Hr|lia..].
Qed.

(** The regions of the kernel that spare the table, and the caller's buffers. *)
Lemma region_spares {D} y ns t (k : kernel D) i r :
  world y ns t k → (i = 5 ∨ i = 7 ∨ i = 8)%nat →
  kernel_regions y (kmem k) (kfs (term k)) (current_pcb k) !! i = Some r → spares y k r.
Proof.
  intros Hw Hi Hr. pose proof (w_separate _ _ _ _ Hw) as Hsep. split.
  - apply (fixed_apart y _ _ (current_pcb k)); [exact Hsep|].
    apply (list_elem_of_lookup_2 _ (i - 5)). rewrite lookup_drop.
    by replace (5 + (i - 5))%nat with i by lia.
  - by apply (separate_apart _ i 6 _ _ Hsep Hr eq_refl); lia.
Qed.

Lemma buffer_spares {D} y (k : kernel D) a n : user_buffer y k a n → spares y k (a, n).
Proof.
  intros [_ Hb]. split; [exact (Forall_take _ 5 _ Hb)|exact (Forall_lookup_1 _ _ 6%nat _ Hb eq_refl)].
Qed.

(** The two halves of read on an open descriptor: the call through the table,
    and the step of the position. *)
Lemma read_through `{PortIO D, Hotkeys D fs} y ns t (k : kernel D) fd x buf nbytes sched f :
  tables_ok y → world y ns t k → t !! fd = Some (Some x) → buf ≠ 0 →
  kind_ops (f_kind x) !! SLOT_READ = Some (Some f) →
  read y (Z.of_nat fd) buf nbytes sched k =
    '(k1, bytes, rest) ← call_read y f buf (f_pos x) nbytes
                           (file_name_at (descriptor k (Z.of_nat fd))) sched k;
    let m := kmem k1 in
    let d := descriptor k (Z.of_nat fd) in
    Ok (set_mem (wr32 m (fileposition_at d) (u32 (rd32 m (fileposition_at d) + bytes))) k1,
        bytes, rest).
Proof.
  intros Hy Hw Ht Hb Hk. pose proof Hw as [_ [Hlen Htab] _ _ _ _].
  assert (fd < 8)%nat as Hfd by (pose proof (lookup_lt_Some _ _ _ Ht); lia).
  unfold read. rewrite (proj2 (Z.ltb_ge (Z.of_nat fd) 0)), (proj2 (Z.ltb_ge 7 (Z.of_nat fd))) by lia.
  rewrite (proj2 (Z.eqb_neq buf 0)) by done. cbn [orb]. cbv zeta.
  destruct (Htab _ _ Ht) as (Hf & Hop & _ & _ & _ & Hpos).
  change (file_array_at (current_pcb k) (Z.of_nat fd)) with (descriptor k (Z.of_nat fd)) in *.
  rewrite Hf, Hop, Hpos, (fetch_kind y _ _ Hy), Hk. change (USE =? 0) with false. cbv iota.
  by rewrite bind_Ok.
Qed.

Lemma read_step {D} y ns t (k k1 : kernel D) fd x r rs :
  world y ns t k1 → counter k1 = counter k → t !! fd = Some (Some x) →
  changes_only rs (kmem k) (kmem k1) →
  let d := descriptor k (Z.of_nat fd) in
  let m' := wr32 (kmem k1) (fileposition_at d) (u32 (rd32 (kmem k1) (fileposition_at d) + r)) in
  world y ns (<[fd := Some (set_pos (u32 (f_pos x + r)) x)]> t) (set_mem m' k1) ∧
  changes_only [(current_pcb k, 1424)] (kmem k1) m' ∧
  changes_only (rs ++ [(current_pcb k, 1424)]) (kmem k) m' ∧
  (∀ a n, apart (a, n) (current_pcb k, 1424) → bytes m' a n = bytes (kmem k1) a n).
Proof.
  intros Hw1 Hcnt Ht Hc. cbn zeta.
  assert (descriptor k (Z.of_nat fd) = descriptor k1 (Z.of_nat fd)) as ->
    by (unfold descriptor, current_pcb; by rewrite Hcnt).
  assert (current_pcb k = current_pcb k1) as -> by (unfold current_pcb; by rewrite Hcnt).
  assert (rd32 (kmem k1) (fileposition_at (descriptor k1 (Z.of_nat fd))) = f_pos x) as ->.
  { destruct (w_table _ _ _ _ Hw1) as [_ Htab]. by destruct (Htab _ _ Ht) as (_ & _ & _ & _ & _ & ?). }
  destruct (world_advance y ns t k1 fd x (f_pos x + r) Hw1 Ht) as [Hw2 Hc2].
  split_and!; [exact Hw2|exact Hc2| |].
  - eapply changes_only_trans; (eapply changes_only_mono; [eassumption|]); set_solver.
  - intros a n Ha. apply (changes_same_bytes _ _ _ _ _ Hc2). by constructor.
Qed.

Lemma read_regular_spec `{PortIO D, Hotkeys D fs} y ns t (k : kernel D) fd x buf nbytes sched :
  tables_ok y → world y ns t k → t !! fd = Some (Some x) → f_kind x = Regular →
  0 < nbytes < 2147483648 → user_buffer y k buf nbytes →
  returns (read y (Z.of_nat fd) buf nbytes sched k) (λ '(k', r, rest),
    let '(bs, n) := read_outcome (boot_block_at y) (kmem k) (kfs (term k)) (f_inode x)
                      (f_pos x) nbytes in
    rest = sched ∧ r = n ∧ bytes (kmem k') buf (zlen bs) = bs ∧ zlen bs ≤ nbytes ∧
    entry_counter (kfs (term k')) = entry_counter (kfs (term k)) ∧
    leads_to_fs y ns k (<[fd := Some (set_pos (u32 (f_pos x + n)) x)]> t)
      (read_changes y k buf nbytes) k').
Proof.
  intros Hy Hw Ht Hk Hn Hb.
  rewrite (read_through y ns t k fd x buf nbytes sched File_read Hy Hw Ht (proj1 Hb)) by (by rewrite Hk).
  cbn [call_read]. unfold fs_call.
  destruct (file_read_descriptor y ns t k fd x buf nbytes Hw Ht Hk Hn Hb) as ([[m' f'] r] & -> & Hres).
  rewrite !bind_Ok. destruct (read_outcome _ _ _ _ _ _) as [bs n].
  destruct Hres as (Hbytes & Hle & Hc & -> & Hf' & Hec). apply returns_Ok.
  set (k1 := set_kfs f' (set_mem m' k)).
  assert (world y ns t k1) as Hw1.
  { apply world_fs; [done|].
    apply (world_spare y ns t k [(file_read_dentry y, 40); (buf, nbytes)]); [done|done|].
    rewrite !Forall_cons. split_and!; [|by apply buffer_spares|done].
    by apply (region_spares y ns t k 8 _ Hw); [lia|]. }
  destruct (read_step y ns t k k1 fd x n _ Hw1 eq_refl Ht Hc) as (Hw2 & _ & Hc2 & Hsame).
  split_and!; [done|done| |done|exact Hec|split_and!; [by exists f'|exact Hw2|exact Hc2]].
  rewrite <- Hbytes at 2. apply Hsame. destruct Hb as [_ Hb].
  pose proof (Forall_lookup_1 _ _ 6%nat _ Hb eq_refl) as H6. eapply apart_part; [exact H6|lia..].
Qed.

(** ** read on a directory *)

(** The next name of the directory, or the end; the position among the names
    is one global of files.c.  The call clears 33 bytes whatever [nbytes] is. *)
Lemma read_directory_spec `{PortIO D, Hotkeys D fs} y ns t (k : kernel D) fd x buf nbytes sched :
  tables_ok y → world y ns t k → t !! fd = Some (Some x) → f_kind x = Directory →
  user_buffer y k buf SBUFSIZE →
  let c := entry_counter (kfs (term k)) in
  let num := s32 (dentries_num (boot_block_at y) (kmem k)) in
  0 ≤ c → num ≤ 63 →
  returns (read y (Z.of_nat fd) buf nbytes sched k) (λ '(k', r, rest),
    let '(l, r', c') := if num <=? c then ([], 0, 0) else
      let n := ns !!! Z.to_nat c in (n, Z.min 32 (zlen n), c + 1) in
    rest = sched ∧ r = r' ∧ entry_counter (kfs (term k')) = c' ∧
    bytes (kmem k') buf SBUFSIZE = listed l ∧
    leads_to_fs y ns k (<[fd := Some (set_pos (u32 (f_pos x + r)) x)]> t)
      [(buf, SBUFSIZE); (current_pcb k, 1424)] k').
Proof.
  intros Hy Hw Ht Hk Hb c num Hc0 Hnum. pose proof (io_fs _ _ _ _ (w_image _ _ _ _ Hw)) as Hf.
  pose proof (fs_mounted _ _ _ _ Hf) as Hm.
  rewrite (read_through y ns t k fd x buf nbytes sched Directory_read Hy Hw Ht (proj1 Hb)) by (by rewrite Hk).
  cbn [call_read]. unfold fs_call.
  assert (off_image (boot_block_at y) (kmem k) (kfs (term k)) buf SBUFSIZE) as Hoff.
  { apply off_image_regions, Forall_take. by destruct Hb. }
  assert (∀ n, c < num → n = c → ∃ l, cstr (kmem k) (dentry_at (kfs (term k)) n) l ∧ zlen l < 64) as Hnames.
  { intros n Hn ->. destruct (fs_names _ _ _ _ Hf) as [Hlen Hcs].
    destruct (lookup_lt_is_Some_2 ns (Z.to_nat c)) as [l Hl]; [lia|]. exists l. split.
    - pose proof (proj1 (Hcs _ _ Hl)) as Hat. by rewrite Z2Nat.id in Hat by lia.
    - exact (Forall_lookup_1 _ _ _ _ (fs_short _ _ _ _ Hf) Hl). }
  pose proof (directory_read_spec (boot_block_at y) (kmem k) (kfs (term k)) Hm buf Hoff (f_pos x) nbytes
    (file_name_at (descriptor k (Z.of_nat fd))) Hc0 Hnum Hnames) as ([[m' f'] r] & -> & Hres).
  rewrite !bind_Ok. apply returns_Ok. fold c num in Hres. set (k1 := set_kfs f' (set_mem m' k)).
  assert (∃ l, listing buf l (kmem k) m' ∧ fs_same (kfs (term k)) f' ∧
    (l, r, entry_counter f') = if num <=? c then ([], 0, 0) else
      let n := ns !!! Z.to_nat c in (n, Z.min 32 (zlen n), c + 1)) as (l & Hl & Hf' & E).
  { destruct (Z.leb_spec num c).
    - destruct Hres as (Hl & -> & ->). exists []. split_and!; [done|apply fs_same_counter|done].
    - destruct Hres as (l & Hcs & Hl & -> & ->). exists l. split_and!; [done|apply fs_same_counter|].
      destruct (fs_names _ _ _ _ Hf) as [Hlen Hn].
      destruct (lookup_lt_is_Some_2 ns (Z.to_nat c)) as [l' Hl']; [lia|].
      pose proof (proj1 (Hn _ _ Hl')) as Hat. rewrite Z2Nat.id in Hat by lia.
      cbv zeta. rewrite (list_lookup_total_correct _ _ _ Hl').
      by rewrite (cstr_unique _ _ _ _ Hcs Hat). }
  destruct (if num <=? c then _ else _) as [[l' r'] c']. injection E as -> -> Ec.
  assert (changes_only [(buf, SBUFSIZE)] (kmem k) m') as Hch.
  { apply (same_except_changes buf SBUFSIZE); [by eapply overlay_same_except|by left]. }
  assert (world y ns t k1) as Hw1.
  { apply world_fs; [done|]. apply (world_spare y ns t k [(buf, SBUFSIZE)]); [done|done|].
    constructor; [by apply buffer_spares|done]. }
  destruct (read_step y ns t k k1 fd x r' _ Hw1 eq_refl Ht Hch) as (Hw2 & _ & Hc2 & Hsame).
  split_and!; [done|done|exact Ec| |split_and!; [by exists f'|exact Hw2|exact Hc2]].
  rewrite <- (listing_bytes _ _ _ _ Hl). apply Hsame. destruct Hb as [_ Hb].
  exact (Forall_lookup_1 _ _ 6%nat _ Hb eq_refl).
Qed.

(** ** write *)

(** The memory part of a call spares the terminal. *)
Lemma represents_mem {D} (k k' : kernel D) m' rs tt :
  represents (kcon (term k)) (kline (term k)) tt → changes_only rs (kmem k) m' →
  Forall (apart (VIDEO, page_size)) rs → kcon (term k') = set_vmem m' (kcon (term k)) →
  kline (term k') = kline (term k) → represents (kcon (term k')) (kline (term k')) tt.
Proof.
  intros [Hs ? ? ? ? ? ? ? ?] Hc Ha -> ->. constructor; try done.
  apply shows_kept; [done|]. intros a Hv. apply Hc. by eapply apart_not_inside.
Qed.

Lemma world_ext {D} y ns t (k1 k2 : kernel D) :
  kmem k1 = kmem k2 → kfs (term k1) = kfs (term k2) → counter k1 = counter k2 →
  world y ns t k1 → world y ns t k2.
Proof.
  intros Hm Hf Hc [Hi Ht Hs Hn Hsep Hcnt]. unfold current_pcb in *. rewrite Hm, Hf, Hc in *.
  by constructor; unfold current_pcb.
Qed.

(** A change of the terminal that spares all memory but the video page. *)
Lemma world_term {D} y ns t (k : kernel D) t' :
  world y ns t k → outside_video (kmem k) (vmem (kcon t')) → kfs t' = kfs (term k) →
  world y ns t (set_term t' k).
Proof.
  intros Hw Hc Hf. pose proof (w_separate _ _ _ _ Hw) as Hsep.
  apply (world_ext y ns t (set_mem (vmem (kcon t')) k)); [done|done|done|].
  apply (world_spare y ns t k [(VIDEO, page_size)]); [done| |].
  - apply (same_except_changes _ _ _ _ _ Hc). by left.
  - constructor; [|done]. by apply (region_spares y ns t k 5 _ Hw); [lia|].
Qed.

(** Writing to the screen through descriptor [fd]. *)
Lemma write_stdout_spec `{PortIO D, Hotkeys D fs} y ns t (k : kernel D) fd x buf nbytes tt :
  tables_ok y → world y ns t k → t !! fd = Some (Some x) → f_kind x = Stdout →
  buf ≠ 0 → represents (kcon (term k)) (kline (term k)) tt →
  0 ≤ nbytes → nbytes + zlen (typed tt) ≤ BUF_SIZE →
  returns (write y (Z.of_nat fd) buf nbytes k) (λ '(k', r),
    r = nbytes + zlen (typed tt) ∧ world y ns t k' ∧ k' = set_term (term k') k ∧
    kfs (term k') = kfs (term k) ∧ kmods (term k') = kmods (term k) ∧
    outside_video (kmem k) (kmem k') ∧
    represents (kcon (term k')) (kline (term k'))
      (Tty (show (written (bytes (kmem k) buf nbytes) (typed tt)) (t_screen tt))
         [] (stored tt) (ready tt) 0)).
Proof.
  intros Hy Hw Ht Hk Hb Hrep Hn Hmax. pose proof Hw as [_ [Hlen Htab] _ _ _ _].
  assert (fd < 8)%nat as Hfd by (pose proof (lookup_lt_Some _ _ _ Ht); lia).
  unfold write. rewrite (proj2 (Z.ltb_ge (Z.of_nat fd) 0)), (proj2 (Z.ltb_ge 7 (Z.of_nat fd))) by lia.
  rewrite (proj2 (Z.eqb_neq buf 0)) by done. cbn [orb]. cbv zeta.
  destruct (Htab _ _ Ht) as (Hf & Hop & _).
  change (file_array_at (current_pcb k) (Z.of_nat fd)) with (descriptor k (Z.of_nat fd)) in *.
  rewrite Hf, Hop, (fetch_kind y _ _ Hy), Hk. change (USE =? 0) with false. cbv iota.
  change (kind_ops Stdout !! SLOT_WRITE) with (Some (Some Terminal_write)). cbv iota.
  rewrite bind_Ok. cbn [call_write]. eapply returns_bind.
  { exact (terminal_write_prints (Z.of_nat fd) buf nbytes (term k) tt Hrep Hn Hmax). }
  intros [t' n] (-> & Hrep' & Hout & Hmods & Hfs). apply returns_Ok.
  split_and!; [done| |done|done|exact Hmods|exact Hout|exact Hrep']. by apply world_term.
Qed.
