(* ===== verification/Typing.v ===== *)
(** * From the keyboard's queue to a read of descriptor 0

    The scancodes a user types wait in the keyboard controller; every
    interrupt of the schedule takes one.  A read of the terminal returns the
    line they spell. *)

From S2P Require Import Prelude Memory LibString Ports Pic Rtc Console Keyboard Paging FileSys.
From S2P Require Import Process Syscall Descriptors ReadWrite.

(** The controller behind ports 0x60 and 0x64: reading its data port takes the
    next scancode, and other devices leave the queue alone. *)
Class KeyQueue (D : Type) `{PortIO D} := {
  key_queue : D → list Z;
  key_next ch q d : key_queue d = ch :: q →
    fst (dev_in KEYBOARD_PORT d) = ch ∧ key_queue (snd (dev_in KEYBOARD_PORT d)) = q;
  key_out v p d : p ≠ 0x60 → p ≠ 0x64 → key_queue (dev_out v p d) = key_queue d
}.

#[export] Program Instance trace_keys : KeyQueue trace := { key_queue := answers }.
Next Obligation. intros ch q d E. cbn. by rewrite E. Qed.
Next Obligation. done. Qed.

Section driver.
Context `{PortIO D, !KeyQueue D, Hotkeys D F}.
Implicit Types (k : kb D F) (c : con D).

(** No port the driver writes is the controller's. *)
Lemma queue_outb v p (d : D) : 0 ≤ p < 65536 → p ≠ 0x60 → p ≠ 0x64 → key_queue (outb v p d) = key_queue d.
Proof. intros Hp H1 H2. unfold outb. rewrite u16_small by done. by apply key_out. Qed.

Lemma queue_cursor c : key_queue (dev (update_terminal_cursor c)) = key_queue (dev c).
Proof. unfold update_terminal_cursor. cbn [dev]. by rewrite !queue_outb by lia. Qed.

Lemma queue_eoi n (d : D) : key_queue (send_eoi n d) = key_queue d.
Proof.
  unfold send_eoi, MASTER_8259_PORT, SLAVE_8259_PORT. repeat case_match; by rewrite ?queue_outb by lia.
Qed.

Lemma putc_dev ch c : dev (putc ch c) = dev c.
Proof. unfold putc, terminal_scroll_down. repeat case_match; done. Qed.

Lemma back_space_dev c : dev (back_space c) = dev c.
Proof. unfold back_space, blank_cursor. repeat case_match; done. Qed.

Lemma process_queue ch k k' :
  (∀ n, decode (update_mods ch (kmods k)) ch ≠ KeyCommand n) → process_keyboard_input ch k = Ok k' →
  key_queue (dev (kcon k')) = key_queue (dev (kcon k)).
Proof.
  intros Hd. unfold process_keyboard_input. set (m := update_mods ch (kmods k)) in *.
  change (kmods (set_mods m k)) with m.
  assert (∀ n, 2 ≤ n ≤ 4 → ctrl_held m && (ch =? n) = false) as Hnc.
  { intros n Hn. destruct (ctrl_held m && (ch =? n)) eqn:E; [|done]. exfalso.
    apply andb_true_iff in E as [Ec ->%Z.eqb_eq]. apply (Hd n). unfold decode. rewrite Ec.
    rewrite (proj2 (Z.eqb_neq n 0x26)), (proj2 (Z.leb_le 2 n)), (proj2 (Z.leb_le n 4)) by lia. done. }
  rewrite (Hnc 2), (Hnc 3), (Hnc 4) by lia. destruct (ctrl_held m && (ch =? 0x26)); [intros [= <-]; exact (queue_cursor _)|].
  destruct (0x3A <? ch); [by intros [= <-]|].
  intros (base & _ & E)%res_bind_Ok. revert E.
  destruct (base =? 10).
  { unfold enter_key. intros ([l i] & _ & (b & _ & [= <-])%res_bind_Ok)%res_bind_Ok.
    cbn [kcon set_line set_con]. by rewrite queue_cursor, putc_dev. }
  destruct ((base =? 8) && (0 <? backspacable_counter (kline (set_mods m k)))).
  { unfold backspace_key. destruct (0 <? _).
    - intros (b & _ & [= <-])%res_bind_Ok. cbn [kcon set_line set_con]. by rewrite queue_cursor, back_space_dev.
    - intros [= <-]. cbn [kcon set_line set_con]. by rewrite queue_cursor, back_space_dev. }
  destruct (base =? 8); [by intros [= <-]|].
  destruct (base =? 9).
  { intros [= <-]. cbn [tab_key kcon set_line set_con]. by rewrite queue_cursor, !putc_dev. }
  destruct (_ || _); [by intros [= <-]|]. destruct (ch =? 0x3A); [by intros [= <-]|].
  unfold char_key. destruct (_ <? 128); [|by intros [= <-]].
  intros (v & _ & (b & _ & [= <-])%res_bind_Ok)%res_bind_Ok. cbn [kcon set_line set_con].
  by rewrite queue_cursor, putc_dev.
Qed.

Lemma take_line_dev buf nbytes k k' n : take_line buf nbytes k = Ok (k', n) → dev (kcon k') = dev (kcon k).
Proof.
  unfold take_line. destruct (_ =? 0); [by intros [= <- _]|].
  by intros ([m i] & _ & [= <- _])%res_bind_Ok.
Qed.

Lemma terminal_write_queue fd buf nbytes k k' n :
  terminal_write fd buf nbytes k = Ok (k', n) → key_queue (dev (kcon k')) = key_queue (dev (kcon k)).
Proof.
  unfold terminal_write. intros (l & _ & ([k1 m] & Hp & [= <- _])%res_bind_Ok)%res_bind_Ok.
  unfold print_buf in Hp. apply res_bind_Ok in Hp as ([c i] & Hw & [= <- _]).
  cbn [kcon set_line set_con]. rewrite queue_cursor.
  enough (dev c = dev (kcon k)) as -> by done. revert Hw.
  apply (whileM_partial _ (λ '(c, i), dev c = dev (kcon k)) (λ '(c, i), dev c = dev (kcon k))); [done|].
  intros [c1 j] x Hc1. destruct (j <? _); [|by intros [= <-]].
  intros (ch & _ & [= <-])%res_bind_Ok. by rewrite putc_dev.
Qed.

(** One interrupt takes the first scancode. *)
Lemma interrupt_refines ch q k t :
  driver_ok k t → key_queue (dev (kcon k)) = ch :: q → 0 ≤ ch < 256 →
  (∀ n, decode (update_mods ch (kmods k)) ch ≠ KeyCommand n) →
  returns (keyboard_interrupt_handler k) (λ k',
    driver_ok k' (tty_key (decode (update_mods ch (kmods k)) ch) t) ∧
    kmods k' = update_mods ch (kmods k) ∧ key_queue (dev (kcon k')) = q ∧
    outside_video (vmem (kcon k)) (vmem (kcon k')) ∧ kfs k' = kfs k).
Proof.
  intros [Hrep Hf] Hq Hch Hd. destruct (key_next ch q _ Hq) as [Hv Hq'].
  unfold keyboard_interrupt_handler, inb. change (u16 KEYBOARD_PORT) with KEYBOARD_PORT.
  destruct (dev_in KEYBOARD_PORT (dev (kcon k))) as [v d]. cbn [fst snd] in *. subst v.
  rewrite !(u8_small ch) by lia. set (k0 := set_con (set_dev d (kcon k)) k).
  assert (driver_ok k0 t) as Hok0 by (split; [exact (represents_set_dev d k t Hrep)|exact Hf]).
  destruct (handle_scancode_refines ch k0 t Hok0 Hch) as (k' & Hk' & t' & He & Hok' & Hm & Hfr).
  exists k'. split; [done|]. change (kmods k0) with (kmods k) in *.
  assert (t' = tty_key (decode (update_mods ch (kmods k)) ch) t ∧
    outside_video (vmem (kcon k0)) (vmem (kcon k')) ∧ kfs k' = kfs k0) as (<- & Ho & Hfs).
  { destruct (decode (update_mods ch (kmods k)) ch) eqn:E; try done. by destruct (Hd n). }
  split_and!; [done|done| |exact Ho|exact Hfs].
  unfold handle_scancode in Hk'. apply res_bind_Ok in Hk' as (k1 & Hk1 & [= <-]).
  cbn [kcon set_con set_dev dev]. rewrite queue_eoi, (process_queue ch k0 k1 Hd Hk1). exact Hq'.
Qed.
End driver.

Section kernel.
Context `{PortIO D, !KeyQueue D, Hotkeys D fs}.
Implicit Types k : kernel D.

Definition queue k : list Z := key_queue (dev (kcon (term k))).

(** The user types [keys], which spell the line [typed t1], and ENTER. *)
Definition types k (tt : tty) (keys q : list Z) (t1 : tty) : Prop :=
  scancodes keys ∧ (∃ m, type_keys (kmods (term k)) tt keys = Some (m, t1)) ∧
  queue k = keys ++ 0x1C :: q.

Lemma line_typed keys rest q tt t1 k :
  driver_ok (term k) tt → ready tt = false → types k tt keys q t1 →
  returns (spin (λ s, readable_flag (kline (term s)) =? 0) deliver
             (replicate (S (length keys)) IRQ_KEYBOARD ++ rest) k)
    (λ '(k', rest'), rest' = rest ∧ k' = set_term (term k') k ∧
       driver_ok (term k') (tty_key KeyEnter t1) ∧ kfs (term k') = kfs (term k) ∧
       outside_video (kmem k) (kmem k') ∧ queue k' = q ∧
       ∀ m, type_keys (kmods (term k)) tt keys = Some (m, t1) → kmods (term k') = update_mods 0x1C m).
Proof.
  unfold types. revert k tt; induction keys as [|ch keys IH]; intros k tt Hok Hready (Hsc & (m & Hrun) & Hq).
  - injection Hrun as _ <-. cbn [length replicate app spin] in *.
    rewrite (rep_ready _ _ _ (proj1 Hok)), Hready. cbn [Z.eqb deliver].
    destruct (interrupt_refines 0x1C q (term k) tt Hok Hq) as (t' & -> & Hok' & Hm' & Hq' & Ho & Hfs); [lia| |].
    { intros n. by rewrite enter_decode. }
    rewrite enter_decode in Hok'. rewrite !bind_Ok.
    rewrite spin_done by (cbn; by rewrite (rep_ready _ _ _ (proj1 Hok'))).
    apply returns_Ok. split_and!; [done..|]. intros m' [= <-]. exact Hm'.
  - apply Forall_cons in Hsc as [Hch Hsc]. cbn [length replicate app spin type_keys] in *.
    rewrite (rep_ready _ _ _ (proj1 Hok)), Hready. cbn [Z.eqb deliver].
    assert (∀ n, decode (update_mods ch (kmods (term k))) ch ≠ KeyCommand n) as Hd.
    { intros n E. by rewrite E in Hrun. }
    destruct (interrupt_refines ch _ (term k) tt Hok Hq Hch Hd) as (t' & -> & Hok' & Hm & Hq' & Ho & Hfs).
    rewrite !bind_Ok. set (x := decode (update_mods ch (kmods (term k))) ch) in *.
    assert (x ≠ KeyEnter ∧ type_keys (kmods t') (tty_key x tt) keys = Some (m, t1)) as [Hne Hrun'].
    { rewrite Hm. by destruct x. }
    eapply returns_mono.
    { apply (IH (set_term t' k) (tty_key x tt) Hok'); [by rewrite ready_plain|]. split_and!; [done|by exists m|done]. }
    intros [k' rest'] (-> & Hk' & Hok'' & Hfs' & Ho' & Hq'' & Hm''). cbn [term set_term] in *.
    split_and!; [done|by rewrite Hk'|done|by rewrite Hfs', Hfs|by eapply same_except_trans|done|].
    intros m' Hm3. rewrite Hrun in Hm3. injection Hm3 as <-. by apply Hm''.
Qed.

(** Output leaves the queue alone. *)
Lemma write_queue y ns t k k' fd x buf nbytes r :
  tables_ok y → world y ns t k → t !! fd = Some (Some x) → f_kind x = Stdout →
  write y (Z.of_nat fd) buf nbytes k = Ok (k', r) → queue k' = queue k.
Proof.
  intros Hy Hw Ht Hk. unfold write. destruct (_ || _); [by intros [= <- _]|]. cbv zeta.
  destruct (w_table _ _ _ _ Hw) as [_ Htab]. destruct (Htab _ _ Ht) as (Hf & Hop & _).
  change (file_array_at (current_pcb k) (Z.of_nat fd)) with (descriptor k (Z.of_nat fd)) in *.
  rewrite Hf, Hop, (fetch_kind y _ _ Hy), Hk. change (USE =? 0) with false. cbv iota.
  change (kind_ops Stdout !! SLOT_WRITE) with (Some (Some Terminal_write)). cbv iota.
  rewrite bind_Ok. cbn [call_write]. intros ([t' n] & E & [= <- _])%res_bind_Ok.
  exact (terminal_write_queue _ _ _ _ _ _ E).
Qed.

(** A read of the terminal. *)
Lemma read_stdin_spec y ns t k fd x buf nbytes keys rest q tt t1 :
  tables_ok y → world y ns t k → t !! fd = Some (Some x) → f_kind x = Stdin →
  0 ≤ nbytes → user_buffer y k buf nbytes →
  driver_ok (term k) tt → ready tt = false → types k tt keys q t1 →
  returns (read y (Z.of_nat fd) buf nbytes (replicate (S (length keys)) IRQ_KEYBOARD ++ rest) k)
    (λ '(k', r, rest'), rest' = rest ∧
      let l := take (Z.to_nat nbytes) (typed t1 ++ [10]) in
      r = zlen l ∧ bytes (kmem k') buf r = l ∧
      world y ns (<[fd := Some (set_pos (u32 (f_pos x + r)) x)]> t) k' ∧
      represents (kcon (term k')) (kline (term k'))
        (Tty (show_char 10 (t_screen t1)) [] [] false 0) ∧
      changes_only [(VIDEO, page_size); (buf, nbytes); (current_pcb k, 1424)] (kmem k) (kmem k') ∧
      kfs (term k') = kfs (term k) ∧ counter k' = counter k ∧ queue k' = q ∧
      (length (typed t1) ≤ line_max)%nat ∧
      (∀ m, type_keys (kmods (term k)) tt keys = Some (m, t1) → kmods (term k') = update_mods 0x1C m) ∧
      bytes (kmem k') (current_pcb k) 12 = bytes (kmem k) (current_pcb k) 12).
Proof.
  intros Hy Hw Ht Hk Hn Hb Hok Hready Hty.
  rewrite (read_through y ns t k fd x buf nbytes _ Terminal_read Hy Hw Ht (proj1 Hb)) by (by rewrite Hk).
  cbn [call_read]. unfold terminal_read.
  destruct (line_typed keys rest q tt t1 k Hok Hready Hty) as ([k1 rest'] & -> & -> & Hk1 & [Hrep1 _] & Hfs1 & Ho1 & Hq1 & Hmods).
  rewrite bind_Ok. pose proof Hb as [_ Hap].
  pose proof (Forall_lookup_1 _ _ 5%nat _ Hap eq_refl) as Hvid.
  pose proof (Forall_lookup_1 _ _ 6%nat _ Hap eq_refl) as Hpcb. cbn in Hvid, Hpcb.
  destruct (take_line_correct buf nbytes (term k1) _ Hrep1 eq_refl Hn (apart_sym _ _ Hvid))
    as ([t2 n] & Etk & -> & Hm2 & Hrep2 & Hmods2 & Hfs2).
  rewrite Etk, !bind_Ok. apply returns_Ok. cbn [tty_key stored t_screen typed erasable] in *.
  set (l := take (Z.to_nat nbytes) (typed t1 ++ [10])) in *.
  assert (Z.min nbytes (zlen (typed t1 ++ [10])) = zlen l) as -> by (unfold l; rewrite length_take; lia).
  set (k2 := set_term t2 k1).
  assert (changes_only [(buf, nbytes)] (kmem k1) (kmem k2)) as Hc2.
  { apply (same_except_changes buf nbytes); [|by left].
    eapply same_except_weaken; [exact (wr_bytes_same_except _ _ _ _ Hm2)|lia|].
    unfold l. rewrite length_take. lia. }
  assert (counter k1 = counter k) as Hcnt by (by rewrite Hk1).
  assert (world y ns t k1) as Hw1 by (rewrite Hk1; by apply world_term).
  assert (Forall (λ r, Forall (apart r) (fixed_regions y (kmem k) (kfs (term k)))) [(VIDEO, page_size)]) as Hvf.
  { constructor; [|done]. by apply (region_spares y ns t k 5 _ Hw); [lia|]. }
  assert (changes_only [(VIDEO, page_size)] (kmem k) (kmem k1)) as Hc1.
  { apply (same_except_changes _ _ _ _ _ Ho1). by left. }
  assert (world y ns t k2) as Hw2.
  { apply (world_ext y ns t (set_mem (kmem k2) k1)); [done|exact (eq_sym Hfs2)|done|].
    apply (world_spare y ns t k1 [(buf, nbytes)]); [done|done|]. constructor; [|done].
    apply buffer_spares. split; [apply Hb|].
    assert (current_pcb k1 = current_pcb k) as -> by (unfold current_pcb; by rewrite Hcnt). rewrite Hfs1.
    by rewrite (kernel_regions_kept y ns t k [(VIDEO, page_size)] (kmem k1) Hw Hc1 Hvf). }
  assert (changes_only [(VIDEO, page_size); (buf, nbytes)] (kmem k) (kmem k2)) as Hc.
  { eapply changes_only_trans; (eapply changes_only_mono; [eassumption|]); set_solver. }
  destruct (read_step y ns t k k2 fd x (zlen l) _ Hw2 Hcnt Ht Hc) as (Hw3 & Hlast & Hc3 & Hsame).
  split_and!; [done|done| |exact Hw3| |exact Hc3|by rewrite <- Hfs1, <- Hfs2|exact Hcnt| | | |].
  - assert (bytes (kmem k2) buf (zlen l) = l) as Hl.
    { apply (wr_bytes_read (kmem k1)); [exact Hm2|]. unfold l. apply Forall_take.
      destruct (rep_stored _ _ _ Hrep1) as [_ Hasc]. eapply Forall_impl; [exact Hasc|].
      unfold ascii. intros; cbn in *; lia. }
    etransitivity; [|exact Hl]. apply Hsame. eapply apart_part; [exact Hpcb|lia|]. unfold l. rewrite length_take. lia.
  - eapply (represents_mem k2 _ _ _ _ Hrep2 Hlast); [|done|done]. constructor; [|done].
    exact (separate_apart _ 5 6 _ _ (w_separate _ _ _ _ Hw) eq_refl eq_refl ltac:(lia)).
  - unfold queue in *. rewrite <- Hq1. cbn. by rewrite (take_line_dev _ _ _ _ _ Etk).
  - destruct (rep_stored _ _ _ Hrep1) as [Hlen _]. cbn in Hlen. rewrite length_app in Hlen. cbn in Hlen. lia.
  - intros m Hm. rewrite <- (Hmods m Hm), <- Hmods2. done.
  - apply bytes_ext. intros i Hi.
    transitivity (rd (kmem k2) (current_pcb k + i)).
    + apply rd_wr32_ne. unfold descriptor, fileposition_at, file_array_at. lia.
    + apply Hc. pose proof (separate_apart _ 5 6 _ _ (w_separate _ _ _ _ Hw) eq_refl eq_refl ltac:(lia)) as Hvp.
      unfold apart, disjoint_regions, inside in *. cbn [fst snd] in *. rewrite !Forall_cons. cbn. split_and!; [lia|lia|done].
Qed.
End kernel.
