(* ===== verification/Calls.v ===== *)
(** * Properties of the descriptor calls

    Sequences of system calls of one process, the concrete world of the
    witnesses, and the properties of systemcall.c's calls on descriptors. *)

From S2P Require Import Prelude Memory LibString Ports Pic Rtc Console Keyboard Paging FileSys.
From S2P Require Import FsScreen Process Syscall Descriptors ReadWrite.

(** ** A concrete world

    The one-file image of FileSys.v with its boot block copied to 0x800,
    process 1 with its control block at 0x7FE000, both streams open and the
    argument a. *)

Definition demo_layout : layout := {|
  paging_symbols := boot_symbols;
  boot_block_at := 0x800;
  stdin_at := 0x430000; stdout_at := 0x430010; rtc_at := 0x430020; file_at := 0x430030;
  directory_at := 0x430040;
  lit_stdin := 0x440000; lit_stdout := 0x440010;
  lit_STDIN := 0x440020; lit_STDOUT := 0x440030;
  lit_empty := 0x440040; lit_limit := 0x440050;
  open_temp := 0x7FFA00;
  file_read_dentry := 0x7FFA40;
  file_load_dentry := 0x7FFA80;
  magic_temp := 0x7FFAC0;
  entry_buf := 0x7FFAD0;
  arg_buf := 0x7FF500;
  command_name := 0x7FFAE0;
  printf_conv := 0x7FFB40
|}.

Definition put_string (a : Z) (s : string) (m : mem) : mem := wr_bytes m a (codes s ++ [0]).

(** The literals of systemcall.c. *)
Definition demo_literals (m : mem) : mem :=
  let y := demo_layout in
  let m := put_string (lit_stdin y) "stdin" m in
  let m := put_string (lit_stdout y) "stdout" m in
  let m := put_string (lit_STDIN y) "STDIN" m in
  let m := put_string (lit_STDOUT y) "STDOUT" m in
  put_string (lit_empty y) EmptyString m.

Definition put_stream (d op : Z) (name : string) (m : mem) : mem :=
  put_string (file_name_at d) name (wr32 (wr32 m (file_operation_at d) op) (flags_at d) USE).

Definition demo_mem : mem :=
  let m := wr_bytes demo_image 0x800 (bytes demo_image 0x10000 64) in
  let m := put_stream (file_array_at (pcb_at 1) 0) (stdin_at demo_layout) "STDIN" (demo_literals m) in
  let m := put_stream (file_array_at (pcb_at 1) 1) (stdout_at demo_layout) "STDOUT" m in
  let m := wr_bytes m (arg_at (pcb_at 1)) [97; 0] in
  wr_bytes m 0x8048000 [97; 0].

Definition demo_kernel : kernel trace :=
  Kernel (Kb (fresh demo_mem) demo_fs no_mods empty_line 0) boot_paging ∅ 1 0 1 0 0.

Definition demo_table : table :=
  [Some (File Stdin (codes "STDIN") 0 0); Some (File Stdout (codes "STDOUT") 0 0);
   None; None; None; None; None; None].

Lemma demo_tables_ok : tables_ok demo_layout.
Proof. constructor; [by_decide|]. intros []; by_decide. Qed.

(** A world with nothing open, from facts that evaluate. *)
Lemma bare_world {D} y ns (k : kernel D) f0 f1 :
  one_inode (boot_block_at y) ns (kmem k) (kfs (term k)) →
  Forall (λ i, 0 ≤ rd32 (kmem k) (filetype_at (dentry_at (kfs (term k)) i)) ≤ 2) (seqZ 0 63) →
  cstr (kmem k) (lit_stdin y) (codes "stdin") ∧ cstr (kmem k) (lit_stdout y) (codes "stdout") ∧
    cstr (kmem k) (lit_empty y) [] →
  f_kind f0 = Stdin ∧ f_kind f1 = Stdout →
  descriptor_is y (kmem k) (file_array_at (current_pcb k) 0) (Some f0) ∧
    descriptor_is y (kmem k) (file_array_at (current_pcb k) 1) (Some f1) →
  Forall (λ i, descriptor_is y (kmem k) (file_array_at (current_pcb k) i) None) (seqZ 2 6) →
  separate (kernel_regions y (kmem k) (kfs (term k)) (current_pcb k)) → 1 ≤ counter k ≤ 6 →
  world y ns (Some f0 :: Some f1 :: replicate 6 None) k.
Proof.
  intros Hfs Hty (L1 & L2 & L3) [K0 K1] [D0 D1] Hfree Hsep Hcnt.
  constructor; [|split; [done|]| |unfold named|done|done].
  - constructor; [by apply one_inode_fs|exact (all_from_list _ _ Hty)|done..].
  - intros i o Hi. destruct i as [|[|i]]; [by injection Hi as <-|by injection Hi as <-|].
    cbn [lookup list_lookup] in Hi. apply lookup_replicate in Hi as [-> Hlt].
    rewrite Forall_forall in Hfree. apply Hfree, elem_of_seqZ. lia.
  - exists f0, f1, (replicate 6 None). split_and!; [done..|]. by apply Forall_replicate.
  - constructor; [by cbn; rewrite K0|]. constructor; [by cbn; rewrite K1|]. by apply Forall_replicate.
Qed.

Lemma demo_world : world demo_layout demo_names demo_table demo_kernel.
Proof. apply bare_world; by_decide. Qed.

Lemma demo_represents : represents (kcon (term demo_kernel)) (kline (term demo_kernel)) idle.
Proof. exact (proj1 (fresh_kb_ok demo_mem)). Qed.

Lemma demo_user_string : user_string demo_layout demo_kernel 0x8048000 [97].
Proof. constructor; [by_decide|cbn; lia|by_decide]. Qed.

(** The file system commands behind the keyboard of the witnesses. *)
Definition demo_hotkeys : Hotkeys trace fs := fs_commands demo_places.

(** ** Refused calls *)

Section refused.
Context `{PortIO D, Hotkeys D fs} (y : layout).
Implicit Types k : kernel D.

Lemma read_write_refused k fd buf nbytes sched :
  fd < 0 ∨ 7 < fd ∨ buf = 0 ∨ rd32 (kmem k) (flags_at (descriptor k fd)) = 0 →
  read y fd buf nbytes sched k = Ok (k, -1, sched) ∧ write y fd buf nbytes k = Ok (k, -1).
Proof.
  intros Hbad. unfold read, write.
  destruct ((fd <? 0) || (7 <? fd) || (buf =? 0)) eqn:E; [done|].
  rewrite !orb_false_iff in E. destruct Hbad as [?|[?|[?|Hz]]]; [lia..|by rewrite Hz].
Qed.

Lemma close_refused k fd :
  fd < 2 ∨ 7 < fd ∨ rd32 (kmem k) (flags_at (descriptor k fd)) ≠ USE → close y fd k = Ok (k, -1).
Proof.
  intros Hbad. unfold close. destruct ((fd <? 2) || (7 <? fd)) eqn:E; [done|].
  rewrite orb_false_iff in E. destruct Hbad as [?|[?|?]]; [lia..|].
  by rewrite (proj2 (Z.eqb_neq _ _)).
Qed.

Lemma vidmap_refused k start : start < 0x8000000 ∨ 0x8400000 ≤ start → vidmap y start k = Ok (k, -1).
Proof.
  intros Hbad. unfold vidmap, USER_PROG_START, USER_PROG_END.
  destruct ((start <? 134217728) || (138412032 <=? start)) eqn:E; [done|].
  rewrite orb_false_iff in E. lia.
Qed.
End refused.

(** ** Sequences of calls *)

(** The calls of a process that follows the rules: strings and buffers are its
    own, reads are of files and directories or refused, and a write fits the
    line buffer. *)
Inductive call_step `{PortIO D, Hotkeys D fs} (y : layout) (ns : list (list Z)) :
    kernel D → kernel D → Prop :=
  | step_open k k' a l r : user_string y k a l → open y a k = Ok (k', r) → call_step y ns k k'
  | step_close k k' fd r : close y fd k = Ok (k', r) → call_step y ns k k'
  | step_read k k' fd x t buf n sched r rest :
      world y ns t k → t !! fd = Some (Some x) → f_kind x = Regular →
      0 < n < 2147483648 → user_buffer y k buf n →
      read y (Z.of_nat fd) buf n sched k = Ok (k', r, rest) → call_step y ns k k'
  | step_read_directory k k' fd x t buf n sched r rest :
      world y ns t k → t !! fd = Some (Some x) → f_kind x = Directory → user_buffer y k buf SBUFSIZE →
      0 ≤ entry_counter (kfs (term k)) → s32 (dentries_num (boot_block_at y) (kmem k)) ≤ 63 →
      read y (Z.of_nat fd) buf n sched k = Ok (k', r, rest) → call_step y ns k k'
  | step_write k k' fd x t buf n r :
      world y ns t k → t !! fd = Some (Some x) → f_kind x = Stdout → buf ≠ 0 → 0 ≤ n →
      n + buffer_content_counter (kline (term k)) ≤ BUF_SIZE →
      write y (Z.of_nat fd) buf n k = Ok (k', r) → call_step y ns k k'
  | step_refused_read k k' fd buf n sched r rest :
      fd < 0 ∨ 7 < fd ∨ buf = 0 ∨ rd32 (kmem k) (flags_at (descriptor k fd)) = 0 →
      read y fd buf n sched k = Ok (k', r, rest) → call_step y ns k k'
  | step_refused_write k k' fd buf n r :
      fd < 0 ∨ 7 < fd ∨ buf = 0 ∨ rd32 (kmem k) (flags_at (descriptor k fd)) = 0 →
      write y fd buf n k = Ok (k', r) → call_step y ns k k'.

Definition process_ok {D} (y : layout) (ns : list (list Z)) (k : kernel D) : Prop :=
  ∃ t tt, world y ns t k ∧ represents (kcon (term k)) (kline (term k)) tt.

Section steps.
Context `{PortIO D, Hotkeys D fs} (y : layout) (Hy : tables_ok y).
Implicit Types k : kernel D.

Lemma leads_to_ok ns k t' rs k' tt :
  leads_to y ns k t' rs k' → Forall (apart (VIDEO, page_size)) rs →
  represents (kcon (term k)) (kline (term k)) tt → process_ok y ns k'.
Proof.
  intros (He & Hw & Hc) Ha Hr. exists t', tt. split; [done|].
  apply (represents_mem k k' (kmem k') rs); [done..| |]; by rewrite He.
Qed.

Lemma leads_to_fs_ok ns k t' rs k' tt :
  leads_to_fs y ns k t' rs k' → Forall (apart (VIDEO, page_size)) rs →
  represents (kcon (term k)) (kline (term k)) tt → process_ok y ns k'.
Proof.
  intros ((f' & _ & He) & Hw & Hc) Ha Hr. exists t', tt. split; [done|].
  apply (represents_mem k k' (kmem k') rs); [done..| |]; by rewrite He.
Qed.

Lemma video_apart ns t k i r :
  world y ns t k → (5 < i)%nat →
  kernel_regions y (kmem k) (kfs (term k)) (current_pcb k) !! i = Some r →
  apart (VIDEO, page_size) r.
Proof.
  intros Hw Hi Hr. by apply (separate_apart _ 5 i _ _ (w_separate _ _ _ _ Hw) eq_refl Hr); lia.
Qed.

Lemma step_ok ns k k' : process_ok y ns k → call_step y ns k k' → process_ok y ns k'.
Proof.
  intros (t & tt & Hw & Hr) Hstep.
  pose proof (λ i r, video_apart ns t k i r Hw) as Hv.
  pose proof (Hv 6%nat _ ltac:(lia) eq_refl) as H6. pose proof (Hv 7%nat _ ltac:(lia) eq_refl) as H7.
  pose proof (Hv 8%nat _ ltac:(lia) eq_refl) as H8.
  assert (∀ rs, rs ⊆ [(open_temp y, 40); (file_read_dentry y, 40); (current_pcb k, 1424)] →
    Forall (apart (VIDEO, page_size)) rs) as Hap.
  { intros rs Hsub. rewrite Forall_forall. intros r Hin. specialize (Hsub r Hin).
    set_unfold in Hsub. naive_solver. }
  destruct Hstep as [k k' a l r Hus E|k k' fd r E|k k' fd x t0 buf n sched r rest Hw0 Ht Hk Hn Hb E
    |k k' fd x t0 buf n sched r rest Hw0 Ht Hk Hb Hc Hnum E|k k' fd x t0 buf n r Hw0 Ht Hk Hb Hn Hfit E|k k' fd buf n sched r rest Hbad E|k k' fd buf n r Hbad E].
  - pose proof (returns_inv _ _ _ (open_refines_table y ns t k a l Hy Hw Hus) E) as Hres.
    cbn in Hres. destruct (open_spec _ _ _ _ _) as [t' r']. destruct Hres as [_ Hl].
    eapply leads_to_ok; [exact Hl| |exact Hr]. apply Hap. unfold open_changes. set_solver.
  - pose proof (returns_inv _ _ _ (close_refines_table y ns t k fd Hy Hw) E) as Hres.
    cbn in Hres. destruct (close_spec _ _) as [t' r']. destruct Hres as [_ Hl].
    eapply leads_to_ok; [exact Hl| |exact Hr]. apply Hap. set_solver.
  - pose proof (returns_inv _ _ _ (read_regular_spec y ns t0 k fd x buf n sched Hy Hw0 Ht Hk Hn Hb) E)
      as Hres.
    cbn in Hres. destruct (read_outcome _ _ _ _ _ _) as [bs q]. destruct Hres as (_ & _ & _ & _ & _ & Hl).
    eapply leads_to_fs_ok; [exact Hl| |exact Hr]. unfold read_changes. rewrite !Forall_cons. split_and!; [done| |done|done].
    apply apart_sym. destruct Hb as [_ Hb]. exact (Forall_lookup_1 _ _ 5%nat _ Hb eq_refl).
  - pose proof (returns_inv _ _ _ (read_directory_spec y ns t0 k fd x buf n sched Hy Hw0 Ht Hk Hb Hc Hnum) E) as Hres.
    assert (∃ t', leads_to_fs y ns k t' [(buf, SBUFSIZE); (current_pcb k, 1424)] k') as [t' Hl]
      by (cbn in Hres; repeat case_match; destruct Hres as (_ & _ & _ & _ & Hl); by eexists).
    eapply leads_to_fs_ok; [exact Hl| |exact Hr]. rewrite !Forall_cons. split_and!; [|done|done].
    apply apart_sym. destruct Hb as [_ Hb]. exact (Forall_lookup_1 _ _ 5%nat _ Hb eq_refl).
  - rewrite (rep_counter _ _ _ Hr) in Hfit.
    pose proof (returns_inv _ _ _ (write_stdout_spec y ns t0 k fd x buf n tt Hy Hw0 Ht Hk Hb Hr Hn Hfit) E)
      as (_ & Hw' & _ & _ & _ & _ & Hr').
    by eexists _, _.
  - destruct (read_write_refused y k fd buf n sched Hbad) as [E' _]. rewrite E in E'. injection E' as -> _ _. by eexists _, _.
  - destruct (read_write_refused y k fd buf n [] Hbad) as [_ E']. rewrite E in E'. injection E' as -> _. by eexists _, _.
Qed.
End steps.

(** ** Properties *)

(** C23: open refines the abstract descriptor table, for a name of at most 31
    characters that lies apart from what the kernel uses: one that begins with
    stdin or stdou yields descriptor 0 without a change; any other name is
    looked up in the directory and, if it is there and a slot is free, opened
    in the first free slot with the type, the inode and the name of its entry
    and position 0, and that slot's number is the result; otherwise the result
    is -1 and the table is as before.  Only the local dentry and the control
    block change. *)
Theorem open_refines {D} y ns t (k : kernel D) filename l :
  tables_ok y → world y ns t k → user_string y k filename l →
  returns (open y filename k) (λ '(k', r),
    let '(t', r') := open_spec (kmem k) (kfs (term k)) ns t l in
    r = r' ∧ leads_to y ns k t' [(open_temp y, 40); (current_pcb k, 1424)] k').
Proof. exact (open_refines_table y ns t k filename l). Qed.

Lemma open_refines_witness :
  returns (open demo_layout 0x8048000 demo_kernel) (λ '(k', r), r = 2 ∧
    leads_to demo_layout demo_names demo_kernel
      (<[2%nat := Some (File Regular [97] 0 0)]> demo_table) [(0x7FFA00, 40); (0x7FE000, 1424)] k').
Proof.
  exact (open_refines demo_layout demo_names demo_table demo_kernel 0x8048000 [97]
    demo_tables_ok demo_world demo_user_string).
Defined.

(** A descriptor that open returned can be closed, with result 0, and the
    table is then the one before open. *)
Theorem open_close_roundtrip {D} y ns t (k : kernel D) filename l :
  tables_ok y → world y ns t k → user_string y k filename l →
  2 ≤ snd (open_spec (kmem k) (kfs (term k)) ns t l) →
  returns ('(k1, fd) ← open y filename k; '(k2, r) ← close y fd k1; Ok (k2, fd, r))
    (λ '(k2, fd, r), 2 ≤ fd ≤ 7 ∧ r = 0 ∧
       leads_to y ns k t [(open_temp y, 40); (current_pcb k, 1424)] k2).
Proof.
  intros Hy Hw Hus H2. eapply returns_bind; [by apply (open_refines_table y ns t k filename l)|].
  intros [k1 fd] Hres. pose proof Hw as [_ [Hlen _] Hstd _ _ _].
  unfold open_spec in *. destruct (decide _); [cbn in H2; lia|]. destruct (decide _); [cbn in H2; lia|].
  destruct l as [|c l0]; [cbn in H2; lia|].
  destruct (list_find _ ns) as [[i nm]|]; [|cbn in H2; lia].
  destruct (first_free t) as [s|] eqn:Hs; [|cbn in H2; lia].
  destruct (first_free_lt t s Hlen Hstd Hs) as [Hlt Hnone].
  destruct Hres as (-> & He & Hw1 & Hc1).
  eapply returns_bind; [by apply (close_refines_table y ns _ k1 (Z.of_nat s) Hy Hw1)|].
  intros [k2 r] Hclose. unfold close_spec in Hclose. rewrite Nat2Z.id in Hclose.
  rewrite list_lookup_insert_eq in Hclose by lia.
  rewrite (proj2 (Z.leb_le 2 _)), (proj2 (Z.leb_le _ 7)) in Hclose by lia. cbn [andb] in Hclose.
  rewrite list_insert_insert_eq, list_insert_id in Hclose by done.
  destruct Hclose as (-> & He2 & Hw2 & Hc2). apply returns_Ok. split_and!; [lia|lia|done|].
  split_and!; [|done|].
  - rewrite He2 at 1. by rewrite He.
  - eapply changes_only_trans; [exact Hc1|]. rewrite He in Hc2.
    eapply changes_only_mono; [exact Hc2|set_solver].
Qed.

Lemma open_close_roundtrip_witness :
  returns ('(k1, fd) ← open demo_layout 0x8048000 demo_kernel;
           '(k2, r) ← close demo_layout fd k1; Ok (k2, fd, r))
    (λ '(k2, fd, r), 2 ≤ fd ≤ 7 ∧ r = 0 ∧
       leads_to demo_layout demo_names demo_kernel demo_table
         [(0x7FFA00, 40); (0x7FE000, 1424)] k2).
Proof.
  apply (open_close_roundtrip demo_layout demo_names demo_table demo_kernel 0x8048000 [97]
    demo_tables_ok demo_world demo_user_string). by_decide.
Defined.

(** C27: bad arguments are refused with -1 and no effect at all: read and write
    on a number outside 0 to 7, a null buffer or a closed descriptor; close on
    a standard stream, an impossible number or a closed descriptor; getargs on
    a null or a too small buffer; vidmap outside the program's 4 MB page;
    set_handler and sigreturn always.  (read has set the interrupt flag by
    then; nothing waits, so no interrupt of the schedule is needed.) *)
Theorem bad_calls_rejected `{PortIO D, Hotkeys D fs} y (k : kernel D) fd buf nbytes sched :
  let flags := rd32 (kmem k) (flags_at (descriptor k fd)) in
  (fd < 0 ∨ 7 < fd ∨ buf = 0 ∨ flags = 0 →
     read y fd buf nbytes sched k = Ok (k, -1, sched) ∧ write y fd buf nbytes k = Ok (k, -1)) ∧
  (fd < 2 ∨ 7 < fd ∨ flags ≠ USE → close y fd k = Ok (k, -1)) ∧
  (buf = 0 ∨ nbytes < arg_size k → getargs buf nbytes k = Ok (k, -1)) ∧
  (buf < 0x8000000 ∨ 0x8400000 ≤ buf → vidmap y buf k = Ok (k, -1)) ∧
  set_handler fd buf k = (k, -1) ∧ sigreturn k = (k, -1).
Proof.
  cbn zeta. split_and!; [by apply read_write_refused|by apply close_refused| |by apply vidmap_refused|done|done].
  intros Hbad. unfold getargs. destruct ((buf =? 0) || (nbytes <? arg_size k)) eqn:E; [done|].
  rewrite orb_false_iff in E. lia.
Qed.

(** C24: a process that keeps to the rules keeps its world in order.  It opens
    names of its own, of at most 31 characters and apart from what the kernel
    uses, closes any number, reads open regular files and directories into
    buffers of its own, makes reads and writes that are refused, and writes to
    the screen what still fits the kernel's line buffer of 1024 characters, in
    any order; then its table stays well formed (eight slots, the two streams first, each open
    file with its operations and its directory entry), the mounted image and
    its names stay as they are, and the terminal stays consistent with an
    abstract one.  (A process with pointers to the kernel's data is outside of
    this: they are not checked, see the findings.) *)
Theorem process_invariant `{PortIO D, Hotkeys D fs} y ns (k k' : kernel D) :
  tables_ok y → process_ok y ns k → rtc (call_step y ns) k k' → process_ok y ns k'.
Proof.
  intros Hy Hk Hsteps. induction Hsteps as [k|k k1 k2 Hstep _ IH]; [done|].
  apply IH. by eapply step_ok.
Qed.

Lemma process_invariant_witness :
  ∃ k', rtc (@call_step trace _ demo_hotkeys demo_layout demo_names) demo_kernel k' ∧
    process_ok demo_layout demo_names k'.
Proof.
  destruct (open_refines_table demo_layout demo_names demo_table demo_kernel 0x8048000 [97]
    demo_tables_ok demo_world demo_user_string) as ([k' r] & E & _).
  assert (rtc (@call_step trace _ demo_hotkeys demo_layout demo_names) demo_kernel k') as Hsteps.
  { apply rtc_once. exact (step_open _ _ _ _ 0x8048000 [97] r demo_user_string E). }
  exists k'. split; [exact Hsteps|].
  apply (@process_invariant trace _ demo_hotkeys demo_layout demo_names demo_kernel k' demo_tables_ok);
    [|exact Hsteps].
  exists demo_table, idle. split; [exact demo_world|exact demo_represents].
Defined.
