(* ===== verification/Exec.v ===== *)
(** * systemcall.c and handler.S: execute, halt and the system call gate

    execute parses a command, checks and loads a program and enters it; halt
    goes back to the execute that started the process.  The two leave C by
    iret or by a jump into another frame, so their result says how control
    goes on. *)

From S2P Require Import Prelude Memory LibString Ports Pic Rtc Console Keyboard Paging FileSys.
From S2P Require Import Process Syscall.

Definition PROGRAM_STARTING_ADDR := 0x08048000.
Definition PROGRAM_ENDING_ADDR := 0x083ffffc.
Definition CODE_STARTING_POINT := 24.
Definition USER_CS := 0x23.
Definition USER_DS := 0x2B.
Definition MAGIC := [0x7f; 0x45; 0x4c; 0x46].

(** What iret pops: the flags are pushed after cli. *)
Record iret_frame := IretFrame {
  fr_ss : Z; fr_esp : Z; fr_if : bool; fr_cs : Z; fr_eip : Z
}.

#[export] Instance iret_frame_eq_dec : EqDecision iret_frame.
Proof. solve_decision. Defined.

Inductive control :=
  | Return (eax : Z)                (* to the caller *)
  | Enter (f : iret_frame)          (* iret to a program *)
  | Resume (esp ebp eax : Z).       (* leave and ret in the frame of an older execute *)

Definition user_frame (entry : Z) : iret_frame :=
  IretFrame USER_DS PROGRAM_ENDING_ADDR false USER_CS (u32 entry).

(** [tss.esp0] for the current process. *)
Definition kernel_stack (n : Z) : Z := u32 (BOTTOM_STACK - (n - 1) * 0x2000 - 4).

Section operations.
Context `{PortIO D, Hotkeys D fs} (y : layout).
Implicit Types k : kernel D.

(** The first loop of execute: copy up to 32 characters or to a blank. *)
Definition copy_name (command : Z) (m : mem) : res (mem * Z) :=
  whileM (λ '(m, i),
    if (i <? 32) && negb (rd m (command + i) =? 32) then
      Ok (inl (wr m (command_name y + i) (rd m (command + i)), i + 1))
    else Ok (inr (m, i))) (m, 0).

(** The second: copy the rest, to its zero. *)
Definition copy_args (command i : Z) (m : mem) : res (mem * Z) :=
  whileM (λ '(m, i, size),
    if rd m (command + i) =? 0 then Ok (inr (m, size))
    else Ok (inl (wr m (arg_buf y + size) (rd m (command + i)), i + 1, size + 1))) (m, i, 0).

Definition parse_command (command : Z) k : res (kernel D) :=
  '(m, i) ← copy_name command (kmem k);
  let m := wr m (command_name y + i) 0 in
  '(m, size) ← copy_args command (i + 1) m;
  let m := wr m (arg_buf y + size) 0 in
  Ok (set_arg_size size (set_mem m k)).

(** file_read into a kernel buffer. *)
Definition read_named (buf offset length : Z) k : res (kernel D * Z) :=
  fs_call (file_read (boot_block_at y) (file_read_dentry y) buf offset length (command_name y)) k.

Definition check_executable k : res (kernel D * Z) :=
  '(k, r) ← read_named (magic_temp y) 0 4 k;
  if r =? -1 then Ok (k, -1)
  else if negb (bool_decide (bytes (kmem k) (magic_temp y) 4 = MAGIC)) then Ok (k, -1)
  else Ok (k, 0).

(** [buf[0] | buf[1]<<8 | buf[2]<<16 | buf[3]<<24] *)
Definition entry_word (m : mem) (buf : Z) : Z :=
  s32 (Z.lor (Z.lor (Z.lor (rd m buf) (Z.shiftl (rd m (buf + 1)) 8))
    (Z.shiftl (rd m (buf + 2)) 16)) (Z.shiftl (rd m (buf + 3)) 24)).

(** One descriptor of the new table. *)
Definition put_descriptor (d table name flag : Z) (m : mem) : res mem :=
  let m := wr32 m (file_operation_at d) table in
  m ← strcpy m (file_name_at d) name;
  let m := wr32 m (fd_inode_at d) 0 in
  let m := wr32 m (fileposition_at d) 0 in
  Ok (wr32 m (flags_at d) flag).

(** Step 5 of execute. *)
Definition fill_pcb (n esp ebp : Z) (m : mem) : res mem :=
  let p := pcb_at n in
  let m := wr m (pid_at p) n in
  let parent := if n =? 1 then 0 else rd m (pid_at (Z.land esp LAST_13BITS_MASK)) in
  let m := wr m (parent_pid_at p) parent in
  let m := wr32 m (parent_kernel_sp_at p) esp in
  let m := wr32 m (parent_kernel_bp_at p) ebp in
  m ← put_descriptor (file_array_at p 0) (stdin_at y) (lit_STDIN y) USE m;
  m ← put_descriptor (file_array_at p 1) (stdout_at y) (lit_STDOUT y) USE m;
  whileM (λ '(m, i),
    if i <? 8 then
      m ← put_descriptor (file_array_at p i) 0 (lit_empty y) NOT_USE m; Ok (inl (m, i + 1))
    else Ok (inr m)) (m, 2).

(** The argument part of step 6. *)
Definition fill_args (n size : Z) (m : mem) : res mem :=
  let p := pcb_at n in
  let m := for_ (Z.to_nat ARG_SIZE) 0 (λ i m, wr m (arg_at p + i) 0) m in
  strncpy m (arg_at p) (arg_buf y) (u32 size).

(** Everything from the increment of the counter on. *)
Definition start_process (esp ebp entry : Z) k : res (kernel D * control) :=
  let n := counter k + 1 in
  let k := set_counter n k in
  let k := if n =? 1 then set_shell_entry entry k else k in
  k ← update_pages y (create_paging (paging_symbols y) n) k;
  '(k, a) ← fs_call (file_load (boot_block_at y) (file_load_dentry y) (command_name y)
                       PROGRAM_STARTING_ADDR) k;
  if a =? -1 then Ok (k, Return (-1))
  else
    m ← fill_pcb n esp ebp (kmem k);
    let k := set_esp0 (kernel_stack n) k in
    m ← fill_args n (arg_size k) m;
    Ok (set_mem m k, Enter (user_frame entry)).

(** [esp] and [ebp] are the registers when execute stores them. *)
Definition execute (esp ebp command : Z) k : res (kernel D * control) :=
  if 6 <=? counter k then
    '(c, _) ← printf (printf_conv y) (lit_limit y) [] (kcon (term k));
    Ok (set_kcon c k, Return (-1))
  else if command =? 0 then Ok (k, Return (-1))
  else
    k ← parse_command command k;
    '(k, r) ← check_executable k;
    if r =? -1 then Ok (k, Return (-1))
    else
      '(k, r) ← read_named (entry_buf y) CODE_STARTING_POINT 4 k;
      if r =? -1 then Ok (k, Return (-1))
      else start_process esp ebp (entry_word (kmem k) (entry_buf y)) k.

Definition halt (status : Z) k : res (kernel D * control) :=
  let p := current_pcb k in
  if rd (kmem k) (pid_at p) =? 1 then
    Ok (set_kcon (clear_screen (kcon (term k))) k, Enter (user_frame (shell_entry_addr k)))
  else
    let k := set_counter (counter k - 1) k in
    let parent := rd (kmem k) (parent_pid_at p) in
    k ← update_pages y
          (λ s, Ok (load_cr3 (u32 (Paging.directory_at (paging_symbols y) (parent - 1))) s)) k;
    let k := set_esp0 (kernel_stack (counter k)) k in
    Ok (k, Resume (rd32 (kmem k) (parent_kernel_sp_at p)) (rd32 (kmem k) (parent_kernel_bp_at p))
             (u8 status)).

(** ** asm_linkage *)

Record registers := Registers {
  eax : Z; ebx : Z; ecx : Z; edx : Z; esi : Z; edi : Z; ebp : Z
}.

(** The dispatch through systemcall_jump_table. *)
Definition dispatch (r : registers) (kesp kebp : Z) (sched : list irq) k :
    res (kernel D * control * list irq) :=
  let ok '(k, v) := Ok (k, Return v, sched) in
  match s32 (eax r) with
  | 1 => '(k, c) ← halt (u8 (ebx r)) k; Ok (k, c, sched)
  | 2 => '(k, c) ← execute kesp kebp (ebx r) k; Ok (k, c, sched)
  | 3 => '(k, v, rest) ← read y (s32 (ebx r)) (ecx r) (s32 (edx r)) sched k; Ok (k, Return v, rest)
  | 4 => write y (s32 (ebx r)) (ecx r) (s32 (edx r)) k ≫= ok
  | 5 => open y (ebx r) k ≫= ok
  | 6 => close y (s32 (ebx r)) k ≫= ok
  | 7 => getargs (ebx r) (s32 (ecx r)) k ≫= ok
  | 8 => vidmap y (ebx r) k ≫= ok
  | 9 => ok (set_handler (s32 (ebx r)) (ecx r) k)
  | 10 => ok (sigreturn k)
  | _ => Err OutOfBounds
  end.

(** The stack the gate builds, top first: the three arguments, then the saved
    registers; and what it pops after the call. *)
Definition gate_push (r : registers) : list Z :=
  [ebx r; ecx r; edx r] ++ [ebx r; ecx r; edx r; esi r; edi r; ebp r].
Definition gate_pop (v : Z) (stack : list Z) : option registers :=
  match drop 3 stack with
  | [b; c; d; s; i; p] => Some (Registers (u32 v) b c d s i p)
  | _ => None
  end.

(** How the gate leaves: by iret with the caller's registers, into a program,
    or in the frame of an older execute, which returns through its own gate. *)
Inductive gate_exit :=
  | To_caller (r : registers)
  | To_program (f : iret_frame)
  | To_frame (sp bp v : Z).

Definition asm_linkage (r : registers) (kesp kebp : Z) (sched : list irq) k :
    res (kernel D * gate_exit * list irq) :=
  if (s32 (eax r) <? 1) || (10 <? s32 (eax r)) then
    Ok (k, To_caller (Registers (u32 (-1)) (ebx r) (ecx r) (edx r) (esi r) (edi r) (ebp r)), sched)
  else
    '(k, c, rest) ← dispatch r kesp kebp sched k;
    match c with
    | Return v =>
        match gate_pop v (gate_push r) with
        | Some r' => Ok (k, To_caller r', rest)
        | None => Err OutOfBounds
        end
    | Enter f => Ok (k, To_program f, rest)
    | Resume sp bp v => Ok (k, To_frame sp bp v, rest)
    end.
End operations.
