(* ===== verification/ExecSpec.v ===== *)
(** * What execute and halt establish

    The parsed command, the loaded program, the new control block, and the way
    back. *)

From S2P Require Import Prelude Memory LibString Ports Pic Rtc Console Keyboard Paging FileSys.
From S2P Require Import Process Syscall Descriptors ReadWrite Exec.

(** ** Parsing the command *)

(** The C string a byte list holds. *)
Fixpoint c_prefix (l : list Z) : list Z :=
  match l with
  | [] => []
  | c :: l' => if c =? 0 then [] else c :: c_prefix l'
  end.

Lemma c_prefix_length l : zlen (c_prefix l) ≤ zlen l.
Proof.
  induction l as [|c l IH]; cbn [c_prefix]; [done|]. destruct (c =? 0); rewrite ?zlen_cons; [cbn; lia|lia].
Qed.

(** Where the first loop of execute stops. *)
Definition parse_end (m : mem) (command : Z) : Z :=
  match list_find (λ c, c = 32) (bytes m command 32) with
  | Some (i, _) => Z.of_nat i
  | None => 32
  end.

Definition parsed_name (m : mem) (command : Z) : list Z :=
  c_prefix (bytes m command (parse_end m command)).

Lemma parse_end_range m command : 0 ≤ parse_end m command ≤ 32.
Proof.
  unfold parse_end. destruct (list_find _ _) as [[i c]|] eqn:E; [|lia].
  apply list_find_Some in E as (Hi & _). apply lookup_lt_Some in Hi.
  unfold bytes in Hi. rewrite length_fmap, length_seqZ in Hi. lia.
Qed.

Lemma parse_end_before m command i :
  0 ≤ i < parse_end m command → rd m (command + i) ≠ 32.
Proof.
  pose proof (parse_end_range m command) as Hr. unfold parse_end in *. intros Hi.
  pose proof (lookup_bytes m command 32 i ltac:(lia)) as Hl.
  destruct (list_find _ _) as [[j c]|] eqn:E.
  - apply list_find_Some in E as (_ & _ & Hb). eapply Hb; [exact Hl|lia].
  - apply list_find_None in E. by apply (Forall_lookup_1 _ _ _ _ E Hl).
Qed.

Lemma parse_end_stop m command :
  parse_end m command < 32 → rd m (command + parse_end m command) = 32.
Proof.
  unfold parse_end. destruct (list_find _ _) as [[j c]|] eqn:E; [|lia]. intros Hlt.
  apply list_find_Some in E as (Hj & -> & _). rewrite <- (Nat2Z.id j) in Hj.
  rewrite lookup_bytes in Hj by lia. congruence.
Qed.

(** The copy as a C string. *)
Lemma c_prefix_cstr m a l :
  Forall (λ c, 0 ≤ c < 256) l → bytes m a (zlen l + 1) = l ++ [0] → cstr m a (c_prefix l).
Proof.
  revert a; induction l as [|c l IH]; intros a Hl Hb; cbn [c_prefix].
  - apply cstr_nil. cbn in Hb. injection Hb as Hb. by rewrite Z.add_0_r in Hb.
  - apply Forall_cons in Hl as [Hc Hl]. rewrite zlen_cons in Hb.
    rewrite bytes_cons in Hb by lia. cbn in Hb. injection Hb as Hrd Hb.
    destruct (Z.eqb_spec c 0) as [->|Hne]; [by apply cstr_nil|].
    apply cstr_cons. split_and!; [done|done|]. apply IH; [done|].
    by replace (zlen l + 1) with (1 + zlen l + 1 - 1) by lia.
Qed.

Section parse.
Context (y : layout) (command : Z) (m : mem) (args : list Z).
Context (Hargs : cstr m (command + parse_end m command + 1) args) (Hlen : zlen args ≤ 1023).
Context (Hname : apart (command, 34 + zlen args) (command_name y, 33)).
Context (Harg : apart (command, 34 + zlen args) (arg_buf y, 1025)).
Context (Hsep : apart (command_name y, 33) (arg_buf y, 1025)).

Lemma copy_name_spec :
  returns (copy_name y command m) (λ '(m', i), i = parse_end m command ∧
    overlay (command_name y) i (λ i, rd m (command + i)) m m').
Proof.
  pose proof (parse_end_range m command) as Hr. unfold copy_name. apply whileM_total with
    (I := λ '(m', i), 0 ≤ i ≤ parse_end m command ∧
       overlay (command_name y) i (λ i, rd m (command + i)) m m')
    (V := λ '(m', i), 32 - i).
  - split; [lia|apply overlay_0].
  - lia.
  - intros [m' i] [Hi Hov]. unfold apart, disjoint_regions in Hname. cbn [fst snd] in Hname.
    destruct ((i <? 32) && negb (rd m' (command + i) =? 32)) eqn:E.
    + apply andb_true_iff in E as [Hlt%Z.ltb_lt Hne%negb_true_iff%Z.eqb_neq].
      rewrite (overlay_out _ _ _ _ _ (command + i) Hov) in * by lia. apply returns_Ok.
      assert (i ≠ parse_end m command).
      { intros ->. apply Hne, parse_end_stop. lia. }
      split; [|lia]. split; [lia|]. apply overlay_wr; [done|lia|done|]. symmetry; apply rd_u8.
    + apply returns_Ok. assert (i = parse_end m command) as ->; [|done].
      apply andb_false_iff in E as [E%Z.ltb_ge|E%negb_false_iff%Z.eqb_eq]; [lia|].
      rewrite (overlay_out _ _ _ _ _ (command + i) Hov) in E by lia.
      destruct (decide (i < parse_end m command)) as [Hlt|]; [|lia].
      by destruct (parse_end_before m command i ltac:(lia)).
Qed.

Lemma copy_args_spec m1 :
  (∀ a, command ≤ a < command + 34 + zlen args → rd m1 a = rd m a) →
  returns (copy_args y command (parse_end m command + 1) m1) (λ '(m', size), size = zlen args ∧
    overlay (arg_buf y) size (λ i, args !!! Z.to_nat i) m1 m').
Proof.
  intros Hm1. pose proof (parse_end_range m command) as Hr. unfold copy_args.
  unfold apart, disjoint_regions in Harg. cbn [fst snd] in Harg.
  apply whileM_total with
    (I := λ '(m', i, size), 0 ≤ size ≤ zlen args ∧ i = parse_end m command + 1 + size ∧
       overlay (arg_buf y) size (λ i, args !!! Z.to_nat i) m1 m')
    (V := λ '(m', i, size), zlen args - size).
  - split_and!; [lia|lia|lia|apply overlay_0].
  - lia.
  - intros [[m' i] size] (Hs & -> & Hov).
    set (a := command + (parse_end m command + 1 + size)).
    assert (rd m' a = rd m (command + parse_end m command + 1 + size)) as ->.
    { rewrite (overlay_out _ _ _ _ _ a Hov), Hm1 by (unfold a; lia). f_equal. unfold a. lia. }
    destruct (Z.eqb_spec (rd m (command + parse_end m command + 1 + size)) 0) as [Hz|Hnz];
      apply returns_Ok.
    + assert (size = zlen args) as -> by (by apply (cstr_bound m _ args size Hargs)). done.
    + assert (size ≠ zlen args) by (intros ->; by rewrite (cstr_end _ _ _ Hargs) in Hnz).
      split; [|lia]. split_and!; [lia|lia|lia|]. apply overlay_wr; [done|lia|done|].
      rewrite (cstr_lookup_total m _ args size Hargs) by lia. symmetry; apply rd_u8.
Qed.

Lemma parse_command_spec {D} (k : kernel D) :
  kmem k = m →
  returns (parse_command y command k) (λ k', ∃ m',
    k' = set_arg_size (zlen args) (set_mem m' k) ∧
    cstr m' (command_name y) (parsed_name m command) ∧ cstr m' (arg_buf y) args ∧
    changes_only [(command_name y, 33); (arg_buf y, 1025)] m m').
Proof.
  intros Hk. unfold parse_command. rewrite Hk. pose proof (parse_end_range m command) as Hr.
  set (j := parse_end m command) in *. unfold apart, disjoint_regions in *. cbn [fst snd] in *.
  eapply returns_bind; [apply copy_name_spec|]. intros [m1 i] [-> H1]. fold j in H1.
  assert (overlay (command_name y) (j + 1) (λ i, if i =? j then 0 else rd m (command + i)) m
    (wr m1 (command_name y + j) 0)) as H2.
  { apply overlay_wr; [|lia|done|by rewrite Z.eqb_refl]. eapply overlay_ext; [exact H1|].
    intros i Hi. cbn. by rewrite (proj2 (Z.eqb_neq i j)) by lia. }
  set (m2 := wr m1 _ 0) in *. eapply returns_bind.
  { apply copy_args_spec. intros a Ha. apply (overlay_out _ _ _ _ _ _ H2). lia. }
  intros [m3 size] [-> H3]. apply returns_Ok. eexists. split; [done|].
  set (m4 := wr m3 _ 0).
  assert (overlay (arg_buf y) (zlen args + 1) (λ i, (args ++ [0]) !!! Z.to_nat i) m2 m4) as H4.
  { apply overlay_wr; [|lia|done|]; cycle 1.
    { rewrite Nat2Z.id. by rewrite list_lookup_total_alt, list_lookup_middle. }
    eapply overlay_ext; [exact H3|]. intros i Hi. cbn.
    by rewrite !list_lookup_total_alt, lookup_app_l by lia. }
  split_and!.
  - unfold parsed_name. fold j.
    assert (zlen (bytes m command j) = j) as Hj by (apply zlen_bytes; lia).
    apply c_prefix_cstr; [apply bytes_range|]. rewrite Hj, bytes_snoc by lia. f_equal.
    + apply bytes_ext. intros i Hi. rewrite (overlay_out _ _ _ _ _ _ H4) by lia.
      rewrite (overlay_in _ _ _ _ _ _ H2) by lia.
      replace (command_name y + i - command_name y) with i by lia.
      by rewrite (proj2 (Z.eqb_neq i j)) by lia.
    + rewrite (overlay_out _ _ _ _ _ _ H4), (overlay_in _ _ _ _ _ _ H2) by lia.
      replace (command_name y + j - command_name y) with j by lia. by rewrite Z.eqb_refl.
  - apply (wr_bytes_cstr m2 _ _ _ (cstr_text _ _ _ Hargs)). apply overlay_wr_bytes.
    rewrite zlen_app. change (zlen [0]) with 1. eapply overlay_ext; [exact H4|].
    intros i Hi. cbn. destruct (decide (i = zlen args)) as [->|].
    + rewrite Nat2Z.id. by rewrite list_lookup_total_alt, list_lookup_middle.
    + rewrite list_lookup_total_alt, lookup_app_l by lia. rewrite <- list_lookup_total_alt.
      rewrite (cstr_lookup_total m _ args i Hargs) by lia. symmetry. apply rd_u8.
  - intros a Ha. apply Forall_cons in Ha as [Ha1 Ha]. apply Forall_cons in Ha as [Ha2 _].
    unfold inside in *. cbn in *. rewrite (overlay_out _ _ _ _ _ _ H4) by lia.
    apply (overlay_out _ _ _ _ _ _ H2). lia.
Qed.
End parse.

(** ** The memory execute works on *)

(** The regions it reads, then those it writes; the last two are the control
    blocks of the new and of the current process. *)
Definition exec_regions (y : layout) (m : mem) (f : fs) (n : Z) : list (Z * Z) :=
  fs_regions (boot_block_at y) m f ++
  [ (lit_STDIN y, 6); (lit_STDOUT y, 7); (lit_empty y, 1);
    (file_read_dentry y, 40); (file_load_dentry y, 40); (magic_temp y, 4); (entry_buf y, 4);
    (command_name y, 33); (arg_buf y, 1025); (pcb_at (n + 1), 1424); (pcb_at n, 1424) ].

Record exec_mem (y : layout) (ns : list (list Z)) (n : Z) (m : mem) (f : fs) : Prop := {
  em_fs : fs_ok (boot_block_at y) ns m f;
  em_STDIN : cstr m (lit_STDIN y) (codes "STDIN");
  em_STDOUT : cstr m (lit_STDOUT y) (codes "STDOUT");
  em_empty : cstr m (lit_empty y) [];
  em_separate : separate (exec_regions y m f n);
  em_low : Forall (λ r, 0 < fst r ∧ fst r + snd r ≤ USER_PROG_START) (exec_regions y m f n)
}.

(** The program's window. *)
Definition window : Z * Z := (USER_PROG_START, USER_PROG_END - USER_PROG_START).

Section memory.
Context (y : layout) (ns : list (list Z)) (n : Z).

Lemma exec_fixed_apart m f r :
  exec_mem y ns n m f → r ∈ window :: drop 5 (exec_regions y m f n) →
  Forall (apart r) (take 5 (exec_regions y m f n)).
Proof.
  intros [_ _ _ _ Hsep Hlow] Hr. apply Forall_lookup_2. intros i s Hi.
  apply lookup_take_Some in Hi as [Hi Hlt]. apply elem_of_cons in Hr as [->|Hr].
  - pose proof (Forall_lookup_1 _ _ _ _ Hlow Hi) as [_ Hle].
    unfold apart, disjoint_regions, window. cbn in *. lia.
  - apply list_elem_of_lookup in Hr as [j Hj]. rewrite lookup_drop in Hj.
    apply (separate_apart _ (5 + j) i _ _ Hsep Hj Hi). lia.
Qed.

(** Writing apart from what execute reads keeps it. *)
Lemma exec_mem_apart m m' f rs :
  exec_mem y ns n m f → changes_only rs m m' →
  Forall (λ r, Forall (apart r) (take 5 (exec_regions y m f n))) rs →
  exec_mem y ns n m' f ∧ exec_regions y m' f n = exec_regions y m f n ∧
  (∀ k, 0 ≤ k < inodes_num (boot_block_at y) m → content m' f k = content m f k) ∧
  inodes_num (boot_block_at y) m' = inodes_num (boot_block_at y) m ∧
  ∀ i, 0 ≤ i < 63 → rd32 m' (inode_at (dentry_at f i)) = rd32 m (inode_at (dentry_at f i)).
Proof.
  intros Hem Hc Hap.
  assert (∀ i s, take 5 (exec_regions y m f n) !! i = Some s → Forall (apart s) rs) as Hlit.
  { intros i s Hi. eapply Forall_impl; [exact Hap|]. intros r Hr. apply apart_sym.
    by apply (Forall_lookup_1 _ _ _ _ Hr Hi). }
  pose proof Hem as [Hfs H1 H2 H3 Hsep Hlow].
  destruct (fs_ok_kept _ ns m m' f rs Hfs Hc) as (Hfs' & Hk & Hent).
  { eapply Forall_impl; [exact Hap|]. intros r Hr. exact (Forall_take _ 2 _ Hr). }
  destruct (mounted_kept _ _ _ _ (fs_mounted _ _ _ _ Hfs) Hk) as (_ & Hcont & He).
  destruct (kept_counts _ _ _ _ Hk) as (HN & _ & _).
  assert (exec_regions y m' f n = exec_regions y m f n) as Hr
    by (unfold exec_regions, fs_regions; by rewrite He).
  split_and!; [|done|done|done|by intros i Hi; apply Hent].
  constructor; rewrite ?Hr; try done.
  - eapply changes_same_cstr; [exact Hc|exact (Hlit 2%nat _ eq_refl)|done].
  - eapply changes_same_cstr; [exact Hc|exact (Hlit 3%nat _ eq_refl)|done].
  - eapply changes_same_cstr; [exact Hc|exact (Hlit 4%nat _ eq_refl)|done].
Qed.

(** Writing to the locals, the control blocks or the window is. *)
Lemma exec_mem_kept m m' f rs :
  exec_mem y ns n m f → changes_only rs m m' →
  rs ⊆ window :: drop 5 (exec_regions y m f n) →
  exec_mem y ns n m' f ∧ exec_regions y m' f n = exec_regions y m f n ∧
  (∀ k, 0 ≤ k < inodes_num (boot_block_at y) m → content m' f k = content m f k) ∧
  inodes_num (boot_block_at y) m' = inodes_num (boot_block_at y) m ∧
  ∀ i, 0 ≤ i < 63 → rd32 m' (inode_at (dentry_at f i)) = rd32 m (inode_at (dentry_at f i)).
Proof.
  intros Hem Hc Hsub. apply (exec_mem_apart m m' f rs Hem Hc). rewrite Forall_forall. intros r Hr.
  apply exec_fixed_apart; [done|]. by apply Hsub.
Qed.

Lemma exec_mem_same m f f' : fs_same f f' → exec_mem y ns n m f → exec_mem y ns n m f'.
Proof.
  intros Hf [Hfs ? ? ? ? ?]. pose proof (fs_ok_same _ _ _ _ _ Hf Hfs).
  destruct Hf as (a & b & c & ->). by constructor.
Qed.
End memory.

(** ** Reading the program file *)

(** [l] names an entry of inode [kf]. *)
Definition names_inode (ns : list (list Z)) (m : mem) (f : fs) (l : list Z) (kf : Z) : Prop :=
  0 < zlen l ≤ 31 ∧ ∃ i, list_find (λ n, n = l) ns = Some (i, l) ∧
    rd32 m (inode_at (dentry_at f (Z.of_nat i))) = kf.

(** A kernel state that differs in memory and file system counters only. *)
Definition touches {D} (rs : list (Z * Z)) (k k' : kernel D) : Prop :=
  (∃ f', fs_same (kfs (term k)) f' ∧ k' = set_kfs f' (set_mem (kmem k') k)) ∧
  changes_only rs (kmem k) (kmem k').

Lemma touches_trans {D} rs (k1 k2 k3 : kernel D) :
  touches rs k1 k2 → touches rs k2 k3 → touches rs k1 k3.
Proof.
  intros [(f2 & Hf2 & E2) H2] [(f3 & Hf3 & E3) H3]. split; [|by eapply changes_only_trans].
  exists f3. rewrite E2 in Hf3, E3. split; [by eapply fs_same_trans|]. by rewrite E3 at 1.
Qed.

Lemma touches_mono {D} rs rs' (k k' : kernel D) : touches rs k k' → rs ⊆ rs' → touches rs' k k'.
Proof. intros [? ?] ?. split; [done|]. by eapply changes_only_mono. Qed.

Lemma touches_mem {D} rs (k : kernel D) m' : changes_only rs (kmem k) m' → touches rs k (set_mem m' k).
Proof.
  intros ?. split; [|done]. exists (kfs (term k)). split; [apply fs_same_refl|].
  by destruct k as [[[] ? ? ? ?] ? ? ? ? ? ? ?].
Qed.

Section program.
Context (y : layout) (ns : list (list Z)) (n : Z).

(** The regions execute may write before it commits. *)
Definition exec_locals : list (Z * Z) :=
  [ (file_read_dentry y, 40); (file_load_dentry y, 40); (magic_temp y, 4); (entry_buf y, 4);
    (command_name y, 33); (arg_buf y, 1025) ].

Lemma exec_locals_sub m f : exec_locals ⊆ window :: drop 5 (exec_regions y m f n).
Proof.
  intros r Hr. right. unfold exec_regions, fs_regions. cbn.
  change (r ∈ exec_locals ++ [(pcb_at (n + 1), 1424); (pcb_at n, 1424)]).
  apply elem_of_app. by left.
Qed.

(** The name stays found, with the same content, while execute works. *)
Record exec_state {D} (l : list Z) (kf : Z) (k : kernel D) : Prop := {
  es_mem : exec_mem y ns n (kmem k) (kfs (term k));
  es_name : cstr (kmem k) (command_name y) l;
  es_found : names_inode ns (kmem k) (kfs (term k)) l kf
}.

Lemma names_inode_kept m m' f l kf rs :
  exec_mem y ns n m f → changes_only rs m m' → rs ⊆ window :: drop 5 (exec_regions y m f n) →
  names_inode ns m f l kf → names_inode ns m' f l kf.
Proof.
  intros Hem Hc Hsub (Hl & i & Hi & Hino). split; [done|]. exists i. split; [done|].
  destruct (exec_mem_kept y ns n m m' f rs Hem Hc Hsub) as (_ & _ & _ & _ & Hent).
  rewrite Hent; [done|]. pose proof Hi as (Hx & _)%list_find_Some. apply lookup_lt_Some in Hx.
  destruct (fs_names _ _ _ _ (em_fs _ _ _ _ _ Hem)). lia.
Qed.

Lemma names_inode_valid m f l kf :
  exec_mem y ns n m f → names_inode ns m f l kf → 0 ≤ kf < inodes_num (boot_block_at y) m.
Proof.
  intros Hem (_ & i & Hi & <-). split; [apply rd32_range|].
  apply (fs_inodes _ _ _ _ (em_fs _ _ _ _ _ Hem)).
  pose proof Hi as (Hx & _)%list_find_Some. apply lookup_lt_Some in Hx.
  destruct (fs_names _ _ _ _ (em_fs _ _ _ _ _ Hem)). lia.
Qed.

Lemma read_named_spec {D} l kf (k : kernel D) i buf offset :
  exec_state l kf k → (i = 7 ∨ i = 8)%nat →
  exec_regions y (kmem k) (kfs (term k)) n !! i = Some (buf, 4) →
  0 ≤ offset → offset + 4 ≤ file_length (kmem k) (kfs (term k)) kf →
  returns (read_named y buf offset 4 k) (λ '(k', r), r = 4 ∧
    touches [(file_read_dentry y, 40); (buf, 4)] k k' ∧
    bytes (kmem k') buf 4 = slice offset 4 (content (kmem k) (kfs (term k)) kf)).
Proof.
  intros [Hem Hname (Hl & j & Hj & Hino)] Hi Hbuf Ho Hlen. pose proof Hem as [Hfs _ _ _ Hsep Hlow].
  pose proof Hfs as [Hm Hns _ Hin]. unfold read_named, fs_call.
  pose proof (rd32_range (kmem k) (inode_addr (kfs (term k)) kf)) as Hfl.
  change (rd32 (kmem k) (inode_addr (kfs (term k)) kf)) with (file_length (kmem k) (kfs (term k)) kf) in Hfl.
  assert (j < 63)%nat as Hj63.
  { pose proof Hj as (Hx & _)%list_find_Some. apply lookup_lt_Some in Hx. destruct Hns. lia. }
  pose proof (Forall_lookup_1 _ _ _ _ Hlow Hbuf) as [Hbuf0 _].
  pose proof (Forall_lookup_1 _ _ 9%nat _ Hlow eq_refl) as [Hname0 _]. cbn [fst] in Hbuf0, Hname0.
  assert (∀ q a b, (5 ≤ q)%nat → exec_regions y (kmem k) (kfs (term k)) n !! q = Some (a, b) →
    off_image (boot_block_at y) (kmem k) (kfs (term k)) a b) as Hoff.
  { intros q a b Hq Hr. split.
    - exact (separate_apart _ 0 q _ _ Hsep eq_refl Hr ltac:(lia)).
    - exact (separate_apart _ 1 q _ _ Hsep eq_refl Hr ltac:(lia)). }
  eapply returns_bind.
  { apply (file_read_spec (boot_block_at y) (kmem k) _ Hm ns Hns (command_name y) l Hname Hl j Hj
      (file_read_dentry y) buf offset 4); [apply Hin; lia|by apply (Hoff 5%nat)|apply (Hoff i); [lia|done]|lia..]. }
  fold (found_inode (kmem k) (kfs (term k)) j) in Hino. rewrite Hino.
  intros [[m' f'] r] Hres. unfold read_outcome in Hres. rewrite (proj2 (Z.leb_gt _ _)) in Hres by lia.
  unfold dead_end, readable in Hres. rewrite Z.min_l, Z.ltb_irrefl in Hres by lia. cbn [andb] in Hres.
  destruct Hres as (Hb & _ & Hs & -> & Hf' & _). rewrite zlen_slice, zlen_content, Z.min_l in * by
    (rewrite ?zlen_content; lia). apply returns_Ok. split_and!; [done| |exact Hb].
  split; [by exists f'|]. intros a Ha. apply Forall_cons in Ha as [Ha1 Ha].
  apply Forall_cons in Ha as [Ha2 _]. unfold inside in *. cbn in *. by apply Hs.
Qed.

(** A name that is not in the directory. *)
Lemma read_named_missing {D} l (k : kernel D) buf offset :
  exec_mem y ns n (kmem k) (kfs (term k)) → cstr (kmem k) (command_name y) l →
  zlen l < 2147483647 → (l = [] ∨ list_find (λ n, n = l) ns = None) →
  read_named y buf offset 4 k = Ok (k, -1).
Proof.
  intros [Hfs _ _ _ _ _] Hl Hz Hmiss. pose proof Hfs as [Hm Hns _ _]. unfold read_named, fs_call, file_read.
  assert (read_dentry_by_name (command_name y) (file_read_dentry y) (kmem k) (kfs (term k)) =
    Ok (kmem k, FAIL)) as E.
  { destruct l as [|c l0].
    - unfold read_dentry_by_name. by rewrite (strlen_cstr _ _ _ Hl) by (cbn; lia).
    - destruct Hmiss as [?|Hmiss]; [done|].
      destruct (read_dentry_by_name_spec (boot_block_at y) _ _ Hm (command_name y)
        (file_read_dentry y) (c :: l0) ns Hns Hl) as ([m' r] & -> & Hr); [rewrite zlen_cons in Hz |- *; lia| |].
      + intros i Hi. by rewrite Hmiss in Hi.
      + rewrite Hmiss in Hr. by destruct Hr as [-> ->]. }
  destruct ((_ =? 0) || _ || _); cycle 1; [rewrite E|]; rewrite !bind_Ok; cbn;
    by destruct k as [[[] ? ? ? ?] ? ? ? ? ? ? ?].
Qed.

(** The regions written while the name must stay. *)
Definition exec_scratch : list (Z * Z) :=
  [ window; (file_read_dentry y, 40); (file_load_dentry y, 40); (magic_temp y, 4); (entry_buf y, 4);
    (arg_buf y, 1025); (pcb_at (n + 1), 1424); (pcb_at n, 1424) ].

Lemma exec_scratch_sub m f : exec_scratch ⊆ window :: drop 5 (exec_regions y m f n).
Proof.
  intros r Hr. change (window :: drop 5 (exec_regions y m f n)) with
    (take 5 exec_scratch ++ (command_name y, 33) :: drop 5 exec_scratch).
  rewrite <- (take_drop 5 exec_scratch) in Hr. rewrite elem_of_app, elem_of_cons.
  apply elem_of_app in Hr. tauto.
Qed.

Lemma exec_name_apart m f r :
  exec_mem y ns n m f → r ∈ exec_scratch → apart (command_name y, 33) r.
Proof.
  intros [_ _ _ _ Hsep Hlow] Hr. apply elem_of_cons in Hr as [->|Hr].
  - pose proof (Forall_lookup_1 _ _ 9%nat _ Hlow eq_refl) as [_ Hle].
    unfold apart, disjoint_regions, window. cbn in *. lia.
  - assert (∀ j, j ≠ 9%nat → exec_regions y m f n !! j = Some r → apart (command_name y, 33) r) as Hj.
    { intros j Hne Hj. apply (separate_apart _ 9 j _ _ Hsep eq_refl Hj). lia. }
    unfold exec_scratch in Hr. cbn [tail] in Hr. rewrite !elem_of_cons, elem_of_nil in Hr.
    destruct Hr as [->|[->|[->|[->|[->|[->|[->|[]]]]]]]].
    + by apply (Hj 5%nat).
    + by apply (Hj 6%nat).
    + by apply (Hj 7%nat).
    + by apply (Hj 8%nat).
    + by apply (Hj 10%nat).
    + by apply (Hj 11%nat).
    + by apply (Hj 12%nat).
Qed.

Lemma exec_state_kept {D} l kf (k k' : kernel D) :
  exec_state l kf k → touches exec_scratch k k' → zlen l ≤ 31 →
  exec_state l kf k' ∧
  content (kmem k') (kfs (term k')) kf = content (kmem k) (kfs (term k)) kf ∧
  exec_regions y (kmem k') (kfs (term k')) n = exec_regions y (kmem k) (kfs (term k)) n.
Proof.
  intros [Hem Hname Hf] [(f' & Hfs & E) Hc] Hz.
  pose proof (exec_scratch_sub (kmem k) (kfs (term k))) as Hsub.
  destruct (exec_mem_kept y ns n _ _ _ _ Hem Hc Hsub) as (Hem' & Hr & Hcont & _ & _).
  pose proof (names_inode_kept _ _ _ _ _ _ Hem Hc Hsub Hf) as Hf'.
  pose proof (names_inode_valid _ _ _ _ Hem Hf) as Hkf.
  assert (kfs (term k') = f') as Ef by (rewrite E; done). rewrite Ef.
  pose proof Hfs as (a & b & c & Hff). split_and!.
  - constructor.
    + rewrite Ef. by apply (exec_mem_same y ns n _ (kfs (term k))).
    + eapply changes_same_cstr; [exact Hc| |exact Hname]. rewrite Forall_forall. intros r Hr'.
      eapply apart_part; [by apply (exec_name_apart _ _ r Hem)|lia..].
    + rewrite Ef, Hff. exact Hf'.
  - rewrite Hff. by apply Hcont.
  - rewrite Hff. exact Hr.
Qed.

Lemma check_executable_spec {D} l kf (k : kernel D) :
  exec_state l kf k → 4 ≤ file_length (kmem k) (kfs (term k)) kf →
  returns (check_executable y k) (λ '(k', r),
    touches [(file_read_dentry y, 40); (magic_temp y, 4)] k k' ∧
    r = if decide (slice 0 4 (content (kmem k) (kfs (term k)) kf) = MAGIC) then 0 else -1).
Proof.
  intros Hes Hlen. unfold check_executable. eapply returns_bind.
  { by apply (read_named_spec l kf k 7 (magic_temp y) 0 Hes); [left| |lia|lia]. }
  intros [k' r] (-> & Ht & Hb). change (4 =? -1) with false. cbv iota. rewrite Hb.
  destruct (decide (slice 0 4 _ = MAGIC)) as [->|Hne].
  - rewrite bool_decide_eq_true_2 by done. by apply returns_Ok.
  - rewrite bool_decide_eq_false_2 by done. by apply returns_Ok.
Qed.
End program.

(** ** Loading the program *)

Definition program_room := USER_PROG_END - PROGRAM_STARTING_ADDR.

Section load.
Context (boot_at : Z) (m : mem) (f : fs) (Hm : mounted boot_at m f).
Context (ns : list (list Z)) (Hns : names m f ns).
Context (name : Z) (l : list Z) (Hl : cstr m name l) (Hlen : 0 < zlen l ≤ 31) (Hname : 0 < name).
Context (i : nat) (Hi : list_find (λ n, n = l) ns = Some (i, l)).

Lemma file_load_spec d addr :
  let kf := found_inode m f i in
  kf < inodes_num boot_at m → off_image boot_at m f d 40 →
  0 < file_length m f kf → off_image boot_at m f addr (file_length m f kf) →
  returns (file_load boot_at d name addr m f) (λ '(m', f', r),
    r = file_length m f kf ∧ bytes m' addr r = content m f kf ∧
    same_except2 d 40 addr (file_length m f kf) m m' ∧ fs_same f f').
Proof.
  cbn zeta. set (kf := found_inode m f i). intros Hk Hd Hpos Hoff. unfold file_load.
  rewrite (proj2 (Z.eqb_neq name 0)), (strlen_cstr _ _ _ Hl), bind_Ok by lia.
  rewrite (proj2 (Z.eqb_neq (zlen l) 0)) by lia.
  eapply returns_bind.
  { apply (read_dentry_by_name_spec boot_at m f Hm name d l ns Hns Hl); [lia|]. intros. split; [lia|done]. }
  rewrite Hi. intros [m1 r1] (-> & _ & _ & Hino & Hsame). change (SUCCESS =? -1) with false. cbv iota.
  fold (found_inode m f i) in Hino. rewrite Hino. fold kf.
  pose proof (same_except_image boot_at m f m1 d 40 Hsame Hd) as Hkept.
  destruct (mounted_kept boot_at m f m1 Hm Hkept) as (Hm1 & Hcont & Hend).
  destruct (kept_counts boot_at f m m1 Hkept) as (HN & _ & _).
  assert (0 ≤ kf) as Hkf by apply rd32_range.
  assert (file_length m1 f kf = file_length m f kf) as Hfl by (rewrite <- !zlen_content, Hcont; done).
  fold (file_length m1 f kf). rewrite Hfl. set (n := file_length m f kf) in *.
  assert (readable m1 f kf 0 n = n) as Hrd by (unfold readable; rewrite Hfl; lia).
  assert (n < 2147483648) as Hn31.
  { pose proof (inode_lengths boot_at m f Hm kf ltac:(lia)) as Hmax.
    unfold max_file, FS_UNIT_SIZE in Hmax. fold n in Hmax. lia. }
  eapply returns_mono.
  { apply (read_data_spec boot_at m1 f Hm1 kf); [lia|lia|lia|]. rewrite Hrd.
    unfold off_image in *. by rewrite Hend. }
  intros [[m' f'] r] [Hpre Hr]. unfold dead_end in Hr. rewrite Hrd, Z.ltb_irrefl in Hr. cbn [andb] in Hr.
  destruct Hr as [-> ->]. pose proof (read_prefix_slice m1 f kf 0 addr n m' ltac:(lia) ltac:(lia)) as Hw.
  rewrite Hrd in Hw, Hpre. specialize (Hw Hpre).
  assert (slice 0 n (content m1 f kf) = content m f kf) as Hsl.
  { unfold slice. rewrite Hcont by lia. change (Z.to_nat 0) with 0%nat. rewrite drop_0.
    apply take_ge. pose proof (zlen_content m f kf) as Hz. fold n in Hz. lia. }
  rewrite Hsl in Hw. split_and!; [done| |..].
  - pose proof (zlen_content m f kf) as Hz. fold n in Hz. rewrite <- Hz.
    apply (wr_bytes_read m1); [done|]. unfold content. apply Forall_fmap, Forall_true. intros; apply rd_range.
  - intros x Hx1 Hx2. rewrite (overlay_out _ _ _ _ _ x Hpre) by lia. apply Hsame. lia.
  - apply fs_same_length.
Qed.
End load.

(** ** Switching to the new process's pages *)

Lemma program_frame_user y n p :
  symbols_ok (paging_symbols y) → mapped_by (paging_symbols y) (process_entries (paging_symbols y) n) p →
  1 ≤ n ≤ 6 → program_frame y p = Some ((n + 1) * 0x400000).
Proof.
  intros Hy Hm Hn. unfold program_frame.
  rewrite (process_mapped (paging_symbols y) n p USER_PROG_START Hm) by (unfold USER_PROG_START; lia).
  unfold user_map, USER_PROG_START. cbn. f_equal.
Qed.

(** What the memory and the saved frames are after a change of directory. *)
Record frames_switched {D} (old new : option Z) (k k' : kernel D) : Prop := {
  sw_rest : changes_only [window] (kmem k) (kmem k');
  sw_saved q : old = Some q → old ≠ new →
    images k' = <[q := window_of (cells (kmem k))]> (images k);
  sw_unmapped : old = None → images k' = images k;
  sw_shown a : old ≠ new → in_window a = true →
    rd (kmem k') a = match new with Some q => rd (Mem (default ∅ (images k !! q))) a | None => 0 end;
  sw_same : old = new → kmem k' = kmem k ∧ images k' = images k
}.

Lemma in_window_inside a : in_window a = true ↔ inside window a.
Proof.
  unfold in_window, inside, window, USER_PROG_START, USER_PROG_END. cbn.
  rewrite andb_true_iff. lia.
Qed.

Lemma update_pages_spec {D} y (f : paging → res paging) (k : kernel D) p :
  f (pages k) = Ok p →
  ∃ k', update_pages y f k = Ok k' ∧ k' = set_mem (kmem k') (set_pages p (images k') k) ∧
    frames_switched (program_frame y (pages k)) (program_frame y p) k k'.
Proof.
  intros Hf. unfold update_pages. rewrite Hf, bind_Ok.
  set (old := program_frame y (pages k)). set (new := program_frame y p).
  destruct (show_frame old new (images k) (kmem k)) as [im m] eqn:E.
  exists (set_mem m (set_pages p im k)). split_and!; [done|done|].
  assert (im = fst (show_frame old new (images k) (kmem k)) ∧
    m = snd (show_frame old new (images k) (kmem k))) as [Him Hm] by (by rewrite E).
  constructor; unfold kmem in *; cbn.
  - intros a Ha. apply Forall_cons in Ha as [Ha _]. rewrite Hm. apply show_frame_outside.
    destruct (in_window a) eqn:Ew; [|done]. by apply in_window_inside in Ew.
  - intros q Hq Hne. rewrite Him, (proj1 (show_frame_saves old new _ _ 0 Hne)). by rewrite Hq.
  - intros Hn. rewrite Him. unfold show_frame. rewrite Hn. by destruct (decide _).
  - intros a Hne Ha. rewrite Hm. by apply show_frame_inside.
  - intros Heq. rewrite Hm, Him. unfold show_frame. by rewrite decide_True.
Qed.

(** ** The new control block *)

Definition initial_table : table :=
  [Some (File Stdin (codes "STDIN") 0 0); Some (File Stdout (codes "STDOUT") 0 0);
   None; None; None; None; None; None].

Section pcb.
Context (y : layout) (n : Z).

Lemma put_descriptor_spec d op name l fl m :
  cstr m name l → zlen l ≤ 31 → disjoint_regions d 48 name (zlen l + 1) →
  returns (put_descriptor d op name fl m) (λ m',
    words d (u32 op) 0 0 (u32 fl) m' ∧ cstr m' (file_name_at d) l ∧ same_except d 48 m m').
Proof.
  intros Hl Hz Hd. unfold put_descriptor.
  set (m1 := wr32 m (file_operation_at d) op).
  assert (same_except d 48 m m1) as Hs1 by (apply same_except_wr32; fields_at; lia).
  assert (cstr m1 name l) as Hl1 by (eapply cstr_frame; [exact Hs1|exact Hd|exact Hl]).
  eapply returns_bind.
  { eapply (store_name m1 d name l); [exact Hl1|exact Hz|exact Hd|]. by repeat split. }
  intros m2 ((Hop & _) & Hc & Hs2). apply returns_Ok.
  set (m3 := wr32 (wr32 (wr32 m2 _ 0) _ 0) _ fl).
  assert (changes_only [(d + 36, 12)] m2 m3) as Hc3.
  { intros a Ha. apply Forall_cons in Ha as [Ha _]. unfold inside in Ha. cbn in Ha.
    unfold m3. fields_at. rewrite !rd_wr32_ne by lia. done. }
  split_and!.
  - unfold words, m3 in *. fields_at. rewrite !rd32_wr32_ne, rd32_wr32_eq by lia.
    rewrite !rd32_wr32_ne, rd32_wr32_eq by lia. rewrite rd32_wr32_eq, Hop.
    unfold m1. fields_at. rewrite rd32_wr32_eq. done.
  - eapply changes_same_cstr; [exact Hc3| |exact Hc]. constructor; [|done].
    unfold apart, disjoint_regions. fields_at. cbn. lia.
  - do 2 (eapply same_except_trans; [eassumption|]). intros a Ha. apply Hc3.
    constructor; [|done]. unfold inside. cbn. lia.
Qed.

Context (m : mem) (p : Z) (Hp : p = pcb_at n).
Context (H1 : cstr m (lit_STDIN y) (codes "STDIN")) (H2 : cstr m (lit_STDOUT y) (codes "STDOUT")).
Context (H3 : cstr m (lit_empty y) []).
Context (D1 : apart (p, 1424) (lit_STDIN y, 6)) (D2 : apart (p, 1424) (lit_STDOUT y, 7)).
Context (D3 : apart (p, 1424) (lit_empty y, 1)) (Hy : tables_ok y).

(** The loop over the free descriptors. *)
Lemma put_free m1 :
  cstr m1 (lit_empty y) [] →
  returns (whileM (λ '(m, i),
      if i <? 8 then
        m ← put_descriptor (file_array_at p i) 0 (lit_empty y) NOT_USE m; Ok (inl (m, i + 1))
      else Ok (inr m)) (m1, 2))
    (λ m', (∀ i, 2 ≤ i < 8 → descriptor_is y m' (file_array_at p i) None) ∧
       same_except (p + 112) 288 m1 m').
Proof.
  intros Hempty. unfold apart, disjoint_regions in D3. cbn [fst snd] in D3.
  apply whileM_total with
    (I := λ '(m', i), 2 ≤ i ≤ 8 ∧ (∀ j, 2 ≤ j < i → descriptor_is y m' (file_array_at p j) None) ∧
       same_except (p + 112) 288 m1 m')
    (V := λ '(m', i), 8 - i).
  - split_and!; [lia|lia|intros; lia|apply same_except_refl].
  - lia.
  - intros [m' i] (Hi & Hd & Hs). destruct (Z.ltb_spec i 8) as [Hlt|]; cycle 1.
    { apply returns_Ok. split; [|done]. intros j Hj. apply Hd. lia. }
    eapply returns_bind.
    { apply (put_descriptor_spec (file_array_at p i) 0 (lit_empty y) [] NOT_USE m').
      - eapply cstr_frame; [exact Hs| |exact Hempty]. unfold disjoint_regions. cbn [length]. lia.
      - cbn. lia.
      - unfold disjoint_regions, file_array_at. cbn [length]. lia. }
    intros m2 ((_ & _ & _ & Hf) & _ & Hs2). apply returns_Ok. split; [|lia]. split_and!; [lia|lia| |].
    + intros j Hj. destruct (decide (j = i)) as [->|Hne]; [exact Hf|].
      apply (descriptor_kept y m'); [|apply Hd; lia].
      apply (same_except_bytes _ _ _ _ _ _ Hs2). unfold disjoint_regions, file_array_at. lia.
    + eapply same_except_trans; [exact Hs|].
      eapply same_except_weaken; [exact Hs2|unfold file_array_at; lia..].
Qed.

Lemma fill_pcb_spec esp ebp parent :
  0 ≤ n < 256 → 0 ≤ esp < 4294967296 → 0 ≤ ebp < 4294967296 →
  (n = 1 → parent = 0) →
  (n ≠ 1 → parent = rd m (pid_at (Z.land esp LAST_13BITS_MASK)) ∧
     apart (p, 4) (pid_at (Z.land esp LAST_13BITS_MASK), 1)) →
  returns (fill_pcb y n esp ebp m) (λ m',
    fd_table y m' p initial_table ∧ rd m' (pid_at p) = n ∧ rd m' (parent_pid_at p) = u8 parent ∧
    rd32 m' (parent_kernel_sp_at p) = esp ∧ rd32 m' (parent_kernel_bp_at p) = ebp ∧
    same_except p 400 m m').
Proof.
  intros Hn Hesp Hebp Hp1 Hp2. unfold fill_pcb. rewrite <- Hp.
  unfold pid_at, parent_pid_at, parent_kernel_sp_at, parent_kernel_bp_at in *.
  set (parent' := if n =? 1 then 0 else _).
  assert (parent' = parent) as ->.
  { unfold parent'. destruct (Z.eqb_spec n 1) as [Heq|Hne]; [by rewrite Hp1|].
    destruct (Hp2 Hne) as [-> Hap]. unfold apart, disjoint_regions in Hap. cbn [fst snd] in Hap.
    by rewrite rd_wr_ne by lia. }
  set (m1 := wr32 (wr32 (wr (wr m p n) (p + 1) parent) (p + 4) esp) (p + 8) ebp).
  assert (same_except p 16 m m1) as Hs1.
  { do 2 (eapply same_except_trans; [|apply same_except_wr32; lia]).
    eapply same_except_trans; apply same_except_wr; lia. }
  unfold apart, disjoint_regions in D1, D2, D3. cbn [fst snd] in D1, D2, D3.
  assert (zlen (codes "STDIN") = 5 ∧ zlen (codes "STDOUT") = 6) as [Z1 Z2] by done.
  eapply returns_bind.
  { apply (put_descriptor_spec (file_array_at p 0) (stdin_at y) (lit_STDIN y) (codes "STDIN") USE m1);
      [eapply cstr_frame; [exact Hs1| |exact H1]|lia|]; unfold disjoint_regions, file_array_at; lia. }
  intros m2 (W2 & C2 & S2). eapply returns_bind.
  { apply (put_descriptor_spec (file_array_at p 1) (stdout_at y) (lit_STDOUT y) (codes "STDOUT") USE m2);
      [eapply cstr_frame; [exact S2| |eapply cstr_frame; [exact Hs1| |exact H2]]|lia|];
      unfold disjoint_regions, file_array_at; lia. }
  intros m3 (W3 & C3 & S3). eapply returns_mono.
  { apply (put_free m3). eapply cstr_frame; [exact S3| |eapply cstr_frame; [exact S2| |
      eapply cstr_frame; [exact Hs1| |exact H3]]]; unfold disjoint_regions, file_array_at; cbn [length]; lia. }
  intros m' [Hfree S4]. pose proof (tables_range y Hy Stdin) as R1. pose proof (tables_range y Hy Stdout) as R2.
  cbn in R1, R2. assert (same_except (p + 16) 384 m1 m') as Hs5.
  { eapply same_except_trans; [eapply same_except_weaken; [exact S2|unfold file_array_at; lia..]|].
    eapply same_except_trans; [eapply same_except_weaken; [exact S3|unfold file_array_at; lia..]|].
    eapply same_except_weaken; [exact S4|lia..]. }
  split_and!.
  - split; [done|]. intros i o Hi.
    assert (descriptor_is y m' (file_array_at p 0) (Some (File Stdin (codes "STDIN") 0 0))) as T0.
    { apply (descriptor_kept y m2).
      - apply bytes_ext. intros j Hj. rewrite (same_except_rd _ _ _ _ _ S4), (same_except_rd _ _ _ _ _ S3);
          [done|unfold file_array_at; lia..].
      - cbn. destruct W2 as (-> & -> & -> & ->). rewrite (u32_small (stdin_at y)) by lia. by split_and!. }
    assert (descriptor_is y m' (file_array_at p 1) (Some (File Stdout (codes "STDOUT") 0 0))) as T1.
    { apply (descriptor_kept y m3).
      - apply bytes_ext. intros j Hj. rewrite (same_except_rd _ _ _ _ _ S4); [done|unfold file_array_at; lia].
      - cbn. destruct W3 as (-> & -> & -> & ->). rewrite (u32_small (stdout_at y)) by lia. by split_and!. }
    destruct i as [|[|i]]; [by injection Hi as <-|by injection Hi as <-|].
    pose proof (lookup_lt_Some _ _ _ Hi) as Hlt. change (length initial_table) with 8%nat in Hlt.
    assert (o = None) as -> by (do 6 (destruct i as [|i]; [by injection Hi as <-|]); cbn in Hlt; lia).
    apply Hfree. lia.
  - rewrite (same_except_rd _ _ _ _ _ Hs5) by lia. unfold m1.
    rewrite !rd_wr32_ne, rd_wr_ne, rd_wr_eq by lia. apply u8_small. lia.
  - rewrite (same_except_rd _ _ _ _ _ Hs5) by lia. unfold m1.
    rewrite !rd_wr32_ne, rd_wr_eq by lia. done.
  - rewrite (same_except_rd32 _ _ _ _ _ Hs5) by (unfold disjoint_regions; lia). unfold m1.
    rewrite rd32_wr32_ne, rd32_wr32_eq by lia. by apply u32_small.
  - rewrite (same_except_rd32 _ _ _ _ _ Hs5) by (unfold disjoint_regions; lia). unfold m1.
    rewrite rd32_wr32_eq. by apply u32_small.
  - eapply same_except_trans; [eapply same_except_weaken; [exact Hs1|lia..]|].
    eapply same_except_weaken; [exact Hs5|lia..].
Qed.
End pcb.

Lemma fill_args_spec y n m args :
  cstr m (arg_buf y) args → zlen args ≤ 1023 → apart (pcb_at n, 1424) (arg_buf y, 1025) →
  returns (fill_args y n (zlen args) m) (λ m',
    cstr m' (arg_at (pcb_at n)) args ∧ same_except (pcb_at n + 400) 1024 m m').
Proof.
  intros Ha Hz Hd. unfold apart, disjoint_regions in Hd. cbn [fst snd] in Hd.
  unfold fill_args, arg_at. set (p := pcb_at n) in *.
  set (m1 := for_ _ _ _ m).
  assert (overlay (p + 400) 1024 (λ _, 0) m m1) as H1.
  { pose proof (for_inv (λ i mi, overlay (p + 400) i (λ _, 0) m mi)
      (λ i m, wr m (p + 400 + i) 0) (Z.to_nat ARG_SIZE) 0 m) as Hfor.
    apply Hfor; [apply overlay_0|]. intros j mj Hj Hmj. by apply overlay_wr; [|lia|lia|]. }
  assert (cstr m1 (arg_buf y) args) as Ha1.
  { eapply cstr_frame; [by eapply overlay_same_except| |exact Ha]. unfold disjoint_regions. lia. }
  rewrite u32_small by lia. eapply returns_mono.
  { apply (strncpy_cstr m1 (p + 400) (arg_buf y) args (zlen args) Ha1); [lia|].
    unfold disjoint_regions. lia. }
  intros m' Hm'. assert (padded args (zlen args) = args) as Hpad.
  { unfold padded. rewrite Nat2Z.id, firstn_all, Z.sub_diag. apply app_nil_r. }
  rewrite Hpad in Hm'. pose proof (wr_bytes_same_except _ _ _ _ Hm') as Hs. split.
  - pose proof (cstr_text _ _ _ Ha) as Htext. destruct Ha as (Hnz & _ & _). split_and!; [done| |].
    + apply (wr_bytes_read m1); [done|]. eapply Forall_impl; [exact Htext|]. intros; cbn in *; lia.
    + rewrite (same_except_rd _ _ _ _ _ Hs) by lia. apply (overlay_in _ _ _ _ _ _ H1). lia.
  - eapply same_except_trans; [by eapply overlay_same_except|].
    eapply same_except_weaken; [exact Hs|lia..].
Qed.

(** ** A started process *)

(** The control block process [n]'s execute writes. *)
Record process_block (y : layout) (n parent esp ebp : Z) (args : list Z) (m : mem) : Prop := {
  pb_pid : rd m (pid_at (pcb_at n)) = n;
  pb_parent : rd m (parent_pid_at (pcb_at n)) = parent;
  pb_sp : rd32 m (parent_kernel_sp_at (pcb_at n)) = esp;
  pb_bp : rd32 m (parent_kernel_bp_at (pcb_at n)) = ebp;
  pb_table : fd_table y m (pcb_at n) initial_table;
  pb_args : cstr m (arg_at (pcb_at n)) args
}.

Lemma new_block y n m esp ebp args :
  tables_ok y → 0 ≤ n ≤ 5 → 0 ≤ esp < 4294967296 → 0 ≤ ebp < 4294967296 →
  cstr m (lit_STDIN y) (codes "STDIN") → cstr m (lit_STDOUT y) (codes "STDOUT") →
  cstr m (lit_empty y) [] → cstr m (arg_buf y) args → zlen args ≤ 1023 →
  Forall (apart (pcb_at (n + 1), 1424))
    [(lit_STDIN y, 6); (lit_STDOUT y, 7); (lit_empty y, 1); (arg_buf y, 1025)] →
  (n ≠ 0 → Z.land esp LAST_13BITS_MASK = pcb_at n ∧ rd m (pid_at (pcb_at n)) = n) →
  returns (m ← fill_pcb y (n + 1) esp ebp m; fill_args y (n + 1) (zlen args) m) (λ m',
    process_block y (n + 1) n esp ebp args m' ∧ same_except (pcb_at (n + 1)) 1424 m m').
Proof.
  intros Hy Hn Hesp Hebp H1 H2 H3 Ha Hz Hap Hpar. rewrite !Forall_cons in Hap.
  destruct Hap as (D1 & D2 & D3 & D4 & _). set (p := pcb_at (n + 1)) in *.
  assert (p = 0x800000 - (n + 1) * 0x2000) as Hpe by (apply pcb_at_eq; lia).
  eapply returns_bind.
  { apply (fill_pcb_spec y (n + 1) m p eq_refl H1 H2 H3 D1 D2 D3 Hy esp ebp n); try lia.
    intros Hne. destruct (Hpar ltac:(lia)) as [-> Hpid]. split; [by symmetry|].
    unfold apart, disjoint_regions, pid_at. cbn. rewrite Hpe, pcb_at_eq by lia. lia. }
  intros m1 (Ht & Hpid & Hpp & Hsp & Hbp & Hs1).
  eapply returns_mono.
  { apply (fill_args_spec y (n + 1) m1 args); [|done|done].
    eapply cstr_frame; [exact Hs1| |exact Ha]. unfold apart, disjoint_regions in *. cbn [fst snd] in *. lia. }
  fold p. intros m' [Hargs Hs2].
  unfold pid_at, parent_pid_at, parent_kernel_sp_at, parent_kernel_bp_at in *. split.
  - constructor; fold p; unfold pid_at, parent_pid_at, parent_kernel_sp_at, parent_kernel_bp_at;
      rewrite ?(same_except_rd _ _ _ _ _ Hs2), ?(same_except_rd32 _ _ _ _ _ Hs2)
        by (unfold disjoint_regions; lia); try done.
    + rewrite Hpp. apply u8_small. lia.
    + apply (fd_table_kept y [(p + 400, 1024)] m1); [|constructor; [|done]|done].
      * apply (same_except_changes _ _ _ _ _ Hs2). by left.
      * unfold apart, disjoint_regions. cbn. lia.
  - eapply same_except_trans; eapply same_except_weaken; (exact Hs1 || exact Hs2 || lia).
Qed.
