(* ===== verification/ExecProps.v ===== *)
(** * Properties of execute, halt and the system call gate *)

From S2P Require Import Prelude Memory LibString Ports Pic Rtc Console Keyboard Paging FileSys.
From S2P Require Import FsScreen Process Syscall Descriptors ReadWrite Calls Exec ExecSpec.

(** ** Starting a process *)

(** The physical frame of process [n]'s program page. *)
Definition frame_of (n : Z) : Z := (n + 1) * 0x400000.

(** [im] holds what the window shows in [m] under frame [q]. *)
Definition frame_saved (im : gmap Z (gmap Z byte)) (q : Z) (m : mem) : Prop :=
  ∃ c, im !! q = Some c ∧ ∀ a, in_window a = true → rd (Mem c) a = rd m a.

(** What start_process establishes, from [k] for process [n]. *)
Record started {D} (y : layout) (n esp ebp entry : Z) (args content : list Z)
    (k k' : kernel D) : Prop := {
  st_counter : counter k' = n;
  st_shell : shell_entry_addr k' = if n =? 1 then entry else shell_entry_addr k;
  st_arg_size : arg_size k' = zlen args;
  st_esp0 : tss_esp0 k' = kernel_stack n;
  st_paging : paging_ok (pages k') ∧
    mapped_by (paging_symbols y) (process_entries (paging_symbols y) n) (pages k');
  st_directories i : i ≠ Z.to_nat (n - 1) →
    page_directories (pages k') !! i = page_directories (pages k) !! i;
  st_video : page_table_video (pages k') = page_table_video (pages k);
  st_image : bytes (kmem k') PROGRAM_STARTING_ADDR (zlen content) = content;
  st_block : process_block y n (n - 1) esp ebp args (kmem k');
  st_saved q : program_frame y (pages k) = Some q → q ≠ frame_of n → frame_saved (images k') q (kmem k);
  st_memory : changes_only (window :: (pcb_at n, 1424) :: exec_locals y) (kmem k) (kmem k');
  st_files : fs_same (kfs (term k)) (kfs (term k'));
  st_terminal : kmods (term k') = kmods (term k) ∧ kline (term k') = kline (term k) ∧
    kcon (term k') = set_vmem (kmem k') (kcon (term k))
}.

Section start.
Context {D : Type} (y : layout) (ns : list (list Z)) (n : Z) (Hy : tables_ok y).
Context (Hsym : symbols_ok (paging_symbols y)).
Implicit Types k : kernel D.

Lemma exec_state_ext l kf k k' :
  exec_state y ns n l kf k → kmem k' = kmem k → kfs (term k') = kfs (term k) →
  exec_state y ns n l kf k'.
Proof. intros [] Hm Hf. constructor; by rewrite ?Hm, ?Hf. Qed.

(** The load, once the pages are those of the new process. *)
Lemma load_spec l kf k :
  exec_state y ns n l kf k →
  let content := content (kmem k) (kfs (term k)) kf in
  0 < zlen content ≤ program_room →
  returns (fs_call (file_load (boot_block_at y) (file_load_dentry y) (command_name y)
                      PROGRAM_STARTING_ADDR) k)
    (λ '(k', r), r = zlen content ∧ touches [window; (file_load_dentry y, 40)] k k' ∧
       bytes (kmem k') PROGRAM_STARTING_ADDR (zlen content) = content).
Proof.
  intros [Hem Hname (Hl & i & Hi & Hino)]. cbn zeta. set (c := content _ _ kf). intros Hroom.
  pose proof Hem as [Hfs _ _ _ Hsep Hlow]. pose proof Hfs as [Hm Hns _ Hin].
  pose proof (zlen_content (kmem k) (kfs (term k)) kf) as Hz. fold c in Hz.
  assert (i < 63)%nat as Hi63.
  { pose proof Hi as (Hx & _)%list_find_Some. apply lookup_lt_Some in Hx. destruct Hns. lia. }
  pose proof (Forall_lookup_1 _ _ 9%nat _ Hlow eq_refl) as [Hname0 _]. cbn [fst] in Hname0.
  assert (∀ q a b, (q < 2)%nat → exec_regions y (kmem k) (kfs (term k)) n !! q = Some (a, b) →
    disjoint_regions a b PROGRAM_STARTING_ADDR (zlen c)) as Hwin.
  { intros q a b Hq Hr. pose proof (Forall_lookup_1 _ _ _ _ Hlow Hr) as [_ Hle].
    unfold disjoint_regions. unfold USER_PROG_START, PROGRAM_STARTING_ADDR in *. cbn in Hle. lia. }
  unfold fs_call. eapply returns_bind.
  { apply (file_load_spec (boot_block_at y) (kmem k) _ Hm ns Hns (command_name y) l Hname Hl Hname0 i Hi
      (file_load_dentry y) PROGRAM_STARTING_ADDR).
    - apply Hin. lia.
    - split; [exact (separate_apart _ 0 6 _ _ Hsep eq_refl eq_refl ltac:(lia))
             |exact (separate_apart _ 1 6 _ _ Hsep eq_refl eq_refl ltac:(lia))].
    - unfold found_inode. rewrite Hino. lia.
    - unfold found_inode. rewrite Hino, <- Hz. split; [by apply (Hwin 0%nat); [lia|]|by apply (Hwin 1%nat); [lia|]]. }
  intros [[m' f'] r]. unfold found_inode. rewrite Hino. fold c. rewrite <- Hz.
  intros (-> & Hb & Hs & Hf'). apply returns_Ok. split_and!; [done| |exact Hb].
  split; [by exists f'|]. intros a Ha. apply Forall_cons in Ha as [Ha1 Ha].
  apply Forall_cons in Ha as [Ha2 _]. unfold inside, window, program_room, PROGRAM_STARTING_ADDR,
    USER_PROG_START, USER_PROG_END in *. cbn in *. apply Hs; lia.
Qed.

(** The kernel right before the pages are switched. *)
Definition counted (entry : Z) k : kernel D :=
  let k1 := set_counter (counter k + 1) k in
  if counter k + 1 =? 1 then set_shell_entry entry k1 else k1.

Lemma counted_same entry k :
  kmem (counted entry k) = kmem k ∧ term (counted entry k) = term k ∧
  pages (counted entry k) = pages k ∧ images (counted entry k) = images k ∧
  counter (counted entry k) = counter k + 1 ∧ arg_size (counted entry k) = arg_size k ∧
  shell_entry_addr (counted entry k) =
    if counter k + 1 =? 1 then entry else shell_entry_addr k.
Proof. unfold counted. by destruct (counter k + 1 =? 1). Qed.

(** The pages of process [n + 1] are set up and active. *)
Lemma switch_in l kf k entry :
  exec_state y ns n l kf k → counter k = n → 0 ≤ n ≤ 5 → paging_ok (pages k) → zlen l ≤ 31 →
  ∃ k2, update_pages y (create_paging (paging_symbols y) (n + 1)) (counted entry k) = Ok k2 ∧
    exec_state y ns n l kf k2 ∧ kfs (term k2) = kfs (term k) ∧
    content (kmem k2) (kfs (term k2)) kf = content (kmem k) (kfs (term k)) kf ∧
    exec_regions y (kmem k2) (kfs (term k2)) n = exec_regions y (kmem k) (kfs (term k)) n ∧
    k2 = set_mem (kmem k2) (set_pages (pages k2) (images k2) (counted entry k)) ∧
    changes_only [window] (kmem k) (kmem k2) ∧
    paging_ok (pages k2) ∧
    mapped_by (paging_symbols y) (process_entries (paging_symbols y) (n + 1)) (pages k2) ∧
    page_table_video (pages k2) = page_table_video (pages k) ∧
    (∀ i, i ≠ Z.to_nat n → page_directories (pages k2) !! i = page_directories (pages k) !! i) ∧
    (∀ q, program_frame y (pages k) = Some q → q ≠ frame_of (n + 1) →
       frame_saved (images k2) q (kmem k)).
Proof.
  intros Hes Hn Hr Hpg Hz.
  destruct (counted_same entry k) as (Em & Et & Ep & Ei & Ec & Ea & Esh).
  destruct (create_paging_result (paging_symbols y) Hsym (n + 1) (pages k) Hpg ltac:(lia))
    as (p & Hp & Hok & Hmap & Hvid & _ & Hdir).
  rewrite <- Ep in Hp. destruct (update_pages_spec y _ (counted entry k) p Hp) as (k2 & E & Ek2 & Hsw).
  pose proof (program_frame_user y (n + 1) p Hsym Hmap ltac:(lia)) as Hframe.
  exists k2. split; [exact E|].
  assert (pages k2 = p ∧ term k2 = term (set_mem (kmem k2) (counted entry k))) as [Epg Et2] by (by rewrite Ek2).
  pose proof (sw_rest _ _ _ _ Hsw) as Hrest. rewrite Em in Hrest.
  assert (kfs (term k2) = kfs (term k)) as Ef by (rewrite Et2; cbn; by rewrite Et).
  assert (touches (exec_scratch y n) k (set_mem (kmem k2) k)) as Ht.
  { apply touches_mem. eapply changes_only_mono; [exact Hrest|]. unfold exec_scratch. set_solver. }
  destruct (exec_state_kept y ns n l kf _ _ Hes Ht Hz) as (Hes2 & Hcont & Hregs).
  change (kmem (set_mem (kmem k2) k)) with (kmem k2) in *.
  change (kfs (term (set_mem (kmem k2) k))) with (kfs (term k)) in *.
  rewrite Ef, Epg. split_and!; try done.
  - by apply (exec_state_ext l kf (set_mem (kmem k2) k)).
  - intros i Hi. apply Hdir. by replace (n + 1 - 1) with n by lia.
  - intros q Hq Hne. rewrite Ep, Hframe in Hsw.
    assert (program_frame y (pages k) ≠ Some ((n + 1 + 1) * 4194304)) as Hdiff
      by (rewrite Hq; unfold frame_of in Hne; congruence).
    exists (window_of (cells (kmem k))). split.
    + rewrite (sw_saved _ _ _ _ Hsw q Hq Hdiff), Em. by rewrite lookup_insert_eq.
    + intros a Ha. exact (proj2 (show_frame_saves _ _ ∅ (kmem k) a Hdiff) Ha).
Qed.

(** Putting the stages together. *)
Lemma finish_start esp ebp entry args cont k k2 k3 m' :
  counter k = n → 0 ≤ n ≤ 5 → arg_size k = zlen args → 0 < zlen cont ≤ program_room →
  k2 = set_mem (kmem k2) (set_pages (pages k2) (images k2) (counted entry k)) →
  changes_only [window] (kmem k) (kmem k2) → paging_ok (pages k2) →
  mapped_by (paging_symbols y) (process_entries (paging_symbols y) (n + 1)) (pages k2) →
  page_table_video (pages k2) = page_table_video (pages k) →
  (∀ i, i ≠ Z.to_nat n → page_directories (pages k2) !! i = page_directories (pages k) !! i) →
  (∀ q, program_frame y (pages k) = Some q → q ≠ frame_of (n + 1) → frame_saved (images k2) q (kmem k)) →
  kfs (term k2) = kfs (term k) → touches [window; (file_load_dentry y, 40)] k2 k3 →
  bytes (kmem k3) PROGRAM_STARTING_ADDR (zlen cont) = cont →
  process_block y (n + 1) n esp ebp args m' → same_except (pcb_at (n + 1)) 1424 (kmem k3) m' →
  started y (n + 1) esp ebp entry args cont k (set_mem m' (set_esp0 (kernel_stack (n + 1)) k3)).
Proof.
  intros Hn Hr Has Hroom Ek2 Hc2 Hok2 Hmap2 Hvid2 Hdir2 Hsav2 Ef2 [(f' & Hff & E3) Hc3] Hb3 Hblock Hs4.
  destruct (counted_same entry k) as (Em & Et & Ep & Ei & Ec & Ea & Esh).
  rewrite E3. pose proof (f_equal pages Ek2) as _.
  constructor; cbn [counter shell_entry_addr arg_size tss_esp0 pages images set_mem set_esp0 set_kfs set_term
    set_kcon term]; try done.
  - rewrite Ek2. cbn. by rewrite Ec, Hn.
  - rewrite Ek2. cbn. by rewrite Esh, Hn.
  - rewrite Ek2. cbn. by rewrite Ea.
  - intros i Hi. apply Hdir2. by replace (n + 1 - 1) with n in Hi by lia.
  - change (kmem _) with m'. rewrite <- Hb3 at 2. apply (same_except_bytes _ _ _ _ _ _ Hs4).
    unfold disjoint_regions, PROGRAM_STARTING_ADDR. rewrite pcb_at_eq by lia. lia.
  - change (kmem _) with m'. by replace (n + 1 - 1) with n by lia.
  - change (kmem (set_mem m' _)) with m'. clear -Hc2 Hc3 Hs4.
    eapply changes_only_trans; [eapply changes_only_mono; [exact Hc2|unfold exec_locals; set_solver]|].
    eapply changes_only_trans; [eapply changes_only_mono; [exact Hc3|unfold exec_locals; set_solver]|].
    apply (same_except_changes _ _ _ _ _ Hs4). set_solver.
  - by rewrite <- Ef2.
  - rewrite Ek2. cbn. by rewrite Et.
Qed.

(** The whole of start_process, on a program that loads. *)
Lemma start_process_spec esp ebp entry l kf args k :
  exec_state y ns n l kf k → counter k = n → 0 ≤ n ≤ 5 → paging_ok (pages k) → zlen l ≤ 31 →
  let content := content (kmem k) (kfs (term k)) kf in
  0 < zlen content ≤ program_room →
  cstr (kmem k) (arg_buf y) args → zlen args ≤ 1023 → arg_size k = zlen args →
  0 ≤ esp < 4294967296 → 0 ≤ ebp < 4294967296 →
  (n ≠ 0 → Z.land esp LAST_13BITS_MASK = pcb_at n ∧ rd (kmem k) (pid_at (pcb_at n)) = n) →
  returns (start_process y esp ebp entry k) (λ '(k', c),
    c = Enter (user_frame entry) ∧ started y (n + 1) esp ebp entry args content k k').
Proof.
  intros Hes Hn Hr Hpg Hz. cbn zeta. set (cont := content _ _ kf).
  intros Hroom Hargs Hza Has Hesp Hebp Hpar.
  destruct (counted_same entry k) as (Em & Et & Ep & Ei & Ec & Ea & Esh).
  destruct (switch_in l kf k entry Hes Hn Hr Hpg Hz) as (k2 & E2 & Hes2 & Ef2 & Hcont2 & Hreg2 & Ek2 &
    Hc2 & Hok2 & Hmap2 & Hvid2 & Hdir2 & Hsav2).
  unfold start_process. rewrite Hn. fold (counted entry k) in *.
  assert ((if n + 1 =? 1 then set_shell_entry entry (set_counter (n + 1) k) else set_counter (n + 1) k) =
    counted entry k) as -> by (unfold counted; by rewrite Hn).
  rewrite E2, bind_Ok. unfold cont in Hroom. rewrite <- Hcont2 in Hroom.
  destruct (load_spec l kf k2 Hes2 Hroom) as ([k3 r] & -> & -> & Ht3 & Hb3). rewrite bind_Ok.
  rewrite Hcont2 in Hroom, Hb3 |- *. fold cont in Hroom, Hb3 |- *. rewrite (proj2 (Z.eqb_neq _ (-1))) by lia.
  assert (exec_state y ns n l kf k3) as Hes3.
  { eapply exec_state_kept; [exact Hes2| |exact Hz]. eapply touches_mono; [exact Ht3|].
    unfold exec_scratch. set_solver. }
  set (rs := [window; (file_load_dentry y, 40)]) in *.
  assert (changes_only rs (kmem k) (kmem k3)) as Hc3.
  { eapply changes_only_trans; [|apply Ht3]. eapply changes_only_mono; [exact Hc2|unfold rs; set_solver]. }
  pose proof (es_mem _ _ _ _ _ _ Hes3) as Hem3. pose proof Hem3 as [_ L1 L2 L3 Hsep Hlow].
  set (R := exec_regions y (kmem k3) (kfs (term k3)) n) in *.
  assert (∀ i r, R !! i = Some r → i ≠ 6%nat → Forall (apart r) rs) as Hrs.
  { intros i r Hi Hne. constructor; [|constructor; [|done]].
    - pose proof (Forall_lookup_1 _ _ _ _ Hlow Hi) as [_ Hle].
      unfold apart, disjoint_regions, window. cbn [fst snd]. unfold USER_PROG_START in *. lia.
    - by apply (separate_apart _ i 6 _ _ Hsep Hi eq_refl). }
  assert (cstr (kmem k3) (arg_buf y) args) as Hargs3.
  { eapply changes_same_cstr; [exact Hc3| |exact Hargs]. eapply Forall_impl; [exact (Hrs 10%nat _ eq_refl ltac:(lia))|].
    intros w Hw. eapply apart_part; [exact Hw|lia..]. }
  assert (n ≠ 0 → Z.land esp LAST_13BITS_MASK = pcb_at n ∧ rd (kmem k3) (pid_at (pcb_at n)) = n) as Hpar3.
  { intros Hn0. destruct (Hpar Hn0) as [-> Hpid]. split; [done|].
    transitivity (rd (kmem k) (pid_at (pcb_at n))); [|done]. apply Hc3.
    eapply apart_not_inside; [exact (Hrs 12%nat _ eq_refl ltac:(lia))|unfold pid_at; lia]. }
  destruct (new_block y n (kmem k3) esp ebp args Hy Hr Hesp Hebp L1 L2 L3 Hargs3 Hza) as (m' & Hm' & Hblock & Hs4);
    [|exact Hpar3|].
  { rewrite !Forall_cons. split_and!; [exact (separate_apart R 11 2 _ _ Hsep eq_refl eq_refl ltac:(lia))
      |exact (separate_apart R 11 3 _ _ Hsep eq_refl eq_refl ltac:(lia))
      |exact (separate_apart R 11 4 _ _ Hsep eq_refl eq_refl ltac:(lia))
      |exact (separate_apart R 11 10 _ _ Hsep eq_refl eq_refl ltac:(lia))|done]. }
  assert (arg_size k3 = zlen args) as Has3.
  { destruct Ht3 as [(f' & _ & E3) _]. rewrite E3. cbn. rewrite Ek2. cbn. by rewrite Ea. }
  apply res_bind_Ok in Hm' as (m4 & E4 & E5). rewrite E4, bind_Ok.
  change (arg_size (set_esp0 (kernel_stack (n + 1)) k3)) with (arg_size k3). rewrite Has3, E5, bind_Ok.
  apply returns_Ok. split; [done|]. eapply (finish_start esp ebp entry args cont k k2 k3 m'); eassumption || done.
Qed.
End start.

(** ** From the command to the program *)

Lemma lor_shift x b k : 0 ≤ k → 0 ≤ x < 2 ^ k → Z.lor x (Z.shiftl b k) = x + b * 2 ^ k.
Proof.
  intros Hk Hx. assert (Z.land x (Z.shiftl b k) = 0) as H0.
  { apply Z.bits_inj'. intros i Hi. rewrite Z.land_spec, Z.bits_0.
    destruct (decide (i < k)).
    - rewrite Z.shiftl_spec_low by lia. apply andb_false_r.
    - rewrite <- (Z.mod_small x (2 ^ k)), Z.mod_pow2_bits_high by lia. done. }
  rewrite <- Z.lxor_lor, <- Z.add_nocarry_lxor, Z.shiftl_mul_pow2 by done. done.
Qed.

Lemma entry_word_rd32 m a : entry_word m a = s32 (rd32 m a).
Proof.
  unfold entry_word, rd32. f_equal. pose proof (rd_range m a). pose proof (rd_range m (a + 1)).
  pose proof (rd_range m (a + 2)).
  assert (2 ^ 8 = 256 ∧ 2 ^ 16 = 65536 ∧ 2 ^ 24 = 16777216) as (E8 & E16 & E24) by done.
  rewrite (lor_shift (rd m a)), E8 by lia.
  rewrite (lor_shift (rd m a + _)), E16 by lia.
  rewrite (lor_shift (rd m a + _ + _)), E24 by lia. lia.
Qed.

(** The entry address in the header of a program file. *)
Definition entry_of (content : list Z) : Z :=
  let b i := content !!! i in
  s32 (b 24%nat + 256 * b 25%nat + 65536 * b 26%nat + 16777216 * b 27%nat).

Lemma entry_of_bytes m a content :
  28 ≤ zlen content → bytes m a 4 = slice 24 4 content → entry_word m a = entry_of content.
Proof.
  intros Hz Hb. rewrite entry_word_rd32. unfold entry_of, rd32. f_equal.
  assert (∀ i, 0 ≤ i < 4 → rd m (a + i) = content !!! Z.to_nat (24 + i)) as Hrd.
  { intros i Hi. pose proof (lookup_bytes m a 4 i Hi) as Hl. rewrite Hb in Hl. unfold slice in Hl.
    rewrite lookup_take_lt, lookup_drop in Hl by lia.
    replace (Z.to_nat 24 + Z.to_nat i)%nat with (Z.to_nat (24 + i)) in Hl by lia.
    by rewrite (list_lookup_total_correct _ _ _ Hl). }
  pose proof (Hrd 0 ltac:(lia)) as H0. rewrite Z.add_0_r in H0.
  rewrite H0, (Hrd 1), (Hrd 2), (Hrd 3) by lia. done.
Qed.

(** A command execute can parse, to the name [l] and the arguments [args],
    when [n] processes run. *)
Record command_ok {D} (y : layout) (ns : list (list Z)) (n command : Z) (l args : list Z)
    (k : kernel D) : Prop := {
  co_counter : counter k = n ∧ 0 ≤ n ≤ 5;
  co_command : command ≠ 0;
  co_mem : exec_mem y ns n (kmem k) (kfs (term k));
  co_name : parsed_name (kmem k) command = l;
  co_args : cstr (kmem k) (command + parse_end (kmem k) command + 1) args;
  co_short : zlen args ≤ 1023;
  co_apart : Forall (apart (command, 34 + zlen args)) [(command_name y, 33); (arg_buf y, 1025)]
}.

(** A program: it starts with the magic number, has an entry address and fits
    the program page. *)
Definition executable (content : list Z) : Prop :=
  28 ≤ zlen content ≤ program_room ∧ slice 0 4 content = MAGIC.

Section execute.
Context `{PortIO D, Hotkeys D fs} (y : layout) (ns : list (list Z)) (n : Z) (Hy : tables_ok y).
Context (Hsym : symbols_ok (paging_symbols y)).
Implicit Types k : kernel D.

(** After the parsing. *)
Lemma parsed command l args k :
  command_ok y ns n command l args k →
  returns (parse_command y command k) (λ k1, ∃ m1, k1 = set_arg_size (zlen args) (set_mem m1 k) ∧
    exec_mem y ns n m1 (kfs (term k)) ∧ cstr m1 (command_name y) l ∧ cstr m1 (arg_buf y) args ∧
    changes_only [(command_name y, 33); (arg_buf y, 1025)] (kmem k) m1 ∧
    ∀ kf, names_inode ns (kmem k) (kfs (term k)) l kf →
      exec_state y ns n l kf k1 ∧ content m1 (kfs (term k)) kf = content (kmem k) (kfs (term k)) kf).
Proof.
  intros [[Hn Hr] Hc Hem Hname Hargs Hshort Hap]. pose proof Hem as [_ _ _ _ Hsep Hlow].
  rewrite !Forall_cons in Hap. destruct Hap as (Hap1 & Hap2 & _).
  pose proof (separate_apart _ 9 10 _ _ Hsep eq_refl eq_refl ltac:(lia)) as H910.
  eapply returns_mono; [by apply (parse_command_spec y command (kmem k) args)|].
  intros k1 (m1 & -> & Hcn & Hca & Hch). exists m1. rewrite Hname in Hcn.
  assert ([(command_name y, 33); (arg_buf y, 1025)] ⊆ window :: drop 5 (exec_regions y (kmem k) (kfs (term k)) n)) as Hsub.
  { intros r Hr'. apply (exec_locals_sub y n). clear -Hr'. unfold exec_locals. set_solver. }
  destruct (exec_mem_kept y ns n _ _ _ _ Hem Hch Hsub) as (Hem1 & _ & Hcont & _ & _).
  split_and!; [done..|]. intros kf Hf. split.
  - constructor; [exact Hem1|exact Hcn|]. exact (names_inode_kept y ns n (kmem k) m1 (kfs (term k)) l kf _ Hem Hch Hsub Hf).
  - apply Hcont. exact (names_inode_valid y ns n (kmem k) (kfs (term k)) l kf Hem Hf).
Qed.

(** The locals of execute are neither in the window nor in a control block. *)
Lemma locals_spare k m' r :
  exec_mem y ns n (kmem k) (kfs (term k)) → changes_only (exec_locals y) (kmem k) m' →
  r ∈ [window; (pcb_at (n + 1), 1424); (pcb_at n, 1424)] →
  ∀ a, inside r a → rd m' a = rd (kmem k) a.
Proof.
  intros [_ _ _ _ Hsep Hlow] Hc Hr a Ha. apply Hc.
  set (R := exec_regions y (kmem k) (kfs (term k)) n) in *.
  assert (Forall (apart r) (exec_locals y)) as Hap.
  { apply Forall_lookup_2. intros i x Hx.
    assert (R !! (5 + i)%nat = Some x) as HR by (unfold R, exec_regions, fs_regions; cbn;
      by rewrite <- (lookup_app_l (exec_locals y) [(pcb_at (n + 1), 1424); (pcb_at n, 1424)])
        in Hx by (by eapply lookup_lt_Some)).
    apply lookup_lt_Some in Hx. change (length (exec_locals y)) with 6%nat in Hx.
    rewrite !elem_of_cons, elem_of_nil in Hr. destruct Hr as [->|[->|[->|[]]]].
    - pose proof (Forall_lookup_1 _ _ _ _ Hlow HR) as [_ Hle].
      unfold apart, disjoint_regions, window. cbn [fst snd]. lia.
    - exact (separate_apart R 11 (5 + i) _ _ Hsep eq_refl HR ltac:(lia)).
    - exact (separate_apart R 12 (5 + i) _ _ Hsep eq_refl HR ltac:(lia)). }
  destruct r as [b z]. eapply apart_not_inside; [exact Hap|exact Ha].
Qed.

(** What start_process establishes, seen from before the parsing. *)
Lemma started_lift esp ebp entry args cont k k1 k' f1 :
  exec_mem y ns n (kmem k) (kfs (term k)) → changes_only (exec_locals y) (kmem k) (kmem k1) →
  fs_same (kfs (term k)) f1 → k1 = set_arg_size (zlen args) (set_kfs f1 (set_mem (kmem k1) k)) →
  started y (n + 1) esp ebp entry args cont k1 k' → started y (n + 1) esp ebp entry args cont k k'.
Proof.
  intros Hem Hc Hf1 E [Sc Ss Sa Se Sp Sd Sv Si Sb Sq Sm Sf St].
  rewrite E in Ss, Sd, Sv, Sq, Sf, St. cbn in Ss, Sd, Sv, Sq, Sf, St.
  constructor; try done.
  - intros q Hq Hne. destruct (Sq q Hq Hne) as (c & Hc1 & Hc2). exists c. split; [done|].
    intros a Ha. rewrite Hc2 by done. change (kmem (set_arg_size _ _)) with (kmem k1).
    eapply locals_spare; [exact Hem|exact Hc|by left|by apply in_window_inside].
  - eapply changes_only_trans; [eapply changes_only_mono; [exact Hc|]|exact Sm].
    clear. intros r Hr. right. by right.
  - by eapply fs_same_trans.
Qed.

(** The checks and the header, after the parsing. *)
Lemma header_read l kf k :
  exec_state y ns n l kf k → zlen l ≤ 31 → executable (content (kmem k) (kfs (term k)) kf) →
  returns ('(k, r) ← check_executable y k;
           if r =? -1 then Ok (k, -1, 0)
           else '(k, r) ← read_named y (entry_buf y) CODE_STARTING_POINT 4 k;
                Ok (k, r, entry_word (kmem k) (entry_buf y)))
    (λ '(k', r, e), r = 4 ∧ e = entry_of (content (kmem k) (kfs (term k)) kf) ∧
       exec_state y ns n l kf k' ∧
       content (kmem k') (kfs (term k')) kf = content (kmem k) (kfs (term k)) kf ∧
       touches [(file_read_dentry y, 40); (magic_temp y, 4); (entry_buf y, 4)] k k').
Proof.
  intros Hes Hz [Hlen Hmagic]. rewrite zlen_content in Hlen.
  eapply returns_bind; [by apply (check_executable_spec y ns n l kf k Hes); lia|].
  intros [k1 r] [Ht1 ->]. rewrite decide_True by done. cbv iota beta. change (0 =? -1) with false. cbv iota.
  destruct (exec_state_kept y ns n l kf k k1 Hes) as (Hes1 & Hcont1 & _);
    [|done|]; [eapply touches_mono; [exact Ht1|unfold exec_scratch; set_solver]|].
  pose proof (f_equal (λ x, zlen x) Hcont1) as Hl1. cbn beta in Hl1; rewrite !zlen_content in Hl1.
  eapply returns_bind.
  { by apply (read_named_spec y ns n l kf k1 8 (entry_buf y) CODE_STARTING_POINT Hes1);
      [right| | |unfold CODE_STARTING_POINT; lia]. }
  intros [k2 r] (-> & Ht2 & Hb). apply returns_Ok.
  destruct (exec_state_kept y ns n l kf k1 k2 Hes1) as (Hes2 & Hcont2 & _);
    [|done|]; [eapply touches_mono; [exact Ht2|unfold exec_scratch; set_solver]|].
  split_and!; [done| |done|congruence|].
  - rewrite Hcont1 in Hb. apply entry_of_bytes; [rewrite zlen_content; lia|exact Hb].
  - eapply touches_trans; eapply touches_mono; [exact Ht1| |exact Ht2|]; set_solver.
Qed.

(** The kernel stack execute runs on is its process's; [counter] 0 is the boot
    stack. *)
Definition on_stack (esp : Z) k : Prop :=
  counter k ≠ 0 →
    Z.land esp LAST_13BITS_MASK = current_pcb k ∧ rd (kmem k) (pid_at (current_pcb k)) = counter k.

Lemma execute_spec command l kf args esp ebp k :
  command_ok y ns n command l args k → names_inode ns (kmem k) (kfs (term k)) l kf →
  executable (content (kmem k) (kfs (term k)) kf) → paging_ok (pages k) → 0 ≤ esp < 4294967296 → 0 ≤ ebp < 4294967296 → on_stack esp k →
  returns (execute y esp ebp command k) (λ '(k', c),
    c = Enter (user_frame (entry_of (content (kmem k) (kfs (term k)) kf))) ∧
    started y (n + 1) esp ebp (entry_of (content (kmem k) (kfs (term k)) kf)) args
      (content (kmem k) (kfs (term k)) kf) k k').
Proof.
  intros Hla Hf Hx Hpg Hesp Hebp Hst.
  pose proof Hla as [[Hn Hr] Hc Hem _ _ Hshort _]. pose proof Hf as [Hl _].
  unfold execute. rewrite (proj2 (Z.leb_gt _ _)), (proj2 (Z.eqb_neq _ _)) by lia.
  eapply returns_bind; [by apply parsed|].
  intros k1 (m1 & Ek1 & _ & _ & Hargs & Hch & Hfound). destruct (Hfound kf Hf) as [Hes1 Hcont].
  assert (kmem k1 = m1 ∧ kfs (term k1) = kfs (term k)) as [Em1 Ef1] by (by rewrite Ek1).
  rewrite <- Em1, <- Ef1 in Hcont. rewrite <- Em1 in Hargs, Hch. rewrite Ef1 in Hcont.
  set (cont := content (kmem k) (kfs (term k)) kf) in *. rewrite <- Ef1 in Hcont.
  destruct (header_read l kf k1 Hes1) as ([[k2 r] e] & E2 & -> & -> & Hes2 & Hcont2 & Ht2);
    [lia|by rewrite Hcont|]. rewrite Hcont in E2, Hcont2.
  apply res_bind_Ok in E2 as ([k3 r3] & E3 & E2). rewrite E3, bind_Ok.
  destruct (Z.eqb_spec r3 (-1)); [by injection E2|].
  apply res_bind_Ok in E2 as ([k4 r4] & E4 & E2). injection E2 as -> -> Ee. rewrite E4, bind_Ok, Ee.
  change (4 =? -1) with false. cbv iota. clear E3 E4 Ee k3 r3 n0.
  destruct Ht2 as [(f2 & Hf2 & Ek2) Hc2].
  assert (changes_only (exec_locals y) (kmem k) (kmem k2)) as Hloc.
  { eapply changes_only_trans; eapply changes_only_mono; [exact Hch| |exact Hc2|];
      unfold exec_locals; clear; set_solver. }
  assert (k2 = set_arg_size (zlen args) (set_kfs f2 (set_mem (kmem k2) k))) as Ek.
  { rewrite Ek2 at 1. by rewrite Ek1. }
  assert (∀ a, inside (pcb_at n, 1424) a → rd (kmem k2) a = rd (kmem k) a) as Hpn.
  { apply locals_spare; [done..|]. clear; set_solver. }
  destruct (start_process_spec y ns n Hy Hsym esp ebp (entry_of cont) l kf args k2 Hes2)
    as ([k' c] & E & -> & Hstart); rewrite ?Hcont2; try done || lia.
  - by rewrite Ek.
  - by rewrite Ek.
  - by destruct Hx; lia.
  - eapply changes_same_cstr; [exact Hc2| |exact Hargs].
    pose proof Hem as [_ _ _ _ Hsep _]. rewrite !Forall_cons. split_and!; [| | |done].
    + eapply apart_part; [exact (separate_apart _ 10 5 _ _ Hsep eq_refl eq_refl ltac:(lia))|lia..].
    + eapply apart_part; [exact (separate_apart _ 10 7 _ _ Hsep eq_refl eq_refl ltac:(lia))|lia..].
    + eapply apart_part; [exact (separate_apart _ 10 8 _ _ Hsep eq_refl eq_refl ltac:(lia))|lia..].
  - by rewrite Ek.
  - intros Hn0. unfold on_stack, current_pcb in Hst. rewrite Hn in Hst.
    destruct (Hst Hn0) as [-> Hpid]. split; [done|]. rewrite Hpn; [done|]. unfold inside, pid_at. cbn. lia.
  - rewrite E. apply returns_Ok. split; [done|]. rewrite Hcont2 in Hstart.
    eapply started_lift; [exact Hem|exact Hloc| |exact Ek|exact Hstart]. by rewrite Ef1 in Hf2.
Qed.

(** A command that is refused: no such file, or not a program. *)
Definition refused (l : list Z) k : Prop :=
  (l = [] ∨ list_find (λ n, n = l) ns = None) ∨
  (∃ kf, names_inode ns (kmem k) (kfs (term k)) l kf ∧
     4 ≤ zlen (content (kmem k) (kfs (term k)) kf) ∧
     slice 0 4 (content (kmem k) (kfs (term k)) kf) ≠ MAGIC).

Lemma execute_refuses command l args esp ebp k :
  command_ok y ns n command l args k → refused l k →
  returns (execute y esp ebp command k) (λ '(k', c), c = Return (-1) ∧
    touches (exec_locals y) (set_arg_size (zlen args) k) k').
Proof.
  intros Hco Href. pose proof Hco as [[Hn Hr] Hc Hem Hname _ _ _].
  unfold execute. rewrite (proj2 (Z.leb_gt _ _)), (proj2 (Z.eqb_neq _ _)) by lia.
  eapply returns_bind; [by apply parsed|]. intros k1 (m1 & Ek1 & Hem1 & Hcn & _ & Hch & Hfound).
  assert (kmem k1 = m1 ∧ kfs (term k1) = kfs (term k)) as [Em1 Ef1] by (by rewrite Ek1).
  assert (touches (exec_locals y) (set_arg_size (zlen args) k) k1) as Ht1.
  { rewrite Ek1. apply (touches_mem _ (set_arg_size (zlen args) k)).
    eapply changes_only_mono; [exact Hch|]. unfold exec_locals. clear. set_solver. }
  destruct Href as [Hmiss|(kf & Hf & Hlen & Hmagic)].
  - assert (zlen l ≤ 32) as Hz.
    { rewrite <- Hname. unfold parsed_name. pose proof (parse_end_range (kmem k) command) as Hpe.
      etransitivity; [apply c_prefix_length|]. rewrite zlen_bytes; lia. }
    unfold check_executable. rewrite (read_named_missing y ns n l k1); [|by rewrite Em1, Ef1|by rewrite Em1|lia|done].
    by apply returns_Ok.
  - destruct (Hfound kf Hf) as [Hes1 Hcont]. rewrite <- Em1, <- Ef1 in Hcont. rewrite Ef1 in Hcont at 2.
    rewrite <- Hcont in Hlen, Hmagic. rewrite zlen_content in Hlen.
    eapply returns_bind; [by apply (check_executable_spec y ns n l kf k1 Hes1)|].
    intros [k2 r] [Ht2 ->]. rewrite decide_False by done. apply returns_Ok. split; [done|].
    eapply touches_trans; [exact Ht1|]. eapply touches_mono; [exact Ht2|].
    unfold exec_locals. clear. set_solver.
Qed.
End execute.

(** ** The way back *)

(** Process [n] runs on its own directory. *)
Definition runs_on {D} (y : layout) (n : Z) (k : kernel D) : Prop :=
  mapped_by (paging_symbols y) (process_entries (paging_symbols y) n) (pages k) ∧
  cr3 (pages k) = Z.land (Paging.directory_at (paging_symbols y) (n - 1)) 0xFFFFFFE7.

(** What the child of process [n] leaves alone between its start in [k1] and
    its halt in [k2]: it is again the newest process, on its own program page,
    and has touched neither the way back in its control block, nor its
    parent's directory, nor its parent's program page. *)
Record child_ran {D} (y : layout) (n : Z) (k1 k2 : kernel D) : Prop := {
  cr_counter : counter k2 = n + 1;
  cr_mapped : ∃ x, mapped_by (paging_symbols y) x (pages k2);
  cr_frame : program_frame y (pages k2) = Some (frame_of (n + 1));
  cr_directory : page_directories (pages k2) !! Z.to_nat (n - 1) =
    page_directories (pages k1) !! Z.to_nat (n - 1);
  cr_image : images k2 !! frame_of n = images k1 !! frame_of n;
  cr_block : bytes (kmem k2) (pcb_at (n + 1)) 12 = bytes (kmem k1) (pcb_at (n + 1)) 12
}.

Section halt.
Context {D : Type} (y : layout) (n : Z) (Hsym : symbols_ok (paging_symbols y)) (Hn : 1 ≤ n ≤ 5).
Implicit Types k : kernel D.

Lemma directory_loaded k1 k2 :
  runs_on y n k1 → (∃ x, mapped_by (paging_symbols y) x (pages k2)) →
  page_directories (pages k2) !! Z.to_nat (n - 1) = page_directories (pages k1) !! Z.to_nat (n - 1) →
  mapped_by (paging_symbols y) (process_entries (paging_symbols y) n)
    (load_cr3 (u32 (Paging.directory_at (paging_symbols y) (n - 1))) (pages k2)).
Proof.
  intros [[_ _ (d & Hd & Hdir) _] Hcr] (x & [Hon Hlarge _ Hshell]) Heq.
  destruct (directory_aligned (paging_symbols y) Hsym (n - 1) ltac:(lia)) as [Hrange _].
  rewrite u32_small by done.
  rewrite (active_loaded (paging_symbols y) Hsym _ (n - 1)) in Hd by (done || lia).
  constructor; cbn [load_cr3 cr0 cr4 page_table_shell]; [done|done| |done].
  exists d. split; [|done].
  rewrite (active_loaded (paging_symbols y) Hsym _ (n - 1)) by (done || lia). cbn. congruence.
Qed.

Lemma halt_spec k0 k1 k2 status esp ebp :
  runs_on y n k0 → page_directories (pages k1) !! Z.to_nat (n - 1) = page_directories (pages k0) !! Z.to_nat (n - 1) →
  frame_saved (images k1) (frame_of n) (kmem k0) → rd (kmem k1) (pid_at (pcb_at (n + 1))) = n + 1 →
  rd (kmem k1) (parent_pid_at (pcb_at (n + 1))) = n →
  rd32 (kmem k1) (parent_kernel_sp_at (pcb_at (n + 1))) = esp →
  rd32 (kmem k1) (parent_kernel_bp_at (pcb_at (n + 1))) = ebp →
  child_ran y n k1 k2 →
  returns (halt y status k2) (λ '(k', c), c = Resume esp ebp (u8 status) ∧ counter k' = n ∧
    tss_esp0 k' = kernel_stack n ∧ runs_on y n k' ∧
    (∀ a, in_window a = true → rd (kmem k') a = rd (kmem k0) a) ∧
    changes_only [window] (kmem k2) (kmem k')).
Proof.
  intros Hruns Hdir (c & Hc & Hcb) Hpid Hpp Hsp Hbp [Rc Rm Rf Rd Ri Rb].
  unfold pid_at, parent_pid_at, parent_kernel_sp_at, parent_kernel_bp_at in *.
  assert (pcb_at (n + 1) = 0x800000 - (n + 1) * 0x2000) as Hp by (apply pcb_at_eq; lia).
  set (q := pcb_at (n + 1)) in *.
  assert (∀ i, 0 ≤ i < 12 → rd (kmem k2) (q + i) = rd (kmem k1) (q + i)) as Hb.
  { intros i Hi. pose proof (lookup_bytes (kmem k2) q 12 i Hi) as Hl. rewrite Rb, lookup_bytes in Hl by done.
    congruence. }
  pose proof (directory_loaded k0 k2 Hruns Rm ltac:(congruence)) as Hmap.
  unfold halt, current_pcb. rewrite Rc. fold q. unfold pid_at, parent_pid_at.
  pose proof (Hb 0 ltac:(lia)) as Hb0. rewrite Z.add_0_r in Hb0.
  rewrite Hb0, Hpid, (proj2 (Z.eqb_neq _ 1)) by lia. cbv zeta.
  change (kmem (set_counter (n + 1 - 1) k2)) with (kmem k2). rewrite (Hb 1), Hpp by lia.
  set (p := load_cr3 _ (pages k2)) in *.
  pose proof (program_frame_user y n p Hsym Hmap ltac:(lia)) as Hnew.
  destruct (update_pages_spec y (λ s, Ok (load_cr3 (u32 (Paging.directory_at (paging_symbols y) (n - 1))) s))
    (set_counter (n + 1 - 1) k2) p eq_refl) as (k3 & -> & E3 & [Hrest Hsaved _ Hshown _]).
  rewrite bind_Ok. apply returns_Ok. change (pages (set_counter (n + 1 - 1) k2)) with (pages k2) in *.
  change (images (set_counter (n + 1 - 1) k2)) with (images k2) in *.
  rewrite Rf, Hnew in *. replace ((n + 1) * 4194304) with (frame_of n) in * by done.
  assert (Some (frame_of (n + 1)) ≠ Some (frame_of n)) as Hne by (unfold frame_of; intros [=]; lia).
  assert (counter k3 = n) as Ec by (rewrite E3; cbn; lia).
  change (kmem (set_esp0 (kernel_stack (counter k3)) k3)) with (kmem k3).
  assert (∀ b, 0 ≤ b ≤ 8 → rd32 (kmem k3) (q + b) = rd32 (kmem k1) (q + b)) as Hw.
  { intros b Hb8. transitivity (rd32 (kmem k2) (q + b)).
    - apply (changes_same_rd32 [window] _ _ q 12); [done| |lia..]. constructor; [|done].
      unfold apart, disjoint_regions, window, USER_PROG_START. cbn. lia.
    - unfold rd32. rewrite <- !Z.add_assoc, !Hb by lia. done. }
  unfold parent_kernel_sp_at, parent_kernel_bp_at. rewrite (Hw 4), (Hw 8), Hsp, Hbp by lia.
  split_and!; [done|done|cbn; by rewrite Ec| | |done].
  - split.
    + change (pages (set_esp0 (kernel_stack (counter k3)) k3)) with (pages k3). by rewrite E3.
    + change (pages (set_esp0 (kernel_stack (counter k3)) k3)) with (pages k3). rewrite E3. cbn.
      destruct (directory_aligned (paging_symbols y) Hsym (n - 1) ltac:(lia)) as [Hrange _].
      by rewrite u32_small.
  - intros a Ha. rewrite (Hshown a Hne Ha). rewrite Ri, Hc. by apply Hcb.
Qed.
End halt.
