(* ===== verification/Execute.v ===== *)
(** * Properties of execute, halt and the system call gate

    The concrete program of the witnesses, and the properties of process
    creation and termination, from the command to the parent's return. *)

From S2P Require Import Prelude Memory LibString Ports Pic Rtc Console Printing Keyboard Paging FileSys.
From S2P Require Import FsScreen Process Syscall Descriptors ReadWrite Calls Exec ExecSpec ExecProps.

(** ** A concrete program

    The image of FileSys.v with a program of 30 bytes in its one file, and a
    process 1 with a command in its page. *)

Definition exec_content : list Z :=
  MAGIC ++ replicate 20 0 ++ [0x94; 0x80; 0x04; 0x08] ++ [0xEB; 0xFE].
Definition exec_disk : mem := wr_bytes (wr32 demo_image 0x11000 30) 0x12000 exec_content.

Definition LIMIT := codes "Can't execute more than 6 processes" ++ [10].

(** With [command] at 0x8048000. *)
Definition exec_kmem (command : list Z) : mem :=
  let m := wr_bytes exec_disk 0x800 (bytes exec_disk 0x10000 64) in
  let m := wr_bytes (demo_literals m) (lit_limit demo_layout) (LIMIT ++ [0]) in
  wr_bytes (wr m (pcb_at 1) 1) 0x8048000 command.

Definition exec_paging : paging :=
  match create_paging boot_symbols 1 boot_paging with Ok p => p | Err _ => boot_paging end.

Definition exec_kernel (n : Z) (command : list Z) : kernel trace :=
  Kernel (Kb (fresh (exec_kmem command)) demo_fs no_mods empty_line 0) exec_paging ∅ n 0 0 0 0.

Lemma exec_paging_ok :
  paging_ok exec_paging ∧ mapped_by boot_symbols (process_entries boot_symbols 1) exec_paging ∧
  cr3 exec_paging = Z.land (Paging.directory_at boot_symbols 0) 0xFFFFFFE7.
Proof.
  pose proof (create_paging_result boot_symbols boot_symbols_ok 1 boot_paging boot_paging_ok
    ltac:(lia)) as (p & E & Hok & Hm & _ & Hcr & _).
  unfold exec_paging. by rewrite E.
Qed.

(** [a hi] runs the program; there is no file b. *)
Definition kernel_a : kernel trace := exec_kernel 1 (codes "a hi" ++ [0]).
Definition kernel_b : kernel trace := exec_kernel 1 (codes "b hi" ++ [0]).
Definition kernel_full : kernel trace := exec_kernel 6 (codes "a hi" ++ [0]).

Lemma mem_a : exec_mem demo_layout demo_names 1 (kmem kernel_a) demo_fs.
Proof. constructor; [apply one_inode_fs|..]; by_decide. Qed.

Lemma mem_b : exec_mem demo_layout demo_names 1 (kmem kernel_b) demo_fs.
Proof. constructor; [apply one_inode_fs|..]; by_decide. Qed.

Lemma command_a : command_ok demo_layout demo_names 1 0x8048000 [97] (codes "hi") kernel_a.
Proof.
  constructor; [split; [reflexivity|lia]|lia|exact mem_a|by_decide|by_decide|cbn; lia|by_decide].
Qed.

Lemma command_b : command_ok demo_layout demo_names 1 0x8048000 [98] (codes "hi") kernel_b.
Proof.
  constructor; [split; [reflexivity|lia]|lia|exact mem_b|by_decide|by_decide|cbn; lia|by_decide].
Qed.

Lemma found_a : names_inode demo_names (kmem kernel_a) demo_fs [97] 0.
Proof. split; [cbn; lia|]. exists 0%nat. split; [reflexivity|by_decide]. Qed.

Lemma content_a : content (kmem kernel_a) demo_fs 0 = exec_content.
Proof. by_decide. Qed.

Lemma executable_a : executable (content (kmem kernel_a) demo_fs 0).
Proof. rewrite content_a. split; [by_decide|reflexivity]. Qed.

Lemma stack_a : on_stack 0x7FFF00 kernel_a.
Proof. intros _. split; by_decide. Qed.

(** ** Properties *)

(** C21: execute runs a program: a command that names a file which starts with
    the magic number, has its entry address and fits the program page makes a
    new process, the next one of at most six.  Control goes by iret to the
    address at offset 24 of the file, on the program's stack and with user
    segments; the processor's kernel stack is the new process's; the page
    mapping is the kernel's with the process's own frame at 128 MB, where the
    whole file lies at 0x08048000; its control block holds its number, its
    parent, the way back, a table with the two streams only and the
    arguments.  The parent's page is put aside unchanged, and no memory but
    the window, the control block and the locals of execute is written. *)
Theorem execute_enters {D} y ns n command l kf args esp ebp (k : kernel D) :
  tables_ok y → symbols_ok (paging_symbols y) → command_ok y ns n command l args k →
  names_inode ns (kmem k) (kfs (term k)) l kf →
  executable (content (kmem k) (kfs (term k)) kf) → paging_ok (pages k) →
  0 ≤ esp < 4294967296 → 0 ≤ ebp < 4294967296 → on_stack esp k →
  returns (execute y esp ebp command k) (λ '(k', c),
    let file := content (kmem k) (kfs (term k)) kf in
    c = Enter (user_frame (entry_of file)) ∧
    started y (n + 1) esp ebp (entry_of file) args file k k' ∧
    ∀ v, 0 ≤ v < 4294967296 → translate (paging_symbols y) (pages k') v = user_map (n + 1) v).
Proof.
  intros Hy Hsym Hco Hf Hx Hpg Hesp Hebp Hst.
  eapply returns_mono; [by apply (execute_spec y ns n Hy Hsym command l kf)|].
  intros [k' c] [-> Hs]. split_and!; [done|done|]. intros v Hv. apply process_mapped; [|done].
  apply (st_paging _ _ _ _ _ _ _ _ _ Hs).
Qed.

Lemma execute_enters_witness :
  returns (execute demo_layout 0x7FFF00 0x7FFF40 0x8048000 kernel_a) (λ '(k', c),
    c = Enter (user_frame 0x08048094) ∧
    started demo_layout 2 0x7FFF00 0x7FFF40 0x08048094 (codes "hi") exec_content kernel_a k' ∧
    ∀ v, 0 ≤ v < 4294967296 → translate boot_symbols (pages k') v = user_map 2 v).
Proof.
  pose proof (execute_enters demo_layout demo_names 1 0x8048000 [97] 0 (codes "hi")
    0x7FFF00 0x7FFF40 kernel_a demo_tables_ok boot_symbols_ok command_a found_a executable_a
    (proj1 exec_paging_ok) ltac:(lia) ltac:(lia) stack_a) as Hx.
  change (kfs (term kernel_a)) with demo_fs in Hx. rewrite content_a in Hx. exact Hx.
Defined.

(** What execute says when six processes run. *)
Lemma execute_full {D} y (k : kernel D) esp ebp command s :
  6 ≤ counter k → shows (kcon (term k)) s → cstr (kmem k) (lit_limit y) LIMIT →
  disjoint_regions VIDEO page_size (printf_conv y) scratch_size →
  clear_of (printf_conv y) (lit_limit y) 37 →
  returns (execute y esp ebp command k) (λ '(k', c), c = Return (-1) ∧
    k' = set_kcon (kcon (term k')) k ∧ printed (printf_conv y) (kcon (term k)) s LIMIT (kcon (term k'))).
Proof.
  intros Hn Hs Hl Hd Hc. unfold execute. rewrite (proj2 (Z.leb_le _ _)) by done.
  eapply returns_bind; [apply (printf_prints (printf_conv y) (kcon (term k)) s Hs Hd (lit_limit y) LIMIT [] LIMIT Hl)|].
  - cbn; lia.
  - exact Hc.
  - apply plain_formats. by_decide.
  - intros [c' q] [_ Hp]. by apply returns_Ok.
Qed.

(** C25: execute refuses what it cannot run with -1: with six processes it
    prints its message and changes nothing else; a null command has no effect;
    a name that is empty or not in the directory, or a file of four bytes or
    more without the magic number, leaves the number of processes, the pages,
    the saved frames, the kernel stack, the terminal and the file system as
    they were, and writes only the locals of the call and the length of the
    arguments. *)
Theorem execute_refusals {D} y ns n command l args esp ebp (k : kernel D) :
  (∀ s, 6 ≤ counter k → shows (kcon (term k)) s → cstr (kmem k) (lit_limit y) LIMIT →
    disjoint_regions VIDEO page_size (printf_conv y) scratch_size →
    clear_of (printf_conv y) (lit_limit y) 37 →
    returns (execute y esp ebp command k) (λ '(k', c), c = Return (-1) ∧
      k' = set_kcon (kcon (term k')) k ∧
      printed (printf_conv y) (kcon (term k)) s LIMIT (kcon (term k')))) ∧
  (counter k < 6 → execute y esp ebp 0 k = Ok (k, Return (-1))) ∧
  (command_ok y ns n command l args k → refused ns l k →
    returns (execute y esp ebp command k) (λ '(k', c), c = Return (-1) ∧
      touches (exec_locals y) (set_arg_size (zlen args) k) k')).
Proof.
  split_and!.
  - intros s. apply execute_full.
  - intros Hn. unfold execute. by rewrite (proj2 (Z.leb_gt _ _)).
  - apply execute_refuses.
Qed.

Lemma execute_refusals_witness :
  returns (execute demo_layout 0x7FFF00 0x7FFF40 0x8048000 kernel_full) (λ '(k', c), c = Return (-1) ∧
    shows (kcon (term k')) (show LIMIT blank_screen)) ∧
  execute demo_layout 0x7FFF00 0x7FFF40 0 kernel_b = Ok (kernel_b, Return (-1)) ∧
  returns (execute demo_layout 0x7FFF00 0x7FFF40 0x8048000 kernel_b) (λ '(k', c), c = Return (-1) ∧
    touches (exec_locals demo_layout) (set_arg_size 2 kernel_b) k').
Proof.
  pose proof (λ k : kernel trace, execute_refusals demo_layout demo_names 1 0x8048000 [98] (codes "hi") 0x7FFF00 0x7FFF40 k)
    as Hall. split_and!.
  - eapply returns_mono; [apply (proj1 (Hall kernel_full) blank_screen)|].
    + cbn; lia.
    + apply fresh_shows.
    + by_decide.
    + by_decide.
    + by_decide.
    + intros [k' c] (-> & _ & Hp & _). done.
  - apply (proj1 (proj2 (Hall kernel_b))). cbn. lia.
  - apply (proj2 (proj2 (Hall kernel_b)) command_b). left. right. reflexivity.
Defined.

(** A child that halts at once. *)
Lemma started_child {D} y n esp ebp entry args file (k k1 : kernel D) :
  symbols_ok (paging_symbols y) → 0 ≤ n ≤ 5 →
  started y (n + 1) esp ebp entry args file k k1 → child_ran y n k1 k1.
Proof.
  intros Hsym Hn [Hc _ _ _ [_ Hm] _ _ _ _ _ _ _ _].
  constructor; [done|by eexists| |done..]. rewrite (program_frame_user y (n + 1)) by (done || lia). done.
Qed.

(** C20: execute and halt through the gate are a round trip.  A process asks
    for execute: its child starts.  When the child, after whatever it has done
    to its own page, table, memory and terminal, asks for halt with a status,
    control goes to the frame of the execute call, on the parent's kernel
    stack, and from there to the parent with its registers and the low byte of
    the status in eax.  The process count, the processor's kernel stack, the
    active directory, the address map and every byte of the parent's program
    page are then what they were before execute, and halt has written no other
    memory. *)
Theorem exec_halt_roundtrip `{PortIO D, Hotkeys D fs} y ns n command l kf args (r r2 : registers)
    esp ebp esp2 ebp2 sched (k : kernel D) :
  tables_ok y → symbols_ok (paging_symbols y) → 1 ≤ n → command_ok y ns n command l args k →
  names_inode ns (kmem k) (kfs (term k)) l kf →
  executable (content (kmem k) (kfs (term k)) kf) → paging_ok (pages k) → runs_on y n k →
  0 ≤ esp < 4294967296 → 0 ≤ ebp < 4294967296 → on_stack esp k →
  eax r = 2 → ebx r = command → eax r2 = 1 →
  returns (asm_linkage y r esp ebp sched k) (λ '(k1, x, rest),
    let file := content (kmem k) (kfs (term k)) kf in
    x = To_program (user_frame (entry_of file)) ∧ rest = sched ∧
    started y (n + 1) esp ebp (entry_of file) args file k k1 ∧
    ∀ k2, child_ran y n k1 k2 →
      returns (asm_linkage y r2 esp2 ebp2 sched k2) (λ '(k3, x, _),
        x = To_frame esp ebp (u8 (ebx r2)) ∧
        gate_pop (u8 (ebx r2)) (gate_push r) =
          Some (Registers (u8 (ebx r2)) (ebx r) (ecx r) (edx r) (esi r) (edi r) (Exec.ebp r)) ∧
        counter k3 = counter k ∧ tss_esp0 k3 = kernel_stack n ∧
        cr3 (pages k3) = cr3 (pages k) ∧
        (∀ v, 0 ≤ v < 4294967296 →
           translate (paging_symbols y) (pages k3) v = translate (paging_symbols y) (pages k) v) ∧
        (∀ a, in_window a = true → rd (kmem k3) a = rd (kmem k) a) ∧
        changes_only [window] (kmem k2) (kmem k3))).
Proof.
  intros Hy Hsym Hn Hco Hf Hx Hpg Hruns Hesp Hebp Hst Hr Hb Hr2.
  pose proof (co_counter _ _ _ _ _ _ _ Hco) as [Hc Hn5].
  unfold asm_linkage at 1, dispatch. rewrite Hr, Hb.
  change (s32 2) with 2. change ((2 <? 1) || (10 <? 2)) with false. cbv iota.
  destruct (execute_spec y ns n Hy Hsym command l kf args esp ebp k Hco Hf Hx Hpg Hesp Hebp Hst)
    as ([k1 c] & E & -> & Hs). rewrite E, !bind_Ok. apply returns_Ok. split_and!; [done..|].
  intros k2 Hran. unfold asm_linkage, dispatch. rewrite Hr2.
  change (s32 1) with 1. change ((1 <? 1) || (10 <? 1)) with false. cbv iota.
  destruct Hs as [_ _ _ _ _ Hdir _ _ [Bp Bpp Bsp Bbp _ _] Hsaved _ _ _].
  pose proof (program_frame_user y n (pages k) Hsym (proj1 Hruns) ltac:(lia)) as Hframe.
  destruct (halt_spec y n Hsym ltac:(lia) k k1 k2 (u8 (ebx r2)) esp ebp Hruns) as ([k3 c] & E3 & -> & Hk3);
    [apply Hdir; lia|exact (Hsaved (frame_of n) Hframe ltac:(unfold frame_of; lia))|done| |done|done|done|].
  { by rewrite Bpp; lia. }
  rewrite E3, !bind_Ok. apply returns_Ok. destruct Hk3 as (C1 & C2 & [C3 C4] & C5 & C6).
  assert (u8 (u8 (ebx r2)) = u8 (ebx r2)) as -> by (unfold u8; apply Z.mod_mod; lia).
  split_and!; [done| |by rewrite C1, Hc|done| | |done|done].
  - unfold gate_pop, gate_push. cbn. pose proof (u8_range (ebx r2)). by rewrite u32_small, ?Hb by lia.
  - by rewrite C4, (proj2 Hruns).
  - intros v Hv. rewrite (process_mapped _ n _ v C3 Hv). by rewrite (process_mapped _ n _ v (proj1 Hruns) Hv).
Qed.

Definition ask (number arg : Z) : registers := Registers number arg 0 0 0 0 0x83ffff0.

Lemma exec_halt_roundtrip_witness :
  ∃ k1, @asm_linkage trace _ demo_hotkeys demo_layout (ask 2 0x8048000) 0x7FFF00 0x7FFF40 [] kernel_a =
      Ok (k1, To_program (user_frame 0x08048094), []) ∧
    returns (@asm_linkage trace _ demo_hotkeys demo_layout (ask 1 0x105) 0x7FDFC0 0x7FDFF0 [] k1)
      (λ '(k3, x, _), x = To_frame 0x7FFF00 0x7FFF40 5 ∧ counter k3 = 1 ∧
         tss_esp0 k3 = 0x7FFFFC ∧ ∀ a, in_window a = true → rd (kmem k3) a = rd (kmem kernel_a) a).
Proof.
  pose proof (@exec_halt_roundtrip trace _ demo_hotkeys demo_layout demo_names 1 0x8048000 [97] 0
    (codes "hi") (ask 2 0x8048000) (ask 1 0x105) 0x7FFF00 0x7FFF40 0x7FDFC0 0x7FDFF0 [] kernel_a
    demo_tables_ok boot_symbols_ok ltac:(lia) command_a found_a executable_a (proj1 exec_paging_ok)
    (proj2 exec_paging_ok) ltac:(lia) ltac:(lia) stack_a eq_refl eq_refl eq_refl) as Hx.
  change (kfs (term kernel_a)) with demo_fs in Hx. cbv zeta in Hx. rewrite content_a in Hx.
  destruct Hx as ([[k1 x] rest] & E & -> & -> & Hs & Hback). exists k1. split; [exact E|].
  pose proof (started_child demo_layout 1 0x7FFF00 0x7FFF40 (entry_of exec_content) (codes "hi") exec_content
    kernel_a k1 boot_symbols_ok ltac:(lia) Hs) as Hran.
  eapply returns_mono; [exact (Hback k1 Hran)|].
  intros [[k3 x] q] (-> & _ & Hc & Ht & _ & _ & Hw & _). split_and!; [reflexivity|exact Hc|exact Ht|exact Hw].
Defined.

(** ** The processes as a stack *)

(** The running processes are 1 to the count: each control block holds its
    process's number and that of the process below as its parent, and the
    processor enters the kernel on the stack of the newest. *)
Record process_stack {D} (k : kernel D) : Prop := {
  ps_count : 1 ≤ counter k ≤ 6;
  ps_entry : tss_esp0 k = kernel_stack (counter k);
  ps_blocks i : 1 ≤ i ≤ counter k →
    rd (kmem k) (pid_at (pcb_at i)) = i ∧ rd (kmem k) (parent_pid_at (pcb_at i)) = i - 1
}.

(** The numbers in the control blocks, which every change below spares. *)
Definition spares_blocks (r : Z * Z) : Prop := ∀ i, 1 ≤ i ≤ 6 → apart (pcb_at i, 2) r.

Lemma blocks_kept rs m m' i :
  changes_only rs m m' → Forall spares_blocks rs → 1 ≤ i ≤ 6 →
  rd m' (pid_at (pcb_at i)) = rd m (pid_at (pcb_at i)) ∧
  rd m' (parent_pid_at (pcb_at i)) = rd m (parent_pid_at (pcb_at i)).
Proof.
  intros Hc Hs Hi. unfold pid_at, parent_pid_at.
  split; apply Hc; (eapply Forall_impl; [exact Hs|]); intros r Hr; specialize (Hr i Hi);
    unfold apart, disjoint_regions, inside in *; cbn [fst snd] in *; lia.
Qed.

Lemma window_spares : spares_blocks window.
Proof. intros i Hi. rewrite pcb_at_eq by done. unfold apart, disjoint_regions, window, USER_PROG_START. cbn. lia. Qed.

Lemma video_spares : spares_blocks (VIDEO, page_size).
Proof. intros i Hi. rewrite pcb_at_eq by done. unfold apart, disjoint_regions, VIDEO, page_size. cbn. lia. Qed.

(** The kernel stack of process [n] and the mask of execute. *)
Lemma mask_block esp : 0 ≤ esp < 4294967296 → Z.land esp LAST_13BITS_MASK = esp / 8192 * 8192.
Proof.
  intros He. change 8192 with (2 ^ 13). rewrite <- Z.shiftr_div_pow2, <- Z.shiftl_mul_pow2 by lia.
  change LAST_13BITS_MASK with (Z.shiftl (Z.ones 19) 13). apply Z.bits_inj'. intros j Hj.
  rewrite Z.land_spec, !Z.shiftl_spec by lia. destruct (Z.ltb_spec j 13).
  { rewrite !(Z.testbit_neg_r _ (j - 13)) by lia. apply andb_false_r. }
  rewrite Z.shiftr_spec, Z.testbit_ones_nonneg by lia. replace (j - 13 + 13) with j by lia.
  destruct (Z.ltb_spec (j - 13) 19); [apply andb_true_r|]. rewrite andb_false_r. symmetry.
  destruct (decide (esp = 0)) as [->|]; [apply Z.bits_0|]. apply Z.bits_above_log2; [lia|].
  assert (Z.log2 esp < 32) by (apply Z.log2_lt_pow2; lia). lia.
Qed.

Lemma stack_masked n esp :
  1 ≤ n ≤ 6 → kernel_stack n = pcb_at n + 8188 ∧
  (kernel_stack n - 0x1000 ≤ esp ≤ kernel_stack n → Z.land esp LAST_13BITS_MASK = pcb_at n).
Proof.
  intros Hn. assert (kernel_stack n = pcb_at n + 8188) as E.
  { rewrite pcb_at_eq by done. unfold kernel_stack, BOTTOM_STACK. rewrite u32_small; lia. }
  split; [done|]. rewrite E, pcb_at_eq by done. intros Hesp. rewrite mask_block by lia.
  assert (esp / 8192 = 1024 - n) as -> by zlia. lia.
Qed.

(** What happens between two states of the kernel.  The first four are
    execute, called on the stack the processor gives a process: it is full,
    the command is null, it is refused, or it names a program that fits.  The
    fifth is halt, by whatever process and with whatever status.  The last is
    everything else that runs meanwhile, as long as it leaves the count, the
    stack of the TSS and the numbers in the control blocks of the running
    processes alone. *)
Inductive process_step {D} (y : layout) (ns : list (list Z)) : kernel D → kernel D → Prop :=
  | step_full k k' esp ebp command s c :
      6 ≤ counter k → shows (kcon (term k)) s → cstr (kmem k) (lit_limit y) LIMIT →
      disjoint_regions VIDEO page_size (printf_conv y) scratch_size →
      clear_of (printf_conv y) (lit_limit y) 37 →
      execute y esp ebp command k = Ok (k', c) → process_step y ns k k'
  | step_null k k' esp ebp c : execute y esp ebp 0 k = Ok (k', c) → counter k < 6 → process_step y ns k k'
  | step_refused k k' esp ebp n command l args c :
      command_ok y ns n command l args k → refused ns l k →
      execute y esp ebp command k = Ok (k', c) → process_step y ns k k'
  | step_start k k' esp ebp n command l kf args c :
      command_ok y ns n command l args k → names_inode ns (kmem k) (kfs (term k)) l kf →
      executable (content (kmem k) (kfs (term k)) kf) → paging_ok (pages k) →
      tss_esp0 k - 0x1000 ≤ esp ≤ tss_esp0 k → 0 ≤ ebp < 4294967296 →
      execute y esp ebp command k = Ok (k', c) → process_step y ns k k'
  | step_halt k k' status c : halt y status k = Ok (k', c) → process_step y ns k k'
  | step_run k k' :
      counter k' = counter k → tss_esp0 k' = tss_esp0 k →
      (∀ i, 1 ≤ i ≤ counter k → rd (kmem k') (pid_at (pcb_at i)) = rd (kmem k) (pid_at (pcb_at i)) ∧
         rd (kmem k') (parent_pid_at (pcb_at i)) = rd (kmem k) (parent_pid_at (pcb_at i))) →
      process_step y ns k k'.

Section stack.
Context {D : Type} (y : layout) (ns : list (list Z)) (Hy : tables_ok y) (Hsym : symbols_ok (paging_symbols y)).
Context (Hlocals : Forall spares_blocks (exec_locals y)) (Hscratch : spares_blocks (printf_conv y, scratch_size)).
Implicit Types k : kernel D.

Lemma processes_kept rs k k' :
  process_stack k → counter k' = counter k → tss_esp0 k' = tss_esp0 k →
  changes_only rs (kmem k) (kmem k') → Forall spares_blocks rs → process_stack k'.
Proof.
  intros [Hn Ht Hb] En Et Hc Hs. constructor; [lia|by rewrite En, Et|]. rewrite En. intros i Hi.
  destruct (blocks_kept rs _ (kmem k') i Hc Hs ltac:(lia)) as [-> ->]. by apply Hb.
Qed.

(** A new process, on top of those that run or as the first. *)
Lemma stack_started n esp ebp entry args cont k k' :
  n = counter k → (n = 0 ∨ process_stack k) → n < 6 →
  started y (n + 1) esp ebp entry args cont k k' → process_stack k'.
Proof.
  intros -> Hk Hn [C1 _ _ C2 _ _ _ _ [B1 B2 _ _ _ _] _ M _ _].
  assert (0 ≤ counter k) as H0 by (destruct Hk as [->|[? _ _]]; lia).
  constructor; [lia|by rewrite C2, C1|]. rewrite C1. intros i Hi. destruct (decide (i = counter k + 1)) as [->|Hne].
  { rewrite B1, B2. split; lia. }
  destruct Hk as [?|[Hc _ Hb]]; [lia|].
  assert (∀ a, pcb_at i ≤ a < pcb_at i + 2 → rd (kmem k') a = rd (kmem k) a) as Hsame.
  { intros a Ha. apply M. rewrite !Forall_cons. split_and!.
    - pose proof (window_spares i ltac:(lia)). unfold apart, disjoint_regions, inside in *. cbn [fst snd] in *. lia.
    - unfold inside. cbn [fst snd]. rewrite !pcb_at_eq in * by lia. lia.
    - eapply Forall_impl; [exact Hlocals|]. intros r Hr. specialize (Hr i ltac:(lia)).
      unfold apart, disjoint_regions, inside in *. cbn [fst snd] in *. lia. }
  unfold pid_at, parent_pid_at. rewrite !Hsame by lia. apply (Hb i). lia.
Qed.

Lemma stack_halted status k k' c : process_stack k → halt y status k = Ok (k', c) → process_stack k'.
Proof.
  intros Hk E. pose proof Hk as [Hn Ht Hb]. unfold halt in E. cbv zeta in E. unfold current_pcb in E.
  rewrite (proj1 (Hb (counter k) ltac:(lia))) in E. destruct (Z.eqb_spec (counter k) 1) as [E1|E1].
  { injection E as <- _. apply (processes_kept [(VIDEO, page_size)] k); [done..| |].
    - pose proof (proj2 (clear_shows (Con (vmem (kcon (term k))) 0 0 (dev (kcon (term k)))))) as Hv.
      intros a Ha. apply Forall_cons in Ha as [Ha _]. apply Hv. unfold inside in Ha. exact Ha.
    - constructor; [apply video_spares|done]. }
  destruct (update_pages_spec y (λ s, Ok (load_cr3 (u32 (Paging.directory_at (paging_symbols y)
    (rd (kmem k) (parent_pid_at (pcb_at (counter k))) - 1))) s)) (set_counter (counter k - 1) k) _ eq_refl)
    as (k1 & E2 & Ek1 & [Hrest _ _ _ _]).
  change (kmem (set_counter (counter k - 1) k)) with (kmem k) in *. rewrite E2, bind_Ok in E. injection E as <- _.
  assert (counter k1 = counter k - 1) as Ec by (by rewrite Ek1).
  constructor; cbn [counter tss_esp0 set_esp0]; rewrite ?Ec; [lia|done|]. intros i Hi.
  change (kmem (set_esp0 _ k1)) with (kmem k1).
  destruct (blocks_kept [window] _ (kmem k1) i Hrest) as [-> ->]; [by constructor; [apply window_spares|]|lia|].
  apply Hb. lia.
Qed.

(** halt always leads on, and leaves one process less but for the first. *)
Lemma halt_count status k :
  returns (halt y status k) (λ '(k', _),
    counter k' = if rd (kmem k) (pid_at (current_pcb k)) =? 1 then counter k else counter k - 1).
Proof.
  unfold halt. cbv zeta. destruct (_ =? 1); [by apply returns_Ok|]. unfold update_pages. rewrite bind_Ok.
  destruct (show_frame _ _ _ _). rewrite bind_Ok. by apply returns_Ok.
Qed.

Lemma stack_step k k' : process_stack k → process_step y ns k k' → process_stack k'.
Proof.
  intros Hk Hstep. pose proof Hk as [Hn Ht Hb]. destruct Hstep as [k k' esp ebp command s c H6 Hs Hl Hd Hc E
    |k k' esp ebp c E H6|k k' esp ebp n command l args c Hco Href E
    |k k' esp ebp n command l kf args c Hco Hf Hx Hpg Hesp Hebp E|k k' status c E|k k' En Et Hm].
  - apply (returns_inv _ _ _ (execute_full y k esp ebp command s H6 Hs Hl Hd Hc)) in E as (_ & -> & _ & Hkept & _).
    apply (processes_kept [(VIDEO, page_size); (printf_conv y, scratch_size)] k); [done..| |].
    + intros a Ha. rewrite !Forall_cons in Ha. destruct Ha as (H1 & H2 & _). unfold inside in *. by apply Hkept.
    + constructor; [apply video_spares|by constructor].
  - unfold execute in E. rewrite (proj2 (Z.leb_gt _ _)) in E by done. injection E as <- _. exact Hk.
  - pose proof (returns_inv _ _ _ (execute_refuses y ns n command l args esp ebp k Hco Href) E) as (_ & [(f' & _ & Ek) Hc]).
    apply (processes_kept (exec_locals y) k); [done|by rewrite Ek|by rewrite Ek|exact Hc|exact Hlocals].
  - pose proof (co_counter _ _ _ _ _ _ _ Hco) as [En Hn5]. rewrite Ht in Hesp.
    destruct (stack_masked (counter k) esp Hn) as [Hks Hmask].
    assert (on_stack esp k) as Hst.
    { intros _. unfold current_pcb. split; [by apply Hmask|]. by apply Hb; lia. }
    rewrite Hks in Hesp. rewrite pcb_at_eq in Hesp by done.
    apply (returns_inv _ _ _ (execute_spec y ns n Hy Hsym command l kf args esp ebp k Hco Hf Hx Hpg ltac:(lia) Hebp Hst))
      in E as [_ Hs]. apply (stack_started n _ _ _ _ _ k k' (eq_sym En) ltac:(by right) ltac:(lia) Hs).
  - by eapply stack_halted.
  - constructor; [lia|by rewrite En, Et|]. rewrite En. intros i Hi. destruct (Hm i Hi) as [-> ->]. by apply Hb.
Qed.
End stack.

(** C26: the processes are a stack of one to six.  From the start of the shell
    on, however executes (full, null, refused or of a program that fits),
    halts and other work that leaves the control blocks' numbers and the TSS
    alone alternate, the running processes are 1 to the count, which is never
    below 1 nor above 6; the block of each holds its number and that of the
    process below it as its parent; and the TSS sends the processor to the
    last word of the newest one's 8 KB block, where the mask of execute leads
    from any stack pointer in the upper half to its control block.  (A command
    whose file has the magic number but cannot be loaded whole is not among the
    steps: execute then fails with the count already raised, see the
    findings.) *)
Theorem process_count_bounded {D} (y : layout) ns :
  tables_ok y → symbols_ok (paging_symbols y) → Forall spares_blocks (exec_locals y) →
  spares_blocks (printf_conv y, scratch_size) →
  (∀ esp ebp entry args cont (k k' : kernel D), counter k = 0 →
     started y 1 esp ebp entry args cont k k' → process_stack k') ∧
  ∀ k k' : kernel D, process_stack k → rtc (process_step y ns) k k' →
    process_stack k' ∧ current_pcb k' = 0x800000 - 8192 * counter k' ∧
    tss_esp0 k' = current_pcb k' + 8192 - 4 ∧
    ∀ esp, tss_esp0 k' - 0x1000 ≤ esp ≤ tss_esp0 k' → Z.land esp LAST_13BITS_MASK = current_pcb k'.
Proof.
  intros Hy Hsym Hl Hsc. split.
  - intros esp ebp entry args cont k k' H0 Hs. eapply (stack_started y Hl 0); [done|by left|lia|exact Hs].
  - intros k k' Hk Hsteps. assert (process_stack k') as Hk'.
    { induction Hsteps as [k|k k1 k2 Hstep _ IH]; [done|]. apply IH. by eapply stack_step. }
    pose proof Hk' as [Hn Ht _]. unfold current_pcb. rewrite Ht.
    split_and!; [done|rewrite pcb_at_eq; lia| |].
    + rewrite (proj1 (stack_masked (counter k') 0 Hn)). lia.
    + intros esp. apply (stack_masked (counter k') esp Hn).
Qed.

(** The process of [kernel_a] with the TSS as its start leaves it. *)
Definition kernel_one : kernel trace := set_esp0 (kernel_stack 1) kernel_a.

(** It starts the program, which halts. *)
Lemma process_count_bounded_witness :
  ∃ k1 k2, rtc (process_step demo_layout demo_names) kernel_one k1 ∧ process_step demo_layout demo_names k1 k2 ∧
    counter k1 = 2 ∧ tss_esp0 k1 = 0x7FDFFC ∧ process_stack k2 ∧ counter k2 = 1 ∧ tss_esp0 k2 = 0x7FFFFC.
Proof.
  assert (command_ok demo_layout demo_names 1 0x8048000 [97] (codes "hi") kernel_one) as Hco.
  { destruct command_a. by constructor. }
  assert (Forall spares_blocks (exec_locals demo_layout) ∧ spares_blocks (printf_conv demo_layout, scratch_size)) as [Hl Hsc].
  { unfold exec_locals. rewrite !Forall_cons. split_and!; try done; intros i Hi; rewrite pcb_at_eq by done;
      unfold apart, disjoint_regions; cbn; lia. }
  assert (process_stack kernel_one) as H1.
  { constructor; [cbn; lia|done|]. cbn. intros i Hi. assert (i = 1) as -> by lia. by split; by_decide. }
  destruct (process_count_bounded (D := trace) demo_layout demo_names demo_tables_ok boot_symbols_ok Hl Hsc) as [_ Hall].
  destruct (execute_spec demo_layout demo_names 1 demo_tables_ok boot_symbols_ok 0x8048000 [97] 0 (codes "hi") 0x7FFF00
    0x7FFF40 kernel_one Hco found_a executable_a (proj1 exec_paging_ok) ltac:(lia) ltac:(lia)
    ltac:(intros _; split; by_decide)) as ([k1 c] & E & _ & Hs).
  assert (process_step demo_layout demo_names kernel_one k1) as Hstep.
  { apply (step_start _ _ _ _ 0x7FFF00 0x7FFF40 1 0x8048000 [97] 0 (codes "hi") c Hco found_a executable_a (proj1 exec_paging_ok));
      [by_decide|lia|exact E]. }
  pose proof (st_counter _ _ _ _ _ _ _ _ _ Hs) as Hc1. change (1 + 1) with 2 in Hc1.
  destruct (Hall kernel_one k1 H1 (rtc_once _ _ Hstep)) as (Hk1 & Hp1 & Ht1 & _).
  destruct (halt_count demo_layout 0 k1) as ([k2 c2] & E2 & Hc2). unfold current_pcb in Hc2.
  rewrite Hc1, (proj1 (ps_blocks _ Hk1 2 ltac:(lia))) in Hc2.
  pose proof (step_halt demo_layout demo_names _ _ 0 c2 E2) as Hstep2. exists k1, k2.
  destruct (Hall kernel_one k2 H1 (rtc_l _ _ _ _ Hstep (rtc_once _ _ Hstep2))) as (Hk2 & Hp2 & Ht2 & _).
  rewrite Hp1, Hc1 in Ht1. rewrite Hp2, Hc2 in Ht2. split_and!;
    [exact (rtc_once _ _ Hstep)|exact Hstep2|exact Hc1|exact Ht1|exact Hk2|exact Hc2|exact Ht2].
Defined.

(** ** The gate *)

(** What a program sees of the gate: a call number outside 1 to 10 gives -1
    in eax and reaches no handler; a call that returns leaves its result in eax
    and every other register as it was; and a halt of the first process starts
    the shell again, at its entry, on a blank screen. *)
Theorem gate_contract `{PortIO D, Hotkeys D fs} y (r : registers) esp ebp sched (k : kernel D) :
  let back v := To_caller (Registers v (ebx r) (ecx r) (edx r) (esi r) (edi r) (Exec.ebp r)) in
  (s32 (eax r) < 1 ∨ 10 < s32 (eax r) →
    asm_linkage y r esp ebp sched k = Ok (k, back 0xFFFFFFFF, sched)) ∧
  (∀ k' v rest, 1 ≤ s32 (eax r) ≤ 10 → dispatch y r esp ebp sched k = Ok (k', Return v, rest) →
    asm_linkage y r esp ebp sched k = Ok (k', back (u32 v), rest)) ∧
  (eax r = 1 → rd (kmem k) (pid_at (current_pcb k)) = 1 →
    ∃ c, asm_linkage y r esp ebp sched k =
           Ok (set_kcon c k, To_program (user_frame (shell_entry_addr k)), sched) ∧
      shows c blank_screen ∧ outside_video (kmem k) (vmem c)).
Proof.
  cbn zeta. split_and!.
  - intros Hr. unfold asm_linkage.
    assert ((s32 (eax r) <? 1) || (10 <? s32 (eax r)) = true) as -> by (rewrite orb_true_iff; lia).
    done.
  - intros k' v rest Hr E. unfold asm_linkage.
    assert ((s32 (eax r) <? 1) || (10 <? s32 (eax r)) = false) as -> by (rewrite orb_false_iff; lia).
    by rewrite E, bind_Ok.
  - intros Hr Hpid. exists (clear_screen (kcon (term k))). split.
    + unfold asm_linkage, dispatch. rewrite Hr. change (s32 1) with 1.
      change ((1 <? 1) || (10 <? 1)) with false. cbv iota. unfold halt. by rewrite Hpid.
    + apply (clear_shows (Con (vmem (kcon (term k))) 0 0 (dev (kcon (term k))))).
Qed.
