(* ===== verification/Frame.v ===== *)
(** * The calls and the processes

    The system calls but execute, halt and vidmap: they leave the pages, the
    saved program pages, the count of processes and the kernel stack alone, and
    a call that keeps to the caller's own memory writes only the regions listed
    for it. *)

From S2P Require Import Prelude Memory LibString Ports Pic Rtc Console Keyboard Paging FileSys.
From S2P Require Import FsScreen Process Syscall Descriptors ReadWrite Typing Calls Exec Execute.

(** What execute, halt and vidmap alone may change. *)
Record same_process {D} (k k' : kernel D) : Prop := {
  sp_pages : pages k' = pages k;
  sp_images : images k' = images k;
  sp_counter : counter k' = counter k;
  sp_shell : shell_entry_addr k' = shell_entry_addr k;
  sp_args : arg_size k' = arg_size k;
  sp_stack : tss_esp0 k' = tss_esp0 k
}.

#[export] Instance same_process_preorder {D} : PreOrder (@same_process D).
Proof.
  split; [by constructor|]. intros k1 k2 k3 [? ? ? ? ? ?] [? ? ? ? ? ?]. constructor; congruence.
Qed.

Lemma same_process_term {D} (k : kernel D) t : same_process k (set_term t k).
Proof. by constructor. Qed.

Section frame.
Context `{PortIO D, Hotkeys D fs} (y : layout).
Implicit Types k : kernel D.

Lemma fs_call_frame {R} (call : mem → fs → res (mem * fs * R)) k k' r :
  fs_call call k = Ok (k', r) → same_process k k'.
Proof. intros ([[m f] q] & _ & [= <- _])%res_bind_Ok. by constructor. Qed.

Lemma deliver_frame e k k' : deliver e k = Ok k' → same_process k k'.
Proof.
  destruct e; cbn [deliver].
  - intros (t & _ & [= <-])%res_bind_Ok. apply same_process_term.
  - destruct (rtc_handler _). intros [= <-]. by constructor.
Qed.

Lemma spin_frame busy sched k k' rest : spin busy deliver sched k = Ok (k', rest) → same_process k k'.
Proof.
  intros E. apply (spin_prefix busy deliver (same_process k)) in E as [? _]; [done|done|].
  intros e s s1 Hs _ Hd%deliver_frame. by etransitivity.
Qed.

Lemma read_frame fd buf nbytes sched k k' r rest :
  read y fd buf nbytes sched k = Ok (k', r, rest) → same_process k k'.
Proof.
  unfold read. destruct (_ || _); [by intros [= <- _ _]|]. cbv zeta. destruct (_ =? 0); [by intros [= <- _ _]|].
  intros (f & _ & ([[k1 n] rest1] & Hc & [= <- _ _])%res_bind_Ok)%res_bind_Ok.
  transitivity k1; [|apply same_process_term]. destruct f; try done; cbn [call_read] in Hc.
  - apply res_bind_Ok in Hc as ([[q k2] rest2] & Hr & [= -> _ _]). unfold rtc_read in Hr.
    apply res_bind_Ok in Hr as ([k3 rest3] & Hs%spin_frame & [= _ <- _]). etransitivity; [|exact Hs]. by constructor.
  - unfold terminal_read in Hc. apply res_bind_Ok in Hc as ([k2 rest2] & Hs%spin_frame & Hc).
    apply res_bind_Ok in Hc as ([t m] & _ & [= <- _ _]). etransitivity; [exact Hs|apply same_process_term].
  - by apply res_bind_Ok in Hc as ([k2 q] & Hs%fs_call_frame & [= <- _ _]).
  - by apply res_bind_Ok in Hc as ([k2 q] & Hs%fs_call_frame & [= <- _ _]).
Qed.

Lemma write_frame fd buf nbytes k k' r : write y fd buf nbytes k = Ok (k', r) → same_process k k'.
Proof.
  unfold write. destruct (_ || _); [by intros [= <- _]|]. cbv zeta. destruct (_ =? 0); [by intros [= <- _]|].
  intros (f & _ & Hc)%res_bind_Ok. destruct f; try done; cbn [call_write] in Hc; revert Hc.
  - destruct (rtc_write _ _ _ _ _). intros [= <- _]. apply same_process_term.
  - intros ([t n] & _ & [= <- _])%res_bind_Ok. apply same_process_term.
  - by intros [= <- _].
  - by intros [= <- _].
Qed.

Lemma open_frame filename k k' r : open y filename k = Ok (k', r) → same_process k k'.
Proof.
  unfold open. intros (c & _ & E)%res_bind_Ok. revert E. destruct (c =? 0); [intros [= <- _]; apply same_process_term|].
  intros (c' & _ & E)%res_bind_Ok. revert E. destruct (c' =? 0); [intros [= <- _]; apply same_process_term|].
  intros ([m q] & _ & E)%res_bind_Ok. revert E. destruct (q =? -1); [intros [= <- _]; apply same_process_term|].
  intros (v & _ & E)%res_bind_Ok. revert E. destruct (v =? -1); [intros [= <- _]; apply same_process_term|].
  intros (m' & _ & [= <- _])%res_bind_Ok. etransitivity; apply same_process_term.
Qed.

Lemma close_frame fd k k' r : close y fd k = Ok (k', r) → same_process k k'.
Proof.
  unfold close. destruct (_ || _); [by intros [= <- _]|]. cbv zeta. destruct (_ =? USE); [|by intros [= <- _]].
  intros (f & _ & (c & _ & (m & _ & [= <- _])%res_bind_Ok)%res_bind_Ok)%res_bind_Ok. apply same_process_term.
Qed.

Lemma getargs_frame buf nbytes k k' r : getargs buf nbytes k = Ok (k', r) → same_process k k'.
Proof.
  unfold getargs. destruct (_ || _); [by intros [= <- _]|]. intros (m & _ & [= <- _])%res_bind_Ok. apply same_process_term.
Qed.

(** The calls the gate returns from. *)
Definition plain_call (number : Z) : Prop := number ∈ [3; 4; 5; 6; 7; 9; 10].

Lemma dispatch_frame r kesp kebp sched k k' c rest :
  plain_call (s32 (eax r)) → dispatch y r kesp kebp sched k = Ok (k', c, rest) →
  same_process k k' ∧ ∃ v, c = Return v.
Proof.
  unfold plain_call, dispatch. intros Hn. rewrite !elem_of_cons, elem_of_nil in Hn.
  destruct Hn as [->|[->|[->|[->|[->|[->|[->|[]]]]]]]].
  - intros ([[k1 v] q] & E%read_frame & [= <- <- _])%res_bind_Ok. split; [exact E|by exists v].
  - intros ([k1 v] & E%write_frame & [= <- <- _])%res_bind_Ok. split; [exact E|by exists v].
  - intros ([k1 v] & E%open_frame & [= <- <- _])%res_bind_Ok. split; [exact E|by exists v].
  - intros ([k1 v] & E%close_frame & [= <- <- _])%res_bind_Ok. split; [exact E|by exists v].
  - intros ([k1 v] & E%getargs_frame & [= <- <- _])%res_bind_Ok. split; [exact E|by exists v].
  - intros [= <- <- _]. split; [reflexivity|by eexists].
  - intros [= <- <- _]. split; [reflexivity|by eexists].
Qed.
End frame.

(** ** What a call writes *)


Section spared.
Context `{PortIO D, !KeyQueue D, Hotkeys D fs} (y : layout) (ns : list (list Z)) (Hy : tables_ok y).
Implicit Types k : kernel D.












End spared.

(** ** Property *)


