(* ===== verification/Idt.v ===== *)
(** * idt.c: the interrupt descriptor table and the exception handlers

    The table is 256 words of 64 bits, the union idt_desc_t of x86_desc.h with
    its bit fields; the addresses of the stubs of handler.S are parameters.
    What the processor does with a gate is the specification. *)

From S2P Require Import Prelude Memory LibString Bits Ports Pic Rtc Console Printing Keyboard Paging FileSys FsScreen Process Syscall.

Definition NUM_VEC := 256.
Definition KERNEL_CS := 0x10.
Definition SYSTEM_CALL_NUMBER := 0x80.
Definition system_defined_idt_entries_number := 32.

(** The stubs of handler.S. *)
Inductive helper :=
  | excep_DE_helper | excep_DF_helper | excep_NMI_helper | excep_BP_helper | excep_OF_helper
  | excep_BRE_helper | excep_IO_helper | excep_DNA_helper | excep_CS_helper | excep_ITSS_helper
  | excep_SegNP_helper | excep_SF_helper | excep_GP_helper | excep_PF_helper | excep_FP_helper
  | excep_AC_helper | excep_MC_helper | excep_SFP_helper | undef_interrupt_helper
  | keyboard_helper | rtc_helper | asm_linkage_helper.

#[export] Instance helper_eq_dec : EqDecision helper.
Proof. solve_decision. Defined.

(** IDTR and the table; [lidt] loads the size and the address that x86_desc.S
    puts at idt_desc_ptr. *)
Record idt_state := IdtState { idtr_limit : Z; idtr_base : Z; idt : list Z }.

Section operations.
Context (idt_at : Z) (address : helper → Z).

Definition SET_IDT_ENTRY (h : helper) (w : Z) : Z :=
  let w := set_bits 48 16 (Z.shiftr (Z.land (address h) 0xFFFF0000) 16) w in
  set_bits 0 16 (Z.land (address h) 0xFFFF) w.

(** The body of the loop. *)
Definition init_entry (c w : Z) : Z :=
  let w := set_bits 44 1 0 w in                       (* reserved0 *)
  let w := set_bits 42 1 1 w in                       (* reserved1 *)
  let w := set_bits 41 1 1 w in                       (* reserved2 *)
  let w := set_bits 40 1 1 w in                       (* reserved3 *)
  let w := set_bits 32 8 0 w in                       (* reserved4 *)
  let w := set_bits 16 16 KERNEL_CS w in              (* seg_selector *)
  let w := set_bits 43 1 1 w in                       (* size *)
  let w := set_bits 47 1 1 w in                       (* present *)
  let w := set_bits 45 2 0 w in                       (* dpl *)
  let w := if system_defined_idt_entries_number <=? c
           then SET_IDT_ENTRY undef_interrupt_helper (set_bits 40 1 0 w) else w in
  if c =? SYSTEM_CALL_NUMBER then set_bits 45 2 3 w else w.

(** The assignments after the loop, in order. *)
Definition entries : list (Z * helper) :=
  [ (0, excep_DE_helper); (1, excep_DF_helper); (2, excep_NMI_helper); (3, excep_BP_helper);
    (4, excep_OF_helper); (5, excep_BRE_helper); (6, excep_IO_helper); (7, excep_DNA_helper);
    (8, excep_DF_helper); (9, excep_CS_helper); (10, excep_ITSS_helper); (11, excep_SegNP_helper);
    (12, excep_SF_helper); (13, excep_GP_helper); (14, excep_PF_helper);
    (16, excep_FP_helper); (17, excep_AC_helper); (18, excep_MC_helper); (19, excep_SFP_helper);
    (33, keyboard_helper); (40, rtc_helper); (SYSTEM_CALL_NUMBER, asm_linkage_helper) ].

Definition IDT_init (s : idt_state) : idt_state :=
  let t := for_ (Z.to_nat NUM_VEC) 0 (λ c, update c (init_entry c)) (idt s) in
  IdtState (8 * NUM_VEC - 1) idt_at
    (foldl (λ t '(c, h), update c (SET_IDT_ENTRY h) t) t entries).
End operations.

(** ** The processor's view *)

Record gate := Gate {
  offset : Z; selector : Z; privilege : Z; clears_if : bool
}.

(** A present 32-bit interrupt or trap gate. *)
Definition decode (w : Z) : option gate :=
  let kind := get_bits 40 5 w in
  if (get_bits 47 1 w =? 1) && ((kind =? 0xE) || (kind =? 0xF)) then
    Some (Gate (get_bits 0 16 w + 65536 * get_bits 48 16 w) (get_bits 16 16 w) (get_bits 45 2 w)
            (kind =? 0xE))
  else None.

Definition vector (s : idt_state) (c : Z) : option gate :=
  if 8 * c + 7 <=? idtr_limit s then w ← idt s !! Z.to_nat c; decode w else None.

(** The vector a processor at privilege level [cpl] enters for [int c]; a gate
    it may not use raises a general protection fault, vector 13. *)
Definition software_interrupt (s : idt_state) (cpl c : Z) : option Z :=
  g ← vector s c; Some (if privilege g <? cpl then 13 else c).

(** ** The table after IDT_init *)

(** The handlers of the processor's exceptions, by vector. *)
Definition exception_handlers : list (option helper) :=
  [ Some excep_DE_helper; Some excep_DF_helper; Some excep_NMI_helper; Some excep_BP_helper;
    Some excep_OF_helper; Some excep_BRE_helper; Some excep_IO_helper; Some excep_DNA_helper;
    Some excep_DF_helper; Some excep_CS_helper; Some excep_ITSS_helper; Some excep_SegNP_helper;
    Some excep_SF_helper; Some excep_GP_helper; Some excep_PF_helper; None;
    Some excep_FP_helper; Some excep_AC_helper; Some excep_MC_helper; Some excep_SFP_helper ].

Definition handler_of (c : Z) : option helper :=
  if c <? 32 then mjoin (exception_handlers !! Z.to_nat c)
  else Some (if c =? 33 then keyboard_helper else if c =? 40 then rtc_helper
             else if c =? 0x80 then asm_linkage_helper else undef_interrupt_helper).

Definition entry_offset (w : Z) : Z := get_bits 0 16 w + 65536 * get_bits 48 16 w.

Section table.
Context (idt_at : Z) (address : helper → Z) (Haddress : ∀ h, 0 ≤ address h < 4294967296).

Lemma set_entry h w :
  entry_offset (SET_IDT_ENTRY address h w) = address h ∧
  ∀ lo n, 16 ≤ lo → 0 ≤ n → lo + n ≤ 48 →
    get_bits lo n (SET_IDT_ENTRY address h w) = get_bits lo n w.
Proof.
  specialize (Haddress h). unfold SET_IDT_ENTRY. split.
  - unfold entry_offset. fields. change (Z.ones 16) with 65535.
    rewrite <- Z.land_assoc. change (Z.land 65535 65535) with (Z.ones 16).
    change 4294901760 with (Z.shiftl (Z.ones 16) 16).
    rewrite Z.shiftr_land, Z.shiftr_shiftl_l by lia. change (Z.shiftl (Z.ones 16) (16 - 16)) with (Z.ones 16).
    rewrite <- Z.land_assoc. change (Z.land (Z.ones 16) 65535) with (Z.ones 16).
    rewrite !Z.land_ones, Z.shiftr_div_pow2 by lia. change (2 ^ 16) with 65536. zlia.
  - intros. by fields.
Qed.

(** What the loop leaves in an entry. *)
Lemma init_entry_fields c w :
  let w' := init_entry address c w in
  get_bits 16 16 w' = KERNEL_CS ∧ get_bits 45 2 w' = (if c =? 0x80 then 3 else 0) ∧
  get_bits 47 1 w' = 1 ∧ get_bits 40 5 w' = (if 32 <=? c then 0xE else 0xF) ∧
  entry_offset w' = if 32 <=? c then address undef_interrupt_helper else entry_offset w.
Proof.
  cbn zeta. unfold init_entry, system_defined_idt_entries_number, SYSTEM_CALL_NUMBER.
  change 5 with (1 + (1 + (1 + (1 + 1)))). rewrite !(get_bits_split 40), !get_bits_split by lia.
  destruct (set_entry undef_interrupt_helper
    (set_bits 40 1 0 (set_bits 45 2 0 (set_bits 47 1 1 (set_bits 43 1 1 (set_bits 16 16 KERNEL_CS
      (set_bits 32 8 0 (set_bits 40 1 1 (set_bits 41 1 1 (set_bits 42 1 1 (set_bits 44 1 0 w)))))))))))
    as [Hoff Hkeep].
  destruct (32 <=? c), (c =? 128); unfold entry_offset in *;
    repeat first [ rewrite get_set_eq by lia | rewrite get_set_ne by lia | rewrite Hkeep by lia ];
    split_and!; done || exact Hoff.
Qed.

(** The assignments after the loop. *)
Lemma assigned l t c :
  0 ≤ c → NoDup (fst <$> l) → Forall (λ x, 0 ≤ fst x) l →
  foldl (λ t '(c, h), update c (SET_IDT_ENTRY address h) t) t l !! Z.to_nat c =
    match list_find (λ x, fst x = c) l with
    | Some (_, (_, h)) => SET_IDT_ENTRY address h <$> t !! Z.to_nat c
    | None => t !! Z.to_nat c
    end.
Proof.
  intros Hc. revert t. induction l as [|[i h] l IH]; intros t Hnd Hpos; [done|].
  apply NoDup_cons in Hnd as [Hi Hnd]. apply Forall_cons in Hpos as [Hi0 Hpos]. cbn in Hi, Hi0.
  cbn [foldl]. rewrite IH, lookup_update by done. cbn [list_find fst].
  destruct (decide (i = c)) as [->|Hne].
  - rewrite decide_True by done.
    destruct (list_find (λ x, fst x = c) l) as [[j [c' h']]|] eqn:E; [|done].
    apply list_find_Some in E as (Hj & Hc' & _). destruct Hi. cbn in Hc'. subst c'.
    apply list_elem_of_fmap. exists (c, h'). split; [done|by eapply list_elem_of_lookup_2].
  - rewrite decide_False by lia. by destruct (list_find (λ x, fst x = c) l) as [[j [c' h']]|].
Qed.

Lemma length_assigned l t :
  length (foldl (λ t '(c, h), update c (SET_IDT_ENTRY address h) t) t l) = length t.
Proof. revert t. induction l as [|[i h] l IH]; intros t; [done|]. cbn. by rewrite IH, length_update. Qed.

Lemma handlers_listed c :
  0 ≤ c < 256 →
  (match list_find (λ x, fst x = c) entries with Some (_, (_, h)) => Some h | None =>
     if 32 <=? c then Some undef_interrupt_helper else None end) = handler_of c.
Proof.
  intros Hc. assert (Forall (λ c,
    (match list_find (λ x, fst x = c) entries with Some (_, (_, h)) => Some h | None =>
       if 32 <=? c then Some undef_interrupt_helper else None end) = handler_of c) (seqZ 0 256)) as Hall
    by by_decide.
  rewrite Forall_forall in Hall. apply Hall, elem_of_seqZ. lia.
Qed.

Lemma vector_init s c w :
  length (idt s) = 256%nat → 0 ≤ c < 256 → idt s !! Z.to_nat c = Some w →
  vector (IDT_init idt_at address s) c =
    Some (Gate (match handler_of c with Some h => address h | None => entry_offset w end) KERNEL_CS
            (if c =? 0x80 then 3 else 0) (32 <=? c)).
Proof.
  intros Hlen Hc Hw. unfold vector, IDT_init. cbn [idtr_limit idt].
  change (8 * NUM_VEC - 1) with 2047. rewrite (proj2 (Z.leb_le _ _)) by lia.
  rewrite assigned; [|lia|by_decide|by_decide].
  destruct (loop_update (init_entry address) (Z.to_nat NUM_VEC) 0 (idt s) ltac:(lia)) as [_ Hget].
  rewrite Hget, decide_True, Z2Nat.id, Hw by (unfold NUM_VEC; lia). cbn [fmap option_fmap option_map].
  destruct (init_entry_fields c w) as (Hsel & Hdpl & Hpres & Hkind & Hoff).
  rewrite <- (handlers_listed c Hc).
  assert (∀ w', (∀ lo n, 16 ≤ lo → 0 ≤ n → lo + n ≤ 48 → get_bits lo n w' = get_bits lo n (init_entry address c w)) →
    decode w' = Some (Gate (entry_offset w') KERNEL_CS (if c =? 0x80 then 3 else 0) (32 <=? c))) as Hdec.
  { intros w' Hk. unfold decode. rewrite (Hk 47 1), (Hk 40 5), (Hk 16 16), (Hk 45 2) by lia.
    rewrite Hpres, Hkind, Hsel, Hdpl. by destruct (32 <=? c). }
  destruct (list_find _ entries) as [[j [c' h]]|]; cbn [mbind option_bind].
  - destruct (set_entry h (init_entry address c w)) as [Ho Hk]. rewrite (Hdec _ Hk). by rewrite Ho.
  - rewrite Hdec, Hoff by done. by destruct (32 <=? c).
Qed.
End table.

(** ** The exception handlers *)

(** The C functions. *)
Inductive exception :=
  | DE | DB | NMI | BP | OF | BRE | IO | DNA | DF | CS | ITSS | SegNP | SF | GP | PF | FP | AC | MC
  | SFP | UNDEF.

#[export] Instance exception_eq_dec : EqDecision exception.
Proof. solve_decision. Defined.

Definition message (x : exception) : list Z :=
  match x with
  | DE => codes "Divide error exception!"
  | DB => codes "Debug exception!"
  | NMI => codes "Non-maskable interrupt exception!"
  | BP => codes "Break-point exception!"
  | OF => codes "Overflow exception!"
  | BRE => codes "Bound range exceeded exception!"
  | IO => codes "Invalid opcode exception!"
  | DNA => codes "Device not available exception!"
  | DF => codes "Double fault exception!"
  | CS => codes "Coprocessor segment exception!"
  | ITSS => codes "Invalid TSS exception!"
  | SegNP => codes "Segment not present exception!"
  | SF => codes "Stack fault exception!"
  | GP => codes "General protection exception!"
  | PF => codes "Page falut exception!"
  | FP => codes "FLoating point exception!"
  | AC => codes "Alignment check exception!"
  | MC => codes "Machine check exception!"
  | SFP => codes "SIMD floating-point exception!"
  | UNDEF => codes "Undefined interruption!"
  end ++ [10].

Definition ERROR_LINE := codes "error_code:%x" ++ [10].
Definition ERROR := codes "error_code:%x".

(** What a stub calls. *)
Definition excep_of (h : helper) : option exception :=
  match h with
  | excep_DE_helper => Some DE | excep_DF_helper => Some DF | excep_NMI_helper => Some NMI
  | excep_BP_helper => Some BP | excep_OF_helper => Some OF | excep_BRE_helper => Some BRE
  | excep_IO_helper => Some IO | excep_DNA_helper => Some DNA | excep_CS_helper => Some CS
  | excep_ITSS_helper => Some ITSS | excep_SegNP_helper => Some SegNP | excep_SF_helper => Some SF
  | excep_GP_helper => Some GP | excep_PF_helper => Some PF | excep_FP_helper => Some FP
  | excep_AC_helper => Some AC | excep_MC_helper => Some MC | excep_SFP_helper => Some SFP
  | undef_interrupt_helper => Some UNDEF
  | keyboard_helper | rtc_helper | asm_linkage_helper => None
  end.

(** What the bodies of the C functions and the stubs are made of: [Forever] is
    while(1); and [Handle] stands for what keyboard_interrupt_handler and
    rtc_handler do between their cli and sti. *)
Inductive statement :=
  | Cli | Sti | Printf (format : list Z) (args : list Z) | Forever | Handle (e : irq) | Iret.

(** [error_code] and [error_code2] are the words excep_GP reads above its
    frame. *)
Definition excep (x : exception) (error_code error_code2 : Z) : list statement :=
  match x with
  | GP => [Cli; Printf ERROR_LINE [error_code]; Printf ERROR [error_code2]; Printf (message GP) []; Forever; Sti]
  | _ => [Cli; Printf (message x) []; Forever; Sti]
  end.

(** [call] and [iret]; asm_linkage is modelled with the system calls. *)
Definition stub (h : helper) (e1 e2 : Z) : option (list statement) :=
  match h with
  | keyboard_helper => Some [Cli; Handle IRQ_KEYBOARD; Sti; Iret]
  | rtc_helper => Some [Cli; Handle IRQ_RTC; Sti; Iret]
  | _ => x ← excep_of h; Some (excep x e1 e2 ++ [Iret])
  end.

(** The processor in a stub: what it has still to do, nothing once it is back
    in the interrupted code, and the interrupt flag. *)
Record cpu (D : Type) := Cpu { todo : list statement; interrupt_flag : bool; machine : kernel D }.
Arguments Cpu {D} _ _ _.
Arguments todo {D} _.
Arguments interrupt_flag {D} _.
Arguments machine {D} _.

Section handlers.
Context `{PortIO D, Hotkeys D fs} (conv : Z) (lit : list Z → Z).

Definition cpu_step (p : cpu D) : res (cpu D) :=
  let '(Cpu l i k) := p in
  match l with
  | [] => Ok p
  | Cli :: l => Ok (Cpu l false k)
  | Sti :: l => Ok (Cpu l true k)
  | Printf format args :: l => c ← say conv lit format args (kcon (term k)); Ok (Cpu l i (set_kcon c k))
  | Forever :: _ => Ok p
  | Handle e :: l => k ← deliver e k; Ok (Cpu l i k)
  | Iret :: _ => Ok (Cpu [] i k)
  end.

Fixpoint cpu_steps (n : nat) (p : cpu D) : res (cpu D) :=
  match n with O => Ok p | S n => p ← cpu_step p; cpu_steps n p end.

(** [n] steps of a stub entered with the interrupt flag [i]. *)
Definition run_helper (n : nat) (h : helper) (e1 e2 : Z) (i : bool) (k : kernel D) : res (cpu D) :=
  match stub h e1 e2 with
  | Some l => cpu_steps n (Cpu l i k)
  | None => Err OutOfBounds
  end.

Lemma cpu_steps_app a b p : cpu_steps (a + b) p = p' ← cpu_steps a p; cpu_steps b p'.
Proof.
  revert p. induction a as [|a IH]; intros p; [done|]. cbn [Nat.add cpu_steps].
  destruct (cpu_step p) as [p1|]; [|done]. apply IH.
Qed.

(** In the loop, and back, the machine stays as it is. *)
Lemma cpu_steps_stay n p : todo p = [] ∨ (∃ l, todo p = Forever :: l) → cpu_steps n p = Ok p.
Proof.
  intros Hp. induction n as [|n IH]; [done|]. cbn [cpu_steps].
  assert (cpu_step p = Ok p) as -> by (destruct p as [l i k]; cbn in Hp; destruct Hp as [->|[l' ->]]; done).
  exact IH.
Qed.

(** The stub of a device is back once the driver is. *)
Lemma handle_returns n e i k k' :
  deliver e k = Ok k' → cpu_steps (4 + n) (Cpu [Cli; Handle e; Sti; Iret] i k) = Ok (Cpu [] true k').
Proof.
  intros E. rewrite cpu_steps_app. cbn [cpu_steps cpu_step]. rewrite bind_Ok. cbn [cpu_step].
  rewrite E, !bind_Ok. cbn [cpu_step]. rewrite !bind_Ok. cbn [cpu_step]. rewrite !bind_Ok. apply cpu_steps_stay. by left.
Qed.
End handlers.

(** In the loop with interrupts off. *)
Definition spins {D} (p : cpu D) : Prop := (∃ l, todo p = Forever :: l) ∧ interrupt_flag p = false.

(** ** What a vector reports *)

(** The texts by vector; none for 15. *)
Definition vector_texts : list (list Z) :=
  [ codes "Divide error exception!"; codes "Double fault exception!"; codes "Non-maskable interrupt exception!";
    codes "Break-point exception!"; codes "Overflow exception!"; codes "Bound range exceeded exception!";
    codes "Invalid opcode exception!"; codes "Device not available exception!"; codes "Double fault exception!";
    codes "Coprocessor segment exception!"; codes "Invalid TSS exception!"; codes "Segment not present exception!";
    codes "Stack fault exception!"; codes "General protection exception!"; codes "Page falut exception!"; [];
    codes "FLoating point exception!"; codes "Alignment check exception!"; codes "Machine check exception!";
    codes "SIMD floating-point exception!" ].

Definition vector_text (c : Z) : list Z :=
  if c <? 32 then vector_texts !!! Z.to_nat c else codes "Undefined interruption!".

Definition reported (c e1 e2 : Z) : list Z :=
  (if c =? 13 then codes "error_code:" ++ numeral 16 e1 ++ [10] ++ codes "error_code:" ++ numeral 16 e2 else []) ++
  vector_text c ++ [10].

(** The literals of the handlers. *)
Definition texts : list (list Z) :=
  [ERROR_LINE; ERROR] ++ (message <$> [DE; DB; NMI; BP; OF; BRE; IO; DNA; DF; CS; ITSS; SegNP; SF;
    GP; PF; FP; AC; MC; SFP; UNDEF]).

Section reports.
Context {D : Type} (conv : Z) (lit : list Z → Z).
Context (Hdis : disjoint_regions VIDEO page_size conv scratch_size).
Implicit Types c : con D.

Lemma message_text x : message x ∈ texts ∧ zlen (message x) < 2147483648 ∧
  Forall (λ ch, ch ≠ 37) (message x).
Proof. destruct x; by_decide. Qed.

Lemma texts_kept m m' : kept conv m m' → Forall (literal_ok conv lit m) texts → Forall (literal_ok conv lit m') texts.
Proof.
  intros Hk Hl. eapply Forall_impl; [exact Hl|]. intros t. by apply literal_kept.
Qed.

(** The printfs of a handler: format, arguments and text. *)
Definition parts (x : exception) (e1 e2 : Z) : list (list Z * list Z * list Z) :=
  match x with
  | GP => [ (ERROR_LINE, [e1], codes "error_code:" ++ numeral 16 e1 ++ [10]);
            (ERROR, [e2], codes "error_code:" ++ numeral 16 e2 ++ []); (message GP, [], message GP) ]
  | _ => [(message x, [], message x)]
  end.

Definition part_ok (m : mem) (q : list Z * list Z * list Z) : Prop :=
  let '(f, args, t) := q in
  literal_ok conv lit m f ∧ zlen f < 2147483648 ∧ ∀ m', formats m' conv f args t.

Definition print_part (q : list Z * list Z * list Z) : statement := Printf (fst (fst q)) (snd (fst q)).

Lemma parts_ok x e1 e2 m :
  Forall (literal_ok conv lit m) texts → 0 ≤ e1 < 4294967296 → 0 ≤ e2 < 4294967296 →
  Forall (part_ok m) (parts x e1 e2).
Proof.
  intros Hl He1 He2. assert (part_ok m (message x, [], message x)) as Hm.
  { destruct (message_text x) as (Hin & Hz & Hp). rewrite Forall_forall in Hl. split_and!; [by apply Hl|done|].
    intros m'. by apply plain_formats. }
  destruct x; try by constructor. cbn [parts]. rewrite !Forall_cons. split; [|split; [|by split]].
  - split_and!; [by apply (Forall_lookup_1 _ _ 0%nat _ Hl)|by_decide|]. intros m'.
    apply (formats_plain _ _ (codes "error_code:")); [by_decide|]. apply formats_hex; [done|].
    apply plain_formats. by_decide.
  - split_and!; [by apply (Forall_lookup_1 _ _ 1%nat _ Hl)|by_decide|]. intros m'.
    apply (formats_plain _ _ (codes "error_code:")); [by_decide|]. apply formats_hex; [done|].
    by apply plain_formats.
Qed.

Lemma part_kept m m' q : kept conv m m' → part_ok m q → part_ok m' q.
Proof. destruct q as [[f args] t]. intros Hk (Hl & ?). split; [by eapply literal_kept|done]. Qed.

(** They print one after the other. *)
Lemma parts_print `{PortIO D, Hotkeys D fs} qs l s (k : kernel D) :
  shows (kcon (term k)) s → Forall (part_ok (kmem k)) qs →
  returns (cpu_steps conv lit (length qs) (Cpu ((print_part <$> qs) ++ l) false k))
    (λ p, ∃ c, p = Cpu l false (set_kcon c k) ∧ printed conv (kcon (term k)) s (mjoin (snd <$> qs)) c).
Proof.
  revert s k. induction qs as [|[[f args] t] qs IH]; intros s k Hs Hq.
  { apply returns_Ok. exists (kcon (term k)). split; [by destruct k as [[]]|by apply printed_nil]. }
  apply Forall_cons in Hq as [(Hl & Hz & Hf) Hq]. cbn [length cpu_steps fmap list_fmap app]. eapply returns_bind.
  { eapply returns_bind; [by apply (say_prints conv lit f args t (kcon (term k)) s)|].
    intros c Hp. apply (returns_Ok _ (λ p, ∃ c, p = Cpu ((print_part <$> qs) ++ l) false (set_kcon c k) ∧
      printed conv (kcon (term k)) s t c)). by exists c. }
  intros p (c & -> & Hp). pose proof Hp as (Hs1 & Hk & _). eapply returns_mono.
  { apply (IH (show t s) (set_kcon c k) Hs1). eapply Forall_impl; [exact Hq|]. intros q. by apply part_kept. }
  intros p (c' & -> & Hp'). exists c'. split; [done|]. cbn [fmap list_fmap mjoin list_join snd].
  exact (printed_trans conv _ c c' s _ _ Hp Hp').
Qed.

(** A handler of an exception, from its stub to the loop. *)
Lemma excep_spins `{PortIO D, Hotkeys D fs} n h x e1 e2 i s (k : kernel D) :
  excep_of h = Some x → (S (length (parts x e1 e2)) ≤ n)%nat → shows (kcon (term k)) s →
  Forall (part_ok (kmem k)) (parts x e1 e2) →
  returns (run_helper conv lit n h e1 e2 i k) (λ p, spins p ∧ ∃ c, machine p = set_kcon c k ∧
    printed conv (kcon (term k)) s (mjoin (snd <$> parts x e1 e2)) c).
Proof.
  intros Hx Hn Hs Hq. unfold run_helper.
  assert (stub h e1 e2 = Some (Cli :: (print_part <$> parts x e1 e2) ++ [Forever; Sti; Iret])) as ->
    by (destruct h; cbn in Hx; simplify_eq; done).
  replace n with (1 + (length (parts x e1 e2) + (n - 1 - length (parts x e1 e2))))%nat by lia.
  rewrite cpu_steps_app. cbn [cpu_steps cpu_step]. rewrite !bind_Ok, cpu_steps_app. eapply returns_bind.
  { by apply (parts_print _ _ s). }
  intros p (c & -> & Hp). rewrite cpu_steps_stay by (right; by eexists). apply returns_Ok.
  split; [by split; [eexists|]|by exists c].
Qed.
End reports.

(** What the handlers report is what the table of vectors says. *)
Lemma reported_parts c h x e1 e2 :
  0 ≤ c < 256 → handler_of c = Some h → excep_of h = Some x →
  mjoin (snd <$> parts x e1 e2) = reported c e1 e2 ∧ (length (parts x e1 e2) ≤ 3)%nat.
Proof.
  intros Hc Hh Hx.
  assert (Forall (λ c, let o := h ← handler_of c; excep_of h in
    (λ x, (message x, bool_decide (x = GP))) <$> o =
    (λ _, (vector_text c ++ [10], c =? 13)) <$> o)
    (seqZ 0 256)) as Hall by by_decide.
  rewrite Forall_forall in Hall. specialize (Hall c ltac:(apply elem_of_seqZ; lia)). cbv zeta in Hall.
  rewrite Hh in Hall. cbn [mbind option_bind] in Hall. rewrite Hx in Hall. cbn [fmap option_fmap option_map] in Hall.
  injection Hall as Hm HGP. unfold reported. rewrite <- Hm, <- HGP. split; [|by destruct x; cbn; lia].
  case_bool_decide as E; [subst x|].
  - cbn. by rewrite !app_nil_r, <- !app_assoc.
  - destruct x; cbn [parts fmap list_fmap snd mjoin list_join]; by rewrite ?app_nil_r.
Qed.

Lemma excep_handlers c h :
  0 ≤ c < 256 → handler_of c = Some h →
  (c = 33 ∧ h = keyboard_helper) ∨ (c = 40 ∧ h = rtc_helper) ∨ (c = 128 ∧ h = asm_linkage_helper) ∨
  c ≠ 33 ∧ c ≠ 40 ∧ c ≠ 128 ∧ ∃ x, excep_of h = Some x.
Proof.
  intros Hc Hh. unfold handler_of in Hh. destruct (Z.ltb_spec c 32) as [Hlt|Hge].
  - do 3 right. split_and!; try lia.
    assert (Forall (λ c, match handler_of c with Some h => is_Some (excep_of h) | None => True end) (seqZ 0 32)) as Hall
      by (unfold seqZ; cbn; repeat constructor; by eexists).
    rewrite Forall_forall in Hall. specialize (Hall c ltac:(apply elem_of_seqZ; lia)).
    unfold handler_of in Hall. rewrite (proj2 (Z.ltb_lt _ _) Hlt), Hh in Hall. destruct Hall as [x Hx]. by exists x.
  - injection Hh as <-. repeat case_z; subst; [by left|by right; left|by right; right; left|].
    do 3 right. split_and!; try done. by exists UNDEF.
Qed.

(** ** Properties *)

Definition demo_address (h : helper) : Z :=
  0x401000 + 16 * match h with
  | excep_DE_helper => 0 | excep_DF_helper => 1 | excep_NMI_helper => 2 | excep_BP_helper => 3
  | excep_OF_helper => 4 | excep_BRE_helper => 5 | excep_IO_helper => 6 | excep_DNA_helper => 7
  | excep_CS_helper => 8 | excep_ITSS_helper => 9 | excep_SegNP_helper => 10 | excep_SF_helper => 11
  | excep_GP_helper => 12 | excep_PF_helper => 13 | excep_FP_helper => 14 | excep_AC_helper => 15
  | excep_MC_helper => 16 | excep_SFP_helper => 17 | undef_interrupt_helper => 18
  | keyboard_helper => 19 | rtc_helper => 20 | asm_linkage_helper => 21
  end.

(** C14: after IDT_init every one of the 256 vectors, whatever the table held,
    is a present 32-bit gate into the kernel's code segment: the exceptions
    0 to 19 but 15 enter the stub of their name (vector 1, debug, that of the
    double fault), 33 the keyboard's, 40 the clock's, 0x80 the system call
    gate, the other vectors from 32 on the stub for undefined interrupts, and
    15 and 20 to 31 the address the table held before.  Exceptions leave the
    interrupt flag, the others clear it.  A program at privilege level 3 can
    raise vector 0x80 alone: any other int instruction is a general protection
    fault. *)
Theorem idt_dispatch idt_at address (s : idt_state) :
  (∀ h, 0 ≤ address h < 4294967296) → length (idt s) = 256%nat →
  let s' := IDT_init idt_at address s in
  idtr_base s' = idt_at ∧
  ∀ c w, 0 ≤ c < 256 → idt s !! Z.to_nat c = Some w →
    vector s' c = Some (Gate (match handler_of c with Some h => address h | None => entry_offset w end)
                          KERNEL_CS (if c =? 0x80 then 3 else 0) (32 <=? c)) ∧
    software_interrupt s' 3 c = Some (if c =? 0x80 then 0x80 else 13) ∧
    software_interrupt s' 0 c = Some c.
Proof.
  intros Ha Hlen. cbn zeta. split; [done|]. intros c w Hc Hw.
  pose proof (vector_init idt_at address Ha s c w Hlen Hc Hw) as Hv.
  split; [exact Hv|]. unfold software_interrupt. rewrite Hv. cbn [mbind option_bind privilege].
  split; destruct (Z.eqb_spec c 0x80); by subst.
Qed.

Lemma idt_dispatch_witness :
  let s := IDT_init 0x422000 demo_address (IdtState 0 0 (replicate 256 0)) in
  vector s 1 = Some (Gate (demo_address excep_DF_helper) KERNEL_CS 0 false) ∧
  vector s 15 = Some (Gate 0 KERNEL_CS 0 false) ∧
  vector s 0x80 = Some (Gate (demo_address asm_linkage_helper) KERNEL_CS 3 true) ∧
  software_interrupt s 3 0x21 = Some 13.
Proof.
  assert (∀ h, 0 ≤ demo_address h < 4294967296) as Ha by (intros []; by_decide).
  destruct (idt_dispatch 0x422000 demo_address (IdtState 0 0 (replicate 256 0)) Ha eq_refl) as [_ Hs].
  split_and!; [apply (Hs 1 0)|apply (Hs 15 0)|apply (Hs 0x80 0)|apply (Hs 0x21 0)]; done || lia.
Defined.

(** C15: an exception ends the work of the machine with its name on the screen.
    The handler of every vector but those of the keyboard, the clock and the
    system calls (0 to 19 but 15, and the undefined ones from 32 on) turns
    interrupts off, prints the text of its vector (vector 1 that of the double
    fault; vector 13 first its two error words in hexadecimal), changes nothing
    else, and however many steps it is given is then still in its loop with
    interrupts off.  Of the stubs other than the system call gate only those of
    the keyboard and the clock ever return; they do once their drivers have. *)
Theorem exceptions_report `{PortIO D, Hotkeys D fs} conv lit c h e1 e2 i n s (k : kernel D) :
  0 ≤ c < 256 → handler_of c = Some h → shows (kcon (term k)) s →
  disjoint_regions VIDEO page_size conv scratch_size →
  Forall (literal_ok conv lit (kmem k)) texts → 0 ≤ e1 < 4294967296 → 0 ≤ e2 < 4294967296 → (4 ≤ n)%nat →
  (c ≠ 33 → c ≠ 40 → c ≠ 0x80 →
    returns (run_helper conv lit n h e1 e2 i k) (λ p, spins p ∧ ∃ c', machine p = set_kcon c' k ∧
      printed conv (kcon (term k)) s (reported c e1 e2) c')) ∧
  (∀ j p, run_helper conv lit j h e1 e2 i k = Ok p → todo p = [] → c = 33 ∨ c = 40) ∧
  (∀ e k', c = 33 ∧ e = IRQ_KEYBOARD ∨ c = 40 ∧ e = IRQ_RTC → deliver e k = Ok k' →
    returns (run_helper conv lit n h e1 e2 i k) (λ p, todo p = [] ∧ machine p = k')).
Proof.
  intros Hc Hh Hs Hd Hl He1 He2 Hn.
  assert (c ≠ 33 → c ≠ 40 → c ≠ 0x80 → ∀ n, (4 ≤ n)%nat →
    returns (run_helper conv lit n h e1 e2 i k) (λ p, spins p ∧ ∃ c', machine p = set_kcon c' k ∧
      printed conv (kcon (term k)) s (reported c e1 e2) c')) as Hspin.
  { intros H33 H40 H128 n' Hn'. destruct (excep_handlers c h Hc Hh) as [[? _]|[[? _]|[[? _]|(_ & _ & _ & x & Hx)]]]; try lia.
    destruct (reported_parts c h x e1 e2 Hc Hh Hx) as [<- Hlen]. apply excep_spins; [done..|lia|done|].
    by apply parts_ok. }
  split_and!; [by intros; apply Hspin| |].
  - intros j p E Hp. destruct (excep_handlers c h Hc Hh) as [[-> _]|[[-> _]|[[-> ->]|(H33 & H40 & H128 & _)]]];
      [by left|by right|done|].
    destruct (Hspin H33 H40 H128 (j + 4)%nat ltac:(lia)) as (p' & E' & [[l Hf] _] & _).
    unfold run_helper in E, E'. destruct (stub h e1 e2) as [l0|]; [|done].
    rewrite cpu_steps_app, E, bind_Ok, cpu_steps_stay in E' by by left.
    injection E' as <-. by rewrite Hf in Hp.
  - intros e k' He Ed. replace n with (4 + (n - 4))%nat by lia.
    assert (stub h e1 e2 = Some [Cli; Handle e; Sti; Iret]) as Hst.
    { destruct (excep_handlers c h Hc Hh) as [[-> ->]|[[-> ->]|[[-> _]|(? & ? & _)]]]; naive_solver. }
    unfold run_helper. rewrite Hst, (handle_returns conv lit _ e i k k' Ed). by apply returns_Ok.
Qed.

(** The messages from 0x450000 on. *)
Definition demo_lit (t : list Z) : Z :=
  0x450000 + 64 * Z.of_nat (default 0%nat (fst <$> list_find (λ u, u = t) texts)).

Definition text_kernel : kernel trace :=
  Kernel (Kb (fresh (foldr (λ t m, wr_bytes m (demo_lit t) (t ++ [0])) mem0 texts)) demo_fs no_mods empty_line 0)
    boot_paging ∅ 1 0 0 0 0.

Lemma exceptions_report_witness :
  returns (@run_helper trace _ (fs_commands demo_places) 0x460000 demo_lit 1000 excep_GP_helper 0x10 0xFF true text_kernel)
    (λ p, spins p ∧ shows (kcon (term (machine p))) (show (codes "error_code:10" ++ [10] ++
      codes "error_code:FFGeneral protection exception!" ++ [10]) blank_screen)).
Proof.
  destruct (@exceptions_report trace _ (fs_commands demo_places) 0x460000 demo_lit 13 excep_GP_helper 0x10 0xFF true 1000
    blank_screen text_kernel ltac:(lia) eq_refl (fresh_shows _) ltac:(by_decide) ltac:(by_decide) ltac:(lia) ltac:(lia)
    ltac:(lia)) as [Hx _].
  eapply returns_mono; [apply Hx; lia|]. intros p (Hp & c & -> & Hs & _). split; [exact Hp|exact Hs].
Defined.
