(* ===== verification/Entry.v ===== *)
(** * kernel.c: from the boot loader to the shell

    entry prints what the multiboot loader left in memory, fills in the two
    system descriptors of the descriptor table, calls the initialisers of the
    other files in turn and executes the shell.  Its state is the kernel's and
    what belongs to the processor: the interrupt masks, the descriptors, the
    registers that name them and the interrupt flag. *)

From S2P Require Import Prelude Memory Bits Ports Pic Rtc Console Printing Keyboard Paging FileSys.
From S2P Require Import Process Exec.

(** ** multiboot.h

    The fields of a [multiboot_info_t], a [module_t] and a [memory_map_t] at an
    address. *)

Definition MULTIBOOT_BOOTLOADER_MAGIC := 0x2BADB002.

Definition mbi_flags (mbi : Z) : Z := mbi.
Definition mem_lower (mbi : Z) : Z := mbi + 4.
Definition mem_upper (mbi : Z) : Z := mbi + 8.
Definition boot_device (mbi : Z) : Z := mbi + 12.
Definition cmdline (mbi : Z) : Z := mbi + 16.
Definition mods_count (mbi : Z) : Z := mbi + 20.
Definition mods_addr (mbi : Z) : Z := mbi + 24.
Definition elf_sec (mbi : Z) : Z := mbi + 28.
Definition mmap_length (mbi : Z) : Z := mbi + 44.
Definition mmap_addr (mbi : Z) : Z := mbi + 48.

Definition mod_start (m : Z) : Z := m.
Definition mod_end (m : Z) : Z := m + 4.
Definition module_size := 16.

Definition map_size (a : Z) : Z := a.
Definition base_addr_low (a : Z) : Z := a + 4.
Definition base_addr_high (a : Z) : Z := a + 8.
Definition length_low (a : Z) : Z := a + 12.
Definition length_high (a : Z) : Z := a + 16.
Definition map_type (a : Z) : Z := a + 20.

(** ** x86_desc.h: segment descriptors

    A [seg_desc_t] is a 64-bit word; these are its bit fields. *)

Definition KERNEL_DS := 0x18.
Definition KERNEL_TSS := 0x30.
Definition KERNEL_LDT := 0x38.
Definition TSS_SIZE := 104.

(** From x86_desc.S: the sizes of the two structures, less 1. *)
Definition ldt_size := 4 * 8 - 1.
Definition tss_size := 104 - 1.

Definition seg_lim_15_00 := set_bits 0 16.
Definition base_15_00 := set_bits 16 16.
Definition base_23_16 := set_bits 32 8.
Definition seg_type := set_bits 40 4.
Definition seg_sys := set_bits 44 1.
Definition seg_dpl := set_bits 45 2.
Definition seg_present := set_bits 47 1.
Definition seg_lim_19_16 := set_bits 48 4.
Definition seg_avail := set_bits 52 1.
Definition seg_reserved := set_bits 53 1.
Definition seg_opsize := set_bits 54 1.
Definition granularity := set_bits 55 1.
Definition base_31_24 := set_bits 56 8.

Definition SET_LDT_PARAMS (addr lim w : Z) : Z :=
  let w := base_31_24 (Z.shiftr (Z.land (u32 addr) 0xFF000000) 24) w in
  let w := base_23_16 (Z.shiftr (Z.land (u32 addr) 0x00FF0000) 16) w in
  let w := base_15_00 (Z.land (u32 addr) 0x0000FFFF) w in
  let w := seg_lim_19_16 (Z.shiftr (Z.land lim 0x000F0000) 16) w in
  seg_lim_15_00 (Z.land lim 0x0000FFFF) w.

Definition SET_TSS_PARAMS (addr lim w : Z) : Z :=
  let w := base_31_24 (Z.shiftr (Z.land (u32 addr) 0xFF000000) 24) w in
  let w := base_23_16 (Z.shiftr (Z.land (u32 addr) 0x00FF0000) 16) w in
  let w := base_15_00 (Z.land (u32 addr) 0x0000FFFF) w in
  let w := seg_lim_19_16 (Z.shiftr (Z.land lim 0x000F0000) 16) w in
  seg_lim_15_00 (Z.land lim 0x0000FFFF) w.

(** The two local variables of entry; [w] is what they hold uninitialised. *)
Definition the_ldt_desc (ldt w : Z) : Z :=
  let w := granularity 0 w in
  let w := seg_opsize 1 w in
  let w := seg_reserved 0 w in
  let w := seg_avail 0 w in
  let w := seg_present 1 w in
  let w := seg_dpl 0 w in
  let w := seg_sys 0 w in
  let w := seg_type 0x2 w in
  SET_LDT_PARAMS ldt ldt_size w.

Definition the_tss_desc (tss w : Z) : Z :=
  let w := granularity 0 w in
  let w := seg_opsize 0 w in
  let w := seg_reserved 0 w in
  let w := seg_avail 0 w in
  let w := seg_lim_19_16 (Z.land TSS_SIZE 0x000F0000) w in
  let w := seg_present 1 w in
  let w := seg_dpl 0 w in
  let w := seg_sys 0 w in
  let w := seg_type 0x9 w in
  let w := seg_lim_15_00 (Z.land TSS_SIZE 0x0000FFFF) w in
  SET_TSS_PARAMS tss tss_size w.

(** ** State *)

Record machine (D : Type) := Machine {
  kern : kernel D;
  masks : pic;                     (* the globals of i8259.c *)
  ldt_desc_ptr : Z;                (* the two descriptors in the GDT *)
  tss_desc_ptr : Z;
  ldtr : Z;                        (* the selectors in LDTR and TR *)
  tr : Z;
  ldt_segment_selector : Z;        (* fields of [tss]; esp0 is the kernel's *)
  ss0 : Z;
  interrupt_flag : bool
}.
Arguments Machine {D} _ _ _ _ _ _ _ _ _.
Arguments kern {D} _.
Arguments masks {D} _.
Arguments ldt_desc_ptr {D} _.
Arguments tss_desc_ptr {D} _.
Arguments ldtr {D} _.
Arguments tr {D} _.
Arguments ldt_segment_selector {D} _.
Arguments ss0 {D} _.
Arguments interrupt_flag {D} _.

(** How entry ends: back in boot.S, which halts with interrupts off; in the
    hlt loop, when the shell could not be executed; in a program; or, which
    execute does not do, in an older frame. *)
Inductive boot_end :=
  | Back
  | Spinning
  | Program (f : iret_frame)
  | Older (sp bp v : Z).

Definition left_by (c : control) : boot_end :=
  match c with
  | Return _ => Spinning
  | Enter f => Program f
  | Resume sp bp v => Older sp bp v
  end.

(** iret loads the flags of its frame; execute changes them nowhere else. *)
Definition flag_after (c : control) (b : bool) : bool :=
  match c with Enter f => fr_if f | _ => b end.

(** ** The literals *)

Definition line_of_format (s : string) : list Z := codes s ++ [10].

Definition INVALID_MAGIC := line_of_format "Invalid magic number: 0x%#x".
Definition FLAGS := line_of_format "flags = 0x%#x".
Definition MEM := line_of_format "mem_lower = %uKB, mem_upper = %uKB".
Definition BOOT_DEVICE := line_of_format "boot_device = 0x%#x".
Definition CMDLINE := line_of_format "cmdline = %s".
Definition MODULE_LOADED := line_of_format "Module %d loaded at address: 0x%#x".
Definition MODULE_ENDS := line_of_format "Module %d ends at address: 0x%#x".
Definition FIRST_BYTES := line_of_format "First few bytes of module:".
Definition BYTE := codes "0x%x ".
Definition LINE_END : list Z := [10].
Definition BOTH_BITS := line_of_format "Both bits 4 and 5 are set.".
Definition ELF_SEC := line_of_format "elf_sec: num = %u, size = 0x%#x, addr = 0x%#x, shndx = 0x%#x".
Definition MMAP := line_of_format "mmap_addr = 0x%#x, mmap_length = 0x%x".
Definition MMAP_ENTRY :=
  line_of_format " size = 0x%x,     base_addr = 0x%#x%#x" ++
  line_of_format "     type = 0x%x,  length    = 0x%#x%#x".
Definition SHELL := codes "shell".

Definition PAGE_TEST := line_of_format "--------------Page test---------------".
Definition EXPECTED := line_of_format "Expected outout: page falut exception!".

Section operations.
Context `{PortIO D} (y : layout).
(** Where the literals, printf's buffer and the two structures are. *)
Context (lit : list Z → Z) (conv ldt tss : Z).
Implicit Types (k : kernel D) (s : machine D).

Definition CHECK_FLAG (flags bit : Z) : bool := negb (Z.land flags (Z.shiftl 1 bit) =? 0).

Definition word k (a : Z) : Z := rd32 (kmem k) a.

Definition tell (format : list Z) (args : list Z) k : res (kernel D) :=
  c ← say conv lit format args (kcon (term k)); Ok (set_kcon c k).

(** A part of the report, printed when its bit of the flags is set. *)
Definition when_flag (mbi bit : Z) (part : kernel D → res (kernel D)) k : res (kernel D) :=
  if CHECK_FLAG (word k (mbi_flags mbi)) bit then part k else Ok k.

Definition say_mem (mbi : Z) k : res (kernel D) :=
  tell MEM [word k (mem_lower mbi); word k (mem_upper mbi)] k.
Definition say_boot_device (mbi : Z) k : res (kernel D) :=
  tell BOOT_DEVICE [word k (boot_device mbi)] k.
Definition say_cmdline (mbi : Z) k : res (kernel D) :=
  tell CMDLINE [word k (cmdline mbi)] k.

(** The first 16 bytes; a [char] is passed as an [int]. *)
Definition say_bytes (m : Z) k : res (kernel D) :=
  whileM (λ '(k, i),
    if i <? 16 then
      k ← tell BYTE [u32 (s8 (rd (kmem k) (u32 (word k (mod_start m) + i))))] k; Ok (inl (k, i + 1))
    else Ok (inr k)) (k, 0).

Definition say_module (mod_count m : Z) k : res (kernel D) :=
  k ← tell MODULE_LOADED [u32 mod_count; word k (mod_start m)] k;
  k ← tell MODULE_ENDS [u32 mod_count; word k (mod_end m)] k;
  k ← tell FIRST_BYTES [] k;
  k ← say_bytes m k;
  tell LINE_END [] k.

Definition say_modules (mbi : Z) k : res (kernel D) :=
  whileM (λ '(k, mod_count, m),
    if u32 mod_count <? word k (mods_count mbi) then
      k ← say_module mod_count m k; Ok (inl (k, mod_count + 1, u32 (m + module_size)))
    else Ok (inr k)) (k, 0, word k (mods_addr mbi)).

Definition say_elf (mbi : Z) k : res (kernel D) :=
  let e := elf_sec mbi in
  tell ELF_SEC [word k e; word k (e + 4); word k (e + 8); word k (e + 12)] k.

Definition say_map_entry (mmap : Z) k : res (kernel D) :=
  tell MMAP_ENTRY [word k (map_size mmap); word k (base_addr_high mmap); word k (base_addr_low mmap);
    word k (map_type mmap); word k (length_high mmap); word k (length_low mmap)] k.

Definition say_map (mbi : Z) k : res (kernel D) :=
  k ← tell MMAP [word k (mmap_addr mbi); word k (mmap_length mbi)] k;
  whileM (λ '(k, mmap),
    if mmap <? u32 (word k (mmap_addr mbi) + word k (mmap_length mbi)) then
      k ← say_map_entry mmap k; Ok (inl (k, u32 (mmap + word k (map_size mmap) + 4)))
    else Ok (inr k)) (k, word k (mmap_addr mbi)).

(** The report up to the check of the two exclusive bits, and behind it. *)
Definition report_head (mbi : Z) k : res (kernel D) :=
  k ← tell FLAGS [word k (mbi_flags mbi)] k;
  k ← when_flag mbi 0 (say_mem mbi) k;
  k ← when_flag mbi 1 (say_boot_device mbi) k;
  k ← when_flag mbi 2 (say_cmdline mbi) k;
  when_flag mbi 3 (say_modules mbi) k.

Definition report_tail (mbi : Z) k : res (kernel D) :=
  k ← when_flag mbi 5 (say_elf mbi) k;
  when_flag mbi 6 (say_map mbi) k.

(** The processor marks the task's descriptor busy. *)
Definition lldt (desc : Z) (s : machine D) : machine D :=
  Machine (kern s) (masks s) (ldt_desc_ptr s) (tss_desc_ptr s) desc (tr s)
    (ldt_segment_selector s) (ss0 s) (interrupt_flag s).
Definition ltr (desc : Z) (s : machine D) : machine D :=
  Machine (kern s) (masks s) (ldt_desc_ptr s) (set_bits 41 1 1 (tss_desc_ptr s)) (ldtr s) desc
    (ldt_segment_selector s) (ss0 s) (interrupt_flag s).
Definition set_flag (b : bool) (s : machine D) : machine D :=
  Machine (kern s) (masks s) (ldt_desc_ptr s) (tss_desc_ptr s) (ldtr s) (tr s)
    (ldt_segment_selector s) (ss0 s) b.
Definition sti : machine D → machine D := set_flag true.

Definition set_kern k s : machine D :=
  Machine k (masks s) (ldt_desc_ptr s) (tss_desc_ptr s) (ldtr s) (tr s)
    (ldt_segment_selector s) (ss0 s) (interrupt_flag s).

(** The masks and the device behind the ports, together. *)
Definition on_ports (f : pic → D → pic * D) s : machine D :=
  let '(p, d) := f (masks s) (dev (kcon (term (kern s)))) in
  Machine (set_kcon (set_dev d (kcon (term (kern s)))) (kern s)) p (ldt_desc_ptr s)
    (tss_desc_ptr s) (ldtr s) (tr s) (ldt_segment_selector s) (ss0 s) (interrupt_flag s).

Definition init_ldt (w : Z) s : machine D :=
  lldt KERNEL_LDT (Machine (kern s) (masks s) (the_ldt_desc ldt w) (tss_desc_ptr s) (ldtr s) (tr s)
    (ldt_segment_selector s) (ss0 s) (interrupt_flag s)).

Definition init_tss (w : Z) s : machine D :=
  ltr KERNEL_TSS (Machine (set_esp0 0x800000 (kern s)) (masks s) (ldt_desc_ptr s)
    (the_tss_desc tss w) (ldtr s) (tr s) KERNEL_LDT KERNEL_DS (interrupt_flag s)).

(** The manual test: a read through a null pointer, [None] when the MMU has no
    mapping for it. *)
Definition test_paging k : res (kernel D * option Z) :=
  k ← tell PAGE_TEST [] k;
  k ← tell EXPECTED [] k;
  Ok (k, (λ x, s32 (rd32 (kmem k) 0)) <$> translate (paging_symbols y) (pages k) 0).

(** The devices and the file system, from the first module; rtc_init ends with
    an sti of its own. *)
Definition init_devices (mbi : Z) s : res (machine D) :=
  let s := on_ports (λ p d, (p, i8259_init d)) s in
  let module := word (kern s) (mods_addr mbi) in
  '(k, _) ← fs_call (filesystem_init (boot_block_at y) (word (kern s) (mod_start module))
                       (word (kern s) (mod_end module))) (kern s);
  Ok (sti (on_ports rtc_init (set_kern k s))).

Definition init_memory s : res (machine D) :=
  k ← update_pages y (init_paging (paging_symbols y)) (kern s);
  Ok (sti (set_kern k s)).

Definition init_terminal s : machine D :=
  let k := kern s in
  let k := set_kcon (clear_screen (kcon (term k))) k in
  let '(p, t) := keyboard_init (masks s) (term k) in
  Machine (set_term t k) p (ldt_desc_ptr s) (tss_desc_ptr s) (ldtr s) (tr s)
    (ldt_segment_selector s) (ss0 s) (interrupt_flag s).

(** [w_ldt] and [w_tss] are the uninitialised locals, [esp] and [ebp] the
    registers of execute. *)
Definition start_kernel (w_ldt w_tss mbi esp ebp : Z) s : res (machine D * boot_end) :=
  s ← init_devices mbi (init_tss w_tss (init_ldt w_ldt s));
  s ← init_memory s;
  let s := init_terminal s in
  '(k, c) ← execute y esp ebp (lit SHELL) (kern s);
  Ok (set_flag (flag_after c (interrupt_flag s)) (set_kern k s), left_by c).

Definition entry (w_ldt w_tss esp ebp magic addr : Z) s : res (machine D * boot_end) :=
  let k := kern s in
  let k := set_kcon (clear (kcon (term k))) k in
  if negb (magic =? MULTIBOOT_BOOTLOADER_MAGIC) then
    k ← tell INVALID_MAGIC [magic] k; Ok (set_kern k s, Back)
  else
    let mbi := addr in
    k ← report_head mbi k;
    if CHECK_FLAG (word k (mbi_flags mbi)) 4 && CHECK_FLAG (word k (mbi_flags mbi)) 5 then
      k ← tell BOTH_BITS [] k; Ok (set_kern k s, Back)
    else
      k ← report_tail mbi k;
      start_kernel w_ldt w_tss mbi esp ebp (set_kern k s).
End operations.
