(* ===== verification/Boot.v ===== *)
(** * What entry prints and establishes

    The report entry prints, as text; the segment descriptors as the processor
    reads them; and the composition of the initialisers, from the loader's
    state to the shell. *)

From S2P Require Import Prelude Memory LibString Bits Ports Pic Rtc Console Printing Keyboard Paging FileSys.
From S2P Require Import Process Syscall Descriptors ReadWrite Calls Exec ExecSpec ExecProps Execute Entry.

(** ** Segment descriptors *)

Record segment := Segment {
  sg_base : Z; sg_limit : Z; sg_type : Z; sg_system : bool; sg_dpl : Z;
  sg_present : bool; sg_size32 : bool; sg_pages : bool
}.

(** The fields as the processor puts them together. *)
Definition decode_segment (w : Z) : segment := {|
  sg_base := get_bits 16 16 w + 65536 * get_bits 32 8 w + 16777216 * get_bits 56 8 w;
  sg_limit := get_bits 0 16 w + 65536 * get_bits 48 4 w;
  sg_type := get_bits 40 4 w;
  sg_system := get_bits 44 1 w =? 0;
  sg_dpl := get_bits 45 2 w;
  sg_present := get_bits 47 1 w =? 1;
  sg_size32 := get_bits 54 1 w =? 1;
  sg_pages := get_bits 55 1 w =? 1
|}.

(** The three parts of a base address. *)
Lemma base_parts a :
  0 ≤ a < 4294967296 →
  Z.land (Z.land a 0x0000FFFF) (Z.ones 16) +
    65536 * Z.land (Z.shiftr (Z.land a 0x00FF0000) 16) (Z.ones 8) +
    16777216 * Z.land (Z.shiftr (Z.land a 0xFF000000) 24) (Z.ones 8) = a.
Proof.
  intros Ha. change 0x00FF0000 with (Z.shiftl (Z.ones 8) 16). change 0xFF000000 with (Z.shiftl (Z.ones 8) 24).
  change 0x0000FFFF with (Z.ones 16).
  rewrite !Z.shiftr_land, !Z.shiftr_shiftl_l, !Z.shiftl_0_r, <- !Z.land_assoc, !Z.land_diag, !Z.land_ones by lia.
  rewrite !Z.shiftr_div_pow2 by lia. cbn. zlia.
Qed.

(** Setting the busy bit of a task's descriptor sets bit 1 of its type. *)
Lemma busy_type w : get_bits 40 4 (set_bits 41 1 1 w) = Z.lor 2 (get_bits 40 4 w).
Proof.
  apply Z.bits_inj'. intros i Hi. rewrite Z.lor_spec, !testbit_get_bits, testbit_set_bits by lia.
  destruct (Z.ltb_spec i 4); cbn [andb].
  - assert (i = 0 ∨ i = 1 ∨ i = 2 ∨ i = 3) as [-> | [-> | [-> | ->]]] by lia; by cbn.
  - replace (Z.testbit 2 i) with false; [done|]. symmetry. apply (Z.bits_above_log2 2); cbn; lia.
Qed.

Ltac fields := repeat first [ rewrite get_set_eq by lia | rewrite get_set_ne by lia ].

Ltac read_fields :=
  f_equal; unfold base_31_24, base_23_16, base_15_00, seg_lim_19_16, seg_lim_15_00, seg_type, seg_sys,
    seg_dpl, seg_present, seg_avail, seg_reserved, seg_opsize, granularity; rewrite ?busy_type; fields.

Lemma the_ldt_reads ldt w :
  0 ≤ ldt < 4294967296 → decode_segment (the_ldt_desc ldt w) = Segment ldt 31 2 true 0 true true false.
Proof.
  intros Ha. unfold the_ldt_desc, SET_LDT_PARAMS, decode_segment. rewrite (u32_small ldt) by done.
  read_fields; [by apply base_parts|done..].
Qed.

Lemma the_tss_reads tss w :
  0 ≤ tss < 4294967296 →
  decode_segment (set_bits 41 1 1 (the_tss_desc tss w)) = Segment tss 103 0xB true 0 true false false.
Proof.
  intros Ha. unfold the_tss_desc, SET_TSS_PARAMS, decode_segment. rewrite (u32_small tss) by done.
  read_fields; [by apply base_parts|done..].
Qed.

(** ** The report, as text *)

Definition flags_text (v : Z) : list Z := codes "flags = 0x" ++ hex8 v ++ [10].
Definition mem_text (lower upper : Z) : list Z :=
  codes "mem_lower = " ++ numeral 10 lower ++ codes "KB, mem_upper = " ++ numeral 10 upper ++ codes "KB" ++ [10].
Definition boot_device_text (v : Z) : list Z := codes "boot_device = 0x" ++ hex8 v ++ [10].
Definition cmdline_text (l : list Z) : list Z := codes "cmdline = " ++ l ++ [10].

(** A byte above 127 shows as eight digits. *)
Definition byte_text (v : Z) : list Z := codes "0x" ++ numeral 16 (u32 (s8 v)) ++ codes " ".
Definition module_line (i : Z) (where_ : string) (v : Z) : list Z :=
  codes "Module " ++ signed_numeral i ++ codes where_ ++ hex8 v ++ [10].
Definition module_text (i m0 m1 : Z) (first : list Z) : list Z :=
  module_line i " loaded at address: 0x" m0 ++ module_line i " ends at address: 0x" m1 ++
  codes "First few bytes of module:" ++ [10] ++ concat (byte_text <$> first) ++ [10].
Definition elf_text (num size addr shndx : Z) : list Z :=
  codes "elf_sec: num = " ++ numeral 10 num ++ codes ", size = 0x" ++ hex8 size ++
  codes ", addr = 0x" ++ hex8 addr ++ codes ", shndx = 0x" ++ hex8 shndx ++ [10].
Definition map_text (addr len : Z) : list Z :=
  codes "mmap_addr = 0x" ++ hex8 addr ++ codes ", mmap_length = 0x" ++ numeral 16 len ++ [10].
Definition map_entry_text (size bh bl type lh ll : Z) : list Z :=
  codes " size = 0x" ++ numeral 16 size ++ codes ",     base_addr = 0x" ++ hex8 bh ++ hex8 bl ++ [10] ++
  codes "     type = 0x" ++ numeral 16 type ++ codes ",  length    = 0x" ++ hex8 lh ++ hex8 ll ++ [10].


Definition boot_texts : list (list Z) :=
  [INVALID_MAGIC; FLAGS; MEM; BOOT_DEVICE; CMDLINE; MODULE_LOADED; MODULE_ENDS; FIRST_BYTES; BYTE; LINE_END;
   BOTH_BITS; ELF_SEC; MMAP; MMAP_ENTRY; PAGE_TEST; EXPECTED].

Lemma boot_text_short f : f ∈ boot_texts → zlen f < 2147483648.
Proof.
  assert (Forall (λ f, zlen f < 2147483648) boot_texts) as Hall by by_decide.
  rewrite Forall_forall in Hall. apply Hall.
Qed.

Section report.
Context {D : Type} (lit : list Z → Z) (conv : Z) (k0 : kernel D) (scr : screen).
Context (Hdis : disjoint_regions VIDEO page_size conv scratch_size).
Context (Hlit : Forall (literal_ok conv lit (kmem k0)) boot_texts).
Implicit Types k : kernel D.

(** [k] is [k0] after printing [out]. *)
Definition told (out : list Z) k : Prop :=
  k = set_kcon (kcon (term k)) k0 ∧ printed conv (kcon (term k0)) scr out (kcon (term k)).

(** A part of entry that prints [text] and does nothing else. *)
Definition tells (part : kernel D → res (kernel D)) (text : list Z) : Prop :=
  ∀ out k, told out k → returns (part k) (told (out ++ text)).

Lemma told_start : shows (kcon (term k0)) scr → told [] k0.
Proof.
  clear Hlit. intros Hs. split; [by destruct k0 as [[] ? ? ? ? ? ? ?]|]. by split_and!.
Qed.

Lemma told_kept out k : told out k → kept conv (kmem k0) (kmem k).
Proof. by intros (_ & _ & Hk & _). Qed.

Lemma told_rd out k a : told out k → clear_of conv a 1 → rd (kmem k) a = rd (kmem k0) a.
Proof.
  intros Ht [Hv Hc]. unfold disjoint_regions in *. apply (told_kept _ _ Ht); lia.
Qed.

Lemma clear_part a n b l : clear_of conv a n → a ≤ b → 0 ≤ l → b + l ≤ a + n → clear_of conv b l.
Proof. unfold clear_of, disjoint_regions. lia. Qed.

Lemma told_word out k a : told out k → clear_of conv a 4 → word k a = word k0 a.
Proof.
  intros Ht Hc. unfold word, rd32.
  rewrite !(told_rd out k) by (done || (eapply clear_part; [exact Hc|lia..])). done.
Qed.

Lemma word_range k a : 0 ≤ word k a < 4294967296.
Proof. apply rd32_range. Qed.

Lemma tell_tells (f : list Z) (args : kernel D → list Z) (args0 o : list Z) :
  f ∈ boot_texts → (∀ out k, told out k → args k = args0) →
  (∀ m, kept conv (kmem k0) m → formats m conv f args0 o) →
  tells (λ k, tell lit conv f (args k) k) o.
Proof.
  intros Hf Hargs Hfmt out k Ht. pose proof Ht as [Ek Hp]. pose proof (told_kept _ _ Ht) as Hk.
  rewrite (Hargs _ _ Ht). unfold tell. eapply returns_bind.
  { apply (say_prints conv lit f args0 o (kcon (term k)) (show out scr)); [done|apply Hp| |by apply boot_text_short|by apply Hfmt].
    eapply literal_kept; [exact Hk|]. rewrite Forall_forall in Hlit. by apply Hlit. }
  intros c Hc. apply returns_Ok. split; [|by eapply printed_trans]. rewrite Ek. by destruct k0 as [[] ? ? ? ? ? ? ?].
Qed.

Lemma tells_bind (f g : kernel D → res (kernel D)) t1 t2 :
  tells f t1 → tells g t2 → tells (λ k, f k ≫= g) (t1 ++ t2).
Proof.
  intros Hf Hg out k Ht. eapply returns_bind; [by apply Hf|]. intros k1 Ht1. rewrite app_assoc. by apply Hg.
Qed.

Section parts.
Context (mbi : Z) (Hmbi : clear_of conv mbi 52).

Notation w a := (word k0 a).

Lemma field out k i : told out k → 0 ≤ i ≤ 48 → word k (mbi + i) = w (mbi + i).
Proof. intros Ht Hi. eapply told_word; [done|]. eapply clear_part; [exact Hmbi|lia..]. Qed.

Lemma flags_field out k : told out k → word k (mbi_flags mbi) = w (mbi_flags mbi).
Proof. unfold mbi_flags. intros Ht. rewrite <- (Z.add_0_r mbi). by apply (field out k 0). Qed.

Lemma when_tells bit part t :
  (CHECK_FLAG (w (mbi_flags mbi)) bit = true → tells part t) → tells (when_flag mbi bit part) (if CHECK_FLAG (w (mbi_flags mbi)) bit then t else []).
Proof.
  intros Hp out k Ht. unfold when_flag. rewrite (flags_field _ _ Ht).
  destruct (CHECK_FLAG _ _); [by apply Hp|].
  apply returns_Ok. by rewrite app_nil_r.
Qed.

Ltac plain p := apply (formats_plain _ _ (codes p)); [by_decide|].

Lemma flags_tells : tells (λ k, tell lit conv FLAGS [word k (mbi_flags mbi)] k) (flags_text (w (mbi_flags mbi))).
Proof.
  apply (tell_tells FLAGS (λ k, [word k (mbi_flags mbi)]) [w (mbi_flags mbi)]); [by_decide| |].
  - intros out k Ht. by rewrite (flags_field _ _ Ht).
  - intros m Hm. plain "flags = 0x". apply formats_hex8; [apply word_range|]. by apply plain_formats; by_decide.
Qed.

Lemma mem_tells : tells (say_mem lit conv mbi) (mem_text (w (mem_lower mbi)) (w (mem_upper mbi))).
Proof.
  apply (tell_tells MEM (λ k, [word k (mem_lower mbi); word k (mem_upper mbi)])
    [w (mem_lower mbi); w (mem_upper mbi)]); [by_decide| |].
  - intros out k Ht. unfold mem_lower, mem_upper. by rewrite !(field _ _ _ Ht) by lia.
  - intros m Hm. plain "mem_lower = ". apply formats_unsigned; [apply word_range|]. plain "KB, mem_upper = ".
    apply formats_unsigned; [apply word_range|]. apply plain_formats. by_decide.
Qed.

Lemma boot_device_tells : tells (say_boot_device lit conv mbi) (boot_device_text (w (boot_device mbi))).
Proof.
  apply (tell_tells BOOT_DEVICE (λ k, [word k (boot_device mbi)]) [w (boot_device mbi)]); [by_decide| |].
  - intros out k Ht. unfold boot_device. by rewrite (field _ _ _ Ht) by lia.
  - intros m Hm. plain "boot_device = 0x". apply formats_hex8; [apply word_range|]. apply plain_formats. by_decide.
Qed.

Lemma cmdline_tells l :
  cstr (kmem k0) (w (cmdline mbi)) l → zlen l < 2147483648 → clear_of conv (w (cmdline mbi)) (zlen l + 1) →
  tells (say_cmdline lit conv mbi) (cmdline_text l).
Proof.
  intros Hl Hz Hc. apply (tell_tells CMDLINE (λ k, [word k (cmdline mbi)]) [w (cmdline mbi)]); [by_decide| |].
  - intros out k Ht. unfold cmdline. by rewrite (field _ _ _ Ht) by lia.
  - intros m Hm. plain "cmdline = ". apply formats_string; [by eapply kept_cstr|done|done|].
    apply plain_formats. by_decide.
Qed.

Lemma elf_tells :
  let e := elf_sec mbi in
  tells (say_elf lit conv mbi) (elf_text (w e) (w (e + 4)) (w (e + 8)) (w (e + 12))).
Proof.
  intros e. apply (tell_tells ELF_SEC (λ k, [word k e; word k (e + 4); word k (e + 8); word k (e + 12)])
    [w e; w (e + 4); w (e + 8); w (e + 12)]); [by_decide| |].
  - intros out k Ht. unfold e, elf_sec. rewrite <- !Z.add_assoc. by rewrite !(field _ _ _ Ht) by lia.
  - intros m Hm. plain "elf_sec: num = ". apply formats_unsigned; [apply word_range|].
    plain ", size = 0x". apply formats_hex8; [apply word_range|].
    plain ", addr = 0x". apply formats_hex8; [apply word_range|].
    plain ", shndx = 0x". apply formats_hex8; [apply word_range|]. apply plain_formats. by_decide.
Qed.

(** ** The modules *)

Definition module_at (i : Z) : Z := w (mods_addr mbi) + 16 * i.
Definition module_report (i : Z) : list Z :=
  let m := module_at i in
  module_text i (w (mod_start m)) (w (mod_end m)) (bytes (kmem k0) (w (mod_start m)) 16).

(** The table and the first bytes of each module. *)
Record modules_ok : Prop := {
  mk_table : clear_of conv (w (mods_addr mbi)) (16 * w (mods_count mbi)) ∧
    w (mods_addr mbi) + 16 * w (mods_count mbi) < 4294967296;
  mk_bytes i : 0 ≤ i < w (mods_count mbi) →
    let a := w (mod_start (module_at i)) in clear_of conv a 16 ∧ a + 16 ≤ 4294967296
}.
Section modules.
Context (Hmods : modules_ok).

Lemma module_field out k i j :
  told out k → 0 ≤ i < w (mods_count mbi) → 0 ≤ j ≤ 12 → word k (module_at i + j) = w (module_at i + j).
Proof.
  intros Ht Hi Hj. eapply told_word; [done|]. destruct (mk_table Hmods) as [Hc _]. unfold module_at.
  eapply clear_part; [exact Hc|lia..].
Qed.

Lemma module_start out k i :
  told out k → 0 ≤ i < w (mods_count mbi) → word k (mod_start (module_at i)) = w (mod_start (module_at i)).
Proof.
  intros Ht Hi. unfold mod_start. rewrite <- (Z.add_0_r (module_at i)). eapply module_field; [done|done|lia].
Qed.

Lemma byte_tells v :
  0 ≤ v < 4294967296 → tells (tell lit conv BYTE [v]) (codes "0x" ++ numeral 16 v ++ codes " ").
Proof.
  intros Hv. apply (tell_tells BYTE (λ _, [v]) [v]); [by_decide|done|].
  intros m _. plain "0x". apply formats_hex; [done|]. apply plain_formats. by_decide.
Qed.

Lemma bytes_tells i :
  0 ≤ i < w (mods_count mbi) →
  tells (say_bytes lit conv (module_at i)) (concat (byte_text <$> bytes (kmem k0) (w (mod_start (module_at i))) 16)).
Proof.
  intros Hi out k Ht. set (a := w (mod_start (module_at i))).
  destruct (mk_bytes Hmods i Hi) as [Hc Hr]. fold a in Hc, Hr.
  unfold say_bytes. apply whileM_total with
    (I := λ '(k, j), 0 ≤ j ≤ 16 ∧ told (out ++ concat (byte_text <$> bytes (kmem k0) a j)) k) (V := λ '(k, j), 16 - j).
  - split; [lia|]. by rewrite bytes_0, app_nil_r.
  - lia.
  - intros [k1 j] [Hj Ht1]. destruct (Z.ltb_spec j 16); cycle 1.
    { apply returns_Ok. by replace 16 with j by lia. }
    rewrite (module_start _ _ i Ht1 Hi). fold a. pose proof (rd32_range (kmem k0) (mod_start (module_at i))) as Ha.
    change (0 ≤ a < 4294967296) in Ha. rewrite (u32_small (a + j)) by lia.
    rewrite (told_rd _ _ (a + j) Ht1) by (eapply clear_part; [exact Hc|lia..]).
    eapply returns_bind; [apply (byte_tells _ (u32_range _) _ _ Ht1)|].
    intros k2 Ht2. apply returns_Ok. split; [|lia]. split; [lia|].
    rewrite bytes_snoc, fmap_app, concat_app by lia. cbn [fmap list_fmap concat].
    by rewrite app_nil_r, app_assoc.
Qed.

Lemma module_line_tells f where_ (v : kernel D → Z) v0 i :
  0 ≤ i < 2147483648 → 0 ≤ v0 < 4294967296 → (∀ out k, told out k → v k = v0) →
  Forall (λ c, c ≠ 37) (codes where_) → f ∈ boot_texts →
  f = codes "Module " ++ codes "%d" ++ codes where_ ++ codes "%#x" ++ [10] →
  tells (λ k, tell lit conv f [u32 i; v k] k) (module_line i where_ v0).
Proof.
  intros Hi Hv0 Hv Hp Hin Ef. apply (tell_tells f (λ k, [u32 i; v k]) [i; v0]); [done| |].
  - intros out k Ht. by rewrite (Hv _ _ Ht), u32_small by lia.
  - intros m _. rewrite Ef. unfold module_line. apply formats_plain; [by_decide|]. apply formats_signed; [lia|].
    apply formats_plain; [done|]. apply formats_hex8; [done|]. apply plain_formats. by_decide.
Qed.

Lemma constant_tells f :
  f ∈ boot_texts → Forall (λ c, c ≠ 37) f → tells (tell lit conv f []) f.
Proof. intros Hf Hp. apply (tell_tells f (λ _, []) []); [done|done|]. intros m _. by apply plain_formats. Qed.

Lemma module_tells i :
  0 ≤ i < w (mods_count mbi) → tells (say_module lit conv i (module_at i)) (module_report i).
Proof.
  intros Hi. destruct (mk_table Hmods) as [_ Hr].
  pose proof (word_range k0 (mods_addr mbi)) as Ha. unfold module_report, module_text, say_module.
  apply (tells_bind (λ k, tell lit conv MODULE_LOADED [u32 i; word k (mod_start (module_at i))] k)).
  { apply module_line_tells; [lia|apply word_range| |by_decide|by_decide|by_decide].
    intros out k Ht. by eapply module_start. }
  apply (tells_bind (λ k, tell lit conv MODULE_ENDS [u32 i; word k (mod_end (module_at i))] k)).
  { apply module_line_tells; [lia|apply word_range| |by_decide|by_decide|by_decide].
    intros out k Ht. eapply module_field; [done|done|lia]. }
  rewrite app_assoc. apply (tells_bind (tell lit conv FIRST_BYTES [])); [apply constant_tells; by_decide|].
  apply tells_bind; [by apply bytes_tells|]. apply constant_tells; by_decide.
Qed.

Lemma modules_tells :
  tells (say_modules lit conv mbi) (concat (module_report <$> seqZ 0 (w (mods_count mbi)))).
Proof.
  intros out k Ht. destruct (mk_table Hmods) as [_ Hr]. set (n := w (mods_count mbi)) in *.
  pose proof (word_range k0 (mods_addr mbi)) as Ha. pose proof (word_range k0 (mods_count mbi)) as Hn. fold n in Hn.
  assert (∀ out k, told out k → word k (mods_count mbi) = n) as Hcnt
    by (intros o k' Ht'; unfold mods_count, n; by rewrite (field _ _ _ Ht') by lia).
  unfold say_modules. apply whileM_total with
    (I := λ '(k, i, m), 0 ≤ i ≤ n ∧ m = module_at i ∧ told (out ++ concat (module_report <$> seqZ 0 i)) k)
    (V := λ '(k, i, m), n - i).
  - split_and!; [lia|lia| |cbn; by rewrite app_nil_r]. unfold module_at. rewrite Z.mul_0_r, Z.add_0_r.
    unfold mods_addr. by rewrite (field _ _ _ Ht) by lia.
  - lia.
  - intros [[k1 i] m] (Hi & -> & Ht1). rewrite u32_small, (Hcnt _ _ Ht1) by lia.
    destruct (Z.ltb_spec i n); cycle 1.
    { apply returns_Ok. by replace n with i by lia. }
    eapply returns_bind; [apply (module_tells i ltac:(lia) _ _ Ht1)|].
    intros k2 Ht2. apply returns_Ok. split; [|lia]. split_and!; [lia|lia| |].
    + unfold module_at, module_size. rewrite u32_small by lia. lia.
    + rewrite (seqZ_app 0 i 1), fmap_app, concat_app, app_assoc by lia.
      rewrite (seqZ_cons (0 + i) 1), (seqZ_nil _ (Z.pred 1)) by lia. cbn. by rewrite app_nil_r.
Qed.

End modules.

(** ** The memory map *)

Definition map_entry_report (a : Z) : list Z :=
  map_entry_text (w (map_size a)) (w (base_addr_high a)) (w (base_addr_low a)) (w (map_type a))
    (w (length_high a)) (w (length_low a)).

Definition map_end : Z := u32 (w (mmap_addr mbi) + w (mmap_length mbi)).

(** The entries the loop visits from [a] on: each ahead of the one before. *)
Inductive map_walk : Z → list Z → Prop :=
  | Walk_end a : map_end ≤ a → map_walk a []
  | Walk_entry a l :
      0 ≤ a < map_end → clear_of conv a 24 → a + w (map_size a) + 4 < 4294967296 →
      map_walk (a + w (map_size a) + 4) l → map_walk a (a :: l).

Lemma map_entry_tells a :
  clear_of conv a 24 → tells (say_map_entry lit conv a) (map_entry_report a).
Proof.
  intros Hc. assert (∀ out k i, told out k → 0 ≤ i ≤ 20 → word k (a + i) = w (a + i)) as Hf.
  { intros out k i Ht Hi. eapply told_word; [done|]. eapply clear_part; [exact Hc|lia..]. }
  apply (tell_tells MMAP_ENTRY
    (λ k, [word k (map_size a); word k (base_addr_high a); word k (base_addr_low a); word k (map_type a);
      word k (length_high a); word k (length_low a)])
    [w (map_size a); w (base_addr_high a); w (base_addr_low a); w (map_type a); w (length_high a);
      w (length_low a)]); [by_decide| |].
  - intros out k Ht. unfold map_size, base_addr_high, base_addr_low, map_type, length_high, length_low.
    pose proof (Hf out k 0 Ht ltac:(lia)) as H0. rewrite Z.add_0_r in H0. by rewrite H0, !(Hf _ _ _ Ht) by lia.
  - intros m _. unfold map_entry_report, map_entry_text. plain " size = 0x". apply formats_hex; [apply word_range|].
    plain ",     base_addr = 0x". do 2 (apply formats_hex8; [apply word_range|]).
    apply (formats_plain _ _ [10]); [by_decide|]. plain "     type = 0x". apply formats_hex; [apply word_range|].
    plain ",  length    = 0x". do 2 (apply formats_hex8; [apply word_range|]). apply plain_formats. by_decide.
Qed.

Lemma map_tells l :
  map_walk (w (mmap_addr mbi)) l →
  tells (say_map lit conv mbi)
    (map_text (w (mmap_addr mbi)) (w (mmap_length mbi)) ++ concat (map_entry_report <$> l)).
Proof.
  intros Hl. assert (∀ out k, told out k →
    word k (mmap_addr mbi) = w (mmap_addr mbi) ∧ word k (mmap_length mbi) = w (mmap_length mbi)) as Hf.
  { intros out k Ht. unfold mmap_addr, mmap_length. by rewrite !(field _ _ _ Ht) by lia. }
  unfold say_map. apply tells_bind.
  { apply (tell_tells MMAP (λ k, [word k (mmap_addr mbi); word k (mmap_length mbi)])
      [w (mmap_addr mbi); w (mmap_length mbi)]); [by_decide| |].
    - intros out k Ht. by destruct (Hf _ _ Ht) as [-> ->].
    - intros m _. plain "mmap_addr = 0x". apply formats_hex8; [apply word_range|]. plain ", mmap_length = 0x".
      apply formats_hex; [apply word_range|]. apply plain_formats. by_decide. }
  intros out k Ht. apply whileM_total with
    (I := λ '(k, a), ∃ l1 l2, l = l1 ++ l2 ∧ map_walk a l2 ∧ 0 ≤ a < 4294967296 ∧
       told (out ++ concat (map_entry_report <$> l1)) k)
    (V := λ '(k, a), 4294967296 - a).
  - exists [], l. destruct (Hf _ _ Ht) as [-> _]. split_and!; [done|done|apply word_range..|by rewrite app_nil_r].
  - pose proof (word_range k (mmap_addr mbi)). lia.
  - intros [k1 a] (l1 & l2 & -> & Hw & Ha & Ht1). destruct (Hf _ _ Ht1) as [-> ->]. fold map_end.
    destruct Hw as [a Hend|a l2 Hlt Hc Hnext Hw].
    { rewrite (proj2 (Z.ltb_ge _ _)) by done. apply returns_Ok. by rewrite app_nil_r. }
    rewrite (proj2 (Z.ltb_lt _ _)) by lia. eapply returns_bind; [by apply (map_entry_tells a Hc)|].
    intros k2 Ht2. apply returns_Ok. assert (word k2 (map_size a) = w (map_size a)) as Hs.
    { eapply told_word; [done|]. eapply clear_part; [exact Hc|unfold map_size; lia..]. }
    rewrite Hs. pose proof (word_range k0 (map_size a)). rewrite u32_small by lia. split; [|lia].
    exists (l1 ++ [a]), l2. split_and!; [by rewrite <- app_assoc|done|lia|lia|].
    rewrite fmap_app, concat_app. cbn. by rewrite app_nil_r, app_assoc.
Qed.

(** ** The whole report *)

(** What the report reads, part by part as the flags ask for it. *)
Record info_ok (cmd entries : list Z) : Prop := {
  io_cmdline : CHECK_FLAG (w (mbi_flags mbi)) 2 = true →
    cstr (kmem k0) (w (cmdline mbi)) cmd ∧ zlen cmd < 2147483648 ∧ clear_of conv (w (cmdline mbi)) (zlen cmd + 1);
  io_modules : CHECK_FLAG (w (mbi_flags mbi)) 3 = true → modules_ok;
  io_map : CHECK_FLAG (w (mbi_flags mbi)) 6 = true → map_walk (w (mmap_addr mbi)) entries
}.

Definition if_flag (bit : Z) (l : list Z) : list Z := if CHECK_FLAG (w (mbi_flags mbi)) bit then l else [].

Definition head_text (cmd : list Z) : list Z :=
  flags_text (w (mbi_flags mbi)) ++
  if_flag 0 (mem_text (w (mem_lower mbi)) (w (mem_upper mbi))) ++
  if_flag 1 (boot_device_text (w (boot_device mbi))) ++
  if_flag 2 (cmdline_text cmd) ++
  if_flag 3 (concat (module_report <$> seqZ 0 (w (mods_count mbi)))).

Definition tail_text (entries : list Z) : list Z :=
  let e := elf_sec mbi in
  if_flag 5 (elf_text (w e) (w (e + 4)) (w (e + 8)) (w (e + 12))) ++
  if_flag 6 (map_text (w (mmap_addr mbi)) (w (mmap_length mbi)) ++ concat (map_entry_report <$> entries)).

Context (cmd entries : list Z) (Hinfo : info_ok cmd entries).

Lemma head_tells : tells (report_head lit conv mbi) (head_text cmd).
Proof.
  destruct Hinfo. unfold report_head, head_text.
  apply tells_bind; [apply flags_tells|]. apply tells_bind; [apply when_tells; intros _; apply mem_tells|].
  apply tells_bind; [apply when_tells; intros _; apply boot_device_tells|].
  apply tells_bind; [apply when_tells; intros Hb; by apply cmdline_tells; apply io_cmdline0|].
  apply when_tells. intros Hb. by apply modules_tells, io_modules0.
Qed.

Lemma tail_tells : tells (report_tail lit conv mbi) (tail_text entries).
Proof.
  destruct Hinfo. unfold report_tail, tail_text. apply tells_bind; [apply when_tells; intros _; apply elf_tells|].
  apply when_tells. intros Hb. by apply map_tells, io_map0.
Qed.
End parts.
End report.
