(* ===== verification/Startup.v ===== *)
(** * From the loader to the shell

    The initialisers composed as entry composes them: what each leaves to the
    next, and the state in which the shell is entered. *)

From S2P Require Import Prelude Memory LibMem LibString Bits Ports Pic Rtc Console Printing Keyboard Paging FileSys.
From S2P Require Import Process Syscall Descriptors ReadWrite Calls Exec ExecSpec ExecProps Execute Entry Boot.

(** ** A command that can be executed *)

Record runnable (y : layout) (ns : list (list Z)) (command : Z) (l args : list Z) (kf : Z) (m : mem) (f : fs) :
    Prop := {
  rn_mem : exec_mem y ns 0 m f;
  rn_command : command ≠ 0;
  rn_name : parsed_name m command = l;
  rn_args : cstr m (command + parse_end m command + 1) args;
  rn_short : zlen args ≤ 1023;
  rn_locals : Forall (apart (command, 34 + zlen args)) [(command_name y, 33); (arg_buf y, 1025)];
  rn_found : names_inode ns m f l kf;
  rn_program : executable (content m f kf)
}.

(** Writes apart from the command and from what execute reads keep it. *)
Lemma runnable_kept y ns command l args kf m m' f rs :
  runnable y ns command l args kf m f → changes_only rs m m' →
  Forall (λ r, Forall (apart r) (take 5 (exec_regions y m f 0))) rs →
  Forall (apart (command, 34 + zlen args)) rs →
  runnable y ns command l args kf m' f ∧ content m' f kf = content m f kf.
Proof.
  intros [Hem Hc0 Hname Hargs Hshort Hloc Hf Hx] Hc Hap Hcmd.
  destruct (exec_mem_apart y ns 0 m m' f rs Hem Hc Hap) as (Hem' & _ & Hcont & _ & Hent).
  pose proof (names_inode_valid _ _ _ _ _ _ _ Hem Hf) as Hkf.
  assert (bytes m' command 32 = bytes m command 32) as Hb.
  { apply (changes_same_bytes rs); [done|]. eapply Forall_impl; [exact Hcmd|]. intros r Hr.
    eapply apart_part; [exact Hr|lia..]. }
  assert (parse_end m' command = parse_end m command) as He by (unfold parse_end; by rewrite Hb).
  pose proof (parse_end_range m command) as Hr.
  split; [|by apply Hcont]. constructor; [done|done| | |done|done| |by rewrite Hcont].
  - unfold parsed_name in *. rewrite He, (changes_same_bytes rs m m'); [done|done|].
    eapply Forall_impl; [exact Hcmd|]. intros r Hr'.
    eapply apart_part; [exact Hr'|lia..].
  - rewrite He. eapply changes_same_cstr; [exact Hc| |exact Hargs].
    eapply Forall_impl; [exact Hcmd|]. intros r Hr'.
    eapply apart_part; [exact Hr'|lia..].
  - destruct Hf as (Hl & i & Hi & Hino). split; [done|]. exists i. split; [done|]. rewrite Hent; [done|].
    pose proof Hi as (Hlt & _)%list_find_Some. apply lookup_lt_Some in Hlt.
    destruct (fs_names _ _ _ _ (em_fs _ _ _ _ _ Hem)). lia.
Qed.

(** ** The interrupt lines *)

Lemma rtc_init_masks `{PortIO D} p (d : D) :
  pic_ok p → pic_ok (fst (rtc_init p d)) ∧
  ∀ l, 0 ≤ l < 16 → masked (fst (rtc_init p d)) l = if (l =? 2) || (l =? 8) then false else masked p l.
Proof.
  intros Hp. unfold rtc_init. destruct (inb _ _) as [v1 d1]. destruct (inb _ _) as [v2 d2].
  set (d3 := outb _ _ _). pose proof (enable_irq_spec SLAVE p d3 Hp ltac:(unfold SLAVE; lia)) as H1.
  destruct (enable_irq SLAVE p d3) as [p1 d4]. destruct H1 as (Hp1 & _ & Hm1).
  pose proof (enable_irq_spec RTC_IRQ p1 d4 Hp1 ltac:(unfold RTC_IRQ; lia)) as H2.
  destruct (enable_irq RTC_IRQ p1 d4) as [p2 d5]. destruct H2 as (Hp2 & _ & Hm2).
  split; [done|]. intros l Hl. cbn [fst]. rewrite Hm2, Hm1 by done. unfold SLAVE, RTC_IRQ.
  by destruct (l =? 8), (l =? 2).
Qed.

(** ** The file system *)

(** A word in two equal regions. *)
Lemma bytes_rd32 m m' a a' n i :
  bytes m a n = bytes m' a' n → 0 ≤ i → i + 4 ≤ n → rd32 m (a + i) = rd32 m' (a' + i).
Proof.
  intros Hb Hi Hn. assert (∀ j, 0 ≤ j < n → rd m (a + j) = rd m' (a' + j)) as Hrd.
  { intros j Hj. pose proof (lookup_bytes m a n j Hj) as H1. rewrite Hb, lookup_bytes in H1 by done. congruence. }
  unfold rd32. by rewrite <- !Z.add_assoc, !Hrd by lia.
Qed.

(** The memory with the boot block copied. *)
Definition boot_mem (y : layout) (start : Z) (m : mem) : mem :=
  wr_bytes m (boot_block_at y) (bytes m start 64).

Section mount.
Context (y : layout) (ns : list (list Z)) (conv start : Z) (m0 : mem) (f0 : fs).
Context (command : Z) (l args : list Z) (kf : Z).

Definition mounted_fs : fs := mount_globals start m0 f0.

(** What the boot needs of the image, the literals and the command. *)
Record bootable : Prop := {
  bt_runnable : runnable y ns command l args kf (boot_mem y start m0) mounted_fs;
  bt_start : 0 < start ∧ start + 4096 < 4294967296;
  bt_video : Forall (apart (VIDEO, page_size)) (exec_regions y (boot_mem y start m0) mounted_fs 0);
  bt_conv : Forall (apart (conv, scratch_size)) (take 5 (exec_regions y (boot_mem y start m0) mounted_fs 0));
  bt_command : Forall (apart (command, 34 + zlen args)) [(VIDEO, page_size); (conv, scratch_size)];
  bt_below : command + 34 + zlen args ≤ USER_PROG_START
}.
Context (Hb : bootable).

Lemma boot_image_size : start + 4096 ≤ image_end (boot_block_at y) (boot_mem y start m0) mounted_fs.
Proof.
  pose proof (fs_mounted _ _ _ _ (em_fs _ _ _ _ _ (rn_mem _ _ _ _ _ _ _ _ (bt_runnable Hb)))) as [_ _ (_ & _ & Hd) _ _].
  unfold image_end. rewrite Hd. change (st_boot_block mounted_fs) with start. unfold FS_UNIT_SIZE.
  pose proof (rd32_range (boot_mem y start m0) (boot_block_at y + 8)).
  pose proof (rd32_range (boot_mem y start m0) (boot_block_at y + 4)). unfold inodes_num, datablocks_num. lia.
Qed.

(** filesystem_init, in a memory that differs from the loader's where printf
    writes. *)
Lemma mount_from m1 stop :
  kept conv m0 m1 → start ≠ stop →
  returns (filesystem_init (boot_block_at y) start stop m1 f0) (λ '(m2, f2, _),
    f2 = mounted_fs ∧ changes_only [(VIDEO, page_size); (conv, scratch_size)] (boot_mem y start m0) m2 ∧
    changes_only [(boot_block_at y, 64)] m1 m2).
Proof.
  intros Hk Hne. unfold filesystem_init. rewrite (proj2 (Z.eqb_neq _ _)) by done.
  pose proof (bt_runnable Hb) as [Hem _ _ _ _ _ _ _]. pose proof Hem as [Hfs _ _ _ Hsep Hlow].
  pose proof (fs_mounted _ _ _ _ Hfs) as [[Hb0 Hb1] _ _ _ _]. pose proof boot_image_size as Hsz.
  change (st_boot_block mounted_fs) with start in Hsep, Hlow.
  assert (∀ a n, apart (a, n) (VIDEO, page_size) → apart (a, n) (conv, scratch_size) →
    bytes m1 a n = bytes m0 a n) as Hsame.
  { intros a n Ha1 Ha2. apply bytes_ext. intros i Hi. unfold apart, disjoint_regions in *. cbn in *. apply Hk; lia. }
  pose proof (bt_video Hb) as Hv. pose proof (bt_conv Hb) as Hc.
  pose proof (Forall_lookup_1 _ _ 0%nat _ Hv eq_refl) as Hv0. pose proof (Forall_lookup_1 _ _ 0%nat _ Hc eq_refl) as Hc0.
  change (st_boot_block mounted_fs) with start in Hv0, Hc0.
  assert (bytes m1 start 64 = bytes m0 start 64) as Hhead.
  { apply Hsame; eapply apart_part; (apply apart_sym; eassumption) || lia. }
  pose proof (separate_apart _ 0 1 _ _ Hsep eq_refl eq_refl ltac:(lia)) as Hdis.
  pose proof (bt_start Hb) as [Hs0 Hs1]. unfold apart, disjoint_regions in Hdis. cbn in Hdis.
  eapply returns_bind.
  { change (SIZE_FS_DENTRIES + 1) with 64. apply memcpy_copies; lia. }
  intros m2 Hm2. rewrite Hhead in Hm2. apply returns_Ok.
  assert (bytes m2 (boot_block_at y) 64 = bytes m0 start 64) as Hcopy.
  { pose proof (wr_bytes_read _ _ _ _ Hm2 (bytes_range _ _ _)) as Hx. by rewrite zlen_bytes in Hx by lia. }
  split_and!.
  - unfold mounted_fs, mount_globals. f_equal. unfold inodes_num.
    by rewrite (bytes_rd32 m2 m0 (boot_block_at y) start 64 4 Hcopy) by lia.
  - intros a Ha. apply Forall_cons in Ha as [Ha1 Ha]. apply Forall_cons in Ha as [Ha2 _].
    rewrite (Hm2 a). unfold boot_mem. rewrite !rd_wr_bytes. rewrite (Hk a Ha1 Ha2). done.
  - intros a Ha. apply Forall_cons in Ha as [Ha _]. rewrite (Hm2 a). unfold inside in Ha. cbn in Ha.
    rewrite rd_wr_bytes, zlen_bytes by lia. case_z; cbn [andb]; done || lia.
Qed.

(** The command stays runnable while the boot goes on. *)
Lemma boot_runnable m :
  changes_only [window; (VIDEO, page_size); (conv, scratch_size)] (boot_mem y start m0) m →
  runnable y ns command l args kf m mounted_fs ∧
  content m mounted_fs kf = content (boot_mem y start m0) mounted_fs kf.
Proof.
  intros Hm. destruct Hb as [Hr _ Hv Hc Hcmd Hlow].
  apply (runnable_kept _ _ _ _ _ _ _ _ _ _ Hr Hm).
  - constructor; [|constructor; [exact (Forall_take _ 5 _ Hv)|by constructor]].
    eapply exec_fixed_apart; [exact (rn_mem _ _ _ _ _ _ _ _ Hr)|by left].
  - constructor; [|done]. unfold apart, disjoint_regions, window. cbn. lia.
Qed.
End mount.

(** ** The initialisers *)

(** What keyboard_init makes of a cleared screen and the driver as loaded. *)
Lemma keyboard_init_idle `{PortIO D} p (t : kb D fs) :
  pic_ok p → kline t = empty_line → shows (kcon t) blank_screen →
  let '(p', t') := keyboard_init p t in
  (pic_ok p' ∧ ∀ l, 0 ≤ l < 16 → masked p' l = if l =? 1 then false else masked p l) ∧
  represents (kcon t') (kline t') idle ∧ vmem (kcon t') = vmem (kcon t) ∧
  kfs t' = kfs t ∧ kmods t' = kmods t.
Proof.
  intros Hp Hl Hs. unfold keyboard_init. rewrite Hl.
  set (c := update_terminal_cursor (init_screen_x_and_y (kcon t))).
  pose proof (enable_irq_spec KEYBOARD_IRQ p (dev c) Hp ltac:(unfold KEYBOARD_IRQ; lia)) as He.
  destruct (enable_irq KEYBOARD_IRQ p (dev c)) as [p' d]. destruct He as (Hp' & _ & Hm).
  split_and!; [done|exact Hm| |done|done|done].
  change (Con (vmem c) (screen_x c) (screen_y c) d) with (set_dev d c). cbn [kcon kline].
  assert (holds 1024 [] (zero_all BUF_SIZE (replicate 1024 0))) as Hz.
  { rewrite zero_all_spec by done. apply holds_nil. }
  constructor; cbn [t_screen typed stored erasable ready idle]; try done.
  - apply shows_set_dev, update_terminal_cursor_shows. destruct Hs as [Hx Hyy Hpos Htext Hattr].
    constructor; try done.
  - split; [cbn; lia|done].
  - split; [cbn; lia|done].
Qed.

Section startup.
Context `{PortIO D} (y : layout) (ns : list (list Z)) (lit : list Z → Z).
Context (conv ldt tss : Z) (Hy : tables_ok y) (Hsym : symbols_ok (paging_symbols y)).
Implicit Types (k : kernel D) (s : machine D).

(** The system descriptors, and what names them. *)
Record segments_ok s : Prop := {
  sg_ldt : ldtr s = KERNEL_LDT ∧ decode_segment (ldt_desc_ptr s) = Segment ldt 31 2 true 0 true true false;
  sg_tss : tr s = KERNEL_TSS ∧ decode_segment (tss_desc_ptr s) = Segment tss 103 0xB true 0 true false false;
  sg_task : ldt_segment_selector s = KERNEL_LDT ∧ ss0 s = KERNEL_DS
}.

(** The lines the boot opens: the slave controller's, the keyboard's and the clock's. *)
Definition opened (l : Z) : bool := (l =? 1) || (l =? 2) || (l =? 8).

(** The kernel when entry calls execute. *)
Record ready_kernel (start : Z) (k0 k : kernel D) : Prop := {
  rk_counter : counter k = counter k0;
  rk_files : kfs (term k) = mounted_fs start (kmem k0) (kfs (term k0));
  rk_memory : changes_only [window; (VIDEO, page_size); (conv, scratch_size)]
    (boot_mem y start (kmem k0)) (kmem k);
  rk_paging : paging_ok (pages k) ∧ mapped_by (paging_symbols y) (kernel_entries (paging_symbols y)) (pages k);
  rk_screen : represents (kcon (term k)) (kline (term k)) idle
}.

Lemma devices_ready mbi s k0 scr out args kf :
  let start := word k0 (mod_start (word k0 (mods_addr mbi))) in
  bootable y ns conv start (kmem k0) (kfs (term k0)) (lit SHELL) SHELL args kf →
  start ≠ word k0 (mod_end (word k0 (mods_addr mbi))) →
  clear_of conv (mods_addr mbi) 4 → clear_of conv (word k0 (mods_addr mbi)) 8 →
  told conv k0 scr out (kern s) → pic_ok (masks s) →
  ∃ k p, init_devices y mbi s =
      Ok (Machine k p (ldt_desc_ptr s) (tss_desc_ptr s) (ldtr s) (tr s) (ldt_segment_selector s) (ss0 s) true) ∧
    (pic_ok p ∧ ∀ l, 0 ≤ l < 16 → masked p l = if (l =? 2) || (l =? 8) then false else masked (masks s) l) ∧
    k = set_term (term k) k0 ∧ kfs (term k) = mounted_fs start (kmem k0) (kfs (term k0)) ∧
    kline (term k) = kline (term k0) ∧
    changes_only [(VIDEO, page_size); (conv, scratch_size)] (boot_mem y start (kmem k0)) (kmem k).
Proof.
  intros start Hboot Hne Hm1 Hm2 Ht Hpic. unfold init_devices. cbv zeta.
  set (s1 := on_ports (λ p d, (p, i8259_init d)) s).
  assert (∀ a, word (kern s1) a = word (kern s) a) as Hw by done. rewrite !Hw.
  rewrite (told_word conv k0 scr out _ _ Ht Hm1). set (a := word k0 (mods_addr mbi)) in *.
  rewrite !(told_word conv k0 scr out _ _ Ht) by (eapply clear_part; [exact Hm2|unfold mod_start, mod_end; lia..]).
  change (word k0 (mod_start a)) with start.
  pose proof Ht as [Ek Hp]. unfold fs_call.
  assert (kfs (term (kern s1)) = kfs (term k0)) as -> by (change (kfs (term (kern s)) = kfs (term k0)); by rewrite Ek).
  change (kmem (kern s1)) with (kmem (kern s)).
  destruct (mount_from y ns conv start (kmem k0) (kfs (term k0)) _ _ _ _ Hboot (kmem (kern s))
    (word k0 (mod_end a)) (told_kept _ _ _ _ _ Ht) Hne) as ([[m2 f2] v] & -> & -> & Hmem & _).
  rewrite !bind_Ok. set (k2 := set_kfs _ (set_mem m2 _)). unfold on_ports at 1.
  change (masks (set_kern k2 s1)) with (masks s). change (kern (set_kern k2 s1)) with k2.
  pose proof (rtc_init_masks (masks s) (dev (kcon (term k2))) Hpic) as Hrtc.
  destruct (rtc_init (masks s) (dev (kcon (term k2)))) as [p d]. cbn [fst] in Hrtc.
  eexists _, p. split; [reflexivity|]. split; [done|].
  split_and!; [|done| |exact Hmem].
  - unfold k2. change (kern s1) with (set_kcon (set_dev (i8259_init (dev (kcon (term (kern s))))) (kcon (term (kern s)))) (kern s)).
    rewrite Ek. by destruct k0.
  - change (kline (term (kern s)) = kline (term k0)). by rewrite Ek.
Qed.

Lemma memory_ready s :
  paging_ok (pages (kern s)) →
  ∃ k, init_memory y s =
      Ok (Machine k (masks s) (ldt_desc_ptr s) (tss_desc_ptr s) (ldtr s) (tr s) (ldt_segment_selector s) (ss0 s) true) ∧
    (paging_ok (pages k) ∧ mapped_by (paging_symbols y) (kernel_entries (paging_symbols y)) (pages k)) ∧
    k = set_mem (kmem k) (set_pages (pages k) (images k) (kern s)) ∧
    changes_only [window] (kmem (kern s)) (kmem k).
Proof.
  intros Hpg. destruct (init_paging_result (paging_symbols y) Hsym _ Hpg) as (pg & Epaging & Hpg' & Hmap & _).
  destruct (update_pages_spec y (init_paging (paging_symbols y)) (kern s) pg Epaging) as (k & E & Ek & Hsw).
  exists k. unfold init_memory. rewrite E, bind_Ok.
  assert (pages k = pg) as Epg by by rewrite Ek. rewrite Epg.
  split_and!; [done|done|done|exact Ek|exact (sw_rest _ _ _ _ Hsw)].
Qed.

Lemma terminal_ready s :
  pic_ok (masks s) → kline (term (kern s)) = empty_line →
  ∃ t p, init_terminal s =
      Machine (set_term t (kern s)) p (ldt_desc_ptr s) (tss_desc_ptr s) (ldtr s) (tr s) (ldt_segment_selector s)
        (ss0 s) (interrupt_flag s) ∧
    (pic_ok p ∧ ∀ l, 0 ≤ l < 16 → masked p l = if l =? 1 then false else masked (masks s) l) ∧
    represents (kcon t) (kline t) idle ∧ kfs t = kfs (term (kern s)) ∧
    changes_only [(VIDEO, page_size)] (kmem (kern s)) (vmem (kcon t)).
Proof.
  intros Hp Hl. unfold init_terminal. set (c := clear_screen (kcon (term (kern s)))). set (k := set_kcon c (kern s)).
  pose proof (clear_shows (Con (vmem (kcon (term (kern s)))) 0 0 (dev (kcon (term (kern s)))))) as Hclear.
  change (clear (Con _ 0 0 _)) with c in Hclear. destruct Hclear as [Hblank Hout].
  pose proof (keyboard_init_idle (masks s) (term k) Hp Hl Hblank) as Hkb.
  destruct (keyboard_init (masks s) (term k)) as [p t]. destruct Hkb as (Hm & Hrep & Hv & Hf & _).
  exists t, p. split_and!; [done|apply Hm|apply Hm|done|done|].
  rewrite Hv. intros a Ha. apply Forall_cons in Ha as [Ha _]. apply Hout. exact Ha.
Qed.

Lemma initialised w_ldt w_tss mbi esp ebp s k0 scr out args kf :
  let start := word k0 (mod_start (word k0 (mods_addr mbi))) in
  bootable y ns conv start (kmem k0) (kfs (term k0)) (lit SHELL) SHELL args kf →
  start ≠ word k0 (mod_end (word k0 (mods_addr mbi))) →
  clear_of conv (mods_addr mbi) 4 → clear_of conv (word k0 (mods_addr mbi)) 8 →
  told conv k0 scr out (kern s) → kline (term k0) = empty_line → paging_ok (pages k0) → pic_ok (masks s) →
  ∃ k p, ready_kernel start k0 k ∧
    (pic_ok p ∧ ∀ l, 0 ≤ l < 16 → masked p l = if opened l then false else masked (masks s) l) ∧
    start_kernel y lit ldt tss w_ldt w_tss mbi esp ebp s =
      ('(k', c) ← execute y esp ebp (lit SHELL) k;
       Ok (Machine k' p (the_ldt_desc ldt w_ldt) (set_bits 41 1 1 (the_tss_desc tss w_tss)) KERNEL_LDT KERNEL_TSS
             KERNEL_LDT KERNEL_DS (flag_after c true), left_by c)).
Proof.
  intros start Hboot Hne Hm1 Hm2 Ht Hline Hpg Hpic. unfold start_kernel.
  set (s1 := init_tss tss w_tss (init_ldt ldt w_ldt s)). set (k1 := set_esp0 0x800000 k0).
  assert (told conv k1 scr out (kern s1)) as Ht1.
  { destruct Ht as [Ek Hp]. split; [|exact Hp]. change (kern s1) with (set_esp0 0x800000 (kern s)). by rewrite Ek. }
  destruct (devices_ready mbi s1 k1 scr out args kf Hboot Hne Hm1 Hm2 Ht1 Hpic)
    as (k2 & p2 & -> & [Hp2 Hmask2] & Ek2 & Ef2 & El2 & Hmem2).
  rewrite bind_Ok. set (s2 := Machine k2 p2 _ _ _ _ _ _ _).
  assert (pages k2 = pages k0) as Epg by by rewrite Ek2.
  destruct (memory_ready s2) as (k3 & -> & Hpg3 & Ek3 & Hmem3); [by cbn [kern s2]; rewrite Epg|].
  rewrite bind_Ok. set (s3 := Machine k3 _ _ _ _ _ _ _ _).
  assert (kline (term k3) = empty_line) as El by (rewrite Ek3; change (kline (term k2) = empty_line); by rewrite El2).
  destruct (terminal_ready s3 Hp2 El) as (t & p & -> & [Hp Hmask] & Hrep & Ef & Hmem).
  exists (set_term t k3), p. split_and!; [|done| |done].
  - constructor; [| | |exact Hpg3|exact Hrep].
    + change (counter k3 = counter k0). rewrite Ek3. change (counter k2 = counter k0). by rewrite Ek2.
    + change (kfs t = mounted_fs start (kmem k0) (kfs (term k0))). rewrite Ef. change (kern s3) with k3.
      rewrite Ek3. exact Ef2.
    + apply (changes_only_trans _ _ (kmem k2)).
      { eapply changes_only_mono; [exact Hmem2|]. intros r Hr. by right. }
      apply (changes_only_trans _ _ (kmem k3)).
      { eapply changes_only_mono; [exact Hmem3|]. intros r Hr. apply list_elem_of_singleton in Hr as ->. by left. }
      eapply changes_only_mono; [exact Hmem|]. intros r Hr. apply list_elem_of_singleton in Hr as ->. right. by left.
  - intros l Hl. rewrite Hmask, Hmask2 by done. unfold opened. by destruct (l =? 1), (l =? 2), (l =? 8).
Qed.
End startup.

(** ** entry *)

(** The kernel once entry has cleared the screen. *)
Definition cleared {D} (k : kernel D) : kernel D := set_kcon (clear (kcon (term k))) k.

Section boot.
Context `{PortIO D} (y : layout) (ns : list (list Z)) (lit : list Z → Z).
Context (conv ldt tss : Z) (w_ldt w_tss esp ebp addr : Z) (s : machine D) (cmd entries : list Z).

Local Notation k0 := (cleared (kern s)).
Local Notation flags := (word k0 (mbi_flags addr)).

(** What entry can print of what the loader left. *)
Record loaded : Prop := {
  ld_conv : disjoint_regions VIDEO page_size conv scratch_size;
  ld_texts : Forall (literal_ok conv lit (kmem k0)) boot_texts;
  ld_info : clear_of conv addr 52;
  ld_parts : info_ok conv k0 addr cmd entries
}.
Context (Hld : loaded).

Lemma cleared_told : told conv k0 blank_screen [] k0.
Proof. apply told_start. exact (proj1 (clear_shows (kcon (term (kern s))))). Qed.

Lemma entry_reports :
  entry y lit conv ldt tss w_ldt w_tss esp ebp MULTIBOOT_BOOTLOADER_MAGIC addr s =
    (if CHECK_FLAG flags 4 && CHECK_FLAG flags 5 then
       k ← (k ← report_head lit conv addr k0; tell lit conv BOTH_BITS [] k); Ok (set_kern k s, Back)
     else
       k ← (k ← report_head lit conv addr k0; report_tail lit conv addr k);
       start_kernel y lit ldt tss w_ldt w_tss addr esp ebp (set_kern k s)).
Proof.
  destruct Hld as [Hdis Hlit Hmbi Hinfo]. unfold entry.
  change (negb (MULTIBOOT_BOOTLOADER_MAGIC =? MULTIBOOT_BOOTLOADER_MAGIC)) with false. cbv iota zeta.
  destruct (head_tells lit conv k0 blank_screen Hdis Hlit addr Hmbi cmd entries Hinfo [] k0 cleared_told)
    as (k1 & E1 & Ht1). fold (cleared (kern s)). rewrite E1, !bind_Ok.
  rewrite (flags_field conv k0 blank_screen addr Hmbi _ _ Ht1). by destruct (_ && _).
Qed.

(** The state in which entry leaves for the shell. *)
Record shell_entered (start : Z) (args file : list Z) (s' : machine D) : Prop := {
  se_counter : counter (kern s') = 1;
  se_shell : shell_entry_addr (kern s') = entry_of file;
  se_stack : tss_esp0 (kern s') = kernel_stack 1;
  se_image : bytes (kmem (kern s')) PROGRAM_STARTING_ADDR (zlen file) = file;
  se_block : process_block y 1 0 esp ebp args (kmem (kern s'));
  se_pages v : 0 ≤ v < 4294967296 → translate (paging_symbols y) (pages (kern s')) v = user_map 1 v;
  se_files : exec_mem y ns 0 (kmem (kern s')) (kfs (term (kern s'))) ∧
    fs_same (mounted_fs start (kmem k0) (kfs (term k0))) (kfs (term (kern s')));
  se_terminal : represents (kcon (term (kern s'))) (kline (term (kern s'))) idle;
  se_segments : segments_ok ldt tss s';
  se_flag : interrupt_flag s' = false;
  se_lines l : 0 ≤ l < 16 → masked (masks s') l = if opened l then false else masked (masks s) l
}.

Lemma boot_reaches args kf :
  let mods := word k0 (mods_addr addr) in
  let start := word k0 (mod_start mods) in
  tables_ok y → symbols_ok (paging_symbols y) → 0 ≤ ldt < 4294967296 → 0 ≤ tss < 4294967296 →
  0 ≤ esp < 4294967296 → 0 ≤ ebp < 4294967296 →
  CHECK_FLAG flags 4 && CHECK_FLAG flags 5 = false →
  clear_of conv mods 8 → start ≠ word k0 (mod_end mods) →
  bootable y ns conv start (kmem k0) (kfs (term k0)) (lit SHELL) SHELL args kf →
  kline (term (kern s)) = empty_line → counter (kern s) = 0 → paging_ok (pages (kern s)) → pic_ok (masks s) →
  let file := content (boot_mem y start (kmem k0)) (mounted_fs start (kmem k0) (kfs (term k0))) kf in
  returns (entry y lit conv ldt tss w_ldt w_tss esp ebp MULTIBOOT_BOOTLOADER_MAGIC addr s) (λ '(s', e),
    e = Program (user_frame (entry_of file)) ∧ shell_entered start args file s').
Proof.
  intros mods start Hy Hsym Hldt Htss Hesp Hebp Hexcl Hmods Hne Hboot Hline Hcnt Hpg Hpic file.
  pose proof Hld as [Hdis Hlit Hmbi Hinfo]. rewrite entry_reports, Hexcl.
  destruct (head_tells lit conv k0 blank_screen Hdis Hlit addr Hmbi cmd entries Hinfo [] k0 cleared_told)
    as (k1 & E1 & Ht1). rewrite E1, bind_Ok.
  destruct (tail_tells lit conv k0 blank_screen Hdis Hlit addr Hmbi cmd entries Hinfo _ k1 Ht1)
    as (k2 & E2 & Ht2). rewrite E2, bind_Ok.
  destruct (initialised y ns lit conv ldt tss Hsym w_ldt w_tss addr esp ebp (set_kern k2 s) k0 blank_screen
    _ args kf Hboot Hne ltac:(eapply clear_part; [exact Hmbi|unfold mods_addr; lia..]) Hmods Ht2 Hline Hpg Hpic)
    as (k & p & [Hkc Hkf Hkm [Hkp _] Hkr] & [_ Hlines] & ->).
  change (word k0 (mod_start (word k0 (mods_addr addr)))) with start in Hkf, Hkm.
  destruct (boot_runnable _ _ _ _ _ _ _ _ _ _ Hboot (kmem k) Hkm) as [Hrun Hcont].
  change (content (kmem k) (mounted_fs start (kmem k0) (kfs (term k0))) kf = file) in Hcont.
  rewrite <- Hkf in Hrun, Hcont.
  pose proof Hrun as [Hem Hc0 Hname Hargs Hshort Hloc Hfound Hx].
  assert (command_ok y ns 0 (lit SHELL) SHELL args k) as Hco.
  { constructor; [|exact Hc0|exact Hem|exact Hname|exact Hargs|exact Hshort|exact Hloc].
    rewrite Hkc. split; [exact Hcnt|lia]. }
  destruct (execute_enters y ns 0 (lit SHELL) SHELL kf args esp ebp k Hy Hsym Hco Hfound Hx Hkp Hesp Hebp)
    as ([k' c] & E & -> & Hst & Hmap).
  { intros Hz. destruct Hz. rewrite Hkc. exact Hcnt. }
  rewrite E, bind_Ok. apply returns_Ok. rewrite Hcont in Hst |- *.
  split; [reflexivity|].
  destruct Hst as [Hc Hsh _ He0 _ _ _ Him Hbl _ Hmem Hfs (_ & Hl & Hcon)].
  assert (window :: (pcb_at 1, 1424) :: exec_locals y ⊆ window :: drop 5 (exec_regions y (kmem k) (kfs (term k)) 0))
    as Hsub.
  { intros r [->|[->|Hr]%elem_of_cons]%elem_of_cons; [by left| |by apply exec_locals_sub].
    right. unfold exec_regions, fs_regions. cbn. do 6 right. by left. }
  constructor; cbn [kern masks ldt_desc_ptr tss_desc_ptr ldtr tr ldt_segment_selector ss0 interrupt_flag].
  - exact Hc.
  - rewrite Hsh. reflexivity.
  - exact He0.
  - exact Him.
  - exact Hbl.
  - exact Hmap.
  - split; [|by rewrite <- Hkf]. apply (exec_mem_same y ns 0 _ (kfs (term k))); [exact Hfs|].
    by apply (exec_mem_kept y ns 0 _ _ _ _ Hem Hmem Hsub).
  - apply (represents_mem k k' (kmem k') _ idle Hkr Hmem); [|exact Hcon|exact Hl].
    pose proof (Forall_drop _ 5 _ (bt_video _ _ _ _ _ _ _ _ _ _ Hboot)) as Hv. rewrite Forall_forall in Hv |- *.
    intros r [->|Hr]%Hsub%elem_of_cons; [|by apply Hv]. unfold apart, disjoint_regions, window, VIDEO, page_size, USER_PROG_START. cbn. lia.
  - constructor; cbn; (split; [done|]); [by apply the_ldt_reads|by apply the_tss_reads|done].
  - done.
  - exact Hlines.
Qed.
(** The two ways back to boot.S. *)
Lemma wrong_magic_tells magic :
  disjoint_regions VIDEO page_size conv scratch_size → literal_ok conv lit (kmem k0) INVALID_MAGIC →
  magic ≠ MULTIBOOT_BOOTLOADER_MAGIC → 0 ≤ magic < 4294967296 →
  returns (entry y lit conv ldt tss w_ldt w_tss esp ebp magic addr s) (λ '(s', e), e = Back ∧
    ∃ k, s' = set_kern k s ∧
      told conv k0 blank_screen (codes "Invalid magic number: 0x" ++ hex8 magic ++ [10]) k).
Proof.
  intros Hdis Hlit Hm Hr. unfold entry. rewrite (proj2 (Z.eqb_neq _ _)) by done. cbn [negb].
  fold (cleared (kern s)). unfold tell. eapply returns_bind.
  { eapply returns_bind.
    - apply (say_prints conv lit INVALID_MAGIC [magic] (codes "Invalid magic number: 0x" ++ hex8 magic ++ [10])
        (kcon (term k0)) blank_screen Hdis); [exact (proj1 (clear_shows (kcon (term (kern s)))))|exact Hlit|by_decide|].
      apply (formats_plain _ _ (codes "Invalid magic number: 0x")); [by_decide|]. apply formats_hex8; [done|].
      apply plain_formats. by_decide.
    - intros c Hc. apply returns_Ok.
      exact (conj eq_refl Hc : told conv k0 blank_screen _ (set_kcon c k0)). }
  intros k Hk. apply returns_Ok. split; [done|]. by exists k.
Qed.

Lemma exclusive_bits_tell :
  CHECK_FLAG flags 4 && CHECK_FLAG flags 5 = true →
  returns (entry y lit conv ldt tss w_ldt w_tss esp ebp MULTIBOOT_BOOTLOADER_MAGIC addr s) (λ '(s', e), e = Back ∧
    ∃ k, s' = set_kern k s ∧ told conv k0 blank_screen (head_text k0 addr cmd ++ BOTH_BITS) k).
Proof.
  intros Hexcl. rewrite entry_reports, Hexcl. destruct Hld as [Hdis Hlit Hmbi Hinfo].
  destruct (head_tells lit conv k0 blank_screen Hdis Hlit addr Hmbi cmd entries Hinfo [] k0 cleared_told)
    as (k1 & E1 & Ht1). rewrite E1, bind_Ok.
  destruct (constant_tells lit conv k0 blank_screen Hdis Hlit BOTH_BITS ltac:(by_decide) ltac:(by_decide) _ k1 Ht1)
    as (k2 & E2 & Ht2). rewrite E2, bind_Ok. apply returns_Ok.
  rewrite app_nil_l in Ht2. split; [reflexivity|]. exists k2. split; [reflexivity|exact Ht2].
Qed.
End boot.

(** The manual test of kernel.c does what it announces: the read through the
    null pointer has no mapping. *)
Lemma test_paging_faults {D} y lit conv (k0 : kernel D) scr :
  disjoint_regions VIDEO page_size conv scratch_size → Forall (literal_ok conv lit (kmem k0)) boot_texts →
  shows (kcon (term k0)) scr →
  mapped_by (paging_symbols y) (kernel_entries (paging_symbols y)) (pages k0) → symbols_ok (paging_symbols y) →
  returns (test_paging y lit conv k0) (λ '(k, v), v = None ∧ told conv k0 scr (PAGE_TEST ++ EXPECTED) k).
Proof.
  intros Hdis Hlit Hs Hm Hsym. pose proof (told_start conv k0 scr Hs) as Ht0. unfold test_paging.
  destruct (constant_tells lit conv k0 scr Hdis Hlit PAGE_TEST ltac:(by_decide) ltac:(by_decide) _ k0 Ht0)
    as (k1 & -> & Ht1). rewrite bind_Ok.
  destruct (constant_tells lit conv k0 scr Hdis Hlit EXPECTED ltac:(by_decide) ltac:(by_decide) _ k1 Ht1)
    as (k2 & -> & Ht2). rewrite bind_Ok. apply returns_Ok. split; [|by rewrite app_nil_l in Ht2].
  destruct Ht2 as [Ek _]. assert (pages k2 = pages k0) as -> by by rewrite Ek.
  by rewrite (kernel_mapped _ _ _ Hm).
Qed.

(** ** Properties *)

(** C9: the boot, from the loader to the shell.  Entered with the loader's magic
    number, flags without the two exclusive bits, readable information and a
    module that is a file system with an executable file named shell, entry
    ends in that program: process 1, loaded whole at its address, entered with
    user segments at the address its header names, on the page mapping of
    process 1, with a control block without parent, and the kernel's stack in
    the task's segment.  By then the file system is the module, the screen is
    blank with the line editor idle, the LDT and the task's descriptor are in
    the descriptor table and loaded, the interrupt lines of the keyboard, the
    clock and the second controller are open and no other line changed; and
    interrupts are off. *)
Theorem boot_enters_shell `{PortIO D} y ns lit conv ldt tss w_ldt w_tss esp ebp addr (s : machine D)
    cmd entries args kf :
  let k0 := cleared (kern s) in
  let mods := word k0 (mods_addr addr) in
  let start := word k0 (mod_start mods) in
  loaded lit conv addr s cmd entries →
  tables_ok y → symbols_ok (paging_symbols y) → 0 ≤ ldt < 4294967296 → 0 ≤ tss < 4294967296 →
  0 ≤ esp < 4294967296 → 0 ≤ ebp < 4294967296 →
  CHECK_FLAG (word k0 (mbi_flags addr)) 4 && CHECK_FLAG (word k0 (mbi_flags addr)) 5 = false →
  clear_of conv mods 8 → start ≠ word k0 (mod_end mods) →
  bootable y ns conv start (kmem k0) (kfs (term k0)) (lit SHELL) SHELL args kf →
  kline (term (kern s)) = empty_line → counter (kern s) = 0 → paging_ok (pages (kern s)) → pic_ok (masks s) →
  let file := content (boot_mem y start (kmem k0)) (mounted_fs start (kmem k0) (kfs (term k0))) kf in
  returns (entry y lit conv ldt tss w_ldt w_tss esp ebp MULTIBOOT_BOOTLOADER_MAGIC addr s) (λ '(s', e),
    e = Program (user_frame (entry_of file)) ∧ shell_entered y ns ldt tss esp ebp s start args file s').
Proof.
  intros k0 mods start Hld. intros.
  by apply (boot_reaches y ns lit conv ldt tss w_ldt w_tss esp ebp addr s cmd entries Hld).
Qed.

(** A machine as the loader leaves it: the image of Execute.v as the only
    module, its program under the name shell, one entry in the memory map. *)
Definition boot_names : list (list Z) := SHELL :: replicate 62 [].

Definition boot_place (s : list Z) : Z :=
  0x30000 + 128 * match list_find (λ t, t = s) (SHELL :: boot_texts) with Some (i, _) => Z.of_nat i | None => 0 end.

Definition boot_mbi : Z := 0x9000.

Definition put_info (m : mem) : mem :=
  let m := wr32 (wr32 (wr32 m boot_mbi 0x4F) (mem_lower boot_mbi) 639) (mem_upper boot_mbi) 64448 in
  let m := wr32 (wr32 m (boot_device boot_mbi) 0x8000FFFF) (cmdline boot_mbi) 0x9200 in
  let m := wr32 (wr32 m (mods_count boot_mbi) 1) (mods_addr boot_mbi) 0x9100 in
  let m := wr32 (wr32 m (mmap_length boot_mbi) 24) (mmap_addr boot_mbi) 0x9300 in
  let m := wr32 (wr32 m (mod_start 0x9100) 0x10000) (mod_end 0x9100) 0x13000 in
  let m := wr_bytes m 0x9200 (codes "/bootimg" ++ [0]) in
  wr32 (wr32 (wr32 m (map_size 0x9300) 20) (length_low 0x9300) 0x9FC00) (map_type 0x9300) 1.

(** What boot.S leaves on the loader's stack, and the arguments it pushes. *)
Definition put_stacks (m : mem) : mem :=
  let m := wr32 (wr32 (wr32 (wr32 m 0x6FFC 0) 0x6FF8 0) 0x6FF4 MULTIBOOT_BOOTLOADER_MAGIC) 0x6FF0 0x400030 in
  wr32 (wr32 (wr32 m 0x7FFFFC boot_mbi) 0x7FFFF8 MULTIBOOT_BOOTLOADER_MAGIC) 0x7FFFF4 0x400060.

Definition loader_mem : mem :=
  foldr (λ s m, wr_bytes m (boot_place s) (s ++ [0]))
    (put_stacks (put_info (demo_literals (wr_bytes exec_disk 0x10040 (SHELL ++ [0]))))) (SHELL :: boot_texts).

Definition loader_machine : machine trace :=
  Machine (Kernel (Kb (Con loader_mem 0 0 silent) demo_globals no_mods empty_line 0) boot_paging ∅ 0 0 0 0 0)
    pic0 0 0 0 0 0 0 false.

Definition loader_kernel : kernel trace := cleared (kern loader_machine).
Definition loader_boot_mem : mem := boot_mem demo_layout 0x10000 (kmem loader_kernel).
Definition loader_fs : fs := mounted_fs 0x10000 (kmem loader_kernel) demo_globals.

Lemma loader_loaded : loaded boot_place 0x7FFB40 boot_mbi loader_machine (codes "/bootimg") [0x9300].
Proof.
  constructor; [unfold disjoint_regions; by_decide|by_decide|unfold clear_of, disjoint_regions; by_decide|].
  constructor; intros _.
  - split_and!; [by_decide|by_decide|unfold clear_of, disjoint_regions; by_decide].
  - constructor; [split; [unfold clear_of, disjoint_regions; by_decide|by_decide]|].
    assert (word (cleared (kern loader_machine)) (mods_count boot_mbi) = 1) as -> by by_decide.
    intros i Hi. replace i with 0 by lia. split; [unfold clear_of, disjoint_regions; by_decide|by_decide].
  - assert (word (cleared (kern loader_machine)) (mmap_addr boot_mbi) = 0x9300) as -> by by_decide.
    apply Walk_entry; [by_decide|unfold clear_of, disjoint_regions; by_decide|by_decide|].
    apply Walk_end. by_decide.
Qed.

Lemma loader_runnable :
  runnable demo_layout boot_names (boot_place SHELL) SHELL [] 0 loader_boot_mem loader_fs.
Proof.
  constructor; [|by_decide|by_decide|by_decide|by_decide|by_decide| |split; [by_decide|reflexivity]].
  - constructor; [apply one_inode_fs|..]; by_decide.
  - split; [cbn; lia|]. exists 0%nat. split; [reflexivity|by_decide].
Qed.

Lemma loader_bootable :
  bootable demo_layout boot_names 0x7FFB40 0x10000 (kmem loader_kernel) demo_globals (boot_place SHELL) SHELL [] 0.
Proof. constructor; [exact loader_runnable|lia|..]; by_decide. Qed.

Lemma boot_enters_shell_witness :
  returns (@entry trace _ demo_layout boot_place 0x7FFB40 0x450000 0x451000 77 88 0x7FFF00 0x7FFF40
      MULTIBOOT_BOOTLOADER_MAGIC boot_mbi loader_machine) (λ '(s', e),
    e = Program (user_frame 0x08048094) ∧
    shell_entered demo_layout boot_names 0x450000 0x451000 0x7FFF00 0x7FFF40 loader_machine 0x10000 []
      exec_content s').
Proof.
  assert (word loader_kernel (mods_addr boot_mbi) = 0x9100) as Em by by_decide.
  assert (word loader_kernel (mod_start 0x9100) = 0x10000) as Es by by_decide.
  assert (content loader_boot_mem loader_fs 0 = exec_content) as Ec by by_decide.
  pose proof (@boot_enters_shell trace _ demo_layout boot_names boot_place 0x7FFB40 0x450000 0x451000
    77 88 0x7FFF00 0x7FFF40 boot_mbi loader_machine (codes "/bootimg") [0x9300] [] 0) as Hx.
  fold loader_kernel in Hx. cbv zeta in Hx. rewrite Em, Es in Hx.
  specialize (Hx loader_loaded demo_tables_ok boot_symbols_ok ltac:(lia) ltac:(lia) ltac:(lia) ltac:(lia)
    ltac:(by_decide) ltac:(unfold clear_of, disjoint_regions; by_decide) ltac:(by_decide) loader_bootable
    eq_refl eq_refl boot_paging_ok ltac:(by_decide)).
  change (mounted_fs 0x10000 (kmem loader_kernel) (kfs (term loader_kernel))) with loader_fs in Hx.
  fold loader_boot_mem in Hx. rewrite Ec in Hx. exact Hx.
Defined.

(** C10: the boot that is refused, and what is printed, by a loader that passes a
    well-formed multiboot structure (also where its magic number is another).
    With another magic number entry prints it and goes back to boot.S, which halts; with both exclusive
    bits it prints the report up to them and the complaint and goes back; in
    either case nothing but the screen and printf's buffer changes.  Otherwise
    the report is, part by part as the flags ask for it, the flags, the memory
    sizes, the boot device, the command line, each module with its first 16
    bytes, the section table and each entry of the memory map; and entry goes
    on from the kernel that has only printed it. *)
Theorem boot_report `{PortIO D} y lit conv ldt tss w_ldt w_tss esp ebp addr (s : machine D) cmd entries magic :
  let k0 := cleared (kern s) in
  loaded lit conv addr s cmd entries → 0 ≤ magic < 4294967296 →
  let both := CHECK_FLAG (word k0 (mbi_flags addr)) 4 && CHECK_FLAG (word k0 (mbi_flags addr)) 5 in
  let boot := entry y lit conv ldt tss w_ldt w_tss esp ebp magic addr s in
  if negb (magic =? MULTIBOOT_BOOTLOADER_MAGIC) then
    returns boot (λ '(s', e), e = Back ∧ ∃ k, s' = set_kern k s ∧
      told conv k0 blank_screen (codes "Invalid magic number: 0x" ++ hex8 magic ++ [10]) k)
  else if both then
    returns boot (λ '(s', e), e = Back ∧ ∃ k, s' = set_kern k s ∧
      told conv k0 blank_screen (head_text k0 addr cmd ++ BOTH_BITS) k)
  else
    ∃ k, told conv k0 blank_screen (head_text k0 addr cmd ++ tail_text k0 addr entries) k ∧
      boot = start_kernel y lit ldt tss w_ldt w_tss addr esp ebp (set_kern k s).
Proof.
  intros k0 Hld Hr both boot. pose proof Hld as [Hdis Hlit Hmbi Hinfo]. unfold boot.
  destruct (Z.eqb_spec magic MULTIBOOT_BOOTLOADER_MAGIC) as [->|Hne]; cbn [negb].
  2:{ apply wrong_magic_tells; [done| |done|done]. rewrite Forall_forall in Hlit. apply Hlit. by_decide. }
  destruct both eqn:Eb; [by apply (exclusive_bits_tell y lit conv ldt tss w_ldt w_tss esp ebp addr s cmd entries)|].
  rewrite (entry_reports y lit conv ldt tss w_ldt w_tss esp ebp addr s cmd entries Hld). fold k0 both. rewrite Eb.
  destruct (head_tells lit conv k0 blank_screen Hdis Hlit addr Hmbi cmd entries Hinfo [] k0
    (cleared_told conv s)) as (k1 & E1 & Ht1).
  destruct (tail_tells lit conv k0 blank_screen Hdis Hlit addr Hmbi cmd entries Hinfo _ k1 Ht1) as (k2 & E2 & Ht2).
  rewrite E1, bind_Ok, E2, bind_Ok. rewrite app_nil_l in Ht2. exists k2. split; [exact Ht2|reflexivity].
Qed.

(** The report of the machine above, and its boot by something else. *)
Definition loader_report : list Z :=
  codes "flags = 0x0000004F" ++ [10] ++ codes "mem_lower = 639KB, mem_upper = 64448KB" ++ [10] ++
  codes "boot_device = 0x8000FFFF" ++ [10] ++ codes "cmdline = /bootimg" ++ [10] ++
  codes "Module 0 loaded at address: 0x00010000" ++ [10] ++ codes "Module 0 ends at address: 0x00013000" ++ [10] ++
  codes "First few bytes of module:" ++ [10] ++
  codes "0x1 0x0 0x0 0x0 0x1 0x0 0x0 0x0 0x1 0x0 0x0 0x0 0x0 0x0 0x0 0x0 " ++ [10] ++
  codes "mmap_addr = 0x00009300, mmap_length = 0x18" ++ [10] ++
  codes " size = 0x14,     base_addr = 0x0000000000000000" ++ [10] ++
  codes "     type = 0x1,  length    = 0x000000000009FC00" ++ [10].

Lemma boot_report_witness :
  (∃ k, told 0x7FFB40 loader_kernel blank_screen loader_report k ∧
    entry demo_layout boot_place 0x7FFB40 0x450000 0x451000 77 88 0x7FFF00 0x7FFF40 MULTIBOOT_BOOTLOADER_MAGIC boot_mbi
      loader_machine =
    start_kernel demo_layout boot_place 0x450000 0x451000 77 88 boot_mbi 0x7FFF00 0x7FFF40
      (set_kern k loader_machine)) ∧
  returns (entry demo_layout boot_place 0x7FFB40 0x450000 0x451000 77 88 0x7FFF00 0x7FFF40 0x1BADB002 boot_mbi
      loader_machine) (λ '(s', e), e = Back ∧ ∃ k, s' = set_kern k loader_machine ∧
    told 0x7FFB40 loader_kernel blank_screen (codes "Invalid magic number: 0x1BADB002" ++ [10]) k).
Proof.
  assert (head_text loader_kernel boot_mbi (codes "/bootimg") ++ tail_text loader_kernel boot_mbi [0x9300]
    = loader_report) as Er by by_decide.
  assert (CHECK_FLAG (word loader_kernel (mbi_flags boot_mbi)) 4 &&
    CHECK_FLAG (word loader_kernel (mbi_flags boot_mbi)) 5 = false) as Ef by by_decide.
  split.
  - pose proof (boot_report demo_layout boot_place 0x7FFB40 0x450000 0x451000 77 88 0x7FFF00 0x7FFF40 boot_mbi
      loader_machine (codes "/bootimg") [0x9300] MULTIBOOT_BOOTLOADER_MAGIC loader_loaded ltac:(by_decide)) as Hx.
    fold loader_kernel in Hx. rewrite Ef in Hx.
    change (negb (MULTIBOOT_BOOTLOADER_MAGIC =? MULTIBOOT_BOOTLOADER_MAGIC)) with false in Hx.
    cbv iota in Hx. rewrite Er in Hx. exact Hx.
  - exact (boot_report demo_layout boot_place 0x7FFB40 0x450000 0x451000 77 88 0x7FFF00 0x7FFF40 boot_mbi
      loader_machine (codes "/bootimg") [0x9300] 0x1BADB002 loader_loaded ltac:(lia)).
Defined.
