(* ===== verification/Start.v ===== *)
(** * boot.S and x86_desc.S: from the loader to entry

    The descriptor table of x86_desc.S, the processor's rules for loading a
    segment register, and the instructions of boot.S over the registers, with
    the calls of IDT_init and entry. *)

From stdpp Require Import functions.
From S2P Require Import Prelude Memory LibString Bits Ports Pic Rtc Console Printing Keyboard Paging FileSys FsScreen.
From S2P Require Import Process Syscall Descriptors ReadWrite Calls Idt Exec ExecSpec ExecProps Execute Entry Boot Startup.

(** ** The descriptor table

    The words of x86_desc.S in front of the two that entry fills in. *)
Definition gdt_words : list Z :=
  [ 0; 0; 0x00CF9A000000FFFF; 0x00CF92000000FFFF; 0x00CFFA000000FFFF; 0x00CFF2000000FFFF ].
Definition gdt_limit := 8 * 8 - 1.

(** A segment register: the selector, and the descriptor the processor keeps. *)
Record sreg := SReg { sel : Z; hidden : segment }.

Inductive reg := EAX | EBX | ECX | EDX | ESP.
Inductive seg_reg := CS | SS | DS | ES | FS | GS.

#[export] Instance reg_eq_dec : EqDecision reg.
Proof. solve_decision. Defined.
#[export] Instance seg_reg_eq_dec : EqDecision seg_reg.
Proof. solve_decision. Defined.

Record boot_state (D : Type) := BootState {
  mach : machine D;
  table : idt_state;
  gdtr : Z * Z;                    (* limit and base *)
  gdt_low : list Z;                (* [gdt_words], as the processor marks them *)
  regs : reg → Z;
  segs : seg_reg → sreg
}.
Arguments BootState {D} _ _ _ _ _ _.
Arguments mach {D} _.
Arguments table {D} _.
Arguments gdtr {D} _.
Arguments gdt_low {D} _.
Arguments regs {D} _ _.
Arguments segs {D} _ _.

Definition gdt {D} (s : boot_state D) : list Z :=
  gdt_low s ++ [tss_desc_ptr (mach s); ldt_desc_ptr (mach s)].

(** ** The processor's view *)

(** The descriptor of a selector: not the null one, in the table, present. *)
Definition select {D} (s : boot_state D) (x : Z) : option segment :=
  if (Z.land x 4 =? 0) && negb (x / 8 =? 0) && (x / 8 * 8 + 7 <=? fst (gdtr s)) then
    w ← gdt s !! Z.to_nat (x / 8);
    let g := decode_segment w in if sg_present g then Some g else None
  else None.

Definition is_code (g : segment) : bool := negb (sg_system g) && Z.testbit (sg_type g) 3.
Definition is_writable (g : segment) : bool :=
  negb (sg_system g) && negb (Z.testbit (sg_type g) 3) && Z.testbit (sg_type g) 1.

(** A segment of all 4 GB. *)
Definition flat (type dpl : Z) : segment := Segment 0 0xFFFFF type false dpl true true true.

(** The processor marks a descriptor it loads. *)
Definition mark_accessed {D} (x : Z) (s : boot_state D) : boot_state D :=
  BootState (mach s) (table s) (gdtr s) (alter (set_bits 40 1 1) (Z.to_nat (x / 8)) (gdt_low s)) (regs s) (segs s).

Definition set_reg {D} (r : reg) (v : Z) (s : boot_state D) : boot_state D :=
  BootState (mach s) (table s) (gdtr s) (gdt_low s) (<[r := v]> (regs s)) (segs s).
Definition set_seg {D} (r : seg_reg) (g : sreg) (s : boot_state D) : boot_state D :=
  BootState (mach s) (table s) (gdtr s) (gdt_low s) (regs s) (<[r := g]> (segs s)).
Definition set_mach {D} (m : machine D) (s : boot_state D) : boot_state D :=
  BootState m (table s) (gdtr s) (gdt_low s) (regs s) (segs s).

(** Where an interrupt through vector [c] arrives, the level it runs at, and
    whether interrupts are off there. *)
Definition interrupt_entry {D} (s : boot_state D) (c : Z) : option (Z * Z * bool) :=
  g ← vector (table s) c;
  t ← select s (selector g);
  if is_code t then Some (u32 (sg_base t + offset g), sg_dpl t, clears_if g) else None.

(** ** The instructions boot.S uses, at privilege level 0 *)

Section operations.
Context `{PortIO D}.
Implicit Types s : boot_state D.

Definition bmem s : mem := kmem (kern (mach s)).
Definition set_bmem (m : mem) s : boot_state D := set_mach (set_kern (set_mem m (kern (mach s))) (mach s)) s.

Definition cli s : boot_state D := set_mach (set_flag false (mach s)) s.

Definition lgdt (limit base : Z) s : boot_state D :=
  BootState (mach s) (table s) (limit, base) (gdt_low s) (regs s) (segs s).

(** The linear address of what is [i] bytes up the stack. *)
Definition stack_at (i : Z) s : Z := u32 (sg_base (hidden (segs s SS)) + u32 (regs s ESP + i)).

Definition pushl (v : Z) s : boot_state D :=
  let s := set_reg ESP (u32 (regs s ESP - 4)) s in set_bmem (wr32 (bmem s) (stack_at 0 s) v) s.
Definition popl (r : reg) s : boot_state D :=
  let v := rd32 (bmem s) (stack_at 0 s) in set_reg r v (set_reg ESP (u32 (regs s ESP + 4)) s).

(** A far jump inside the program, and a move to a segment register by the
    rules of SS, which imply those of the others; [None] is a fault. *)
Definition ljmp (x : Z) s : option (boot_state D) :=
  g ← select s x;
  if is_code g && (sg_dpl g =? 0) && (Z.land x 3 =? 0) then Some (set_seg CS (SReg x g) (mark_accessed x s)) else None.

Definition movw (x : Z) (r : seg_reg) s : option (boot_state D) :=
  g ← select s x;
  if is_writable g && (sg_dpl g =? 0) && (Z.land x 3 =? 0) then Some (set_seg r (SReg x g) (mark_accessed x s)) else None.

(** ** boot.S

    The addresses of the table and of the instructions behind the two calls;
    what IDT_init leaves in the registers a callee may use and on the stack
    below its return address. *)
Context (gdt_at idt_at idt_return entry_return : Z) (address : helper → Z).
Context (v_eax v_ecx v_edx : Z) (frame : list Z).

Definition call_IDT_init s : boot_state D :=
  let s := pushl idt_return s in
  let s := set_bmem (wr_bytes (bmem s) (stack_at (- zlen frame) s) frame) s in
  let s := BootState (mach s) (IDT_init idt_at address (table s)) (gdtr s) (gdt_low s) (regs s) (segs s) in
  let s := set_reg EDX v_edx (set_reg ECX v_ecx (set_reg EAX v_eax s)) in
  set_reg ESP (u32 (regs s ESP + 4)) s.

Definition continue_ s : boot_state D :=
  let s := lgdt gdt_limit gdt_at s in
  let s := pushl (regs s EDX) s in
  let s := pushl (regs s ECX) s in
  let s := pushl (regs s EAX) s in
  let s := call_IDT_init s in
  popl EDX (popl ECX (popl EAX s)).

Definition load_segments s : option (boot_state D) :=
  let s := set_reg ECX (u32 (regs s ECX) / 65536 * 65536 + KERNEL_DS) s in
  let cx := regs s ECX mod 65536 in
  s ← movw cx SS s;
  s ← movw cx DS s;
  s ← movw cx ES s;
  s ← movw cx FS s;
  movw cx GS s.

(** Up to the call of entry. *)
Definition keep_going s : option (boot_state D) :=
  s ← load_segments (set_reg ESP 0x800000 s);
  let s := pushl (regs s EBX) s in
  let s := pushl (regs s EAX) s in
  Some (pushl entry_return s).

Definition to_entry s : option (boot_state D) :=
  s ← ljmp KERNEL_CS (continue_ (cli s));
  keep_going s.

(** entry finds its arguments above its return address.  When it comes back,
    boot.S halts for ever. *)
Context (y : layout) (lit : list Z → Z) (conv ldt tss w_ldt w_tss kesp kebp : Z).

Definition call_entry s : res (boot_state D * boot_end) :=
  '(m, e) ← entry y lit conv ldt tss w_ldt w_tss kesp kebp (rd32 (bmem s) (stack_at 4 s))
              (rd32 (bmem s) (stack_at 8 s)) (mach s);
  Ok (set_mach m s, e).

Definition start s : option (res (boot_state D * boot_end)) :=
  s ← to_entry s; Some (call_entry s).
End operations.

(** ** What boot.S hands to entry *)

Section handover.
Context `{PortIO D} (gdt_at idt_at idt_return entry_return : Z) (address : helper → Z).
Context (v_eax v_ecx v_edx : Z) (frame : list Z).
Implicit Types s : boot_state D.

(** The state the loader leaves, by the Multiboot specification as far as
    boot.S relies on it: flat segments, and a stack with room. *)
Record loader_state s : Prop := {
  ls_gdt : gdt_low s = gdt_words;
  ls_stack : sg_base (hidden (segs s SS)) = 0;
  ls_room : zlen frame + 16 ≤ regs s ESP < 4294967296;
  ls_regs r : 0 ≤ regs s r < 4294967296
}.

(** The stack the loader's [esp] points to, and the kernel's. *)
Definition loader_stack s : Z * Z := (regs s ESP - zlen frame - 16, zlen frame + 16).
Definition entry_stack : Z * Z := (0x800000 - 12, 12).

(** A state by what boot.S changes of [M]: memory, tables, registers. *)
Definition shape (M : machine D) (t : idt_state) (g : Z * Z) (l : list Z) (sg : seg_reg → sreg) (m : mem) (r : reg → Z) :
    boot_state D :=
  BootState (set_kern (set_mem m (kern M)) M) t g l r sg.

Lemma shape_id s : s = shape (mach s) (table s) (gdtr s) (gdt_low s) (segs s) (bmem s) (regs s).
Proof. by destruct s as [[[[[] ? ? ? ?] ? ? ? ? ? []] ? ? ? ? ? ? ? ?] ? ? ? ? ?]. Qed.

Section shape.
Context (M : machine D) (t : idt_state) (g : Z * Z) (l : list Z) (sg : seg_reg → sreg) (Hb : sg_base (hidden (sg SS)) = 0).
Local Notation sh := (shape M t g l sg).

Lemma bmem_shape m r : bmem (sh m r) = m.
Proof. done. Qed.
Lemma set_bmem_shape m m' r : set_bmem m' (sh m r) = sh m' r.
Proof. done. Qed.

Lemma stack_shape m r i : 0 ≤ r ESP + i < 4294967296 → stack_at i (sh m r) = r ESP + i.
Proof. intros Hr. unfold stack_at. cbn. by rewrite Hb, Z.add_0_l, !u32_small by (rewrite ?u32_small; done). Qed.

Lemma pushl_shape v m r :
  4 ≤ r ESP < 4294967296 → pushl v (sh m r) = sh (wr32 m (r ESP - 4) v) (<[ESP := r ESP - 4]> r).
Proof.
  intros Hr. unfold pushl. cbn [regs shape]. rewrite u32_small by lia.
  change (set_reg ESP (r ESP - 4) _) with (sh m (<[ESP := r ESP - 4]> r)).
  rewrite stack_shape; rewrite fn_lookup_insert, Z.add_0_r; [done|lia].
Qed.

Lemma popl_shape x m r :
  0 ≤ r ESP → r ESP + 4 < 4294967296 →
  popl x (sh m r) = sh m (<[x := rd32 m (r ESP)]> (<[ESP := r ESP + 4]> r)).
Proof.
  intros Hr1 Hr2. unfold popl. rewrite stack_shape by lia. rewrite Z.add_0_r. cbn [regs shape].
  by rewrite u32_small by lia.
Qed.
End shape.

Ltac read_regs := repeat first [ rewrite fn_lookup_insert | rewrite fn_lookup_insert_ne by done ].

(** The first part, on the loader's stack: the registers the loader left
    survive the call of IDT_init. *)
Lemma continue_spec s :
  loader_state s → ∃ m r,
    continue_ gdt_at idt_at idt_return address v_eax v_ecx v_edx frame s =
      shape (mach s) (IDT_init idt_at address (table s)) (gdt_limit, gdt_at) gdt_words (segs s) m r ∧
    changes_only [loader_stack s] (bmem s) m ∧ ∀ x, r x = regs s x.
Proof.
  intros [Hg Hb Hroom Hregs]. pose proof (Nat2Z.is_nonneg (length frame)) as Hn. fold (zlen frame) in Hn.
  rewrite (f_equal (continue_ gdt_at idt_at idt_return address v_eax v_ecx v_edx frame) (shape_id s)).
  set (sp := regs s ESP) in *. unfold loader_stack. fold sp. rewrite Hg.
  unfold continue_, call_IDT_init. cbv zeta.
  change (lgdt _ _ (shape _ _ _ _ _ ?m ?r)) with (shape (mach s) (table s) (gdt_limit, gdt_at) gdt_words (segs s) m r).
  do 4 (rewrite pushl_shape by (done || (read_regs; fold sp; lia)); cbn [regs shape]; read_regs; fold sp).
  rewrite <- !Z.sub_add_distr. change (4 + 4 + 4 + 4) with 16. change (4 + 4 + 4) with 12. change (4 + 4) with 8.
  rewrite bmem_shape. match goal with |- context [wr32 ?m (sp - 16) ?v] => set (m4 := wr32 m (sp - 16) v) end.
  match goal with |- context [shape _ _ _ _ _ m4 ?r] => set (r4 := r) end.
  assert (r4 ESP = sp - 16) as E4 by (unfold r4; by read_regs).
  rewrite stack_shape by (done || (rewrite E4; lia)). rewrite E4, set_bmem_shape. set (m5 := wr_bytes m4 _ frame).
  cbn [regs shape set_reg].
  set (r5 := <[EDX := v_edx]> (<[ECX := v_ecx]> (<[EAX := v_eax]> r4))).
  match goal with |- context [set_reg ESP ?v ?x] =>
    change (set_reg ESP v x) with (shape (mach s) (IDT_init idt_at address (table s)) (gdt_limit, gdt_at) gdt_words
      (segs s) m5 (<[ESP := v]> r5)) end.
  assert (r5 ESP = sp - 16) as -> by (unfold r5; by read_regs). rewrite u32_small by lia.
  replace (sp - 16 + 4) with (sp - 12) by lia.
  do 3 (rewrite popl_shape by (done || (read_regs; lia)); read_regs).
  replace (sp - 12 + 4) with (sp - 8) by lia. replace (sp - 8 + 4) with (sp - 4) by lia.
  replace (sp - 4 + 4) with sp by lia.
  assert (∀ a, sp - 16 ≤ a → rd32 m5 a = rd32 m4 a) as Hrd.
  { intros a Ha. unfold rd32, m5. rewrite !rd_wr_bytes. by case_z; cbn [andb]; try lia. }
  rewrite !Hrd by lia.
  assert (∀ x, u32 (regs s x) = regs s x) as Hu by (intros x; by apply u32_small).
  eexists m5, _. split_and!; [reflexivity| |].
  - apply (changes_only_trans _ _ m4).
    + unfold m4. repeat (eapply changes_only_trans; [|eapply wr32_changes; [by left|cbn; lia..]]). done.
    + intros b Hx. apply Forall_cons in Hx as [Hx _]. unfold inside in Hx. cbn in Hx. unfold m5.
      rewrite rd_wr_bytes. by case_z; cbn [andb]; try lia.
  - intros x. unfold r5, r4, m4. 
    destruct x; read_regs; mach; rewrite ?Hu; done.
Qed.

(** The words of the table once the kernel's segments were loaded. *)
Definition gdt_loaded : list Z := alter (set_bits 40 1 1) 2%nat (alter (set_bits 40 1 1) 3%nat gdt_words).

Lemma set_accessed w : set_bits 40 1 1 (set_bits 40 1 1 w) = set_bits 40 1 1 w.
Proof.
  apply Z.bits_inj'. intros i Hi. rewrite !testbit_set_bits by lia. by destruct (_ && _).
Qed.

(** The moves to the segment registers. *)
Lemma load_segments_spec M t gb sg m r :
  ∃ sg' r', load_segments (shape M t (gdt_limit, gb) (alter (set_bits 40 1 1) 2%nat gdt_words) sg m r) =
      Some (shape M t (gdt_limit, gb) gdt_loaded sg' m r') ∧
    sg' CS = sg CS ∧ sg' SS = SReg KERNEL_DS (flat 2 0) ∧
    (∀ x, x ≠ CS → x ≠ SS → sg' x = SReg KERNEL_DS (flat 3 0)) ∧ ∀ x, x ≠ ECX → r' x = r x.
Proof.
  unfold load_segments. cbv zeta. set (s1 := set_reg ECX _ _).
  assert (regs s1 ECX mod 65536 = KERNEL_DS) as ->.
  { unfold s1. cbn [set_reg regs]. read_regs. unfold KERNEL_DS. zlia. }
  set (r' := <[ECX := u32 (r ECX) / 65536 * 65536 + KERNEL_DS]> r).
  change s1 with (shape M t (gdt_limit, gb) (alter (set_bits 40 1 1) 2%nat gdt_words) sg m r').
  change (movw KERNEL_DS SS _) with
    (Some (shape M t (gdt_limit, gb) gdt_loaded (<[SS := SReg KERNEL_DS (flat 2 0)]> sg) m r')).
  cbn [mbind option_bind]. set (d := SReg KERNEL_DS (flat 3 0)).
  assert (∀ x sg, movw KERNEL_DS x (shape M t (gdt_limit, gb) gdt_loaded sg m r') =
    Some (shape M t (gdt_limit, gb) gdt_loaded (<[x := d]> sg) m r')) as Hm.
  { intros x sg'. reflexivity. }
  rewrite Hm. cbn [mbind option_bind]. rewrite Hm. cbn [mbind option_bind].
  rewrite Hm. cbn [mbind option_bind]. rewrite Hm.
  eexists _, r'. split_and!; [reflexivity| | | |]; read_regs; [done|done| |].
  - intros x H1 H2. destruct x; by read_regs.
  - intros x Hx. unfold r'. by read_regs.
Qed.

(** The state in which entry is called. *)
Record handed_over s s' : Prop := {
  ho_magic : rd32 (bmem s') (stack_at 4 s') = regs s EAX;
  ho_addr : rd32 (bmem s') (stack_at 8 s') = regs s EBX;
  ho_mach : mach s' = set_flag false (set_kern (set_mem (bmem s') (kern (mach s))) (mach s));
  ho_mem : changes_only [loader_stack s; entry_stack] (bmem s) (bmem s');
  ho_table : table s' = IDT_init idt_at address (table s);
  ho_gdt : gdtr s' = (gdt_limit, gdt_at) ∧ gdt_low s' = gdt_loaded;
  ho_code : segs s' CS = SReg KERNEL_CS (flat 0xA 0);
  ho_stack : segs s' SS = SReg KERNEL_DS (flat 2 0) ∧ regs s' ESP = 0x800000 - 12;
  ho_data r : r ≠ CS → r ≠ SS → segs s' r = SReg KERNEL_DS (flat 3 0)
}.

Lemma to_entry_spec s :
  loader_state s → ∃ s', to_entry gdt_at idt_at idt_return entry_return address v_eax v_ecx v_edx frame s = Some s' ∧
    handed_over s s'.
Proof.
  intros Hs. unfold to_entry. set (s0 := cli s).
  assert (loader_state s0) as Hs0 by (destruct Hs; by constructor).
  destruct (continue_spec s0 Hs0) as (m & r & -> & Hm & Hr).
  change (ljmp KERNEL_CS (shape ?M ?t ?g ?l ?sg m r)) with
    (Some (shape M t g (alter (set_bits 40 1 1) 2%nat l) (<[CS := SReg KERNEL_CS (flat 0xA 0)]> sg) m r)).
  cbn [mbind option_bind]. unfold keep_going.
  change (set_reg ESP 0x800000 (shape ?M ?t ?g ?l ?sg m r)) with (shape M t g l sg m (<[ESP := 0x800000]> r)).
  match goal with |- context [load_segments (shape ?M ?t (_, ?gb) _ ?sg ?m ?r)] =>
    destruct (load_segments_spec M t gb sg m r) as (sg' & r' & E & Hcs & Hss & Hds & Hr') end.
  change (alter (set_bits 40 1 1) 2 gdt_words) with (alter (set_bits 40 1 1) 2%nat gdt_words). rewrite E.
  cbn [mbind option_bind].
  assert (sg_base (hidden (sg' SS)) = 0) as Hb by by rewrite Hss.
  assert (r' ESP = 0x800000) as Hesp by (rewrite Hr' by done; by read_regs).
  assert (r' EAX = regs s EAX) as Ha by (rewrite Hr' by done; read_regs; apply Hr).
  assert (r' EBX = regs s EBX) as Hbx by (rewrite Hr' by done; read_regs; apply Hr).
  do 3 (rewrite pushl_shape by (done || (read_regs; lia)); cbn [regs shape]; read_regs). rewrite Hesp, Ha, Hbx.
  change (8388608 - 4 - 4 - 4) with 8388596. change (8388608 - 4 - 4) with 8388600. change (8388608 - 4) with 8388604.
  eexists. split; [reflexivity|].
  set (m3 := wr32 _ _ entry_return). set (r3 := <[ESP := 8388596]> _).
  assert (r3 ESP = 8388596) as E3 by (unfold r3; by read_regs).
  pose proof (ls_regs s Hs EAX). pose proof (ls_regs s Hs EBX).
  constructor; try rewrite stack_shape by (done || (rewrite E3; lia)); try rewrite E3; rewrite ?bmem_shape; try done.
  - unfold m3. by mach.
  - unfold m3. by mach.
  - apply (changes_only_trans _ _ m).
    { eapply changes_only_mono; [exact Hm|]. intros x ->%list_elem_of_singleton. by left. }
    unfold m3. repeat (eapply changes_only_trans; [|eapply wr32_changes; [by right; left|cbn; lia..]]). done.
Qed.
End handover.

(** ** The segments when a program runs *)

Record protected {D} (ldt tss : Z) (s : boot_state D) (f : iret_frame) : Prop := {
  pr_code : segs s CS = SReg KERNEL_CS (flat 0xA 0);
  pr_stack : segs s SS = SReg KERNEL_DS (flat 2 0);
  pr_data r : r ≠ CS → r ≠ SS → segs s r = SReg KERNEL_DS (flat 3 0);
  pr_program : select s (fr_cs f) = Some (flat 0xA 3) ∧ select s (fr_ss f) = Some (flat 2 3);
  pr_task : select s (tr (mach s)) = Some (Segment tss 103 0xB true 0 true false false);
  pr_ldt : select s (ldtr (mach s)) = Some (Segment ldt 31 2 true 0 true true false);
  pr_kernel_stack : select s (ss0 (mach s)) = Some (flat 3 0)
}.

Lemma selected {D} (s : boot_state D) w t g i :
  gdtr s = (gdt_limit, g) → 0 < i < 8 → gdt s !! Z.to_nat i = Some w →
  decode_segment w = t → sg_present t = true → select s (8 * i) = Some t.
Proof.
  intros Hg Hi Hw Ht Hp. unfold select. rewrite Hg. cbn [fst].
  replace (8 * i / 8) with i by zlia. replace (Z.land (8 * i) 4) with 0.
  2: { symmetry. change 8 with (2 ^ 3). rewrite Z.mul_comm, <- Z.shiftl_mul_pow2 by lia. apply Z.bits_inj'. intros j Hj.
    rewrite Z.land_spec, Z.bits_0. destruct (decide (j = 2)) as [->|Hne].
    - by rewrite Z.shiftl_spec_low.
    - change 4 with (2 ^ 2). rewrite Z.pow2_bits_false by done. apply andb_false_r. }
  cbn [Z.eqb andb]. rewrite (proj2 (Z.eqb_neq _ _)), (proj2 (Z.leb_le _ _)) by (unfold gdt_limit; lia).
  cbn [negb andb]. rewrite Hw. cbn [mbind option_bind]. cbv zeta. by rewrite Ht, Hp.
Qed.

Section booted.
Context {D : Type} (ldt tss gdt_at idt_at : Z) (address : helper → Z).
Implicit Types s : boot_state D.

Lemma booted_protected s f g :
  gdtr s = (gdt_limit, g) → gdt_low s = gdt_loaded →
  segs s CS = SReg KERNEL_CS (flat 0xA 0) → segs s SS = SReg KERNEL_DS (flat 2 0) →
  (∀ r, r ≠ CS → r ≠ SS → segs s r = SReg KERNEL_DS (flat 3 0)) →
  segments_ok ldt tss (mach s) → fr_cs f = USER_CS → fr_ss f = USER_DS → protected ldt tss s f.
Proof.
  intros Hg Hlow Hcs Hss Hds [[El Hl] [Et Ht] [_ E0]] Ef1 Ef2.
  assert (∀ i w, gdt_loaded !! Z.to_nat i = Some w → 0 < i < 6 → gdt s !! Z.to_nat i = Some w) as Hi.
  { intros i w Hw Hi. unfold gdt. rewrite Hlow. by apply lookup_app_l_Some. }
  constructor; rewrite ?Et, ?El, ?E0, ?Ef1, ?Ef2; try done.
  - split; unfold select; rewrite Hg; cbn [fst]; unfold gdt; by rewrite Hlow.
  - apply (selected s (tss_desc_ptr (mach s)) _ g 6 Hg ltac:(lia)); [unfold gdt; by rewrite Hlow|exact Ht|done].
  - apply (selected s (ldt_desc_ptr (mach s)) _ g 7 Hg ltac:(lia)); [unfold gdt; by rewrite Hlow|exact Hl|done].
  - by apply (selected s _ _ g 3 Hg ltac:(lia) (Hi 3 _ eq_refl ltac:(lia))).
Qed.

(** Every vector arrives at its stub, at level 0. *)
Lemma booted_interrupts s t g c w :
  (∀ h, 0 ≤ address h < 4294967296) → length (idt t) = 256%nat → 0 ≤ c < 256 → idt t !! Z.to_nat c = Some w →
  table s = IDT_init idt_at address t → gdtr s = (gdt_limit, g) → gdt_low s = gdt_loaded →
  interrupt_entry s c =
    Some (match handler_of c with Some h => address h | None => entry_offset w end, 0, 32 <=? c).
Proof.
  intros Ha Hlen Hc Hw Et Hg Hlow. unfold interrupt_entry. rewrite Et, (vector_init idt_at address Ha t c w Hlen Hc Hw).
  cbn [mbind option_bind selector offset clears_if].
  assert (select s KERNEL_CS = Some (flat 0xB 0)) as ->.
  { unfold select. rewrite Hg. cbn [fst]. unfold gdt. by rewrite Hlow. }
  cbn [mbind option_bind]. change (is_code (flat 0xB 0)) with true. cbn [flat sg_base sg_dpl]. rewrite Z.add_0_l.
  rewrite u32_small; [done|]. destruct (handler_of c); [done|].
  unfold entry_offset. pose proof (get_bits_range 0 16 w ltac:(lia)). pose proof (get_bits_range 48 16 w ltac:(lia)).
  change (2 ^ 16) with 65536 in *. lia.
Qed.
End booted.

(** ** Properties *)

(** What the boot needs of the machine that entry is given. *)
Record machine_ready {D} y ns lit conv ldt tss addr (cmd entries args : list Z) (kf : Z) (m : machine D) : Prop := {
  mr_loaded : loaded lit conv addr m cmd entries;
  mr_tables : tables_ok y ∧ symbols_ok (paging_symbols y) ∧ 0 ≤ ldt < 4294967296 ∧ 0 ≤ tss < 4294967296;
  mr_flags : CHECK_FLAG (word (cleared (kern m)) (mbi_flags addr)) 4 &&
    CHECK_FLAG (word (cleared (kern m)) (mbi_flags addr)) 5 = false;
  mr_module : let mods := word (cleared (kern m)) (mods_addr addr) in
    clear_of conv mods 8 ∧ word (cleared (kern m)) (mod_start mods) ≠ word (cleared (kern m)) (mod_end mods) ∧
    bootable y ns conv (word (cleared (kern m)) (mod_start mods)) (kmem (cleared (kern m)))
      (kfs (term (cleared (kern m)))) (lit SHELL) SHELL args kf;
  mr_idle : kline (term (kern m)) = empty_line ∧ counter (kern m) = 0 ∧ paging_ok (pages (kern m)) ∧ pic_ok (masks m)
}.

(** The shell's program file, in the module. *)
Definition module_start {D} addr (m : machine D) : Z :=
  let k0 := cleared (kern m) in word k0 (mod_start (word k0 (mods_addr addr))).
Definition shell_file {D} y addr kf (m : machine D) : list Z :=
  let k0 := cleared (kern m) in
  content (boot_mem y (module_start addr m) (kmem k0)) (mounted_fs (module_start addr m) (kmem k0) (kfs (term k0))) kf.

(** C8: the boot as the loader starts it, from the first instruction of boot.S.
    Whatever the loader leaves in eax and ebx reaches entry as its two
    arguments, behind the call of IDT_init, and up to there nothing changed in
    memory but the loader's stack and the top of the kernel's; the code segment
    is the kernel's flat one, the other segment registers hold the flat data
    segment, and interrupts are off.  With the Multiboot magic number and a
    machine that is ready the boot ends in the shell, process 1; then the
    selectors of the frame it is entered with name flat segments of level 3,
    the task register names the task's descriptor and the task's stack segment
    is the kernel's; and every interrupt vector arrives at level 0 at the
    stub IDT_init chose for it. *)
Theorem start_enters_shell `{PortIO D} y ns lit conv ldt tss w_ldt w_tss kesp kebp gdt_at idt_at idt_return entry_return
    address v_eax v_ecx v_edx frame (s : boot_state D) cmd entries args kf :
  loader_state frame s → (∀ h, 0 ≤ address h < 4294967296) → length (idt (table s)) = 256%nat →
  0 ≤ kesp < 4294967296 → 0 ≤ kebp < 4294967296 →
  ∃ s1, to_entry gdt_at idt_at idt_return entry_return address v_eax v_ecx v_edx frame s = Some s1 ∧
    start gdt_at idt_at idt_return entry_return address v_eax v_ecx v_edx frame y lit conv ldt tss w_ldt w_tss
      kesp kebp s =
    Some ('(m, e) ← entry y lit conv ldt tss w_ldt w_tss kesp kebp (regs s EAX) (regs s EBX) (mach s1);
          Ok (set_mach m s1, e)) ∧
    handed_over gdt_at idt_at address frame s s1 ∧
    (regs s EAX = MULTIBOOT_BOOTLOADER_MAGIC →
     machine_ready y ns lit conv ldt tss (regs s EBX) cmd entries args kf (mach s1) →
     returns ('(m, e) ← entry y lit conv ldt tss w_ldt w_tss kesp kebp (regs s EAX) (regs s EBX) (mach s1);
              Ok (set_mach m s1, e)) (λ '(s', e),
       let file := shell_file y (regs s EBX) kf (mach s1) in
       e = Program (user_frame (entry_of file)) ∧
       shell_entered y ns ldt tss kesp kebp (mach s1) (module_start (regs s EBX) (mach s1)) args file (mach s') ∧
       protected ldt tss s' (user_frame (entry_of file)) ∧
       ∀ c w, 0 ≤ c < 256 → idt (table s) !! Z.to_nat c = Some w →
         interrupt_entry s' c =
           Some (match handler_of c with Some h => address h | None => entry_offset w end, 0, 32 <=? c))).
Proof.
  intros Hs Ha Hlen Hesp Hebp. unfold start.
  destruct (to_entry_spec gdt_at idt_at idt_return entry_return address v_eax v_ecx v_edx frame s Hs) as (s1 & E & Hh).
  exists s1. rewrite E. cbn [mbind option_bind]. unfold call_entry.
  rewrite (ho_magic _ _ _ _ _ _ Hh), (ho_addr _ _ _ _ _ _ Hh). split; [reflexivity|]. split; [reflexivity|].
  split; [exact Hh|].
  intros Em [Hld (Hy & Hsym & Hldt & Htss) Hfl (Hmods & Hne & Hboot) (Hline & Hc & Hpg & Hpic)]. rewrite Em.
  destruct Hh as [_ _ _ _ Ht [Hg Hlow] Hcs [Hss _] Hds].
  eapply returns_bind.
  { exact (boot_reaches y ns lit conv ldt tss w_ldt w_tss kesp kebp (regs s EBX) (mach s1) cmd entries Hld args kf
      Hy Hsym Hldt Htss Hesp Hebp Hfl Hmods Hne Hboot Hline Hc Hpg Hpic). }
  intros [m e] [-> Hsh]. apply returns_Ok. cbv zeta. split_and!; [reflexivity|exact Hsh| |].
  - pose proof (se_segments _ _ _ _ _ _ _ _ _ _ _ Hsh) as Hsg.
    exact (booted_protected ldt tss (set_mach m s1) (user_frame _) gdt_at Hg Hlow Hcs Hss Hds Hsg eq_refl eq_refl).
  - intros c w Hcr Hw.
    exact (booted_interrupts idt_at address (set_mach m s1) (table s) gdt_at c w Ha Hlen Hcr Hw Ht Hg Hlow).
Qed.

(** The machine of Startup.v under its loader, with an empty interrupt table. *)
Definition loader_segment : sreg := SReg 0x18 (flat 3 0).
Definition empty_table : idt_state := IdtState 0 0 (replicate 256 0).

Definition loaded_boot : boot_state trace :=
  BootState loader_machine empty_table (0, 0) gdt_words
    (λ r, match r with EAX => MULTIBOOT_BOOTLOADER_MAGIC | EBX => boot_mbi | ESP => 0x7000 | _ => 0 end)
    (λ _, loader_segment).

Lemma loader_ready :
  machine_ready demo_layout boot_names boot_place 0x7FFB40 0x450000 0x451000 boot_mbi (codes "/bootimg") [0x9300] [] 0
    loader_machine.
Proof.
  assert (word loader_kernel (mods_addr boot_mbi) = 0x9100) as Em by by_decide.
  assert (word loader_kernel (mod_start 0x9100) = 0x10000) as Es by by_decide.
  constructor; fold loader_kernel; [exact loader_loaded| |by_decide| |].
  - split_and!; [exact demo_tables_ok|exact boot_symbols_ok|lia..].
  - cbv zeta. rewrite Em, Es. split_and!; [unfold clear_of, disjoint_regions; by_decide|by_decide|exact loader_bootable].
  - split_and!; [done|done|exact boot_paging_ok|by_decide].
Qed.

Lemma loader_shell_file : shell_file demo_layout boot_mbi 0 loader_machine = exec_content.
Proof. vm_compute. reflexivity. Qed.

Lemma start_enters_shell_witness :
  ∃ r, @start trace _ 0x420000 0x422000 0x400030 0x400060 demo_address 1 2 3 [] demo_layout boot_place 0x7FFB40
      0x450000 0x451000 77 88 0x7FFF00 0x7FFF40 loaded_boot = Some r ∧
    returns r (λ '(s', e), e = Program (user_frame 0x08048094) ∧
      protected 0x450000 0x451000 s' (user_frame 0x08048094) ∧
      interrupt_entry s' 0x80 = Some (demo_address asm_linkage_helper, 0, true)).
Proof.
  assert (loader_state [] loaded_boot) as Hs by (constructor; [done|done|done|intros []; by_decide]).
  assert (∀ h, 0 ≤ demo_address h < 4294967296) as Ha by (intros []; by_decide).
  destruct (@start_enters_shell trace _ demo_layout boot_names boot_place 0x7FFB40 0x450000 0x451000 77 88
    0x7FFF00 0x7FFF40 0x420000 0x422000 0x400030 0x400060 demo_address 1 2 3 [] loaded_boot
    (codes "/bootimg") [0x9300] [] 0 Hs Ha ltac:(by_decide) ltac:(lia) ltac:(lia)) as (s1 & E1 & E & Hh & Hb).
  assert (mach s1 = loader_machine) as Em.
  { assert (mach <$> to_entry 0x420000 0x422000 0x400030 0x400060 demo_address 1 2 3 [] loaded_boot = Some loader_machine)
      as Hx by (vm_compute; reflexivity).
    rewrite E1 in Hx. by injection Hx. }
  rewrite Em in Hb, E. change (regs loaded_boot EBX) with boot_mbi in Hb, E. specialize (Hb eq_refl loader_ready).
  cbv zeta in Hb. rewrite loader_shell_file in Hb.
  eexists. split; [exact E|]. eapply returns_mono; [exact Hb|]. intros [s' e] (-> & _ & Hp & Hi).
  split; [reflexivity|]. split; [exact Hp|]. exact (Hi 0x80 0 ltac:(lia) eq_refl).
Defined.
