(* ===== verification/UserLib.v ===== *)
(** * ece391support.c: the string functions

    The user library has its own copies of the kernel's string functions, and a
    strcmp.  Its characters are unsigned, so comparisons differ in sign. *)

From S2P Require Import Prelude Memory LibString.

(** ** The functions *)

(** Each round copies a character and advances both pointers. *)
Definition ece391_strcpy (m : mem) (dst src : Z) : res mem :=
  while (λ '(m, dst, src),
    let m := wr m dst (rd m src) in
    if rd m dst =? 0 then inr (Ok m) else inl (m, dst + 1, src + 1)) (m, dst, src).

Definition ece391_strcmp (m : mem) (s1 s2 : Z) : res Z :=
  while (λ '(s1, s2),
    if rd m s1 =? rd m s2 then
      if rd m s1 =? 0 then inr (Ok 0) else inl (s1 + 1, s2 + 1)
    else inr (Ok (rd m s1 - rd m s2))) (s1, s2).

Definition ece391_strncmp (m : mem) (s1 s2 n : Z) : res Z :=
  if 0 =? n then Ok 0
  else while (λ '(s1, s2, n),
    if rd m s1 =? rd m s2 then
      if rd m s1 =? 0 then inr (Ok 0)
      else let n := u32 (n - 1) in if n =? 0 then inr (Ok 0) else inl (s1 + 1, s2 + 1, n)
    else inr (Ok (rd m s1 - rd m s2))) (s1, s2, n).

Definition ece391_strlen (m : mem) (s : Z) : res Z :=
  while (λ len, if rd m (s + len) =? 0 then inr (Ok len) else inl (u32 (len + 1))) 0.

Definition ece391_strrev (m : mem) (s : Z) : res mem :=
  len ← ece391_strlen m s;
  let end_ := s32 (u32 (len - 1)) in
  if end_ <=? 0 then Ok m
  else while (λ '(m, beg, end_),
    if beg <? end_ then
      let tmp := rd m (s + end_) in
      inl (wr (wr m (s + end_) (rd m (s + beg))) (s + beg) tmp, s32 (beg + 1), s32 (end_ - 1))
    else inr (Ok m)) (m, 0, end_).

(** The place-value loop; the result is the memory and [newbuf]. *)
Definition ece391_itoa_digits (radix : Z) (m : mem) (newbuf newval : Z) : res (mem * Z) :=
  while (λ '(m, newbuf, newval),
    if 0 <? newval then
      if u32 radix =? 0 then inr (Err DivideError) else
      match lookup_digits !! Z.to_nat (newval mod u32 radix) with
      | Some c => inl (wr m newbuf c, newbuf + 1, newval / u32 radix)
      | None => inr (Err OutOfBounds)
      end
    else inr (Ok (m, newbuf))) (m, newbuf, newval).

Definition ece391_itoa (m : mem) (value buf radix : Z) : res mem :=
  let value := u32 value in
  if value =? 0 then Ok (wr (wr m buf 48) (buf + 1) 0)
  else
    '(m, newbuf) ← ece391_itoa_digits radix m buf value;
    ece391_strrev (wr m newbuf 0) buf.

(** ** What they do *)

(** A loop that ends in its first round. *)
Lemma while_stops {St R} (body : St → St + res R) s x : body s = inr (Ok x) → while body s = Ok x.
Proof.
  intros E. apply returns_eq, while_total with (I := λ s', s' = s) (V := λ _, 0); [done|lia|].
  intros s' ->. rewrite E. by apply returns_Ok.
Qed.

Lemma ece391_strrev_same m s : ece391_strrev m s = strrev m s.
Proof.
  unfold ece391_strrev, strrev. change (ece391_strlen m s) with (strlen m s).
  destruct (strlen m s) as [len|e]; [|done]. cbn -[while].
  destruct (Z.leb_spec (s32 (u32 (len - 1))) 0); [|done].
  symmetry. apply while_stops. by rewrite (proj2 (Z.ltb_ge _ _)).
Qed.

Lemma ece391_itoa_same m value buf radix : ece391_itoa m value buf radix = itoa m value buf radix.
Proof.
  unfold ece391_itoa, itoa. destruct (u32 value =? 0); [done|].
  change (ece391_itoa_digits radix m buf (u32 value)) with (itoa_digits radix m buf (u32 value)).
  destruct (itoa_digits _ _ _ _) as [[m' newbuf]|e]; [|done]. apply ece391_strrev_same.
Qed.

(** The difference of the first characters that differ, a 0 at the end. *)
Fixpoint first_difference (l1 l2 : list Z) : Z :=
  match l1, l2 with
  | a :: l1', b :: l2' => if a =? b then first_difference l1' l2' else a - b
  | [], b :: _ => - b
  | a :: _, [] => a
  | [], [] => 0
  end.

Lemma first_difference_0 l1 l2 : text l1 → text l2 → (first_difference l1 l2 = 0 ↔ l1 = l2).
Proof.
  intros H1; revert l2; induction H1 as [|a l1 Ha H1 IH]; intros l2 H2; destruct H2 as [|b l2 Hb H2]; cbn.
  - done.
  - split; [lia|done].
  - split; [lia|done].
  - destruct (Z.eqb_spec a b) as [->|Hne].
    + rewrite IH by done. split; congruence.
    + split; [lia|congruence].
Qed.

Lemma ece391_strlen_cstr m s l : cstr m s l → zlen l < 4294967296 → ece391_strlen m s = Ok (zlen l).
Proof. apply strlen_cstr. Qed.

Lemma cstr_step m s1 s2 l1 l2 :
  cstr m s1 l1 → cstr m s2 l2 →
  if rd m s1 =? rd m s2 then
    if rd m s1 =? 0 then l1 = [] ∧ l2 = []
    else ∃ c k1 k2, l1 = c :: k1 ∧ l2 = c :: k2 ∧ cstr m (s1 + 1) k1 ∧ cstr m (s2 + 1) k2
  else first_difference l1 l2 = rd m s1 - rd m s2.
Proof.
  intros H1 H2. destruct l1 as [|a l1], l2 as [|b l2];
    try apply cstr_nil in H1; try apply cstr_nil in H2;
    try apply cstr_cons in H1 as (E1 & Hn1 & H1); try apply cstr_cons in H2 as (E2 & Hn2 & H2); cbn.
  - by rewrite H1, H2.
  - rewrite H1, E2, (proj2 (Z.eqb_neq 0 b)) by lia. lia.
  - rewrite H2, E1, (proj2 (Z.eqb_neq a 0)) by lia. lia.
  - rewrite E1, E2. destruct (Z.eqb_spec a b) as [<-|]; [|done].
    rewrite (proj2 (Z.eqb_neq a 0)) by done. by exists a, l1, l2.
Qed.

Lemma ece391_strcmp_cstr m s1 s2 l1 l2 :
  cstr m s1 l1 → cstr m s2 l2 → zlen l1 < 4294967296 →
  ece391_strcmp m s1 s2 = Ok (first_difference l1 l2).
Proof.
  intros H1 H2 Hz. unfold ece391_strcmp. apply returns_eq, while_total with
    (I := λ '(a, b), ∃ k1 k2, cstr m a k1 ∧ cstr m b k2 ∧ zlen k1 ≤ zlen l1 - (a - s1) ∧ s1 ≤ a ∧
       first_difference k1 k2 = first_difference l1 l2)
    (V := λ '(a, b), zlen l1 - (a - s1)).
  - exists l1, l2. split_and!; done || lia.
  - lia.
  - intros [a b] (k1 & k2 & Hk1 & Hk2 & Hlen & Ha & <-). pose proof (cstr_step m a b k1 k2 Hk1 Hk2) as Hs.
    destruct (rd m a =? rd m b); [destruct (rd m a =? 0)|].
    + destruct Hs as [-> ->]. by apply returns_Ok.
    + destruct Hs as (c & j1 & j2 & -> & -> & Hj1 & Hj2). rewrite zlen_cons in Hlen. split; [|lia].
      exists j1, j2. split_and!; [done|done|lia|lia|]. cbn. by rewrite Z.eqb_refl.
    + rewrite Hs. by apply returns_Ok.
Qed.

Lemma ece391_strncmp_cstr m s1 s2 l1 l2 n :
  cstr m s1 l1 → cstr m s2 l2 → 0 ≤ n < 4294967296 →
  ece391_strncmp m s1 s2 n = Ok (first_difference (take (Z.to_nat n) l1) (take (Z.to_nat n) l2)).
Proof.
  intros H1 H2 Hn. unfold ece391_strncmp. destruct (Z.eqb_spec 0 n) as [<-|]; [done|].
  apply returns_eq, while_total with
    (I := λ '(a, b, i), 1 ≤ i ≤ n ∧ ∃ k1 k2, cstr m a k1 ∧ cstr m b k2 ∧
       first_difference (take (Z.to_nat i) k1) (take (Z.to_nat i) k2) =
       first_difference (take (Z.to_nat n) l1) (take (Z.to_nat n) l2))
    (V := λ '(a, b, i), i).
  - split; [lia|]. by exists l1, l2.
  - lia.
  - intros [[a b] i] (Hi & k1 & k2 & Hk1 & Hk2 & <-). pose proof (cstr_step m a b k1 k2 Hk1 Hk2) as Hs.
    replace (Z.to_nat i) with (S (Z.to_nat (i - 1))) by lia.
    destruct (rd m a =? rd m b) eqn:Eab; [destruct (rd m a =? 0)|].
    + destruct Hs as [-> ->]. by apply returns_Ok.
    + destruct Hs as (c & j1 & j2 & -> & -> & Hj1 & Hj2). cbn [take first_difference].
      rewrite Z.eqb_refl, u32_small by lia. destruct (Z.eqb_spec (i - 1) 0) as [->|]; [by apply returns_Ok|].
      split; [|lia]. split; [lia|]. by exists j1, j2.
    + apply returns_Ok. rewrite <- Hs. clear Hs. apply Z.eqb_neq in Eab.
      rewrite (cstr_head _ _ _ Hk1), (cstr_head _ _ _ Hk2) in Eab.
      destruct k1 as [|c1 k1], k2 as [|c2 k2]; cbn in Eab |- *; [done..|].
      by rewrite (proj2 (Z.eqb_neq _ _)).
Qed.

(** The destination may also lie before the source and overlap it. *)
Lemma ece391_strcpy_cstr m dst src l :
  cstr m src l → zlen l < 4294967295 → dst ≤ src ∨ src + zlen l < dst →
  returns (ece391_strcpy m dst src) (λ m', m' ≡ wr_bytes m dst (l ++ [0])).
Proof.
  intros Hl Hlen Hdis. unfold ece391_strcpy. apply while_total with
    (I := λ '(mk, d, s), ∃ i, d = dst + i ∧ s = src + i ∧ 0 ≤ i ≤ zlen l ∧
       overlay dst i (λ i, u8 ((l ++ [0]) !!! Z.to_nat i)) m mk)
    (V := λ '(mk, d, s), zlen l - (d - dst)).
  - exists 0. split_and!; [lia|lia|lia|lia|apply overlay_0].
  - lia.
  - intros [[mk d] s] (i & -> & -> & Hi & Hmk). rewrite (overlay_out _ _ _ _ _ (src + i) Hmk) by lia.
    rewrite rd_wr_eq, rd_u8.
    assert (overlay dst (i + 1) (λ i, u8 ((l ++ [0]) !!! Z.to_nat i)) m (wr mk (dst + i) (rd m (src + i)))) as Hnext.
    { apply overlay_wr; [done|lia|done|]. by rewrite (cstr_app_char m src). }
    destruct (Z.eqb_spec (rd m (src + i)) 0) as [Hz|Hz].
    + apply returns_Ok, overlay_wr_bytes. rewrite (cstr_bound m src l i Hl Hi Hz) in Hnext |- *.
      by rewrite zlen_app.
    + assert (i ≠ zlen l) by (intros ->; apply Hz; by apply cstr_end). split; [|lia].
      exists (i + 1). split_and!; done || lia.
Qed.

(** ** Properties *)

(** C7: the string functions of the user library.  On C strings strcpy writes
    the string and its 0 to the destination and nothing else, also where the
    destination begins before the string and runs into it; strcmp and
    strncmp return the difference of the first characters that differ, unsigned,
    the latter among the first [n] only, and 0 exactly when the strings agree;
    strrev and itoa do what the kernel's do. *)
Theorem user_strings m s1 s2 l1 l2 n :
  cstr m s1 l1 → cstr m s2 l2 → zlen l1 < 4294967295 → 0 ≤ n < 4294967296 →
  (∀ dst, dst ≤ s1 ∨ s1 + zlen l1 < dst →
    returns (ece391_strcpy m dst s1) (λ m', m' ≡ wr_bytes m dst (l1 ++ [0]))) ∧
  (ece391_strcmp m s1 s2 = Ok (first_difference l1 l2) ∧ (first_difference l1 l2 = 0 ↔ l1 = l2)) ∧
  (let k1 := take (Z.to_nat n) l1 in let k2 := take (Z.to_nat n) l2 in
   ece391_strncmp m s1 s2 n = Ok (first_difference k1 k2) ∧ (first_difference k1 k2 = 0 ↔ k1 = k2)) ∧
  (∀ s, ece391_strrev m s = strrev m s) ∧
  (∀ v buf radix, ece391_itoa m v buf radix = itoa m v buf radix).
Proof.
  intros H1 H2 Hz Hn. pose proof (cstr_text _ _ _ H1) as T1. pose proof (cstr_text _ _ _ H2) as T2.
  split_and!.
  - intros dst Hd. by apply ece391_strcpy_cstr.
  - by apply ece391_strcmp_cstr; [..|lia].
  - by apply first_difference_0.
  - split; [by apply ece391_strncmp_cstr|]. apply first_difference_0; by apply Forall_take.
  - intros s. apply ece391_strrev_same.
  - intros v buf radix. apply ece391_itoa_same.
Qed.

(** abc and abd: 0 up to two characters, -1 in full. *)
Lemma user_strings_witness :
  let m := wr_bytes (wr_bytes mem0 100 [97; 98; 99; 0]) 200 [97; 98; 100; 0] in
  returns (ece391_strcpy m 300 100) (λ m', m' ≡ wr_bytes m 300 [97; 98; 99; 0]) ∧
  ece391_strcmp m 100 200 = Ok (-1) ∧ ece391_strncmp m 100 200 2 = Ok 0.
Proof.
  cbv zeta.
  pose proof (user_strings (wr_bytes (wr_bytes mem0 100 [97; 98; 99; 0]) 200 [97; 98; 100; 0]) 100 200
    [97; 98; 99] [97; 98; 100] 2 ltac:(by_decide) ltac:(by_decide) ltac:(by_decide) ltac:(lia)) as (H1 & H2 & H3 & _).
  split_and!; [apply (H1 300); right; by_decide|exact (proj1 H2)|exact (proj1 H3)].
Defined.
