(* ===== verification/Emulate.v ===== *)
(** * ece391emulate.c: the system calls of the kernel under Linux

    A user program can be linked with this file and run under Linux, which is
    a parameter: the class [Linux] has what the file calls.  The functions
    have the names of the wrappers they replace. *)

From S2P Require Import Prelude Memory LibString ExecSpec UserLib.

(** How a child ends: by exit, or by a signal. *)
Inductive wait_status := Exited (code : Z) | Signaled (sig : Z).

(** What a new process does that is to run a program: it does not come to be,
    or execv comes back, or the program runs and ends. *)
Inductive child := NoChild | NoExec | Ended (w : wait_status).

Class Linux (L : Type) := {
  opendir : L → Z * L;                             (* of the current directory; 0 when it fails *)
  readdir : Z → mem → L → Z * mem * L;             (* the next entry, in memory; 0 at the end *)
  closedir : Z → L → L;
  open_null : L → Z * L;                           (* open ("/dev/null", O_RDONLY) *)
  open_mem : L → Z * L;                            (* open ("/dev/mem", O_RDWR) *)
  close : Z → L → L;
  mmap_low : Z → L → option Z * L;
  sys_open : list Z → L → Z * L;                   (* the int 0x80 of the call, with eax *)
  sys_read : Z → Z → L → Z * list Z * L;
  sys_write : Z → list Z → L → Z * L;
  sys_close : Z → L → Z * L;
  run_program : list Z → list (list Z) → L → child * L   (* path and argv *)
}.

Record emu (L : Type) := Emu {
  linux : L;
  emem : mem;
  start_esp : Z;
  dir_fd : Z;
  dir : Z;
  mem_fd : Z                                       (* the static variable of vidmap *)
}.
Arguments Emu {L} _ _ _ _ _ _.
Arguments linux {L} _.
Arguments emem {L} _.
Arguments start_esp {L} _.
Arguments dir_fd {L} _.
Arguments dir {L} _.
Arguments mem_fd {L} _.

(** ** execute: the command line taken apart *)

Definition blank (c : Z) : bool := (c =? 32) || (c =? 10).

(** [for (; '\0' != *scan && ' ' != *scan && '\n' != *scan; scan++);] *)
Definition scan_word (m : mem) (scan : Z) : res Z :=
  while (λ scan, if (rd m scan =? 0) || blank (rd m scan) then inr (Ok scan) else inl (scan + 1)) scan.

Definition skip_spaces (m : mem) (scan : Z) : res Z :=
  while (λ scan, if rd m scan =? 32 then inl (scan + 1) else inr (Ok scan)) scan.

(** The loop over the arguments; [args] is the array of pointers. *)
Definition parse_arguments (args : Z) (m : mem) (scan n_arg : Z) : res (mem * Z) :=
  whileM (λ '(m, scan, n_arg),
    scan ← skip_spaces m scan;
    if (rd m scan =? 0) || (rd m scan =? 10) then Ok (inr (wr m scan 0, n_arg))
    else
      let m := wr32 m (args + 4 * n_arg) scan in
      scan ← scan_word m scan;
      if negb (rd m scan =? 0) then Ok (inl (wr m scan 0, scan + 1, u32 (n_arg + 1)))
      else Ok (inl (m, scan, u32 (n_arg + 1)))) (m, scan, n_arg).

(** The part of execute before fork; [None] when the command is too long. *)
Definition make_argv (buf args command : Z) (m : mem) : res (option mem) :=
  n ← ece391_strlen m command;
  if 1023 <? n then Ok None
  else
    let m := wr (wr m buf 46) (buf + 1) 47 in
    m ← ece391_strcpy m (buf + 2) command;
    scan ← scan_word m (buf + 2);
    let m := wr32 m args buf in
    '(m, n_arg) ← (if negb (rd m scan =? 0) then parse_arguments args (wr m scan 0) (scan + 1) 1 else Ok (m, 1));
    Ok (Some (wr32 m (args + 4 * n_arg) 0)).

(** What execv reads: the strings of the array, up to the null pointer. *)
Definition read_string (m : mem) (s : Z) : res (list Z) :=
  n ← ece391_strlen m s; Ok (bytes m s n).

Definition read_argv (m : mem) (args : Z) : res (list (list Z)) :=
  whileM (λ '(i, l),
    let p := rd32 m (args + 4 * i) in
    if p =? 0 then Ok (inr l) else s ← read_string m p; Ok (inl (i + 1, l ++ [s]))) (0, []).

(** ** getargs: the arguments put together again *)

(** [Some] where the loop breaks, [None] where the function returns -1. *)
Definition join_arguments (argv argc : Z) (m : mem) (buf nbytes : Z) : res (mem * option (Z * Z)) :=
  whileM (λ '(m, buf, nbytes, idx),
    if idx <? argc then
      n ← ece391_strlen m (rd32 m (argv + 4 * idx));
      let len := s32 n in
      if nbytes <? len then Ok (inr (m, None))
      else
        m ← ece391_strcpy m buf (rd32 m (argv + 4 * idx));
        let buf := buf + len in
        let nbytes := nbytes - len in
        let idx := s32 (idx + 1) in
        if argc <=? idx then Ok (inr (m, Some (buf, nbytes)))
        else if nbytes <? 1 then Ok (inr (m, None))
        else Ok (inl (wr m buf 32, buf + 1, nbytes - 1, idx))
    else Ok (inr (m, Some (buf, nbytes)))) (m, buf, nbytes, 1).

Section operations.
Context `{Linux L}.
Implicit Types s : emu L.

Definition set_linux (l : L) s : emu L := Emu l (emem s) (start_esp s) (dir_fd s) (dir s) (mem_fd s).
Definition set_emem (m : mem) s : emu L := Emu (linux s) m (start_esp s) (dir_fd s) (dir s) (mem_fd s).

(** _start keeps the stack pointer that Linux starts the program with. *)
Definition _start (esp : Z) s : emu L := Emu (linux s) (emem s) (u32 esp) (dir_fd s) (dir s) (mem_fd s).

Definition ece391_getargs (buf nbytes : Z) s : res (emu L * Z) :=
  let argc := s32 (rd32 (emem s) (start_esp s)) in
  '(m, r) ← join_arguments (start_esp s + 4) argc (emem s) buf nbytes;
  match r with
  | None => Ok (set_emem m s, -1)
  | Some (buf, nbytes) => if nbytes <? 1 then Ok (set_emem m s, -1) else Ok (set_emem (wr m buf 0) s, 0)
  end.

(** [buf] and [args] are locals; [junk] is what [status] holds when wait fails.
    The child whose execv comes back kills itself. *)
Definition ece391_execute (buf args : Z) (junk : wait_status) (command : Z) s : res (emu L * Z) :=
  o ← make_argv buf args command (emem s);
  match o with
  | None => Ok (s, -1)
  | Some m =>
      path ← read_string m buf;
      argv ← read_argv m args;
      let '(c, l) := run_program path argv (linux s) in
      let status := match c with NoChild => junk | NoExec => Signaled 9 | Ended w => w end in
      let s := set_linux l (set_emem m s) in
      Ok (s, match status with Exited code => code | Signaled sig => if 9 =? sig then -1 else 256 end)
  end.

(** DO_CALL: a result above 0xFFFFC000 becomes -1. *)
Definition call_result (eax : Z) : Z := if eax <=? 0xFFFFC000 then s32 eax else -1.

Definition __ece391_read (fd buf nbytes : Z) s : emu L * Z :=
  let '(v, data, l) := sys_read fd nbytes (linux s) in
  (set_linux l (set_emem (wr_bytes (emem s) buf data) s), call_result v).
Definition __ece391_write (fd buf nbytes : Z) s : emu L * Z :=
  let '(v, l) := sys_write fd (bytes (emem s) buf nbytes) (linux s) in (set_linux l s, call_result v).
Definition __ece391_close (fd : Z) s : emu L * Z :=
  let '(v, l) := sys_close fd (linux s) in (set_linux l s, call_result v).

(** [dot] is the literal. *)
Definition ece391_open (dot filename : Z) s : res (emu L * Z) :=
  c ← ece391_strcmp (emem s) filename dot;
  if 0 =? c then
    let '(d, l) := opendir (linux s) in
    let '(fd, l) := open_null l in
    Ok (Emu l (emem s) (start_esp s) fd d (mem_fd s), fd)
  else
    name ← read_string (emem s) filename;
    let '(v, l) := sys_open name (linux s) in
    Ok (set_linux l s, if 0xFFFFC000 <? v then -1 else s32 v).

Definition ece391_vidmap (screen_start : Z) s : emu L * Z :=
  let s := if mem_fd s =? -1 then
      let '(fd, l) := open_mem (linux s) in Emu l (emem s) (start_esp s) (dir_fd s) (dir s) fd
    else s in
  match mmap_low (mem_fd s) (linux s) with
  | (None, l) => (set_linux l s, -1)
  | (Some image, l) => (set_linux l (set_emem (wr32 (emem s) screen_start (u32 (image + 0xB8000))) s), 0)
  end.

(** The loops of read: [inl] where the function returns in the first. *)
Definition copy_entry (from to nbytes : Z) (m : mem) : res (mem * Z * bool) :=
  while (λ '(m, from, to, copied),
    if rd m from =? 0 then inr (Ok (m, copied, false))
    else
      let m := wr m to (rd m from) in
      let copied := copied + 1 in
      if (copied =? nbytes) || (32 =? copied) then inr (Ok (m, copied, true))
      else inl (m, from + 1, to + 1, copied)) (m, from, to, 0).

Definition pad_entry (buf nbytes copied : Z) (m : mem) : res (mem * Z) :=
  while (λ '(m, copied),
    if (copied <? nbytes) && (copied <? 32) then inl (wr m (buf + copied) 0, copied + 1)
    else inr (Ok (m, copied))) (m, copied).

Definition ece391_read (fd buf nbytes : Z) s : res (emu L * Z) :=
  if (0 =? dir s) || negb (dir_fd s =? fd) then Ok (__ece391_read fd buf nbytes s)
  else
    let '(de, m, l) := readdir (dir s) (emem s) (linux s) in
    let s := set_linux l (set_emem m s) in
    if 0 =? de then Ok (s, 0)
    else
      '(m, copied, full) ← copy_entry de buf nbytes m;
      if (full : bool) then Ok (set_emem m s, copied)
      else '(m, copied) ← pad_entry buf nbytes copied m; Ok (set_emem m s, copied).

Definition ece391_write (fd buf nbytes : Z) s : emu L * Z :=
  if (0 =? dir s) || negb (dir_fd s =? fd) then __ece391_write fd buf nbytes s else (s, -1).

Definition ece391_close (fd : Z) s : emu L * Z :=
  if (0 =? dir s) || negb (dir_fd s =? fd) then __ece391_close fd s
  else
    let l := close (dir_fd s) (closedir (dir s) (linux s)) in
    (Emu l (emem s) (start_esp s) (-1) 0 (mem_fd s), 0).
End operations.

(** ** Words

    The arguments in what follows the name: words between blanks.  A newline
    ends the line where no word comes before it. *)

Definition flush (cur : list Z) : list (list Z) := match cur with [] => [] | _ => [cur] end.

Fixpoint args_of (cur l : list Z) : list (list Z) :=
  match l with
  | [] => flush cur
  | c :: l' =>
      if c =? 32 then flush cur ++ args_of [] l'
      else if c =? 10 then match cur with [] => [] | _ => cur :: args_of [] l' end
      else args_of (cur ++ [c]) l'
  end.

Fixpoint word_of (l : list Z) : list Z :=
  match l with c :: l' => if blank c then [] else c :: word_of l' | [] => [] end.

(** What is left behind the first word: the blank is gone, [None] at the end. *)
Definition after_word (l : list Z) : option (list Z) :=
  match drop (length (word_of l)) l with [] => None | _ :: r => Some r end.

(** argv of the program a command line names. *)
Definition argv_of (l : list Z) : list (list Z) :=
  ([46; 47] ++ word_of l) :: match after_word l with Some r => args_of [] r | None => [] end.

Fixpoint join (ws : list (list Z)) : list Z :=
  match ws with
  | [] => []
  | [w] => w
  | w :: ws' => w ++ 32 :: join ws'
  end.

(** A word: not empty, without blanks. *)
Definition word (w : list Z) : Prop := w ≠ [] ∧ Forall (λ c, blank c = false) w.

Lemma word_of_split l :
  Forall (λ c, blank c = false) (word_of l) ∧
  (l = word_of l ∧ after_word l = None ∨
   ∃ b r, l = word_of l ++ b :: r ∧ blank b = true ∧ after_word l = Some r).
Proof.
  unfold after_word. induction l as [|c l [IHf IH]]; cbn; [by split; [|left]|].
  destruct (blank c) eqn:Eb; cbn.
  - split; [done|]. right. by exists c, l.
  - split; [by constructor|]. destruct IH as [[E1 E2]|(b & r & E1 & Hb & E2)].
    + left. split; [by f_equal|exact E2].
    + right. exists b, r. split_and!; [by f_equal|done|exact E2].
Qed.

Lemma args_of_word cur w r :
  Forall (λ c, blank c = false) w → args_of cur (w ++ r) = args_of (cur ++ w) r.
Proof.
  intros Hw. revert cur. induction Hw as [|c w Hc Hw IH]; intros cur; cbn; [by rewrite app_nil_r|].
  unfold blank in Hc. apply orb_false_iff in Hc as [-> ->]. by rewrite IH, <- app_assoc.
Qed.

(** The three ways the loop over the arguments goes on. *)
Lemma args_of_space l : args_of [] (32 :: l) = args_of [] l.
Proof. done. Qed.

Lemma args_of_first l c :
  List.head l = Some c → blank c = false →
  args_of [] l = word_of l :: match after_word l with Some r => args_of [] r | None => [] end ∧ word (word_of l).
Proof.
  intros Hc Hb. destruct l as [|c' l]; [done|]. injection Hc as ->.
  destruct (word_of_split (c :: l)) as [Hf Hs].
  assert (word_of (c :: l) ≠ []) as Hne by (cbn; by rewrite Hb). split; [|done].
  destruct Hs as [[E ->]|(b & r & E & Hbl & ->)].
  - rewrite E at 1. rewrite <- (app_nil_r (word_of (c :: l))) at 1. rewrite args_of_word by done.
    cbn [args_of app]. by destruct (word_of (c :: l)).
  - rewrite E at 1. rewrite args_of_word by done. cbn [app args_of].
    unfold blank in Hbl. destruct (word_of (c :: l)) as [|x w]; [done|]. destruct (Z.eqb_spec b 32); [done|].
    destruct (Z.eqb_spec b 10); [done|discriminate].
Qed.

(** Words joined by single spaces are taken apart again. *)
Lemma args_of_join ws : Forall word ws → args_of [] (join ws) = ws.
Proof.
  induction 1 as [|w ws [Hne Hw] Hws IH]; [done|]. destruct ws as [|w' ws].
  - cbn [join]. rewrite <- (app_nil_r w) at 1. rewrite args_of_word by done. by destruct w.
  - change (join (w :: w' :: ws)) with (w ++ 32 :: join (w' :: ws)). rewrite args_of_word by done.
    change (args_of ([] ++ w) (32 :: join (w' :: ws))) with (flush w ++ args_of [] (join (w' :: ws))).
    rewrite IH. by destruct w.
Qed.

(** ** The loops of execute *)

Lemma cstr_app m s l1 l2 : cstr m s (l1 ++ l2) → cstr m (s + zlen l1) l2.
Proof.
  revert s. induction l1 as [|c l1 IH]; intros s H; [by rewrite Z.add_0_r|].
  cbn [app] in H. apply cstr_cons in H as (_ & _ & H). rewrite zlen_cons, Z.add_assoc. by apply IH.
Qed.

Lemma scan_word_ends m s l :
  cstr m s l → zlen l < 4294967296 → scan_word m s = Ok (s + zlen (word_of l)).
Proof.
  intros Hl Hz. unfold scan_word. apply returns_eq, while_total with
    (I := λ a, ∃ k, cstr m a k ∧ s ≤ a ∧ zlen k ≤ zlen l ∧ a + zlen (word_of k) = s + zlen (word_of l) ∧
       a + zlen k = s + zlen l)
    (V := λ a, s + zlen l - a).
  - exists l. split_and!; done || lia.
  - lia.
  - intros a (k & Hk & Ha & Hkl & Hw & He). pose proof Hk as Hk'. rewrite (cstr_head _ _ _ Hk).
    destruct k as [|c k]; [apply returns_Ok; cbn in *; lia|].
    apply cstr_cons in Hk' as (_ & Hc & Hk'). cbn [List.hd word_of] in *.
    rewrite (proj2 (Z.eqb_neq _ _)) by done. cbn [orb]. rewrite zlen_cons in *.
    destruct (blank c); [apply returns_Ok; cbn in Hw; lia|]. rewrite zlen_cons in Hw.
    split; [|lia]. exists k. split_and!; done || lia.
Qed.

Fixpoint no_spaces (l : list Z) : list Z :=
  match l with c :: l' => if c =? 32 then no_spaces l' else l | [] => [] end.

Lemma no_spaces_split l :
  args_of [] (no_spaces l) = args_of [] l ∧ zlen (no_spaces l) ≤ zlen l ∧ List.head (no_spaces l) ≠ Some 32.
Proof.
  induction l as [|c l (IH1 & IH2 & IH3)]; [by split_and!|]. cbn [no_spaces args_of]. destruct (Z.eqb_spec c 32) as [->|Hne].
  - split_and!; [done|rewrite zlen_cons; lia|done].
  - split_and!; [|lia|cbn; congruence]. cbn [args_of]. by rewrite (proj2 (Z.eqb_neq _ _)).
Qed.

Lemma skip_spaces_ends m s l :
  cstr m s l → zlen l < 4294967296 →
  returns (skip_spaces m s) (λ a, cstr m a (no_spaces l) ∧ a + zlen (no_spaces l) = s + zlen l ∧ s ≤ a).
Proof.
  intros Hl Hz. unfold skip_spaces. apply while_total with
    (I := λ a, ∃ k, cstr m a k ∧ s ≤ a ∧ a + zlen k = s + zlen l ∧ no_spaces k = no_spaces l)
    (V := λ a, s + zlen l - a).
  - exists l. split_and!; done || lia.
  - lia.
  - intros a (k & Hk & Ha & He & Hn). pose proof Hk as Hk'. rewrite (cstr_head _ _ _ Hk).
    destruct k as [|c k]; cbn [List.hd no_spaces] in *.
    + apply returns_Ok. rewrite <- Hn. by split_and!.
    + apply cstr_cons in Hk' as (_ & _ & Hk'). destruct (Z.eqb_spec c 32) as [->|Hne].
      * rewrite zlen_cons in He. split; [|lia]. exists k. split_and!; done || lia.
      * apply returns_Ok. rewrite <- Hn. by split_and!.
Qed.

(** An array of pointers to the strings [ws], which lie in [lo, lim). *)
Definition argv_in (m : mem) (args lo lim : Z) (ws : list (list Z)) : Prop :=
  ∀ i w, ws !! i = Some w → let p := rd32 m (args + 4 * Z.of_nat i) in lo ≤ p ∧ p + zlen w < lim ∧ cstr m p w.

(** Memories that agree on a range. *)
Definition same_on (lo lim : Z) (m m' : mem) : Prop := ∀ a, lo ≤ a < lim → rd m' a = rd m a.

Lemma same_on_cstr lo lim m m' p w : same_on lo lim m m' → lo ≤ p → p + zlen w < lim → cstr m p w → cstr m' p w.
Proof.
  intros Hs Hp Hl (Hnz & Hb & He). split_and!; [done| |].
  - rewrite <- Hb at 2. apply bytes_ext. intros i Hi. apply Hs. lia.
  - rewrite <- He. apply Hs. lia.
Qed.

Lemma same_on_rd32 lo lim m m' a : same_on lo lim m m' → lo ≤ a → a + 4 ≤ lim → rd32 m' a = rd32 m a.
Proof. intros Hs Ha Hl. unfold rd32. by rewrite !Hs by lia. Qed.

Lemma argv_in_kept m m' args lo lim ws :
  argv_in m args lo lim ws → same_on lo lim m m' → same_on args (args + 4 * zlen ws) m m' →
  argv_in m' args lo lim ws.
Proof.
  intros Ha Hs Hp i w Hi. destruct (Ha i w Hi) as (H1 & H2 & H3). apply lookup_lt_Some in Hi.
  cbv zeta. rewrite (same_on_rd32 args (args + 4 * zlen ws) m m') by (done || lia).
  split_and!; [done|done|]. by apply (same_on_cstr lo lim m).
Qed.

Lemma argv_in_mono m args lo lim lim' ws : argv_in m args lo lim ws → lim ≤ lim' → argv_in m args lo lim' ws.
Proof. intros Ha Hl i w Hi. destruct (Ha i w Hi) as (? & ? & ?). cbv zeta. split_and!; [done|lia|done]. Qed.

Lemma argv_in_snoc m args lo lim lim' ws w p :
  argv_in m args lo lim ws → rd32 m (args + 4 * zlen ws) = p → lo ≤ p → p + zlen w < lim' → lim ≤ lim' →
  cstr m p w → argv_in m args lo lim' (ws ++ [w]).
Proof.
  intros Ha Hp H1 H2 H3 Hw i v Hi. apply lookup_app_Some in Hi as [Hi|[Hge Hi]].
  - destruct (Ha i v Hi) as (G1 & G2 & G3). cbv zeta. split_and!; [done|lia|done].
  - apply list_lookup_singleton_Some in Hi as [Hi <-]. cbv zeta. replace i with (length ws) by lia. by rewrite Hp.
Qed.

(** A string cut at a blank. *)
Lemma cstr_cut m m' s w b k :
  cstr m s (w ++ b :: k) → same_on s (s + zlen w) m m' → rd m' (s + zlen w) = 0 → cstr m' s w.
Proof.
  intros (Hnz & Hb & _) Hs He. apply Forall_app in Hnz as [Hw _]. split_and!; [done| |done].
  rewrite zlen_app in Hb. pose proof (bytes_app m s (zlen w) (zlen (b :: k)) ltac:(lia) ltac:(lia)) as Hx.
  rewrite Hb in Hx. apply app_inj_1 in Hx as [Hx _].
  - rewrite Hx at 2. apply bytes_ext. intros i Hi. apply Hs. lia.
  - pose proof (zlen_bytes m s (zlen w) ltac:(lia)). lia.
Qed.

Section parse.
Context (buf args : Z) (Hbuf : 0 < buf) (Hlow : buf + 1026 < 4294967296).
Context (Hap : disjoint_regions buf 1026 args 4096).

Local Notation rs := [(buf, 1026); (args, 4096)].

(** The state at the head of the loop: [e] is the end of the command. *)
Record parsing (e : Z) (total : list (list Z)) (m0 mk : mem) (scan n : Z) (ws : list (list Z)) (k : list Z) (lim : Z) :
    Prop := {
  pg_count : n = zlen ws ∧ 1 ≤ n ∧ rd32 mk args = buf;
  pg_rest : cstr mk scan k;
  pg_done : argv_in mk args buf lim ws;
  pg_total : ws ++ args_of [] k = total;
  pg_end : scan + zlen k = e;
  pg_room : buf < scan ∧ (lim ≤ scan ∧ 2 * n ≤ scan - buf + 1 ∨ k = [] ∧ lim ≤ scan + 1 ∧ 2 * n ≤ scan - buf + 2);
  pg_changes : changes_only rs m0 mk
}.

(** A word is taken: its pointer is stored, and it is cut off. *)
Lemma parsing_word e total m0 mk scan n ws c k lim :
  e ≤ buf + 1025 → parsing e total m0 mk scan n ws (c :: k) lim → blank c = false →
  let m := wr32 mk (args + 4 * n) scan in
  returns (scan_word m scan) (λ a, scan < a ≤ e ∧
    if negb (rd m a =? 0) then ∃ ws' k' lim', parsing e total m0 (wr m a 0) (a + 1) (u32 (n + 1)) ws' k' lim'
    else ∃ ws' k' lim', parsing e total m0 m a (u32 (n + 1)) ws' k' lim').
Proof.
  intros He [(Hn & Hn1 & Hp0) Hr Hd Ht Hend [Hs Hroom] Hc] Hb m. destruct Hroom as [[Hl1 Hl2]|[Hx _]]; [|done].
  unfold disjoint_regions in Hap. set (l := c :: k) in *. assert (0 ≤ zlen ws ∧ 0 ≤ zlen k) as [Hws Hk] by lia.
  destruct (args_of_first l c eq_refl Hb) as [Eargs [Hne Hw]].
  assert (0 < zlen (word_of l)) as Hw1 by (destruct (word_of l); [done|rewrite zlen_cons; lia]).
  assert (same_on buf (buf + 1026) mk m) as Hm1 by (intros x Hx; unfold m; apply rd_wr32_ne; lia).
  assert (same_on args (args + 4 * zlen ws) mk m) as Hm2 by (intros x Hx; unfold m; apply rd_wr32_ne; lia).
  assert (cstr m scan l) as Hl by (apply (same_on_cstr buf (buf + 1026) mk); done || lia).
  assert (rd32 m (args + 4 * zlen ws) = scan) as Hp by (unfold m; rewrite <- Hn, rd32_wr32_eq; apply u32_small; lia).
  assert (rd32 m args = buf) as Hp0' by (unfold m; rewrite rd32_wr32_ne by lia; done).
  assert (argv_in m args buf lim ws) as Hd' by (apply (argv_in_kept mk); [done|intros x Hx; apply Hm1; lia|done]).
  assert (changes_only rs m0 m) as Hc'.
  { apply (changes_only_trans _ _ mk); [done|]. eapply wr32_changes; [by right; left|cbn; lia..]. }
  rewrite (scan_word_ends m scan l Hl) by lia. apply returns_Ok. set (w := word_of l) in *. set (a := scan + zlen w).
  destruct (word_of_split l) as [_ [[E Eaft]|(b & r & E & Hbl & Eaft)]]; fold w in E; rewrite Eaft in Eargs.
  - assert (a = e) as Ha by (unfold a; rewrite <- E; lia). split; [unfold a in *; lia|].
    assert (rd m a = 0) as Hz by (unfold a; rewrite E in Hl; by apply cstr_end). rewrite Hz. cbn [Z.eqb negb].
    exists (ws ++ [w]), [], (a + 1). constructor; [rewrite zlen_app, u32_small by lia; cbn; lia|by apply cstr_nil| | | | |done].
    + apply (argv_in_snoc m args buf lim _ ws w scan); try done; try lia. by rewrite <- E.
    + rewrite <- Ht, Eargs, <- app_assoc. done.
    + cbn. lia.
    + split; [lia|]. right. rewrite u32_small by lia. split_and!; [done|lia|lia].
  - assert (zlen l = zlen w + 1 + zlen r) as Ez by (rewrite E, zlen_app, zlen_cons; lia).
    split; [unfold a; lia|]. pose proof Hl as Hl'. rewrite E in Hl'. apply cstr_app in Hl'. fold a in Hl'.
    apply cstr_cons in Hl' as (-> & Hb0 & Hr'). rewrite (proj2 (Z.eqb_neq _ _)) by done. cbn [negb].
    assert (∀ x, x ≠ a → rd (wr m a 0) x = rd m x) as Hother by (intros x Hx; apply rd_wr_ne; congruence).
    exists (ws ++ [w]), r, (a + 1). constructor; [|  | | | | |].
    + rewrite zlen_app, u32_small by lia. rewrite rd32_wr_ne by (unfold a; lia). cbn. lia.
    + apply (same_on_cstr (a + 1) (e + 1) m); [|lia|unfold a; lia|done]. intros x Hx. apply Hother. lia.
    + apply (argv_in_snoc (wr m a 0) args buf lim _ ws w scan); [| |lia|unfold a; lia|unfold a; lia|].
      * apply (argv_in_kept m); [done| |]; intros x Hx; apply Hother; unfold a; lia.
      * rewrite <- Hp. apply (same_on_rd32 (args + 4 * zlen ws) (args + 4 * zlen ws + 4)); [|lia..].
        intros x Hx. apply Hother. unfold a. lia.
      * eapply (cstr_cut m); [rewrite <- E; exact Hl| |]; fold a; [|by mach]. intros x Hx. apply Hother. lia.
    + rewrite <- Ht, Eargs, <- app_assoc. done.
    + unfold a. lia.
    + split; [unfold a; lia|]. left. rewrite u32_small by lia. unfold a. lia.
    + apply (changes_only_trans _ _ m); [done|]. eapply wr_changes; [by left|]. unfold inside, a. cbn [fst snd]. lia.
Qed.

(** The line ends: a 0 is put where it does. *)
Lemma parsing_stop e total m0 mk a i ws k lim :
  e ≤ buf + 1025 → parsing e total m0 mk a i ws k lim → args_of [] k = [] →
  i = zlen total ∧ 2 * i ≤ 1027 ∧ rd32 (wr mk a 0) args = buf ∧ 1 ≤ i ∧
  argv_in (wr mk a 0) args buf (buf + 1026) total ∧ changes_only rs m0 (wr mk a 0).
Proof.
  intros He [(Hn & Hn1 & Hp0) Hr Hd Ht Hend [Hs Hroom] Hc] Hk. rewrite Hk, app_nil_r in Ht. subst ws.
  assert (0 ≤ zlen k) by lia. unfold disjoint_regions in Hap.
  assert (∀ x, x < lim ∨ args ≤ x < args + 4096 → rd (wr mk a 0) x = rd mk x) as Hsame.
  { intros x Hx. rewrite rd_wr. destruct (Z.eqb_spec x a) as [->|]; [|done].
    destruct Hroom as [?|(-> & _)]; [lia|]. apply cstr_nil in Hr. by rewrite Hr. }
  split_and!; [done|lia| |done| |].
  - rewrite <- Hp0. apply (same_on_rd32 args (args + 4096)); [intros x Hx; apply Hsame|..]; lia.
  - apply (argv_in_mono _ _ _ lim); [|lia]. apply (argv_in_kept mk); [done|intros x Hx; apply Hsame; lia..].
  - apply (changes_only_trans _ _ mk); [done|]. eapply wr_changes; [by left|]. unfold inside. cbn [fst snd]. lia.
Qed.

Lemma parse_arguments_spec e total m0 scan n ws k lim :
  e ≤ buf + 1025 → parsing e total m0 m0 scan n ws k lim →
  returns (parse_arguments args m0 scan n) (λ '(m, n'), n' = zlen total ∧ 2 * n' ≤ 1027 ∧ rd32 m args = buf ∧ 1 ≤ n' ∧
    argv_in m args buf (buf + 1026) total ∧ changes_only rs m0 m).
Proof.
  intros He H0. unfold parse_arguments. apply whileM_total with
    (I := λ '(mk, a, i), ∃ ws k lim, parsing e total m0 mk a i ws k lim) (V := λ '(mk, a, i), e - a).
  - by exists ws, k, lim.
  - pose proof (pg_end _ _ _ _ _ _ _ _ _ H0). pose proof (pg_room _ _ _ _ _ _ _ _ _ H0). lia.
  - intros [[mk a] i] (ws' & k' & lim' & Hp). pose proof Hp as [(Hn & Hn1 & Hp0) Hr Hd Ht Hend [Hs Hroom] Hc].
    assert (0 ≤ zlen k') by lia. eapply returns_bind; [apply (skip_spaces_ends mk a k'); [done|lia]|].
    intros a' (Hk & Ha & Haa). destruct (no_spaces_split k') as (Eargs & Hle & Hhead).
    assert (parsing e total m0 mk a' i ws' (no_spaces k') lim') as Hp'.
    { constructor; [done|done|done|by rewrite Eargs|lia| |done]. split; [lia|].
      destruct Hroom as [?|(-> & ? & ?)]; [left; lia|right]. split_and!; [done|lia|lia]. }
    rewrite (cstr_head _ _ _ Hk). destruct (no_spaces k') as [|c l] eqn:El.
    + apply returns_Ok. by apply (parsing_stop e total m0 mk a' i ws' [] lim').
    + cbn [List.hd]. pose proof Hk as Hk'. apply cstr_cons in Hk' as (_ & Hc0 & _). rewrite (proj2 (Z.eqb_neq c 0)) by done.
      cbn [orb]. destruct (Z.eqb_spec c 10) as [->|Hc10].
      * apply returns_Ok. by apply (parsing_stop e total m0 mk a' i ws' (10 :: l) lim').
      * assert (blank c = false) as Hbl.
        { unfold blank. rewrite (proj2 (Z.eqb_neq c 10)), orb_false_r by done. apply Z.eqb_neq. cbn in Hhead. congruence. }
        eapply returns_bind; [exact (parsing_word e total m0 mk a' i ws' c l lim' He Hp' Hbl)|].
        intros a'' [Ha'' Hx]. destruct (negb _); apply returns_Ok; split; try exact Hx;
          destruct Hx as (ws'' & k'' & lim'' & Hx); pose proof (pg_end _ _ _ _ _ _ _ _ _ Hx); lia.
Qed.

(** The copy of the command, behind a path. *)
Lemma copied_command m command l :
  cstr m command l → zlen l ≤ 1023 → apart (command, zlen l + 1) (buf, 1026) →
  returns (ece391_strcpy (wr (wr m buf 46) (buf + 1) 47) (buf + 2) command) (λ m2,
    cstr m2 buf ([46; 47] ++ l) ∧ changes_only [(buf, 1026)] m m2).
Proof.
  intros Hl Hz Hcmd. unfold apart, disjoint_regions in Hcmd. cbn [fst snd] in Hcmd. set (m1 := wr _ (buf + 1) 47).
  assert (changes_only [(buf, 1026)] m m1) as Hm1.
  { apply (changes_only_trans _ _ (wr m buf 46)); (eapply wr_changes; [by left|unfold inside; cbn; lia]). }
  assert (cstr m1 command l) as Hl1.
  { apply (changes_same_cstr [(buf, 1026)] m); [done| |done]. by constructor. }
  eapply returns_mono; [apply (ece391_strcpy_cstr m1 (buf + 2) command l Hl1); lia|].
  intros m2 E. pose proof (wr_bytes_cstr _ _ _ _ (cstr_text _ _ _ Hl) E) as H2. split.
  - cbn [app]. rewrite !cstr_cons, (E buf), (E (buf + 1)), !rd_wr_bytes. unfold m1.
    rewrite (proj2 (Z.leb_gt _ _)), (proj2 (Z.leb_gt _ _)) by lia. cbn [andb].
    replace (buf + 1 + 1) with (buf + 2) by lia. by mach.
  - apply (changes_only_trans _ _ m1); [done|]. intros a Ha. apply Forall_cons in Ha as [Ha _]. unfold inside in Ha.
    cbn [fst snd] in Ha. rewrite (E a), rd_wr_bytes, zlen_app. change (zlen [0]) with 1. case_z; cbn [andb]; done || lia.
Qed.

(** The command behind its path, taken apart at the first blank. *)
Lemma first_word l :
  zlen (word_of l) ≤ zlen l ∧ l = word_of l ++ drop (length (word_of l)) l ∧
  match after_word l with
  | None => drop (length (word_of l)) l = []
  | Some r => ∃ b, drop (length (word_of l)) l = b :: r
  end.
Proof.
  unfold after_word. destruct (word_of_split l) as [_ [[E _]|(b & r & E & _)]].
  - rewrite <- E. rewrite drop_all. split_and!; [lia|by rewrite app_nil_r|done].
  - set (w := word_of l) in *. rewrite E, drop_app_length, zlen_app. split_and!; [lia|done|by exists b].
Qed.

(** The array is closed with a null pointer. *)
Lemma argv_closed m m4 n' ws :
  n' = zlen ws → 2 * n' ≤ 1027 → rd32 m4 args = buf → 1 ≤ n' → argv_in m4 args buf (buf + 1026) ws → changes_only rs m m4 →
  let m' := wr32 m4 (args + 4 * n') 0 in
  argv_in m' args buf (buf + 1026) ws ∧ rd32 m' args = buf ∧ rd32 m' (args + 4 * zlen ws) = 0 ∧ zlen ws ≤ 513 ∧ changes_only rs m m'.
Proof.
  intros -> Hn Hp Hn1 Ha Hc. unfold disjoint_regions in Hap.
  split_and!; [|by rewrite rd32_wr32_ne by lia|by rewrite rd32_wr32_eq|lia|].
  - apply (argv_in_kept m4); [done|intros x Hx; apply rd_wr32_ne; lia..].
  - apply (changes_only_trans _ _ m4); [done|]. eapply wr32_changes; [by right; left|cbn [fst snd]; lia..].
Qed.

Lemma path_alone m lim l :
  cstr m buf ([46; 47] ++ word_of l) → rd32 m args = buf → buf + 2 + zlen (word_of l) < lim →
  argv_in m args buf lim [[46; 47] ++ word_of l].
Proof.
  intros Hc Hp Hlim. apply (argv_in_snoc m args buf 0 lim [] _ buf); try done; try lia.
  - by rewrite Z.add_0_r.
  - rewrite zlen_app. change (zlen [46; 47]) with 2. lia.
Qed.

(** From the copy on: the first word is cut off and the others follow. *)
Lemma split_command m2 l :
  cstr m2 buf ([46; 47] ++ l) → zlen l ≤ 1023 →
  let scan := buf + 2 + zlen (word_of l) in
  let m := wr32 m2 args buf in
  returns (if negb (rd m scan =? 0) then parse_arguments args (wr m scan 0) (scan + 1) 1 else Ok (m, 1))
    (λ '(m', n), n = zlen (argv_of l) ∧ 2 * n ≤ 1027 ∧ rd32 m' args = buf ∧ 1 ≤ n ∧ argv_in m' args buf (buf + 1026) (argv_of l) ∧
      changes_only rs m2 m').
Proof.
  intros H2 Hshort scan m3. unfold disjoint_regions in Hap. set (w := word_of l) in *.
  destruct (first_word l) as (Hw & Esplit & Haft). fold w in Hw, Esplit, Haft. assert (0 ≤ zlen w) as Hw0 by lia.
  assert (cstr m3 buf ([46; 47] ++ l)) as H3.
  { apply (same_on_cstr buf (buf + 1026) m2); [intros x Hx; apply rd_wr32_ne; lia|lia| |done].
    rewrite zlen_app. change (zlen [46; 47]) with 2. lia. }
  assert (rd32 m3 args = buf) as Hp by (unfold m3; rewrite rd32_wr32_eq; apply u32_small; lia).
  assert (changes_only rs m2 m3) as Hm3 by (eapply wr32_changes; [by right; left|cbn; lia..]).
  rewrite Esplit, app_assoc in H3. pose proof (cstr_app _ _ _ _ H3) as Hrest.
  replace (buf + zlen ([46; 47] ++ w)) with scan in Hrest by (rewrite zlen_app; unfold scan; cbn; lia).
  unfold argv_of. fold w. destruct (after_word l) as [r|].
  - destruct Haft as [b Hd]. rewrite Hd in H3, Hrest, Esplit. pose proof Hrest as Hb.
    apply cstr_cons in Hb as (-> & Hb0 & Hr). rewrite (proj2 (Z.eqb_neq _ _)) by done. cbn [negb].
    assert (zlen l = zlen w + 1 + zlen r) as Ez by (rewrite Esplit, zlen_app, zlen_cons; lia).
    set (m4 := wr m3 scan 0). assert (∀ x, x ≠ scan → rd m4 x = rd m3 x) as Hother by (intros; apply rd_wr_ne; congruence).
    assert (rd32 m4 args = buf) as Hp4.
    { rewrite <- Hp. apply (same_on_rd32 args (args + 4)); [intros x Hx; apply Hother; unfold scan|..]; lia. }
    assert (changes_only rs m2 m4) as Hm4.
    { apply (changes_only_trans _ _ m3); [done|]. eapply wr_changes; [by left|]. unfold inside, scan. cbn [fst snd]. lia. }
    eapply returns_mono.
    { apply (parse_arguments_spec (buf + 2 + zlen l) (([46; 47] ++ w) :: args_of [] r) m4 (scan + 1) 1
        [[46; 47] ++ w] r (scan + 1)); [lia|]. constructor; [| | |done|unfold scan; lia| |done].
      - split_and!; [done|lia|done].
      - apply (same_on_cstr (scan + 1) (scan + 2 + zlen r) m3); [intros x Hx; apply Hother; lia|lia|lia|done].
      - apply path_alone; fold w; [|done|unfold scan; lia].
        eapply (cstr_cut m3); [exact H3| |]; rewrite zlen_app; change (zlen [46; 47]) with 2.
        + intros x Hx. apply Hother. unfold scan. lia.
        + replace (buf + (2 + zlen w)) with scan by (unfold scan; lia). unfold m4. by mach.
      - unfold scan. lia. }
    intros [m' n] (? & ? & ? & ? & ? & Hc). split_and!; try done. by apply (changes_only_trans _ _ m4).
  - rewrite Haft in H3, Hrest. apply cstr_nil in Hrest. rewrite Hrest. cbn [Z.eqb negb].
    apply returns_Ok. rewrite app_nil_r in H3. split_and!; [done|lia|done|lia| |done]. apply path_alone; [done|done|fold w; lia].
Qed.

Lemma make_argv_spec m command l :
  cstr m command l → zlen l < 4294967296 → apart (command, zlen l + 1) (buf, 1026) →
  returns (make_argv buf args command m) (λ o,
    if 1023 <? zlen l then o = None
    else ∃ m', o = Some m' ∧ argv_in m' args buf (buf + 1026) (argv_of l) ∧ rd32 m' args = buf ∧
      rd32 m' (args + 4 * zlen (argv_of l)) = 0 ∧ zlen (argv_of l) ≤ 513 ∧ changes_only rs m m').
Proof.
  intros Hl Hz Hcmd. unfold make_argv. rewrite (ece391_strlen_cstr m command l Hl Hz), bind_Ok.
  destruct (Z.ltb_spec 1023 (zlen l)) as [Hlong|Hshort]; [by apply returns_Ok|]. cbv zeta.
  eapply returns_bind; [by apply (copied_command m command l)|]. intros m2 [H2 Hm2].
  assert (cstr m2 (buf + 2) l) as H2' by exact (cstr_app m2 buf [46; 47] l H2).
  rewrite (scan_word_ends m2 (buf + 2) l H2'), bind_Ok by lia.
  eapply returns_bind; [exact (split_command m2 l H2 Hshort)|]. intros [m4 n'] (Hn & Hle & Hp & Hn1 & Ha & Hc). apply returns_Ok.
  eexists. split; [reflexivity|]. apply (argv_closed m m4 n'); [done..|]. apply (changes_only_trans _ _ m2); [|done].
  eapply changes_only_mono; [exact Hm2|]. intros r ->%list_elem_of_singleton. by left.
Qed.

Lemma read_argv_spec m ws :
  argv_in m args buf (buf + 1026) ws → rd32 m (args + 4 * zlen ws) = 0 → zlen ws ≤ 513 →
  read_argv m args = Ok ws.
Proof.
  intros Ha Hend Hn. unfold read_argv. apply returns_eq, whileM_total with
    (I := λ '(i, l), 0 ≤ i ≤ zlen ws ∧ l = take (Z.to_nat i) ws) (V := λ '(i, l), zlen ws - i).
  - split; [lia|done].
  - lia.
  - intros [i l] [Hi ->]. destruct (decide (i = zlen ws)) as [->|Hne].
    + rewrite Hend. apply returns_Ok. rewrite Nat2Z.id. apply firstn_all.
    + destruct (lookup_lt_is_Some_2 ws (Z.to_nat i) ltac:(lia)) as [w Hw].
      destruct (Ha _ _ Hw) as (Hp1 & Hp2 & Hc). rewrite Z2Nat.id in Hp1, Hp2, Hc by lia.
      rewrite (proj2 (Z.eqb_neq _ _)) by lia. unfold read_string.
      rewrite (ece391_strlen_cstr m _ w Hc), !bind_Ok by lia. apply returns_Ok. split; [|lia]. split; [lia|].
      replace (Z.to_nat (i + 1)) with (S (Z.to_nat i)) by lia. rewrite (take_S_r _ _ _ Hw). by destruct Hc as (_ & -> & _).
Qed.
End parse.

(** ** The loop of getargs *)

(** What stands in the buffer while more arguments follow. *)
Definition joined (ds : list (list Z)) : list Z := ds ≫= λ w, w ++ [32].

Lemma joined_snoc ds w : joined (ds ++ [w]) = joined ds ++ w ++ [32].
Proof. unfold joined. rewrite bind_app. cbn. by rewrite app_nil_r. Qed.

Lemma join_joined ds e es : join (ds ++ e :: es) = joined ds ++ join (e :: es).
Proof.
  induction ds as [|d ds IH]; [done|]. cbn [app]. change (joined (d :: ds)) with ((d ++ [32]) ++ joined ds).
  rewrite <- !app_assoc, <- IH. cbn [app]. destruct (ds ++ e :: es) eqn:E; [by destruct ds|done].
Qed.

Section getargs.
Context (m : mem) (argv lo lim buf nbytes : Z) (w0 : list Z) (ws : list (list Z)).
Context (Hargv : argv_in m argv lo lim (w0 :: ws)) (Hlim : lim - lo < 2147483648).
Context (Hn : zlen ws < 2147483647) (Hnb : 0 ≤ nbytes < 2147483648).
Context (Hap1 : disjoint_regions lo (lim - lo) buf (nbytes + 1)).
Context (Hap2 : disjoint_regions argv (4 + 4 * zlen ws) buf (nbytes + 1)).

(** The memory at the head of the loop, and the argument in turn. *)
Lemma turn mk T i w :
  mk ≡ wr_bytes m buf T → zlen T ≤ nbytes → ws !! i = Some w →
  let p := rd32 mk (argv + 4 * (1 + Z.of_nat i)) in
  cstr mk p w ∧ zlen w < 2147483648 ∧ (p + zlen w < buf ∨ buf + nbytes < p).
Proof.
  intros Hmk HT Hw. destruct (Hargv (S i) w Hw) as (Hp1 & Hp2 & Hc). apply lookup_lt_Some in Hw.
  unfold disjoint_regions in *. replace (4 * (1 + Z.of_nat i)) with (4 * Z.of_nat (S i)) by lia.
  assert (∀ a, a < buf ∨ buf + nbytes ≤ a → rd mk a = rd m a) as Hsame.
  { intros a Ha. rewrite (Hmk a), rd_wr_bytes. case_z; cbn [andb]; done || lia. }
  assert (rd32 mk (argv + 4 * Z.of_nat (S i)) = rd32 m (argv + 4 * Z.of_nat (S i))) as E.
  { apply (same_on_rd32 argv (argv + 4 + 4 * zlen ws)); [intros a Ha; apply Hsame|..]; lia. }
  cbv zeta. rewrite E. split_and!; [|lia|lia].
  apply (same_on_cstr lo lim m); [|done..]. intros a Ha. apply Hsame. lia.
Qed.

Lemma join_first w es : zlen w ≤ zlen (join (w :: es)).
Proof. destruct es as [|e es]; [done|]. cbn [join]. rewrite zlen_app. lia. Qed.

(** An argument copied behind what is there, and a space put on its 0. *)
Lemma placed T w mk mk' :
  mk ≡ wr_bytes m buf T → mk' ≡ wr_bytes mk (buf + zlen T) (w ++ [0]) → zlen T + zlen w ≤ nbytes →
  mk' ≡ wr_bytes m buf (T ++ w ++ [0]) ∧ changes_only [(buf, nbytes + 1)] m mk' ∧
  wr mk' (buf + zlen T + zlen w) 32 ≡ wr_bytes m buf (T ++ w ++ [32]).
Proof.
  intros Hmk Hmk' Hz. assert (mk' ≡ wr_bytes m buf (T ++ w ++ [0])) as E.
  { rewrite (wr_bytes_app m buf T). by rewrite Hmk', Hmk. }
  split_and!; [done| |].
  - intros a Ha. apply Forall_cons in Ha as [Ha _]. unfold inside in Ha. cbn [fst snd] in Ha.
    rewrite (E a), rd_wr_bytes, !zlen_app. change (zlen [0]) with 1. case_z; cbn [andb]; done || lia.
  - rewrite E, !wr_bytes_app. cbn [wr_bytes]. intros a. rewrite !rd_wr. by destruct (a =? _).
Qed.

Definition fits : bool := zlen (join ws) <? nbytes.

Lemma join_arguments_spec :
  returns (join_arguments argv (1 + zlen ws) m buf nbytes) (λ '(m', r),
    changes_only [(buf, nbytes + 1)] m m' ∧
    match r with
    | None => fits = false
    | Some (b, n) => b = buf + zlen (join ws) ∧ n = nbytes - zlen (join ws) ∧
        (m' ≡ m ∧ ws = [] ∨ m' ≡ wr_bytes m buf (join ws ++ [0]) ∧ 0 ≤ n)
    end).
Proof.
  unfold join_arguments, fits. apply whileM_total with
    (I := λ '(mk, b, n, idx), ∃ ds es, ws = ds ++ es ∧ (ws = [] ∨ es ≠ []) ∧ idx = 1 + zlen ds ∧
       b = buf + zlen (joined ds) ∧ n = nbytes - zlen (joined ds) ∧ 0 ≤ n ∧ mk ≡ wr_bytes m buf (joined ds))
    (V := λ '(mk, b, n, idx), zlen ws - idx + 1).
  - exists [], ws. split_and!; try done; try (cbn; lia). destruct ws; [by left|by right].
  - lia.
  - intros [[[mk b] n] idx] (ds & es & Ews & Hes & -> & -> & -> & Hn0 & Hmk).
    assert (changes_only [(buf, nbytes + 1)] m mk) as Hc.
    { intros a Ha. apply Forall_cons in Ha as [Ha _]. unfold inside in Ha. cbn [fst snd] in Ha.
      rewrite (Hmk a), rd_wr_bytes. case_z; cbn [andb]; done || lia. }
    assert (zlen ws = zlen ds + zlen es) as Elen by by rewrite Ews, zlen_app.
    destruct es as [|w es].
    { destruct Hes as [E|]; [|done]. rewrite E in *. destruct ds; [|done]. cbn. apply returns_Ok. split; [done|].
      split_and!; [done|done|]. left. by rewrite Hmk. }
    clear Hes. rewrite zlen_cons in Elen. assert (0 ≤ zlen es ∧ 0 ≤ zlen ds) as [Hes Hds] by lia.
    rewrite (proj2 (Z.ltb_lt _ _)) by lia.
    destruct (turn mk (joined ds) (length ds) w Hmk ltac:(lia)) as (Hw & Hwl & Hfar).
    { rewrite Ews. by apply list_lookup_middle. }
    set (p := rd32 mk _) in *. rewrite (ece391_strlen_cstr mk p w Hw), bind_Ok by lia. rewrite s32_small by lia. cbv zeta.
    assert (join ws = joined ds ++ join (w :: es)) as Ejoin by by rewrite Ews, join_joined.
    assert (zlen (join ws) = zlen (joined ds) + zlen (join (w :: es))) as Ejl by by rewrite Ejoin, zlen_app.
    destruct (Z.ltb_spec (nbytes - zlen (joined ds)) (zlen w)) as [Hlong|Hfit].
    { apply returns_Ok. split; [done|]. apply Z.ltb_ge. pose proof (join_first w es). lia. }
    eapply returns_bind; [apply (ece391_strcpy_cstr mk (buf + zlen (joined ds)) p w Hw); lia|]. intros mk' E.
    destruct (placed (joined ds) w mk mk' Hmk E ltac:(lia)) as (Hmk' & Hc' & Hnext).
    rewrite s32_small by lia. destruct es as [|e es].
    + cbn in Elen. rewrite (proj2 (Z.leb_le _ _)) by lia. apply returns_Ok. split; [done|]. rewrite Ejoin. cbn [join].
      rewrite zlen_app. split_and!; [lia|lia|]. right. split; [by rewrite <- app_assoc|lia].
    + rewrite zlen_cons in Elen, Hes. assert (0 ≤ zlen es) by lia. rewrite (proj2 (Z.leb_gt _ _)) by lia.
      assert (zlen (join (w :: e :: es)) = zlen w + 1 + zlen (join (e :: es))) as Ej.
      { change (join (w :: e :: es)) with (w ++ 32 :: join (e :: es)). rewrite zlen_app, zlen_cons. lia. }
      destruct (Z.ltb_spec (nbytes - zlen (joined ds) - zlen w) 1) as [Hfull|Hroom]; apply returns_Ok.
      * split; [done|]. apply Z.ltb_ge. lia.
      * split; [|lia]. exists (ds ++ [w]), (e :: es). rewrite joined_snoc, !zlen_app. change (zlen [w]) with 1. change (zlen [32]) with 1.
        split_and!; [by rewrite Ews, <- app_assoc|by right|lia|lia|lia|lia|exact Hnext].
Qed.
End getargs.

(** ** The directory as a file *)

(** What a read of [n] bytes takes from an entry. *)
Definition entry_record (n : Z) (name : list Z) : list Z := take (Z.to_nat (Z.min n 32)) (name ++ replicate 32 0).

Lemma entry_record_length n name : 0 ≤ n → zlen (entry_record n name) = Z.min n 32.
Proof.
  intros Hn. unfold entry_record. rewrite length_take, length_app, length_replicate. lia.
Qed.

Lemma copy_entry_spec from to n m name :
  cstr m from name → 1 ≤ n → zlen name < 4294967296 → apart (from, zlen name + 1) (to, Z.min n 32) →
  returns (copy_entry from to n m) (λ '(m', copied, full),
    copied = Z.min (Z.min n 32) (zlen name) ∧ full = (Z.min n 32 <=? zlen name) ∧
    m' ≡ wr_bytes m to (take (Z.to_nat copied) name)).
Proof.
  intros Hc Hn Hz Hap. unfold apart, disjoint_regions in Hap. cbn [fst snd] in Hap. unfold copy_entry.
  apply while_total with
    (I := λ '(mk, a, b, i), a = from + i ∧ b = to + i ∧ 0 ≤ i ≤ zlen name ∧ i < Z.min n 32 ∧
       mk ≡ wr_bytes m to (take (Z.to_nat i) name))
    (V := λ '(mk, a, b, i), zlen name - i).
  - split_and!; lia || done.
  - lia.
  - intros [[[mk a] b] i] (-> & -> & Hi & Hin & Hmk).
    assert (zlen (take (Z.to_nat i) name) = i) as Elen by (rewrite length_take; lia).
    assert (rd mk (from + i) = rd m (from + i)) as ->.
    { rewrite (Hmk _), rd_wr_bytes, Elen. case_z; cbn [andb]; done || lia. }
    destruct (decide (i = zlen name)) as [->|Hne].
    + rewrite (cstr_end m from name Hc). apply returns_Ok. split_and!; [lia| |done].
      symmetry. apply Z.leb_gt. lia.
    + destruct (cstr_char m from name i Hc ltac:(lia)) as [Hch Hnz]. rewrite (proj2 (Z.eqb_neq _ _)) by done.
      assert (wr mk (to + i) (rd m (from + i)) ≡ wr_bytes m to (take (Z.to_nat (i + 1)) name)) as Hnext.
      { replace (Z.to_nat (i + 1)) with (S (Z.to_nat i)) by lia. erewrite take_S_r by exact Hch.
        rewrite wr_bytes_app, Elen. cbn [wr_bytes]. by rewrite Hmk. }
      destruct (Z.eqb_spec (i + 1) n) as [En|]; [|destruct (Z.eqb_spec 32 (i + 1)) as [En|]]; cbn [orb].
      * apply returns_Ok. replace (Z.min (Z.min n 32) (zlen name)) with (i + 1) by lia. split_and!; [done| |done].
        symmetry. apply Z.leb_le. lia.
      * apply returns_Ok. replace (Z.min (Z.min n 32) (zlen name)) with (i + 1) by lia. split_and!; [done| |done].
        symmetry. apply Z.leb_le. lia.
      * split; [|lia]. split_and!; lia || done.
Qed.

Lemma pad_entry_spec buf n copied m :
  0 ≤ copied ≤ Z.min n 32 →
  returns (pad_entry buf n copied m) (λ '(m', c), c = Z.min n 32 ∧
    m' ≡ wr_bytes m (buf + copied) (replicate (Z.to_nat (Z.min n 32 - copied)) 0)).
Proof.
  intros Hc. unfold pad_entry. apply while_total with
    (I := λ '(mk, c), copied ≤ c ≤ Z.min n 32 ∧ mk ≡ wr_bytes m (buf + copied) (replicate (Z.to_nat (c - copied)) 0))
    (V := λ '(mk, c), Z.min n 32 - c).
  - split; [lia|]. by rewrite Z.sub_diag.
  - lia.
  - intros [mk c] [Hi Hmk]. destruct (Z.ltb_spec c n), (Z.ltb_spec c 32); cbn [andb].
    + split; [|lia]. split; [lia|]. replace (Z.to_nat (c + 1 - copied)) with (S (Z.to_nat (c - copied))) by lia.
      rewrite replicate_S_end, wr_bytes_app, zlen_replicate by lia. cbn [wr_bytes].
      replace (buf + copied + (c - copied)) with (buf + c) by lia. by rewrite Hmk.
    + apply returns_Ok. split; [lia|]. replace (Z.min n 32) with c by lia. done.
    + apply returns_Ok. split; [lia|]. replace (Z.min n 32) with c by lia. done.
    + apply returns_Ok. split; [lia|]. replace (Z.min n 32) with c by lia. done.
Qed.

Section directory.
Context `{Linux L}.
Implicit Types s : emu L.

(** The stream of a directory, whose entries libc puts into [scratch]. *)
Fixpoint dir_stream (d : Z) (scratch : Z * Z) (names : list (list Z)) (l : L) : Prop :=
  match names with
  | [] => ∀ m, ∃ m' l', readdir d m l = (0, m', l') ∧ changes_only [scratch] m m'
  | name :: names' => ∀ m, ∃ de m' l', readdir d m l = (de, m', l') ∧ de ≠ 0 ∧ cstr m' de name ∧
      fst scratch ≤ de ∧ de + zlen name + 1 ≤ fst scratch + snd scratch ∧ changes_only [scratch] m m' ∧
      dir_stream d scratch names' l'
  end.

(** A program that reads the directory [k] times, and what it finds in its buffer. *)
Fixpoint read_entries (k : nat) (fd buf n : Z) s : res (emu L * list (list Z)) :=
  match k with
  | O => Ok (s, [])
  | S k' =>
      '(s, r) ← ece391_read fd buf n s;
      let data := bytes (emem s) buf r in
      '(s, rest) ← read_entries k' fd buf n s; Ok (s, data :: rest)
  end.

Definition reading_dir (fd d : Z) s : Prop := dir s = d ∧ dir_fd s = fd ∧ d ≠ 0.

Context (fd d buf n : Z) (scratch : Z * Z) (Hn : 1 ≤ n < 2147483648).
Context (Hap : apart scratch (buf, Z.min n 32)) (Hscr : snd scratch < 4294967296).

Lemma read_entry s name names :
  reading_dir fd d s → dir_stream d scratch (name :: names) (linux s) → Forall (λ c, 0 ≤ c < 256) name →
  returns (ece391_read fd buf n s) (λ '(s', r), r = Z.min n 32 ∧ bytes (emem s') buf r = entry_record n name ∧
    changes_only [scratch; (buf, Z.min n 32)] (emem s) (emem s') ∧
    reading_dir fd d s' ∧ dir_stream d scratch names (linux s')).
Proof.
  intros (Hd & Hf & Hd0) Hst Hb. unfold ece391_read. rewrite Hd, Hf.
  rewrite (proj2 (Z.eqb_neq 0 d)), Z.eqb_refl by congruence. cbn [negb orb].
  destruct (Hst (emem s)) as (de & m & l & -> & Hde & Hc & Hlo & Hhi & Hm & Hst'). cbv zeta.
  rewrite (proj2 (Z.eqb_neq 0 de)) by congruence. assert (0 ≤ zlen name) by lia.
  eapply returns_bind.
  { apply (copy_entry_spec de buf n m name Hc ltac:(lia) ltac:(lia)).
    unfold apart, disjoint_regions in *. cbn [fst snd] in *. lia. }
  intros [[m' copied] full] (-> & -> & Em'). set (c := Z.min (Z.min n 32) (zlen name)) in *.
  assert (∀ m2, m2 ≡ wr_bytes m buf (entry_record n name) →
    bytes m2 buf (Z.min n 32) = entry_record n name ∧ changes_only [scratch; (buf, Z.min n 32)] (emem s) m2) as Hdone.
  { intros m2 E. split.
    - rewrite <- (entry_record_length n name) at 1 by lia. apply (wr_bytes_read m buf); [done|].
      apply Forall_take, Forall_app. split; [done|]. apply Forall_replicate. lia.
    - apply (changes_only_trans _ _ m).
      { eapply changes_only_mono; [exact Hm|]. intros x ->%list_elem_of_singleton. by left. }
      intros a Ha. apply Forall_cons in Ha as [_ Ha]. apply Forall_cons in Ha as [Ha _]. unfold inside in Ha.
      cbn [fst snd] in Ha. rewrite (E a), rd_wr_bytes, entry_record_length by lia. case_z; cbn [andb]; done || lia. }
  destruct (Z.leb_spec (Z.min n 32) (zlen name)) as [Hle|Hgt].
  - apply returns_Ok. assert (c = Z.min n 32) as -> by lia. destruct (Hdone m') as [H1 H2].
    { rewrite Em'. unfold entry_record. by rewrite take_app_le by lia. }
    by split_and!.
  - assert (c = zlen name) as Ec by lia. eapply returns_bind; [apply (pad_entry_spec buf n c m'); lia|].
    intros [m2 c'] [-> E2]. apply returns_Ok. destruct (Hdone m2) as [H1 H2]; [|by split_and!].
    rewrite E2, Em', Ec, Nat2Z.id, firstn_all. unfold entry_record. rewrite take_app_ge by lia.
    rewrite wr_bytes_app, take_replicate. by replace (_ `min` 32)%nat with (Z.to_nat (Z.min n 32 - zlen name)) by lia.
Qed.

Lemma read_end s :
  reading_dir fd d s → dir_stream d scratch [] (linux s) →
  returns (ece391_read fd buf n s) (λ '(s', r), r = 0 ∧ reading_dir fd d s' ∧
    changes_only [scratch; (buf, Z.min n 32)] (emem s) (emem s')).
Proof.
  intros (Hd & Hf & Hd0) Hst. unfold ece391_read. rewrite Hd, Hf.
  rewrite (proj2 (Z.eqb_neq 0 d)), Z.eqb_refl by congruence. cbn [negb orb].
  destruct (Hst (emem s)) as (m & l & -> & Hm). apply returns_Ok. split_and!; [done..|].
  eapply changes_only_mono; [exact Hm|]. intros x ->%list_elem_of_singleton. by left.
Qed.

Lemma read_all_entries s names :
  reading_dir fd d s → dir_stream d scratch names (linux s) → Forall (Forall (λ c, 0 ≤ c < 256)) names →
  returns (read_entries (S (length names)) fd buf n s) (λ '(s', l),
    l = (entry_record n <$> names) ++ [[]] ∧ reading_dir fd d s' ∧
    changes_only [scratch; (buf, Z.min n 32)] (emem s) (emem s')).
Proof.
  revert s. induction names as [|name names IH]; intros s Hs Hst Hb.
  - cbn [length read_entries]. eapply returns_bind; [by apply read_end|]. intros [s' r] (-> & Hs' & Hc). by apply returns_Ok.
  - apply Forall_cons in Hb as [Hb1 Hb2]. change (length (name :: names)) with (S (length names)).
    remember (S (length names)) as k eqn:Ek. cbn [read_entries].
    eapply returns_bind; [by apply (read_entry s name names)|]. intros [s' r] (-> & E & Hc & Hs' & Hst'). cbv zeta.
    eapply returns_bind; [by apply IH|]. intros [s'' l] (-> & Hs'' & Hc''). apply returns_Ok. rewrite E.
    split_and!; [done|done|]. by apply (changes_only_trans _ _ (emem s')).
Qed.
End directory.

(** ** Properties *)

Lemma blank_not_space c : blank c = false → c ≠ 32.
Proof. intros H ->. done. Qed.

(** A command line with single spaces, as either kernel takes it apart. *)
Lemma argv_of_join w ws :
  word w → Forall word ws → argv_of (w ++ 32 :: join ws) = ([46; 47] ++ w) :: ws.
Proof.
  intros [_ Hw] Hws. unfold argv_of, after_word.
  assert (word_of (w ++ 32 :: join ws) = w) as ->.
  { induction Hw as [|c w Hc Hw IH]; [done|]. cbn [app word_of]. rewrite Hc. by f_equal. }
  rewrite drop_app_length, args_of_join by done. done.
Qed.

Lemma kernel_arguments m command w r :
  cstr m command (w ++ 32 :: r) → Forall (λ c, blank c = false) w → zlen w < 32 →
  parsed_name m command = w ∧ cstr m (command + parse_end m command + 1) r.
Proof.
  intros Hc Hw Hz. pose proof (cstr_app m command w _ Hc) as Hr. apply cstr_cons in Hr as (H32 & _ & Hr).
  assert (∀ i, 0 ≤ i < zlen w → rd m (command + i) ≠ 32) as Hbefore.
  { intros i Hi. destruct Hc as (_ & Hb & _). destruct (lookup_lt_is_Some_2 w (Z.to_nat i) ltac:(lia)) as [c Hi'].
    rewrite (bytes_eq_lookup m command _ i c Hb); [|lia|by apply lookup_app_l_Some].
    apply blank_not_space. by apply (Forall_lookup_1 _ _ _ _ Hw Hi'). }
  assert (parse_end m command = zlen w) as E.
  { pose proof (parse_end_range m command). destruct (Z.lt_trichotomy (parse_end m command) (zlen w)) as [Hlt|[?|Hgt]]; [|done|].
    - destruct (Hbefore (parse_end m command) ltac:(lia)). apply parse_end_stop. lia.
    - by destruct (parse_end_before m command (zlen w) ltac:(lia)). }
  unfold parsed_name. rewrite E. split; [|exact Hr]. destruct Hc as (Hnz & Hb & _).
  rewrite zlen_app in Hb. rewrite bytes_app in Hb by lia. apply app_inj_1 in Hb as [-> _].
  - apply Forall_app in Hnz as [Hnz _]. clear -Hnz. induction Hnz as [|c w Hc Hnz IH]; [done|]. cbn [c_prefix].
    rewrite (proj2 (Z.eqb_neq _ _)) by done. by f_equal.
  - pose proof (zlen_bytes m command (zlen w) ltac:(lia)). lia.
Qed.

(** How execute's caller sees the end of the child. *)
Definition outcome (junk : wait_status) (c : child) : Z :=
  match c with
  | NoExec => -1
  | NoChild => match junk with Exited code => code | Signaled sig => if sig =? 9 then -1 else 256 end
  | Ended (Exited code) => code
  | Ended (Signaled sig) => if sig =? 9 then -1 else 256
  end.

(** execute, from the command to the end of the child. *)
Lemma ece391_execute_spec `{Linux L} buf args junk command l (s : emu L) :
  0 < buf → buf + 1026 < 4294967296 → disjoint_regions buf 1026 args 4096 →
  cstr (emem s) command l → zlen l < 4294967296 → apart (command, zlen l + 1) (buf, 1026) →
  if 1023 <? zlen l then ece391_execute buf args junk command s = Ok (s, -1)
  else returns (ece391_execute buf args junk command s) (λ '(s', r),
    changes_only [(buf, 1026); (args, 4096)] (emem s) (emem s') ∧ dir s' = dir s ∧ dir_fd s' = dir_fd s ∧
    let '(c, lx) := run_program ([46; 47] ++ word_of l) (argv_of l) (linux s) in
    linux s' = lx ∧ r = outcome junk c).
Proof.
  intros Hbuf Hlow Hap Hl Hz Hcmd. unfold ece391_execute.
  destruct (make_argv_spec buf args Hbuf Hlow Hap (emem s) command l Hl Hz Hcmd) as (o & -> & Ho). rewrite bind_Ok.
  destruct (1023 <? zlen l); [by rewrite Ho|]. destruct Ho as (m' & -> & Ha & Hp & Hend & Hn & Hc).
  destruct (Ha 0%nat _ eq_refl) as (Hp1 & Hp2 & Hp3). rewrite Z.add_0_r, Hp in Hp2, Hp3. unfold read_string at 1.
  rewrite (ece391_strlen_cstr m' buf _ Hp3), !bind_Ok by lia. destruct Hp3 as (_ & -> & _).
  rewrite (read_argv_spec buf args Hbuf m' _ Ha Hend Hn), bind_Ok.
  destruct (run_program _ _ _) as [c lx]. apply returns_Ok. split_and!; [done..|].
  unfold outcome. destruct c as [| |[|]]; try destruct junk; try done; by rewrite Z.eqb_sym.
Qed.

(** getargs of a program that was started with [w0] and the arguments [ws]. *)
Lemma ece391_getargs_spec `{Linux L} (c : emu L) lo lim b n w0 ws :
  rd32 (emem c) (start_esp c) = 1 + zlen ws → argv_in (emem c) (start_esp c + 4) lo lim (w0 :: ws) →
  lim - lo < 2147483648 → 1 + zlen ws < 2147483648 → 0 ≤ n < 2147483648 →
  disjoint_regions lo (lim - lo) b (n + 1) → disjoint_regions (start_esp c) (8 + 4 * zlen ws) b (n + 1) →
  returns (ece391_getargs b n c) (λ '(c', r),
    changes_only [(b, n + 1)] (emem c) (emem c') ∧
    if zlen (join ws) <? n then r = 0 ∧ emem c' ≡ wr_bytes (emem c) b (join ws ++ [0]) else r = -1).
Proof.
  intros Hargc Hargv Hlim Hlen Hn Hd1 Hd2. unfold ece391_getargs. rewrite Hargc.
  assert (0 ≤ zlen ws) by lia. rewrite s32_small by lia. eapply returns_bind.
  { apply (join_arguments_spec (emem c) (start_esp c + 4) lo lim b n w0 ws Hargv Hlim ltac:(lia) Hn Hd1).
    unfold disjoint_regions in *. lia. }
  intros [m' [[b' n']|]] [Hc Hr].
  2: { apply returns_Ok. unfold fits in Hr. by rewrite Hr. }
  destruct Hr as (-> & -> & Hr). destruct (Z.ltb_spec (zlen (join ws)) n) as [Hfit|Hno].
  2: { rewrite (proj2 (Z.ltb_lt _ _)) by lia. by apply returns_Ok. }
  rewrite (proj2 (Z.ltb_ge _ _)) by lia. apply returns_Ok.
  split.
  { apply (changes_only_trans _ _ m'); [done|]. eapply wr_changes; [by left|]. unfold inside. cbn [fst snd]. lia. }
  split; [done|]. cbn [set_emem emem]. destruct Hr as [[E Ews]|[E _]]; rewrite E.
  - rewrite Ews. cbn. by rewrite Z.add_0_r.
  - rewrite !wr_bytes_app. cbn [wr_bytes]. intros x. rewrite !rd_wr. by destruct (x =? _).
Qed.

(** C16: a command line under Linux and under the kernel.  The emulated execute
    of a command of at most 1023 characters runs the program of the current
    directory that its first word names, with the words behind it as arguments,
    writes nothing but its two local arrays, and returns the status, 256 for a
    program that died, -1 for one killed by signal 9, as the child is when
    there is no such program; a longer command is refused.  The emulated
    getargs of a program with these arguments, laid out as Linux does anywhere
    in memory (the strings together in less than 2 GB, the buffer apart from
    them and from the array of pointers), joins them with single spaces, with a
    0 at the end and 0 for the result, exactly when that fits in the buffer,
    and else returns -1; it writes the buffer and perhaps the byte behind it.  For a command that is a name of less than
    32 characters and words with single spaces between them these are the name
    and the arguments that the kernel's execute finds. *)
Theorem emulated_arguments `{Linux L} buf args junk command l (s : emu L) :
  0 < buf → buf + 1026 < 4294967296 → disjoint_regions buf 1026 args 4096 →
  cstr (emem s) command l → zlen l < 4294967296 → apart (command, zlen l + 1) (buf, 1026) →
  (if 1023 <? zlen l then ece391_execute buf args junk command s = Ok (s, -1)
   else returns (ece391_execute buf args junk command s) (λ '(s', r),
     changes_only [(buf, 1026); (args, 4096)] (emem s) (emem s') ∧ dir s' = dir s ∧ dir_fd s' = dir_fd s ∧
     let '(c, lx) := run_program ([46; 47] ++ word_of l) (argv_of l) (linux s) in
     linux s' = lx ∧ r = outcome junk c)) ∧
  (∀ (c : emu L) lo lim b n,
     rd32 (emem c) (start_esp c) = zlen (argv_of l) → argv_in (emem c) (start_esp c + 4) lo lim (argv_of l) →
     lim - lo < 2147483648 → zlen (argv_of l) < 2147483648 → 0 ≤ n < 2147483648 →
     disjoint_regions lo (lim - lo) b (n + 1) →
     disjoint_regions (start_esp c) (4 + 4 * zlen (argv_of l)) b (n + 1) →
     returns (ece391_getargs b n c) (λ '(c', r),
       changes_only [(b, n + 1)] (emem c) (emem c') ∧
       let t := join (tail (argv_of l)) in
       if zlen t <? n then r = 0 ∧ emem c' ≡ wr_bytes (emem c) b (t ++ [0]) else r = -1)) ∧
  (∀ w ws, l = w ++ 32 :: join ws → word w → zlen w < 32 → Forall word ws →
     argv_of l = ([46; 47] ++ w) :: ws ∧
     parsed_name (emem s) command = w ∧ cstr (emem s) (command + parse_end (emem s) command + 1) (join (tail (argv_of l)))).
Proof.
  intros Hbuf Hlow Hap Hl Hz Hcmd. split_and!.
  - by apply ece391_execute_spec.
  - intros c lo lim b n Hargc Hargv Hlim Hlen Hn Hd1 Hd2. unfold argv_of in *. cbn [tail]. rewrite zlen_cons in *.
    eapply ece391_getargs_spec; try done. unfold disjoint_regions in *. lia.
  - intros w ws -> Hw Hz32 Hws. rewrite argv_of_join by done. split; [done|].
    apply kernel_arguments; [done|apply Hw|done].
Qed.

(** A Linux with a directory listing, whose programs exit with the number of
    their arguments; the raw calls do nothing. *)
Record shelf := Shelf { listing : list (list Z); ran : list (list (list Z)) }.

#[export] Instance shelf_linux : Linux shelf := {
  opendir l := (1, l);
  readdir d m l :=
    match listing l with
    | [] => (0, m, l)
    | x :: xs => (0x9000, wr_bytes m 0x9000 (x ++ [0]), Shelf xs (ran l))
    end;
  closedir d l := l;
  open_null l := (5, l);
  open_mem l := (6, l);
  close fd l := l;
  mmap_low fd l := (None, l);
  sys_open name l := (u32 (-2), l);
  sys_read fd n l := (0, [], l);
  sys_write fd data l := (zlen data, l);
  sys_close fd l := (0, l);
  run_program path argv l := (Ended (Exited (zlen argv)), Shelf (listing l) (argv :: ran l))
}.

Definition typed_command : list Z := codes "grep ab c".
Definition emu_parent : emu shelf :=
  Emu (Shelf [] []) (wr_bytes mem0 0x3000 (typed_command ++ [0])) 0 (-1) 0 (-1).

(** The process Linux makes of it, its arguments at the top of the user's 3 GB. *)
Definition emu_child : emu shelf :=
  let m := wr_bytes mem0 0xBFFFF100 (codes "./grep" ++ [0] ++ codes "ab" ++ [0] ++ codes "c" ++ [0]) in
  let m := wr32 (wr32 (wr32 (wr32 m 0xBFFFF000 3) 0xBFFFF004 0xBFFFF100) 0xBFFFF008 0xBFFFF107) 0xBFFFF00C 0xBFFFF10A in
  Emu (Shelf [] []) m 0xBFFFF000 (-1) 0 (-1).

Lemma emulated_arguments_witness :
  returns (ece391_execute 0x4000 0x5000 (Exited 0) 0x3000 emu_parent) (λ '(s', r),
    r = 3 ∧ ran (linux s') = [[codes "./grep"; codes "ab"; codes "c"]]) ∧
  returns (ece391_getargs 0x8000 10 emu_child) (λ '(c', r),
    r = 0 ∧ emem c' ≡ wr_bytes (emem emu_child) 0x8000 (codes "ab c" ++ [0])) ∧
  parsed_name (emem emu_parent) 0x3000 = codes "grep".
Proof.
  destruct (emulated_arguments 0x4000 0x5000 (Exited 0) 0x3000 typed_command emu_parent ltac:(lia) ltac:(lia)
    ltac:(unfold disjoint_regions; lia) ltac:(by_decide) ltac:(by_decide)
    ltac:(unfold apart, disjoint_regions; by_decide)) as (H1 & H2 & H3).
  split_and!.
  - eapply returns_mono; [exact H1|]. intros [s' r] (_ & _ & _ & Hl & Hr). by rewrite Hr, Hl.
  - eapply returns_mono; [apply (H2 emu_child 0xBFFFF100 0xC0000000 0x8000 10); try (unfold disjoint_regions; by_decide)|].
    + intros [|[|[|i]]] w [= <-]; cbv zeta; split_and!; by_decide.
    + intros [c' r] (_ & Hr). exact Hr.
  - apply (H3 (codes "grep") [codes "ab"; codes "c"]); [reflexivity|split; [done|by_decide]|by_decide|].
    repeat constructor; done || by_decide.
Defined.

(** The byte behind the buffer: with the two bytes that the argument ab itself
    takes getargs fails, having written its 0 at the third. *)
Lemma getargs_overruns :
  let c := Emu (linux emu_child) (wr (emem emu_child) 0x8002 7) 0xBFFFF000 (-1) 0 (-1) in
  match ece391_getargs 0x8000 2 c with Ok (c', r) => (r, rd (emem c') 0x8002) = (-1, 0) | Err _ => False end.
Proof. vm_compute. reflexivity. Qed.

(** C17: the directory under Linux.  open of a name that is a dot gives a
    descriptor of its own; reads of it, into a buffer of at least one byte,
    bring the names one by one as Linux lists them, cut or filled with zeros to
    as many bytes as were asked for, at most 32, and then nothing; nothing but
    the buffer and libc's own entry is written.  A write to it is refused,
    reads and writes of other descriptors go to Linux, and close makes it an
    ordinary descriptor again. *)
Theorem emulated_directory `{Linux L} dot filename buf n scratch names (s : emu L) d fd l1 l2 :
  cstr (emem s) filename [46] → cstr (emem s) dot [46] →
  opendir (linux s) = (d, l1) → d ≠ 0 → open_null l1 = (fd, l2) → dir_stream d scratch names l2 →
  Forall (Forall (λ c, 0 ≤ c < 256)) names → 1 ≤ n < 2147483648 →
  apart scratch (buf, Z.min n 32) → snd scratch < 4294967296 →
  returns ('(s, fd') ← ece391_open dot filename s;
           '(s', l) ← read_entries (S (length names)) fd' buf n s; Ok (s', fd', l)) (λ '(s', fd', l),
    fd' = fd ∧ l = (entry_record n <$> names) ++ [[]] ∧
    changes_only [scratch; (buf, Z.min n 32)] (emem s) (emem s') ∧
    (∀ b k, ece391_write fd b k s' = (s', -1)) ∧
    (∀ fd2 b k, fd2 ≠ fd → ece391_read fd2 b k s' = Ok (__ece391_read fd2 b k s') ∧
       ece391_write fd2 b k s' = __ece391_write fd2 b k s') ∧
    let '(s2, r) := ece391_close fd s' in
    r = 0 ∧ emem s2 = emem s' ∧ ∀ b k, ece391_read fd b k s2 = Ok (__ece391_read fd b k s2)).
Proof.
  intros Hname Hdot Ed Hd0 Efd Hst Hb Hn Hap Hscr. unfold ece391_open.
  rewrite (ece391_strcmp_cstr (emem s) filename dot [46] [46] Hname Hdot), bind_Ok by by_decide.
  change (0 =? first_difference [46] [46]) with true. cbv iota. rewrite Ed. cbv iota. rewrite Efd. cbv iota. rewrite bind_Ok.
  set (s1 := Emu l2 _ _ _ _ _). eapply returns_bind.
  { by apply (read_all_entries fd d buf n scratch Hn Hap Hscr s1 names). }
  intros [s' l] (-> & (Hd & Hf & _) & Hc). apply returns_Ok. unfold ece391_write, ece391_read, ece391_close.
  assert (0 =? d = false) as Hd' by (apply Z.eqb_neq; congruence).
  rewrite Hd, Hf, Hd', Z.eqb_refl. cbn [orb negb]. split_and!; [done|done|exact Hc|done| |done|done|done].
  intros fd2 b k Hne. rewrite (proj2 (Z.eqb_neq fd fd2)) by congruence. done.
Qed.

(** A directory of two files, one with a long name. *)
Definition dot_memory : mem := wr_bytes (wr_bytes mem0 0x3000 [46; 0]) 0x3100 [46; 0].
Definition long_name : list Z := codes "a_name_that_is_longer_than_thirty_two_characters".
Definition emu_shelf : emu shelf := Emu (Shelf [codes "cat"; long_name] []) dot_memory 0 (-1) 0 (-1).

Lemma shelf_stream names rs :
  Forall (λ x, Forall (λ c, 0 < c < 256) x ∧ zlen x < 255) names → dir_stream 1 (0x9000, 256) names (Shelf names rs).
Proof.
  induction 1 as [|x xs [Hx Hz] _ IH]; cbn [dir_stream].
  - intros m. exists m, (Shelf [] rs). split; [done|apply changes_only_refl].
  - intros m. exists 0x9000, (wr_bytes m 0x9000 (x ++ [0])), (Shelf xs rs). cbn [fst snd].
    split_and!; [done|done|by eapply wr_bytes_cstr|lia|lia| |done].
    intros a Ha. apply Forall_cons in Ha as [Ha _]. unfold inside in Ha. cbn [fst snd] in Ha.
    rewrite rd_wr_bytes, zlen_app. change (zlen [0]) with 1. case_z; cbn [andb]; done || lia.
Qed.

Lemma emulated_directory_witness :
  returns ('(s, fd') ← ece391_open 0x3100 0x3000 emu_shelf;
           '(s', l) ← read_entries 3 fd' 0x8000 33 s; Ok (s', fd', l)) (λ '(s', fd', l),
    fd' = 5 ∧ l = [codes "cat" ++ replicate 29 0; codes "a_name_that_is_longer_than_thirt"; []] ∧
    ece391_write 5 0x8000 1 s' = (s', -1)).
Proof.
  pose proof (emulated_directory 0x3100 0x3000 0x8000 33 (0x9000, 256) [codes "cat"; long_name] emu_shelf 1 5
    (Shelf [codes "cat"; long_name] []) (Shelf [codes "cat"; long_name] []) ltac:(by_decide) ltac:(by_decide)
    eq_refl ltac:(done) eq_refl (shelf_stream [codes "cat"; long_name] [] ltac:(by_decide)) ltac:(by_decide) ltac:(lia)
    ltac:(unfold apart, disjoint_regions; by_decide) ltac:(by_decide)) as Hx.
  eapply returns_mono; [exact Hx|]. intros [[s' fd'] l] (-> & -> & _ & Hw & _). split_and!; [done|by_decide|apply Hw].
Defined.

(** A read of no bytes copies a name nevertheless. *)
Lemma read_nothing_overruns :
  match ('(s, fd) ← ece391_open 0x3100 0x3000 emu_shelf; ece391_read fd 0x8000 0 s) with
  | Ok (s', r) => (r, rd (emem s') 0x8000) = (3, 99)
  | Err _ => False
  end.
Proof. vm_compute. reflexivity. Qed.
