(* ===== verification/Blink.v ===== *)
(** * blink.S: characters of the screen that blink

    The list of blinkers in the memory of the fish demonstration: its nodes are
    the slots of blink_array, linked by their addresses.  The functions of
    blink.S and the allocator and copies of fish.c that they call, over the flat
    memory; then the list they implement. *)

From S2P Require Import Prelude Memory.

(** 16-bit fields. *)
Definition rd16 (m : mem) (a : Z) : Z := rd m a + 256 * rd m (a + 1).
Definition wr16 (m : mem) (a v : Z) : mem := wr (wr m a v) (a + 1) (v / 256).
Definition s16 (z : Z) : Z := (z + 32768) mod 65536 - 32768.

(** The members of a struct mp1_blink_struct. *)
Definition LOCATION := 0.
Definition ON_CHAR := 2.
Definition OFF_CHAR := 3.
Definition ON_LENGTH := 4.
Definition OFF_LENGTH := 6.
Definition COUNTDOWN := 8.
Definition STATUS := 10.
Definition NEXT := 12.
Definition STRUCT_SIZE := 16.

Definition RTC_ADD := 0.
Definition RTC_REMOVE := 1.
Definition RTC_FIND := 2.
Definition RTC_SYNC := 3.

(** ** From fish.c *)

Definition ece391_memset (memory c n : Z) (m : mem) : mem :=
  for_ (Z.to_nat n) 0 (λ i m, wr m (memory + i) c) m.

Definition ece391_memcpy (dest src n : Z) (m : mem) : mem * Z :=
  (for_ (Z.to_nat n) 0 (λ i m, wr m (dest + i) (rd m (src + i))) m, 0).

Section operations.
(** The addresses of blink_array, mp1_list_head and vmem_base_addr. *)
Context (blink_array mp1_list_head vmem_base_addr : Z).

(** The first slot whose location is 0. *)
Definition mp1_malloc (size : Z) (m : mem) : Z :=
  match list_find (λ i, rd16 m (blink_array + STRUCT_SIZE * i + LOCATION) = 0) (seqZ 0 2000) with
  | Some (_, i) => blink_array + STRUCT_SIZE * i
  | None => 0
  end.

Definition mp1_free (memory : Z) (m : mem) : mem := ece391_memset memory 0 STRUCT_SIZE m.

(** ** blink.S *)

Definition mp1_poke (cl eax : Z) (m : mem) : mem := wr m (u32 (rd32 m vmem_base_addr + eax)) cl.

(** The body of the loop, up to the label next_loop. *)
Definition tasklet_node (ebx : Z) (m : mem) : mem :=
  let m := wr16 m (ebx + COUNTDOWN) (u16 (rd16 m (ebx + COUNTDOWN) - 1)) in
  if 0 <? s16 (rd16 m (ebx + COUNTDOWN)) then m
  else
    let eax := 2 * rd16 m (ebx + LOCATION) in
    let '(m, dx) :=
      if negb (Z.land (rd16 m (ebx + STATUS)) 1 =? 0)
      then let m := mp1_poke (rd m (ebx + OFF_CHAR)) eax m in (m, rd16 m (ebx + OFF_LENGTH))
      else let m := mp1_poke (rd m (ebx + ON_CHAR)) eax m in (m, rd16 m (ebx + ON_LENGTH)) in
    let m := wr16 m (ebx + COUNTDOWN) dx in
    wr16 m (ebx + STATUS) (Z.lxor (rd16 m (ebx + STATUS)) 1).

Definition mp1_rtc_tasklet (m : mem) : res mem :=
  while (λ '(m, ebx),
    if ebx =? 0 then inr (Ok m)
    else let m := tasklet_node ebx m in inl (m, rd32 m (ebx + NEXT))) (m, rd32 m mp1_list_head).

(** The node with a location, or 0. *)
Definition mp1_find_helper (location : Z) (m : mem) : res Z :=
  let ax := u16 location in
  while (λ ebx,
    if ebx =? 0 then inr (Ok 0)
    else if rd16 m (ebx + LOCATION) =? ax then inr (Ok ebx)
    else inl (rd32 m (ebx + NEXT))) (rd32 m mp1_list_head).

(** [temp] is the structure on the stack. *)
Definition mp1_ioctl_add (temp arg : Z) (m : mem) : mem * Z :=
  let '(m, eax) := ece391_memcpy temp arg STRUCT_SIZE m in
  if negb (eax =? 0) then (m, -1)
  else if 80 * 25 <=? rd16 m (temp + LOCATION) then (m, -1)
  else
    let m := wr16 m (temp + STATUS) 1 in
    let m := wr16 m (temp + COUNTDOWN) (rd16 m (temp + ON_LENGTH)) in
    let eax := mp1_malloc STRUCT_SIZE m in
    if eax =? 0 then (m, -1)
    else
      let edx := eax in
      let '(m, _) := ece391_memcpy eax temp STRUCT_SIZE m in
      let m := wr32 m (edx + NEXT) (rd32 m mp1_list_head) in
      let m := wr32 m mp1_list_head edx in
      (mp1_poke (rd m (edx + ON_CHAR)) (2 * rd16 m (edx + LOCATION)) m, 0).

(** The walk along the links, by their addresses, to the one that holds [eax]. *)
Definition remove_find_prev (eax : Z) (m : mem) : res Z :=
  while (λ edx,
    if rd32 m edx =? eax then inr (Ok edx) else inl (u32 (rd32 m edx + NEXT))) mp1_list_head.

Definition mp1_ioctl_remove (arg : Z) (m : mem) : res (mem * Z) :=
  eax ← mp1_find_helper arg m;
  if eax =? 0 then Ok (m, -1)
  else
    edx ← remove_find_prev eax m;
    let m := wr32 m edx (rd32 m (eax + NEXT)) in
    Ok (mp1_free eax m, 0).

(** testb leaves the sign flag clear, so that cmovl never moves. *)
Definition cmovl_after_testb (status ebx ecx : Z) : Z :=
  if Z.testbit (Z.land status 1) 7 then ebx else ecx.

Definition mp1_ioctl_sync (arg : Z) (m : mem) : res (mem * Z) :=
  esi ← mp1_find_helper (Z.shiftr (u32 arg) 16) m;
  if esi =? 0 then Ok (m, -1)
  else
    edi ← mp1_find_helper (Z.land (u32 arg) 0xFFFF) m;
    if edi =? 0 then Ok (m, -1)
    else
      let m := wr16 m (edi + ON_LENGTH) (rd16 m (esi + ON_LENGTH)) in
      let m := wr16 m (edi + OFF_LENGTH) (rd16 m (esi + OFF_LENGTH)) in
      let m := wr16 m (edi + COUNTDOWN) (rd16 m (esi + COUNTDOWN)) in
      let m := wr16 m (edi + STATUS) (rd16 m (esi + STATUS)) in
      let eax := 2 * rd16 m (edi + LOCATION) in
      let ecx := cmovl_after_testb (rd m (edi + STATUS)) (rd m (edi + ON_CHAR)) (rd m (edi + OFF_CHAR)) in
      Ok (mp1_poke ecx eax m, 0).

(** [temp] is the 16-bit local. *)
Definition mp1_ioctl_find (temp arg : Z) (m : mem) : res (mem * Z) :=
  let '(m, eax) := ece391_memcpy temp arg 2 m in
  if negb (eax =? 0) then Ok (m, -1)
  else
    eax ← mp1_find_helper (rd16 m temp) m;
    if eax =? 0 then Ok (m, -1)
    else
      let '(m, eax) := ece391_memcpy arg eax STRUCT_SIZE m in
      Ok (m, if eax =? 0 then 0 else -1).

(** The jump through call_table, whose four entries these are. *)
Definition mp1_ioctl (temp arg cmd : Z) (m : mem) : res (mem * Z) :=
  if cmd =? 0 then Ok (mp1_ioctl_add temp arg m)
  else if cmd =? 1 then mp1_ioctl_remove arg m
  else if cmd =? 2 then mp1_ioctl_find temp arg m
  else if cmd =? 3 then mp1_ioctl_sync arg m
  else Err OutOfBounds.
End operations.

(** ** The list it implements *)

Record blink := Blink {
  location : Z; on_char : Z; off_char : Z; on_length : Z; off_length : Z; countdown : Z; status : Z
}.

Definition blink_at (m : mem) (p : Z) : blink :=
  Blink (rd16 m p) (rd m (p + 2)) (rd m (p + 3)) (rd16 m (p + 4)) (rd16 m (p + 6)) (rd16 m (p + 8)) (rd16 m (p + 10)).

Definition is_on (b : blink) : bool := negb (Z.land (status b) 1 =? 0).

(** What a tick of the clock does to a blinker, and the cell it writes. *)
Definition tick (b : blink) : blink * option (Z * Z) :=
  let c := u16 (countdown b - 1) in
  if 0 <? s16 c then
    (Blink (location b) (on_char b) (off_char b) (on_length b) (off_length b) c (status b), None)
  else
    (Blink (location b) (on_char b) (off_char b) (on_length b) (off_length b)
       (if is_on b then off_length b else on_length b) (Z.lxor (status b) 1),
     Some (2 * location b, if is_on b then off_char b else on_char b)).

(** A new blinker is on. *)
Definition started (b : blink) : blink :=
  Blink (location b) (on_char b) (off_char b) (on_length b) (off_length b) (on_length b) 1.

Definition synced (a b : blink) : blink :=
  Blink (location b) (on_char b) (off_char b) (on_length a) (off_length a) (countdown a) (status a).

(** Cells written one after the other. *)
Definition paint (video : Z) (cells : list (option (Z * Z))) (m : mem) : mem :=
  foldl (λ m o, match o with Some (i, c) => wr m (video + i) c | None => m end) m cells.

Fixpoint chain (m : mem) (p : Z) (ps : list Z) : Prop :=
  match ps with
  | [] => p = 0
  | q :: ps' => p = q ∧ chain m (rd32 m (q + 12)) ps'
  end.

Section words.
Implicit Types m : mem.

Lemma rd16_range m a : 0 ≤ rd16 m a < 65536.
Proof. unfold rd16. pose proof (rd_range m a). pose proof (rd_range m (a + 1)). lia. Qed.

Lemma rd16_wr16_eq m a v : rd16 (wr16 m a v) a = u16 v.
Proof. unfold rd16, wr16. mach. unfold u8, u16. zlia. Qed.

Lemma rd_wr16_ne m a v b : b < a ∨ a + 2 ≤ b → rd (wr16 m a v) b = rd m b.
Proof. intros. unfold wr16. by rewrite !rd_wr_ne by lia. Qed.

Lemma rd16_wr16_ne m a v b : b + 2 ≤ a ∨ a + 2 ≤ b → rd16 (wr16 m a v) b = rd16 m b.
Proof. intros. unfold rd16. by rewrite !rd_wr16_ne by lia. Qed.

Lemma rd32_wr16_ne m a v b : b + 4 ≤ a ∨ a + 2 ≤ b → rd32 (wr16 m a v) b = rd32 m b.
Proof. intros. unfold rd32. by rewrite !rd_wr16_ne by lia. Qed.

Lemma rd16_wr_ne m a v b : a < b ∨ b + 2 ≤ a → rd16 (wr m a v) b = rd16 m b.
Proof. intros. unfold rd16. by rewrite !rd_wr_ne by lia. Qed.

Lemma rd16_wr32_ne m a v b : b + 2 ≤ a ∨ a + 4 ≤ b → rd16 (wr32 m a v) b = rd16 m b.
Proof. intros. unfold rd16. by rewrite !rd_wr32_ne by lia. Qed.
End words.

#[export] Hint Rewrite rd16_wr16_eq : machine.
#[export] Hint Rewrite rd_wr16_ne rd16_wr16_ne rd32_wr16_ne rd16_wr_ne rd16_wr32_ne using lia : machine.

Lemma wr16_changes rs r m a v :
  r ∈ rs → fst r ≤ a → a + 2 ≤ fst r + snd r → changes_only rs m (wr16 m a v).
Proof.
  intros Hr Ha1 Ha2 b Hb. apply rd_wr16_ne. rewrite Forall_forall in Hb. specialize (Hb r Hr). unfold inside in Hb. lia.
Qed.

(** Memories that agree on a region. *)
Definition same_in (r : Z * Z) (m m' : mem) : Prop := ∀ a, inside r a → rd m' a = rd m a.

Lemma same_in_part r r' m m' : same_in r m m' → fst r ≤ fst r' → fst r' + snd r' ≤ fst r + snd r → same_in r' m m'.
Proof. intros H H1 H2 a Ha. apply H. unfold inside in *. lia. Qed.

Lemma same_in_trans r m1 m2 m3 : same_in r m1 m2 → same_in r m2 m3 → same_in r m1 m3.
Proof. intros H1 H2 a Ha. by rewrite H2, H1. Qed.

Lemma changes_same_in rs r m m' : changes_only rs m m' → Forall (apart r) rs → same_in r m m'.
Proof. intros Hc Ha a Hin. apply Hc. destruct r. eapply apart_not_inside; [exact Ha|]. exact Hin. Qed.

Lemma same_in_blink m m' p : same_in (p, 12) m m' → blink_at m' p = blink_at m p.
Proof.
  intros H. unfold blink_at, rd16. by rewrite !H by (unfold inside; cbn [fst snd]; lia).
Qed.

Lemma same_in_rd32 m m' a : same_in (a, 4) m m' → rd32 m' a = rd32 m a.
Proof. intros H. unfold rd32. by rewrite !H by (unfold inside; cbn [fst snd]; lia). Qed.

(** The copies of fish.c. *)
Lemma memset_spec memory c n m a :
  0 ≤ n → rd (ece391_memset memory c n m) a = if (memory <=? a) && (a <? memory + n) then u8 c else rd m a.
Proof.
  intros Hn. unfold ece391_memset.
  pose proof (for_inv (λ j mk, ∀ b, rd mk b = if (memory <=? b) && (b <? memory + j) then u8 c else rd m b)
    (λ i m, wr m (memory + i) c) (Z.to_nat n) 0 m) as Hx.
  rewrite Z.add_0_l, Z2Nat.id in Hx by done. apply Hx.
  - intros b. case_z; cbn [andb]; done || lia.
  - intros j mk Hj Hmk b. rewrite rd_wr, Hmk. case_z; cbn [andb]; done || lia.
Qed.

Lemma memcpy_spec dest src n m :
  0 ≤ n → dest + n ≤ src ∨ src + n ≤ dest →
  ∃ m', ece391_memcpy dest src n m = (m', 0) ∧ changes_only [(dest, n)] m m' ∧
    ∀ i, 0 ≤ i < n → rd m' (dest + i) = rd m (src + i).
Proof.
  intros Hn Hd. unfold ece391_memcpy. eexists. split; [reflexivity|].
  pose proof (for_inv (λ j mk, changes_only [(dest, n)] m mk ∧ ∀ i, 0 ≤ i < j → rd mk (dest + i) = rd m (src + i))
    (λ i m, wr m (dest + i) (rd m (src + i))) (Z.to_nat n) 0 m) as Hx.
  rewrite Z.add_0_l, Z2Nat.id in Hx by done. apply Hx.
  - split; [apply changes_only_refl|lia].
  - intros j mk Hj [Hc Hmk]. split.
    + apply (changes_only_trans _ _ mk); [done|]. eapply wr_changes; [by left|]. unfold inside. cbn [fst snd]. lia.
    + intros i Hi. rewrite rd_wr. destruct (Z.eqb_spec (dest + i) (dest + j)) as [E|Hne]; [|apply Hmk; lia].
      replace i with j by lia. rewrite (Hc (src + j)), rd_u8; [done|]. constructor; [|done]. unfold inside. cbn [fst snd]. lia.
Qed.

Lemma copied_blink m m' p q : (∀ i, 0 ≤ i < 16 → rd m' (q + i) = rd m (p + i)) → blink_at m' q = blink_at m p.
Proof.
  intros H. assert (∀ i, 0 ≤ i < 15 → rd16 m' (q + i) = rd16 m (p + i)) as H16.
  { intros i Hi. unfold rd16. by rewrite <- !Z.add_assoc, !H by lia. }
  unfold blink_at. pose proof (H16 0 ltac:(lia)) as H0. rewrite !Z.add_0_r in H0. by rewrite H0, !H16, !H by lia.
Qed.

Section list.
Context (arr head vm video : Z) (Hsep : separate [(arr, 32000); (head, 4); (vm, 4); (video, 4000)]).
Context (Harr : 0 < arr) (Harr' : arr + 32000 < 4294967296) (Hvideo : 0 ≤ video) (Hvideo' : video + 4000 < 4294967296).
Implicit Types m : mem.

Definition slot (p : Z) : Prop := ∃ i, 0 ≤ i < 2000 ∧ p = arr + 16 * i.

(** [ps] are the nodes in the order of the list. *)
Record repr m (ps : list Z) : Prop := {
  rp_chain : chain m (rd32 m head) ps;
  rp_nodup : NoDup ps;
  rp_slots : Forall slot ps;
  rp_used : Forall (λ p, 0 < rd16 m p < 2000) ps;
  rp_free i : 0 ≤ i < 2000 → arr + 16 * i ∉ ps → rd16 m (arr + 16 * i) = 0;
  rp_screen : rd32 m vm = video
}.

Lemma layout : (arr + 32000 ≤ head ∨ head + 4 ≤ arr) ∧ (arr + 32000 ≤ vm ∨ vm + 4 ≤ arr) ∧
  (arr + 32000 ≤ video ∨ video + 4000 ≤ arr) ∧ (head + 4 ≤ vm ∨ vm + 4 ≤ head) ∧
  (head + 4 ≤ video ∨ video + 4000 ≤ head) ∧ (vm + 4 ≤ video ∨ video + 4000 ≤ vm).
Proof.
  destruct Hsep as (H1 & H2 & H3 & _). rewrite !Forall_cons in H1. rewrite !Forall_cons in H2. rewrite Forall_cons in H3.
  unfold apart, disjoint_regions in *. cbn [fst snd] in *. lia.
Qed.

Lemma slot_range p : slot p → arr ≤ p ∧ p + 16 ≤ arr + 32000 ∧ 0 < p.
Proof. intros (i & Hi & ->). lia. Qed.

Lemma slots_apart p q : slot p → slot q → p ≠ q → p + 16 ≤ q ∨ q + 16 ≤ p.
Proof. intros (i & Hi & ->) (j & Hj & ->) Hne. lia. Qed.

(** A poke of a cell of the screen. *)
Lemma poke_cell c l m : 0 ≤ l < 2000 → rd32 m vm = video → mp1_poke vm c (2 * l) m = wr m (video + 2 * l) c.
Proof. intros Hl E. unfold mp1_poke. rewrite E, u32_small by lia. done. Qed.

Lemma lxor_1_range z : 0 ≤ z < 65536 → 0 ≤ Z.lxor z 1 < 65536.
Proof.
  intros Hz. assert (Z.lxor z 1 = Z.land (Z.lxor z 1) (Z.ones 16)) as ->.
  { apply Z.bits_inj'. intros i Hi. rewrite Z.land_spec, Z.lxor_spec, Z.testbit_ones_nonneg by lia.
    destruct (Z.ltb_spec i 16); [by rewrite andb_true_r|]. rewrite andb_false_r.
    rewrite (Z.bits_above_log2 1) by (cbn; lia). rewrite xorb_false_r.
    destruct (decide (z = 0)) as [->|]; [apply Z.bits_0|]. apply Z.bits_above_log2; [lia|].
    apply Z.lt_le_trans with 16; [|done]. apply Z.log2_lt_pow2; lia. }
  rewrite Z.land_ones by lia. apply Z.mod_pos_bound. lia.
Qed.

(** A node in turn. *)
Lemma tasklet_node_spec q m :
  slot q → rd16 m q < 2000 → rd32 m vm = video →
  let m' := tasklet_node vm q m in
  let '(b, cell) := tick (blink_at m q) in
  blink_at m' q = b ∧ changes_only [(q, 12); (video, 4000)] m m' ∧
  ∀ a, inside (video, 4000) a → rd m' a = rd (paint video [cell] m) a.
Proof.
  intros Hq Hl Hvm. pose proof layout as Hlay. pose proof (slot_range q Hq) as Hqr. pose proof (rd16_range m q) as Hr.
  unfold tasklet_node, tick, LOCATION, ON_CHAR, OFF_CHAR, ON_LENGTH, OFF_LENGTH, COUNTDOWN, STATUS.
  set (m1 := wr16 m (q + 8) _). rewrite Z.add_0_r.
  assert (rd16 m1 (q + 8) = u16 (rd16 m (q + 8) - 1)) as E8.
  { unfold m1. mach. apply u16_small. apply u16_range. }
  assert (changes_only [(q, 12); (video, 4000)] m m1) as Hc1 by (eapply wr16_changes; [by left|cbn; lia..]).
  rewrite E8. cbn [countdown location on_char off_char on_length off_length status blink_at].
  destruct (0 <? s16 (u16 (rd16 m (q + 8) - 1))).
  { split_and!; [|done|].
    - unfold blink_at. rewrite E8. unfold m1. by mach.
    - intros a Ha. unfold inside in Ha. cbn [fst snd] in Ha. cbn. unfold m1. by mach. }
  assert (rd16 m1 q = rd16 m q) as -> by (unfold m1; by mach).
  assert (rd32 m1 vm = video) as Hvm1 by (unfold m1; by mach).
  rewrite !(poke_cell _ (rd16 m q) m1 ltac:(lia) Hvm1).
  assert (rd16 m1 (q + 10) = rd16 m (q + 10)) as -> by (unfold m1; by mach).
  change (is_on (blink_at m q)) with (negb (Z.land (rd16 m (q + 10)) 1 =? 0)).
  assert (rd m1 (q + 2) = rd m (q + 2)) as -> by (unfold m1; by mach).
  assert (rd m1 (q + 3) = rd m (q + 3)) as -> by (unfold m1; by mach).
  assert (∀ ch dx, 0 ≤ dx < 65536 →
    let m2 := wr16 (wr m1 (video + 2 * rd16 m q) ch) (q + 8) dx in
    let m' := wr16 m2 (q + 10) (Z.lxor (rd16 m2 (q + 10)) 1) in
    blink_at m' q = Blink (rd16 m q) (rd m (q + 2)) (rd m (q + 3)) (rd16 m (q + 4)) (rd16 m (q + 6)) dx
      (Z.lxor (rd16 m (q + 10)) 1) ∧
    changes_only [(q, 12); (video, 4000)] m m' ∧
    ∀ a, inside (video, 4000) a → rd m' a = rd (paint video [Some (2 * rd16 m q, ch)] m) a) as Hgo.
  { intros ch dx Hdx m2 m'. pose proof (rd16_range m (q + 10)) as H10.
    assert (rd16 m2 (q + 10) = rd16 m (q + 10)) as E10 by (unfold m2, m1; by mach).
    unfold m'. rewrite E10. unfold m2. split_and!.
    - unfold blink_at. mach. rewrite (u16_small (Z.lxor _ _)) by (by apply lxor_1_range).
      unfold m1. by mach.
    - apply (changes_only_trans _ _ m1); [done|].
      apply (changes_only_trans _ _ (wr m1 (video + 2 * rd16 m q) ch)).
      { eapply wr_changes; [by right; left|]. unfold inside. cbn [fst snd]. lia. }
      eapply changes_only_trans; [|eapply wr16_changes; [by left|cbn [fst snd]; lia..]].
      eapply wr16_changes; [by left|cbn [fst snd]; lia..].
    - intros a Ha. unfold inside in Ha. cbn [fst snd] in Ha. cbn [paint foldl]. mach. rewrite !rd_wr.
      unfold m1. by mach. }
  pose proof (rd16_range m (q + 4)). pose proof (rd16_range m (q + 6)).
  assert (rd16 (wr m1 (video + 2 * rd16 m q) (rd m (q + 3))) (q + 6) = rd16 m (q + 6)) as -> by (unfold m1; by mach).
  assert (rd16 (wr m1 (video + 2 * rd16 m q) (rd m (q + 2))) (q + 4) = rd16 m (q + 4)) as -> by (unfold m1; by mach).
  destruct (negb _); by apply Hgo.
Qed.

Ltac regions :=
  rewrite ?Forall_cons, ?Forall_nil; unfold apart, disjoint_regions; cbn [fst snd]; split_and?; try done; lia.

(** Where an address stands in the list, counted from the end. *)
Definition rank (ps : list Z) (a : Z) : Z :=
  match list_find (λ p, p = a) ps with Some (i, _) => zlen ps - Z.of_nat i | None => 0 end.

Lemma rank_chain m ds es a :
  NoDup (ds ++ es) → Forall slot (ds ++ es) → chain m a es → rank (ds ++ es) a = zlen es.
Proof.
  intros Hnd Hsl Hc. unfold rank. destruct es as [|q es].
  - cbn in Hc. subst a. rewrite app_nil_r in *. destruct (list_find _ ds) as [[i p]|] eqn:E; [|done].
    apply list_find_Some in E as (Hi & -> & _). apply (Forall_lookup_1 _ _ _ _ Hsl) in Hi.
    pose proof (slot_range 0 Hi). lia.
  - destruct Hc as [-> _]. assert (list_find (λ p, p = q) (ds ++ q :: es) = Some (length ds, q)) as ->.
    { apply list_find_Some. split_and!; [by apply list_lookup_middle|done|].
      intros j y Hy Hj ->. apply NoDup_app in Hnd as (_ & Hn & _). rewrite lookup_app_l in Hy by done.
      apply (Hn q); [by eapply list_elem_of_lookup_2|by left]. }
    rewrite zlen_app. lia.
Qed.

(** ** The tasklet *)

Lemma chain_kept m m' p ps :
  chain m p ps → (∀ q, q ∈ ps → rd32 m' (q + 12) = rd32 m (q + 12)) → chain m' p ps.
Proof.
  revert p. induction ps as [|q ps IH]; intros p Hc Hs; [done|]. destruct Hc as [-> Hc]. split; [done|].
  rewrite Hs by by left. apply IH; [done|]. intros r Hr. apply Hs. by right.
Qed.

Lemma repr_kept m m' ps :
  repr m ps → rd32 m' head = rd32 m head → rd32 m' vm = rd32 m vm →
  (∀ p, slot p → rd16 m' p = rd16 m p ∧ rd32 m' (p + 12) = rd32 m (p + 12)) → repr m' ps.
Proof.
  intros [Hc Hnd Hsl Hu Hf Hv] Eh Ev Hs. constructor; [|done|done| | |by rewrite Ev].
  - rewrite Eh. apply (chain_kept m); [done|]. intros q Hq. apply Hs. by apply (Forall_forall slot ps).
  - rewrite Forall_forall in Hsl, Hu |- *. intros p Hp. destruct (Hs p (Hsl p Hp)) as [-> _]. by apply Hu.
  - intros i Hi Hn. destruct (Hs (arr + 16 * i)) as [-> _]; [by exists i|]. by apply Hf.
Qed.

(** At most one node for each slot. *)
Lemma slots_length ps : NoDup ps → Forall slot ps → zlen ps ≤ 2000.
Proof.
  intros Hnd Hsl. assert (ps ⊆+ (λ i, arr + 16 * i) <$> seqZ 0 2000) as Hsub.
  { apply NoDup_submseteq; [done|]. intros p Hp. apply (Forall_forall slot ps) in Hp; [|done].
    destruct Hp as (i & Hi & ->). apply list_elem_of_fmap. exists i. split; [done|]. apply elem_of_seqZ. lia. }
  apply submseteq_length in Hsub. rewrite length_fmap, length_seqZ in Hsub. lia.
Qed.

Lemma repr_length m ps : repr m ps → zlen ps ≤ 2000.
Proof. intros [_ Hnd Hsl _ _ _]. by apply slots_length. Qed.

Definition ticked m ps : list blink := (λ p, fst (tick (blink_at m p))) <$> ps.
Definition cells m ps : list (option (Z * Z)) := (λ p, snd (tick (blink_at m p))) <$> ps.

Lemma paint_snoc l c m m' a :
  rd m' a = rd (paint video l m) a → rd (paint video [c] m') a = rd (paint video (l ++ [c]) m) a.
Proof.
  intros E. unfold paint. rewrite foldl_app. cbn [foldl]. destruct c as [[i x]|]; [|exact E].
  rewrite !rd_wr. destruct (_ =? _); [done|exact E].
Qed.

(** The list half way: the nodes [ds] have ticked, [es] have not. *)
Record ticking m mk (ds es : list Z) : Prop := {
  tk_done p : p ∈ ds → blink_at mk p = fst (tick (blink_at m p));
  tk_todo p : p ∈ es → blink_at mk p = blink_at m p;
  tk_links p : slot p → rd16 mk p = rd16 m p ∧ rd32 mk (p + 12) = rd32 m (p + 12);
  tk_changes : changes_only [(arr, 32000); (video, 4000)] m mk;
  tk_screen a : inside (video, 4000) a → rd mk a = rd (paint video (cells m ds) m) a
}.

Lemma ticking_step m mk ds q es :
  repr m (ds ++ q :: es) → ticking m mk ds (q :: es) →
  ticking m (tasklet_node vm q mk) (ds ++ [q]) es ∧ rd32 (tasklet_node vm q mk) (q + 12) = rd32 m (q + 12).
Proof.
  intros [_ Hnd Hsl Hu _ Hv] [Hd Ht Hk Hc Hs]. pose proof layout as Hlay.
  rewrite Forall_app, Forall_cons in Hsl, Hu. destruct Hsl as (Hs1 & Hq & Hs2), Hu as (_ & Hq2 & _).
  apply NoDup_app in Hnd as (_ & Hn1 & Hn2). apply NoDup_cons in Hn2 as [Hn2 _].
  pose proof (slot_range q Hq) as Hqr.
  assert (rd32 mk vm = video) as Hv'.
  { rewrite <- Hv. apply same_in_rd32. apply (changes_same_in _ _ _ _ Hc).
    regions. }
  pose proof (tasklet_node_spec q mk Hq ltac:(rewrite (proj1 (Hk q Hq)); lia) Hv') as Hx. cbv zeta in Hx.
  set (m' := tasklet_node vm q mk) in *. rewrite (Ht q) in Hx by by left.
  destruct (tick (blink_at m q)) as [b cell] eqn:Etick. destruct Hx as (Eb & Hc' & Hscr).
  assert (∀ p, slot p → p ≠ q → same_in (p, 16) mk m') as Hother.
  { intros p Hp Hne. apply (changes_same_in _ _ _ _ Hc'). pose proof (slots_apart p q Hp Hq Hne).
    pose proof (slot_range p Hp). regions. }
  assert (∀ p, slot p → p ≠ q → blink_at m' p = blink_at mk p) as Hblink.
  { intros p Hp Hne. apply same_in_blink. eapply same_in_part; [by apply Hother|cbn; lia..]. }
  assert (rd32 m' (q + 12) = rd32 m (q + 12)) as Hnext.
  { rewrite <- (proj2 (Hk q Hq)). apply same_in_rd32, (changes_same_in _ _ _ _ Hc').
    regions. }
  split; [|exact Hnext]. rewrite Forall_forall in Hs1, Hs2. constructor.
  - intros p [Hp|Hp%list_elem_of_singleton]%elem_of_app; [|subst p; by rewrite Eb, Etick].
    rewrite Hblink; [by apply Hd|by apply Hs1|]. intros ->. by destruct (Hn1 q Hp (list_elem_of_here _ _)).
  - intros p Hp. rewrite Hblink; [apply Ht; by right|by apply Hs2|]. intros ->. done.
  - intros p Hp. destruct (decide (p = q)) as [->|Hne]; [split; [|exact Hnext]|].
    + change (location (blink_at m' q) = location (blink_at m q)). rewrite Eb.
      replace b with (fst (tick (blink_at m q))) by by rewrite Etick. unfold tick. by destruct (_ <? _).
    + rewrite <- (proj1 (Hk p Hp)), <- (proj2 (Hk p Hp)). split.
      * change (location (blink_at m' p) = location (blink_at mk p)). by rewrite Hblink.
      * apply same_in_rd32. eapply same_in_part; [by apply Hother|cbn; lia..].
  - apply (changes_only_trans _ _ mk); [done|]. intros a Ha. apply Hc'. rewrite !Forall_cons in Ha |- *.
    unfold inside in *. cbn [fst snd] in *. split_and!; [lia|apply Ha|done].
  - intros a Ha. rewrite Hscr by done. unfold cells. rewrite fmap_app. cbn [fmap list_fmap]. rewrite Etick. cbn [snd].
    apply paint_snoc. by apply Hs.
Qed.

Lemma tasklet_spec m ps :
  repr m ps → returns (mp1_rtc_tasklet head vm m) (λ m', repr m' ps ∧ blink_at m' <$> ps = ticked m ps ∧
    changes_only [(arr, 32000); (video, 4000)] m m' ∧
    ∀ a, inside (video, 4000) a → rd m' a = rd (paint video (cells m ps) m) a).
Proof.
  intros Hr. pose proof (repr_length m ps Hr) as Hlen. pose proof layout as Hlay.
  pose proof Hr as [Hc Hnd Hsl _ _ _]. unfold mp1_rtc_tasklet. apply while_total with
    (I := λ '(mk, a), ∃ ds es, ps = ds ++ es ∧ chain m a es ∧ ticking m mk ds es) (V := λ '(mk, a), rank ps a).
  - exists [], ps. split_and!; [done|done|]. constructor; try done. intros p Hp. by apply elem_of_nil in Hp.
  - rewrite (rank_chain m [] ps) by done. lia.
  - intros [mk a] (ds & es & -> & Ha & Htk). destruct es as [|q es].
    + cbn in Ha. subst a. apply returns_Ok. rewrite app_nil_r in *. destruct Htk as [Hd _ Hk Hcm Hs].
      split_and!; [|by apply list_fmap_ext; intros i p Hp%list_elem_of_lookup_2; apply Hd|done|done].
      apply (repr_kept m); [done| | |done]; apply same_in_rd32, (changes_same_in _ _ _ _ Hcm); regions.
    + destruct Ha as [-> Ha]. pose proof Hsl as Hsl'. rewrite Forall_app, Forall_cons in Hsl. destruct Hsl as (H1 & Hq & H2).
      pose proof (slot_range q Hq). rewrite (proj2 (Z.eqb_neq _ _)) by lia.
      destruct (ticking_step m mk ds q es Hr Htk) as [Htk' Hnext]. cbv zeta. unfold NEXT. rewrite Hnext. split.
      * exists (ds ++ [q]), es. by rewrite <- app_assoc.
      * pose proof (rank_chain m ds (q :: es) q Hnd Hsl' (conj eq_refl Ha)) as E1.
        pose proof (rank_chain m (ds ++ [q]) es (rd32 m (q + 12))) as E2. rewrite <- app_assoc in E2. cbn [app] in E2.
        rewrite E1, E2, zlen_cons by done. lia.
Qed.

(** ** Finding a node *)

Definition at_location (m : mem) (l : Z) (ps : list Z) : option (nat * Z) := list_find (λ p, rd16 m p = l) ps.

Lemma find_helper_spec m ps loc :
  repr m ps → mp1_find_helper head loc m = Ok (match at_location m (u16 loc) ps with Some (_, p) => p | None => 0 end).
Proof.
  intros Hr. pose proof (repr_length m ps Hr) as Hlen. pose proof Hr as [Hc Hnd Hsl _ _ _]. unfold mp1_find_helper. cbv zeta.
  apply returns_eq, while_total with
    (I := λ a, ∃ ds es, ps = ds ++ es ∧ chain m a es ∧ Forall (λ p, rd16 m p ≠ u16 loc) ds) (V := λ a, rank ps a).
  - exists [], ps. by split_and!.
  - rewrite (rank_chain m [] ps) by done. lia.
  - intros a (ds & es & -> & Ha & Hds). unfold at_location. destruct es as [|q es].
    + cbn in Ha. subst a. apply returns_Ok. rewrite app_nil_r. by rewrite (proj2 (list_find_None _ _) Hds).
    + pose proof Ha as [-> Ha']. pose proof Hsl as Hsl'. rewrite Forall_app, Forall_cons in Hsl. destruct Hsl as (H1 & Hq & H2).
      pose proof (slot_range q Hq). rewrite (proj2 (Z.eqb_neq q 0)) by lia. unfold LOCATION, NEXT. rewrite Z.add_0_r.
      destruct (Z.eqb_spec (rd16 m q) (u16 loc)) as [E|Hne].
      * apply returns_Ok. rewrite (list_find_app_r _ ds) by by apply list_find_None. cbn [list_find].
        by rewrite decide_True.
      * split; [exists (ds ++ [q]), es; rewrite <- app_assoc, Forall_app; by repeat constructor|].
        pose proof (rank_chain m ds (q :: es) q Hnd Hsl' Ha) as E1.
        pose proof (rank_chain m (ds ++ [q]) es (rd32 m (q + 12))) as E2. rewrite <- app_assoc in E2. cbn [app] in E2.
        rewrite E1, E2, zlen_cons by done. lia.
Qed.

(** The cell that holds the address of what follows [ds], from the cell [c] on. *)
Definition link_from (c : Z) (ds : list Z) : Z := match last ds with Some p => p + 12 | None => c end.

Lemma link_from_cons c d ds : link_from c (d :: ds) = link_from (d + 12) ds.
Proof. unfold link_from. rewrite last_cons. by destruct (last ds). Qed.

Lemma link_from_in c ds : link_from c ds = c ∧ ds = [] ∨ ∃ p, p ∈ ds ∧ link_from c ds = p + 12.
Proof.
  unfold link_from. destruct (last ds) as [p|] eqn:E; [right|left; by apply last_None in E].
  exists p. split; [|done]. apply last_Some in E as [l ->]. apply elem_of_app. right. by left.
Qed.

Lemma chain_link m c ds es : chain m (rd32 m c) (ds ++ es) → chain m (rd32 m (link_from c ds)) es.
Proof.
  revert c. induction ds as [|d ds IH]; intros c Hc; [done|]. rewrite link_from_cons. destruct Hc as [_ Hc]. by apply IH.
Qed.

(** Taking a node out of the chain by one store. *)
Lemma chain_unlink m m' c ds q es :
  chain m (rd32 m c) (ds ++ q :: es) → NoDup (ds ++ es) → (∀ p, p ∈ ds ++ es → c ≠ p + 12) →
  let k := link_from c ds in
  rd32 m' k = rd32 m (q + 12) → (c ≠ k → rd32 m' c = rd32 m c) →
  (∀ p, p ∈ ds ++ es → p + 12 ≠ k → rd32 m' (p + 12) = rd32 m (p + 12)) → chain m' (rd32 m' c) (ds ++ es).
Proof.
  revert c. induction ds as [|d ds IH]; intros c Hc Hnd Hne k Hk Hck Hs.
  - cbn in k, Hc. unfold k in *. rewrite Hk. destruct Hc as [_ Hc]. apply (chain_kept m); [done|].
    intros p Hp. apply Hs; [done|]. intros E. by apply (Hne p Hp).
  - destruct Hc as [Hd Hc]. unfold k in *. rewrite link_from_cons in *. cbn [app] in *. apply NoDup_cons in Hnd as [Hd' Hnd].
    assert (c ≠ link_from (d + 12) ds) as Hcl.
    { destruct (link_from_in (d + 12) ds) as [[-> _]|(p & Hp & ->)]; apply Hne; [by left|].
      right. apply elem_of_app. by left. }
    split; [by rewrite Hck|]. apply IH; [done|done| |done| |].
    + intros p Hp E. apply Hd'. by replace d with p by lia.
    + intros Hx. by apply Hs; [left|].
    + intros p Hp. apply Hs. by right.
Qed.

(** The walk to that cell. *)
Lemma find_prev_spec m ds q es :
  repr m (ds ++ q :: es) → remove_find_prev head q m = Ok (link_from head ds).
Proof.
  intros Hr. pose proof (repr_length m _ Hr) as Hlen. pose proof Hr as [Hc Hnd Hsl _ _ _]. unfold remove_find_prev.
  apply returns_eq, while_total with
    (I := λ a, ∃ d1 d2, ds = d1 ++ d2 ∧ a = link_from head d1) (V := λ a, rank (ds ++ q :: es) (rd32 m a)).
  - by exists [], ds.
  - rewrite (rank_chain m [] (ds ++ q :: es)) by done. lia.
  - intros a (d1 & d2 & -> & ->). rewrite <- app_assoc in *. pose proof (chain_link m head d1 (d2 ++ q :: es) Hc) as Hc'.
    destruct d2 as [|d d2].
    + destruct Hc' as [-> _]. rewrite Z.eqb_refl. apply returns_Ok. by rewrite app_nil_r.
    + pose proof Hc' as [E Hc2]. rewrite E. cbn [app] in *. assert (d ≠ q) as Hdq.
      { intros ->. apply NoDup_app in Hnd as (_ & _ & Hnd). apply NoDup_cons in Hnd as [Hn _]. apply Hn, elem_of_app. right. by left. }
      rewrite (proj2 (Z.eqb_neq _ _)) by done. assert (slot d) as Hd.
      { rewrite Forall_forall in Hsl. apply Hsl, elem_of_app. right. by left. }
      pose proof (slot_range d Hd). unfold NEXT. rewrite u32_small by lia.
      assert (link_from head (d1 ++ [d]) = d + 12) as El by (unfold link_from; by rewrite last_snoc).
      split; [exists (d1 ++ [d]), d2; by rewrite <- app_assoc|].
      pose proof (rank_chain m d1 (d :: d2 ++ q :: es) d Hnd Hsl (conj eq_refl Hc2)) as E1.
      pose proof (rank_chain m (d1 ++ [d]) (d2 ++ q :: es) (rd32 m (d + 12))) as E2. rewrite <- app_assoc in E2. cbn [app] in E2.
      rewrite E1, E2, zlen_cons by done. lia.
Qed.

(** ** Removing *)

Lemma freed_same q k v m a :
  ¬ inside (q, 16) a → ¬ inside (k, 4) a → rd (mp1_free q (wr32 m k v)) a = rd m a.
Proof.
  intros H1 H2. unfold mp1_free, STRUCT_SIZE. rewrite memset_spec by lia. unfold inside in *. cbn [fst snd] in *.
  rewrite rd_wr32_ne by lia. case_z; cbn [andb]; done || lia.
Qed.

Lemma freed_node q m a : inside (q, 16) a → rd (mp1_free q m) a = 0.
Proof.
  intros Ha. unfold mp1_free, STRUCT_SIZE. rewrite memset_spec by lia. unfold inside in Ha. cbn [fst snd] in Ha.
  case_z; cbn [andb]; done || lia.
Qed.

Lemma link_cell ds es : link_from head ds = head ∨ ∃ p, p ∈ ds ++ es ∧ link_from head ds = p + 12.
Proof.
  destruct (link_from_in head ds) as [[-> _]|(p & Hp & E)]; [by left|right]. exists p. split; [|done].
  apply elem_of_app. by left.
Qed.

Lemma freed_link q k v m : k + 4 ≤ q ∨ q + 16 ≤ k → rd32 (mp1_free q (wr32 m k v)) k = u32 v.
Proof.
  intros Hk. rewrite <- (rd32_wr32_eq m k). apply same_in_rd32. intros x Hx. unfold inside in Hx. cbn [fst snd] in Hx.
  unfold mp1_free, STRUCT_SIZE. rewrite memset_spec by lia. case_z; cbn [andb]; done || lia.
Qed.

Lemma remove_node m ds q es :
  repr m (ds ++ q :: es) →
  let k := link_from head ds in
  let m' := mp1_free q (wr32 m k (rd32 m (q + 12))) in
  repr m' (ds ++ es) ∧ blink_at m' <$> (ds ++ es) = blink_at m <$> (ds ++ es) ∧
  changes_only [(arr, 32000); (head, 4)] m m'.
Proof.
  intros [Hc Hnd Hsl Hu Hf Hv]. cbv zeta. remember (link_from head ds) as k eqn:Elink.
  set (m' := mp1_free q _). pose proof layout as Hlay.
  assert (q ∉ ds ++ es ∧ NoDup (ds ++ es)) as [Hq' Hnd'].
  { by rewrite <- Permutation_middle, NoDup_cons in Hnd. }
  pose proof Hsl as Hsl'. rewrite <- (Permutation_middle ds es q), Forall_cons in Hsl, Hu.
  destruct Hsl as [Hq Hsl], Hu as [_ Hu]. rewrite Forall_forall in Hsl, Hu. pose proof (slot_range q Hq) as Hqr.
  pose proof (link_cell ds es) as Hk. rewrite <- Elink in Hk.
  assert (∀ p, p ∈ ds ++ es → slot p ∧ (p + 16 ≤ q ∨ q + 16 ≤ p)) as Hsep'.
  { intros p Hp. split; [by apply Hsl|]. apply slots_apart; [by apply Hsl|done|]. congruence. }
  assert (∀ a, ¬ inside (q, 16) a → ¬ inside (k, 4) a → rd m' a = rd m a) as Hsame by (intros a; apply freed_same).
  assert (∀ p, p ∈ ds ++ es → same_in (p, 12) m m') as Hnode.
  { intros p Hp a Ha. destruct (Hsep' p Hp) as [Hp1 Hp2]. pose proof (slot_range p Hp1). unfold inside in Ha. cbn [fst snd] in Ha.
    apply Hsame; unfold inside; cbn [fst snd]; [lia|]. destruct Hk as [->|(r & Hr & ->)]; [lia|].
    destruct (decide (r = p)) as [->|Hne]; [lia|]. destruct (Hsep' r Hr) as [Hr1 _].
    destruct (slots_apart r p Hr1 Hp1 Hne); lia. }
  assert (∀ a, a + 4 ≤ k ∨ k + 4 ≤ a → a + 4 ≤ q ∨ q + 16 ≤ a → rd32 m' a = rd32 m a) as Hword.
  { intros a H1 H2. apply same_in_rd32. intros x Hx. unfold inside in Hx. cbn [fst snd] in Hx.
    apply Hsame; unfold inside; cbn [fst snd]; lia. }
  assert (rd32 m' k = rd32 m (q + 12)) as Ek.
  { unfold m'. rewrite freed_link; [apply u32_small, rd32_range|]. destruct Hk as [->|(r & Hr & ->)]; [lia|].
    destruct (Hsep' r Hr). lia. }
  split_and!.
  - constructor; [|done|by rewrite Forall_forall| | |].
    + apply (chain_unlink m m' head ds q es Hc Hnd'); rewrite <- ?Elink.
      * intros p Hp ->. pose proof (slot_range p (Hsl p Hp)). lia.
      * exact Ek.
      * intros Hne. destruct Hk as [|(r & Hr & ->)]; [done|]. pose proof (slot_range r (Hsl r Hr)). apply Hword; lia.
      * intros p Hp Hne. destruct (Hsep' p Hp) as [Hp1 ?]. pose proof (slot_range p Hp1). apply Hword; [|lia].
        destruct Hk as [->|(r & Hr & ->)]; [lia|]. destruct (decide (r = p)) as [->|Hrp]; [done|].
        destruct (slots_apart r p (Hsl r Hr) Hp1 Hrp); lia.
    + rewrite Forall_forall. intros p Hp. change (rd16 m' p) with (location (blink_at m' p)).
      rewrite (same_in_blink _ _ _ (Hnode p Hp)). by apply Hu.
    + intros j Hj Hn. destruct (decide (arr + 16 * j = q)) as [->|Hne].
      * unfold rd16, m'. by rewrite !freed_node by (unfold inside; cbn [fst snd]; lia).
      * rewrite <- (Hf j Hj); [|clear -Hn Hne; set_solver].
        assert (slot (arr + 16 * j)) as Hp by by exists j. pose proof (slots_apart _ q Hp Hq Hne).
        pose proof (slot_range _ Hp). unfold rd16. rewrite !Hsame; unfold inside; cbn [fst snd]; try lia; try done.
        all: destruct Hk as [->|(r & Hr & ->)]; [lia|];
          assert (r ≠ arr + 16 * j) as Hx by (intros ->; done); destruct (slots_apart r _ (Hsl r Hr) Hp Hx); lia.
    + rewrite <- Hv. destruct Hk as [E|(r & Hr & E)]; [apply Hword; lia|].
      pose proof (slot_range r (Hsl r Hr)). apply Hword; lia.
  - apply list_fmap_ext. intros j p Hp%list_elem_of_lookup_2. by apply same_in_blink, Hnode.
  - intros a Ha. rewrite !Forall_cons in Ha. unfold inside in Ha. cbn [fst snd] in Ha.
    apply Hsame; unfold inside; cbn [fst snd]; [lia|]. destruct Hk as [->|(r & Hr & ->)]; [lia|].
    pose proof (slot_range r (Hsl r Hr)). lia.
Qed.

Lemma split_at m l ps i p :
  at_location m l ps = Some (i, p) → ps = take i ps ++ p :: drop (S i) ps ∧ rd16 m p = l ∧ p ∈ ps.
Proof.
  intros (Hi & Hp & _)%list_find_Some. split_and!; [by rewrite take_drop_middle|done|by eapply list_elem_of_lookup_2].
Qed.

Lemma remove_spec m ps arg :
  repr m ps →
  match at_location m (u16 arg) ps with
  | None => mp1_ioctl_remove head arg m = Ok (m, -1)
  | Some (i, _) => ∃ m', mp1_ioctl_remove head arg m = Ok (m', 0) ∧ repr m' (delete i ps) ∧
      blink_at m' <$> delete i ps = delete i (blink_at m <$> ps) ∧ changes_only [(arr, 32000); (head, 4)] m m'
  end.
Proof.
  intros Hr. unfold mp1_ioctl_remove. rewrite (find_helper_spec m ps arg Hr), bind_Ok.
  destruct (at_location m (u16 arg) ps) as [[i q]|] eqn:E; [|done].
  destruct (split_at _ _ _ _ _ E) as (Eps & _ & Hin). pose proof (rp_slots _ _ Hr) as Hsl. rewrite Forall_forall in Hsl.
  pose proof (slot_range q (Hsl q Hin)). rewrite (proj2 (Z.eqb_neq q 0)) by lia.
  rewrite Eps in Hr. rewrite (find_prev_spec m _ q _ Hr), bind_Ok. eexists. split; [reflexivity|].
  rewrite <- list_fmap_delete, (delete_take_drop ps). by apply remove_node.
Qed.

(** ** Adding *)

(** A free slot, or none. *)
Lemma malloc_spec m ps size :
  repr m ps →
  let q := mp1_malloc arr size m in
  if zlen ps =? 2000 then q = 0 else slot q ∧ q ∉ ps ∧ q ≠ 0.
Proof.
  intros [Hc Hnd Hsl Hu Hf _]. pose proof (slots_length ps Hnd Hsl) as Hlen. unfold mp1_malloc, LOCATION, STRUCT_SIZE. cbv zeta.
  destruct (list_find _ _) as [[j i]|] eqn:E.
  - apply list_find_Some in E as (Hi & E & _). apply list_elem_of_lookup_2, elem_of_seqZ in Hi. rewrite Z.add_0_r in E.
    assert (arr + 16 * i ∉ ps) as Hn.
    { intros Hin. rewrite Forall_forall in Hu. specialize (Hu _ Hin). lia. }
    assert (slot (arr + 16 * i)) as Hs by by exists i.
    pose proof (slots_length (arr + 16 * i :: ps) ltac:(by constructor) ltac:(by constructor)) as Hl.
    rewrite zlen_cons in Hl. rewrite (proj2 (Z.eqb_neq _ _)) by lia. split_and!; [done|done|lia].
  - apply list_find_None in E. rewrite Forall_forall in E. rewrite (proj2 (Z.eqb_eq (zlen ps) 2000)); [done|].
    assert ((λ i, arr + 16 * i) <$> seqZ 0 2000 ⊆+ ps) as Hsub.
    { apply NoDup_submseteq.
      - apply NoDup_fmap_2_strong; [|apply NoDup_seqZ]. intros; lia.
      - intros p (i & -> & Hi)%list_elem_of_fmap. destruct (decide (arr + 16 * i ∈ ps)) as [|Hn]; [done|]. destruct (E i Hi).
        rewrite Z.add_0_r. apply Hf; [|done]. apply elem_of_seqZ in Hi. lia. }
    apply submseteq_length in Hsub. rewrite length_fmap, length_seqZ in Hsub. lia.
Qed.

(** A node filled, and put in front. *)
Lemma add_node m ps q temp :
  repr m ps → slot q → q ∉ ps → apart (temp, 16) (arr, 32000) → 0 < rd16 m temp < 2000 →
  let '(m1, _) := ece391_memcpy q temp 16 m in
  let m2 := wr32 (wr32 m1 (q + 12) (rd32 m1 head)) head q in
  let m' := mp1_poke vm (rd m2 (q + 2)) (2 * rd16 m2 q) m2 in
  repr m' (q :: ps) ∧ blink_at m' <$> (q :: ps) = blink_at m temp :: (blink_at m <$> ps) ∧
  changes_only [(arr, 32000); (head, 4); (video, 4000)] m m' ∧
  ∀ a, inside (video, 4000) a → rd m' a = rd (paint video [Some (2 * rd16 m temp, rd m (temp + 2))] m) a.
Proof.
  intros Hr Hq Hnq Htmp Hl. pose proof layout as Hlay. pose proof (slot_range q Hq) as Hqr. unfold apart, disjoint_regions in Htmp.
  cbn [fst snd] in Htmp. destruct (memcpy_spec q temp 16 m ltac:(lia) ltac:(lia)) as (m1 & -> & Hc1 & Hcopy).
  pose proof (copied_blink _ _ _ _ Hcopy) as Eb.
  assert (∀ a, ¬ inside (q, 16) a → rd m1 a = rd m a) as Hm1 by (intros a Ha; apply Hc1; by constructor).
  assert (rd32 m1 head = rd32 m head) as Eh.
  { apply same_in_rd32. intros a Ha. apply Hm1. unfold inside in *. cbn [fst snd] in *. lia. }
  rewrite Eh. cbv zeta. set (m2 := wr32 (wr32 m1 (q + 12) (rd32 m head)) head q).
  assert (same_in (q, 12) m1 m2) as Hm2 by (intros a Ha; unfold inside, m2 in *; cbn [fst snd] in *; by mach).
  pose proof (same_in_blink _ _ _ Hm2) as Eb2. rewrite Eb in Eb2.
  assert (rd16 m2 q = rd16 m temp) as -> by exact (f_equal location Eb2).
  assert (rd m2 (q + 2) = rd m (temp + 2)) as -> by exact (f_equal on_char Eb2).
  assert (∀ a, ¬ inside (q, 16) a → ¬ inside (head, 4) a → rd m2 a = rd m a) as Hout.
  { intros a H1 H2. unfold inside, m2 in *. cbn [fst snd] in *. rewrite !rd_wr32_ne by lia. apply Hm1. exact H1. }
  assert (rd32 m2 vm = video) as Hvm.
  { rewrite <- (rp_screen _ _ Hr). apply same_in_rd32. intros a Ha. unfold inside in Ha. cbn [fst snd] in Ha.
    apply Hout; unfold inside; cbn [fst snd]; lia. }
  rewrite (poke_cell _ (rd16 m temp) m2 ltac:(lia) Hvm). set (m' := wr m2 _ _).
  assert (∀ a, ¬ inside (video, 4000) a → rd m' a = rd m2 a) as Hm'.
  { intros a Ha. unfold inside in Ha. cbn [fst snd] in Ha. unfold m'. apply rd_wr_ne. lia. }
  assert (blink_at m' q = blink_at m temp) as Ebq.
  { rewrite <- Eb2. apply same_in_blink. intros a Ha. unfold inside in Ha. cbn [fst snd] in Ha. apply Hm'.
    unfold inside. cbn [fst snd]. lia. }
  assert (∀ p, slot p → p ≠ q → same_in (p, 16) m m') as Hother.
  { intros p Hp Hne a Ha. pose proof (slot_range p Hp). pose proof (slots_apart p q Hp Hq Hne). unfold inside in Ha.
    cbn [fst snd] in Ha. rewrite Hm', Hout; unfold inside; cbn [fst snd]; done || lia. }
  assert (rd32 m' head = q) as Ehead.
  { rewrite <- (u32_small q) by lia. rewrite <- (rd32_wr32_eq (wr32 m1 (q + 12) (rd32 m head)) head q). apply same_in_rd32.
    intros a Ha. apply Hm'. unfold inside in *. cbn [fst snd] in *. lia. }
  assert (rd32 m' (q + 12) = rd32 m head) as Enext.
  { transitivity (rd32 m2 (q + 12)).
    - apply same_in_rd32. intros a Ha. apply Hm'. unfold inside in *. cbn [fst snd] in *. lia.
    - unfold m2. rewrite rd32_wr32_ne, rd32_wr32_eq by lia. apply u32_small, rd32_range. }
  destruct Hr as [Hc Hnd Hsl Hu Hf Hv]. rewrite Forall_forall in Hsl. split_and!.
  - constructor; [|by constructor|constructor; [done|by rewrite Forall_forall]| | |].
    + split; [done|]. rewrite Enext. apply (chain_kept m); [done|]. intros p Hp. apply same_in_rd32.
      eapply same_in_part; [apply (Hother p); [by apply Hsl|congruence]|cbn [fst snd]; lia..].
    + constructor; [change (rd16 m' q) with (location (blink_at m' q)); by rewrite Ebq|].
      rewrite Forall_forall in Hu |- *. intros p Hp. change (rd16 m' p) with (location (blink_at m' p)).
      rewrite (same_in_blink m); [by apply Hu|]. eapply same_in_part; [apply (Hother p); [by apply Hsl|congruence]|cbn [fst snd]; lia..].
    + intros j Hj Hn. rewrite not_elem_of_cons in Hn. destruct Hn as [Hn1 Hn2]. rewrite <- (Hf j Hj Hn2).
      change (location (blink_at m' (arr + 16 * j)) = location (blink_at m (arr + 16 * j))). f_equal. apply same_in_blink.
      eapply same_in_part; [apply (Hother (arr + 16 * j)); [by exists j|done]|cbn [fst snd]; lia..].
    + rewrite <- Hvm. apply same_in_rd32. intros a Ha. apply Hm'. unfold inside in *. cbn [fst snd] in *. lia.
  - rewrite fmap_cons, Ebq. f_equal. apply list_fmap_ext. intros j p Hp%list_elem_of_lookup_2. apply same_in_blink.
    eapply same_in_part; [apply (Hother p); [by apply Hsl|congruence]|cbn [fst snd]; lia..].
  - intros a Ha. rewrite !Forall_cons in Ha. unfold inside in Ha. cbn [fst snd] in Ha.
    rewrite Hm', Hout; unfold inside; cbn [fst snd]; done || lia.
  - intros a Ha. unfold inside in Ha. cbn [fst snd] in Ha. unfold m'. cbn [paint foldl]. rewrite !rd_wr.
    destruct (_ =? _); [done|]. apply Hout; unfold inside; cbn [fst snd]; lia.
Qed.

(** Writes to locals leave the list alone. *)
Lemma temp_kept m m' ps temp n :
  repr m ps → changes_only [(temp, n)] m m' → apart (temp, n) (arr, 32000) → apart (temp, n) (head, 4) →
  apart (temp, n) (vm, 4) → apart (temp, n) (video, 4000) →
  repr m' ps ∧ blink_at m' <$> ps = blink_at m <$> ps ∧ ∀ a, inside (video, 4000) a → rd m' a = rd m a.
Proof.
  intros Hr Hc H1 H2 H3 H4. pose proof (rp_slots _ _ Hr) as Hsl. rewrite Forall_forall in Hsl.
  assert (∀ r, apart (temp, n) r → same_in r m m') as Hs.
  { intros r Hx. apply (changes_same_in _ _ _ _ Hc). constructor; [by apply apart_sym|done]. }
  assert (∀ p, slot p → same_in (p, 16) m m') as Hp.
  { intros p Hp. pose proof (slot_range p Hp). eapply same_in_part; [exact (Hs _ H1)|cbn [fst snd]; lia..]. }
  split_and!; [|apply list_fmap_ext; intros j p Hj%list_elem_of_lookup_2|exact (Hs _ H4)].
  - apply (repr_kept m); [done|by apply same_in_rd32, Hs..|]. intros p Hq. split.
    + unfold rd16. by rewrite !(Hp p Hq) by (unfold inside; cbn [fst snd]; lia).
    + apply same_in_rd32. eapply same_in_part; [exact (Hp p Hq)|cbn [fst snd]; lia..].
  - apply same_in_blink. eapply same_in_part; [exact (Hp p (Hsl p Hj))|cbn [fst snd]; lia..].
Qed.

Lemma add_spec m ps temp arg :
  repr m ps → Forall (apart (temp, 16)) [(arr, 32000); (head, 4); (vm, 4); (video, 4000); (arg, 16)] →
  let b := blink_at m arg in
  location b ≠ 0 →
  let '(m', r) := mp1_ioctl_add arr head vm temp arg m in
  changes_only [(temp, 16); (arr, 32000); (head, 4); (video, 4000)] m m' ∧
  if (2000 <=? location b) || (zlen ps =? 2000) then r = -1 ∧ repr m' ps ∧ blink_at m' <$> ps = blink_at m <$> ps ∧ same_in (video, 4000) m m'
  else r = 0 ∧ ∃ q, repr m' (q :: ps) ∧
    blink_at m' <$> (q :: ps) = started b :: (blink_at m <$> ps) ∧
    ∀ a, inside (video, 4000) a → rd m' a = rd (paint video [Some (2 * location b, on_char b)] m) a.
Proof.
  intros Hr Htmp b Hb0. rewrite !Forall_cons in Htmp. destruct Htmp as (Ht1 & Ht2 & Ht3 & Ht4 & Ht5 & _).
  unfold mp1_ioctl_add, STRUCT_SIZE, LOCATION, STATUS, COUNTDOWN, ON_LENGTH, ON_CHAR, NEXT. rewrite !Z.add_0_r.
  unfold apart, disjoint_regions in Ht5. cbn [fst snd] in Ht5.
  destruct (memcpy_spec temp arg 16 m ltac:(lia) Ht5) as (m1 & E & Hc1 & Hcopy). rewrite E. cbn [Z.eqb negb].
  pose proof (copied_blink _ _ _ _ Hcopy) as Eb. fold b in Eb.
  destruct (temp_kept m m1 ps temp 16 Hr Hc1) as (Hr1 & El1 & Hv1); [done..|].
  assert (rd16 m1 temp = location b) as -> by exact (f_equal location Eb).
  change (80 * 25) with 2000. destruct (Z.leb_spec 2000 (location b)) as [Hbig|Hl]; cbn [orb].
  { split; [|by split_and!]. eapply changes_only_mono; [exact Hc1|]. intros x ->%list_elem_of_singleton. by left. }
  set (m2 := wr16 (wr16 m1 (temp + 10) 1) _ _).
  assert (changes_only [(temp, 16)] m m2) as Hc2.
  { apply (changes_only_trans _ _ m1); [done|]. eapply changes_only_trans; [|eapply wr16_changes; [by left|cbn [fst snd]; lia..]].
    eapply wr16_changes; [by left|cbn [fst snd]; lia..]. }
  destruct (temp_kept m m2 ps temp 16 Hr Hc2) as (Hr2 & El2 & Hv2); [done..|].
  assert (blink_at m2 temp = started b) as Eb2.
  { rewrite <- Eb. unfold blink_at, started, m2. cbn [location on_char off_char on_length off_length]. mach.
    rewrite (u16_small (rd16 m1 (temp + 4))) by apply rd16_range. done. }
  pose proof (malloc_spec m2 ps 16 Hr2) as Hq. cbv zeta in Hq. set (q := mp1_malloc arr 16 m2) in *.
  destruct (zlen ps =? 2000).
  { rewrite Hq. cbn [Z.eqb]. split; [|by split_and!]. eapply changes_only_mono; [exact Hc2|].
    intros x ->%list_elem_of_singleton. by left. }
  destruct Hq as (Hq & Hnq & Hq0). rewrite (proj2 (Z.eqb_neq q 0)) by done.
  assert (rd16 m2 temp = location b) as El by exact (f_equal location Eb2).
  pose proof (rd16_range m2 temp). rewrite El in *.
  pose proof (add_node m2 ps q temp Hr2 Hq Hnq Ht1 ltac:(lia)) as Hx. destruct (ece391_memcpy q temp 16 m2) as [m3 z].
  destruct Hx as (Hr' & El' & Hc' & Hs'). rewrite (Z.add_0_r q). split; [|split; [done|exists q; split_and!]].
  - apply (changes_only_trans _ _ m2); [eapply changes_only_mono; [exact Hc2|]|eapply changes_only_mono; [exact Hc'|]];
      intros x Hx; set_solver.
  - exact Hr'.
  - by rewrite El', Eb2, El2.
  - intros a Ha. rewrite Hs' by done. change (rd m2 (temp + 2)) with (on_char (blink_at m2 temp)). rewrite Eb2, El.
    cbn [paint foldl started on_char]. rewrite !rd_wr. destruct (_ =? _); [done|]. by apply Hv2.
Qed.

(** ** Synchronising and finding *)

Lemma sync_node m ps p1 p2 :
  repr m ps → p1 ∈ ps → p2 ∈ ps →
  let m1 := wr16 m (p2 + 4) (rd16 m (p1 + 4)) in
  let m2 := wr16 m1 (p2 + 6) (rd16 m1 (p1 + 6)) in
  let m3 := wr16 m2 (p2 + 8) (rd16 m2 (p1 + 8)) in
  let m' := wr16 m3 (p2 + 10) (rd16 m3 (p1 + 10)) in
  repr m' ps ∧ blink_at m' p2 = synced (blink_at m p1) (blink_at m p2) ∧
  (∀ p, p ∈ ps → p ≠ p2 → blink_at m' p = blink_at m p) ∧ changes_only [(p2, 12)] m m'.
Proof.
  intros Hr H1 H2. pose proof layout as Hlay. pose proof (rp_slots _ _ Hr) as Hsl. rewrite Forall_forall in Hsl.
  pose proof (slot_range p2 (Hsl p2 H2)) as Hp2. pose proof (slot_range p1 (Hsl p1 H1)) as Hp1.
  intros m1 m2 m3 m'.
  assert (changes_only [(p2, 12)] m m') as Hc.
  { unfold m', m3, m2, m1. repeat (eapply changes_only_trans; [|eapply wr16_changes; [by left|cbn [fst snd]; lia..]]). done. }
  assert (∀ p, slot p → p ≠ p2 → same_in (p, 16) m m') as Hother.
  { intros p Hp Hne. apply (changes_same_in _ _ _ _ Hc). pose proof (slots_apart p p2 Hp (Hsl p2 H2) Hne). regions. }
  assert (blink_at m' p2 = synced (blink_at m p1) (blink_at m p2)) as E2.
  { pose proof (rd16_range m (p1 + 4)). pose proof (rd16_range m (p1 + 6)). pose proof (rd16_range m (p1 + 8)).
    pose proof (rd16_range m (p1 + 10)).
    unfold blink_at, synced, m', m3, m2, m1. cbn [location on_char off_char on_length off_length countdown status].
    destruct (decide (p1 = p2)) as [->|Hne]; [by mach|].
    pose proof (slots_apart p1 p2 (Hsl p1 H1) (Hsl p2 H2) Hne). by mach. }
  split_and!; [|done| |done].
  - apply (repr_kept m); [done| | |].
    + apply same_in_rd32, (changes_same_in _ _ _ _ Hc). regions.
    + apply same_in_rd32, (changes_same_in _ _ _ _ Hc). regions.
    + intros p Hp. destruct (decide (p = p2)) as [->|Hne].
      * split; [exact (f_equal location E2)|]. apply same_in_rd32, (changes_same_in _ _ _ _ Hc). regions.
      * split.
        -- change (location (blink_at m' p) = location (blink_at m p)). f_equal. apply same_in_blink.
           eapply same_in_part; [by apply Hother|cbn [fst snd]; lia..].
        -- apply same_in_rd32. eapply same_in_part; [by apply Hother|cbn [fst snd]; lia..].
  - intros p Hp Hne. apply same_in_blink. eapply same_in_part; [apply Hother; [by apply Hsl|done]|cbn [fst snd]; lia..].
Qed.

Lemma screen_kept m ps l c :
  repr m ps → 0 ≤ l < 2000 →
  let m' := wr m (video + 2 * l) c in repr m' ps ∧ ∀ p, slot p → blink_at m' p = blink_at m p.
Proof.
  intros Hr Hl m'. pose proof layout as Hlay.
  assert (∀ r, apart r (video, 4000) → same_in r m m') as Hs.
  { intros r Hx. apply (changes_same_in [(video, 4000)]); [|by constructor]. eapply wr_changes; [by left|].
    unfold inside. cbn [fst snd]. lia. }
  assert (∀ p, slot p → same_in (p, 16) m m') as Hp.
  { intros p Hp. pose proof (slot_range p Hp). apply Hs. regions. }
  split.
  - apply (repr_kept m); [done| | |].
    + apply same_in_rd32, Hs. regions.
    + apply same_in_rd32, Hs. regions.
    + intros p Hx. split.
      * unfold rd16. by rewrite !(Hp p Hx) by (unfold inside; cbn [fst snd]; lia).
      * apply same_in_rd32. eapply same_in_part; [exact (Hp p Hx)|cbn [fst snd]; lia..].
  - intros p Hx. apply same_in_blink. eapply same_in_part; [exact (Hp p Hx)|cbn [fst snd]; lia..].
Qed.

Lemma list_fmap_insert_at {A} (f g : Z → A) ps j p :
  NoDup ps → ps !! j = Some p → (∀ q, q ∈ ps → q ≠ p → g q = f q) → g <$> ps = <[j := g p]> (f <$> ps).
Proof.
  intros Hnd Hj Hs. apply list_eq. intros i. rewrite list_lookup_fmap.
  destruct (decide (i = j)) as [->|Hne].
  - rewrite list_lookup_insert_eq; [by rewrite Hj|]. rewrite length_fmap. by eapply lookup_lt_Some.
  - rewrite list_lookup_insert_ne, list_lookup_fmap by done. destruct (ps !! i) as [q|] eqn:Hi; [|done]. cbn. f_equal.
    apply Hs; [by eapply list_elem_of_lookup_2|]. intros ->. apply Hne. by eapply NoDup_lookup.
Qed.

Lemma sync_spec m ps arg :
  repr m ps →
  match at_location m (u16 (Z.shiftr (u32 arg) 16)) ps, at_location m (u16 (Z.land (u32 arg) 0xFFFF)) ps with
  | Some (_, p1), Some (j, p2) =>
      ∃ m', mp1_ioctl_sync head vm arg m = Ok (m', 0) ∧ repr m' ps ∧
        blink_at m' <$> ps = <[j := synced (blink_at m p1) (blink_at m p2)]> (blink_at m <$> ps) ∧
        ∀ a, inside (video, 4000) a →
          rd m' a = rd (paint video [Some (2 * location (blink_at m p2), off_char (blink_at m p2))] m) a
  | _, _ => mp1_ioctl_sync head vm arg m = Ok (m, -1)
  end.
Proof.
  intros Hr. pose proof layout as Hlay. unfold mp1_ioctl_sync. rewrite !(find_helper_spec m ps _ Hr), bind_Ok.
  pose proof (rp_slots _ _ Hr) as Hsl. rewrite Forall_forall in Hsl.
  destruct (at_location m (u16 (Z.shiftr (u32 arg) 16)) ps) as [[i p1]|] eqn:Ea; [|done].
  destruct (split_at _ _ _ _ _ Ea) as (_ & _ & H1). pose proof (slot_range p1 (Hsl p1 H1)).
  rewrite (proj2 (Z.eqb_neq p1 0)), bind_Ok by lia.
  destruct (at_location m (u16 (Z.land (u32 arg) 0xFFFF)) ps) as [[j p2]|] eqn:Eb; [|done].
  destruct (split_at _ _ _ _ _ Eb) as (_ & _ & H2). pose proof (slot_range p2 (Hsl p2 H2)).
  rewrite (proj2 (Z.eqb_neq p2 0)) by lia.
  unfold ON_LENGTH, OFF_LENGTH, COUNTDOWN, STATUS, LOCATION, ON_CHAR, OFF_CHAR. cbv zeta.
  destruct (sync_node m ps p1 p2 Hr H1 H2) as (Hr' & E2 & Hothers & Hc). set (m' := wr16 _ (p2 + 10) _) in *.
  pose proof (rp_used _ _ Hr) as Hu. rewrite Forall_forall in Hu. specialize (Hu p2 H2).
  assert (rd16 m' (p2 + 0) = rd16 m p2) as -> by (rewrite Z.add_0_r; exact (f_equal location E2)).
  assert (rd m' (p2 + 3) = off_char (blink_at m p2)) as -> by exact (f_equal off_char E2).
  replace (cmovl_after_testb _ _ _) with (off_char (blink_at m p2)).
  2: { unfold cmovl_after_testb. by rewrite Z.land_spec, andb_false_r. }
  rewrite (poke_cell _ (rd16 m p2) m' ltac:(lia) (rp_screen _ _ Hr')).
  destruct (screen_kept m' ps (rd16 m p2) (off_char (blink_at m p2)) Hr' ltac:(lia)) as [Hr'' Hb''].
  eexists. split; [reflexivity|]. split_and!; [exact Hr''| |].
  - rewrite <- E2. rewrite <- (Hb'' p2 (Hsl p2 H2)). apply list_fmap_insert_at; [by apply (rp_nodup _ _ Hr)| |].
    + by apply list_find_Some in Eb as (? & _).
    + intros q Hq Hne. rewrite Hb'' by by apply Hsl. by apply Hothers.
  - intros a Ha. unfold inside in Ha. cbn [fst snd] in Ha. cbn [paint foldl]. rewrite !rd_wr.
    change (location (blink_at m p2)) with (rd16 m p2). destruct (_ =? _); [done|]. apply Hc. constructor; [|done].
    unfold inside. cbn [fst snd]. lia.
Qed.

Lemma at_location_ext m m' l ps :
  (∀ p, p ∈ ps → rd16 m' p = rd16 m p) → at_location m' l ps = at_location m l ps.
Proof.
  unfold at_location. induction ps as [|p ps IH]; intros Hs; [done|]. cbn [list_find].
  assert (rd16 m' p = rd16 m p) as -> by (apply Hs; by left).
  rewrite IH; [done|]. intros q Hq. apply Hs. by right.
Qed.

Lemma find_spec m ps temp arg :
  repr m ps → Forall (apart (temp, 2)) [(arr, 32000); (head, 4); (vm, 4); (video, 4000); (arg, 16)] →
  Forall (apart (arg, 16)) [(arr, 32000); (head, 4); (vm, 4); (video, 4000)] →
  returns (mp1_ioctl_find head temp arg m) (λ '(m', r), repr m' ps ∧ blink_at m' <$> ps = blink_at m <$> ps ∧
    match at_location m (rd16 m arg) ps with
    | Some (_, p) => r = 0 ∧ blink_at m' arg = blink_at m p
    | None => r = -1
    end).
Proof.
  intros Hr Ht Ha. rewrite !Forall_cons in Ht. rewrite !Forall_cons in Ha. destruct Ht as (Ht1 & Ht2 & Ht3 & Ht4 & Ht5 & _), Ha as (Ha1 & Ha2 & Ha3 & Ha4 & _).
  unfold mp1_ioctl_find, STRUCT_SIZE. pose proof Ht5 as Ht5'. unfold apart, disjoint_regions in Ht5'. cbn [fst snd] in Ht5'.
  destruct (memcpy_spec temp arg 2 m ltac:(lia) ltac:(lia)) as (m1 & -> & Hc1 & Hcopy). cbn [Z.eqb negb].
  destruct (temp_kept m m1 ps temp 2 Hr Hc1) as (Hr1 & El1 & _); [done..|].
  assert (rd16 m1 temp = rd16 m arg) as ->.
  { unfold rd16. pose proof (Hcopy 0 ltac:(lia)) as H0. rewrite !Z.add_0_r in H0. by rewrite H0, (Hcopy 1) by lia. }
  rewrite (find_helper_spec m1 ps _ Hr1), bind_Ok, u16_small by apply rd16_range.
  assert (∀ p, p ∈ ps → blink_at m1 p = blink_at m p) as Eb.
  { intros p (j & Hj)%list_elem_of_lookup_1. pose proof (f_equal (λ l, l !! j) El1) as Ej. cbn in Ej.
    rewrite !list_lookup_fmap, Hj in Ej. cbn in Ej. congruence. }
  assert (at_location m1 (rd16 m arg) ps = at_location m (rd16 m arg) ps) as ->.
  { apply at_location_ext. intros p Hp. exact (f_equal location (Eb p Hp)). }
  destruct (at_location m (rd16 m arg) ps) as [[j p]|] eqn:E; [|by apply returns_Ok].
  destruct (split_at _ _ _ _ _ E) as (_ & _ & Hp). pose proof (rp_slots _ _ Hr) as Hsl. rewrite Forall_forall in Hsl.
  pose proof (slot_range p (Hsl p Hp)). rewrite (proj2 (Z.eqb_neq p 0)) by lia.
  pose proof Ha1 as Ha1'. unfold apart, disjoint_regions in Ha1'. cbn [fst snd] in Ha1'.
  destruct (memcpy_spec arg p 16 m1 ltac:(lia) ltac:(lia)) as (m2 & -> & Hc2 & Hcopy2). cbn [Z.eqb]. apply returns_Ok.
  destruct (temp_kept m1 m2 ps arg 16 Hr1 Hc2) as (Hr2 & El2 & _); [done..|]. split_and!; [done|by rewrite El2|done|].
  rewrite (copied_blink _ _ _ _ Hcopy2). by apply Eb.
Qed.

(** Removing touches no cell of the screen. *)
Lemma removed_screen m m' : changes_only [(arr, 32000); (head, 4)] m m' → same_in (video, 4000) m m'.
Proof. intros Hc. pose proof layout. apply (changes_same_in _ _ _ _ Hc). regions. Qed.
End list.

(** ** Properties *)

(** The memory holds the list [l] of blinkers. *)
Definition holds_blinks (arr head vm video : Z) (m : mem) (l : list blink) : Prop :=
  ∃ ps, repr arr head vm video m ps ∧ blink_at m <$> ps = l.

(** The screen after cells were written. *)
Definition painted (video : Z) (cells : list (option (Z * Z))) (m m' : mem) : Prop :=
  ∀ a, inside (video, 4000) a → rd m' a = rd (paint video cells m) a.

Definition seek (loc : Z) (l : list blink) : option (nat * blink) := list_find (λ b, location b = loc) l.

Lemma seek_at m loc ps :
  seek loc (blink_at m <$> ps) = (λ '(i, p), (i, blink_at m p)) <$> at_location m loc ps.
Proof.
  unfold seek, at_location. induction ps as [|p ps IH]; [done|]. cbn [fmap list_fmap list_find].
  change (location (blink_at m p)) with (rd16 m p). destruct (decide (rd16 m p = loc)); [done|].
  unfold fmap in IH |- *. setoid_rewrite IH. by destruct (list_find _ ps) as [[i q]|].
Qed.

(** C18: the blinking characters.  The linked nodes in the slots of blink_array
    are a list of blinkers, newest first, with locations from 1 to 1999.  A
    tick counts every blinker down and, when its signed count is no longer
    positive, shows its other character and starts the other count; the
    commands of mp1_ioctl add a blinker in front, switched on and shown, or
    refuse one that is off the screen or finds the 2000 slots taken; remove the
    first blinker at a location, whatever node it is; copy one out to the
    caller; and give one blinker the state of another, showing its off
    character whatever that state is.  Each returns 0, or -1 where no blinker
    is at the location, and keeps the list well formed; the walks along the
    list end. *)
Theorem blinkers_refine arr head vm video temp arg m l :
  separate [(arr, 32000); (head, 4); (vm, 4); (video, 4000)] → 0 < arr → arr + 32000 < 4294967296 →
  0 ≤ video → video + 4000 < 4294967296 → holds_blinks arr head vm video m l →
  returns (mp1_rtc_tasklet head vm m) (λ m',
    holds_blinks arr head vm video m' ((λ b, fst (tick b)) <$> l) ∧ painted video ((λ b, snd (tick b)) <$> l) m m') ∧
  (Forall (apart (temp, 16)) [(arr, 32000); (head, 4); (vm, 4); (video, 4000); (arg, 16)] →
   let b := blink_at m arg in
   location b ≠ 0 →
   returns (mp1_ioctl arr head vm temp arg RTC_ADD m) (λ '(m', r),
     if (2000 <=? location b) || (zlen l =? 2000) then r = -1 ∧ holds_blinks arr head vm video m' l ∧ painted video [] m m'
     else r = 0 ∧ holds_blinks arr head vm video m' (started b :: l) ∧
       painted video [Some (2 * location b, on_char b)] m m')) ∧
  returns (mp1_ioctl arr head vm temp arg RTC_REMOVE m) (λ '(m', r),
    match seek (u16 arg) l with
    | None => r = -1 ∧ m' = m
    | Some (i, _) => r = 0 ∧ holds_blinks arr head vm video m' (delete i l) ∧ painted video [] m m'
    end) ∧
  (Forall (apart (temp, 2)) [(arr, 32000); (head, 4); (vm, 4); (video, 4000); (arg, 16)] →
   Forall (apart (arg, 16)) [(arr, 32000); (head, 4); (vm, 4); (video, 4000)] →
   returns (mp1_ioctl arr head vm temp arg RTC_FIND m) (λ '(m', r), holds_blinks arr head vm video m' l ∧
     match seek (rd16 m arg) l with Some (_, b) => r = 0 ∧ blink_at m' arg = b | None => r = -1 end)) ∧
  returns (mp1_ioctl arr head vm temp arg RTC_SYNC m) (λ '(m', r),
    match seek (u16 (Z.shiftr (u32 arg) 16)) l, seek (u16 (Z.land (u32 arg) 0xFFFF)) l with
    | Some (_, b1), Some (j, b2) => r = 0 ∧ holds_blinks arr head vm video m' (<[j := synced b1 b2]> l) ∧
        painted video [Some (2 * location b2, off_char b2)] m m'
    | _, _ => r = -1 ∧ m' = m
    end).
Proof.
  intros Hsep Harr Harr' Hv Hv' (ps & Hr & <-). split_and!.
  - eapply returns_mono; [by apply (tasklet_spec arr head vm video Hsep Harr Hv Hv' m ps)|].
    intros m' (Hr' & El & _ & Hs). split; [exists ps; split; [done|]|].
    + rewrite El. unfold ticked. by rewrite <- list_fmap_compose.
    + unfold cells in Hs. by rewrite <- list_fmap_compose.
  - intros Ht b Hb. unfold mp1_ioctl. cbn [Z.eqb RTC_ADD].
    pose proof (add_spec arr head vm video Hsep Harr Harr' Hv Hv' m ps temp arg Hr Ht Hb) as Hx.
    destruct (mp1_ioctl_add _ _ _ _ _ _) as [m' r]. apply returns_Ok. destruct Hx as [_ Hx]. fold b in Hx.
    rewrite length_fmap. destruct (_ || _).
    + destruct Hx as (-> & Hr' & El & Hs). split; [done|]. split; [by exists ps|exact Hs].
    + destruct Hx as (-> & q & Hr' & El & Hs). split; [done|]. split; [by exists (q :: ps)|done].
  - unfold mp1_ioctl. cbn [Z.eqb RTC_REMOVE]. rewrite seek_at.
    pose proof (remove_spec arr head vm video Hsep Harr Harr' m ps arg Hr) as Hx.
    destruct (at_location m (u16 arg) ps) as [[i p]|]; cbn [fmap option_fmap option_map].
    + destruct Hx as (m' & -> & Hr' & El & Hc). apply returns_Ok. split; [done|]. split; [by exists (delete i ps)|].
      apply (removed_screen arr head vm video Hsep m m' Hc).
    + rewrite Hx. by apply returns_Ok.
  - intros Ht Ha. unfold mp1_ioctl. cbn [Z.eqb RTC_FIND]. rewrite seek_at.
    eapply returns_mono; [by apply (find_spec arr head vm video Harr m ps temp arg)|].
    intros [m' r] (Hr' & El & Hx). split; [by exists ps|].
    by destruct (at_location m (rd16 m arg) ps) as [[i p]|].
  - unfold mp1_ioctl. cbn [Z.eqb RTC_SYNC]. rewrite !seek_at.
    pose proof (sync_spec arr head vm video Hsep Harr Hv Hv' m ps arg Hr) as Hx.
    destruct (at_location m (u16 (Z.shiftr (u32 arg) 16)) ps) as [[i p1]|]; cbn [fmap option_fmap option_map];
      [|rewrite Hx; by apply returns_Ok].
    destruct (at_location m (u16 (Z.land (u32 arg) 0xFFFF)) ps) as [[j p2]|]; cbn [fmap option_fmap option_map];
      [|rewrite Hx; by apply returns_Ok].
    destruct Hx as (m' & -> & Hr' & El & Hs). apply returns_Ok. split; [done|]. split; [by exists ps|done].
Qed.

(** No blinkers, a screen at 0xB8000, and a structure to add at 0x9000. *)
Definition no_blinkers : mem := wr32 mem0 0x8010 0xB8000.

Definition fish_blink : mem :=
  wr16 (wr16 (wr (wr (wr16 no_blinkers 0x9000 540) 0x9002 73) 0x9003 77) 0x9004 7) 0x9006 6.

Lemma blinkers_refine_witness :
  returns (mp1_ioctl 0x10000 0x8000 0x8010 0x7000 0x9000 RTC_ADD fish_blink) (λ '(m', r),
    r = 0 ∧ holds_blinks 0x10000 0x8000 0x8010 0xB8000 m' [Blink 540 73 77 7 6 7 1] ∧ rd m' (0xB8000 + 1080) = 73).
Proof.
  assert (holds_blinks 0x10000 0x8000 0x8010 0xB8000 fish_blink []) as Hh.
  { exists []. split; [|done]. split; [cbn [chain]; by_decide|constructor|constructor|constructor| |by_decide].
    intros i Hi _. unfold rd16, fish_blink, wr16. unfold no_blinkers, wr32. by rewrite !rd_wr_ne by lia. }
  pose proof (blinkers_refine 0x10000 0x8000 0x8010 0xB8000 0x7000 0x9000 fish_blink []
    ltac:(unfold apart, disjoint_regions; by_decide) eq_refl eq_refl ltac:(done) eq_refl Hh) as (_ & Hadd & _).
  eapply returns_mono; [apply Hadd; [unfold apart, disjoint_regions; by_decide|done]|].
  intros [m' r] (-> & Hm & Hp). split_and!; [done|exact Hm|]. rewrite Hp by (unfold inside; cbn; lia). by_decide.
Defined.

(** The caller's structure is not checked for location 0, which the allocator
    takes for a free slot: a second such blinker gets the node of the first,
    which is then its own successor, so that the walks along the list do not end. *)
Definition corner_blink : mem := wr16 fish_blink 0x9000 0.

Lemma location_zero_links_to_itself :
  match mp1_ioctl 0x10000 0x8000 0x8010 0x7000 0x9000 RTC_ADD corner_blink with
  | Ok (m1, 0) =>
      match mp1_ioctl 0x10000 0x8000 0x8010 0x7000 0x9000 RTC_ADD m1 with
      | Ok (m2, 0) => bool_decide (rd32 m2 0x8000 = 0x10000 ∧ rd32 m2 (0x10000 + NEXT) = 0x10000)
      | _ => false
      end
  | _ => false
  end = true.
Proof. vm_compute. reflexivity. Qed.
