(* ===== verification/Fish.v ===== *)
(** * fish.c: two drawings that blink into each other

    The main program of the fish demonstration, over the blinkers of Blink.v
    and the system calls of Emulate.v, as fish/Makefile links fish_emulated. *)

From S2P Require Import Prelude Memory LibString UserLib Emulate Blink.

(** Where the compiler puts things: the globals of fish.c and blink.S, the
    string literals (that of ece391emulate.c too), the locals of main, of
    add_frames and of mp1_ioctl_add. *)
Record fish_layout := FishLayout {
  blink_array : Z; mp1_list_head : Z; vmem_base_addr : Z;
  file0 : Z; file1 : Z; rtc_name : Z; dot : Z;
  main_struct : Z; ret_val : Z; garbage : Z;
  frame_struct : Z; c0 : Z; c1 : Z;
  ioctl_temp : Z
}.

Definition WAIT := 200.
Definition offset := 40.

Section program.
Context `{Linux L} (p : fish_layout).
Implicit Types s : emu L.

Definition on_mem (f : mem → mem) s : emu L := set_emem (f (emem s)) s.

Definition ioctl (arg cmd : Z) s : res (emu L) :=
  '(m, _) ← mp1_ioctl (blink_array p) (mp1_list_head p) (vmem_base_addr p) (ioctl_temp p) arg cmd (emem s);
  Ok (set_emem m s).

Definition mp1_set_video_mode s : emu L * Z :=
  let '(s, r) := ece391_vidmap (vmem_base_addr p) s in
  if r =? -1 then (s, 0) else (s, rd32 (emem s) (vmem_base_addr p)).

(** The next character of a file into its variable, unless its line is over;
    with what eof is then. *)
Definition next_char (fd c eof : Z) s : res (emu L * Z) :=
  if negb (rd (emem s) c =? 10) then
    '(s, num_bytes) ← ece391_read fd c 1 s;
    if num_bytes =? 0 then Ok (on_mem (λ m, wr m c 10) s, 1) else Ok (s, eof)
  else Ok (s, eof).

(** A pair of characters as a blinker. *)
Definition add_pair (row col : Z) s : res (emu L) :=
  let ch0 := rd (emem s) (c0 p) in
  let ch1 := rd (emem s) (c1 p) in
  if (negb (ch0 =? 32) && negb (ch0 =? 10)) || (negb (ch1 =? 32) && negb (ch1 =? 10)) then
    let s := on_mem (λ m, wr m (frame_struct p + ON_CHAR) (if ch0 =? 10 then 32 else ch0)) s in
    let s := on_mem (λ m, wr m (frame_struct p + OFF_CHAR) (if ch1 =? 10 then 32 else ch1)) s in
    let s := on_mem (λ m, wr16 m (frame_struct p + LOCATION) (u16 (row * 80 + col + offset))) s in
    ioctl (frame_struct p) RTC_ADD s
  else Ok s.

(** The loop over a row. *)
Definition add_row (fd0 fd1 row : Z) s (eof0 eof1 : Z) : res (emu L * Z * Z) :=
  whileM (λ '(s, eof0, eof1, col),
    '(s, eof0) ← next_char fd0 (c0 p) eof0 s;
    '(s, eof1) ← next_char fd1 (c1 p) eof1 s;
    if (rd (emem s) (c0 p) =? 10) && (rd (emem s) (c1 p) =? 10) then Ok (inr (s, eof0, eof1))
    else s ← add_pair row col s; Ok (inl (s, eof0, eof1, col + 1))) (s, eof0, eof1, 0).

(** What follows it for each of the files. *)
Definition end_row (fd c eof : Z) s : emu L :=
  if negb (eof =? 0) then fst (ece391_close fd (on_mem (λ m, wr m c 10) s)) else on_mem (λ m, wr m c 48) s.

Definition add_rows (fd0 fd1 : Z) s : res (emu L) :=
  whileM (λ '(s, eof0, eof1, row),
    if (eof0 =? 0) || (eof1 =? 0) then
      '(s, eof0, eof1) ← add_row fd0 fd1 row s eof0 eof1;
      let s := end_row fd0 (c0 p) eof0 s in
      let s := end_row fd1 (c1 p) eof1 s in
      Ok (inl (s, eof0, eof1, row + 1))
    else Ok (inr s)) (s, 0, 0, 0).

(** With the status when it calls halt. *)
Definition add_frames (f0 f1 rtc_fd : Z) s : res (emu L * option Z) :=
  let s := on_mem (λ m, wr (wr m (c0 p) 48) (c1 p) 48) s in
  let s := on_mem (λ m, wr16 m (frame_struct p + ON_LENGTH) 15) s in
  let s := on_mem (λ m, wr16 m (frame_struct p + OFF_LENGTH) 15) s in
  '(s, fd0) ← ece391_open (dot p) f0 s;
  if fd0 <? 0 then Ok (s, Some (-1))
  else
    '(s, fd1) ← ece391_open (dot p) f1 s;
    if fd1 <? 0 then Ok (s, Some (-1))
    else s ← add_rows fd0 fd1 s; Ok (s, None).

(** [for(i=0; i<n; i++)]: the clock is read, the blinkers tick. *)
Definition wait_ticks (n rtc_fd : Z) s : res (emu L) :=
  whileM (λ '(s, i),
    if i <? n then
      '(s, _) ← ece391_read rtc_fd (garbage p) 4 s;
      m ← mp1_rtc_tasklet (mp1_list_head p) (vmem_base_addr p) (emem s);
      Ok (inl (set_emem m s, i + 1))
    else Ok (inr s)) (s, 0).

(** After the drawings are there; [i] is [WAIT] at the call of RTC_REMOVE. *)
Definition show_tank (rtc_fd : Z) s : res (emu L) :=
  let s := on_mem (λ m, wr32 m (ret_val p) 32) s in
  let '(s, r) := ece391_write rtc_fd (ret_val p) 4 s in
  let s := on_mem (λ m, wr32 m (ret_val p) (u32 r)) s in
  s ← wait_ticks WAIT rtc_fd s;
  let s := on_mem (λ m, wr m (main_struct p + ON_CHAR) 73) s in
  let s := on_mem (λ m, wr m (main_struct p + OFF_CHAR) 77) s in
  let s := on_mem (λ m, wr16 m (main_struct p + ON_LENGTH) 7) s in
  let s := on_mem (λ m, wr16 m (main_struct p + OFF_LENGTH) 6) s in
  let s := on_mem (λ m, wr16 m (main_struct p + LOCATION) (6 * 80 + 60)) s in
  s ← ioctl (main_struct p) RTC_ADD s;
  s ← wait_ticks WAIT rtc_fd s;
  s ← ioctl (Z.lor (Z.shiftl 40 16) (6 * 80 + 60)) RTC_SYNC s;
  s ← wait_ticks WAIT rtc_fd s;
  let s := on_mem (λ m, wr16 m (main_struct p + LOCATION) 60) s in
  s ← ioctl WAIT RTC_REMOVE s;
  wait_ticks (80 * 25) rtc_fd s.

(** With the status the program ends with. *)
Definition main s : res (emu L * Z) :=
  let s := on_mem (ece391_memset (blink_array p) 0 (STRUCT_SIZE * 80 * 25)) s in
  let '(s, base) := mp1_set_video_mode s in
  if base =? 0 then Ok (s, -1)
  else
    '(s, rtc_fd) ← ece391_open (dot p) (rtc_name p) s;
    '(s, halted) ← add_frames (file0 p) (file1 p) rtc_fd s;
    match halted with
    | Some status => Ok (s, status)
    | None =>
        s ← show_tank rtc_fd s;
        Ok (fst (ece391_close rtc_fd s), 0)
    end.
End program.

(** ** What it shows

    The blinkers and the cells that were written, in their order. *)

Definition tank : Type := list blink * list (option (Z * Z)).

Definition add_blink (t : tank) (b : blink) : tank :=
  if (2000 <=? location b) || (zlen (fst t) =? 2000) then t
  else (started b :: fst t, snd t ++ [Some (2 * location b, on_char b)]).

Definition tick_tank (t : tank) : tank :=
  ((λ b, fst (tick b)) <$> fst t, snd t ++ ((λ b, snd (tick b)) <$> fst t)).

Definition sync_tank (from to : Z) (t : tank) : tank :=
  match seek from (fst t), seek to (fst t) with
  | Some (_, b1), Some (j, b2) => (<[j := synced b1 b2]> (fst t), snd t ++ [Some (2 * location b2, off_char b2)])
  | _, _ => t
  end.

Definition remove_tank (loc : Z) (t : tank) : tank :=
  match seek loc (fst t) with Some (i, _) => (delete i (fst t), snd t) | None => t end.

(** The lines of a text, the last one ended by the end of the text. *)
Fixpoint lines (t : list Z) : list (list Z) :=
  match t with
  | [] => [[]]
  | c :: t' => if c =? 10 then [] :: lines t' else match lines t' with [] => [] | l :: ls => (c :: l) :: ls end
  end.

(** Two lists side by side, the shorter one filled up. *)
Fixpoint beside {A} (d : A) (a b : list A) : list (A * A) :=
  match a, b with
  | [], _ => (λ y, (d, y)) <$> b
  | x :: a', [] => (x, d) :: beside d a' []
  | x :: a', y :: b' => (x, y) :: beside d a' b'
  end.

Fixpoint row_blinks (loc : Z) (cells : list (Z * Z)) : list blink :=
  match cells with
  | [] => []
  | (x, y) :: cells' =>
      (if (x =? 32) && (y =? 32) then [] else [Blink loc x y 15 15 0 0]) ++ row_blinks (loc + 1) cells'
  end.

Fixpoint drawing (row : Z) (ls : list (list Z * list Z)) : list blink :=
  match ls with
  | [] => []
  | (a, b) :: ls' => row_blinks (row * 80 + offset) (beside 32 a b) ++ drawing (row + 1) ls'
  end.

(** The blinkers of two drawings. *)
Definition pictures (t0 t1 : list Z) : list blink := drawing 0 (beside [] (lines t0) (lines t1)).

(** The whole show. *)
Definition fish_show (t0 t1 : list Z) : tank :=
  let t := foldl add_blink ([], []) (pictures t0 t1) in
  let t := Nat.iter 200 tick_tank t in
  let t := Nat.iter 200 tick_tank (add_blink t (Blink 540 73 77 7 6 0 0)) in
  let t := Nat.iter 200 tick_tank (sync_tank 40 540 t) in
  Nat.iter 2000 tick_tank (remove_tank 200 t).

(** A line and what follows its newline. *)
Fixpoint cut (t : list Z) : list Z * option (list Z) :=
  match t with
  | [] => ([], None)
  | c :: t' => if c =? 10 then ([], Some t') else let '(a, r) := cut t' in (c :: a, r)
  end.

Definition is_text (t : list Z) : Prop := Forall (λ c, 0 ≤ c < 256) t.

Lemma cut_line t : is_text t → Forall (λ c, 0 ≤ c < 256 ∧ c ≠ 10) (fst (cut t)) ∧
  match snd (cut t) with Some t' => is_text t' ∧ zlen t = zlen (fst (cut t)) + 1 + zlen t' | None => zlen t = zlen (fst (cut t)) end.
Proof.
  induction 1 as [|c t Hc Ht IH]; cbn [cut]; [done|]. destruct (Z.eqb_spec c 10) as [->|Hne].
  - split; [done|]. split; [done|]. rewrite zlen_cons. cbn [fst]. change (zlen []) with 0. lia.
  - destruct (cut t) as [a r]. cbn [fst snd] in *. destruct IH as [IH1 IH2]. split; [by constructor|].
    destruct r; rewrite !zlen_cons; [split; [apply IH2|lia]|lia].
Qed.

Lemma lines_cut t : lines t = fst (cut t) :: match snd (cut t) with Some t' => lines t' | None => [] end.
Proof.
  induction t as [|c t IH]; [done|]. cbn [lines cut]. destruct (c =? 10); [done|]. rewrite IH. by destruct (cut t).
Qed.

Lemma beside_step {A} (d : A) a b :
  a ≠ [] ∨ b ≠ [] → beside d a b = (hd d a, hd d b) :: beside d (tail a) (tail b).
Proof. destruct a, b; intros [?|?]; done. Qed.

(** Where Linux puts the low memory. *)
Definition mapping `{Linux L} (s : emu L) : option Z :=
  let '(fd, l) := if mem_fd s =? -1 then open_mem (linux s) else (mem_fd s, linux s) in fst (mmap_low fd l).

Section proofs.
Context `{Linux L} (p : fish_layout) (video : Z).
Implicit Types (s : emu L) (m : mem) (t : tank).

Let arr := blink_array p.
Let head := mp1_list_head p.
Let vm := vmem_base_addr p.

Definition places_regions : list (Z * Z) :=
  [(arr, 32000); (head, 4); (vm, 4); (video, 4000); (ioctl_temp p, 16); (main_struct p, 16); (ret_val p, 4);
   (garbage p, 4); (frame_struct p, 16); (c0 p, 1); (c1 p, 1); (rtc_name p, 4); (dot p, 2); (file0 p, 11); (file1 p, 11)].

Context (Hsep : separate places_regions) (Harr : 0 < arr) (Harr' : arr + 32000 < 4294967296).
Context (Hv : 0 < video) (Hv' : video + 4000 < 4294967296).

(** The place of a region in the list. *)
Ltac index := let rec at_place k := lazymatch k with
    | 15%nat => fail
    | _ => first [exact (eq_refl : places_regions !! k = Some _) | at_place (S k)]
    end in at_place 0%nat.
Ltac away := rewrite ?Forall_cons, ?Forall_nil; split_and?; try exact I;
  (eapply (separate_apart places_regions); [exact Hsep|index|index|lia]).

Lemma list_sep : separate [(arr, 32000); (head, 4); (vm, 4); (video, 4000)].
Proof. cbn [separate]. split_and!; away. Qed.

(** The memory holds a tank, whose cells were written over those of [m0]. *)
Definition tank_at m0 m t : Prop := holds_blinks arr head vm video m (fst t) ∧ painted video (snd t) m0 m.

Lemma paint_same l m m' : same_in (video, 4000) m m' → same_in (video, 4000) (paint video l m) (paint video l m').
Proof.
  revert m m'. induction l as [|[[i c]|] l IH]; intros m m' Hm; [done| |by apply IH].
  apply IH. intros a Ha. rewrite !rd_wr. destruct (_ =? _); [done|by apply Hm].
Qed.

Lemma painted_then m0 m m' l l' : painted video l m0 m → painted video l' m m' → painted video (l ++ l') m0 m'.
Proof.
  intros H1 H2 a Ha. rewrite (H2 a Ha). unfold paint at 2. rewrite foldl_app. by apply paint_same.
Qed.

(** Memory of the program's own. *)
Lemma tank_kept m0 m m' t a n :
  changes_only [(a, n)] m m' → Forall (apart (a, n)) [(arr, 32000); (head, 4); (vm, 4); (video, 4000)] →
  tank_at m0 m t → tank_at m0 m' t.
Proof.
  intros Hc Ha ((ps & Hr & El) & Hp). rewrite !Forall_cons in Ha. destruct Ha as (H1 & H2 & H3 & H4 & _).
  destruct (temp_kept arr head vm video Harr m m' ps a n Hr Hc H1 H2 H3 H4) as (Hr' & El' & Hs). split.
  - exists ps. by rewrite El', El.
  - intros b Hb. by rewrite Hs, Hp.
Qed.

Lemma ioctl_add m0 s t arg b :
  tank_at m0 (emem s) t → Forall (apart (ioctl_temp p, 16)) [(arr, 32000); (head, 4); (vm, 4); (video, 4000); (arg, 16)] →
  started (blink_at (emem s) arg) = started b → location b ≠ 0 →
  returns (ioctl p arg RTC_ADD s) (λ s', ∃ m', s' = set_emem m' s ∧ tank_at m0 m' (add_blink t b) ∧
    changes_only [(ioctl_temp p, 16); (arr, 32000); (head, 4); (video, 4000)] (emem s) m').
Proof.
  intros ((ps & Hr & El) & Hp) Ht Eb Hb. unfold ioctl, mp1_ioctl. cbn [Z.eqb RTC_ADD]. rewrite bind_Ok.
  assert (location (blink_at (emem s) arg) = location b) as E1 by exact (f_equal location Eb).
  assert (on_char (blink_at (emem s) arg) = on_char b) as E2 by exact (f_equal on_char Eb).
  pose proof (add_spec arr head vm video list_sep Harr Harr' ltac:(lia) Hv' (emem s) ps (ioctl_temp p) arg Hr Ht ltac:(congruence)) as Hx.
  fold arr head vm. destruct (mp1_ioctl_add _ _ _ _ _ _) as [m' r]. apply returns_Ok. cbv zeta in Hx.
  exists m'. split; [done|]. destruct Hx as [Hc Hx]. split; [|exact Hc]. rewrite E1, E2, Eb in Hx.
  unfold add_blink. rewrite <- El, length_fmap. destruct (_ || _).
  - destruct Hx as (_ & Hr' & El' & Hs). split; [exists ps; by rewrite El', El|].
    rewrite <- (app_nil_r (snd t)). by apply (painted_then _ (emem s)).
  - destruct Hx as (_ & q & Hr' & El' & Hs). split; [exists (q :: ps); split; [done|by rewrite El', El]|].
    by apply (painted_then _ (emem s)).
Qed.

Lemma ioctl_sync m0 s t arg :
  tank_at m0 (emem s) t →
  returns (ioctl p arg RTC_SYNC s) (λ s', ∃ m', s' = set_emem m' s ∧
    tank_at m0 m' (sync_tank (u16 (Z.shiftr (u32 arg) 16)) (u16 (Z.land (u32 arg) 0xFFFF)) t)).
Proof.
  intros ((ps & Hr & El) & Hp). unfold ioctl, mp1_ioctl. cbn [Z.eqb Pos.eqb RTC_SYNC]. fold arr head vm.
  pose proof (sync_spec arr head vm video list_sep Harr ltac:(lia) Hv' (emem s) ps arg Hr) as Hx.
  assert (tank_at m0 (emem s) t) as Hsame by (split; [by exists ps|done]).
  unfold sync_tank. rewrite <- El, !seek_at.
  destruct (at_location _ (u16 (Z.shiftr (u32 arg) 16)) ps) as [[i p1]|]; cbn [fmap option_fmap option_map];
    [|rewrite Hx, bind_Ok; apply returns_Ok; by exists (emem s)].
  destruct (at_location _ (u16 (Z.land (u32 arg) 0xFFFF)) ps) as [[j p2]|]; cbn [fmap option_fmap option_map];
    [|rewrite Hx, bind_Ok; apply returns_Ok; by exists (emem s)].
  destruct Hx as (m' & -> & Hr' & El' & Hs). rewrite bind_Ok. apply returns_Ok. exists m'. split; [done|].
  split; [by exists ps|by apply (painted_then _ (emem s))].
Qed.

Lemma ioctl_remove m0 s t loc :
  tank_at m0 (emem s) t → 0 ≤ loc < 65536 →
  returns (ioctl p loc RTC_REMOVE s) (λ s', ∃ m', s' = set_emem m' s ∧ tank_at m0 m' (remove_tank loc t)).
Proof.
  intros ((ps & Hr & El) & Hp) Hl. unfold ioctl, mp1_ioctl. cbn [Z.eqb Pos.eqb RTC_REMOVE]. fold arr head vm.
  pose proof (remove_spec arr head vm video list_sep Harr Harr' (emem s) ps loc Hr) as Hx. rewrite u16_small in Hx by done.
  unfold remove_tank. rewrite <- El, seek_at. destruct (at_location _ loc ps) as [[i q]|]; cbn [fmap option_fmap option_map].
  - destruct Hx as (m' & -> & Hr' & El' & Hc). rewrite bind_Ok. apply returns_Ok. exists m'. split; [done|]. split; cbn [fst snd].
    + by exists (delete i ps).
    + rewrite <- (app_nil_r (snd t)). apply (painted_then _ (emem s)); [done|].
      apply (removed_screen arr head vm video list_sep _ _ Hc).
  - rewrite Hx, bind_Ok. apply returns_Ok. exists (emem s). split; [done|]. split; [|done]. exists ps. by rewrite El.
Qed.

Lemma tick_tank_at m0 m t :
  tank_at m0 m t → returns (mp1_rtc_tasklet head vm m) (λ m', tank_at m0 m' (tick_tank t)).
Proof.
  intros ((ps & Hr & El) & Hp). eapply returns_mono; [by apply (tasklet_spec arr head vm video list_sep Harr ltac:(lia) Hv' m ps)|].
  intros m' (Hr' & El' & _ & Hs). split; cbn [tick_tank fst snd].
  - exists ps. split; [done|]. rewrite El', <- El. unfold ticked. by rewrite <- list_fmap_compose.
  - apply (painted_then _ m); [done|]. unfold cells in Hs. by rewrite <- El, <- list_fmap_compose.
Qed.
(** ** The files, as Linux serves them

    [files] are the texts of the files by name, [left] what is left to be read
    of each descriptor. *)
Record serves (files : list Z → option (list Z)) (left : L → gmap Z (list Z)) : Prop := {
  sv_open name l : (base.size (left l) < 16)%nat → match files name with
    | Some t => ∃ fd l', sys_open name l = (fd, l') ∧ 0 ≤ fd < 2147483648 ∧ left l !! fd = None ∧ left l' = <[fd := t]> (left l)
    | None => ∃ v l', sys_open name l = (v, l') ∧ 0xFFFFC000 < v ∧ left l' = left l
    end;
  sv_char l fd c (t : list Z) : left l !! fd = Some (c :: t) → ∃ l', sys_read fd 1 l = (1, [c], l') ∧ left l' = <[fd := t]> (left l);
  sv_end l fd : left l !! fd = Some [] → ∃ l', sys_read fd 1 l = (0, [], l') ∧ left l' = left l;
  sv_close l fd : left (snd (sys_close fd l)) = delete fd (left l);
  sv_short l fd n : 0 ≤ n → zlen (snd (fst (sys_read fd n l))) ≤ n;
  sv_mem l : left (snd (open_mem l)) = left l;
  sv_mmap l fd : left (snd (mmap_low fd l)) = left l
}.
Context (files : list Z → option (list Z)) (left : L → gmap Z (list Z)) (Hserves : serves files left).

(** A file in the middle of a row: what is left of the line, and what follows
    its newline. *)
Inductive mid (fd c eof : Z) s : list Z * option (list Z) → Prop :=
  | InLine (t : list Z) : rd (emem s) c ≠ 10 → eof = 0 → is_text t → left (linux s) !! fd = Some t → mid fd c eof s (cut t)
  | AtEnd r : rd (emem s) c = 10 →
      match r with None => eof = 1 | Some t => eof = 0 ∧ is_text t ∧ left (linux s) !! fd = Some t end →
      mid fd c eof s ([], r).

Lemma mid_line fd c eof s a r : mid fd c eof s (a, r) → Forall (λ x, 0 ≤ x < 256 ∧ x ≠ 10) a.
Proof. inversion 1 as [t _ _ Ht _ E|]; [|done]. pose proof (cut_line t Ht) as [Hx _]. by rewrite E in Hx. Qed.

Lemma mid_kept fd c eof s s' ar :
  mid fd c eof s ar → rd (emem s') c = rd (emem s) c → left (linux s') !! fd = left (linux s) !! fd → mid fd c eof s' ar.
Proof. intros [t H1 H2 H3 H4|r H1 H2] E1 E2; constructor; rewrite ?E1, ?E2; done. Qed.

(** A step that writes [rs] and reads on in [fd]. *)
Record step_in (rs : list (Z * Z)) (fd : Z) s s' : Prop := {
  st_mem : changes_only rs (emem s) (emem s');
  st_dir : dir s' = dir s;
  st_left fd' : fd' ≠ fd → left (linux s') !! fd' = left (linux s) !! fd'
}.

Lemma next_char_spec fd c eof s a r :
  mid fd c eof s (a, r) → dir s = 0 →
  returns (next_char fd c eof s) (λ '(s', eof'), mid fd c eof' s' (tail a, r) ∧ rd (emem s') c = hd 10 a ∧
    step_in [(c, 1)] fd s s').
Proof.
  intros Hm Hd. unfold next_char, ece391_read, __ece391_read. rewrite Hd. cbn [Z.eqb orb].
  inversion Hm as [t Hc He Ht Hl E|r' Hc Hr]; subst.
  - rewrite (proj2 (Z.eqb_neq _ _)) by done. cbn [negb]. destruct t as [|x t].
    + injection E as <- <-. destruct (sv_end _ _ Hserves _ _ Hl) as (l' & -> & El).
      rewrite bind_Ok. change (call_result 0 =? 0) with true. cbv iota. apply returns_Ok. cbn [tail hd].
      unfold on_mem. cbn [wr_bytes]. split_and!.
      * constructor; [|done]. cbn. by rewrite rd_wr_eq.
      * cbn. by rewrite rd_wr_eq.
      * constructor; cbn; [|done|intros; by rewrite El]. eapply wr_changes; [by left|]. unfold inside. cbn. lia.
    + destruct (sv_char _ _ Hserves _ _ _ _ Hl) as (l' & -> & El). rewrite bind_Ok.
      change (call_result 1 =? 0) with false. cbv iota. apply Forall_cons in Ht as [Hx Ht]. apply returns_Ok.
      assert (rd (wr_bytes (emem s) c [x]) c = x) as Ex by (cbn; by rewrite rd_wr_eq, u8_small).
      assert (step_in [(c, 1)] fd s (set_linux l' (set_emem (wr_bytes (emem s) c [x]) s))) as Hst.
      { constructor; cbn; [|done|].
        - eapply wr_changes; [by left|]. unfold inside. cbn. lia.
        - intros fd' Hne. by rewrite El, lookup_insert_ne. }
      cbn [cut] in E. destruct (Z.eqb_spec x 10) as [->|Hne].
      * injection E as <- <-. split_and!; [|exact Ex|exact Hst]. constructor; [exact Ex|].
        split_and!; [done|done|]. cbn. by rewrite El, lookup_insert_eq.
      * destruct (cut t) as [a' r'] eqn:Ecut. injection E as <- <-. split_and!; [|exact Ex|exact Hst]. cbn [tail].
        rewrite <- Ecut. constructor; [cbn [set_linux set_emem emem]; by rewrite Ex|done|done|].
        cbn. by rewrite El, lookup_insert_eq.
  - rewrite Hc. apply returns_Ok. split_and!; [by constructor|done|]. constructor; done.
Qed.
(** ** A row *)

(** Between two characters: the tank, and what the blinkers have in common. *)
Record drawn m0 t s : Prop := {
  dr_tank : tank_at m0 (emem s) t;
  dr_dir : dir s = 0;
  dr_on : rd16 (emem s) (frame_struct p + 4) = 15;
  dr_off : rd16 (emem s) (frame_struct p + 6) = 15
}.

Lemma same_in_rd16 m m' a : same_in (a, 2) m m' → rd16 m' a = rd16 m a.
Proof. intros Hs. unfold rd16. by rewrite !Hs by (unfold inside; cbn; lia). Qed.

Lemma drawn_kept m0 t s s' a n :
  changes_only [(a, n)] (emem s) (emem s') → dir s' = dir s →
  Forall (apart (a, n)) [(arr, 32000); (head, 4); (vm, 4); (video, 4000); (frame_struct p, 16)] →
  drawn m0 t s → drawn m0 t s'.
Proof.
  intros Hc Hd Ha [H1 H2 H3 H4]. change (?w :: ?x :: ?y :: ?z :: [?f]) with ([w; x; y; z] ++ [f]) in Ha.
  apply Forall_app in Ha as [Ha Hf]. apply Forall_cons in Hf as [Hf _].
  assert (same_in (frame_struct p, 16) (emem s) (emem s')) as Hs.
  { apply (changes_same_in _ _ _ _ Hc). constructor; [by apply apart_sym|done]. }
  constructor; [by eapply tank_kept|congruence| |].
  - rewrite (same_in_rd16 (emem s)); [exact H3|]. eapply same_in_part; [exact Hs|cbn; lia..].
  - rewrite (same_in_rd16 (emem s)); [exact H4|]. eapply same_in_part; [exact Hs|cbn; lia..].
Qed.

Definition pair_blinks (loc x y : Z) : list blink :=
  if (x =? 32) && (y =? 32) then [] else [Blink loc x y 15 15 0 0].

(** The structure of add_frames, filled in. *)
Lemma pair_struct m x y loc :
  rd16 m (frame_struct p + 4) = 15 → rd16 m (frame_struct p + 6) = 15 → 0 ≤ x < 256 → 0 ≤ y < 256 → 0 ≤ loc < 65536 →
  let m' := wr16 (wr (wr m (frame_struct p + 2) x) (frame_struct p + 3) y) (frame_struct p + 0) loc in
  changes_only [(frame_struct p, 16)] m m' ∧ started (blink_at m' (frame_struct p)) = started (Blink loc x y 15 15 0 0).
Proof.
  intros H4 H6 Hx Hy Hl m'. split.
  - eapply changes_only_trans; [|eapply wr16_changes; [by left|cbn; lia..]].
    eapply changes_only_trans; [|eapply wr_changes; [by left|unfold inside; cbn; lia]].
    eapply wr_changes; [by left|unfold inside; cbn; lia].
  - unfold m', blink_at, started. cbn [location on_char off_char on_length off_length]. rewrite Z.add_0_r. mach.
    rewrite ?u8_small, ?u16_small by lia. by rewrite H4, H6.
Qed.

Lemma hd_space a : Forall (λ x, 0 ≤ x < 256 ∧ x ≠ 10) a → 0 ≤ hd 32 a < 256 ∧
  (if hd 10 a =? 10 then 32 else hd 10 a) = hd 32 a ∧
  negb (hd 10 a =? 32) && negb (hd 10 a =? 10) = negb (hd 32 a =? 32).
Proof.
  destruct 1 as [|x a [Hx Hne] Ha]; [by cbn|]. cbn [hd]. rewrite (proj2 (Z.eqb_neq _ _) Hne). by rewrite andb_true_r.
Qed.

Lemma add_pair_spec row col m0 s t a b :
  drawn m0 t s → rd (emem s) (c0 p) = hd 10 a → rd (emem s) (c1 p) = hd 10 b →
  Forall (λ x, 0 ≤ x < 256 ∧ x ≠ 10) a → Forall (λ x, 0 ≤ x < 256 ∧ x ≠ 10) b → 0 < row * 80 + col + offset < 65536 →
  returns (add_pair p row col s) (λ s', drawn m0 (foldl add_blink t (pair_blinks (row * 80 + col + offset) (hd 32 a) (hd 32 b))) s' ∧
    linux s' = linux s ∧ same_in (c0 p, 1) (emem s) (emem s') ∧ same_in (c1 p, 1) (emem s) (emem s')).
Proof.
  intros Hdr Ea Eb Ha Hb Hloc. unfold add_pair. rewrite Ea, Eb.
  destruct (hd_space a Ha) as (Ra & -> & ->), (hd_space b Hb) as (Rb & -> & ->). rewrite <- negb_andb.
  unfold pair_blinks. destruct ((hd 32 a =? 32) && (hd 32 b =? 32)); cbn [negb foldl]; [by apply returns_Ok|].
  unfold ON_CHAR, OFF_CHAR, LOCATION. rewrite u16_small by lia. set (loc := row * 80 + col + offset) in *.
  pose proof Hdr as [Ht Hd H4 H6].
  destruct (pair_struct (emem s) (hd 32 a) (hd 32 b) loc H4 H6 Ra Rb ltac:(lia)) as [Hc Est]. set (m1 := wr16 _ _ _) in *.
  eapply returns_mono.
  { apply (ioctl_add m0 _ t (frame_struct p) (Blink loc (hd 32 a) (hd 32 b) 15 15 0 0)); [|away|exact Est|cbn; lia].
    eapply (tank_kept m0 (emem s)); [exact Hc|away|exact Ht]. }
  intros s' (m' & -> & Ht' & Hc').
  assert (∀ r, Forall (apart r) [(frame_struct p, 16)] →
    Forall (apart r) [(ioctl_temp p, 16); (arr, 32000); (head, 4); (video, 4000)] → same_in r (emem s) m') as Hs.
  { intros r H1 H2. eapply same_in_trans; [exact (changes_same_in _ _ _ _ Hc H1)|exact (changes_same_in _ _ _ _ Hc' H2)]. }
  assert (same_in (frame_struct p, 16) m1 m') as Hf by (apply (changes_same_in _ _ _ _ Hc'); away).
  split_and!; [|done|apply Hs; away..]. constructor; [exact Ht'|exact Hd| |]; cbn [set_emem on_mem emem].
  - rewrite (same_in_rd16 m1); [|eapply same_in_part; [exact Hf|cbn; lia..]]. unfold m1. by mach.
  - rewrite (same_in_rd16 m1); [|eapply same_in_part; [exact Hf|cbn; lia..]]. unfold m1. by mach.
Qed.
Lemma rd_apart rs m m' a : changes_only rs m m' → Forall (apart (a, 1)) rs → rd m' a = rd m a.
Proof. intros Hc Ha. apply Hc. eapply apart_not_inside; [exact Ha|lia]. Qed.

(** Both files at a row. *)
Definition mids fd0 fd1 eof0 eof1 s (x y : list Z * option (list Z)) : Prop :=
  mid fd0 (c0 p) eof0 s x ∧ mid fd1 (c1 p) eof1 s y.

Lemma next_chars fd0 fd1 eof0 eof1 m0 s t a b r0 r1 :
  fd0 ≠ fd1 → drawn m0 t s → mids fd0 fd1 eof0 eof1 s (a, r0) (b, r1) →
  returns ('(s, eof0) ← next_char fd0 (c0 p) eof0 s; '(s, eof1) ← next_char fd1 (c1 p) eof1 s; Ok (s, eof0, eof1))
    (λ '(s', eof0', eof1'), drawn m0 t s' ∧ mids fd0 fd1 eof0' eof1' s' (tail a, r0) (tail b, r1) ∧
      rd (emem s') (c0 p) = hd 10 a ∧ rd (emem s') (c1 p) = hd 10 b).
Proof.
  intros Hne Hdr [H0 H1]. eapply returns_bind; [by apply (next_char_spec fd0 (c0 p) eof0 s a r0); [|apply Hdr]|].
  intros [s1 e0] (H0' & E0 & [Hc Hd Hl]).
  assert (drawn m0 t s1) as Hdr1 by (eapply drawn_kept; [exact Hc|exact Hd|away|exact Hdr]).
  assert (mid fd1 (c1 p) eof1 s1 (b, r1)) as H1'.
  { eapply mid_kept; [exact H1| |by apply Hl]. apply (rd_apart _ _ _ _ Hc). away. }
  eapply returns_bind; [by apply (next_char_spec fd1 (c1 p) eof1 s1 b r1); [|apply Hdr1]|].
  intros [s2 e1] (H1'' & E1 & [Hc2 Hd2 Hl2]). apply returns_Ok.
  assert (rd (emem s2) (c0 p) = rd (emem s1) (c0 p)) as Ec by (apply (rd_apart _ _ _ _ Hc2); away).
  split_and!; [eapply drawn_kept; [exact Hc2|exact Hd2|away|exact Hdr1]| |by rewrite Ec|done].
  split; [|done]. eapply mid_kept; [exact H0'|exact Ec|by apply Hl2].
Qed.

Lemma tail_drop {A} (l : list A) n : tail (drop n l) = drop (S n) l.
Proof. revert n. induction l as [|x l IH]; intros [|n]; [done..|by apply IH]. Qed.

Lemma row_blinks_step loc a b :
  a ≠ [] ∨ b ≠ [] → row_blinks loc (beside 32 a b) =
    pair_blinks loc (hd 32 a) (hd 32 b) ++ row_blinks (loc + 1) (beside 32 (tail a) (tail b)).
Proof. intros Hab. by rewrite (beside_step 32 a b Hab). Qed.

Lemma hd_newline a : Forall (λ x, 0 ≤ x < 256 ∧ x ≠ 10) a → (hd 10 a =? 10) = bool_decide (a = []).
Proof. destruct 1 as [|x a [_ Hx] _]; [done|]. cbn [hd]. by rewrite (proj2 (Z.eqb_neq _ _) Hx). Qed.

Lemma add_row_spec fd0 fd1 row m0 s t eof0 eof1 a b r0 r1 :
  fd0 ≠ fd1 → drawn m0 t s → mids fd0 fd1 eof0 eof1 s (a, r0) (b, r1) → 0 ≤ row →
  row * 80 + offset + Z.max (zlen a) (zlen b) < 65536 →
  returns (add_row p fd0 fd1 row s eof0 eof1) (λ '(s', eof0', eof1'),
    drawn m0 (foldl add_blink t (row_blinks (row * 80 + offset) (beside 32 a b))) s' ∧
    mids fd0 fd1 eof0' eof1' s' ([], r0) ([], r1) ∧ rd (emem s') (c0 p) = 10 ∧ rd (emem s') (c1 p) = 10).
Proof.
  intros Hne Hdr Hm Hrow Hloc. set (goal := foldl _ _ _). unfold offset in *.
  assert (Forall (λ x, 0 ≤ x < 256 ∧ x ≠ 10) a) as Ha by (eapply mid_line; apply Hm).
  assert (Forall (λ x, 0 ≤ x < 256 ∧ x ≠ 10) b) as Hb by (eapply mid_line; apply Hm).
  unfold add_row. apply whileM_total with
    (I := λ '(s', e0, e1, col), ∃ t', 0 ≤ col ≤ Z.max (zlen a) (zlen b) ∧ drawn m0 t' s' ∧
       mids fd0 fd1 e0 e1 s' (drop (Z.to_nat col) a, r0) (drop (Z.to_nat col) b, r1) ∧
       goal = foldl add_blink t' (row_blinks (row * 80 + col + 40) (beside 32 (drop (Z.to_nat col) a) (drop (Z.to_nat col) b))))
    (V := λ '(s', e0, e1, col), Z.max (zlen a) (zlen b) - col).
  - exists t. split_and!; [lia|lia|done|done|]. unfold goal. by rewrite Z.add_0_r.
  - lia.
  - intros [[[s1 e0] e1] col] (t' & Hcol & Hdr1 & Hm1 & Hgoal). set (a' := drop _ a) in *. set (b' := drop _ b) in *.
    assert (Forall (λ x, 0 ≤ x < 256 ∧ x ≠ 10) a') as Ha' by by apply Forall_drop.
    assert (Forall (λ x, 0 ≤ x < 256 ∧ x ≠ 10) b') as Hb' by by apply Forall_drop.
    destruct (next_chars fd0 fd1 e0 e1 m0 s1 t' a' b' r0 r1 Hne Hdr1 Hm1) as ([[s2 e0'] e1'] & E & Hdr2 & Hm2 & E0 & E1).
    revert E. destruct (next_char fd0 (c0 p) e0 s1) as [[s1' z]|]; [|done]. rewrite !bind_Ok.
    destruct (next_char fd1 (c1 p) e1 s1') as [[s1'' z']|]; [|done]. rewrite !bind_Ok. intros [= -> -> ->].
    rewrite E0, E1, !hd_newline by done.
    destruct (decide (a' = [] ∧ b' = [])) as [[Ea Eb]|Hsome].
    + rewrite Ea, Eb in *. cbn [bool_decide andb]. apply returns_Ok. rewrite Hgoal. by split_and!.
    + replace (bool_decide (a' = []) && bool_decide (b' = [])) with false by
        (symmetry; apply andb_false_iff; destruct (decide (a' = [])); [right|left]; apply bool_decide_eq_false; naive_solver).
      assert (col < Z.max (zlen a) (zlen b)) as Hlt.
      { destruct (decide (col < Z.max (zlen a) (zlen b))); [done|]. destruct Hsome. unfold a', b'. by rewrite !drop_ge by lia. }
      eapply returns_bind; [apply (add_pair_spec row col m0 s2 t' a' b'); (done || unfold offset; lia)|].
      intros s3 (Hdr3 & Hl & Hs0 & Hs1). apply returns_Ok. split; [|lia]. eexists. split_and!; [lia|lia|exact Hdr3| |].
      * replace (Z.to_nat (col + 1)) with (S (Z.to_nat col)) by lia. rewrite <- !tail_drop. destruct Hm2 as [M0 M1].
        split; [eapply mid_kept; [exact M0|apply Hs0|by rewrite Hl]|eapply mid_kept; [exact M1|apply Hs1|by rewrite Hl]];
          unfold inside; cbn; lia.
      * rewrite Hgoal, row_blinks_step, foldl_app by (destruct (decide (a' = [])); [right|left]; naive_solver).
        replace (Z.to_nat (col + 1)) with (S (Z.to_nat col)) by lia. rewrite <- !tail_drop.
        by replace (row * 80 + (col + 1) + 40) with (row * 80 + col + 40 + 1) by lia.
Qed.
(** ** The rows

    A file before a row: what is left of it, unless it is over. *)
Definition waiting fd c eof s (o : option (list Z)) : Prop :=
  match o with
  | Some w => rd (emem s) c ≠ 10 ∧ eof = 0 ∧ is_text w ∧ left (linux s) !! fd = Some w
  | None => rd (emem s) c = 10 ∧ eof = 1
  end.

Definition first_line (o : option (list Z)) : list Z * option (list Z) :=
  match o with Some w => cut w | None => ([], None) end.
Definition lines_of (o : option (list Z)) : list (list Z) := match o with Some w => lines w | None => [] end.
Definition size (o : option (list Z)) : Z := match o with Some w => zlen w + 1 | None => 0 end.

Lemma lines_of_first o :
  hd [] (lines_of o) = fst (first_line o) ∧ tail (lines_of o) = lines_of (snd (first_line o)) ∧ (lines_of o = [] → o = None).
Proof. destruct o as [w|]; [|done]. cbn [lines_of first_line]. rewrite lines_cut. by destruct (snd (cut w)). Qed.

Lemma waiting_mid fd c eof s o : waiting fd c eof s o → mid fd c eof s (first_line o).
Proof.
  destruct o as [w|]; cbn.
  - intros (H1 & H2 & H3 & H4). by constructor.
  - intros [H1 H2]. by constructor.
Qed.

Lemma waiting_size fd c eof s o : waiting fd c eof s o →
  zlen (fst (first_line o)) + size (snd (first_line o)) ≤ size o ∧
  (o ≠ None → zlen (fst (first_line o)) + size (snd (first_line o)) + 1 = size o) ∧ (eof =? 0) = bool_decide (o ≠ None).
Proof.
  destruct o as [w|]; cbn.
  - intros (_ & -> & Hw & _). destruct (cut_line w Hw) as [_ Hx]. destruct (snd (cut w)); cbn; split_and!; lia || done.
  - intros [_ ->]. split_and!; done.
Qed.

Lemma waiting_kept fd c eof s s' o :
  waiting fd c eof s o → rd (emem s') c = rd (emem s) c → left (linux s') !! fd = left (linux s) !! fd → waiting fd c eof s' o.
Proof. unfold waiting. intros Hw E1 E2. by rewrite E1, E2. Qed.

Lemma end_row_spec fd c eof s r :
  mid fd c eof s ([], r) → rd (emem s) c = 10 → dir s = 0 →
  waiting fd c eof (end_row fd c eof s) r ∧ step_in [(c, 1)] fd s (end_row fd c eof s).
Proof.
  intros Hm Hc Hd. inversion Hm as [|r' _ Hr]; subst; [done|]. unfold end_row.
  assert (∀ v, changes_only [(c, 1)] (emem s) (wr (emem s) c v)) as Hw.
  { intros v. eapply wr_changes; [by left|]. unfold inside. cbn. lia. }
  destruct r as [w|].
  - destruct Hr as (-> & Hw1 & Hl). cbn [Z.eqb negb]. split; [|constructor; [apply Hw|done|done]]. split; [cbn; by rewrite rd_wr_eq|done].
  - subst eof. cbn [Z.eqb negb]. unfold ece391_close, __ece391_close, on_mem. cbn [set_emem dir]. rewrite Hd.
    cbn [Z.eqb orb]. pose proof (sv_close _ _ Hserves (linux s) fd) as Hx. cbn [linux set_emem on_mem].
    destruct (sys_close fd (linux s)) as [v l']. cbn [fst snd] in *. split.
    + split; [cbn; by rewrite rd_wr_eq|done].
    + constructor; cbn; [done|done|]. intros fd' Hne. by rewrite Hx, lookup_delete_ne.
Qed.

Lemma end_rows fd0 fd1 eof0 eof1 m0 s t r0 r1 :
  fd0 ≠ fd1 → drawn m0 t s → mids fd0 fd1 eof0 eof1 s ([], r0) ([], r1) →
  rd (emem s) (c0 p) = 10 → rd (emem s) (c1 p) = 10 →
  let s' := end_row fd1 (c1 p) eof1 (end_row fd0 (c0 p) eof0 s) in
  drawn m0 t s' ∧ waiting fd0 (c0 p) eof0 s' r0 ∧ waiting fd1 (c1 p) eof1 s' r1.
Proof.
  intros Hne Hdr [M0 M1] E0 E1. destruct (end_row_spec fd0 (c0 p) eof0 s r0 M0 E0 (dr_dir _ _ _ Hdr)) as (W0 & [Hc Hd Hl]).
  set (s1 := end_row fd0 _ _ s) in *.
  assert (drawn m0 t s1) as Hdr1 by (eapply drawn_kept; [exact Hc|exact Hd|away|exact Hdr]).
  assert (rd (emem s1) (c1 p) = rd (emem s) (c1 p)) as Ec by (apply (rd_apart _ _ _ _ Hc); away).
  assert (mid fd1 (c1 p) eof1 s1 ([], r1)) as M1' by (eapply mid_kept; [exact M1|exact Ec|by apply Hl]).
  destruct (end_row_spec fd1 (c1 p) eof1 s1 r1 M1' ltac:(congruence) (dr_dir _ _ _ Hdr1)) as (W1 & [Hc' Hd' Hl']).
  split_and!; [eapply drawn_kept; [exact Hc'|exact Hd'|away|exact Hdr1]| |exact W1].
  eapply waiting_kept; [exact W0|apply (rd_apart _ _ _ _ Hc'); away|by apply Hl'].
Qed.

Definition remaining fd eof s : Z := if eof =? 0 then size (left (linux s) !! fd) else 0.

Lemma waiting_remaining fd c eof s o : waiting fd c eof s o → remaining fd eof s = size o.
Proof. unfold remaining. destruct o; cbn; [by intros (_ & -> & _ & ->)|by intros [_ ->]]. Qed.

Lemma drawing_step row o0 o1 :
  o0 ≠ None ∨ o1 ≠ None → drawing row (beside [] (lines_of o0) (lines_of o1)) =
    row_blinks (row * 80 + offset) (beside 32 (fst (first_line o0)) (fst (first_line o1))) ++
    drawing (row + 1) (beside [] (lines_of (snd (first_line o0))) (lines_of (snd (first_line o1)))).
Proof.
  intros Ho. destruct (lines_of_first o0) as (<- & <- & N0), (lines_of_first o1) as (<- & <- & N1).
  rewrite beside_step; [done|]. destruct Ho; [left|right]; auto.
Qed.

Lemma add_rows_spec fd0 fd1 m0 s t (t0 t1 : list Z) :
  fd0 ≠ fd1 → drawn m0 t s → waiting fd0 (c0 p) 0 s (Some t0) → waiting fd1 (c1 p) 0 s (Some t1) →
  zlen t0 < 818 → zlen t1 < 818 →
  returns (add_rows p fd0 fd1 s) (drawn m0 (foldl add_blink t (pictures t0 t1))).
Proof.
  intros Hne Hdr W0 W1 Hz0 Hz1. set (goal := foldl _ _ _). unfold add_rows. apply whileM_total with
    (I := λ '(s', e0, e1, row), ∃ t' o0 o1, drawn m0 t' s' ∧ waiting fd0 (c0 p) e0 s' o0 ∧ waiting fd1 (c1 p) e1 s' o1 ∧
       0 ≤ row ∧ (o0 ≠ None → row + size o0 ≤ 818) ∧ (o1 ≠ None → row + size o1 ≤ 818) ∧
       goal = foldl add_blink t' (drawing row (beside [] (lines_of o0) (lines_of o1))))
    (V := λ '(s', e0, e1, row), remaining fd0 e0 s' + remaining fd1 e1 s').
  - exists t, (Some t0), (Some t1). cbn [size]. split_and!; done || lia.
  - rewrite (waiting_remaining _ _ _ _ _ W0), (waiting_remaining _ _ _ _ _ W1). cbn [size]. lia.
  - intros [[[s1 e0] e1] row] (t' & o0 & o1 & Hdr1 & V0 & V1 & Hrow & B0 & B1 & Hgoal).
    destruct (waiting_size _ _ _ _ _ V0) as (L0 & S0 & ->), (waiting_size _ _ _ _ _ V1) as (L1 & S1 & ->).
    assert (∀ o, 0 ≤ size o) as Hpos by (intros [w|]; cbn; lia).
    pose proof (Hpos (snd (first_line o0))). pose proof (Hpos (snd (first_line o1))).
    destruct (decide (o0 = None ∧ o1 = None)) as [[-> ->]|Hsome].
    { cbn [bool_decide orb]. apply returns_Ok. rewrite Hgoal. exact Hdr1. }
    assert (o0 ≠ None ∨ o1 ≠ None) as Hor by (destruct o0; [by left|]; destruct o1; [by right|]; by destruct Hsome).
    replace (bool_decide (o0 ≠ None) || bool_decide (o1 ≠ None)) with true
      by (symmetry; apply orb_true_iff; destruct Hor; [left|right]; by apply bool_decide_eq_true).
    destruct (first_line o0) as [a r0] eqn:F0, (first_line o1) as [b r1] eqn:F1. cbn [fst snd] in *.
    eapply returns_bind.
    { apply (add_row_spec fd0 fd1 row m0 s1 t' e0 e1 a b r0 r1 Hne Hdr1); [|lia|].
      - split; [rewrite <- F0|rewrite <- F1]; by apply waiting_mid.
      - unfold offset. destruct o0, o1; cbn in F0, F1; simplify_eq; cbn [size] in *; try (by destruct Hor);
          try (pose proof (B0 ltac:(done)); pose proof (S0 ltac:(done)));
          try (pose proof (B1 ltac:(done)); pose proof (S1 ltac:(done))); cbn [length] in *; change (Z.of_nat 0) with 0 in *; lia. }
    intros [[s2 e0'] e1'] (Hdr2 & Hm2 & E0 & E1). apply returns_Ok.
    destruct (end_rows fd0 fd1 e0' e1' m0 s2 _ r0 r1 Hne Hdr2 Hm2 E0 E1) as (Hdr3 & X0 & X1). split.
    + eexists _, r0, r1. split_and!; [exact Hdr3|exact X0|exact X1|lia| | |].
      * intros Hr0. destruct o0 as [w|]; [pose proof (B0 ltac:(done)); pose proof (S0 ltac:(done)); lia|].
        cbn in F0, F1; by simplify_eq.
      * intros Hr1. destruct o1 as [w|]; [pose proof (B1 ltac:(done)); pose proof (S1 ltac:(done)); lia|].
        cbn in F0, F1; by simplify_eq.
      * rewrite Hgoal, (drawing_step row o0 o1 Hor), foldl_app, F0, F1. done.
    + rewrite (waiting_remaining _ _ _ _ _ V0), (waiting_remaining _ _ _ _ _ V1).
      rewrite (waiting_remaining _ _ _ _ _ X0), (waiting_remaining _ _ _ _ _ X1).
      destruct Hor as [Hx|Hx]; [pose proof (S0 Hx)|pose proof (S1 Hx)]; lia.
Qed.
(** ** The show *)

Record swimming m0 t s : Prop := { sw_tank : tank_at m0 (emem s) t; sw_dir : dir s = 0 }.

Lemma swimming_kept m0 t s s' a n :
  changes_only [(a, n)] (emem s) (emem s') → dir s' = dir s →
  Forall (apart (a, n)) [(arr, 32000); (head, 4); (vm, 4); (video, 4000)] → swimming m0 t s → swimming m0 t s'.
Proof. intros Hc Hd Ha [H1 H2]. constructor; [by eapply tank_kept|congruence]. Qed.

Lemma swimming_store m0 t s (f : mem → mem) a n :
  changes_only [(a, n)] (emem s) (f (emem s)) →
  Forall (apart (a, n)) [(arr, 32000); (head, 4); (vm, 4); (video, 4000)] → swimming m0 t s → swimming m0 t (on_mem f s).
Proof. intros Hc Ha. by eapply swimming_kept. Qed.

Lemma wr_bytes_changes m a n data : zlen data ≤ n → changes_only [(a, n)] m (wr_bytes m a data).
Proof.
  intros Hn b Hb. apply Forall_cons in Hb as [Hb _]. unfold inside in Hb. cbn [fst snd] in Hb.
  rewrite rd_wr_bytes. case_z; cbn [andb]; done || lia.
Qed.

Lemma wait_ticks_spec n rtc_fd m0 t s :
  0 ≤ n ≤ 4294967295 → swimming m0 t s →
  returns (wait_ticks p n rtc_fd s) (swimming m0 (Nat.iter (Z.to_nat n) tick_tank t)).
Proof.
  intros Hn Hsw. unfold wait_ticks. apply whileM_total with
    (I := λ '(s', i), 0 ≤ i ≤ n ∧ swimming m0 (Nat.iter (Z.to_nat i) tick_tank t) s') (V := λ '(s', i), n - i).
  - split; [lia|done].
  - lia.
  - intros [s1 i] [Hi Hs1]. destruct (Z.ltb_spec i n) as [Hlt|Hge]; cycle 1.
    { apply returns_Ok. by replace n with i by lia. }
    unfold ece391_read. rewrite (sw_dir _ _ _ Hs1). cbn [Z.eqb orb]. unfold __ece391_read.
    pose proof (sv_short _ _ Hserves (linux s1) rtc_fd 4 ltac:(lia)) as Hz.
    destruct (sys_read rtc_fd 4 (linux s1)) as [[v data] l']. cbn [fst snd] in Hz. rewrite bind_Ok.
    set (s2 := set_linux _ _).
    assert (swimming m0 (Nat.iter (Z.to_nat i) tick_tank t) s2) as Hs2.
    { apply (swimming_kept m0 _ s1 s2 (garbage p) 4); [by apply wr_bytes_changes|done|away|done]. }
    eapply returns_bind; [apply (tick_tank_at m0 (emem s2)), Hs2|]. intros m' Hm'. apply returns_Ok.
    split; [|lia]. split; [lia|]. replace (Z.to_nat (i + 1)) with (S (Z.to_nat i)) by lia. constructor; [exact Hm'|apply Hs2].
Qed.
(** The structure of main, filled in. *)
Definition letters : list (mem → mem) :=
  [(λ m, wr m (main_struct p + ON_CHAR) 73); (λ m, wr m (main_struct p + OFF_CHAR) 77);
   (λ m, wr16 m (main_struct p + ON_LENGTH) 7); (λ m, wr16 m (main_struct p + OFF_LENGTH) 6);
   (λ m, wr16 m (main_struct p + LOCATION) (6 * 80 + 60))].

Lemma letters_struct m :
  let m' := foldl (λ m f, f m) m letters in
  changes_only [(main_struct p, 16)] m m' ∧ started (blink_at m' (main_struct p)) = started (Blink 540 73 77 7 6 0 0).
Proof.
  cbn [foldl letters]. unfold ON_CHAR, OFF_CHAR, ON_LENGTH, OFF_LENGTH, LOCATION. split.
  - do 3 (eapply changes_only_trans; [|eapply wr16_changes; [by left|cbn; lia..]]).
    eapply changes_only_trans; eapply wr_changes; (by left) || (unfold inside; cbn; lia).
  - unfold blink_at, started. cbn [location on_char off_char on_length off_length]. rewrite Z.add_0_r. by mach.
Qed.

Lemma show_tank_spec rtc_fd m0 t s :
  swimming m0 t s → returns (show_tank p rtc_fd s) (swimming m0 (
    let t := Nat.iter 200 tick_tank t in
    let t := Nat.iter 200 tick_tank (add_blink t (Blink 540 73 77 7 6 0 0)) in
    let t := Nat.iter 200 tick_tank (sync_tank 40 540 t) in
    Nat.iter 2000 tick_tank (remove_tank 200 t))).
Proof.
  intros Hsw. cbv zeta. unfold show_tank.
  assert (∀ t s v, swimming m0 t s → swimming m0 t (on_mem (λ m, wr32 m (ret_val p) v) s)) as Hret.
  { intros t' s' v Hs'. apply (swimming_store m0 t' s' _ (ret_val p) 4); [|away|done].
    eapply wr32_changes; [by left|cbn; lia..]. }
  unfold ece391_write. cbn [on_mem set_emem dir]. rewrite (sw_dir _ _ _ Hsw). cbn [Z.eqb orb]. unfold __ece391_write.
  apply (Hret t s 32) in Hsw. set (s1 := on_mem _ s) in *. destruct (sys_write _ _ _) as [v l'].
  assert (swimming m0 t (set_linux l' s1)) as Hs2 by (constructor; apply Hsw).
  eapply returns_bind; [apply (wait_ticks_spec WAIT rtc_fd m0 t); [unfold WAIT; lia|by apply Hret]|].
  intros s3 H3. change (Z.to_nat WAIT) with 200%nat in H3. set (t3 := Nat.iter 200 tick_tank t) in *.
  set (s4 := on_mem (λ m, wr16 m (main_struct p + LOCATION) _) _).
  assert (emem s4 = foldl (λ m f, f m) (emem s3) letters) as E4 by done.
  destruct (letters_struct (emem s3)) as [Hc4 Est]. rewrite <- E4 in Hc4, Est.
  assert (swimming m0 t3 s4) as H4 by (apply (swimming_kept m0 t3 s3 s4 (main_struct p) 16); [done|done|away|done]).
  eapply returns_bind; [apply (ioctl_add m0 s4 t3 (main_struct p) (Blink 540 73 77 7 6 0 0) (sw_tank _ _ _ H4)); [away|exact Est|done]|].
  intros s5 (m5 & -> & H5 & _).
  eapply returns_bind; [apply (wait_ticks_spec WAIT rtc_fd m0); [unfold WAIT; lia|constructor; [exact H5|apply H4]]|].
  intros s6 H6. eapply returns_bind; [apply (ioctl_sync m0 s6 _ _ (sw_tank _ _ _ H6))|].
  intros s7 (m7 & -> & H7).
  eapply returns_bind; [apply (wait_ticks_spec WAIT rtc_fd m0); [unfold WAIT; lia|constructor; [exact H7|apply H6]]|].
  intros s8 H8. set (t8 := Nat.iter _ _ _) in H8. set (s9 := on_mem _ s8). assert (swimming m0 t8 s9) as H9.
  { apply (swimming_store m0 t8 s8 _ (main_struct p) 16); [|away|exact H8]. unfold LOCATION.
    eapply wr16_changes; [by left|cbn; lia..]. }
  eapply returns_bind; [apply (ioctl_remove m0 s9 t8 WAIT (sw_tank _ _ _ H9)); unfold WAIT; lia|].
  intros s10 (m10 & -> & H10). eapply returns_mono; [apply (wait_ticks_spec (80 * 25) rtc_fd m0); [lia|constructor; [exact H10|apply H9]]|].
  intros s11 H11. exact H11.
Qed.
(** ** The files are opened *)

Lemma open_file s f name :
  cstr (emem s) (dot p) [46] → cstr (emem s) f name → name ≠ [46] → zlen name < 4294967296 →
  (base.size (left (linux s)) < 16)%nat →
  ∃ l' fd, ece391_open (dot p) f s = Ok (set_linux l' s, fd) ∧
    match files name with
    | Some w => 0 ≤ fd ∧ left (linux s) !! fd = None ∧ left l' = <[fd := w]> (left (linux s))
    | None => fd = -1 ∧ left l' = left (linux s)
    end.
Proof.
  intros Hdot Hf Hne Hz Hsize. unfold ece391_open.
  rewrite (ece391_strcmp_cstr (emem s) f (dot p) name [46] Hf Hdot Hz), bind_Ok.
  destruct (Z.eqb_spec 0 (first_difference name [46])) as [E|_].
  { destruct Hne. symmetry in E. apply first_difference_0 in E; [done|by eapply cstr_text|by eapply cstr_text]. }
  unfold read_string. rewrite (ece391_strlen_cstr _ _ _ Hf Hz), !bind_Ok.
  destruct Hf as (_ & -> & _). pose proof (sv_open _ _ Hserves name (linux s) Hsize) as Hx.
  destruct (files name) as [w|].
  - destruct Hx as (fd & l' & -> & Hfd & H1 & H2). exists l', fd. rewrite (proj2 (Z.ltb_ge _ _)), s32_small by lia. split_and!; done || lia.
  - destruct Hx as (v & l' & -> & Hv1 & H2). exists l', (-1). by rewrite (proj2 (Z.ltb_lt _ _)).
Qed.

Definition frame0 : list Z := codes "frame0.txt".
Definition frame1 : list Z := codes "frame1.txt".

Record named s : Prop := {
  nm_dot : cstr (emem s) (dot p) [46];
  nm_rtc : cstr (emem s) (rtc_name p) (codes "rtc");
  nm_file0 : cstr (emem s) (file0 p) frame0;
  nm_file1 : cstr (emem s) (file1 p) frame1
}.

Lemma names_kept rs s s' :
  changes_only rs (emem s) (emem s') → Forall (apart (dot p, 2)) rs → Forall (apart (rtc_name p, 4)) rs →
  Forall (apart (file0 p, 11)) rs → Forall (apart (file1 p, 11)) rs → named s → named s'.
Proof. intros Hc H1 H2 H3 H4 [N1 N2 N3 N4]. constructor; by eapply changes_same_cstr. Qed.

Definition frame_stores : list (mem → mem) :=
  [(λ m, wr (wr m (c0 p) 48) (c1 p) 48); (λ m, wr16 m (frame_struct p + ON_LENGTH) 15);
   (λ m, wr16 m (frame_struct p + OFF_LENGTH) 15)].

(** The first stores of add_frames. *)
Lemma frames_start m0 t s :
  swimming m0 t s → named s →
  let s' := on_mem (λ m, foldl (λ m f, f m) m frame_stores) s in
  drawn m0 t s' ∧ named s' ∧ rd (emem s') (c0 p) = 48 ∧ rd (emem s') (c1 p) = 48.
Proof.
  intros Hsw Hnm s'. unfold frame_stores, ON_LENGTH, OFF_LENGTH in s'.
  set (m1 := wr (wr (emem s) (c0 p) 48) (c1 p) 48). assert (emem s' = wr16 (wr16 m1 (frame_struct p + 4) 15) (frame_struct p + 6) 15) as Em by done.
  assert (changes_only [(c0 p, 1)] (emem s) (wr (emem s) (c0 p) 48)) as W0.
  { eapply wr_changes; [by left|unfold inside; cbn; lia]. }
  assert (changes_only [(c1 p, 1)] (wr (emem s) (c0 p) 48) m1) as W1.
  { eapply wr_changes; [by left|unfold inside; cbn; lia]. }
  assert (changes_only [(frame_struct p, 16)] m1 (emem s')) as W2.
  { rewrite Em. eapply changes_only_trans; [|eapply wr16_changes; [by left|cbn; lia..]].
    eapply wr16_changes; [by left|cbn; lia..]. }
  split_and!.
  - constructor; [|apply Hsw| |].
    + eapply (tank_kept m0 m1); [exact W2|away|]. eapply (tank_kept m0 (wr (emem s) (c0 p) 48)); [exact W1|away|].
      eapply tank_kept; [exact W0|away|apply Hsw].
    + rewrite Em. by mach.
    + rewrite Em. by mach.
  - apply (names_kept [(frame_struct p, 16)] (set_emem m1 s)); [exact W2|away..|].
    apply (names_kept [(c1 p, 1)] (set_emem (wr (emem s) (c0 p) 48) s)); [exact W1|away..|].
    by apply (names_kept [(c0 p, 1)] s); [exact W0|away..|].
  - rewrite (rd_apart _ _ _ _ W2), (rd_apart _ _ _ _ W1) by away. by rewrite rd_wr_eq.
  - rewrite (rd_apart _ _ _ _ W2) by away. unfold m1. by rewrite rd_wr_eq.
Qed.

Lemma add_frames_spec rtc_fd m0 t s :
  swimming m0 t s → named s → (base.size (left (linux s)) < 15)%nat →
  (∀ name w, name ∈ [frame0; frame1] → files name = Some w → is_text w ∧ zlen w < 818) →
  match files frame0, files frame1 with
  | Some t0, Some t1 => returns (add_frames p (file0 p) (file1 p) rtc_fd s) (λ '(s', halted),
      halted = None ∧ swimming m0 (foldl add_blink t (pictures t0 t1)) s')
  | _, _ => returns (add_frames p (file0 p) (file1 p) rtc_fd s) (λ '(s', halted), halted = Some (-1))
  end.
Proof.
  intros Hsw Hnm Hsize Htext. unfold add_frames.
  change (on_mem _ (on_mem _ (on_mem _ s))) with (on_mem (λ m, foldl (λ m f, f m) m frame_stores) s).
  destruct (frames_start m0 t s Hsw Hnm) as (Hdr & Hnm1 & E0 & E1). set (s1 := on_mem _ s) in *.
  assert (linux s1 = linux s) as El by done.
  destruct (open_file s1 (file0 p) frame0 (nm_dot _ Hnm1) (nm_file0 _ Hnm1)) as (l1 & fd0 & -> & Hf0); [done..|rewrite El; lia|].
  rewrite !bind_Ok. set (s2 := set_linux l1 s1). pose proof (λ w, Htext frame0 w ltac:(by left)) as Htext0.
  destruct (files frame0) as [t0|]; cycle 1.
  { destruct Hf0 as [-> _]. by apply returns_Ok. }
  destruct Hf0 as (Hfd0 & Hnew0 & Hl1). rewrite (proj2 (Z.ltb_ge _ _)) by done. rewrite El in Hl1, Hnew0.
  destruct (open_file s2 (file1 p) frame1) as (l2 & fd1 & -> & Hf1); [apply Hnm1|apply Hnm1|done|done| |].
  { cbn [s2 set_linux linux]. rewrite Hl1, map_size_insert_None by done. lia. }
  rewrite !bind_Ok. set (s3 := set_linux l2 s2). pose proof (λ w, Htext frame1 w ltac:(by right; left)) as Htext1.
  destruct (files frame1) as [t1|]; cycle 1.
  { destruct Hf1 as [-> _]. by apply returns_Ok. }
  destruct Hf1 as (Hfd1 & Hnew1 & Hl2). rewrite (proj2 (Z.ltb_ge _ _)) by done. cbn [s2 set_linux linux] in Hnew1, Hl2.
  destruct (Htext0 t0 eq_refl) as [T0 Z0], (Htext1 t1 eq_refl) as [T1 Z1].
  assert (fd0 ≠ fd1) as Hne.
  { intros <-. by rewrite Hl1, lookup_insert_eq in Hnew1. }
  assert (drawn m0 t s3) as Hdr3 by (destruct Hdr; by constructor).
  eapply returns_bind; [apply (add_rows_spec fd0 fd1 m0 s3 t t0 t1 Hne Hdr3); [| |done..]|].
  - split_and!; [change (emem s3) with (emem s1); by rewrite E0|done|done|]. cbn. by rewrite Hl2, lookup_insert_ne, Hl1, lookup_insert_eq.
  - split_and!; [change (emem s3) with (emem s1); by rewrite E1|done|done|]. cbn. by rewrite Hl2, lookup_insert_eq.
  - intros s4 Hdr4. apply returns_Ok. split; [done|]. constructor; apply Hdr4.
Qed.
(** ** The start *)

Lemma vidmap_spec a s :
  ∃ s', match mapping s with
    | Some image => ece391_vidmap a s = (s', 0) ∧ emem s' = wr32 (emem s) a (u32 (image + 0xB8000))
    | None => ece391_vidmap a s = (s', -1)
    end ∧ dir s' = dir s ∧ left (linux s') = left (linux s).
Proof.
  unfold mapping, ece391_vidmap. destruct (mem_fd s =? -1).
  - pose proof (sv_mem _ _ Hserves (linux s)) as Em. destruct (open_mem (linux s)) as [fd l]. cbn [fst snd mem_fd linux] in *.
    pose proof (sv_mmap _ _ Hserves l fd) as Ep. destruct (mmap_low fd l) as [[image|] l']; cbn [fst snd] in *;
      (eexists; split; [first [reflexivity|split; reflexivity]|split; [done|]]); cbn; congruence.
  - pose proof (sv_mmap _ _ Hserves (linux s) (mem_fd s)) as Ep. destruct (mmap_low _ _) as [[image|] l']; cbn [fst snd] in *;
      (eexists; split; [first [reflexivity|split; reflexivity]|split; [done|]]); cbn; congruence.
Qed.

Lemma cleared_tank m m' :
  rd32 m head = 0 → m' = wr32 (ece391_memset arr 0 32000 m) vm video →
  tank_at m m' ([], []) ∧ changes_only [(arr, 32000); (vm, 4)] m m'.
Proof.
  intros Hh ->. set (m1 := ece391_memset _ _ _ _).
  assert (changes_only [(arr, 32000); (vm, 4)] m m1) as C1.
  { intros a Ha. apply Forall_cons in Ha as [Ha _]. unfold inside in Ha. cbn [fst snd] in Ha.
    unfold m1. rewrite memset_spec by lia. case_z; cbn [andb]; done || lia. }
  assert (changes_only [(arr, 32000); (vm, 4)] m (wr32 m1 vm video)) as C2.
  { apply (changes_only_trans _ _ m1); [done|]. eapply wr32_changes; [by right; left|cbn; lia..]. }
  split; [|done]. split.
  - exists []. split; [|done]. split; [|constructor..| |].
    + cbn [chain]. rewrite <- Hh. apply (changes_same_rd32 _ _ _ head 4 head C2); [away|lia..].
    + intros i Hi _. unfold rd16. assert (apart (arr, 32000) (vm, 4)) as Hav by away.
      unfold apart, disjoint_regions in Hav. cbn [fst snd] in Hav. rewrite !rd_wr32_ne by lia.
      unfold m1. rewrite !memset_spec by lia. case_z; cbn [andb]; done || lia.
    + rewrite rd32_wr32_eq. apply u32_small. lia.
  - intros a Ha. cbn [paint foldl snd]. apply (changes_same_in [(arr, 32000); (vm, 4)] (video, 4000)); [done|away|done].
Qed.

Lemma main_spec s :
  rd32 (emem s) head = 0 → named s → dir s = 0 → (base.size (left (linux s)) < 14)%nat →
  (∀ name w, name ∈ [frame0; frame1] → files name = Some w → is_text w ∧ zlen w < 818) →
  (∀ image, mapping s = Some image → u32 (image + 0xB8000) = video) →
  match mapping s, files frame0, files frame1 with
  | Some _, Some t0, Some t1 => returns (main p s) (λ '(s', status), status = 0 ∧ tank_at (emem s) (emem s') (fish_show t0 t1))
  | _, _, _ => returns (main p s) (λ '(s', status), status = -1)
  end.
Proof.
  intros Hh Hnm Hd Hsize Htext Hmap. unfold main, mp1_set_video_mode. fold vm.
  set (s1 := on_mem _ s). assert (mapping s1 = mapping s) as Emap by done.
  destruct (vidmap_spec vm s1) as (s2 & Hv2 & Hd2 & Hl2). rewrite Emap in Hv2.
  destruct (mapping s) as [image|]; cycle 1.
  { rewrite Hv2. cbn [Z.eqb Pos.eqb]. by apply returns_Ok. }
  destruct Hv2 as [-> Em2]. rewrite (Hmap image eq_refl) in Em2. change (0 =? -1) with false. cbv iota.
  destruct (cleared_tank (emem s) (emem s2) Hh Em2) as [Ht Hc].
  assert (rd32 (emem s2) vm = video) as -> by (destruct Ht as [(? & [_ _ _ _ _ Hx] & _) _]; exact Hx).
  rewrite (proj2 (Z.eqb_neq video 0)) by lia.
  assert (named s2) as Hnm2 by (eapply names_kept; [exact Hc|away..|exact Hnm]).
  destruct (open_file s2 (rtc_name p) (codes "rtc")) as (l3 & rtc_fd & -> & Hrtc); [apply Hnm2|apply Hnm2|done|done| |].
  { rewrite Hl2. change (linux s1) with (linux s). lia. }
  rewrite bind_Ok. set (s3 := set_linux l3 s2).
  assert (swimming (emem s) ([], []) s3) as Hsw3 by (constructor; [exact Ht|exact (eq_trans Hd2 Hd)]).
  assert (named s3) as Hnm3 by (destruct Hnm2; by constructor).
  assert (base.size (left (linux s3)) < 15)%nat as Hs3.
  { cbn [s3 set_linux linux]. destruct (files (codes "rtc")); destruct Hrtc as [? Hrtc].
    - destruct Hrtc as [Hnew ->]. rewrite map_size_insert_None by done. rewrite Hl2. change (linux s1) with (linux s). lia.
    - rewrite Hrtc, Hl2. change (linux s1) with (linux s). lia. }
  pose proof (add_frames_spec rtc_fd (emem s) ([], []) s3 Hsw3 Hnm3 Hs3 Htext) as Hx.
  destruct (files frame0) as [t0|], (files frame1) as [t1|];
    try (eapply returns_bind; [exact Hx|]; intros [s4 h] ->; by apply returns_Ok).
  eapply returns_bind; [exact Hx|]. intros [s4 h] [-> Hsw4]. eapply returns_bind; [by apply (show_tank_spec rtc_fd (emem s))|].
  intros s5 Hsw5. apply returns_Ok. split; [done|]. unfold ece391_close. rewrite (sw_dir _ _ _ Hsw5). cbn [Z.eqb orb].
  unfold __ece391_close. destruct (sys_close _ _) as [v l']. exact (sw_tank _ _ _ Hsw5).
Qed.
End proofs.

(** ** Properties *)

(** C19: the demonstration, from the start of main to its end.  It ends with
    status -1 when the screen cannot be mapped or a drawing cannot be opened.
    Otherwise it ends with status 0, and the blinkers in its memory and the
    cells it wrote on the screen, in their order, are those of the show: each
    place where a line of one of the two drawings has a character that is not
    a space becomes a blinker of the two characters, with a space for what is
    not there, as long as it is on the screen; these blink for 200 ticks of the
    clock; the letters I and M join them for 200 more, then take the state of
    the blinker at 40 for 200, and after a removal at location 200 it goes on
    for 2000.  Every loop ends: those over the drawings where their files do.
    The two drawings, where they can be opened, are texts of fewer than 818
    characters. *)
Theorem fish_swims `{Linux L} p video files left (s : emu L) :
  separate (places_regions p video) → 0 < blink_array p → blink_array p + 32000 < 4294967296 →
  0 < video → video + 4000 < 4294967296 → serves files left →
  rd32 (emem s) (mp1_list_head p) = 0 → named p s → dir s = 0 → (base.size (left (linux s)) < 14)%nat →
  (∀ name w, name ∈ [frame0; frame1] → files name = Some w → is_text w ∧ zlen w < 818) →
  (∀ image, mapping s = Some image → u32 (image + 0xB8000) = video) →
  match mapping s, files frame0, files frame1 with
  | Some _, Some t0, Some t1 => returns (main p s) (λ '(s', status), status = 0 ∧
      holds_blinks (blink_array p) (mp1_list_head p) (vmem_base_addr p) video (emem s') (fst (fish_show t0 t1)) ∧
      painted video (snd (fish_show t0 t1)) (emem s) (emem s'))
  | _, _, _ => returns (main p s) (λ '(s', status), status = -1)
  end.
Proof. intros. by apply (main_spec p video) with (left := left). Qed.

(** A Linux with two drawings, and the descriptors that are open. *)
Definition aquarium_files (name : list Z) : option (list Z) :=
  if decide (name = frame0) then Some [47; 10; 79] else if decide (name = frame1) then Some [92; 32] else None.

Record aquarium := Aquarium { opened : gmap Z (list Z) }.

Definition free_fd (l : aquarium) : option Z := snd <$> list_find (λ fd, opened l !! fd = None) (seqZ 3 16).

#[export] Instance aquarium_linux : Linux aquarium := {
  opendir l := (0, l);
  readdir d m l := (0, m, l);
  closedir d l := l;
  open_null l := (u32 (-1), l);
  open_mem l := (20, l);
  close fd l := l;
  mmap_low fd l := (Some 0x40000000, l);
  sys_open name l :=
    match aquarium_files name, free_fd l with
    | Some t, Some fd => (fd, Aquarium (<[fd := t]> (opened l)))
    | _, _ => (u32 (-2), l)
    end;
  sys_read fd n l :=
    match opened l !! fd with
    | Some t => (zlen (take (Z.to_nat n) t), take (Z.to_nat n) t, Aquarium (<[fd := drop (Z.to_nat n) t]> (opened l)))
    | None => (u32 (-9), [], l)
    end;
  sys_write fd data l := (u32 (-9), l);
  sys_close fd l := (0, Aquarium (delete fd (opened l)));
  run_program path argv l := (NoChild, l)
}.

(** One of 16 descriptors is free while fewer are open. *)
Lemma free_fd_some l : (base.size (opened l) < 16)%nat → ∃ fd, free_fd l = Some fd ∧ 3 ≤ fd < 19 ∧ opened l !! fd = None.
Proof.
  intros Hs. unfold free_fd. destruct (list_find _ _) as [[i fd]|] eqn:E.
  - apply list_find_Some in E as (Hi & Hn & _). exists fd. split_and!; try done; apply lookup_seqZ in Hi; lia.
  - apply list_find_None in E. assert (list_to_set (seqZ 3 16) ⊆ dom (opened l)) as Hsub.
    { intros fd Hfd%elem_of_list_to_set. apply elem_of_dom. rewrite Forall_forall in E. specialize (E fd Hfd).
      by destruct (opened l !! fd). }
    apply subseteq_size in Hsub. rewrite size_list_to_set, length_seqZ, size_dom in Hsub by apply NoDup_seqZ. lia.
Qed.

Lemma aquarium_serves : serves aquarium_files opened.
Proof.
  constructor.
  - intros name l Hs. destruct (free_fd_some l Hs) as (fd & E & Hfd & Hn). cbn. rewrite E.
    destruct (aquarium_files name) as [t|].
    + exists fd. eexists. split_and!; [reflexivity|lia|lia|done|done].
    + by eexists _, l.
  - intros l fd c t E. eexists. cbn. rewrite E. split; [reflexivity|done].
  - intros l fd E. eexists. cbn. rewrite E. split; [reflexivity|]. cbn. by apply insert_id.
  - done.
  - intros l fd n Hn. cbn. destruct (opened l !! fd); cbn; [rewrite length_take; lia|lia].
  - done.
  - done.
Qed.

Definition fish_places : fish_layout :=
  FishLayout 0x10000 0x8000 0x8010 0x8020 0x8030 0x8040 0x8050 0x9000 0x9010 0x9020 0x9030 0x9040 0x9041 0x9050.

Definition fish_start : emu aquarium :=
  let m := wr_bytes (wr_bytes mem0 0x8020 (frame0 ++ [0])) 0x8030 (frame1 ++ [0]) in
  Emu (Aquarium ∅) (wr_bytes (wr_bytes m 0x8040 (codes "rtc" ++ [0])) 0x8050 [46; 0]) 0 (-1) 0 (-1).

Lemma fish_swims_witness :
  returns (main fish_places fish_start) (λ '(s', status), status = 0 ∧
    holds_blinks 0x10000 0x8000 0x8010 0x400B8000 (emem s') (fst (fish_show [47; 10; 79] [92; 32]))).
Proof.
  assert (named fish_places fish_start) as Hnm by (constructor; by_decide).
  pose proof (fish_swims fish_places 0x400B8000 aquarium_files opened fish_start ltac:(unfold places_regions; by_decide)
    eq_refl eq_refl eq_refl eq_refl aquarium_serves ltac:(by_decide) Hnm eq_refl ltac:(by_decide)) as Hx.
  change (mapping fish_start) with (Some 0x40000000) in Hx.
  change (aquarium_files frame0) with (Some [47; 10; 79]) in Hx. change (aquarium_files frame1) with (Some [92; 32]) in Hx.
  cbv iota in Hx. eapply returns_mono; [apply Hx|].
  - intros name w _. unfold aquarium_files, is_text. repeat case_decide; intros [= <-]; split; by_decide.
  - by intros image [= <-].
  - intros [s' status] (H1 & H2 & _). by split.
Defined.

(** The drawings of the repository. *)
Definition fish_frame0 : list Z :=
  concat ((λ l, l ++ [10]) <$> [
    codes "/\/\/\/\/\/\/\/\/\/\/\/\";
    codes "         o";
    codes "           o    o";
    codes "       o";
    codes "             o";
    codes "        o     O";
    codes "    _    \";
    codes " |\/.\   | \/  /  /";
    codes " |=  _>   \|   \ /";
    codes " |/\_/    |/   |/";
    codes "----------M----M--------"]).

Definition fish_frame1 : list Z :=
  concat ((λ l, l ++ [10]) <$> [
    codes "\/\/\/\/\/\/\/\/\/\/\/\/";
    codes "           o    o";
    codes "       o";
    codes "             o";
    codes "        o     o";
    codes "";
    codes "    _   /";
    codes " |\/.\  \ \/  \  /";
    codes " |=  _>  \ \   \|";
    codes " |/\_>    |/   |/";
    codes "----------M----M--------"]).


(** Every blinker of the drawings is on the screen, one is at 40, and none is
    where main has one removed: it fills in a location of 60 and passes the
    number of the ticks. *)
Lemma fish_blinkers :
  let l := pictures fish_frame0 fish_frame1 in
  forallb (λ b, location b <? 2000) l = true ∧ existsb (λ b, location b =? 40) l = true ∧
  existsb (λ b, location b =? 60) l = true ∧ existsb (λ b, location b =? WAIT) l = false.
Proof. vm_compute. done. Qed.
