(* ===== verification/User.v ===== *)
(** * The user library and cat

    ece391syscall.S, ece391support.c and ece391cat.c: programs that run above
    the system call gate, in the same linear memory.  A running program is the
    kernel state and the interrupts still to come; a string literal is at the
    address [lit] gives it. *)

From S2P Require Import Prelude Memory LibString Ports Pic Rtc Console Keyboard Paging FileSys.
From S2P Require Import FsScreen Process Syscall Descriptors ReadWrite Calls Exec UserLib.

(** ece391sysnum.h *)
Definition SYS_HALT := 1.
Definition SYS_EXECUTE := 2.
Definition SYS_READ := 3.
Definition SYS_WRITE := 4.
Definition SYS_OPEN := 5.
Definition SYS_CLOSE := 6.
Definition SYS_GETARGS := 7.
Definition SYS_VIDMAP := 8.

(** ** ece391syscall.S *)

Section library.
Context `{PortIO D, Hotkeys D fs} (y : layout) (kesp kebp : Z).

Definition proc : Type := kernel D * list irq.
Implicit Types p : proc.

Definition pmem p : mem := kmem (fst p).

(** DO_CALL, for the calls that return to the program. *)
Definition do_call (number a b c : Z) p : res (proc * Z) :=
  '(k, x, rest) ← asm_linkage y (Registers number (u32 a) (u32 b) (u32 c) 0 0 0) kesp kebp (snd p) (fst p);
  match x with
  | To_caller r => Ok ((k, rest), s32 (eax r))
  | _ => Err OutOfBounds
  end.

Definition ece391_read (fd buf nbytes : Z) p : res (proc * Z) := do_call SYS_READ fd buf nbytes p.
Definition ece391_write (fd buf nbytes : Z) p : res (proc * Z) := do_call SYS_WRITE fd buf nbytes p.
Definition ece391_open (filename : Z) p : res (proc * Z) := do_call SYS_OPEN filename 0 0 p.
Definition ece391_close (fd : Z) p : res (proc * Z) := do_call SYS_CLOSE fd 0 0 p.
Definition ece391_getargs (buf nbytes : Z) p : res (proc * Z) := do_call SYS_GETARGS buf nbytes 0 p.
Definition ece391_vidmap (start : Z) p : res (proc * Z) := do_call SYS_VIDMAP start 0 0 p.

(** _start: main's result goes to halt. *)
Definition start (main : proc → res (proc * Z)) p : res (kernel D * gate_exit * list irq) :=
  '(p, status) ← main p;
  asm_linkage y (Registers SYS_HALT (u32 status) 0 0 0 0 0) kesp kebp (snd p) (fst p).

(** ** ece391support.c *)

Definition ece391_fdputs (fd s : Z) p : res proc :=
  len ← ece391_strlen (pmem p) s;
  '(p, _) ← ece391_write fd s len p;
  Ok p.

(** ** ece391cat.c *)

Definition NO_ARGUMENTS := codes "could not read arguments" ++ [10].
Definition NOT_FOUND := codes "file not found" ++ [10].
Definition READ_FAILED := codes "file read failed" ++ [10].

Section cat.
Context (lit : list Z → Z) (buf : Z).

Definition cat_loop (fd : Z) p : res (proc * Z) :=
  whileM (λ p,
    '(p, cnt) ← ece391_read fd buf 1024 p;
    if 0 =? cnt then Ok (inr (p, 0))
    else if -1 =? cnt then p ← ece391_fdputs 1 (lit READ_FAILED) p; Ok (inr (p, 3))
    else
      '(p, r) ← ece391_write 1 buf cnt p;
      if -1 =? r then Ok (inr (p, 3)) else Ok (inl p)) p.

Definition cat p : res (proc * Z) :=
  '(p, r) ← ece391_getargs buf 1024 p;
  if negb (0 =? r) then p ← ece391_fdputs 1 (lit NO_ARGUMENTS) p; Ok (p, 3)
  else
    '(p, fd) ← ece391_open buf p;
    if -1 =? fd then p ← ece391_fdputs 1 (lit NOT_FOUND) p; Ok (p, 2)
    else cat_loop fd p.
End cat.
End library.

(** ** The calls as a program sees them *)

Section calls.
Context `{PortIO D, Hotkeys D fs} (y : layout) (kesp kebp : Z).
Implicit Types k : kernel D.

Lemma do_call_returns n a b c k sched Q :
  1 ≤ n ≤ 10 → 
  returns (dispatch y (Registers n (u32 a) (u32 b) (u32 c) 0 0 0) kesp kebp sched k)
    (λ '(k', x, rest), ∃ v, x = Return v ∧ Q (k', rest, s32 v)) →
  returns (do_call y kesp kebp n a b c (k, sched)) Q.
Proof.
  intros Hn ([[k' x] rest] & E & v & -> & HQ). unfold do_call, asm_linkage. cbn [eax].
  rewrite (s32_small n) by lia.
  assert ((n <? 1) || (10 <? n) = false) as -> by (rewrite orb_false_iff; lia). cbn [fst snd].
  rewrite E, !bind_Ok. apply returns_Ok. cbn [gate_pop gate_push drop app eax]. by rewrite s32_u32.
Qed.

Lemma read_call fd buf nbytes k sched Q :
  0 ≤ fd < 2147483648 → 0 ≤ buf < 4294967296 → 0 ≤ nbytes < 2147483648 →
  returns (read y fd buf nbytes sched k) (λ '(k', v, rest), Q (k', rest, s32 v)) →
  returns (ece391_read y kesp kebp fd buf nbytes (k, sched)) Q.
Proof.
  intros Hf Hb Hn ([[k' v] rest] & E & HQ). apply do_call_returns; [unfold SYS_READ; lia|].
  unfold dispatch. cbn [eax ebx ecx edx]. change (s32 SYS_READ) with 3. cbv iota.
  rewrite !u32_small, !s32_small, E, bind_Ok by lia. apply returns_Ok. by exists v.
Qed.

Lemma write_call fd buf nbytes k sched Q :
  0 ≤ fd < 2147483648 → 0 ≤ buf < 4294967296 → 0 ≤ nbytes < 2147483648 →
  returns (write y fd buf nbytes k) (λ '(k', v), Q (k', sched, s32 v)) →
  returns (ece391_write y kesp kebp fd buf nbytes (k, sched)) Q.
Proof.
  intros Hf Hb Hn ([k' v] & E & HQ). apply do_call_returns; [unfold SYS_WRITE; lia|].
  unfold dispatch. cbn [eax ebx ecx edx]. change (s32 SYS_WRITE) with 4. cbv iota.
  rewrite !u32_small, !s32_small, E, bind_Ok by lia. apply returns_Ok. by exists v.
Qed.

Lemma open_call filename k sched Q :
  0 ≤ filename < 4294967296 →
  returns (open y filename k) (λ '(k', v), Q (k', sched, s32 v)) →
  returns (ece391_open y kesp kebp filename (k, sched)) Q.
Proof.
  intros Hf ([k' v] & E & HQ). apply do_call_returns; [unfold SYS_OPEN; lia|].
  unfold dispatch. cbn [eax ebx ecx edx]. change (s32 SYS_OPEN) with 5. cbv iota.
  rewrite u32_small, E, bind_Ok by lia. apply returns_Ok. by exists v.
Qed.

Lemma getargs_call buf nbytes k sched Q :
  0 ≤ buf < 4294967296 → 0 ≤ nbytes < 2147483648 →
  returns (getargs buf nbytes k) (λ '(k', v), Q (k', sched, s32 v)) →
  returns (ece391_getargs y kesp kebp buf nbytes (k, sched)) Q.
Proof.
  intros Hb Hn ([k' v] & E & HQ). apply do_call_returns; [unfold SYS_GETARGS; lia|].
  unfold dispatch. cbn [eax ebx ecx edx]. change (s32 SYS_GETARGS) with 7. cbv iota.
  rewrite !u32_small, s32_small, E, bind_Ok by lia. apply returns_Ok. by exists v.
Qed.
End calls.

(** ** What the calls leave alone *)

Section kept.
Context {D : Type} (y : layout) (ns : list (list Z)).
Implicit Types k : kernel D.

(** The files, their places and what the kernel uses, unchanged. *)
Record same_files k k' : Prop := {
  sf_content i : 0 ≤ i < inodes_num (boot_block_at y) (kmem k) →
    content (kmem k') (kfs (term k')) i = content (kmem k) (kfs (term k)) i;
  sf_inodes : inodes_num (boot_block_at y) (kmem k') = inodes_num (boot_block_at y) (kmem k);
  sf_regions : kernel_regions y (kmem k') (kfs (term k')) (current_pcb k') =
    kernel_regions y (kmem k) (kfs (term k)) (current_pcb k);
  sf_entries i : 0 ≤ i < 63 →
    rd32 (kmem k') (filetype_at (dentry_at (kfs (term k')) i)) =
      rd32 (kmem k) (filetype_at (dentry_at (kfs (term k)) i)) ∧
    rd32 (kmem k') (inode_at (dentry_at (kfs (term k')) i)) =
      rd32 (kmem k) (inode_at (dentry_at (kfs (term k)) i));
  sf_dentries : dentries_num (boot_block_at y) (kmem k') = dentries_num (boot_block_at y) (kmem k);
  sf_counter : counter k' = counter k
}.

Lemma same_files_trans k1 k2 k3 : same_files k1 k2 → same_files k2 k3 → same_files k1 k3.
Proof.
  intros [A B C E N F] [A' B' C' E' N' F']. constructor; [|congruence|congruence| |congruence|congruence].
  - intros i Hi. rewrite A', A by (rewrite ?B; done). done.
  - intros i Hi. destruct (E i Hi) as [<- <-]. by apply E'.
Qed.

Lemma same_files_change k k' t rs :
  world y ns t k → changes_only rs (kmem k) (kmem k') →
  Forall (λ r, Forall (apart r) (fixed_regions y (kmem k) (kfs (term k)))) rs →
  fs_same (kfs (term k)) (kfs (term k')) → counter k' = counter k → same_files k k'.
Proof.
  intros Hw Hc Ha (n & e & o & Hf) Hcnt.
  destruct (image_ok_kept _ _ _ _ _ _ (w_image _ _ _ _ Hw) Hc Ha) as (_ & Hk & Hent).
  pose proof (fs_mounted _ _ _ _ (io_fs _ _ _ _ (w_image _ _ _ _ Hw))) as Hm.
  destruct (mounted_kept _ _ _ _ Hm Hk) as (_ & Hcont & He).
  destruct (kept_counts _ _ _ _ Hk) as (HN & _ & HE).
  constructor; [|exact HN| | |exact HE|exact Hcnt].
  - intros i Hi. rewrite Hf. exact (Hcont i Hi).
  - unfold kernel_regions, current_pcb. rewrite Hf, Hcnt.
    change (image_end (boot_block_at y) (kmem k') (set_length n (set_entry_counter e (set_flag_open o (kfs (term k))))))
      with (image_end (boot_block_at y) (kmem k') (kfs (term k))). by rewrite He.
  - intros i Hi. rewrite Hf. exact (Hent i Hi).
Qed.

Lemma user_buffer_same k k' a n : same_files k k' → user_buffer y k a n → user_buffer y k' a n.
Proof. intros [_ _ Hr _ _ _] [H1 H2]. split; [done|]. by rewrite Hr. Qed.

(** The regions a process may change through its calls. *)
Lemma changes_fixed k t r :
  world y ns t k →
  r ∈ [(VIDEO, page_size); (current_pcb k, 1424); (open_temp y, 40); (file_read_dentry y, 40)] →
  Forall (apart r) (fixed_regions y (kmem k) (kfs (term k))).
Proof. intros Hw Hr. by apply (fixed_apart y _ _ (current_pcb k) r (w_separate _ _ _ _ Hw)). Qed.
End kept.

(** ** cat *)

Section cat_spec.
Context `{PortIO D, Hotkeys D fs} (y : layout) (kesp kebp : Z) (ns : list (list Z)).
Context (Hy : tables_ok y) (lit : list Z → Z) (buf : Z) (Hbuf : 0 < buf < 4294967296).
Implicit Types k : kernel D.

Lemma getargs_spec t k args nbytes :
  world y ns t k → cstr (kmem k) (arg_at (current_pcb k)) args → zlen args ≤ 1023 →
  arg_size k ≤ nbytes → zlen args < nbytes ≤ 1024 → user_buffer y k buf nbytes →
  returns (getargs buf nbytes k) (λ '(k', r), r = 0 ∧ cstr (kmem k') buf args ∧
    leads_to y ns k t [(buf, nbytes)] k').
Proof.
  intros Hw Ha Hz Hs Hn Hub. unfold getargs.
  rewrite (proj2 (Z.eqb_neq buf 0)), (proj2 (Z.ltb_ge _ _)) by lia. cbn [orb].
  pose proof (buffer_spares _ _ _ _ Hub) as Hsp. pose proof Hsp as [_ Hp]. unfold apart, disjoint_regions in Hp.
  cbn [fst snd] in Hp. unfold arg_at in *.
  rewrite u32_small by lia. eapply returns_bind.
  { apply (strncpy_cstr (kmem k) buf (current_pcb k + 400) args nbytes Ha); [lia|].
    unfold disjoint_regions. lia. }
  intros m' Hm'. apply returns_Ok. pose proof (wr_bytes_same_except _ _ _ _ Hm') as Hsame.
  assert (padded args nbytes = args ++ [0] ++ replicate (Z.to_nat (nbytes - zlen args - 1)) 0) as Hpad.
  { unfold padded. rewrite take_ge by lia.
    replace (Z.to_nat (nbytes - zlen args)) with (S (Z.to_nat (nbytes - zlen args - 1))) by lia. done. }
  rewrite zlen_padded in Hsame by lia. assert (changes_only [(buf, nbytes)] (kmem k) m') as Hc.
  { apply (same_except_changes _ _ _ _ _ Hsame). by left. }
  split_and!; [done| |].
  - assert (bytes m' buf nbytes = padded args nbytes) as Hb.
    { replace nbytes with (zlen (padded args nbytes)) at 1 by (apply zlen_padded; lia).
      apply (wr_bytes_read (kmem k)); [done|]. rewrite Hpad, !Forall_app. split_and!.
      - eapply Forall_impl; [exact (cstr_text _ _ _ Ha)|]. intros; cbn in *; lia.
      - by repeat constructor.
      - apply Forall_replicate. lia. }
    rewrite Hpad in Hb. set (q := replicate _ _) in Hb. clearbody q.
    replace nbytes with (zlen args + (1 + (nbytes - zlen args - 1))) in Hb by lia.
    change (kmem (set_mem m' k)) with m'. rewrite bytes_app in Hb by lia.
    apply app_inj_1 in Hb as [Hb1 Hb2]; [|pose proof (zlen_bytes m' buf (zlen args) ltac:(lia)); lia].
    rewrite bytes_app in Hb2 by lia. rewrite (bytes_cons _ _ 1) in Hb2 by lia. cbn [app] in Hb2.
    injection Hb2 as Hrd _. destruct Ha as (Hnz & _). by split_and!.
  - split_and!; [done| |exact Hc]. apply (world_spare y ns t k [(buf, nbytes)]); [done|done|by constructor].
Qed.

(** What holds between two rounds: [pos] bytes of the file [c] are on the
    screen. *)
Record cat_at (t : table) (fd : nat) (x : file) (c : list Z) (tt : tty) k0 (pos : Z) (k : kernel D) : Prop := {
  ca_world : world y ns (<[fd := Some (set_pos pos x)]> t) k;
  ca_same : same_files y k0 k;
  ca_tty : ∃ e, represents (kcon (term k)) (kline (term k))
    (Tty (show (take (Z.to_nat pos) c) (t_screen tt)) [] (stored tt) (ready tt) e);
  ca_pos : 0 ≤ pos ≤ zlen c ∧ (pos < zlen c → pos mod 1024 = 0)
}.

(** A read in the loop: at a multiple of 1024 the end of a file is never a
    dead end. *)
Lemma cat_outcome k kf pos :
  0 ≤ pos ≤ file_length (kmem k) (kfs (term k)) kf →
  (pos < file_length (kmem k) (kfs (term k)) kf → pos mod 1024 = 0) →
  let c := content (kmem k) (kfs (term k)) kf in
  read_outcome (boot_block_at y) (kmem k) (kfs (term k)) kf pos 1024 =
    (slice pos 1024 c, Z.min 1024 (zlen c - pos)).
Proof.
  intros Hp Hmod. cbn zeta. unfold read_outcome. rewrite zlen_content.
  set (L := file_length _ _ _) in *. destruct (Z.leb_spec L pos).
  - rewrite Z.min_r by lia. replace (L - pos) with 0 by lia. f_equal. symmetry. unfold slice.
    apply length_zero_iff_nil. rewrite length_take, length_drop.
    pose proof (zlen_content (kmem k) (kfs (term k)) kf). fold L in H2. lia.
  - f_equal. rewrite zlen_slice by (rewrite ?zlen_content; fold L; lia). rewrite zlen_content. fold L.
    assert (dead_end (boot_block_at y) (kmem k) (kfs (term k)) kf pos 1024 = false) as ->; [|done].
    unfold dead_end, readable. fold L. unfold FS_UNIT_SIZE.
    destruct (Z.ltb_spec (Z.min 1024 (L - pos)) 1024); [|done]. cbn [andb].
    rewrite (proj2 (Z.eqb_neq _ _)); [done|]. specialize (Hmod ltac:(lia)). zlia.
Qed.

Lemma cat_round t fd x c tt k0 pos k sched :
  t !! fd = Some (Some x) → f_kind x = Regular →
  content (kmem k0) (kfs (term k0)) (f_inode x) = c → zlen c < 4294967296 →
  0 ≤ f_inode x < inodes_num (boot_block_at y) (kmem k0) → user_buffer y k0 buf 1024 →
  cat_at t fd x c tt k0 pos k →
  returns (read y (Z.of_nat fd) buf 1024 sched k) (λ '(k', r, rest), rest = sched ∧
    r = Z.min 1024 (zlen c - pos) ∧ bytes (kmem k') buf r = slice pos 1024 c ∧
    world y ns (<[fd := Some (set_pos (pos + r) x)]> t) k' ∧ same_files y k0 k' ∧
    ∃ e, represents (kcon (term k')) (kline (term k'))
      (Tty (show (take (Z.to_nat pos) c) (t_screen tt)) [] (stored tt) (ready tt) e)).
Proof.
  intros Ht Hk Hc Hz Hino Hub0 [Hw Hsame (e & Hrep) [Hp Hmod]].
  pose proof (user_buffer_same y k0 k buf 1024 Hsame Hub0) as Hub.
  pose proof (sf_content _ _ _ Hsame _ Hino) as Hck. rewrite Hc in Hck.
  assert (<[fd := Some (set_pos pos x)]> t !! fd = Some (Some (set_pos pos x))) as Ht'
    by (apply list_lookup_insert_eq; by eapply lookup_lt_Some).
  eapply returns_mono; [by apply (read_regular_spec y ns _ k fd (set_pos pos x) buf 1024 sched Hy Hw Ht' Hk)|].
  intros [[k' r] rest]. cbn [f_inode f_pos set_pos].
  pose proof (zlen_content (kmem k) (kfs (term k)) (f_inode x)) as Hfl. rewrite Hck in Hfl.
  pose proof (cat_outcome k (f_inode x) pos) as Ho. cbn zeta in Ho. rewrite Ho, Hck by lia. clear Ho.
  intros (-> & -> & Hb & _ & _ & (f' & Hf' & He) & Hw' & Hch).
  rewrite zlen_slice in Hb by lia. rewrite list_insert_insert_eq in Hw'.
  rewrite u32_small in Hw' by lia.
  assert (Forall (apart (VIDEO, page_size)) (read_changes y k buf 1024)) as Hvid.
  { unfold read_changes. rewrite !Forall_cons. split_and!; [| | |done].
    - exact (separate_apart _ 5 8 _ _ (w_separate _ _ _ _ Hw) eq_refl eq_refl ltac:(lia)).
    - destruct Hub as [_ Hub]. apply apart_sym. exact (Forall_lookup_1 _ _ 5%nat _ Hub eq_refl).
    - exact (separate_apart _ 5 6 _ _ (w_separate _ _ _ _ Hw) eq_refl eq_refl ltac:(lia)). }
  split_and!; [done|done|exact Hb|exact Hw'| |exists e].
  - eapply same_files_trans; [exact Hsame|].
    apply (same_files_change y ns k k' _ _ Hw Hch); [|by rewrite He|by rewrite He].
    unfold read_changes. rewrite !Forall_cons. split_and!; [| | |done].
    + apply (changes_fixed y ns k _ _ Hw). set_solver.
    + by apply (buffer_spares y k).
    + apply (changes_fixed y ns k _ _ Hw). set_solver.
  - by apply (represents_mem k k' (kmem k') (read_changes y k buf 1024)); [| | |rewrite He..].
Qed.

(** Bytes of the program go to the screen. *)
Lemma print_bytes t' k0 k a n bs scr sto rdy e :
  0 < a → world y ns t' k → same_files y k0 k → bytes (kmem k) a n = bs → 0 ≤ n ≤ 1024 →
  represents (kcon (term k)) (kline (term k)) (Tty scr [] sto rdy e) →
  returns (write y 1 a n k) (λ '(k', r), r = n ∧ world y ns t' k' ∧ same_files y k0 k' ∧
    represents (kcon (term k')) (kline (term k')) (Tty (show bs scr) [] sto rdy 0) ∧
    outside_video (kmem k) (kmem k') ∧ kfs (term k') = kfs (term k) ∧ kmods (term k') = kmods (term k)).
Proof.
  intros Ha Hw Hsame Hb Hn Hrep. pose proof (w_standard _ _ _ _ Hw) as (f0 & f1 & rest & Ht & _ & K1 & _).
  assert (t' !! 1%nat = Some (Some f1)) as T1 by by rewrite Ht.
  eapply returns_mono.
  { apply (write_stdout_spec y ns t' k 1 f1 a n _ Hy Hw T1 K1 ltac:(lia) Hrep); [lia|]. cbn. unfold BUF_SIZE. lia. }
  intros [k' r] (-> & Hw' & He & Hf & Hmods & Hout & Hrep'). cbn [typed t_screen stored ready] in Hrep'.
  rewrite Hb in Hrep'. unfold written in Hrep'. cbn [length take app] in Hrep'. rewrite app_nil_r in Hrep'.
  split_and!; [cbn; lia|done| |done|done|done|done].
  eapply same_files_trans; [exact Hsame|].
  apply (same_files_change y ns k k' t' [(VIDEO, page_size)] Hw); [| |by rewrite Hf; apply fs_same_refl|by rewrite He].
  - apply (same_except_changes _ _ _ _ _ Hout). by left.
  - constructor; [|done]. apply (changes_fixed y ns k t' _ Hw). by left.
Qed.

Lemma position_of t fd x c tt k0 pos k :
  t !! fd = Some (Some x) → cat_at t fd x c tt k0 pos k →
  rd32 (kmem k) (fileposition_at (descriptor k (Z.of_nat fd))) = pos.
Proof.
  intros Ht [Hw _ _ _]. destruct (w_table _ _ _ _ Hw) as [_ Htab].
  assert (<[fd := Some (set_pos pos x)]> t !! fd = Some (Some (set_pos pos x))) as Ht'
    by (apply list_lookup_insert_eq; by eapply lookup_lt_Some).
  by destruct (Htab _ _ Ht') as (_ & _ & _ & _ & _ & ?).
Qed.

Lemma cat_loop_spec t fd x c tt k0 k sched :
  t !! fd = Some (Some x) → f_kind x = Regular →
  content (kmem k0) (kfs (term k0)) (f_inode x) = c → zlen c < 2147483648 →
  0 ≤ f_inode x < inodes_num (boot_block_at y) (kmem k0) → user_buffer y k0 buf 1024 →
  cat_at t fd x c tt k0 0 k →
  returns (cat_loop y kesp kebp lit buf (Z.of_nat fd) (k, sched)) (λ '((k', rest), v),
    v = 0 ∧ rest = sched ∧ cat_at t fd x c tt k0 (zlen c) k').
Proof.
  intros Ht Hk Hc Hz Hino Hub Hk0. unfold cat_loop.
  set (pos_of (p : @proc D) := rd32 (kmem (fst p)) (fileposition_at (descriptor (fst p) (Z.of_nat fd)))).
  assert (fd < 8)%nat as Hfd.
  { pose proof (lookup_lt_Some _ _ _ Ht) as Hlt. destruct (w_table _ _ _ _ (ca_world _ _ _ _ _ _ _ _ Hk0)) as [Hlen _].
    rewrite length_insert in Hlen. lia. }
  apply whileM_total with (I := λ p : @proc D, snd p = sched ∧ cat_at t fd x c tt k0 (pos_of p) (fst p))
    (V := λ p : @proc D, 1 + (zlen c - pos_of p)).
  - split; [done|]. cbn [fst]. unfold pos_of. cbn [fst]. by rewrite (position_of t fd x c tt k0 0 k Ht Hk0).
  - unfold pos_of. cbn [fst]. rewrite (position_of t fd x c tt k0 0 k Ht Hk0). lia.
  - intros [k1 rest1] [Hrest Hat]. cbn [fst snd] in *. subst rest1. set (pos := pos_of (k1, sched)) in *.
    pose proof (ca_pos _ _ _ _ _ _ _ _ Hat) as [Hp Hmod].
    eapply returns_bind.
    { apply read_call; [lia|lia|lia|].
      eapply returns_mono; [by apply (cat_round t fd x c tt k0 pos k1 sched Ht Hk Hc ltac:(lia) Hino Hub Hat)|].
      intros [[k2 r] rest2] Hres.
      instantiate (1 := λ '((k2, rest2), v), rest2 = sched ∧ v = Z.min 1024 (zlen c - pos) ∧
        bytes (kmem k2) buf v = slice pos 1024 c ∧ world y ns (<[fd := Some (set_pos (pos + v) x)]> t) k2 ∧
        same_files y k0 k2 ∧ ∃ e, represents (kcon (term k2)) (kline (term k2))
          (Tty (show (take (Z.to_nat pos) c) (t_screen tt)) [] (stored tt) (ready tt) e)).
      cbn. destruct Hres as (-> & -> & Hres). by rewrite s32_small by lia. }
    intros [[k2 rest2] v] (-> & Hv & Hb & Hw & Hsame & e & Hrep).
    destruct (Z.eqb_spec 0 v) as [Hv0|Hv0].
    { apply returns_Ok. split_and!; [done|done|]. assert (pos = zlen c) as Epos by lia.
      rewrite <- Hv0, Z.add_0_r, Epos in Hw. rewrite Epos in Hrep.
      constructor; [done|done|by exists e|lia]. }
    rewrite (proj2 (Z.eqb_neq (-1) v)) by lia.
    assert (slice pos 1024 c = take (Z.to_nat v) (drop (Z.to_nat pos) c)) as Hsl.
    { unfold slice. destruct (decide (1024 ≤ zlen c - pos)); [by replace v with 1024 by lia|].
      rewrite !take_ge by (rewrite length_drop; lia). done. }
    eapply returns_bind.
    { apply write_call; [lia|lia|lia|].
      eapply returns_mono; [apply (print_bytes _ k0 k2 buf v _ _ _ _ e ltac:(lia) Hw Hsame Hb ltac:(lia) Hrep)|].
      intros [k3 r] Hres.
      instantiate (1 := λ '((k3, rest3), r), rest3 = sched ∧ r = v ∧
        cat_at t fd x c tt k0 (pos + v) k3).
      cbn. destruct Hres as (-> & Hw3 & Hsame3 & Hrep3 & _). split_and!; [done|apply s32_small; lia|].
      constructor; [done|done| |split; [lia|intros; zlia]]. exists 0.
      rewrite Hsl, <- show_app, take_take_drop in Hrep3.
      by replace (Z.to_nat (pos + v)) with (Z.to_nat pos + Z.to_nat v)%nat by lia. }
    intros [[k3 rest3] r] (-> & -> & Hat3). rewrite (proj2 (Z.eqb_neq (-1) v)) by lia.
    assert (pos_of (k3, sched) = pos + v) as Hp3 by exact (position_of t fd x c tt k0 _ k3 Ht Hat3).
    apply returns_Ok. rewrite Hp3. split; [by split|]. fold pos. lia.
Qed.

(** fdputs of a string on the screen. *)
Lemma fdputs_screen t' k0 k sched s l scr sto rdy e :
  0 < s < 4294967296 → world y ns t' k → same_files y k0 k → cstr (kmem k) s l → zlen l ≤ 1024 →
  represents (kcon (term k)) (kline (term k)) (Tty scr [] sto rdy e) →
  returns (ece391_fdputs y kesp kebp 1 s (k, sched)) (λ '(k', rest), rest = sched ∧
    world y ns t' k' ∧ same_files y k0 k' ∧
    represents (kcon (term k')) (kline (term k')) (Tty (show l scr) [] sto rdy 0) ∧
    outside_video (kmem k) (kmem k') ∧ kfs (term k') = kfs (term k) ∧ kmods (term k') = kmods (term k)).
Proof.
  intros Hs Hw Hsame Hl Hz Hrep. unfold ece391_fdputs, pmem. cbn [fst].
  rewrite (ece391_strlen_cstr _ _ _ Hl), bind_Ok by lia. pose proof Hl as (_ & Hb & _).
  eapply returns_bind.
  { apply write_call; [lia|lia|lia|].
    eapply returns_mono; [apply (print_bytes t' k0 k s (zlen l) l scr sto rdy e); (done || lia)|].
    intros [k' r] Hres. instantiate (1 := λ '((k', rest), _), rest = sched ∧ world y ns t' k' ∧
      same_files y k0 k' ∧ represents (kcon (term k')) (kline (term k')) (Tty (show l scr) [] sto rdy 0) ∧
      outside_video (kmem k) (kmem k') ∧ kfs (term k') = kfs (term k) ∧ kmods (term k') = kmods (term k)).
    cbn. by destruct Hres as (_ & Hres). }
  intros [[k' rest] r] Hres. apply returns_Ok. exact Hres.
Qed.

(** What open would do depends on the directory alone. *)
Lemma open_spec_same t0 t k k1 l :
  world y ns t0 k → same_files y k k1 →
  open_spec (kmem k1) (kfs (term k1)) ns t l = open_spec (kmem k) (kfs (term k)) ns t l.
Proof.
  intros Hw Hsame. unfold open_spec. destruct (decide _); [done|]. destruct (decide _); [done|].
  destruct l; [done|]. destruct (list_find _ ns) as [[i q]|] eqn:Ef; [|done].
  apply list_find_Some in Ef as (Hi & _). apply lookup_lt_Some in Hi.
  destruct (fs_names _ _ _ _ (io_fs _ _ _ _ (w_image _ _ _ _ Hw))) as [Hlen _].
  by destruct (sf_entries _ _ _ Hsame (Z.of_nat i) ltac:(lia)) as [-> ->].
Qed.

Lemma open_spec_range t k m f l : world y ns t k → -1 ≤ snd (open_spec m f ns t l) < 8.
Proof.
  intros Hw. unfold open_spec. repeat case_match; cbn; try lia.
  destruct (first_free_lt t _ (proj1 (w_table _ _ _ _ Hw)) (w_standard _ _ _ _ Hw) ltac:(eassumption)). lia.
Qed.

(** The arguments and the open, as cat begins. *)
Definition cat_start t k l : Prop :=
  world y ns t k ∧ cstr (kmem k) (arg_at (current_pcb k)) l ∧ 0 < zlen l ≤ 31 ∧ arg_size k ≤ 1024 ∧
  user_buffer y k buf 1024.

Lemma cat_open t k l sched e scr sto rdy :
  cat_start t k l → represents (kcon (term k)) (kline (term k)) (Tty scr [] sto rdy e) →
  returns ('(p, r) ← ece391_getargs y kesp kebp buf 1024 (k, sched);
           if negb (0 =? r) then Ok (p, 0, false) else
             '(p, fd) ← ece391_open y kesp kebp buf p; Ok (p, fd, true))
    (λ '((k', rest), fd, b), b = true ∧ rest = sched ∧
      let '(t', r) := open_spec (kmem k) (kfs (term k)) ns t l in
      fd = r ∧ world y ns t' k' ∧ same_files y k k' ∧
      changes_only [(buf, 1024); (open_temp y, 40); (current_pcb k, 1424)] (kmem k) (kmem k') ∧
      represents (kcon (term k')) (kline (term k')) (Tty scr [] sto rdy e)).
Proof.
  intros (Hw & Ha & Hz & Hs & Hub) Hrep. pose proof (buffer_spares _ _ _ _ Hub) as Hsp.
  pose proof (separate_apart _ 5 6 _ _ (w_separate _ _ _ _ Hw) eq_refl eq_refl ltac:(lia)) as H56.
  pose proof (separate_apart _ 5 7 _ _ (w_separate _ _ _ _ Hw) eq_refl eq_refl ltac:(lia)) as H57.
  assert (apart (VIDEO, page_size) (buf, 1024)) as H5b.
  { destruct Hub as [_ Hub]. apply apart_sym. exact (Forall_lookup_1 _ _ 5%nat _ Hub eq_refl). }
  eapply returns_bind.
  { apply getargs_call; [lia|lia|]. eapply returns_mono; [by apply (getargs_spec t k l 1024 Hw Ha); try lia|].
    intros [k1 r] Hres. instantiate (1 := λ '((k1, rest), r), rest = sched ∧ r = 0 ∧ cstr (kmem k1) buf l ∧
      leads_to y ns k t [(buf, 1024)] k1). cbn. by destruct Hres as (-> & Hres). }
  intros [[k1 rest] r] (-> & -> & Hl1 & He1 & Hw1 & Hc1). change (negb (0 =? 0)) with false. cbv iota.
  assert (same_files y k k1) as Hsame1.
  { apply (same_files_change y ns k k1 t _ Hw Hc1); [|by rewrite He1; apply fs_same_refl|by rewrite He1].
    constructor; [apply Hsp|done]. }
  pose proof (user_buffer_same y k k1 buf 1024 Hsame1 Hub) as Hub1.
  assert (user_string y k1 buf l) as Hus.
  { constructor; [done|lia|]. eapply Forall_impl; [apply Hub1|]. intros r Hr. eapply apart_part; [exact Hr|lia..]. }
  assert (open_spec (kmem k1) (kfs (term k1)) ns t l = open_spec (kmem k) (kfs (term k)) ns t l) as Hos
    by (by apply (open_spec_same t)).
  eapply returns_bind.
  { apply open_call; [lia|]. eapply returns_mono; [by apply (open_refines_table y ns t k1 buf l Hy Hw1)|].
    intros [k2 r] Hres. instantiate (1 := λ '((k2, rest), r), rest = sched ∧
      let '(t', r') := open_spec (kmem k) (kfs (term k)) ns t l in
      r = r' ∧ leads_to y ns k1 t' (open_changes y k1) k2). cbn. rewrite Hos in Hres. split; [done|].
    destruct (open_spec (kmem k) (kfs (term k)) ns t l) as [t' r'] eqn:Eo. destruct Hres as [-> Hres]. split; [|done].
    pose proof (open_spec_range t k (kmem k) (kfs (term k)) l Hw) as Hr8. rewrite Eo in Hr8. cbn in Hr8.
    apply s32_small. lia. }
  intros [[k2 rest] fd] [-> Hres]. apply returns_Ok. split; [done|]. split; [done|].
  destruct (open_spec (kmem k) (kfs (term k)) ns t l) as [t' r']. destruct Hres as (-> & He2 & Hw2 & Hc2).
  assert (current_pcb k1 = current_pcb k) as Hp1 by (unfold current_pcb; by rewrite (sf_counter _ _ _ Hsame1)).
  unfold open_changes in Hc2. rewrite Hp1 in Hc2.
  split_and!; [done|done| | |].
  - eapply same_files_trans; [exact Hsame1|].
    apply (same_files_change y ns k1 k2 t _ Hw1 Hc2); [|by rewrite He2; apply fs_same_refl|by rewrite He2].
    rewrite !Forall_cons. split_and!; [| |done]; apply (changes_fixed y ns k1 t _ Hw1); rewrite Hp1; set_solver.
  - eapply changes_only_trans; eapply changes_only_mono; [exact Hc1| |exact Hc2|]; set_solver.
  - apply (represents_mem k k2 (kmem k2) [(buf, 1024); (open_temp y, 40); (current_pcb k, 1424)]); [done| | | |].
    + eapply changes_only_trans; eapply changes_only_mono; [exact Hc1| |exact Hc2|]; set_solver.
    + rewrite !Forall_cons. by split_and!.
    + rewrite He2. by rewrite He1.
    + rewrite He2. by rewrite He1.
Qed.

Lemma cat_opened t k l sched e scr sto rdy t' r :
  cat_start t k l → represents (kcon (term k)) (kline (term k)) (Tty scr [] sto rdy e) →
  open_spec (kmem k) (kfs (term k)) ns t l = (t', r) →
  ∃ k', cat y kesp kebp lit buf (k, sched) =
      (if -1 =? r then p ← ece391_fdputs y kesp kebp 1 (lit NOT_FOUND) (k', sched); Ok (p, 2)
       else cat_loop y kesp kebp lit buf r (k', sched)) ∧
    world y ns t' k' ∧ same_files y k k' ∧
    changes_only [(buf, 1024); (open_temp y, 40); (current_pcb k, 1424)] (kmem k) (kmem k') ∧
    represents (kcon (term k')) (kline (term k')) (Tty scr [] sto rdy e).
Proof.
  intros Hst Hrep Eo. pose proof (cat_open t k l sched e scr sto rdy Hst Hrep) as Hop.
  rewrite Eo in Hop. destruct Hop as ([[[k' rest] fd] b] & E & -> & -> & -> & Hres).
  exists k'. split; [|exact Hres]. unfold cat.
  apply res_bind_Ok in E as ([p1 r1] & E1 & E). rewrite E1, bind_Ok.
  destruct (negb (0 =? r1)); [by injection E|].
  apply res_bind_Ok in E as ([p2 r2] & E2 & E). injection E as -> ->. by rewrite E2, bind_Ok.
Qed.
Lemma entry_inode t k i l :
  world y ns t k → list_find (λ n, n = l) ns = Some (i, l) →
  0 ≤ rd32 (kmem k) (inode_at (dentry_at (kfs (term k)) (Z.of_nat i))) < inodes_num (boot_block_at y) (kmem k).
Proof.
  intros Hw Hi. split; [apply rd32_range|]. pose proof (io_fs _ _ _ _ (w_image _ _ _ _ Hw)) as Hf.
  apply (fs_inodes _ _ _ _ Hf). apply list_find_Some in Hi as (Hi & _). apply lookup_lt_Some in Hi.
  destruct (fs_names _ _ _ _ Hf) as [Hlen _]. lia.
Qed.

(** The two ends of cat: the open found a regular file, or nothing. *)
Lemma cat_found t k l sched e scr sto rdy ino n :
  0 ≤ ino < inodes_num (boot_block_at y) (kmem k) →
  cat_start t k l → represents (kcon (term k)) (kline (term k)) (Tty scr [] sto rdy e) →
  first_free t = Some n →
  open_spec (kmem k) (kfs (term k)) ns t l = (<[n := Some (File Regular l ino 0)]> t, Z.of_nat n) →
  let file := content (kmem k) (kfs (term k)) ino in
  returns (cat y kesp kebp lit buf (k, sched)) (λ '((k', rest), v), v = 0 ∧ rest = sched ∧
    world y ns (<[n := Some (File Regular l ino (zlen file))]> t) k' ∧
    ∃ e, represents (kcon (term k')) (kline (term k')) (Tty (show file scr) [] sto rdy e)).
Proof.
  intros Hino Hst Hrep Hfree Hos file. pose proof Hst as (Hw & _ & _ & _ & Hub).
  destruct (cat_opened t k l sched e scr sto rdy _ _ Hst Hrep Hos) as (k1 & -> & Hw1 & Hsame & _ & Hrep1).
  destruct (first_free_lt t n (proj1 (w_table _ _ _ _ Hw)) (w_standard _ _ _ _ Hw) Hfree) as [Hn Hnone].
  rewrite (proj2 (Z.eqb_neq (-1) _)) by lia.
  pose proof (fs_mounted _ _ _ _ (io_fs _ _ _ _ (w_image _ _ _ _ Hw))) as Hm.
  pose proof (inode_lengths _ _ _ Hm ino Hino) as Hmax. rewrite <- zlen_content in Hmax.
  set (x := File Regular l ino 0) in *.
  assert (<[n := Some x]> t !! n = Some (Some x)) as Hx
    by (apply list_lookup_insert_eq; by eapply lookup_lt_Some).
  eapply returns_mono.
  { apply (cat_loop_spec (<[n := Some x]> t) n x _ (Tty scr [] sto rdy e) k k1 sched
      Hx eq_refl eq_refl); [unfold max_file, FS_UNIT_SIZE in Hmax; cbn [f_inode x]; lia|exact Hino|exact Hub|].
    constructor; [|exact Hsame|by exists e|split; [pose proof (zlen_content (kmem k) (kfs (term k)) ino); cbn [f_inode x]; lia|done]].
    by rewrite list_insert_insert_eq. }
  intros [[k2 rest] v] (-> & -> & [Hw2 _ (e2 & Hrep2) _]). split_and!; [done|done| |].
  - by rewrite list_insert_insert_eq in Hw2.
  - exists e2. rewrite firstn_all2 in Hrep2 by lia. exact Hrep2.
Qed.

Lemma cat_missing t k l sched e scr sto rdy :
  cat_start t k l → represents (kcon (term k)) (kline (term k)) (Tty scr [] sto rdy e) →
  open_spec (kmem k) (kfs (term k)) ns t l = (t, -1) →
  0 < lit NOT_FOUND < 4294967296 → cstr (kmem k) (lit NOT_FOUND) NOT_FOUND →
  Forall (apart (lit NOT_FOUND, 16)) [(buf, 1024); (open_temp y, 40); (current_pcb k, 1424)] →
  returns (cat y kesp kebp lit buf (k, sched)) (λ '((k', rest), v), v = 2 ∧ rest = sched ∧
    world y ns t k' ∧
    represents (kcon (term k')) (kline (term k')) (Tty (show NOT_FOUND scr) [] sto rdy 0)).
Proof.
  intros Hst Hrep Hos Hlit Hmsg Hap.
  destruct (cat_opened t k l sched e scr sto rdy _ _ Hst Hrep Hos)
    as (k1 & -> & Hw1 & Hsame & Hc & Hrep1). change (-1 =? -1) with true. cbv iota.
  eapply returns_bind.
  { apply (fdputs_screen t k k1 sched (lit NOT_FOUND) NOT_FOUND scr sto rdy e);
      [done|done|done| |cbn; lia|done]. by eapply changes_same_cstr. }
  intros [k2 rest] (-> & Hw2 & _ & Hrep2 & _). by apply returns_Ok.
Qed.
End cat_spec.

(** ** Properties *)

(** C13: cat ends, and prints its file.  Its argument is a name of 1 to 31
    characters that does not begin with stdin or stdou, which open takes for
    the streams.  Started with that of a regular file of any length, with a free slot and no line being typed, it reads it in
    pieces of 1024 bytes and ends with status 0 after the last; the screen then
    shows exactly the bytes of the file after what it showed before, and the
    table has the file open at its end.  When the directory has no such name it
    prints its message and ends with status 2, with the table as before.  No
    interrupt is waited for. *)
Theorem cat_prints_file `{PortIO D, Hotkeys D fs} y kesp kebp ns t lit buf (k : kernel D) l sched tt :
  tables_ok y → 0 < buf < 4294967296 → cat_start y ns buf t k l →
  represents (kcon (term k)) (kline (term k)) tt → typed tt = [] →
  0 < lit NOT_FOUND < 4294967296 → cstr (kmem k) (lit NOT_FOUND) NOT_FOUND →
  Forall (apart (lit NOT_FOUND, 16)) [(buf, 1024); (open_temp y, 40); (current_pcb k, 1424)] →
  take 5 l ≠ codes "stdin" → take 5 l ≠ codes "stdou" →
  (∀ i n, list_find (λ n, n = l) ns = Some (i, l) → first_free t = Some n →
    let d := dentry_at (kfs (term k)) (Z.of_nat i) in
    let file := content (kmem k) (kfs (term k)) (rd32 (kmem k) (inode_at d)) in
    rd32 (kmem k) (filetype_at d) = 2 →
    returns (cat y kesp kebp lit buf (k, sched)) (λ '((k', rest), v), v = 0 ∧ rest = sched ∧
      world y ns (<[n := Some (File Regular l (rd32 (kmem k) (inode_at d)) (zlen file))]> t) k' ∧
      ∃ e, represents (kcon (term k')) (kline (term k'))
        (Tty (show file (t_screen tt)) [] (stored tt) (ready tt) e))) ∧
  (list_find (λ n, n = l) ns = None →
    returns (cat y kesp kebp lit buf (k, sched)) (λ '((k', rest), v), v = 2 ∧ rest = sched ∧
      world y ns t k' ∧
      represents (kcon (term k')) (kline (term k'))
        (Tty (show NOT_FOUND (t_screen tt)) [] (stored tt) (ready tt) 0))).
Proof.
  intros Hy Hbuf Hst Hrep Hty Hlit Hmsg Hap Hne1 Hne2.
  destruct tt as [scr ty sto rdy e]. cbn [typed] in Hty. subst ty. cbn [t_screen stored ready].
  pose proof Hst as (Hw & _ & Hz & _ & Hub). destruct l as [|ch l0]; [cbn in Hz; lia|]. set (l := ch :: l0) in *.
  assert (∀ o, list_find (λ n, n = l) ns = o → open_spec (kmem k) (kfs (term k)) ns t l =
    match o with
    | Some (i, _) => let d := dentry_at (kfs (term k)) (Z.of_nat i) in
        match first_free t with
        | Some n => (<[n := Some (File (kind_of (rd32 (kmem k) (filetype_at d))) l (rd32 (kmem k) (inode_at d)) 0)]> t, Z.of_nat n)
        | None => (t, -1)
        end
    | None => (t, -1)
    end) as Hos.
  { intros o Ho. unfold open_spec. rewrite !decide_False by done. unfold l in *. by rewrite Ho. }
  split.
  - intros i n Hi Hfree. cbn zeta. intros Hft. specialize (Hos _ Hi). cbn zeta in Hos. rewrite Hfree, Hft in Hos.
    by apply (cat_found y kesp kebp ns Hy lit buf Hbuf t k l sched e scr sto rdy _ n (entry_inode y ns _ _ _ _ Hw Hi)).
  - intros Hmiss. by apply (cat_missing y kesp kebp ns Hy lit buf Hbuf t k l sched e scr sto rdy Hst Hrep (Hos _ Hmiss)).
Qed.

(** The literals of the witness in the program's data. *)
Definition user_lit (s : list Z) : Z := 0x804C000.

Definition cat_kernel : kernel trace :=
  set_mem (wr_bytes (kmem demo_kernel) 0x804C000 (NOT_FOUND ++ [0])) demo_kernel.

Lemma cat_world : world demo_layout demo_names demo_table cat_kernel.
Proof.
  apply (world_spare demo_layout demo_names demo_table demo_kernel [(0x804C000, 16)]); [exact demo_world| |].
  - apply (same_except_changes 0x804C000 16); [|by left].
    exact (wr_bytes_same_except (kmem demo_kernel) 0x804C000 (NOT_FOUND ++ [0]) _ (reflexivity _)).
  - constructor; [|done]. split; by_decide.
Qed.

Lemma cat_demo_start : cat_start demo_layout demo_names 0x8049000 demo_table cat_kernel [97].
Proof. split; [exact cat_world|]. split_and!; [by_decide|cbn; lia|cbn; lia|cbn; lia|split; [lia|by_decide]]. Qed.

Lemma cat_prints_file_witness :
  returns (@cat trace _ demo_hotkeys demo_layout 0 0 user_lit 0x8049000 (cat_kernel, []))
    (λ '((k', rest), v), v = 0 ∧ rest = [] ∧
      world demo_layout demo_names (<[2%nat := Some (File Regular [97] 0 3)]> demo_table) k' ∧
      ∃ e, represents (kcon (term k')) (kline (term k')) (Tty (show [120; 121; 122] blank_screen) [] [] false e)).
Proof.
  assert (represents (kcon (term cat_kernel)) (kline (term cat_kernel)) idle) as Hrep.
  { apply (represents_mem demo_kernel cat_kernel (kmem cat_kernel) [(0x804C000, 16)]);
      [exact demo_represents| |by_decide|done|done].
    apply (same_except_changes 0x804C000 16); [|by left].
    exact (wr_bytes_same_except (kmem demo_kernel) 0x804C000 (NOT_FOUND ++ [0]) _ (reflexivity _)). }
  pose proof (proj1 (@cat_prints_file trace _ demo_hotkeys demo_layout 0 0 demo_names demo_table user_lit 0x8049000
    cat_kernel [97] [] idle demo_tables_ok ltac:(lia) cat_demo_start Hrep eq_refl ltac:(by_decide) ltac:(by_decide)
    ltac:(by_decide) ltac:(done) ltac:(done)) 0%nat 2%nat eq_refl eq_refl ltac:(by_decide)) as Hx.
  exact Hx.
Defined.
