(* ===== verification/UserRun.v ===== *)
(** * A running program, and what its calls do to it

    A program between two system calls: its world, its screen, the file system
    globals, and the string literals in its own memory.  The lemmas are the
    rules by which the programs of src/syscalls/ are verified. *)

From S2P Require Import Prelude Memory LibString Ports Pic Rtc Console Keyboard Paging FileSys.
From S2P Require Import FsScreen Process Syscall Descriptors ReadWrite Typing Calls Exec User.

(** A line of text. *)
Definition line_of (s : string) : list Z := codes s ++ [10].

(** What a program keeps strings for: a literal stands for itself, a pair for
    the string at an address. *)
Class Text (K : Type) := text_of : K → list Z.
#[export] Instance text_literal : Text (list Z) := λ s, s.
#[export] Instance text_pair : Text (Z * list Z) := snd.

Section running.
Context `{PortIO D, Hotkeys D fs} (y : layout) (kesp kebp : Z) (ns : list (list Z)).
Context (Hy : tables_ok y) `{HK : Text K} (lit : K → Z) (texts : list K) (k0 : kernel D).
Context (sto : list Z) (rdy : bool).
Implicit Types k : kernel D.

(** The program's literals are its own. *)
Definition literal_placed (s : K) : Prop :=
  0 < lit s < 4294967296 ∧ zlen (text_of s) ≤ 1024 ∧
  Forall (apart (lit s, zlen (text_of s) + 1)) (kernel_regions y (kmem k0) (kfs (term k0)) (current_pcb k0)).
Context (Hlit : Forall literal_placed texts).

(** A program in its world, with the table [t], the screen [scr] and the file
    system globals [f]. *)
Record running (t : table) (scr : screen) (f : fs) k : Prop := {
  ru_world : world y ns t k;
  ru_same : same_files y k0 k;
  ru_tty : ∃ e, represents (kcon (term k)) (kline (term k)) (Tty scr [] sto rdy e);
  ru_texts : Forall (λ s, cstr (kmem k) (lit s) (text_of s)) texts;
  ru_fs : kfs (term k) = f
}.

Lemma running_text t scr f k s : running t scr f k → s ∈ texts → cstr (kmem k) (lit s) (text_of s).
Proof. intros [_ _ _ Ht _]. rewrite Forall_forall in Ht. apply Ht. Qed.

Lemma running_pcb t scr f k : running t scr f k → current_pcb k = current_pcb k0.
Proof. intros [_ Hsame _ _ _]. unfold current_pcb. by rewrite (sf_counter _ _ _ Hsame). Qed.

(** The position of an open file is in its descriptor. *)
Lemma running_position t scr f k fd x :
  running t scr f k → t !! fd = Some (Some x) →
  rd32 (kmem k) (fileposition_at (descriptor k (Z.of_nat fd))) = f_pos x.
Proof.
  intros [Hw _ _ _ _] Ht. destruct (w_table _ _ _ _ Hw) as [_ Htab]. by destruct (Htab _ _ Ht) as (_ & _ & _ & _ & _ & ?).
Qed.

(** A region whose change the program does not notice in what it relies on. *)
Definition harmless (r : Z * Z) : Prop :=
  Forall (apart r) ((VIDEO, page_size) :: fixed_regions y (kmem k0) (kfs (term k0))) ∧
  Forall (λ s, apart (lit s, zlen (text_of s) + 1) r) texts.

Lemma own_harmless t scr f k i r :
  running t scr f k → (6 ≤ i < 9)%nat →
  kernel_regions y (kmem k) (kfs (term k)) (current_pcb k) !! i = Some r → harmless r.
Proof.
  intros [Hw Hsame _ _ _] Hi Hr. pose proof (w_separate _ _ _ _ Hw) as Hsep.
  rewrite (sf_regions _ _ _ Hsame) in Hsep, Hr. split.
  - constructor.
    + apply apart_sym. by apply (separate_apart _ 5 i _ _ Hsep eq_refl Hr); lia.
    + apply (fixed_apart y _ _ (current_pcb k0)); [exact Hsep|].
      apply (list_elem_of_lookup_2 _ (i - 5)). rewrite lookup_drop. by replace (5 + (i - 5))%nat with i by lia.
  - eapply Forall_impl; [exact Hlit|]. intros s (_ & _ & Ha). exact (Forall_lookup_1 _ _ _ _ Ha Hr).
Qed.

Lemma buffer_harmless a n :
  user_buffer y k0 a n → Forall (λ s, apart (lit s, zlen (text_of s) + 1) (a, n)) texts → harmless (a, n).
Proof.
  intros [_ Hb] Ht. split; [|done].
  constructor; [exact (Forall_lookup_1 _ _ 5%nat _ Hb eq_refl)|exact (Forall_take _ 5 _ Hb)].
Qed.

(** The regions are the same in every state of the run. *)
Lemma running_fixed t scr f k :
  running t scr f k → fixed_regions y (kmem k) (kfs (term k)) = fixed_regions y (kmem k0) (kfs (term k0)).
Proof.
  intros [_ Hsame _ _ _]. pose proof (f_equal (take 5) (sf_regions _ _ _ Hsame)) as E. exact E.
Qed.

Lemma harmless_texts m m' rs :
  changes_only rs m m' → Forall harmless rs →
  Forall (λ s, cstr m (lit s) (text_of s)) texts → Forall (λ s, cstr m' (lit s) (text_of s)) texts.
Proof.
  intros Hc Hh. rewrite !Forall_forall. intros Ht s Hs. eapply changes_same_cstr; [exact Hc| |by apply Ht].
  eapply Forall_impl; [exact Hh|]. intros r [_ Hr]. rewrite Forall_forall in Hr. by apply Hr.
Qed.

(** A step that changes harmless regions of memory and file system counters. *)
Lemma running_step t t' scr f f' k k' rs :
  running t scr f k → fs_same f f' → k' = set_kfs f' (set_mem (kmem k') k) → world y ns t' k' →
  changes_only rs (kmem k) (kmem k') → Forall harmless rs → running t' scr f' k'.
Proof.
  intros Hrun Hf' He Hw' Hc Hh. pose proof Hrun as [Hw Hsame (e & Hrep) Ht Hf].
  constructor; [exact Hw'| | |by apply (harmless_texts (kmem k) _ rs)|by rewrite He].
  - eapply same_files_trans; [exact Hsame|].
    apply (same_files_change y ns k k' t rs Hw Hc); [|by rewrite He, Hf|by rewrite He].
    rewrite (running_fixed _ _ _ _ Hrun). eapply Forall_impl; [exact Hh|].
    intros r [Hr _]. by apply Forall_cons in Hr as [_ Hr].
  - exists e. apply (represents_mem k k' (kmem k') rs); [done|done| |by rewrite He..].
    eapply Forall_impl; [exact Hh|]. intros r [Hr _]. apply Forall_cons in Hr as [Hr _]. by apply apart_sym.
Qed.

(** The same, for a call that keeps the counters. *)
Lemma running_leads t t' scr f k k' rs :
  running t scr f k → leads_to y ns k t' rs k' → Forall harmless rs → running t' scr f k'.
Proof.
  intros Hrun (He & Hw' & Hc) Hh. pose proof (ru_fs _ _ _ _ Hrun) as Hf.
  eapply running_step; [exact Hrun|apply fs_same_refl| |exact Hw'|exact Hc|exact Hh].
  rewrite <- Hf, He. by destruct k as [[] ? ? ? ? ? ? ?].
Qed.

(** The program's own stores. *)
Lemma store_running t scr f k a n m' :
  running t scr f k → harmless (a, n) → user_buffer y k0 a n → changes_only [(a, n)] (kmem k) m' →
  running t scr f (set_mem m' k).
Proof.
  intros Hrun Hh Hb Hc. pose proof (ru_world _ _ _ _ Hrun) as Hw.
  apply (running_leads t t scr f k _ [(a, n)] Hrun); [|by constructor].
  split_and!; [done| |exact Hc]. apply (world_spare y ns t k [(a, n)]); [done|done|].
  constructor; [|done]. apply buffer_spares. exact (user_buffer_same y k0 k a n (ru_same _ _ _ _ Hrun) Hb).
Qed.

(** [*a = v] in the program's memory. *)
Definition store (a v : Z) (p : @proc D) : @proc D := (set_mem (wr (pmem p) a v) (fst p), snd p).

Lemma put_running t scr f k sched a n i v :
  running t scr f k → harmless (a, n) → user_buffer y k0 a n → 0 ≤ i < n →
  store (a + i) v (k, sched) = (set_mem (wr (kmem k) (a + i) v) k, sched) ∧
  running t scr f (set_mem (wr (kmem k) (a + i) v) k).
Proof.
  intros Hrun Hh Hub Hi. split; [done|]. apply (store_running t scr f k a n _ Hrun Hh Hub).
  eapply wr_changes; [by left|]. unfold inside. cbn. lia.
Qed.

(** ** Output *)

(** After a print, the memory outside the video page is as before. *)
Lemma print_running t scr f k k' bs :
  running t scr f k → world y ns t k' → same_files y k0 k' →
  represents (kcon (term k')) (kline (term k')) (Tty (show bs scr) [] sto rdy 0) →
  outside_video (kmem k) (kmem k') → kfs (term k') = kfs (term k) →
  running t (show bs scr) f k'.
Proof.
  intros [Hw Hsame _ Ht Hf] Hw' Hsame' Hrep Hout Hf'.
  constructor; [done|done|by exists 0| |congruence].
  rewrite Forall_forall in Ht, Hlit |- *. intros s Hs. destruct (Hlit s Hs) as (_ & _ & Ha).
  eapply (changes_same_cstr [(VIDEO, page_size)]); [|constructor; [|done]|by apply Ht].
  - apply (same_except_changes _ _ _ _ _ Hout). by left.
  - exact (Forall_lookup_1 _ _ 5%nat _ Ha eq_refl).
Qed.

Lemma fdputs_running t scr f k sched s l :
  running t scr f k → 0 < s < 4294967296 → cstr (kmem k) s l → zlen l ≤ 1024 →
  returns (ece391_fdputs y kesp kebp 1 s (k, sched))
    (λ '(k', rest), rest = sched ∧ running t (show l scr) f k' ∧
      represents (kcon (term k')) (kline (term k')) (Tty (show l scr) [] sto rdy 0) ∧
      outside_video (kmem k) (kmem k') ∧ kmods (term k') = kmods (term k)).
Proof.
  intros Hrun Hs Hl Hz. pose proof Hrun as [Hw Hsame (e & Hrep) _ _].
  eapply returns_mono; [apply (fdputs_screen y kesp kebp ns Hy t k0 k sched s l scr sto rdy e); auto|].
  intros [k' rest] (-> & Hw' & Hsame' & Hrep' & Hout & Hf & Hm). split_and!; [done| |done|done|done].
  by apply (print_running t scr f k).
Qed.

Lemma puts_running t scr f k sched s :
  running t scr f k → s ∈ texts →
  returns (ece391_fdputs y kesp kebp 1 (lit s) (k, sched))
    (λ '(k', rest), rest = sched ∧ running t (show (text_of s) scr) f k' ∧
      represents (kcon (term k')) (kline (term k')) (Tty (show (text_of s) scr) [] sto rdy 0) ∧
      outside_video (kmem k) (kmem k') ∧ kmods (term k') = kmods (term k)).
Proof.
  intros Hrun Hs. pose proof Hlit as Hl. rewrite Forall_forall in Hl. destruct (Hl s Hs) as (Hr & Hz & _).
  apply fdputs_running; [done|done|by eapply running_text|done].
Qed.

Lemma write_running t scr f k sched a n bs :
  running t scr f k → 0 < a < 4294967296 → bytes (kmem k) a n = bs → 0 ≤ n ≤ 1024 →
  returns (ece391_write y kesp kebp 1 a n (k, sched))
    (λ '((k', rest), r), rest = sched ∧ r = n ∧ running t (show bs scr) f k').
Proof.
  intros Hrun Ha Hb Hn. pose proof Hrun as [Hw Hsame (e & Hrep) _ _].
  apply write_call; [lia|lia|lia|].
  eapply returns_mono; [apply (print_bytes y ns Hy t k0 k a n bs scr sto rdy e); (done || lia)|].
  intros [k' r] (-> & Hw' & Hsame' & Hrep' & Hout & Hf & Hm).
  split_and!; [done|apply s32_small; lia|]. by apply (print_running t scr f k).
Qed.

(** ** open and close *)

Lemma open_effect t scr f k sched s :
  running t scr f k → s ∈ texts → zlen (text_of s) ≤ 31 →
  returns (ece391_open y kesp kebp (lit s) (k, sched)) (λ '((k', rest), r), rest = sched ∧
    k' = set_mem (kmem k') k ∧ changes_only [(open_temp y, 40); (current_pcb k0, 1424)] (kmem k) (kmem k') ∧
    let '(t', r') := open_spec (kmem k) f ns t (text_of s) in r = r' ∧ running t' scr f k').
Proof.
  intros Hrun Hs Hz. pose proof Hrun as [Hw Hsame _ _ Hf].
  pose proof Hlit as Hl. rewrite Forall_forall in Hl. destruct (Hl s Hs) as (Hr & _ & Ha).
  apply open_call; [lia|]. eapply returns_mono.
  { apply (open_refines_table y ns t k (lit s) (text_of s) Hy Hw). constructor; [by eapply running_text|done|].
    by rewrite (sf_regions _ _ _ Hsame). }
  intros [k' r] Hres. pose proof (open_spec_range y ns t k (kmem k) (kfs (term k)) (text_of s) Hw) as Hr8.
  rewrite Hf in Hres, Hr8.
  destruct (open_spec _ _ _ _ _) as [t' r']. cbn in Hr8. destruct Hres as [-> Hleads].
  pose proof (running_leads t t' scr f k k' _ Hrun Hleads) as Hrun'.
  destruct Hleads as (He & _ & Hc). unfold open_changes in Hrun', Hc.
  split; [done|]. split; [exact He|]. split; [by rewrite <- (running_pcb _ _ _ _ Hrun)|].
  split; [apply s32_small; lia|]. apply Hrun'. rewrite !Forall_cons. split_and!; [| |done].
  - by apply (own_harmless t scr f k 7 _ Hrun); [lia|].
  - by apply (own_harmless t scr f k 6 _ Hrun); [lia|].
Qed.

Lemma open_running t scr f k sched s :
  running t scr f k → s ∈ texts → zlen (text_of s) ≤ 31 →
  returns (ece391_open y kesp kebp (lit s) (k, sched)) (λ '((k', rest), r), rest = sched ∧
    let '(t', r') := open_spec (kmem k) f ns t (text_of s) in r = r' ∧ running t' scr f k').
Proof.
  intros Hrun Hs Hz. eapply returns_mono; [by apply (open_effect t scr f)|]. by intros [[k' rest] r] (-> & _ & _ & Hres).
Qed.

Lemma close_effect t scr f k sched fd :
  running t scr f k → 0 ≤ fd < 8 →
  returns (ece391_close y kesp kebp fd (k, sched)) (λ '((k', rest), r), rest = sched ∧
    changes_only [(current_pcb k0, 1424)] (kmem k) (kmem k') ∧
    let '(t', r') := close_spec t fd in r = r' ∧ running t' scr f k').
Proof.
  intros Hrun Hfd. pose proof Hrun as [Hw _ _ _ _]. apply do_call_returns; [unfold SYS_CLOSE; lia|].
  unfold dispatch. cbn [eax ebx ecx edx]. change (s32 SYS_CLOSE) with 6. cbv iota.
  rewrite u32_small, s32_small by lia.
  eapply returns_bind; [by apply (close_refines_table y ns t k fd Hy Hw)|].
  intros [k' r] Hres. apply returns_Ok. exists r. split; [done|]. split; [done|].
  assert (-1 ≤ snd (close_spec t fd) ≤ 0) as Hr by (unfold close_spec; repeat case_match; cbn; lia).
  destruct (close_spec t fd) as [t' r']. cbn in Hr. destruct Hres as [-> Hleads].
  pose proof (running_leads t t' scr f k k' _ Hrun Hleads) as Hrun'. destruct Hleads as (_ & _ & Hc).
  split; [by rewrite <- (running_pcb _ _ _ _ Hrun)|]. split; [apply s32_small; lia|]. apply Hrun'.
  constructor; [|done]. by apply (own_harmless t scr f k 6 _ Hrun); [lia|].
Qed.

Lemma close_running t scr f k sched fd :
  running t scr f k → 0 ≤ fd < 8 →
  returns (ece391_close y kesp kebp fd (k, sched)) (λ '((k', rest), r), rest = sched ∧
    let '(t', r') := close_spec t fd in r = r' ∧ running t' scr f k').
Proof.
  intros Hrun Hfd. eapply returns_mono; [by apply (close_effect t scr f)|]. by intros [[k' rest] r] (-> & _ & Hres).
Qed.

(** The arguments, into a buffer of the program. *)
Lemma getargs_running t scr f k sched args buf n :
  running t scr f k → cstr (kmem k) (arg_at (current_pcb k)) args → arg_size k ≤ n → zlen args < n ≤ 1024 →
  zlen args ≤ 1023 → 0 < buf < 4294967296 → user_buffer y k0 buf n → harmless (buf, n) →
  returns (ece391_getargs y kesp kebp buf n (k, sched)) (λ '((k', rest), r), rest = sched ∧ r = 0 ∧
    cstr (kmem k') buf args ∧ k' = set_mem (kmem k') k ∧ changes_only [(buf, n)] (kmem k) (kmem k') ∧
    running t scr f k').
Proof.
  intros Hrun Ha Hs Hn Hz Hbuf Hub Hh. pose proof Hrun as [Hw Hsame _ _ _]. apply getargs_call; [lia|lia|].
  eapply returns_mono; [apply (getargs_spec y ns buf Hbuf t k args n Hw Ha Hz Hs Hn);
    by apply (user_buffer_same y k0)|].
  intros [k' r] (-> & Hl & Hleads). pose proof Hleads as (He & _ & Hc).
  split_and!; [done|done|done|exact He|done|]. eapply running_leads; [exact Hrun|exact Hleads|by constructor].
Qed.

(** open of the entry [i], named [s]. *)
Definition entry_file (i : nat) (s : list Z) : file :=
  let d := dentry_at (kfs (term k0)) (Z.of_nat i) in
  File (kind_of (rd32 (kmem k0) (filetype_at d))) s (rd32 (kmem k0) (inode_at d)) 0.

Lemma open_entry t scr f k i s :
  running t scr f k → s ≠ [] → take 5 s ≠ codes "stdin" → take 5 s ≠ codes "stdou" →
  list_find (λ n, n = s) ns = Some (i, s) →
  open_spec (kmem k) f ns t s =
    match first_free t with Some n => (<[n := Some (entry_file i s)]> t, Z.of_nat n) | None => (t, -1) end.
Proof.
  intros [Hw Hsame _ _ Hf] Hs H1 H2 Hi. unfold open_spec. rewrite !decide_False by done. unfold entry_file.
  destruct s as [|c s]; [done|]. rewrite Hi.
  pose proof Hi as (Hx & _)%list_find_Some. apply lookup_lt_Some in Hx.
  destruct (fs_names _ _ _ _ (io_fs _ _ _ _ (w_image _ _ _ _ Hw))) as [Hlen _].
  destruct (sf_entries _ _ _ Hsame (Z.of_nat i) ltac:(lia)) as [<- <-]. rewrite Hf.
  by destruct (first_free t).
Qed.

Lemma entry_range t scr f k i s :
  running t scr f k → list_find (λ n, n = s) ns = Some (i, s) →
  0 ≤ f_inode (entry_file i s) < inodes_num (boot_block_at y) (kmem k0).
Proof.
  intros [Hw Hsame _ _ _] Hi. pose proof (entry_inode y ns t k i s Hw Hi) as Hino.
  rewrite (sf_inodes _ _ _ Hsame) in Hino. pose proof Hi as (Hi63 & _)%list_find_Some. apply lookup_lt_Some in Hi63.
  destruct (fs_names _ _ _ _ (io_fs _ _ _ _ (w_image _ _ _ _ Hw))) as [Hlen _].
  destruct (sf_entries _ _ _ Hsame (Z.of_nat i) ltac:(lia)) as [_ E]. by rewrite E in Hino.
Qed.

(** ** Reading files *)

(** The outcome of a read, where the last block of the file is not full. *)
Lemma file_outcome m f kf pos n :
  let c := content m f kf in
  0 ≤ pos ≤ zlen c → 0 < n → c = [] ∨ zlen c mod FS_UNIT_SIZE ≠ 0 →
  read_outcome (boot_block_at y) m f kf pos n = (slice pos n c, Z.min n (zlen c - pos)).
Proof.
  intros c Hp Hn Hc. unfold read_outcome. fold c. pose proof (zlen_content m f kf) as Hz. fold c in Hz. rewrite <- Hz.
  rewrite zlen_slice by lia. destruct (Z.leb_spec (zlen c) pos).
  - f_equal; [|lia]. symmetry. apply length_zero_iff_nil. pose proof (zlen_slice pos n c). lia.
  - assert (dead_end (boot_block_at y) m f kf pos n = false) as ->; [|done].
    unfold dead_end. rewrite <- Hz. destruct Hc as [Ec|Hc]; [rewrite Ec in *; cbn in *; lia|].
    rewrite (proj2 (Z.eqb_neq _ _) Hc). by rewrite andb_false_r.
Qed.

Lemma file_running t scr f k sched fd x buf n :
  let c := content (kmem k0) (kfs (term k0)) (f_inode x) in
  running t scr f k → t !! fd = Some (Some x) → f_kind x = Regular →
  0 ≤ f_inode x < inodes_num (boot_block_at y) (kmem k0) → 0 ≤ f_pos x ≤ zlen c →
  c = [] ∨ zlen c mod FS_UNIT_SIZE ≠ 0 →
  0 < buf < 4294967296 → 0 < n < 2147483648 → user_buffer y k0 buf n → harmless (buf, n) →
  returns (ece391_read y kesp kebp (Z.of_nat fd) buf n (k, sched)) (λ '((k', rest), r),
    rest = sched ∧ r = Z.min n (zlen c - f_pos x) ∧ bytes (kmem k') buf r = slice (f_pos x) n c ∧
    changes_only [(file_read_dentry y, 40); (buf, n); (current_pcb k0, 1424)] (kmem k) (kmem k') ∧
    ∃ f', entry_counter f' = entry_counter f ∧
      running (<[fd := Some (set_pos (f_pos x + r) x)]> t) scr f' k').
Proof.
  intros c Hrun Ht Hk Hino Hp Hc Hbuf Hn Hub Hh. pose proof Hrun as [Hw Hsame _ _ Hf].
  assert (fd < 8)%nat as Hfd by (pose proof (lookup_lt_Some _ _ _ Ht); destruct (w_table _ _ _ _ Hw); lia).
  pose proof (sf_content _ _ _ Hsame _ Hino) as Hck. fold c in Hck.
  pose proof (fs_mounted _ _ _ _ (io_fs _ _ _ _ (w_image _ _ _ _ Hw))) as Hm.
  pose proof (inode_lengths _ _ _ Hm (f_inode x)) as Hmax. rewrite (sf_inodes _ _ _ Hsame) in Hmax.
  specialize (Hmax Hino). rewrite <- zlen_content, Hck in Hmax. unfold max_file, FS_UNIT_SIZE in Hmax.
  apply read_call; [lia|lia|lia|].
  eapply returns_mono; [apply (read_regular_spec y ns t k fd x buf n sched Hy Hw Ht Hk Hn);
    by apply (user_buffer_same y k0)|].
  intros [[k' r] rest]. rewrite file_outcome by (by rewrite ?Hck || lia). rewrite Hck.
  intros (-> & -> & Hb & _ & Hec & (f' & Hf' & He) & Hw' & Hch). rewrite zlen_slice in Hb by lia.
  rewrite s32_small by lia. rewrite u32_small in Hw' by lia. unfold read_changes in Hch.
  rewrite (running_pcb _ _ _ _ Hrun) in Hch. split_and!; [done|done|exact Hb|exact Hch|].
  exists f'. split; [rewrite <- Hf, <- Hec; by rewrite He|].
  eapply (running_step t _ scr f f' k k'); [exact Hrun|by rewrite <- Hf|exact He|exact Hw'|exact Hch|].
  rewrite <- (running_pcb _ _ _ _ Hrun), !Forall_cons. split_and!; [|exact Hh| |done].
  - by apply (own_harmless t scr f k 8 _ Hrun); [lia|].
  - by apply (own_harmless t scr f k 6 _ Hrun); [lia|].
Qed.

(** A read of the directory. *)
Lemma directory_running t scr f k sched fd x buf n :
  let num := s32 (dentries_num (boot_block_at y) (kmem k0)) in
  running t scr f k → t !! fd = Some (Some x) → f_kind x = Directory → 0 ≤ entry_counter f → num ≤ 63 →
  0 < buf < 4294967296 → 0 ≤ n < 2147483648 → user_buffer y k0 buf SBUFSIZE → harmless (buf, SBUFSIZE) →
  returns (ece391_read y kesp kebp (Z.of_nat fd) buf n (k, sched)) (λ '((k', rest), r),
    let '(l, r', c') := if num <=? entry_counter f then ([], 0, 0) else
      let l := ns !!! Z.to_nat (entry_counter f) in (l, Z.min 32 (zlen l), entry_counter f + 1) in
    rest = sched ∧ r = r' ∧ bytes (kmem k') buf SBUFSIZE = listed l ∧
    changes_only [(buf, SBUFSIZE); (current_pcb k0, 1424)] (kmem k) (kmem k') ∧
    ∃ f' pos, entry_counter f' = c' ∧ running (<[fd := Some (set_pos pos x)]> t) scr f' k').
Proof.
  intros num Hrun Ht Hk Hc Hnum Hbuf Hn Hub Hh. pose proof Hrun as [Hw Hsame _ _ Hf].
  assert (fd < 8)%nat as Hfd by (pose proof (lookup_lt_Some _ _ _ Ht); destruct (w_table _ _ _ _ Hw); lia).
  apply read_call; [lia|lia|lia|]. subst f. set (f := kfs (term k)) in *.
  pose proof (read_directory_spec y ns t k fd x buf n sched Hy Hw Ht Hk
    (user_buffer_same y k0 k buf SBUFSIZE Hsame Hub)) as Hrd. cbv zeta in Hrd.
  rewrite (sf_dentries _ _ _ Hsame) in Hrd. eapply returns_mono; [by apply Hrd|].
  intros [[k' r] rest]. fold f num.
  assert (0 ≤ snd (fst (if num <=? entry_counter f then ([], 0, 0) else
    let l := ns !!! Z.to_nat (entry_counter f) in (l, Z.min 32 (zlen l), entry_counter f + 1))) ≤ 32) as Hr.
  { cbv zeta. destruct (num <=? entry_counter f); cbn [fst snd]; lia. }
  destruct (if num <=? entry_counter f then _ else _) as [[l r'] c']. cbn in Hr.
  intros (-> & -> & <- & Hb & (f' & Hf' & He) & Hw' & Hch).
  pose proof (running_pcb _ _ _ _ Hrun) as Hpcb. rewrite <- Hpcb.
  split_and!; [done|apply s32_small; lia|done|exact Hch|]. eexists f', _. split; [by rewrite He|].
  eapply (running_step t _ scr f f' k k'); [exact Hrun|done|exact He|exact Hw'|exact Hch|].
  rewrite !Forall_cons. split_and!; [exact Hh| |done]. by apply (own_harmless t scr f k 6 _ Hrun); [lia|].
Qed.

(** The device and the flag of the clock are not part of what a program sees. *)
Lemma running_device t scr f k b d :
  running t scr f k → running t scr f (set_rtc_flag b (set_kcon (set_dev d (kcon (term k))) k)).
Proof.
  intros [Hw Hsame (e & Hrep) Htx Hf]. constructor; [by apply (world_ext y ns t k)| |exists e|exact Htx|exact Hf].
  - destruct Hsame. by constructor.
  - exact (represents_set_dev d (term k) _ Hrep).
Qed.

(** A read of the clock takes one of its interrupts. *)
Lemma clock_running t scr f k sched fd x buf n :
  running t scr f k → t !! fd = Some (Some x) → f_kind x = Clock →
  0 < buf < 4294967296 → 0 ≤ n < 2147483648 →
  returns (ece391_read y kesp kebp (Z.of_nat fd) buf n (k, IRQ_RTC :: sched)) (λ '((k', rest), r),
    rest = sched ∧ r = 0 ∧ changes_only [(current_pcb k0, 1424)] (kmem k) (kmem k') ∧
    ∃ pos, running (<[fd := Some (set_pos pos x)]> t) scr f k').
Proof.
  intros Hrun Ht Hk Hbuf Hn. pose proof Hrun as [Hw _ _ _ _].
  assert (fd < 8)%nat as Hfd by (pose proof (lookup_lt_Some _ _ _ Ht); destruct (w_table _ _ _ _ Hw); lia).
  apply read_call; [lia|lia|lia|].
  rewrite (read_through y ns t k fd x buf n _ Rtc_read Hy Hw Ht) by (lia || by rewrite Hk).
  cbn [call_read]. unfold rtc_read. cbn [spin set_rtc_flag rtc_interrupt_occurred].
  change (1 =? 1) with true. cbv iota. unfold deliver. cbn [term set_rtc_flag].
  destruct (rtc_handler (dev (kcon (term k)))) as [flag d] eqn:Eh.
  assert (flag = 0) as -> by (unfold rtc_handler in Eh; destruct (inb _ _) in Eh; by injection Eh).
  rewrite bind_Ok, spin_done by done. rewrite !bind_Ok. apply returns_Ok.
  pose proof (running_device t scr f k 0 d Hrun) as Hrun1. set (k1 := set_rtc_flag 0 _) in *.
  pose proof (ru_world _ _ _ _ Hrun1) as Hw1.
  destruct (read_step y ns t k k1 fd x 0 [] Hw1 eq_refl Ht (changes_only_refl [] _)) as (Hw2 & Hc2 & _ & _).
  rewrite (running_pcb _ _ _ _ Hrun) in Hc2. split_and!; [done|done|exact Hc2|]. eexists.
  eapply (running_leads t _ scr f k1 _ [(current_pcb k0, 1424)] Hrun1); [split_and!; [done|exact Hw2|exact Hc2]|].
  rewrite <- (running_pcb _ _ _ _ Hrun). constructor; [|done]. by apply (own_harmless t scr f k 6 _ Hrun); [lia|].
Qed.

(** A write to the clock is rtc_write on its device. *)
Lemma clock_write_running t scr f k sched fd x a n :
  running t scr f k → t !! fd = Some (Some x) → f_kind x = Clock →
  0 < a < 4294967296 → 0 ≤ n < 2147483648 →
  let '(r, d) := rtc_write (kmem k) (Z.of_nat fd) a n (dev (kcon (term k))) in
  ∃ k', ece391_write y kesp kebp (Z.of_nat fd) a n (k, sched) = Ok ((k', sched), s32 r) ∧
    kmem k' = kmem k ∧ dev (kcon (term k')) = d ∧ running t scr f k'.
Proof.
  intros Hrun Ht Hk Ha Hn. pose proof Hrun as [Hw _ _ _ _]. destruct (w_table _ _ _ _ Hw) as [Hlen Htab].
  assert (fd < 8)%nat as Hfd by (pose proof (lookup_lt_Some _ _ _ Ht); lia).
  destruct (rtc_write _ _ _ _ _) as [r d] eqn:Ew.
  pose proof (running_device t scr f k (rtc_interrupt_occurred k) d Hrun) as Hrun'.
  exists (set_rtc_flag (rtc_interrupt_occurred k) (set_kcon (set_dev d (kcon (term k))) k)).
  split_and!; [|done|done|exact Hrun'].
  apply returns_eq, write_call; [lia|lia|lia|]. unfold write.
  rewrite (proj2 (Z.ltb_ge (Z.of_nat fd) 0)), (proj2 (Z.ltb_ge 7 (Z.of_nat fd))), (proj2 (Z.eqb_neq a 0)) by lia.
  cbn [orb]. cbv zeta. destruct (Htab _ _ Ht) as (Hf & Hop & _).
  change (file_array_at (current_pcb k) (Z.of_nat fd)) with (descriptor k (Z.of_nat fd)) in *.
  rewrite Hf, Hop, (fetch_kind y _ _ Hy), Hk. change (USE =? 0) with false. cbv iota.
  change (kind_ops Clock !! SLOT_WRITE) with (Some (Some Rtc_write)). cbv iota.
  rewrite bind_Ok. cbn [call_write]. rewrite Ew. by apply returns_Ok.
Qed.

(** ** Refused calls leave everything as it is *)

Lemma refused_call n a b c k sched :
  1 ≤ n ≤ 10 → dispatch y (Registers n (u32 a) (u32 b) (u32 c) 0 0 0) kesp kebp sched k =
    Ok (k, Return (-1), sched) →
  do_call y kesp kebp n a b c (k, sched) = Ok ((k, sched), -1).
Proof.
  intros Hn E. apply returns_eq, do_call_returns; [done|]. rewrite E. apply returns_Ok. by exists (-1).
Qed.

Lemma s32_u32_small z : -2147483648 ≤ z < 2147483648 → s32 (u32 z) = z.
Proof. intros. rewrite s32_u32. by apply s32_small. Qed.

Definition closed_fd k (fd : Z) : Prop :=
  fd < 0 ∨ 7 < fd ∨ rd32 (kmem k) (flags_at (descriptor k fd)) = NOT_USE.

Lemma read_refused k sched fd b n :
  -2147483648 ≤ fd < 2147483648 → closed_fd k fd →
  ece391_read y kesp kebp fd b n (k, sched) = Ok ((k, sched), -1).
Proof.
  intros Hfd Hc. apply refused_call; [unfold SYS_READ; lia|].
  unfold dispatch. cbn [eax ebx ecx edx]. change (s32 SYS_READ) with 3. cbv iota. rewrite s32_u32_small by done.
  rewrite (proj1 (read_write_refused y k fd (u32 b) (s32 (u32 n)) sched ltac:(unfold closed_fd, NOT_USE in Hc; tauto))).
  done.
Qed.

Lemma write_refused k sched fd b n :
  -2147483648 ≤ fd < 2147483648 → closed_fd k fd →
  ece391_write y kesp kebp fd b n (k, sched) = Ok ((k, sched), -1).
Proof.
  intros Hfd Hc. apply refused_call; [unfold SYS_WRITE; lia|].
  unfold dispatch. cbn [eax ebx ecx edx]. change (s32 SYS_WRITE) with 4. cbv iota. rewrite s32_u32_small by done.
  rewrite (proj2 (read_write_refused y k fd (u32 b) (s32 (u32 n)) sched ltac:(unfold closed_fd, NOT_USE in Hc; tauto))).
  done.
Qed.

Lemma ece391_close_refused k sched fd :
  -2147483648 ≤ fd < 2147483648 → fd < 2 ∨ closed_fd k fd →
  ece391_close y kesp kebp fd (k, sched) = Ok ((k, sched), -1).
Proof.
  intros Hfd Hc. apply refused_call; [unfold SYS_CLOSE; lia|].
  unfold dispatch. cbn [eax ebx ecx edx]. change (s32 SYS_CLOSE) with 6. cbv iota. rewrite s32_u32_small by done.
  rewrite close_refused; [done|]. unfold closed_fd in Hc.
  destruct Hc as [?|[?|[?|Ef]]]; [by left|left; lia|by right; left|right; right; by rewrite Ef].
Qed.

Lemma ece391_vidmap_refused k sched a :
  0 ≤ a < 0x8000000 → ece391_vidmap y kesp kebp a (k, sched) = Ok ((k, sched), -1).
Proof.
  intros Ha. apply refused_call; [unfold SYS_VIDMAP; lia|].
  unfold dispatch. cbn [eax ebx ecx edx]. change (s32 SYS_VIDMAP) with 8. cbv iota.
  rewrite u32_small by lia. rewrite vidmap_refused; [done|lia].
Qed.
End running.

(** A program may come to rely on other strings. *)
Lemma running_texts `{PortIO D, HK : Text K} y ns (lit : K → Z) texts texts' k0 sto rdy t scr f (k : kernel D) :
  running y ns lit texts k0 sto rdy t scr f k → Forall (λ s, cstr (kmem k) (lit s) (text_of s)) texts' →
  running y ns lit texts' k0 sto rdy t scr f k.
Proof. intros [Hw Hsame He _ Hf] Ht. by constructor. Qed.

(** ** Input *)

Section input.
Context `{PortIO D, !KeyQueue D, Hotkeys D fs} (y : layout) (kesp kebp : Z) (ns : list (list Z)).
Context (Hy : tables_ok y) `{HK : Text K} (lit : K → Z) (texts : list K) (k0 : kernel D).
Context (Hlit : Forall (literal_placed y lit k0) texts).
Implicit Types k : kernel D.

Local Notation runs t scr f k := (running y ns lit texts k0 [] false t scr f k).

(** Reading a line into the program's buffer. *)
Lemma getline_running t scr f k fd x buf n keys rest q t1 e :
  runs t scr f k → represents (kcon (term k)) (kline (term k)) (Tty scr [] [] false e) →
  t !! fd = Some (Some x) → f_kind x = Stdin → 0 < buf < 4294967296 → 128 < n < 2147483648 →
  user_buffer y k0 buf n → Forall (λ s, apart (lit s, zlen (text_of s) + 1) (buf, n)) texts →
  fs_sound (kfs (term k)) (kmem k) → types k (Tty scr [] [] false e) keys q t1 →
  returns (ece391_read y kesp kebp (Z.of_nat fd) buf n (k, replicate (S (length keys)) IRQ_KEYBOARD ++ rest))
    (λ '((k', rest'), r), rest' = rest ∧ r = zlen (typed t1) + 1 ∧ r ≤ 129 ∧
      bytes (kmem k') buf r = typed t1 ++ [10] ∧ queue k' = q ∧
      bytes (kmem k') (current_pcb k) 12 = bytes (kmem k) (current_pcb k) 12 ∧
      (∀ m, type_keys (kmods (term k)) (Tty scr [] [] false e) keys = Some (m, t1) → kmods (term k') = update_mods 0x1C m) ∧
      runs (<[fd := Some (set_pos (u32 (f_pos x + r)) x)]> t) (show_char 10 (t_screen t1)) f k').
Proof.
  intros [Hw Hsame _ Ht Hf] Hrep Hx Hk Hbuf Hn Hub Hap Hsnd Hty.
  pose proof (user_buffer_same y k0 k buf n Hsame Hub) as Hubk.
  assert (fd < 8)%nat as Hfd by (pose proof (lookup_lt_Some _ _ _ Hx); destruct (w_table _ _ _ _ Hw); lia).
  apply read_call; [lia|lia|lia|]. eapply returns_mono.
  { apply (read_stdin_spec y ns t k fd x buf n keys rest q (Tty scr [] [] false e) t1 Hy Hw Hx Hk ltac:(lia) Hubk);
      [by split|done|done]. }
  intros [[k' r] rest'] (-> & -> & Hb & Hw' & Hrep' & Hch & Hf' & Hcnt & Hq & Hlen & Hmods & Hblk).
  rewrite take_ge in Hb, Hw' |- * by (rewrite length_app; cbn; unfold line_max in Hlen; lia).
  assert (zlen (typed t1 ++ [10]) = zlen (typed t1) + 1) as Hz by (rewrite length_app; cbn; lia).
  rewrite Hz in *. unfold line_max in Hlen. rewrite s32_small by lia. split_and!; [done|done|lia|done|done|done|exact Hmods|].
  constructor; [done| |by exists 0| |congruence].
  - eapply same_files_trans; [exact Hsame|].
    apply (same_files_change y ns k k' t _ Hw Hch); [|by rewrite Hf'; apply fs_same_refl|done].
    rewrite !Forall_cons. split_and!; [| | |done].
    + apply (changes_fixed y ns k t _ Hw). by left.
    + by apply (buffer_spares y k).
    + apply (changes_fixed y ns k t _ Hw). set_solver.
  - rewrite Forall_forall in Ht, Hlit, Hap |- *. intros s Hs. destruct (Hlit s Hs) as (_ & _ & Ha).
    eapply changes_same_cstr; [exact Hch| |by apply Ht]. rewrite !Forall_cons. split_and!; [| | |done].
    + exact (Forall_lookup_1 _ _ 5%nat _ Ha eq_refl).
    + by apply Hap.
    + unfold current_pcb. rewrite (sf_counter _ _ _ Hsame). exact (Forall_lookup_1 _ _ 6%nat _ Ha eq_refl).
Qed.

(** Printing spares the head of the control block. *)
Lemma block_kept t k k' :
  world y ns t k → outside_video (kmem k) (kmem k') →
  bytes (kmem k') (current_pcb k) 12 = bytes (kmem k) (current_pcb k) 12.
Proof.
  intros Hw Ho. pose proof (separate_apart _ 5 6 _ _ (w_separate _ _ _ _ Hw) eq_refl eq_refl ltac:(lia)) as Hvp.
  apply bytes_ext. intros i Hi. apply Ho. unfold apart, disjoint_regions in Hvp. cbn [fst snd] in Hvp. lia.
Qed.

(** Printing takes no key from the queue. *)
Lemma fdputs_queue t k k' s sched rest :
  world y ns t k → ece391_fdputs y kesp kebp 1 s (k, sched) = Ok (k', rest) → queue k' = queue k.
Proof.
  intros Hw. unfold ece391_fdputs, ece391_write, do_call, asm_linkage. cbn [eax]. change (s32 SYS_WRITE) with 4.
  change ((4 <? 1) || (10 <? 4)) with false. cbv iota. unfold dispatch. cbn [eax ebx ecx edx].
  change (s32 SYS_WRITE) with 4. cbv iota. change (s32 (u32 1)) with (Z.of_nat 1). cbn [fst snd].
  pose proof (w_standard _ _ _ _ Hw) as (f0 & f1 & r0 & Ht & _ & K1 & _).
  assert (t !! 1%nat = Some (Some f1)) as T1 by by rewrite Ht.
  intros (len & _ & ([p v] & Hc & [= ->])%res_bind_Ok)%res_bind_Ok.
  apply res_bind_Ok in Hc as ([[k1 x] r1] & Hd & Hx). apply res_bind_Ok in Hd as ([[k2 c] r2] & Hd & Hc2).
  apply res_bind_Ok in Hd as ([k3 v3] & Hwr & [= <- <- <-]).
  apply (write_queue y ns t k k3 1 f1 _ _ v3 Hy Hw T1 K1) in Hwr. rewrite <- Hwr. f_equal.
  cbn in Hc2. injection Hc2 as <- <- <-. by injection Hx as -> _ _.
Qed.

(** The prompt, then a line: the echo of the keys follows the prompt. *)
Lemma ask_running t scr f k f0 question buf n size keys rest q t1 :
  runs t scr f k → question ∈ texts → t !! 0%nat = Some (Some f0) → f_kind f0 = Stdin →
  0 < buf < 4294967296 → 128 < n < 2147483648 → n ≤ size → user_buffer y k0 buf size →
  Forall (λ s, apart (lit s, zlen (text_of s) + 1) (buf, size)) texts → fs_sound (kfs (term k)) (kmem k) →
  types k (Tty (show (text_of question) scr) [] [] false 0) keys q t1 →
  returns (p ← ece391_fdputs y kesp kebp 1 (lit question) (k, replicate (S (length keys)) IRQ_KEYBOARD ++ rest);
           ece391_read y kesp kebp 0 buf n p)
    (λ '((k', rest'), r), rest' = rest ∧ r = zlen (typed t1) + 1 ∧ r ≤ 129 ∧
      bytes (kmem k') buf r = typed t1 ++ [10] ∧ queue k' = q ∧
      bytes (kmem k') (current_pcb k) 12 = bytes (kmem k) (current_pcb k) 12 ∧
      (∀ m, type_keys (kmods (term k)) (Tty (show (text_of question) scr) [] [] false 0) keys = Some (m, t1) → kmods (term k') = update_mods 0x1C m) ∧
      runs (<[0%nat := Some (set_pos (u32 (f_pos f0 + r)) f0)]> t) (show_char 10 (t_screen t1)) f k').
Proof.
  intros Hrun Hq Hf0 K0 Hbuf Hn Hsize Hub Hap Hsnd (Hsc & (m & Hkeys) & Hqu).
  destruct (puts_running y kesp kebp ns Hy lit texts k0 [] false Hlit t scr f k
    (replicate (S (length keys)) IRQ_KEYBOARD ++ rest) question Hrun Hq)
    as ([k1 s1] & E1 & -> & Hrun1 & Hrep1 & Hout1 & Hm1).
  pose proof (fdputs_queue t k k1 _ _ _ (ru_world _ _ _ _ _ _ _ _ _ _ _ Hrun) E1) as Hq1. rewrite E1, bind_Ok.
  eapply returns_mono; [apply (getline_running t _ f k1 0 f0 buf n keys rest q t1 0 Hrun1 Hrep1 Hf0 K0 Hbuf Hn)|].
  5: { intros [[k2 s2] r] (-> & -> & Hr & Hb & Hq2 & Hblk & Hmods & Hrun2).
    split_and!; [done|done|done|done|done| |by rewrite Hm1 in Hmods|exact Hrun2].
    assert (current_pcb k1 = current_pcb k) as Ep.
    { by rewrite (running_pcb _ _ _ _ _ _ _ _ _ _ _ Hrun1), (running_pcb _ _ _ _ _ _ _ _ _ _ _ Hrun). }
    rewrite Ep in Hblk. rewrite Hblk. exact (block_kept t _ _ (ru_world _ _ _ _ _ _ _ _ _ _ _ Hrun) Hout1). }
  - split; [apply Hub|]. eapply Forall_impl; [apply Hub|]. intros r Hr. eapply apart_part; [exact Hr|lia..].
  - eapply Forall_impl; [exact Hap|]. intros s Hs. apply apart_sym. apply apart_sym in Hs.
    eapply apart_part; [exact Hs|lia..].
  - rewrite (ru_fs _ _ _ _ _ _ _ _ _ _ _ Hrun1), <- (ru_fs _ _ _ _ _ _ _ _ _ _ _ Hrun). by eapply fs_sound_video.
  - split_and!; [done|exists m; by rewrite Hm1|by rewrite Hq1].
Qed.
End input.

(** A 0 stored behind the first part of a text makes it a string. *)
Lemma terminated m buf l1 l2 :
  bytes m buf (zlen l1 + zlen l2) = l1 ++ l2 → Forall (λ c, c ≠ 0) l1 → cstr (wr m (buf + zlen l1) 0) buf l1.
Proof.
  intros Hb Hnz. rewrite bytes_app in Hb by lia. apply app_inj_1 in Hb as [Hb _].
  - split_and!; [done| |by rewrite rd_wr_eq].
    transitivity (bytes m buf (zlen l1)); [|exact Hb]. apply bytes_ext. intros j Hj. apply rd_wr_ne. lia.
  - pose proof (zlen_bytes m buf (zlen l1) ltac:(lia)). lia.
Qed.

(** ** A concrete program

    The directory of the demo image with the directory itself as second entry,
    nothing open, the program's literals from 0x804A000 on, and the keys that
    wait in the controller. *)

Definition place (texts : list (list Z)) (s : list Z) : Z :=
  0x804A000 + 64 * match list_find (λ t, t = s) texts with Some (i, _) => Z.of_nat i | None => 0 end.

Definition prog_names : list (list Z) := [97] :: [46] :: replicate 61 [].

Definition prog_mem (texts : list (list Z)) : mem :=
  foldr (λ s m, wr_bytes m (place texts s) (s ++ [0]))
    (wr32 (wr32 (wr_bytes demo_mem 0x10080 [46; 0]) 0x100A0 1) 0x800 2) texts.

Definition prog_kernel (m : mem) (keys : list Z) : kernel trace :=
  Kernel (Kb (set_dev (Trace [] keys) (fresh m)) demo_fs no_mods empty_line 0)
    boot_paging ∅ 1 0 1 0 0.

(** The table of a program that has opened nothing. *)
Definition bare (f0 f1 : file) : table := Some f0 :: Some f1 :: replicate 6 None.

Definition prog_table : table := bare (File Stdin (codes "STDIN") 0 0) (File Stdout (codes "STDOUT") 0 0).

Lemma prog_running texts m keys k :
  k = prog_kernel m keys →
  world demo_layout prog_names prog_table k → Forall (λ s, cstr (kmem k) (place texts s) s) texts →
  running demo_layout prog_names (place texts) texts k [] false prog_table blank_screen demo_fs k.
Proof.
  intros E Hw Ht. constructor; [exact Hw|by constructor| |exact Ht|by rewrite E]. exists 0. rewrite E.
  exact (represents_set_dev (Trace [] keys) (fresh_kb m) idle (proj1 (fresh_kb_ok _))).
Qed.
