(* ===== verification/UserErr.v ===== *)
(** * ece391syserr.c: the error tests of the system calls

    The eight tests of the program, and what they report about this kernel. *)

From S2P Require Import Prelude Memory LibString Ports Pic Rtc Console Keyboard Paging FileSys.
From S2P Require Import FsScreen Process Syscall Descriptors ReadWrite Typing Calls Exec User UserRun.

Definition NEG_FD := -1073741823.
Definition BIG_FD := 1073741823.
Definition BIG_NUM := 1073741823.
Definition NEG_NUM := -1073741823.

Section tests.
Context `{PortIO D, Hotkeys D fs} (y : layout) (kesp kebp : Z).
Context (lit : list Z → Z) (buf : Z).
Implicit Types p : @proc D.

Definition puts_line (s : string) p : res proc := ece391_fdputs y kesp kebp 1 (lit (line_of s)) p.

(** Only eax is set; the other registers, whose values the numbers tried here
    make no use of, are taken as 0. *)
Definition call_sys (num : Z) p : res (proc * Z) := do_call y kesp kebp (u32 num) 0 0 0 p.

(** [if (-1 != r) { fail = 2; ece391_fdputs (1, msg); }] *)
Definition expect (r : Z) (msg : string) (x : proc * Z) : res (proc * Z) :=
  let '(p, fail) := x in
  if negb (-1 =? r) then p ← puts_line msg p; Ok (p, 2) else Ok (p, fail).

(** The report at the end of a test. *)
Definition verdict (failed passed : string) (x : proc * Z) : res (proc * Z) :=
  let '(p, fail) := x in
  p ← (if negb (fail =? 0) then puts_line failed p else puts_line passed p);
  Ok (p, fail).

Definition err_neg_fd p : res (proc * Z) :=
  '(p, r) ← ece391_read y kesp kebp NEG_FD buf 31 p;
  '(p, fail) ← expect r "read fail" (p, 0);
  '(p, r) ← ece391_write y kesp kebp NEG_FD buf 31 p;
  '(p, fail) ← expect r "write fail" (p, fail);
  '(p, r) ← ece391_close y kesp kebp NEG_FD p;
  '(p, fail) ← expect r "close fail" (p, fail);
  verdict "err_neg_fd: FAIL" "err_neg_fd: PASS" (p, fail).

Definition err_big_fd p : res (proc * Z) :=
  '(p, r) ← ece391_read y kesp kebp BIG_FD buf 31 p;
  '(p, fail) ← expect r "read fail" (p, 0);
  '(p, r) ← ece391_write y kesp kebp BIG_FD buf 31 p;
  '(p, fail) ← expect r "write fail" (p, fail);
  '(p, r) ← ece391_close y kesp kebp BIG_FD p;
  '(p, fail) ← expect r "close fail" (p, fail);
  verdict "err_big_fd: FAIL" "err_big_fd: PASS" (p, fail).

Definition err_open_lots p : res (proc * Z) :=
  '(p, cnt) ← whileM (λ '(p, i, cnt),
    if i <? 7 then
      '(p, r) ← ece391_open y kesp kebp (lit (codes ".")) p;
      Ok (inl (p, i + 1, if -1 =? r then cnt + 1 else cnt))
    else Ok (inr (p, cnt))) (p, 0, 0);
  p ← whileM (λ '(p, i),
    if i <? 8 then '(p, _) ← ece391_close y kesp kebp i p; Ok (inl (p, i + 1))
    else Ok (inr p)) (p, 2);
  if cnt =? 1 then p ← puts_line "err_open_lots: PASS" p; Ok (p, 0)
  else p ← puts_line "err_open_lots: FAIL" p; Ok (p, 2).

Definition err_open p : res (proc * Z) :=
  '(p, r) ← ece391_open y kesp kebp (lit (codes "helloo")) p;
  '(p, fail) ← expect r "'helloo' fail" (p, 0);
  '(p, r) ← ece391_open y kesp kebp (lit (codes "shel")) p;
  '(p, fail) ← expect r "'shel' fail" (p, fail);
  '(p, r) ← ece391_open y kesp kebp (lit []) p;
  '(p, fail) ← expect r "empty string fail" (p, fail);
  verdict "err_open: FAIL" "err_open: PASS" (p, fail).

(** The three loops of err_unopened. *)
Definition for_each (lo hi : Z) (call : Z → proc → res (proc * Z)) (msg : string) (x : proc * Z) :
    res (proc * Z) :=
  whileM (λ '(p, fail, i),
    if i <? hi then
      '(p, r) ← call i p;
      '(p, fail) ← expect r msg (p, fail);
      Ok (inl (p, fail, i + 1))
    else Ok (inr (p, fail))) (x, lo).

Definition err_unopened p : res (proc * Z) :=
  x ← for_each 0 8 (ece391_close y kesp kebp) "close unopened or invalid fd fail" (p, 0);
  x ← for_each 2 8 (λ i, ece391_read y kesp kebp i buf 31) "read from unopened fd fail" x;
  x ← for_each 2 8 (λ i, ece391_write y kesp kebp i buf 31) "write to unopened fd fail" x;
  verdict "err_unopened: FAIL" "err_unopened: PASS" x.

Definition err_vidmap p : res (proc * Z) :=
  '(p, r) ← ece391_vidmap y kesp kebp 0 p;
  '(p, fail) ← expect r "Null pointer fail" (p, 0);
  '(p, r) ← ece391_vidmap y kesp kebp 0x400000 p;
  '(p, fail) ← expect r "Kernel pointer fail fail" (p, fail);
  verdict "err_vidmap: FAIL" "err_vidmap: PASS" (p, fail).

Definition err_stdin_out p : res (proc * Z) :=
  '(p, r) ← ece391_write y kesp kebp 0 buf 31 p;
  '(p, fail) ← expect r "write to stdin fail" (p, 0);
  '(p, r) ← ece391_read y kesp kebp 1 buf 31 p;
  '(p, fail) ← expect r "read from stdout fail" (p, fail);
  verdict "err_stdin_out: FAIL" "err_stdin_out: PASS" (p, fail).

Definition err_syscall_num p : res (proc * Z) :=
  '(p, r) ← call_sys BIG_NUM p;
  '(p, fail) ← expect r "syscall 0 fail" (p, 0);
  '(p, r) ← call_sys NEG_NUM p;
  '(p, fail) ← expect r "big num syscall fail" (p, fail);
  '(p, r) ← call_sys 0 p;
  '(p, fail) ← expect r "neg num syscall fail" (p, fail);
  verdict "err_syscall_num: FAIL" "err_syscall_num: PASS" (p, fail).

(** Several tests, their results added. *)
Definition all_tests : list (proc → res (proc * Z)) :=
  [err_neg_fd; err_big_fd; err_open_lots; err_open; err_unopened; err_vidmap; err_stdin_out;
   err_syscall_num].

Definition run_tests (tests : list (proc → res (proc * Z))) p : res (proc * Z) :=
  foldl (λ x test, '(p, fail) ← x; '(p, r) ← test p; Ok (p, fail + r)) (Ok (p, 0)) tests.

Definition PROMPT := codes "Choose from tests 1-8. 0 to run all: ".
Definition INVALID := codes "Invalid test number. Choose from tests 1-8 or 0".

Definition syserr_main p : res (proc * Z) :=
  p ← ece391_fdputs y kesp kebp 1 (lit PROMPT) p;
  '(p, cnt) ← ece391_read y kesp kebp 0 buf 127 p;
  if -1 =? cnt then p ← puts_line "Can't read test #" p; Ok (p, 2)
  else
    match rd (pmem p) buf - 48 with
    | 0 =>
        '(p, fail) ← run_tests all_tests p;
        p ← (if negb (fail =? 0) then ece391_fdputs y kesp kebp 1 (lit (10 :: line_of "Overall Tests: FAIL")) p
             else ece391_fdputs y kesp kebp 1 (lit (10 :: line_of "Overall Tests: PASS")) p);
        Ok (p, fail)
    | 1 => err_neg_fd p
    | 2 => err_big_fd p
    | 3 => err_open_lots p
    | 4 => err_open p
    | 5 => err_unopened p
    | 6 => err_vidmap p
    | 7 => err_stdin_out p
    | 8 => err_syscall_num p
    | _ => p ← ece391_fdputs y kesp kebp 1 (lit INVALID) p; Ok (p, 0)
    end.
End tests.

(** ** The tests *)

Definition syserr_texts : list (list Z) :=
  [codes "."; codes "helloo"; codes "shel"; []] ++
  (line_of <$> ["err_neg_fd: PASS"; "err_big_fd: PASS"; "err_open_lots: PASS"; "err_open: PASS";
     "err_unopened: PASS"; "err_vidmap: PASS"; "err_syscall_num: PASS"]).

Section verdicts.
Context `{PortIO D, Hotkeys D fs} (y : layout) (kesp kebp : Z) (ns : list (list Z)).
Context (Hy : tables_ok y) (lit : list Z → Z) (buf : Z) (k0 : kernel D) (sto : list Z) (rdy : bool).
Context (Hlit : Forall (literal_placed y lit k0) syserr_texts).
Context (f0 f1 : file) (f : fs).
Implicit Types k : kernel D.

Local Notation runs t scr k := (running y ns lit syserr_texts k0 sto rdy t scr f k).

Lemma call_sys_refused k sched n :
  -2147483648 ≤ n < 2147483648 → n < 1 ∨ 10 < n → call_sys y kesp kebp n (k, sched) = Ok ((k, sched), -1).
Proof.
  intros Hn Hbad. unfold call_sys, do_call, asm_linkage. cbn [eax]. rewrite s32_u32_small by done.
  assert ((n <? 1) || (10 <? n) = true) as -> by (rewrite orb_true_iff; lia). done.
Qed.
(** What a test that passes does. *)
Definition passes (test : @proc D → res (@proc D * Z)) (name : string) : Prop :=
  ∀ k scr sched, runs (bare f0 f1) scr k →
    returns (test (k, sched)) (λ '((k', rest), v), v = 0 ∧ rest = sched ∧
      runs (bare f0 f1) (show (line_of name) scr) k').

Lemma expect_refused msg (x : @proc D * Z) : expect y kesp kebp lit (-1) msg x = Ok x.
Proof. by destruct x. Qed.

Lemma free_closed k scr i :
  runs (bare f0 f1) scr k → 2 ≤ i < 8 → closed_fd k i.
Proof.
  intros [Hw _ _ _ _] Hi. destruct (w_table _ _ _ _ Hw) as [_ Ht].
  assert (bare f0 f1 !! Z.to_nat i = Some None) as Hn.
  { unfold bare. replace (Z.to_nat i) with (S (S (Z.to_nat (i - 2)))) by lia. cbn [lookup list_lookup].
    apply lookup_replicate_2. lia. }
  pose proof (Ht _ _ Hn) as Hd. rewrite Z2Nat.id in Hd by lia. by right; right.
Qed.

Lemma verdict_passes failed passed k scr sched :
  runs (bare f0 f1) scr k → line_of passed ∈ syserr_texts →
  returns (verdict y kesp kebp lit failed passed ((k, sched), 0)) (λ '((k', rest), v),
    v = 0 ∧ rest = sched ∧ runs (bare f0 f1) (show (line_of passed) scr) k').
Proof.
  intros Hr Hin. unfold verdict. change (negb (0 =? 0)) with false. cbv iota.
  eapply returns_bind; [by apply (puts_running y kesp kebp ns Hy lit syserr_texts k0 sto rdy Hlit (bare f0 f1) scr f k sched)|].
  intros [k' rest] (-> & Hr' & _). by apply returns_Ok.
Qed.

Ltac pass_line := apply verdict_passes; [done|by_decide].

Lemma neg_fd_passes : passes (err_neg_fd y kesp kebp lit buf) "err_neg_fd: PASS".
Proof.
  intros k scr sched Hr. assert (closed_fd k NEG_FD) as Hc by (left; unfold NEG_FD; lia).
  unfold err_neg_fd. rewrite read_refused by (unfold NEG_FD; done || lia). rewrite bind_Ok, expect_refused, bind_Ok.
  rewrite write_refused by (unfold NEG_FD; done || lia). rewrite bind_Ok, expect_refused, bind_Ok.
  rewrite ece391_close_refused by (unfold NEG_FD; auto || lia). rewrite bind_Ok, expect_refused, bind_Ok.
  pass_line.
Qed.

Lemma big_fd_passes : passes (err_big_fd y kesp kebp lit buf) "err_big_fd: PASS".
Proof.
  intros k scr sched Hr. assert (closed_fd k BIG_FD) as Hc by (right; left; unfold BIG_FD; lia).
  unfold err_big_fd. rewrite read_refused by (unfold BIG_FD; done || lia). rewrite bind_Ok, expect_refused, bind_Ok.
  rewrite write_refused by (unfold BIG_FD; done || lia). rewrite bind_Ok, expect_refused, bind_Ok.
  rewrite ece391_close_refused by (unfold BIG_FD; auto || lia). rewrite bind_Ok, expect_refused, bind_Ok.
  pass_line.
Qed.

Lemma vidmap_passes : passes (err_vidmap y kesp kebp lit) "err_vidmap: PASS".
Proof.
  intros k scr sched Hr. unfold err_vidmap.
  rewrite ece391_vidmap_refused by lia. rewrite bind_Ok, expect_refused, bind_Ok.
  rewrite ece391_vidmap_refused by lia. rewrite bind_Ok, expect_refused, bind_Ok. pass_line.
Qed.

Lemma syscall_num_passes : passes (err_syscall_num y kesp kebp lit) "err_syscall_num: PASS".
Proof.
  intros k scr sched Hr. unfold err_syscall_num.
  rewrite call_sys_refused by (unfold BIG_NUM; lia). rewrite bind_Ok, expect_refused, bind_Ok.
  rewrite call_sys_refused by (unfold NEG_NUM; lia). rewrite bind_Ok, expect_refused, bind_Ok.
  rewrite call_sys_refused by lia. rewrite bind_Ok, expect_refused, bind_Ok. pass_line.
Qed.

(** A loop of refused calls. *)
Lemma for_each_refused lo hi call msg k sched fail :
  0 ≤ lo ≤ hi → hi ≤ 8 → (∀ i, lo ≤ i < hi → call i (k, sched) = Ok ((k, sched), -1)) →
  for_each y kesp kebp lit lo hi call msg ((k, sched), fail) = Ok ((k, sched), fail).
Proof.
  intros Hlo Hhi Hcall. apply returns_eq. unfold for_each. apply whileM_total with
    (I := λ '(p, v, i), p = (k, sched) ∧ v = fail ∧ lo ≤ i ≤ hi) (V := λ '(p, v, i), hi - i).
  - by split_and!; try lia.
  - lia.
  - intros [[p v] j] (-> & -> & Hi). destruct (Z.ltb_spec j hi).
    + rewrite Hcall, bind_Ok, expect_refused, bind_Ok by lia. apply returns_Ok. split; [|lia].
      split_and!; [done|done|lia|lia].
    + by apply returns_Ok.
Qed.

Lemma unopened_passes : passes (err_unopened y kesp kebp lit buf) "err_unopened: PASS".
Proof.
  intros k scr sched Hr. unfold err_unopened.
  assert (∀ i, 2 ≤ i < 8 → closed_fd k i) as Hfree by (intros; by eapply free_closed).
  rewrite for_each_refused; [|lia|lia|]; cycle 1.
  { intros i Hi. apply ece391_close_refused; [lia|]. destruct (decide (i < 2)); [by left|right; apply Hfree; lia]. }
  rewrite bind_Ok, for_each_refused; [|lia|lia|intros; apply read_refused; [lia|by apply Hfree]].
  rewrite bind_Ok, for_each_refused; [|lia|lia|intros; apply write_refused; [lia|by apply Hfree]].
  rewrite bind_Ok. pass_line.
Qed.

(** A name that is not in the directory. *)
Lemma open_missing k scr sched s :
  runs (bare f0 f1) scr k → s ∈ syserr_texts → zlen s ≤ 31 →
  take 5 s ≠ codes "stdin" → take 5 s ≠ codes "stdou" → (s = [] ∨ list_find (λ n, n = s) ns = None) →
  returns (ece391_open y kesp kebp (lit s) (k, sched)) (λ '((k', rest), r),
    rest = sched ∧ r = -1 ∧ runs (bare f0 f1) scr k').
Proof.
  intros Hr Hs Hz H1 H2 Hmiss.
  eapply returns_mono; [by apply (open_running y kesp kebp ns Hy lit syserr_texts k0 sto rdy Hlit (bare f0 f1) scr f k sched s)|].
  intros [[k' rest] r] [-> Hres]. split; [done|].
  assert (open_spec (kmem k) f ns (bare f0 f1) s = (bare f0 f1, -1)) as Eo.
  { unfold open_spec. rewrite !decide_False by done. destruct s; [done|].
    destruct Hmiss as [?|Hmiss]; [done|]. by rewrite Hmiss. }
  change (text_of s) with s in Hres. by rewrite Eo in Hres.
Qed.

Lemma open_passes :
  list_find (λ n, n = codes "helloo") ns = None → list_find (λ n, n = codes "shel") ns = None →
  passes (err_open y kesp kebp lit) "err_open: PASS".
Proof.
  intros Hh Hsh k scr sched Hr. unfold err_open.
  eapply returns_bind.
  { apply (open_missing k scr sched (codes "helloo") Hr); [by_decide|cbn; lia|done|done|by right]. }
  intros [[k1 rest] r] (-> & -> & Hr1). rewrite expect_refused, bind_Ok. eapply returns_bind.
  { apply (open_missing k1 scr sched (codes "shel") Hr1); [by_decide|cbn; lia|done|done|by right]. }
  intros [[k2 rest] r] (-> & -> & Hr2). rewrite expect_refused, bind_Ok. eapply returns_bind.
  { apply (open_missing k2 scr sched [] Hr2); [by_decide|cbn; lia|done|done|by left]. }
  intros [[k3 rest] r] (-> & -> & Hr3). rewrite expect_refused, bind_Ok. pass_line.
Qed.

(** err_open_lots: [a] slots opened, or [a] of the six closed again. *)
Definition filled (x : file) (a b c : nat) : table :=
  Some f0 :: Some f1 :: replicate a None ++ replicate b (Some x) ++ replicate c None.

Lemma filled_open x b :
  (b < 6)%nat → first_free (filled x 0 b (6 - b)) = Some (2 + b)%nat ∧
  <[(2 + b)%nat := Some x]> (filled x 0 b (6 - b)) = filled x 0 (S b) (6 - S b).
Proof. intros Hb. do 6 (destruct b as [|b]; [done|]). lia. Qed.

Lemma filled_full x : first_free (filled x 0 6 0) = None.
Proof. done. Qed.

Lemma filled_close x a :
  (a < 6)%nat → close_spec (filled x a (6 - a) 0) (Z.of_nat (2 + a)) = (filled x (S a) (6 - S a) 0, 0).
Proof. intros Ha. do 6 (destruct a as [|a]; [done|]). lia. Qed.

Context (i : nat) (Hdot : list_find (λ n, n = codes ".") ns = Some (i, codes ".")).

Definition dot_file : file := entry_file k0 i (codes ".").

Lemma open_dot t scr k :
  runs t scr k →
  open_spec (kmem k) f ns t (codes ".") =
    match first_free t with Some n => (<[n := Some dot_file]> t, Z.of_nat n) | None => (t, -1) end.
Proof. intros Hr. by apply (open_entry y ns lit syserr_texts k0 sto rdy t scr f k). Qed.

Lemma open_dots k scr sched :
  runs (filled dot_file 0 0 6) scr k →
  returns (whileM (λ '(p, i, cnt),
      if i <? 7 then
        '(p, r) ← ece391_open y kesp kebp (lit (codes ".")) p;
        Ok (inl (p, i + 1, if -1 =? r then cnt + 1 else cnt))
      else Ok (inr (p, cnt))) ((k, sched), 0, 0))
    (λ '((k', rest), cnt), rest = sched ∧ cnt = 1 ∧ runs (filled dot_file 0 6 0) scr k').
Proof.
  intros Hr. apply whileM_total with
    (I := λ '((k', rest), i, cnt), rest = sched ∧ 0 ≤ i ≤ 7 ∧ cnt = (if i =? 7 then 1 else 0) ∧
       runs (filled dot_file 0 (Z.to_nat (Z.min i 6)) (6 - Z.to_nat (Z.min i 6))) scr k')
    (V := λ '(p, i, cnt), 7 - i).
  - by split_and!; try lia.
  - lia.
  - intros [[[k1 rest] j] cnt] (-> & Hj & -> & Hr1). destruct (Z.ltb_spec j 7) as [Hlt|]; cycle 1.
    { replace j with 7 in * by lia. by apply returns_Ok. }
    eapply returns_bind.
    { by apply (open_running y kesp kebp ns Hy lit syserr_texts k0 sto rdy Hlit _ scr f k1 sched (codes ".") Hr1); [by_decide|]. }
    intros [[k2 rest] r] [-> Hres]. unfold text_of, text_literal in Hres; rewrite (open_dot _ scr k1 Hr1) in Hres. apply returns_Ok.
    rewrite (proj2 (Z.eqb_neq j 7)) by lia. split; [|lia]. destruct (decide (j = 6)) as [->|Hne].
    + change (first_free (filled dot_file 0 (Z.to_nat (Z.min 6 6)) (6 - Z.to_nat (Z.min 6 6)))) with (@None nat) in Hres.
      destruct Hres as [-> Hr2]. by split_and!.
    + destruct (filled_open dot_file (Z.to_nat (Z.min j 6)) ltac:(lia)) as [Hff Hins].
      rewrite Hff, Hins in Hres. destruct Hres as [-> Hr2].
      rewrite (proj2 (Z.eqb_neq (-1) _)), (proj2 (Z.eqb_neq (j + 1) 7)) by lia.
      split_and!; [done|lia|lia|done|].
      by replace (Z.to_nat (Z.min (j + 1) 6)) with (S (Z.to_nat (Z.min j 6))) by lia.
Qed.

Lemma close_dots k scr sched :
  runs (filled dot_file 0 6 0) scr k →
  returns (whileM (λ '(p, i),
      if i <? 8 then '(p, _) ← ece391_close y kesp kebp i p; Ok (inl (p, i + 1))
      else Ok (inr p)) ((k, sched), 2))
    (λ '(k', rest), rest = sched ∧ runs (bare f0 f1) scr k').
Proof.
  intros Hr. apply whileM_total with
    (I := λ '((k', rest), j), rest = sched ∧ 2 ≤ j ≤ 8 ∧
       runs (filled dot_file (Z.to_nat (j - 2)) (6 - Z.to_nat (j - 2)) 0) scr k')
    (V := λ '(p, j), 8 - j).
  - by split_and!; try lia.
  - lia.
  - intros [[k1 rest] j] (-> & Hj & Hr1). destruct (Z.ltb_spec j 8) as [Hlt|]; cycle 1.
    { replace j with 8 in * by lia. by apply returns_Ok. }
    eapply returns_bind; [by apply (close_running y kesp kebp ns Hy lit syserr_texts k0 sto rdy Hlit _ scr f k1 sched j Hr1); lia|].
    intros [[k2 rest] r] [-> Hres]. apply returns_Ok.
    pose proof (filled_close dot_file (Z.to_nat (j - 2)) ltac:(lia)) as Hcl.
    replace (Z.of_nat (2 + Z.to_nat (j - 2))) with j in Hcl by lia.
    rewrite Hcl in Hres. destruct Hres as [_ Hr2]. split; [|lia].
    split_and!; [done|lia|lia|]. by replace (Z.to_nat (j + 1 - 2)) with (S (Z.to_nat (j - 2))) by lia.
Qed.

Lemma open_lots_passes : passes (err_open_lots y kesp kebp lit) "err_open_lots: PASS".
Proof.
  intros k scr sched Hr. unfold err_open_lots.
  eapply returns_bind; [by apply (open_dots k scr sched)|].
  intros [[k1 rest] cnt] (-> & -> & Hr1). eapply returns_bind; [by apply close_dots|].
  intros [k2 rest] [-> Hr2]. change (1 =? 1) with true. cbv iota.
  eapply returns_bind.
  { apply (puts_running y kesp kebp ns Hy lit syserr_texts k0 sto rdy Hlit (bare f0 f1) scr f k2 sched
      (line_of "err_open_lots: PASS") Hr2). by_decide. }
  intros [k3 rest] (-> & Hr3 & _). by apply returns_Ok.
Qed.

(** A write to the keyboard calls address 0. *)
Lemma stdin_write_faults k scr sched :
  runs (bare f0 f1) scr k → f_kind f0 = Stdin → 0 < buf < 4294967296 →
  err_stdin_out y kesp kebp lit buf (k, sched) = Err NullCall.
Proof.
  intros [Hw _ _ _ _] K0 Hb. destruct (w_table _ _ _ _ Hw) as [_ Ht].
  destruct (Ht 0%nat (Some f0) eq_refl) as (Hf & Hop & _).
  unfold err_stdin_out, ece391_write, do_call, asm_linkage. cbn [eax]. change (s32 SYS_WRITE) with 4.
  change ((4 <? 1) || (10 <? 4)) with false. cbv iota. unfold dispatch. cbn [eax ebx ecx edx].
  change (s32 SYS_WRITE) with 4. cbv iota. change (s32 (u32 0)) with 0. cbn [fst snd].
  unfold write. change ((0 <? 0) || (7 <? 0)) with false. cbn [orb].
  rewrite (u32_small buf), (proj2 (Z.eqb_neq buf 0)) by lia. cbv zeta.
  change (file_array_at (current_pcb k) (Z.of_nat 0)) with (descriptor k 0) in *.
  rewrite Hf, Hop, (fetch_kind y _ _ Hy), K0. done.
Qed.
End verdicts.

(** ** Properties *)

(** C22: the kernel's error handling as the program ece391syserr.c sees it.
    Started with nothing open, on a directory that has the entry . and neither
    helloo nor shel, seven of its eight tests end with 0, print that they
    passed and leave the program's table as it was: calls on descriptors out of
    range or never opened, opening more files than there are slots, names that
    differ by a character or are empty, pointers outside the program for
    vidmap, and call numbers outside 1 to 10.  The eighth does not end: writing
    to descriptor 0 makes the kernel call address 0. *)
Theorem syserr_verdicts `{PortIO D, Hotkeys D fs} y kesp kebp ns lit buf (k : kernel D) f0 f1 f i sto rdy scr sched :
  tables_ok y → Forall (literal_placed y lit k) syserr_texts → 0 < buf < 4294967296 →
  list_find (λ n, n = codes ".") ns = Some (i, codes ".") →
  list_find (λ n, n = codes "helloo") ns = None → list_find (λ n, n = codes "shel") ns = None →
  running y ns lit syserr_texts k sto rdy (bare f0 f1) scr f k → f_kind f0 = Stdin →
  Forall (λ '(test, name), returns (test (k, sched)) (λ '((k', rest), v), v = 0 ∧ rest = sched ∧
      running y ns lit syserr_texts k sto rdy (bare f0 f1) (show (line_of name) scr) f k'))
    [ (err_neg_fd y kesp kebp lit buf, "err_neg_fd: PASS");
      (err_big_fd y kesp kebp lit buf, "err_big_fd: PASS");
      (err_open_lots y kesp kebp lit, "err_open_lots: PASS");
      (err_open y kesp kebp lit, "err_open: PASS");
      (err_unopened y kesp kebp lit buf, "err_unopened: PASS");
      (err_vidmap y kesp kebp lit, "err_vidmap: PASS");
      (err_syscall_num y kesp kebp lit, "err_syscall_num: PASS") ] ∧
  err_stdin_out y kesp kebp lit buf (k, sched) = Err NullCall.
Proof.
  intros Hy Hlit Hbuf Hdot Hh Hsh Hr K0. split.
  - rewrite !Forall_cons. split_and!; [| | | | | | |done].
    + by eapply neg_fd_passes.
    + by eapply big_fd_passes.
    + by eapply open_lots_passes.
    + by eapply open_passes.
    + by eapply unopened_passes.
    + by eapply vidmap_passes.
    + by eapply syscall_num_passes.
  - by eapply stdin_write_faults.
Qed.

Definition err_mem : mem := prog_mem syserr_texts.
Definition err_kernel : kernel trace := prog_kernel err_mem [].

Lemma err_running :
  running demo_layout prog_names (place syserr_texts) syserr_texts err_kernel [] false prog_table blank_screen
    demo_fs err_kernel.
Proof. apply (prog_running syserr_texts err_mem []); [reflexivity|apply bare_world; by_decide|by_decide]. Qed.

Lemma syserr_verdicts_witness :
  returns (@err_open_lots trace _ demo_hotkeys demo_layout 0 0 (place syserr_texts) (err_kernel, []))
    (λ '((k', rest), v), v = 0 ∧ rest = [] ∧
      running demo_layout prog_names (place syserr_texts) syserr_texts err_kernel [] false prog_table
        (show (line_of "err_open_lots: PASS") blank_screen) demo_fs k') ∧
  @err_stdin_out trace _ demo_hotkeys demo_layout 0 0 (place syserr_texts) 0x8049000 (err_kernel, []) = Err NullCall.
Proof.
  pose proof (@syserr_verdicts trace _ demo_hotkeys demo_layout 0 0 prog_names (place syserr_texts) 0x8049000 err_kernel
    (File Stdin (codes "STDIN") 0 0) (File Stdout (codes "STDOUT") 0 0) demo_fs 1 [] false blank_screen []
    demo_tables_ok ltac:(by_decide) ltac:(lia) ltac:(by_decide) ltac:(by_decide) ltac:(by_decide) err_running eq_refl)
    as [Hall Hfault].
  split; [|exact Hfault]. exact (Forall_lookup_1 _ _ 2%nat _ Hall eq_refl).
Defined.
