(* ===== verification/UserLs.v ===== *)
(** * ece391ls.c, ece391hello.c and ece391testprint.c

    The program that lists the directory, the program that asks for a name,
    and the program that prints a line. *)

From S2P Require Import Prelude Memory LibString Ports Pic Rtc Console Keyboard Paging FileSys.
From S2P Require Import FsScreen Process Syscall Descriptors ReadWrite Typing Calls Exec User UserRun.

(** ** The programs *)

Definition LS_SBUFSIZE := 33.
Definition HELLO_BUFSIZE := 1024.
Definition ASK_NAME := codes "Hi, what's your name? ".

Section programs.
Context `{PortIO D, Hotkeys D fs} (y : layout) (kesp kebp : Z).
Context (lit : list Z → Z) (buf : Z).
Implicit Types p : @proc D.

Definition ls p : res (proc * Z) :=
  '(p, fd) ← ece391_open y kesp kebp (lit (codes ".")) p;
  if -1 =? fd then
    p ← ece391_fdputs y kesp kebp 1 (lit (line_of "directory open failed")) p; Ok (p, 2)
  else
    whileM (λ p,
      '(p, cnt) ← ece391_read y kesp kebp fd buf (LS_SBUFSIZE - 1) p;
      if 0 =? cnt then Ok (inr (p, 0))
      else if -1 =? cnt then
        p ← ece391_fdputs y kesp kebp 1 (lit (line_of "directory entry read failed")) p;
        Ok (inr (p, 3))
      else
        let p := store (buf + cnt) 10 p in
        '(p, r) ← ece391_write y kesp kebp 1 buf (cnt + 1) p;
        if -1 =? r then Ok (inr (p, 3)) else Ok (inl p)) p.

Definition hello p : res (proc * Z) :=
  p ← ece391_fdputs y kesp kebp 1 (lit ASK_NAME) p;
  '(p, cnt) ← ece391_read y kesp kebp 0 buf (HELLO_BUFSIZE - 1) p;
  if -1 =? cnt then
    p ← ece391_fdputs y kesp kebp 1 (lit (line_of "Can't read name from keyboard.")) p; Ok (p, 3)
  else
    let p := store (buf + cnt) 0 p in
    p ← ece391_fdputs y kesp kebp 1 (lit (codes "Hello, ")) p;
    p ← ece391_fdputs y kesp kebp 1 buf p;
    Ok (p, 0).

Definition testprint p : res (proc * Z) :=
  p ← ece391_fdputs y kesp kebp 1
        (lit (line_of "Hello, if this ran, the program was correct. Yay!")) p;
  Ok (p, 0).
End programs.

(** ** ls *)

(** What ls prints for the name [n], and for a directory of [num] entries. *)
Definition ls_line (n : list Z) : list Z := take 32 n ++ [10].
Definition ls_output (ns : list (list Z)) (num : Z) : list Z :=
  concat (ls_line <$> take (Z.to_nat num) ns).

Lemma ls_output_next ns j n :
  0 ≤ j → ns !! Z.to_nat j = Some n → ls_output ns (j + 1) = ls_output ns j ++ ls_line n.
Proof.
  intros Hj Hn. unfold ls_output. replace (Z.to_nat (j + 1)) with (S (Z.to_nat j)) by lia.
  rewrite (take_S_r _ _ _ Hn), fmap_app, concat_app. cbn [fmap list_fmap concat]. by rewrite app_nil_r.
Qed.

(** The buffer after the newline is stored. *)
Lemma listed_line m buf l :
  bytes m buf SBUFSIZE = listed l →
  bytes (wr m (buf + Z.min 32 (zlen l)) 10) buf (Z.min 32 (zlen l) + 1) = ls_line l.
Proof.
  intros Hb. set (c := Z.min 32 (zlen l)). rewrite bytes_snoc by lia. unfold ls_line. f_equal.
  - rewrite (bytes_ext _ m _ buf) by (intros; apply rd_wr_ne; lia).
    unfold SBUFSIZE in Hb. replace 33 with (c + (33 - c)) in Hb by lia. rewrite bytes_app in Hb by lia.
    unfold listed in Hb. apply app_inj_1 in Hb as [Hb _]; [done|].
    pose proof (zlen_bytes m buf c ltac:(lia)). rewrite length_take. lia.
  - by rewrite rd_wr_eq.
Qed.

Section ls_spec.
Context `{PortIO D, Hotkeys D fs} (y : layout) (kesp kebp : Z) (ns : list (list Z)).
Context (Hy : tables_ok y) (lit : list Z → Z) (buf : Z) (Hbuf : 0 < buf < 4294967296).
Context (k0 : kernel D) (sto : list Z) (rdy : bool).
Context (Hlit : Forall (literal_placed y lit k0) [codes "."]).
Context (Hub : user_buffer y k0 buf SBUFSIZE) (Hap : apart (lit (codes "."), 2) (buf, SBUFSIZE)).
Implicit Types k : kernel D.

Local Notation runs t scr f k := (running y ns lit [codes "."] k0 sto rdy t scr f k).
Local Notation num := (s32 (dentries_num (boot_block_at y) (kmem k0))).

Lemma ls_buffer : harmless y lit [codes "."] k0 (buf, SBUFSIZE).
Proof. apply buffer_harmless; [done|]. by constructor. Qed.

(** One round: the next name on a line of its own. *)
Lemma ls_write t scr f k sched l :
  runs t scr f k → bytes (kmem k) buf SBUFSIZE = listed l →
  returns (ece391_write y kesp kebp 1 buf (Z.min 32 (zlen l) + 1) (store (buf + Z.min 32 (zlen l)) 10 (k, sched)))
    (λ '((k', rest), r), rest = sched ∧ r = Z.min 32 (zlen l) + 1 ∧ runs t (show (ls_line l) scr) f k').
Proof.
  intros Hrun Hb. unfold store, pmem. cbn [fst snd].
  apply (write_running y kesp kebp ns Hy lit [codes "."] k0 sto rdy Hlit); [|done|by apply listed_line|lia].
  eapply (store_running y ns lit [codes "."] k0 sto rdy t scr f k buf SBUFSIZE); [done|exact ls_buffer|done|].
  eapply wr_changes; [by left|]. unfold inside, SBUFSIZE. cbn. lia.
Qed.

Context (i : nat) (Hdot : list_find (λ n, n = codes ".") ns = Some (i, codes ".")).
Context (Htype : rd32 (kmem k0) (filetype_at (dentry_at (kfs (term k0)) (Z.of_nat i))) = 1).
Context (Hnum : num ≤ 63) (Hnames : Forall (λ n, n ≠ []) (take (Z.to_nat num) ns)).

Lemma dot_directory : f_kind (entry_file k0 i (codes ".")) = Directory.
Proof. unfold entry_file. by rewrite Htype. Qed.

Lemma ls_prints t n scr f k sched :
  runs t scr f k → first_free t = Some n → entry_counter f = 0 → 0 ≤ num →
  returns (ls y kesp kebp lit buf (k, sched)) (λ '((k', rest), v), v = 0 ∧ rest = sched ∧
    ∃ f' pos, entry_counter f' = 0 ∧
      runs (<[n := Some (set_pos pos (entry_file k0 i (codes ".")))]> t) (show (ls_output ns num) scr) f' k').
Proof.
  intros Hrun Hfree Hc Hnum0. pose proof (ru_world _ _ _ _ _ _ _ _ _ _ _ Hrun) as Hw.
  destruct (first_free_lt t n (proj1 (w_table _ _ _ _ Hw)) (w_standard _ _ _ _ Hw) Hfree) as [Hn Hnone].
  unfold ls. set (x := entry_file k0 i (codes ".")) in *. eapply returns_bind.
  { by apply (open_running y kesp kebp ns Hy lit [codes "."] k0 sto rdy Hlit t scr f k sched (codes ".") Hrun); [left|]. }
  intros [[k1 rest] fd] [-> Hop].
  unfold text_of, text_literal in Hop. rewrite (open_entry y ns lit [codes "."] k0 sto rdy t scr f k i (codes ".") Hrun) in Hop by done.
  rewrite Hfree in Hop. destruct Hop as [-> Hrun1]. rewrite (proj2 (Z.eqb_neq (-1) _)) by lia.
  fold x in Hrun1.
  apply whileM_total with
    (I := λ p : @proc D, snd p = sched ∧ 0 ≤ entry_counter (kfs (term (fst p))) ≤ num ∧ ∃ f pos,
       runs (<[n := Some (set_pos pos x)]> t) (show (ls_output ns (entry_counter f)) scr) f (fst p))
    (V := λ p : @proc D, 64 - entry_counter (kfs (term (fst p)))).
  - split; [done|]. cbn [fst]. rewrite (ru_fs _ _ _ _ _ _ _ _ _ _ _ Hrun1), Hc. split; [lia|].
    exists f, 0. rewrite Hc. exact Hrun1.
  - cbn [fst]. rewrite (ru_fs _ _ _ _ _ _ _ _ _ _ _ Hrun1). lia.
  - intros [k2 rest] (Hrest & Hj & f2 & pos & Hrun2). cbn [fst snd] in *. subst rest.
    pose proof (ru_fs _ _ _ _ _ _ _ _ _ _ _ Hrun2) as Hf2. rewrite Hf2 in Hj |- *.
    assert (<[n := Some (set_pos pos x)]> t !! n = Some (Some (set_pos pos x))) as Hx
      by (apply list_lookup_insert_eq; by eapply lookup_lt_Some).
    eapply returns_bind.
    { apply (directory_running y kesp kebp ns Hy lit [codes "."] k0 sto rdy Hlit _ _ f2 k2 sched n _ buf (LS_SBUFSIZE - 1)
        Hrun2 Hx dot_directory); (done || exact ls_buffer || (unfold LS_SBUFSIZE; lia)). }
    intros [[k3 rest] r] Hres.
    destruct (Z.leb_spec num (entry_counter f2)) as [Hend|Hmore].
    + destruct Hres as (-> & -> & _ & _ & f3 & pos3 & Hc3 & Hrun3).
      rewrite list_insert_insert_eq in Hrun3. apply returns_Ok.
      split_and!; [done|done|]. replace (entry_counter f2) with num in Hrun3 by lia. by exists f3, pos3.
    + cbv zeta in Hres. set (nm := ns !!! Z.to_nat (entry_counter f2)) in *.
      destruct Hres as (-> & -> & Hb & _ & f3 & pos3 & Hc3 & Hrun3). rewrite list_insert_insert_eq in Hrun3.
      destruct (fs_names _ _ _ _ (io_fs _ _ _ _ (w_image _ _ _ _ Hw))) as [Hlen _].
      assert (ns !! Z.to_nat (entry_counter f2) = Some nm) as Hnm
        by (apply list_lookup_lookup_total_lt; lia).
      assert (nm ≠ []) as Hne.
      { apply (Forall_lookup_1 _ _ (Z.to_nat (entry_counter f2)) _ Hnames). by rewrite lookup_take_lt by lia. }
      assert (0 < zlen nm) by (destruct nm; [done|cbn; lia]).
      rewrite (proj2 (Z.eqb_neq 0 _)), (proj2 (Z.eqb_neq (-1) _)) by lia. cbv zeta.
      eapply returns_bind; [exact (ls_write _ _ f3 k3 sched nm Hrun3 Hb)|].
      intros [[k4 rest] r] (-> & -> & Hrun4). rewrite (proj2 (Z.eqb_neq (-1) _)) by lia.
      pose proof (ru_fs _ _ _ _ _ _ _ _ _ _ _ Hrun4) as Hf4. apply returns_Ok. cbn [fst snd]. rewrite Hf4, Hc3.
      split; [|lia]. split_and!; [done|lia|lia|]. exists f3, pos3.
      by rewrite Hc3, (ls_output_next ns _ nm), show_app by (done || lia).
Qed.
End ls_spec.

(** ** hello *)

Section hello_spec.
Context `{PortIO D, !KeyQueue D, Hotkeys D fs} (y : layout) (kesp kebp : Z) (ns : list (list Z)).
Context (Hy : tables_ok y) (lit : list Z → Z) (buf : Z) (Hbuf : 0 < buf < 4294965000).
Implicit Types k : kernel D.

Local Notation texts := [ASK_NAME; codes "Hello, "].

(** What hello leaves on the screen for the line [l]. *)
Definition greeting (l : list Z) : list Z := codes "Hello, " ++ l ++ [10].

(** The answer, once the line [l] is a string in the buffer. *)
Lemma greet t scr f k0 k rest l :
  Forall (literal_placed y lit k0) texts → user_buffer y k0 buf HELLO_BUFSIZE →
  running y ns lit texts k0 [] false t scr f k → cstr (kmem k) buf l → zlen l ≤ 129 →
  returns (p ← ece391_fdputs y kesp kebp 1 (lit (codes "Hello, ")) (k, rest);
           p ← ece391_fdputs y kesp kebp 1 buf p; Ok (p, 0))
    (λ '((k', rest'), v), v = 0 ∧ rest' = rest ∧ queue k' = queue k ∧
      running y ns lit texts k0 [] false t (show (codes "Hello, " ++ l) scr) f k').
Proof.
  intros Hlit Hub Hrun Hl Hz.
  destruct (puts_running y kesp kebp ns Hy lit texts k0 [] false Hlit _ _ f k rest
    (codes "Hello, ") Hrun ltac:(right; by left)) as ([k4 s4] & E4 & -> & Hrun4 & _ & Hout4 & _).
  pose proof (fdputs_queue y kesp kebp ns Hy _ _ k4 _ _ _ (ru_world _ _ _ _ _ _ _ _ _ _ _ Hrun) E4) as Hq4.
  rewrite E4, bind_Ok. assert (cstr (kmem k4) buf l) as Hl4.
  { eapply (cstr_frame VIDEO page_size); [exact Hout4| |exact Hl]. destruct Hub as [_ Hub].
    pose proof (apart_sym _ _ (Forall_lookup_1 _ _ 5%nat _ Hub eq_refl)) as Hv.
    unfold apart, disjoint_regions, HELLO_BUFSIZE in *. cbn in *. lia. }
  destruct (fdputs_running y kesp kebp ns Hy lit texts k0 [] false Hlit _ _ f k4 rest buf l Hrun4 ltac:(lia) Hl4
    ltac:(lia)) as ([k5 s5] & E5 & -> & Hrun5 & _).
  pose proof (fdputs_queue y kesp kebp ns Hy _ _ k5 _ _ _ (ru_world _ _ _ _ _ _ _ _ _ _ _ Hrun4) E5) as Hq5.
  rewrite E5, bind_Ok. apply returns_Ok. split_and!; [done|done|by rewrite Hq5, Hq4|]. by rewrite show_app.
Qed.

Lemma hello_prints t scr f f0 k keys rest q t1 :
  Forall (literal_placed y lit k) texts → user_buffer y k buf HELLO_BUFSIZE →
  Forall (λ s, apart (lit s, zlen s + 1) (buf, HELLO_BUFSIZE)) texts →
  running y ns lit texts k [] false t scr f k → t !! 0%nat = Some (Some f0) → f_kind f0 = Stdin →
  fs_sound (kfs (term k)) (kmem k) →
  types k (Tty (show ASK_NAME scr) [] [] false 0) keys q t1 → Forall (λ c, c ≠ 0) (typed t1) →
  returns (hello y kesp kebp lit buf (k, replicate (S (length keys)) IRQ_KEYBOARD ++ rest))
    (λ '((k', rest'), v), v = 0 ∧ rest' = rest ∧ queue k' = q ∧
      world y ns (<[0%nat := Some (set_pos (u32 (f_pos f0 + zlen (typed t1) + 1)) f0)]> t) k' ∧
      ∃ e, represents (kcon (term k')) (kline (term k'))
        (Tty (show (greeting (typed t1)) (show_char 10 (t_screen t1))) [] [] false e)).
Proof.
  intros Hlit Hub Hap Hrun Hf0 K0 Hsnd Hty Hnz.
  assert (harmless y lit texts k (buf, HELLO_BUFSIZE)) as Hh by by apply buffer_harmless.
  unfold hello. eapply returns_bind2.
  { eapply (ask_running y kesp kebp ns Hy lit texts k Hlit t scr f k f0 ASK_NAME buf (HELLO_BUFSIZE - 1) HELLO_BUFSIZE
      keys rest q t1 Hrun); unfold HELLO_BUFSIZE; done || (by left) || lia. }
  intros [[k2 s2] r] (-> & -> & Hr & Hb & Hq2 & _ & _ & Hrun2). rewrite (proj2 (Z.eqb_neq (-1) _)) by lia. cbv zeta.
  set (l := typed t1 ++ [10]) in *. assert (zlen l = zlen (typed t1) + 1) as Hz by (unfold l; rewrite length_app; cbn; lia).
  destruct (put_running y ns lit texts k [] false _ _ _ k2 rest buf HELLO_BUFSIZE (zlen (typed t1) + 1) 0 Hrun2 Hh Hub)
    as [-> Hrun3]; [unfold HELLO_BUFSIZE; lia|]. set (m3 := wr _ _ _) in *.
  assert (cstr m3 buf l) as Hl.
  { unfold m3. rewrite <- Hz. apply (terminated _ _ l []).
    - rewrite app_nil_r, Hz, Z.add_0_r. exact Hb.
    - unfold l. apply Forall_app. split; [done|by repeat constructor]. }
  eapply returns_mono; [apply (greet _ (show_char 10 (t_screen t1)) f k (set_mem m3 k2) rest l Hlit Hub Hrun3 Hl); lia|].
  intros [[k5 s5] v] (-> & -> & Hq5 & [Hw5 _ Htty5 _ _]).
  split_and!; [done|done|by rewrite Hq5|by rewrite Z.add_assoc in Hw5|exact Htty5].
Qed.
End hello_spec.

(** ** Properties *)

(** C12: ls ends with 0 and prints the name of every entry of the directory, cut
    to 32 characters, on a line of its own, in the order of the directory, when
    no name is empty.  It leaves the directory open in the slot it used, and the
    kernel's position in the directory back at the first entry, so the next
    program that lists it starts there. *)
Theorem ls_lists `{PortIO D, Hotkeys D fs} y kesp kebp ns lit buf (k : kernel D) sto rdy i t n scr f sched :
  tables_ok y → 0 < buf < 4294967296 → Forall (literal_placed y lit k) [codes "."] →
  user_buffer y k buf SBUFSIZE → apart (lit (codes "."), 2) (buf, SBUFSIZE) →
  running y ns lit [codes "."] k sto rdy t scr f k →
  list_find (λ n, n = codes ".") ns = Some (i, codes ".") →
  rd32 (kmem k) (filetype_at (dentry_at (kfs (term k)) (Z.of_nat i))) = 1 →
  first_free t = Some n → entry_counter f = 0 →
  let num := s32 (dentries_num (boot_block_at y) (kmem k)) in
  0 ≤ num ≤ 63 → Forall (λ n, n ≠ []) (take (Z.to_nat num) ns) →
  returns (ls y kesp kebp lit buf (k, sched)) (λ '((k', rest), v), v = 0 ∧ rest = sched ∧
    ∃ f' pos, entry_counter f' = 0 ∧
      running y ns lit [codes "."] k sto rdy
        (<[n := Some (set_pos pos (entry_file k i (codes ".")))]> t) (show (ls_output ns num) scr) f' k').
Proof.
  intros Hy Hbuf Hlit Hub Hap Hrun Hdot Htype Hfree Hc num Hnum Hnames.
  by eapply (ls_prints y kesp kebp ns Hy lit buf Hbuf k sto rdy Hlit Hub Hap i Hdot Htype ltac:(lia) Hnames
    t n scr f k sched Hrun Hfree Hc); lia.
Qed.

Definition ls_texts : list (list Z) := [codes "."].
Definition ls_mem : mem := prog_mem ls_texts.
Definition ls_kernel : kernel trace := prog_kernel ls_mem [].

Lemma ls_running :
  running demo_layout prog_names (place ls_texts) ls_texts ls_kernel [] false prog_table blank_screen demo_fs ls_kernel.
Proof. apply (prog_running ls_texts ls_mem []); [reflexivity|apply bare_world; by_decide|by_decide]. Qed.

Lemma ls_lists_witness :
  returns (@ls trace _ demo_hotkeys demo_layout 0 0 (place ls_texts) 0x8049000 (ls_kernel, []))
    (λ '((k', rest), v), v = 0 ∧ rest = [] ∧ ∃ f' pos, entry_counter f' = 0 ∧
      running demo_layout prog_names (place ls_texts) ls_texts ls_kernel [] false
        (<[2%nat := Some (set_pos pos (File Directory [46] 0 0))]> prog_table)
        (show [97; 10; 46; 10] blank_screen) f' k').
Proof.
  pose proof (@ls_lists trace _ demo_hotkeys demo_layout 0 0 prog_names (place ls_texts) 0x8049000
    ls_kernel [] false 1 prog_table 2 blank_screen demo_fs [] demo_tables_ok ltac:(lia)
    ltac:(by_decide) ltac:(split; [lia|by_decide]) ltac:(by_decide) ls_running ltac:(by_decide) ltac:(by_decide)
    eq_refl eq_refl ltac:(split; by_decide) ltac:(by_decide)) as Hls.
  assert (entry_file ls_kernel 1 (codes ".") = File Directory [46] 0 0) as Hx by by_decide.
  assert (ls_output prog_names (s32 (dentries_num (boot_block_at demo_layout) (kmem ls_kernel)))
    = [97; 10; 46; 10]) as Ho by by_decide.
  rewrite Hx in Hls. cbv zeta in Hls. rewrite Ho in Hls. exact Hls.
Defined.

(** C11: hello, from the keys to the screen.  The program prints its question and
    waits; the scancodes in the keyboard controller's queue, one interrupt each,
    are edited into a line; ENTER ends the wait, the line crosses the terminal,
    the descriptor table and the gate into the program's buffer, and the program
    greets with exactly the line as edited, ends with 0 and leaves the keys
    behind ENTER in the queue. *)
Theorem hello_greets `{PortIO D, !KeyQueue D, Hotkeys D fs} y kesp kebp ns lit buf (k : kernel D) t scr f f0 keys
    rest q t1 :
  tables_ok y → 0 < buf < 4294965000 →
  Forall (literal_placed y lit k) [ASK_NAME; codes "Hello, "] → user_buffer y k buf HELLO_BUFSIZE →
  Forall (λ s, apart (lit s, zlen s + 1) (buf, HELLO_BUFSIZE)) [ASK_NAME; codes "Hello, "] →
  running y ns lit [ASK_NAME; codes "Hello, "] k [] false t scr f k →
  t !! 0%nat = Some (Some f0) → f_kind f0 = Stdin → fs_sound (kfs (term k)) (kmem k) →
  types k (Tty (show ASK_NAME scr) [] [] false 0) keys q t1 → Forall (λ c, c ≠ 0) (typed t1) →
  returns (hello y kesp kebp lit buf (k, replicate (S (length keys)) IRQ_KEYBOARD ++ rest))
    (λ '((k', rest'), v), v = 0 ∧ rest' = rest ∧ queue k' = q ∧
      world y ns (<[0%nat := Some (set_pos (u32 (f_pos f0 + zlen (typed t1) + 1)) f0)]> t) k' ∧
      ∃ e, represents (kcon (term k')) (kline (term k'))
        (Tty (show (greeting (typed t1)) (show_char 10 (t_screen t1))) [] [] false e)).
Proof. intros. by eapply hello_prints. Qed.

Definition hello_texts : list (list Z) := [ASK_NAME; codes "Hello, "].

(** The keys h, o, backspace, i and ENTER; one more waits behind them. *)
Definition hello_mem : mem := prog_mem hello_texts.
Definition hello_kernel : kernel trace :=
  prog_kernel hello_mem [0x23; 0x18; 0x0E; 0x17; 0x1C; 0x1E].

Definition hello_typed : tty :=
  Tty (show_char 105 (unshow (show (ASK_NAME ++ codes "ho") blank_screen))) (codes "hi") [] false 2.

Lemma hello_running :
  running demo_layout prog_names (place hello_texts) hello_texts hello_kernel [] false prog_table
    blank_screen demo_fs hello_kernel.
Proof.
  apply (prog_running hello_texts hello_mem [0x23; 0x18; 0x0E; 0x17; 0x1C; 0x1E]);
    [reflexivity|apply bare_world; by_decide|by_decide].
Qed.

Lemma hello_types :
  types hello_kernel (Tty (show ASK_NAME blank_screen) [] [] false 0) [0x23; 0x18; 0x0E; 0x17] [0x1E] hello_typed.
Proof.
  split_and!; [unfold scancodes; repeat constructor; lia|exists no_mods; vm_compute; reflexivity|].
  vm_compute. reflexivity.
Qed.

Lemma hello_greets_witness :
  returns (@hello trace _ (quiet_hotkeys trace fs) demo_layout 0 0 (place hello_texts) 0x8049000
      (hello_kernel, replicate 5 IRQ_KEYBOARD ++ []))
    (λ '((k', rest'), v), v = 0 ∧ rest' = [] ∧ queue k' = [0x1E] ∧
      world demo_layout prog_names
        (<[0%nat := Some (File Stdin (codes "STDIN") 0 3)]> prog_table) k' ∧
      ∃ e, represents (kcon (term k')) (kline (term k'))
        (Tty (show (codes "Hello, hi" ++ [10]) (show_char 10 (t_screen hello_typed))) [] [] false e)).
Proof.
  pose proof (@hello_greets trace _ _ (quiet_hotkeys trace fs) demo_layout 0 0 prog_names (place hello_texts) 0x8049000
    hello_kernel prog_table blank_screen demo_fs (File Stdin (codes "STDIN") 0 0) [0x23; 0x18; 0x0E; 0x17] []
    [0x1E] hello_typed demo_tables_ok ltac:(lia) ltac:(by_decide) ltac:(split; [lia|by_decide]) ltac:(by_decide)
    hello_running eq_refl eq_refl I hello_types ltac:(by_decide)) as Hx.
  assert (greeting (typed hello_typed) = codes "Hello, hi" ++ [10]) as Hg by by_decide.
  assert (set_pos (u32 (0 + zlen (typed hello_typed) + 1)) (File Stdin (codes "STDIN") 0 0) =
    File Stdin (codes "STDIN") 0 3) as Hp by by_decide.
  cbn [f_pos] in Hx. rewrite Hg, Hp in Hx. exact Hx.
Defined.
