(* ===== verification/UserCount.v ===== *)
(** * ece391counter.c

    The program that asks which of three tests to run and counts up to the
    test's number. *)

From S2P Require Import Prelude Memory LibString Ports Pic Rtc Console Keyboard Paging FileSys.
From S2P Require Import FsScreen Process Syscall Descriptors ReadWrite Typing Calls Exec UserLib User UserRun.

(** ** The program *)

Definition COUNTER_BUFSIZE := 1024.
Definition ASK_NUMBER := line_of "Enter the Test Number: (0): 100, (1): 10000, (2): 100000".
Definition NO_NUMBER := line_of "Can't read the number from keyboard.".
Definition WRONG_CHOICE := line_of "Wrong Choice!".

(** The switch. *)
Definition test_max (c : Z) : Z :=
  match c with 48 => 100 | 49 => 10000 | 50 => 100000 | _ => 0 end.

Section program.
Context `{PortIO D, Hotkeys D fs} (y : layout) (kesp kebp : Z).
Context (lit : list Z → Z) (buf : Z).
Implicit Types p : @proc D.

(** A number on a line of its own. *)
Definition print_number (v : Z) p : res proc :=
  m ← ece391_itoa (pmem p) v buf 10;
  p ← ece391_fdputs y kesp kebp 1 buf (set_mem m (fst p), snd p);
  ece391_fdputs y kesp kebp 1 (lit [10]) p.

Definition count_to (max : Z) p : res (proc * Z) :=
  whileM (λ '(p, i),
    if i <? max then
      p ← print_number (u32 (i + 1)) p; Ok (inl (p, u32 (i + 1)))
    else Ok (inr (p, 0))) (p, 0).

Definition counter_main p : res (proc * Z) :=
  p ← ece391_fdputs y kesp kebp 1 (lit ASK_NUMBER) p;
  '(p, cnt) ← ece391_read y kesp kebp 0 buf (COUNTER_BUFSIZE - 1) p;
  let cnt := u32 cnt in
  if u32 (-1) =? cnt then p ← ece391_fdputs y kesp kebp 1 (lit NO_NUMBER) p; Ok (p, 3)
  else
    let p := store (buf + cnt) 0 p in
    len ← ece391_strlen (pmem p) buf;
    let c := rd (pmem p) buf in
    if (2 <? len) || ((len =? 2) && ((c <? 48) || (50 <? c))) then
      p ← ece391_fdputs y kesp kebp 1 (lit WRONG_CHOICE) p; Ok (p, 0)
    else count_to (test_max c) p.
End program.

(** ** What it prints *)

(** How far the line [l] makes it count; [None] is a wrong choice. *)
Definition chosen (l : list Z) : option Z :=
  match l with
  | [] => Some 0
  | [48] => Some 100
  | [49] => Some 10000
  | [50] => Some 100000
  | _ => None
  end.

Definition number_line (i : Z) : list Z := numeral 10 i ++ [10].
Definition numbers (max : Z) : list Z := concat (number_line <$> seqZ 1 max).

Definition count_answer (l : list Z) : list Z :=
  match chosen l with Some max => numbers max | None => WRONG_CHOICE end.

Lemma numbers_snoc i : 0 ≤ i → numbers (i + 1) = numbers i ++ number_line (i + 1).
Proof.
  intros Hi. unfold numbers. rewrite seqZ_app, fmap_app, concat_app by lia. f_equal.
  replace (1 + i) with (i + 1) by lia. rewrite (seqZ_cons (i + 1) 1), (seqZ_nil _ (Z.pred 1)) by lia.
  cbn. apply app_nil_r.
Qed.

(** The test of the program on the buffer is [chosen] on the line. *)
Lemma choice_decides l :
  let len := zlen (l ++ [10]) in
  let c := List.hd 0 (l ++ [10]) in
  if (2 <? len) || ((len =? 2) && ((c <? 48) || (50 <? c))) then chosen l = None
  else chosen l = Some (test_max c).
Proof.
  destruct l as [|a [|b l]]; [done| |].
  - cbn. destruct (Z.ltb_spec a 48), (Z.ltb_spec 50 a); cbn; try (assert (a = 48 ∨ a = 49 ∨ a = 50)
      as [-> | [-> | ->]] by lia; done); unfold chosen; repeat case_match; try done; lia.
  - cbn. rewrite (proj2 (Z.ltb_lt 2 _)) by (rewrite length_app; cbn; lia). cbn. by repeat case_match.
Qed.

Section counter_spec.
Context `{PortIO D, !KeyQueue D, Hotkeys D fs} (y : layout) (kesp kebp : Z) (ns : list (list Z)).
Context (Hy : tables_ok y) (lit : list Z → Z) (buf : Z) (Hbuf : 0 < buf < 4294967296) (k0 : kernel D).

Local Notation texts := [ASK_NUMBER; WRONG_CHOICE; [10]].
Context (Hlit : Forall (literal_placed y lit k0) texts) (Hub : user_buffer y k0 buf COUNTER_BUFSIZE).
Context (Hap : Forall (λ s, apart (lit s, zlen s + 1) (buf, COUNTER_BUFSIZE)) texts).
Implicit Types k : kernel D.

Local Notation runs t scr f k := (running y ns lit texts k0 [] false t scr f k).

(** A number written into the buffer and printed. *)
Lemma number_prints t scr f k sched v :
  runs t scr f k → 0 ≤ v < 4294967296 →
  returns (print_number y kesp kebp lit buf v (k, sched))
    (λ '(k', rest), rest = sched ∧ queue k' = queue k ∧ runs t (show (number_line v) scr) f k').
Proof.
  intros Hrun Hv. unfold print_number, pmem. cbn [fst snd]. rewrite ece391_itoa_same. pose proof (numeral_length 10 v) as Hlen.
  eapply returns_bind; [by apply itoa_numeral; lia|]. intros m Hm.
  assert (harmless y lit texts k0 (buf, COUNTER_BUFSIZE)) as Hh by by apply buffer_harmless.
  assert (changes_only [(buf, COUNTER_BUFSIZE)] (kmem k) m) as Hch.
  { intros a Ha. apply Forall_cons in Ha as [Ha _]. pose proof (wr_bytes_same_except _ _ _ _ Hm) as Hse. apply Hse.
    unfold inside, COUNTER_BUFSIZE in Ha. cbn in Ha. rewrite length_app. cbn. lia. }
  pose proof (store_running y ns lit texts k0 [] false t scr f k buf COUNTER_BUFSIZE m Hrun Hh Hub Hch) as Hrun1.
  assert (cstr m buf (numeral 10 v)) as Hc.
  { eapply wr_bytes_cstr; [|exact Hm]. eapply Forall_impl; [by apply numeral_text; lia|]. intros c Hc. cbn in Hc. lia. }
  destruct (fdputs_running y kesp kebp ns Hy lit texts k0 [] false Hlit t scr f (set_mem m k) sched buf (numeral 10 v)
    Hrun1 Hbuf Hc ltac:(lia)) as ([k2 s2] & E2 & -> & Hrun2 & _).
  pose proof (fdputs_queue y kesp kebp ns Hy t (set_mem m k) k2 _ _ _ (ru_world _ _ _ _ _ _ _ _ _ _ _ Hrun1) E2) as Hq2.
  rewrite E2, bind_Ok.
  destruct (puts_running y kesp kebp ns Hy lit texts k0 [] false Hlit t _ f k2 sched [10] Hrun2 ltac:(do 2 right; by left))
    as ([k3 s3] & E3 & -> & Hrun3 & _).
  pose proof (fdputs_queue y kesp kebp ns Hy t k2 k3 _ _ _ (ru_world _ _ _ _ _ _ _ _ _ _ _ Hrun2) E3) as Hq3.
  rewrite E3. apply returns_Ok. split_and!; [done|by rewrite Hq3, Hq2|]. unfold number_line. by rewrite show_app.
Qed.

Lemma count_prints t scr f k sched max :
  runs t scr f k → 0 ≤ max < 2147483648 →
  returns (count_to y kesp kebp lit buf max (k, sched))
    (λ '((k', rest), v), v = 0 ∧ rest = sched ∧ queue k' = queue k ∧ runs t (show (numbers max) scr) f k').
Proof.
  intros Hrun Hmax. unfold count_to. apply whileM_total with
    (I := λ '((k', rest), i), 0 ≤ i ≤ max ∧ rest = sched ∧ queue k' = queue k ∧ runs t (show (numbers i) scr) f k')
    (V := λ '(p, i), max - i).
  - split_and!; [lia|lia|done|done|exact Hrun].
  - lia.
  - intros [[k1 rest] i] (Hi & -> & Hq1 & Hr1). destruct (Z.ltb_spec i max); cycle 1.
    { apply returns_Ok. replace max with i by lia. by split_and!. }
    rewrite u32_small by lia. eapply returns_bind; [by apply (number_prints t _ f k1 sched (i + 1) Hr1); lia|].
    intros [k2 rest] (-> & Hq2 & Hr2). apply returns_Ok. split; [|lia].
    rewrite <- show_app, <- numbers_snoc in Hr2 by lia. split_and!; [lia|lia|done|by rewrite Hq2|exact Hr2].
Qed.

Lemma counter_prints t scr f f0 k keys rest q t1 :
  runs t scr f k → t !! 0%nat = Some (Some f0) → f_kind f0 = Stdin → fs_sound (kfs (term k)) (kmem k) →
  types k (Tty (show ASK_NUMBER scr) [] [] false 0) keys q t1 → Forall (λ c, c ≠ 0) (typed t1) →
  returns (counter_main y kesp kebp lit buf (k, replicate (S (length keys)) IRQ_KEYBOARD ++ rest))
    (λ '((k', rest'), v), v = 0 ∧ rest' = rest ∧ queue k' = q ∧
      runs (<[0%nat := Some (set_pos (u32 (f_pos f0 + (zlen (typed t1) + 1))) f0)]> t)
        (show (count_answer (typed t1)) (show_char 10 (t_screen t1))) f k').
Proof.
  intros Hrun Hf0 K0 Hsnd Hty Hnz.
  assert (harmless y lit texts k0 (buf, COUNTER_BUFSIZE)) as Hh by by apply buffer_harmless.
  unfold counter_main. eapply returns_bind2.
  { eapply (ask_running y kesp kebp ns Hy lit texts k0 Hlit t scr f k f0 ASK_NUMBER buf (COUNTER_BUFSIZE - 1)
      COUNTER_BUFSIZE keys rest q t1 Hrun); unfold COUNTER_BUFSIZE; done || (by left) || lia. }
  intros [[k2 s2] r] (-> & -> & Hr & Hb & Hq2 & _ & _ & Hrun2). rewrite (u32_small (zlen _ + 1)) by lia.
  change (u32 (-1)) with 4294967295. rewrite (proj2 (Z.eqb_neq 4294967295 _)) by lia. cbv zeta.
  set (l := typed t1 ++ [10]) in *. assert (zlen l = zlen (typed t1) + 1) as Hz by (unfold l; rewrite length_app; cbn; lia).
  destruct (put_running y ns lit texts k0 [] false _ _ _ k2 rest buf COUNTER_BUFSIZE (zlen (typed t1) + 1) 0 Hrun2 Hh Hub)
    as [-> Hrun3]; [unfold COUNTER_BUFSIZE; lia|]. set (k3 := set_mem _ k2) in *.
  assert (cstr (kmem k3) buf l) as Hl.
  { unfold k3, kmem. cbn. rewrite <- Hz. apply (terminated _ _ l []).
    - rewrite app_nil_r, Hz, Z.add_0_r. exact Hb.
    - unfold l. apply Forall_app. split; [done|by repeat constructor]. }
  unfold pmem. cbn [fst]. change (ece391_strlen (kmem k3) buf) with (strlen (kmem k3) buf).
  rewrite (strlen_cstr _ _ l Hl), bind_Ok, (cstr_head _ _ _ Hl) by lia.
  pose proof (choice_decides (typed t1)) as Hch. cbv zeta in Hch. fold l in Hch. unfold count_answer.
  assert (queue k3 = q) as Hq3 by exact Hq2.
  destruct (_ || _); rewrite Hch.
  - destruct (puts_running y kesp kebp ns Hy lit texts k0 [] false Hlit _ _ f k3 rest WRONG_CHOICE Hrun3
      ltac:(right; by left)) as ([k4 s4] & E4 & -> & Hrun4 & _).
    pose proof (fdputs_queue y kesp kebp ns Hy _ k3 k4 _ _ _ (ru_world _ _ _ _ _ _ _ _ _ _ _ Hrun3) E4) as Hq4.
    rewrite E4, bind_Ok. apply returns_Ok. by rewrite Hq4.
  - eapply returns_mono; [apply (count_prints _ _ f k3 rest _ Hrun3)|].
    + unfold test_max. repeat case_match; lia.
    + intros [[k4 s4] v] (-> & -> & Hq4 & Hrun4). by rewrite Hq4.
Qed.
End counter_spec.

(** ** Properties *)

(** C6: counter, from the keys to the screen.  The program asks for a test; the
    line that is typed, ENTER included, is read back, and an empty line ends
    the program at once, 0, 1 and 2 make it print the numbers from 1 to 100,
    10000 and 100000 in decimal, one per line, and any other line makes it say
    that the choice is wrong.  It ends with 0 in every case, with what it opened
    and the keys behind ENTER as they were. *)
Theorem counter_counts `{PortIO D, !KeyQueue D, Hotkeys D fs} y kesp kebp ns lit buf (k : kernel D) t scr f f0 keys
    rest q t1 :
  tables_ok y → 0 < buf < 4294967296 →
  let texts := [ASK_NUMBER; WRONG_CHOICE; [10]] in
  Forall (literal_placed y lit k) texts → user_buffer y k buf COUNTER_BUFSIZE →
  Forall (λ s, apart (lit s, zlen s + 1) (buf, COUNTER_BUFSIZE)) texts →
  running y ns lit texts k [] false t scr f k →
  t !! 0%nat = Some (Some f0) → f_kind f0 = Stdin → fs_sound (kfs (term k)) (kmem k) →
  types k (Tty (show ASK_NUMBER scr) [] [] false 0) keys q t1 → Forall (λ c, c ≠ 0) (typed t1) →
  returns (counter_main y kesp kebp lit buf (k, replicate (S (length keys)) IRQ_KEYBOARD ++ rest))
    (λ '((k', rest'), v), v = 0 ∧ rest' = rest ∧ queue k' = q ∧
      running y ns lit texts k [] false (<[0%nat := Some (set_pos (u32 (f_pos f0 + (zlen (typed t1) + 1))) f0)]> t)
        (show (count_answer (typed t1)) (show_char 10 (t_screen t1))) f k').
Proof.
  intros Hy Hbuf texts Hlit Hub Hap Hrun Hf0 K0 Hsnd Hty Hnz.
  exact (counter_prints y kesp kebp ns Hy lit buf Hbuf k Hlit Hub Hap t scr f f0 k keys rest q t1 Hrun Hf0 K0 Hsnd Hty Hnz).
Qed.

Definition counter_texts : list (list Z) := [ASK_NUMBER; WRONG_CHOICE; [10]].

(** The keys 3, backspace, 0 and ENTER. *)
Definition counter_mem : mem := prog_mem counter_texts.
Definition counter_kernel : kernel trace := prog_kernel counter_mem [0x04; 0x0E; 0x0B; 0x1C].

Definition counter_typed : tty :=
  Tty (show_char 48 (unshow (show (ASK_NUMBER ++ codes "3") blank_screen))) (codes "0") [] false 1.

Lemma counter_running :
  running demo_layout prog_names (place counter_texts) counter_texts counter_kernel [] false prog_table
    blank_screen demo_fs counter_kernel.
Proof.
  apply (prog_running counter_texts counter_mem [0x04; 0x0E; 0x0B; 0x1C]);
    [reflexivity|apply bare_world; by_decide|by_decide].
Qed.

Lemma counter_types :
  types counter_kernel (Tty (show ASK_NUMBER blank_screen) [] [] false 0) [0x04; 0x0E; 0x0B] [] counter_typed.
Proof.
  split_and!; [unfold scancodes; repeat constructor; lia|exists no_mods; vm_compute; reflexivity|].
  vm_compute. reflexivity.
Qed.

Lemma counter_counts_witness :
  returns (@counter_main trace _ (quiet_hotkeys trace fs) demo_layout 0 0 (place counter_texts) 0x8049000
      (counter_kernel, replicate 4 IRQ_KEYBOARD ++ []))
    (λ '((k', rest'), v), v = 0 ∧ rest' = [] ∧ queue k' = [] ∧
      running demo_layout prog_names (place counter_texts) counter_texts counter_kernel [] false
        (<[0%nat := Some (File Stdin (codes "STDIN") 0 2)]> prog_table)
        (show (numbers 100) (show_char 10 (t_screen counter_typed))) demo_fs k').
Proof.
  assert (count_answer (typed counter_typed) = numbers 100) as Ha by reflexivity.
  assert (set_pos (u32 (0 + (zlen (typed counter_typed) + 1))) (File Stdin (codes "STDIN") 0 0) =
    File Stdin (codes "STDIN") 0 2) as Hp by by_decide.
  pose proof (@counter_counts trace _ _ (quiet_hotkeys trace fs) demo_layout 0 0 prog_names (place counter_texts)
    0x8049000 counter_kernel prog_table blank_screen demo_fs (File Stdin (codes "STDIN") 0 0) [0x04; 0x0E; 0x0B] []
    [] counter_typed demo_tables_ok ltac:(lia) ltac:(by_decide) ltac:(split; [lia|by_decide]) ltac:(by_decide)
    counter_running eq_refl eq_refl I counter_types ltac:(by_decide)) as Hx.
  cbn [f_pos] in Hx. rewrite Ha, Hp in Hx. exact Hx.
Defined.
