(* ===== verification/UserExec.v ===== *)
(** * A program that executes others

    The execute wrapper of the user library, across the start and the halt of
    the child, and what a process relies on while it waits. *)

From S2P Require Import Prelude Memory LibString Ports Pic Rtc Console Keyboard Paging FileSys.
From S2P Require Import FsScreen Process Syscall Descriptors ReadWrite Typing Calls Exec ExecSpec ExecProps.
From S2P Require Import Execute Frame User UserRun.

(** ** The wrapper *)

Section wrapper.
Context `{PortIO D, Hotkeys D fs} (y : layout) (kesp kebp : Z).
Implicit Types p : @proc D.

(** The machine code of a program file runs from the frame it is entered with
    to its own main's return: a parameter. *)
Context (program : iret_frame → @proc D → res (@proc D * Z)).

(** DO_CALL for execute.  A call that starts a child comes back when the child
    halts into the frame of this execute. *)
Definition ece391_execute (command : Z) p : res (@proc D * Z) :=
  let call := Registers SYS_EXECUTE (u32 command) 0 0 0 0 0 in
  '(k, x, rest) ← asm_linkage y call kesp kebp (snd p) (fst p);
  match x with
  | To_caller r => Ok ((k, rest), s32 (eax r))
  | To_program f =>
      '(k, x, rest) ← start y 0 0 (program f) (k, rest);
      match x with
      | To_frame sp bp v =>
          if (sp =? kesp) && (bp =? kebp) then
            match gate_pop v (gate_push call) with
            | Some r => Ok ((k, rest), s32 (eax r))
            | None => Err OutOfBounds
            end
          else Err OutOfBounds
      | _ => Err OutOfBounds
      end
  | To_frame _ _ _ => Err OutOfBounds
  end.
End wrapper.

(** ** What halt keeps of the terminal *)

Lemma halt_frame {D} y status (k k' : kernel D) c :
  rd (kmem k) (pid_at (current_pcb k)) ≠ 1 → halt y status k = Ok (k', c) →
  kcon (term k') = set_vmem (kmem k') (kcon (term k)) ∧ kline (term k') = kline (term k) ∧
  kmods (term k') = kmods (term k) ∧ kfs (term k') = kfs (term k) ∧ ∃ x, pages k' = load_cr3 x (pages k).
Proof.
  intros Hpid. unfold halt. rewrite (proj2 (Z.eqb_neq _ 1)) by done. cbv zeta.
  set (x := u32 _). destruct (update_pages_spec y (λ s, Ok (load_cr3 x s)) (set_counter (counter k - 1) k) _ eq_refl)
    as (k1 & -> & E1 & _). rewrite bind_Ok. intros [= <- _]. change (kmem (set_esp0 _ k1)) with (kmem k1).
  split_and!; try (rewrite E1; done). exists x. rewrite E1. done.
Qed.

(** ** The other calls keep the processes *)

Lemma do_call_frame `{PortIO D, Hotkeys D fs} y kesp kebp number a b c (k k' : kernel D) sched rest v :
  plain_call number → do_call y kesp kebp number a b c (k, sched) = Ok ((k', rest), v) → same_process k k'.
Proof.
  intros Hn. assert (s32 number = number) as Es.
  { unfold plain_call in Hn. rewrite !elem_of_cons, elem_of_nil in Hn. apply s32_small. lia. }
  unfold do_call, asm_linkage. cbn [eax fst snd]. rewrite Es.
  assert ((number <? 1) || (10 <? number) = false) as ->.
  { unfold plain_call in Hn. rewrite !elem_of_cons, elem_of_nil in Hn. lia. }
  intros ([[k1 x] r1] & E & Hx)%res_bind_Ok. apply res_bind_Ok in E as ([[k2 c2] r2] & E & Hc).
  destruct (dispatch_frame y (Registers number (u32 a) (u32 b) (u32 c) 0 0 0) kesp kebp sched k k2 c2 r2)
    as [Hs [w ->]]; [by cbn [eax]; rewrite Es|exact E|].
  cbn in Hc. injection Hc as <- <- <-. by injection Hx as <- _ _.
Qed.

Lemma fdputs_frame `{PortIO D, Hotkeys D fs} y kesp kebp fd s (k k' : kernel D) sched rest :
  ece391_fdputs y kesp kebp fd s (k, sched) = Ok (k', rest) → same_process k k'.
Proof.
  intros (len & _ & ([[k1 r1] v] & E & [= <- _])%res_bind_Ok)%res_bind_Ok.
  eapply do_call_frame; [|exact E]. unfold plain_call, SYS_WRITE. by_decide.
Qed.

Lemma bytes_head m m' a n : bytes m' a n = bytes m a n → 0 < n → rd m' a = rd m a.
Proof.
  intros Hb Hn. pose proof (f_equal (λ l, l !! Z.to_nat 0) Hb) as Hx. cbn beta in Hx.
  rewrite !lookup_bytes, !Z.add_0_r in Hx by lia. congruence.
Qed.

Section parent.
Context `{PortIO D, !KeyQueue D, Hotkeys D fs} (y : layout) (kesp kebp : Z) (ns : list (list Z)).
Context (Hy : tables_ok y) (Hsym : symbols_ok (paging_symbols y)).
Context (lit : list Z → Z) (texts : list (list Z)) (k0 : kernel D).
Context (Hlit : Forall (literal_placed y lit k0) texts) (n : Z).
Implicit Types k : kernel D.

Local Notation runs t scr f k := (running y ns lit texts k0 [] false t scr f k).

(** The memory, the program's own page apart, that may have changed when an
    execute comes back: the screen, the child's control block, and the locals
    of execute and open. *)
Definition child_scratch : list (Z * Z) :=
  (VIDEO, page_size) :: (pcb_at (n + 1), 1424) :: (open_temp y, 40) :: exec_locals y.

(** Process [n] can execute programs: its strings, STDIN and STDOUT among them,
    its control block and the kernel's tables are apart from that memory. *)
Record parent_ok : Prop := {
  pa_counter : counter k0 = n ∧ 1 ≤ n ≤ 5;
  pa_STDIN : codes "STDIN" ∈ texts ∧ lit (codes "STDIN") = lit_STDIN y;
  pa_STDOUT : codes "STDOUT" ∈ texts ∧ lit (codes "STDOUT") = lit_STDOUT y;
  pa_separate : separate (exec_regions y (kmem k0) (kfs (term k0)) n);
  pa_low : Forall (λ r, 0 < fst r ∧ fst r + snd r ≤ USER_PROG_START) (exec_regions y (kmem k0) (kfs (term k0)) n);
  pa_tables : Forall (λ r, Forall (apart r) ((pcb_at n, 1424) :: fixed_regions y (kmem k0) (kfs (term k0)))) child_scratch;
  pa_video : Forall (apart (VIDEO, page_size)) ((pcb_at (n + 1), 1424) :: exec_locals y);
  pa_texts : Forall (λ s, Forall (apart (lit s, zlen s + 1)) child_scratch) texts
}.
Context (Hpar : parent_ok).

Lemma running_counter t scr f k : runs t scr f k → counter k = n.
Proof. intros Hrun. rewrite (sf_counter _ _ _ (ru_same _ _ _ _ _ _ _ _ _ _ _ Hrun)). apply Hpar. Qed.

Lemma running_current t scr f k : runs t scr f k → current_pcb k = pcb_at n.
Proof. intros Hrun. unfold current_pcb. by rewrite (running_counter _ _ _ _ Hrun). Qed.

(** Such a process has what execute needs in memory. *)
Lemma running_exec_mem t scr f k : runs t scr f k → exec_mem y ns n (kmem k) (kfs (term k)).
Proof.
  intros Hrun. pose proof (ru_world _ _ _ _ _ _ _ _ _ _ _ Hrun) as Hw.
  assert (exec_regions y (kmem k) (kfs (term k)) n = exec_regions y (kmem k0) (kfs (term k0)) n) as Er.
  { unfold exec_regions. f_equal.
    exact (f_equal (take 2) (sf_regions _ _ _ (ru_same _ _ _ _ _ _ _ _ _ _ _ Hrun))). }
  constructor; rewrite ?Er; [apply Hw| | |apply Hw|apply Hpar|apply Hpar].
  - destruct (pa_STDIN Hpar) as [Hin <-]. exact (running_text _ _ _ _ _ _ _ _ _ _ _ _ Hrun Hin).
  - destruct (pa_STDOUT Hpar) as [Hin <-]. exact (running_text _ _ _ _ _ _ _ _ _ _ _ _ Hrun Hin).
Qed.

(** Its state after a call that changed only that memory, and the terminal. *)
Lemma running_resume t scr scr' f e k k' :
  runs t scr f k → changes_only child_scratch (kmem k) (kmem k') → fs_same (kfs (term k)) (kfs (term k')) →
  counter k' = counter k → represents (kcon (term k')) (kline (term k')) (Tty scr' [] [] false e) →
  runs t scr' (kfs (term k')) k'.
Proof.
  intros Hrun Hc Hf Hcnt Hrep. pose proof Hrun as [Hw Hsame _ Ht _].
  assert (Forall (λ r, Forall (apart r) (fixed_regions y (kmem k) (kfs (term k)))) child_scratch) as Hfix.
  { rewrite (running_fixed _ _ _ _ _ _ _ _ _ _ _ Hrun). eapply Forall_impl; [apply Hpar|].
    intros r Hr. by apply Forall_cons in Hr as [_ Hr]. }
  constructor.
  - apply (world_ext y ns t (set_kfs (kfs (term k')) (set_mem (kmem k') k))); [done|done|done|].
    apply (world_fs y ns t (set_mem (kmem k') k)); [exact Hf|].
    apply (world_spare y ns t k child_scratch); [done|done|].
    rewrite Forall_forall in Hfix |- *. intros r Hr. split; [by apply Hfix|].
    rewrite (running_current _ _ _ _ Hrun). pose proof (pa_tables Hpar) as Ha. rewrite Forall_forall in Ha.
    by destruct (proj1 (Forall_cons _ _ _) (Ha r Hr)) as [? _].
  - eapply same_files_trans; [exact Hsame|]. by apply (same_files_change y ns k k' t child_scratch).
  - by exists e.
  - pose proof (pa_texts Hpar) as Ha. rewrite Forall_forall in Ha, Ht |- *. intros s Hs.
    eapply changes_same_cstr; [exact Hc|by apply Ha|by apply Ht].
  - done.
Qed.

(** What the next execute needs besides: the process on its own directory and
    kernel stack. *)
Record can_execute k : Prop := {
  ce_paging : paging_ok (pages k);
  ce_runs : runs_on y n k;
  ce_stack : on_stack kesp k
}.

Lemma stack_kept k k' :
  on_stack kesp k → counter k' = counter k → bytes (kmem k') (current_pcb k) 12 = bytes (kmem k) (current_pcb k) 12 →
  on_stack kesp k'.
Proof.
  intros Hs Ec Hb Hn0. rewrite Ec in Hn0. destruct (Hs Hn0) as [Hl Hpid]. unfold current_pcb in *. rewrite Ec.
  split; [done|]. etransitivity; [|exact Hpid]. by apply (bytes_head _ _ _ 12).
Qed.

(** Kept by a call that keeps the pages and the head of the control block. *)
Lemma can_execute_kept k k' :
  can_execute k → pages k' = pages k → counter k' = counter k →
  bytes (kmem k') (current_pcb k) 12 = bytes (kmem k) (current_pcb k) 12 → can_execute k'.
Proof.
  intros [Hp Hr Hs] Ep Ec Hb. constructor; [by rewrite Ep|unfold runs_on; by rewrite Ep|by eapply stack_kept].
Qed.

Lemma scratch_spares_block t scr f k m' :
  runs t scr f k → changes_only child_scratch (kmem k) m' →
  bytes m' (current_pcb k) 12 = bytes (kmem k) (current_pcb k) 12.
Proof.
  intros Hrun Hc. rewrite (running_current _ _ _ _ Hrun). eapply changes_same_bytes; [exact Hc|].
  eapply Forall_impl; [apply Hpar|]. intros r Hr. apply Forall_cons in Hr as [Hr _]. apply apart_sym in Hr.
  eapply apart_part; [exact Hr|lia..].
Qed.

(** Printing, for a process that goes on to execute. *)
Lemma puts_ready t scr f k sched s :
  runs t scr f k → can_execute k → s ∈ texts →
  returns (ece391_fdputs y kesp kebp 1 (lit s) (k, sched)) (λ '(k', rest), rest = sched ∧
    runs t (show s scr) f k' ∧ can_execute k' ∧ kmods (term k') = kmods (term k) ∧ queue k' = queue k).
Proof.
  intros Hrun Hcan Hs. pose proof (ru_world _ _ _ _ _ _ _ _ _ _ _ Hrun) as Hw.
  destruct (puts_running y kesp kebp ns Hy lit texts k0 [] false Hlit t scr f k sched s Hrun Hs)
    as ([k' rest] & E & -> & Hrun' & _ & Hout & Hm).
  pose proof (fdputs_frame _ _ _ _ _ _ _ _ _ E) as Hsame. pose proof (fdputs_queue y kesp kebp ns Hy _ _ _ _ _ _ Hw E) as Hq.
  rewrite E. apply returns_Ok. split_and!; [done|done| |done|done].
  apply (can_execute_kept k); [done|apply Hsame|apply Hsame|]. by eapply block_kept.
Qed.

(** ** A refused command *)

Lemma execute_refused t scr f e k sched command l args :
  runs t scr f k → represents (kcon (term k)) (kline (term k)) (Tty scr [] [] false e) → can_execute k →
  0 < command < 4294967296 → command_ok y ns n command l args k → refused ns l k →
  ∀ program, returns (ece391_execute y kesp kebp program command (k, sched)) (λ '((k', rest), v),
    v = -1 ∧ rest = sched ∧ runs t scr (kfs (term k')) k' ∧ can_execute k' ∧
    kmods (term k') = kmods (term k) ∧ queue k' = queue k).
Proof.
  intros Hrun Hrep Hcan Hcmd Hco Href program. unfold ece391_execute, asm_linkage, dispatch. cbn [eax ebx fst snd].
  change (s32 SYS_EXECUTE) with 2. change ((2 <? 1) || (10 <? 2)) with false. cbv iota. rewrite u32_small by lia.
  destruct (execute_refuses y ns n command l args kesp kebp k Hco Href) as ([k' c] & -> & -> & (f' & Hf' & Ek) & Hc).
  rewrite !bind_Ok. apply returns_Ok. cbn [gate_pop gate_push drop app eax].
  assert (changes_only child_scratch (kmem k) (kmem k')) as Hch.
  { eapply changes_only_mono; [exact Hc|]. unfold child_scratch. clear. set_solver. }
  split_and!; [reflexivity|done| | | |].
  - apply (running_resume t scr scr f e k k' Hrun); [done|rewrite Ek; exact Hf'|by rewrite Ek|].
    apply (represents_mem k k' (kmem k') (exec_locals y)); [done|done| |by rewrite Ek|by rewrite Ek].
    by destruct (proj1 (Forall_cons _ _ _) (pa_video Hpar)).
  - apply (can_execute_kept k); [done|by rewrite Ek|by rewrite Ek|by eapply scratch_spares_block].
  - by rewrite Ek.
  - by rewrite Ek.
Qed.

(** ** A child that runs and halts *)

(** What a child that prints [out] leaves between its start in [k1] and its
    halt in [k2], besides what [child_ran] says: it has written its own page,
    the kernel's scratch and the screen only, and taken no keys. *)
Record child_left (out : list Z) k1 k2 : Prop := {
  cl_ran : child_ran y n k1 k2;
  cl_paging : paging_ok (pages k2);
  cl_memory : changes_only (window :: child_scratch) (kmem k1) (kmem k2);
  cl_files : fs_same (kfs (term k1)) (kfs (term k2));
  cl_screen scr e : represents (kcon (term k1)) (kline (term k1)) (Tty scr [] [] false e) →
    ∃ e', represents (kcon (term k2)) (kline (term k2)) (Tty (show out scr) [] [] false e');
  cl_keys : kmods (term k2) = kmods (term k1) ∧ queue k2 = queue k1
}.

(** The program file [content], started with [args], prints [out] and returns
    [status]. *)
Definition runs_as (program : iret_frame → @proc D → res (@proc D * Z)) (content args out : list Z) (status : Z) : Prop :=
  ∀ k k1 sched, started y (n + 1) kesp kebp (entry_of content) args content k k1 →
    returns (program (user_frame (entry_of content)) (k1, sched))
      (λ '((k2, rest), v), v = status ∧ rest = sched ∧ child_left out k1 k2).

Lemma execute_ran t scr f e k sched program command l kf args out status :
  runs t scr f k → represents (kcon (term k)) (kline (term k)) (Tty scr [] [] false e) → can_execute k →
  0 ≤ kesp < 4294967296 → 0 ≤ kebp < 4294967296 →
  0 < command < 4294967296 → command_ok y ns n command l args k →
  names_inode ns (kmem k) (kfs (term k)) l kf → executable (content (kmem k) (kfs (term k)) kf) →
  runs_as program (content (kmem k) (kfs (term k)) kf) args out status →
  returns (ece391_execute y kesp kebp program command (k, sched)) (λ '((k', rest), v),
    v = u8 status ∧ rest = sched ∧ runs t (show out scr) (kfs (term k')) k' ∧ can_execute k' ∧
    kmods (term k') = kmods (term k) ∧ queue k' = queue k).
Proof.
  intros Hrun Hrep [Hpg Hruns Hst] Hesp Hebp Hcmd Hco Hf Hx Hprog.
  pose proof (running_counter _ _ _ _ Hrun) as Hcnt. destruct (pa_counter Hpar) as [_ Hn].
  unfold ece391_execute, asm_linkage at 1, dispatch. cbn [eax ebx fst snd].
  change (s32 SYS_EXECUTE) with 2. change ((2 <? 1) || (10 <? 2)) with false. cbv iota. rewrite u32_small by lia.
  destruct (execute_spec y ns n Hy Hsym command l kf args kesp kebp k Hco Hf Hx Hpg Hesp Hebp Hst)
    as ([k1 c] & -> & -> & Hs). rewrite !bind_Ok.
  destruct (Hprog k k1 sched Hs) as ([[k2 rest] v] & Ep & -> & -> & Hleft).
  unfold start. rewrite Ep, bind_Ok. cbn [fst snd]. unfold asm_linkage, dispatch. cbn [eax ebx].
  change (s32 SYS_HALT) with 1. change ((1 <? 1) || (10 <? 1)) with false. cbv iota.
  assert (u8 (u32 status) = u8 status) as -> by (unfold u8, u32; zlia).
  destruct Hs as [_ _ _ _ _ Hdir _ _ [Bp Bpp Bsp Bbp _ _] Hsaved Hmem Hfs (Hmods & Hline & Hcon)].
  pose proof (program_frame_user y n (pages k) Hsym (proj1 Hruns) ltac:(lia)) as Hframe.
  pose proof Hleft as [Hran Hpg2 Hmem2 Hfs2 Hscr2 [Hmods2 Hq2]].
  destruct (halt_spec y n Hsym Hn k k1 k2 (u8 status) kesp kebp Hruns) as ([k3 c] & E3 & -> & C1 & C2 & C3 & C4 & C5);
    [apply Hdir; lia|exact (Hsaved (frame_of n) Hframe ltac:(unfold frame_of; lia))|done| |done|done|done|].
  { rewrite Bpp. lia. }
  rewrite E3, !bind_Ok, !Z.eqb_refl. cbn [andb gate_pop gate_push drop app eax]. apply returns_Ok.
  assert (u8 (u8 status) = u8 status) as Hu by (unfold u8; zlia). rewrite Hu in *.
  destruct (halt_frame y (u8 status) k2 k3 (Resume kesp kebp (u8 status))) as (Hcon3 & Hline3 & Hmods3 & Hfs3 & x & Hpg3); [|exact E3|].
  { unfold current_pcb, pid_at. rewrite (cr_counter _ _ _ _ Hran).
    rewrite (bytes_head _ _ _ 12 (cr_block _ _ _ _ Hran)) by lia. unfold pid_at in Bp. lia. }
  assert (changes_only child_scratch (kmem k) (kmem k3)) as Hch.
  { intros a Ha. destruct (in_window a) eqn:Ew; [by apply C4|].
    assert (¬ inside window a) as Hnw by (intros Hi%in_window_inside; congruence).
    transitivity (rd (kmem k2) a); [apply C5; by constructor|].
    transitivity (rd (kmem k1) a); [apply Hmem2; by constructor|]. apply Hmem. constructor; [done|].
    unfold child_scratch in Ha. apply Forall_cons in Ha as [_ [? [_ ?]%Forall_cons]%Forall_cons]. by constructor. }
  assert (apart (VIDEO, page_size) window) as Hvw by by_decide.
  assert (∃ e1, represents (kcon (term k1)) (kline (term k1)) (Tty scr [] [] false e1)) as [e1 Hrep1].
  { exists e. apply (represents_mem k k1 _ _ _ Hrep Hmem); [by constructor; [|apply Hpar]|done|done]. }
  destruct (Hscr2 scr e1 Hrep1) as [e2 Hrep2].
  assert (counter k3 = counter k) as Ec by congruence.
  split_and!; [|done| | |by rewrite Hmods3, Hmods2|].
  - rewrite u32_small, s32_small; pose proof (u8_range status); lia.
  - apply (running_resume t scr (show out scr) f e2 k k3 Hrun Hch); [|done|].
    + rewrite Hfs3. by eapply fs_same_trans.
    + apply (represents_mem k2 k3 _ _ _ Hrep2 C5); [by constructor|done|done].
  - constructor; [|exact C3|].
    + rewrite Hpg3. by destruct Hpg2.
    + apply (stack_kept k k3); [done|done|]. by eapply scratch_spares_block.
  - transitivity (queue k2); [unfold queue; by rewrite Hcon3|]. rewrite Hq2. unfold queue. by rewrite Hcon.
Qed.
End parent.
