(* ===== verification/UserPong.v ===== *)
(** * ece391pingpong.c: a letter that moves at the pace of the clock

    The program never ends: it is its set-up, and a round for each letter, as
    many as wanted.  A frame is printed, then a tick of the clock is awaited. *)

From S2P Require Import Prelude Memory LibString Ports Pic Rtc Console Keyboard Paging FileSys.
From S2P Require Import FsScreen Process Syscall Descriptors ReadWrite Typing Calls Exec UserLib User UserRun.

(** ** The program

    The bounds are macros without parentheses, and keep their meaning where
    they are used. *)

Definition SCREENWIDTH := 79.
Definition ENDING := 2.
Definition BUFMAX := SCREENWIDTH + ENDING.
Definition START := 1.
Definition STARTLOOP := START + 1.
Definition LOOPMAX := BUFMAX - ENDING - 1.
Definition STARTCHAR := 65.
Definition ENDCHAR := 90.

Section program.
Context `{PortIO D, Hotkeys D fs} (y : layout) (kesp kebp : Z) (lit : list Z → Z).
Context (buf ret_val garbage : Z).
Implicit Types p : @proc D.

Definition fill_spaces (from to : Z) (m : mem) : res mem :=
  while (λ '(m, i), if i <? to then inl (wr m (buf + i) 32, i + 1) else inr (Ok m)) (m, from).

Definition with_mem (m : mem) p : @proc D := (set_mem m (fst p), snd p).

(** Up to the loop: the walls, and 32 ticks a second. *)
Definition pingpong_setup p : res (proc * Z) :=
  m ← fill_spaces 0 BUFMAX (pmem p);
  let m := wr m (buf + (BUFMAX - 1)) 0 in
  let m := wr m (buf + (BUFMAX - 2)) 10 in
  let m := wr m (buf + (BUFMAX - 3)) 124 in
  let m := wr m (buf + START) 124 in
  '(p, rtc_fd) ← ece391_open y kesp kebp (lit (codes "rtc")) (with_mem m p);
  let p := with_mem (wr32 (pmem p) ret_val 32) p in
  '(p, r) ← ece391_write y kesp kebp rtc_fd ret_val 4 p;
  Ok (with_mem (wr32 (pmem p) ret_val (u32 r)) p, rtc_fd).

Definition draw_char (rtc_fd curchar j : Z) p : res proc :=
  m ← fill_spaces STARTLOOP LOOPMAX (pmem p);
  let p := with_mem (wr m (buf + j) curchar) p in
  p ← ece391_fdputs y kesp kebp 1 buf p;
  '(p, _) ← ece391_read y kesp kebp rtc_fd garbage 4 p;
  Ok p.

(** The body of the endless loop. *)
Definition pingpong_round (rtc_fd : Z) (x : proc * Z) : res (proc * Z) :=
  let '(p, curchar) := x in
  p ← whileM (λ '(p, j),
    if j <? LOOPMAX then p ← draw_char rtc_fd curchar j p; Ok (inl (p, j + 1)) else Ok (inr p)) (p, STARTLOOP);
  p ← whileM (λ '(p, j),
    if STARTLOOP <=? j then p ← draw_char rtc_fd curchar j p; Ok (inl (p, j - 1)) else Ok (inr p)) (p, LOOPMAX - 1);
  Ok (p, if curchar =? ENDCHAR then STARTCHAR else u8 (curchar + 1)).

(** [n] rounds of it. *)
Fixpoint pingpong_rounds (n : nat) (rtc_fd : Z) (x : proc * Z) : res (proc * Z) :=
  match n with
  | O => Ok x
  | S n => x ← pingpong_round rtc_fd x; pingpong_rounds n rtc_fd x
  end.
End program.

(** ** The frames *)

Definition frame (c j : Z) : list Z :=
  [32; 124] ++ replicate (Z.to_nat (j - 2)) 32 ++ [c] ++ replicate (Z.to_nat (77 - j)) 32 ++ [124; 10].

(** The letter moves out, from column 2 to 77, and back. *)
Definition out_columns : list Z := seqZ 2 76.
Definition round_frames (c : Z) : list Z := concat (frame c <$> out_columns ++ reverse out_columns).

Definition letter (i : nat) : Z := STARTCHAR + Z.of_nat i mod 26.
Definition pong_output (n : nat) : list Z := concat (round_frames ∘ letter <$> seq 0 n).

(** The buffer: walls, and anything between them. *)
Definition walled (m : mem) (buf : Z) : Prop :=
  rd m buf = 32 ∧ rd m (buf + 1) = 124 ∧ rd m (buf + 78) = 124 ∧ rd m (buf + 79) = 10 ∧ rd m (buf + 80) = 0.

Lemma fill_spaces_spec buf from to m :
  0 ≤ from ≤ to → to < 4294967296 →
  returns (fill_spaces buf from to m) (overlay (buf + from) (to - from) (λ _, 32) m).
Proof.
  intros Hf Ht. unfold fill_spaces. apply while_total with
    (I := λ '(mk, i), from ≤ i ≤ to ∧ overlay (buf + from) (i - from) (λ _, 32) m mk) (V := λ '(mk, i), to - i).
  - split; [lia|]. rewrite Z.sub_diag. apply overlay_0.
  - lia.
  - intros [mk i] [Hi Hov]. destruct (Z.ltb_spec i to); cycle 1.
    { apply returns_Ok. by replace to with i by lia. }
    split; [|lia]. split; [lia|]. replace (i + 1 - from) with (i - from + 1) by lia.
    apply overlay_wr; [done|lia|lia|done].
Qed.

(** A stretch of one character. *)
Lemma bytes_stretch m a n v : (∀ i, 0 ≤ i < n → rd m (a + i) = v) → bytes m a n = replicate (Z.to_nat n) v.
Proof.
  intros Hv. apply list_eq. intros i. destruct (decide (i < Z.to_nat n)%nat) as [Hi|Hi].
  - replace i with (Z.to_nat (Z.of_nat i)) at 1 by lia. rewrite lookup_bytes, Hv by lia.
    by rewrite lookup_replicate_2.
  - rewrite !lookup_ge_None_2; [done|rewrite length_replicate; lia|]. 
    destruct (decide (0 ≤ n)); [pose proof (zlen_bytes m a n); lia|rewrite bytes_0 by lia; cbn; lia].
Qed.

Lemma bytes_1 m a v : rd m a = v → bytes m a 1 = [v].
Proof. intros <-. by rewrite bytes_cons, bytes_0 by lia. Qed.

(** The frame in the buffer is a string. *)
Lemma frame_string m m1 buf c j :
  walled m buf → overlay (buf + 2) 76 (λ _, 32) m m1 → 2 ≤ j ≤ 77 → 0 < c < 256 →
  walled (wr m1 (buf + j) c) buf ∧ cstr (wr m1 (buf + j) c) buf (frame c j) ∧ zlen (frame c j) = 80.
Proof.
  intros (W0 & W1 & W2 & W3 & W4) Hov Hj Hc. set (m2 := wr _ _ _).
  assert (∀ i, 0 ≤ i < 2 ∨ 78 ≤ i → rd m2 (buf + i) = rd m (buf + i)) as Hout.
  { intros i Hi. unfold m2. rewrite rd_wr_ne by lia. apply (overlay_out _ _ _ _ _ _ Hov). lia. }
  assert (∀ i, 2 ≤ i < 78 → i ≠ j → rd m2 (buf + i) = 32) as Hin.
  { intros i Hi Hne. unfold m2. rewrite rd_wr_ne by lia. rewrite (overlay_in _ _ _ _ _ _ Hov); [done|lia]. }
  assert (walled m2 buf) as Hw.
  { unfold walled. rewrite <- (Z.add_0_r buf) at 1. rewrite !Hout by lia. by rewrite Z.add_0_r. }
  assert (zlen (frame c j) = 80) as Hz.
  { unfold frame. rewrite !zlen_app, !length_replicate. cbn. lia. }
  split; [exact Hw|]. split; [|exact Hz]. destruct Hw as (V0 & V1 & V2 & V3 & V4).
  split_and!; [| |by rewrite Hz].
  - unfold frame. rewrite !Forall_app. split_and!; try (by repeat constructor); [by apply Forall_replicate| |by apply Forall_replicate].
    constructor; [lia|done].
  - rewrite Hz. replace 80 with (1 + (1 + ((j - 2) + (1 + ((77 - j) + (1 + 1)))))) by lia.
    rewrite !bytes_app by lia. unfold frame.
    rewrite (bytes_stretch m2 (buf + 1 + 1) (j - 2) 32), (bytes_stretch m2 _ (77 - j) 32).
    + rewrite (bytes_1 m2 buf 32), (bytes_1 m2 (buf + 1) 124), (bytes_1 m2 _ c), (bytes_1 m2 _ 124), (bytes_1 m2 _ 10);
        [done|..]; [|rewrite <- V2; f_equal; lia| |done|done]; [rewrite <- V3; f_equal; lia|].
      unfold m2. replace (buf + 1 + 1 + (j - 2)) with (buf + j) by lia. rewrite rd_wr_eq. apply u8_small. lia.
    + intros i Hi. replace (_ + i) with (buf + (j + 1 + i)) by lia. apply Hin; lia.
    + intros i Hi. replace (_ + i) with (buf + (2 + i)) by lia. apply Hin; lia.
Qed.

Section pong.
Context `{PortIO D, Hotkeys D fs} (y : layout) (kesp kebp : Z) (ns : list (list Z)).
Context (Hy : tables_ok y) (lit : list Z → Z) (buf ret_val garbage : Z) (k0 : kernel D) (sto : list Z) (rdy : bool).
Implicit Types k : kernel D.

Local Notation RTC := (codes "rtc").

(** Where the program keeps its buffer, its variables and its literal. *)
Record pong_memory : Prop := {
  pm_literal : literal_placed y lit k0 RTC;
  pm_range : 0 < buf < 4294960000 ∧ 0 < ret_val < 4294960000 ∧ 0 < garbage < 4294960000;
  pm_buf : user_buffer y k0 buf BUFMAX;
  pm_ret_val : user_buffer y k0 ret_val 4;
  pm_apart : apart (lit RTC, 4) (buf, BUFMAX) ∧ apart (lit RTC, 4) (ret_val, 4) ∧ apart (buf, BUFMAX) (ret_val, 4)
}.
Context (Hm : pong_memory).

Local Notation runs t scr f k := (running y ns lit [RTC] k0 sto rdy t scr f k).

Lemma pong_placed : Forall (literal_placed y lit k0) [RTC].
Proof. constructor; [apply Hm|done]. Qed.

Lemma buf_harmless : harmless y lit [RTC] k0 (buf, BUFMAX).
Proof. destruct Hm as [_ _ Hub _ (Ha & _)]. apply buffer_harmless; [exact Hub|by constructor]. Qed.

Lemma walled_kept m m' rs :
  walled m buf → changes_only rs m m' → Forall (apart (buf, BUFMAX)) rs → walled m' buf.
Proof.
  intros Hw Hc Ha.
  assert (∀ i, 0 ≤ i < 81 → rd m' (buf + i) = rd m (buf + i)) as E.
  { intros i Hi. apply Hc. eapply Forall_impl; [exact Ha|]. intros r Hr.
    unfold inside, apart, disjoint_regions, BUFMAX, SCREENWIDTH, ENDING in *. cbn [fst snd] in Hr. lia. }
  unfold walled in *. pose proof (E 0 ltac:(lia)) as E0. rewrite !Z.add_0_r in E0. by rewrite E0, !E by lia.
Qed.

(** A frame is on the screen when the tick comes. *)
Lemma draw_char_spec t n x scr f k sched c j :
  runs t scr f k → t !! n = Some (Some x) → f_kind x = Clock → walled (kmem k) buf → 2 ≤ j ≤ 77 → 0 < c < 256 →
  returns (draw_char y kesp kebp buf garbage (Z.of_nat n) c j (k, IRQ_RTC :: sched)) (λ '(k', rest),
    rest = sched ∧ walled (kmem k') buf ∧ ∃ pos, runs (<[n := Some (set_pos pos x)]> t) (show (frame c j) scr) f k').
Proof.
  intros Hrun Ht Hk Hw Hj Hc. destruct Hm as [_ (Hbr & _ & Hgr) Hub _ _]. unfold draw_char, pmem. cbn [fst].
  eapply returns_bind; [apply fill_spaces_spec; unfold STARTLOOP, LOOPMAX, BUFMAX, SCREENWIDTH, ENDING, START; lia|].
  intros m1 Hov. change (LOOPMAX - STARTLOOP) with 76 in Hov. change (buf + STARTLOOP) with (buf + 2) in Hov.
  destruct (frame_string (kmem k) m1 buf c j Hw Hov Hj Hc) as (Hw2 & Hl & Hz).
  unfold with_mem. cbn [fst snd]. set (k1 := set_mem (wr m1 (buf + j) c) k) in *.
  assert (runs t scr f k1) as Hrun1.
  { apply (store_running y ns lit [RTC] k0 sto rdy t scr f k buf BUFMAX _ Hrun buf_harmless Hub).
    intros a Ha. apply Forall_cons in Ha as [Ha _]. unfold inside, BUFMAX, SCREENWIDTH, ENDING in Ha. cbn [fst snd] in Ha.
    rewrite rd_wr_ne by lia. apply (overlay_out _ _ _ _ _ _ Hov). lia. }
  eapply returns_bind.
  { apply (fdputs_running y kesp kebp ns Hy lit [RTC] k0 sto rdy pong_placed t scr f k1 (IRQ_RTC :: sched) buf _ Hrun1
      ltac:(lia) Hl). lia. }
  intros [k2 rest] (-> & Hrun2 & _ & Hout & _). eapply returns_bind.
  { apply (clock_running y kesp kebp ns Hy lit [RTC] k0 sto rdy pong_placed t _ f k2 sched n x garbage 4 Hrun2 Ht Hk); lia. }
  intros [[k3 rest] r] (-> & _ & Hch & pos & Hrun3). apply returns_Ok. split; [done|]. split; [|by exists pos].
  apply (walled_kept (kmem k2) _ _) with (2 := Hch); [|constructor; [exact (Forall_lookup_1 _ _ 6%nat _ (proj2 Hub) eq_refl)|done]].
  apply (walled_kept (kmem k1) _ [(VIDEO, page_size)]); [exact Hw2|apply (same_except_changes _ _ _ _ _ Hout); by left|].
  constructor; [exact (Forall_lookup_1 _ _ 5%nat _ (proj2 Hub) eq_refl)|done].
Qed.

(** Between two frames. *)
Definition pong (t : table) (n : nat) (x : file) (scr : screen) (f : fs) k : Prop :=
  walled (kmem k) buf ∧ ∃ pos, runs (<[n := Some (set_pos pos x)]> t) scr f k.

Context (t : table) (n : nat) (x : file) (f : fs) (Hn : (n < length t)%nat) (Hx : f_kind x = Clock).

Lemma draw_pong scr k sched c j :
  pong t n x scr f k → 2 ≤ j ≤ 77 → 0 < c < 256 →
  returns (draw_char y kesp kebp buf garbage (Z.of_nat n) c j (k, IRQ_RTC :: sched)) (λ '(k', rest),
    rest = sched ∧ pong t n x (show (frame c j) scr) f k').
Proof.
  intros [Hw [pos Hrun]] Hj Hc.
  assert (<[n := Some (set_pos pos x)]> t !! n = Some (Some (set_pos pos x))) as Ht by (by apply list_lookup_insert_eq).
  eapply returns_mono; [by apply (draw_char_spec _ n _ scr f k sched c j Hrun Ht Hx)|].
  intros [k' rest] (-> & Hw' & pos' & Hrun'). rewrite list_insert_insert_eq in Hrun'. split; [done|]. split; [done|by exists pos'].
Qed.

(** One way: [js] are the columns in the order the loop takes them, and [at_]
    the index in them of the loop's variable. *)
Lemma draw_columns (guard : Z → bool) (next : Z → Z) (js : list Z) (start : Z) scr k sched c :
  pong t n x scr f k → 0 < c < 256 → Forall (λ j, 2 ≤ j ≤ 77) js → zlen js ≤ 1000 →
  (∀ i, (i ≤ length js)%nat → guard (Nat.iter i next start) = bool_decide (i < length js)%nat) →
  (∀ i j, js !! i = Some j → Nat.iter i next start = j) →
  returns (whileM (λ '(p, j), if guard j then p ← draw_char y kesp kebp buf garbage (Z.of_nat n) c j p; Ok (inl (p, next j))
                              else Ok (inr p)) ((k, replicate (length js) IRQ_RTC ++ sched), start))
    (λ '(k', rest), rest = sched ∧ pong t n x (show (concat (frame c <$> js)) scr) f k').
Proof.
  intros Hp Hc Hjs Hz Hg Hi. apply whileM_total with
    (I := λ '(p, j), ∃ i, (i ≤ length js)%nat ∧ j = Nat.iter i next start ∧
       snd p = replicate (length js - i) IRQ_RTC ++ sched ∧ pong t n x (show (concat (frame c <$> take i js)) scr) f (fst p))
    (V := λ '(p, j), zlen (snd p) - zlen sched).
  - exists 0%nat. split_and!; [lia|done|by rewrite Nat.sub_0_r|exact Hp].
  - cbn [snd]. rewrite length_app, length_replicate. lia.
  - intros [[k1 rest] j] (i & Hle & -> & Hrest & Hp1). cbn [fst snd] in *. subst rest. rewrite Hg by done.
    case_bool_decide as Hlt; cycle 1.
    { apply returns_Ok. replace i with (length js) in * by lia. rewrite firstn_all in Hp1. by rewrite Nat.sub_diag. }
    destruct (lookup_lt_is_Some_2 js i Hlt) as [j Hj]. rewrite (Hi i j Hj).
    replace (length js - i)%nat with (S (length js - S i)) by lia. cbn [replicate app].
    eapply returns_bind; [apply (draw_pong _ k1 _ c j Hp1); [exact (Forall_lookup_1 _ _ _ _ Hjs Hj)|done]|].
    intros [k2 rest] (-> & Hp2). apply returns_Ok. split; [|cbn [snd]; rewrite length_cons, length_app; lia].
    exists (S i). cbn [fst snd]. split_and!; [lia|by rewrite <- (Hi i j Hj)|done|].
    by rewrite (take_S_r _ _ _ Hj), fmap_app, concat_app, show_app; cbn [fmap list_fmap concat]; rewrite app_nil_r.
Qed.

Lemma iter_add i d start : Nat.iter i (λ j, j + d) start = start + Z.of_nat i * d.
Proof. induction i as [|i IH]; [cbn; lia|]. rewrite Nat.iter_succ, IH. lia. Qed.

Definition round_ticks : list irq := replicate 76 IRQ_RTC ++ replicate 76 IRQ_RTC.

Lemma round_spec scr k sched c :
  pong t n x scr f k → 65 ≤ c ≤ 90 →
  returns (pingpong_round y kesp kebp buf garbage (Z.of_nat n) ((k, round_ticks ++ sched), c)) (λ '((k', rest), c'),
    rest = sched ∧ c' = (if c =? 90 then 65 else c + 1) ∧ pong t n x (show (round_frames c) scr) f k').
Proof.
  intros Hp Hc. unfold pingpong_round, round_ticks. rewrite <- app_assoc.
  assert (Forall (λ j, 2 ≤ j ≤ 77) out_columns) as Ho by by_decide.
  eapply returns_bind.
  { apply (draw_columns (λ j, j <? LOOPMAX) (λ j, j + 1) out_columns STARTLOOP scr k _ c Hp); [lia|exact Ho|by_decide| |].
    - intros i Hi. change (length out_columns) with 76%nat in *. unfold STARTLOOP, START, LOOPMAX, BUFMAX, SCREENWIDTH, ENDING.
      rewrite iter_add. case_bool_decide; lia.
    - intros i j [-> Hi]%lookup_seqZ. rewrite iter_add. unfold STARTLOOP, START. lia. }
  intros [k1 rest] (-> & Hp1). eapply returns_bind.
  { apply (draw_columns (λ j, STARTLOOP <=? j) (λ j, j - 1) (reverse out_columns) (LOOPMAX - 1) _ k1 sched c Hp1);
      [lia|by apply Forall_reverse|by_decide| |].
    - intros i Hi. change (length (reverse out_columns)) with 76%nat in *.
      unfold STARTLOOP, START, LOOPMAX, BUFMAX, SCREENWIDTH, ENDING. rewrite (iter_add i (-1)). case_bool_decide; lia.
    - intros i j Hj. pose proof (lookup_lt_Some _ _ _ Hj) as Hlt. rewrite length_reverse in Hlt.
      rewrite reverse_lookup in Hj by done. change (length out_columns) with 76%nat in *. apply lookup_seqZ in Hj as [-> _].
      unfold LOOPMAX, BUFMAX, SCREENWIDTH, ENDING. rewrite (iter_add i (-1)). lia. }
  intros [k2 rest] (-> & Hp2). apply returns_Ok. split; [done|]. unfold ENDCHAR, STARTCHAR. split.
  - rewrite u8_small by lia. done.
  - unfold round_frames. by rewrite fmap_app, concat_app, show_app.
Qed.

(** The letters in turn, for ever. *)
Lemma rounds_spec m scr k sched i :
  pong t n x scr f k →
  returns (pingpong_rounds y kesp kebp buf garbage m (Z.of_nat n) ((k, concat (replicate m round_ticks) ++ sched), letter i))
    (λ '((k', rest), c'), rest = sched ∧ c' = letter (i + m) ∧
      pong t n x (show (concat (round_frames ∘ letter <$> seq i m)) scr) f k').
Proof.
  revert scr k i; induction m as [|m IH]; intros scr k i Hp.
  - apply returns_Ok. by rewrite Nat.add_0_r.
  - cbn [pingpong_rounds replicate concat]. rewrite <- app_assoc.
    assert (65 ≤ letter i ≤ 90) as Hl by (unfold letter, STARTCHAR; zlia).
    assert ((if letter i =? 90 then 65 else letter i + 1) = letter (S i)) as Hnext.
    { unfold letter, STARTCHAR in *. rewrite Nat2Z.inj_succ. case_z; zlia. }
    eapply returns_bind; [by apply (round_spec scr k _ (letter i) Hp Hl)|]. rewrite Hnext.
    intros [[k1 rest] c1] (-> & -> & Hp1). eapply returns_mono; [exact (IH _ k1 (S i) Hp1)|].
    intros [[k2 rest] c2] (-> & -> & Hp2). split; [done|]. split; [by rewrite Nat.add_succ_r|].
    cbn [seq fmap list_fmap concat]. by rewrite show_app.
Qed.
End pong.

Section pong_spec.
Context `{PortIO D, Hotkeys D fs} (y : layout) (kesp kebp : Z) (ns : list (list Z)).
Context (Hy : tables_ok y) (lit : list Z → Z) (buf ret_val garbage : Z) (k0 : kernel D) (sto : list Z) (rdy : bool).
Context (Hm : pong_memory y lit buf ret_val garbage k0).
Implicit Types k : kernel D.

Local Notation RTC := (codes "rtc").
Local Notation runs t scr f k := (running y ns lit [RTC] k0 sto rdy t scr f k).

(** The walls of an empty court. *)
Lemma walls_built m m1 :
  overlay buf 81 (λ _, 32) m m1 → walled (wr (wr (wr (wr m1 (buf + 80) 0) (buf + 79) 10) (buf + 78) 124) (buf + 1) 124) buf.
Proof.
  intros Hov. pose proof (overlay_in _ _ _ _ _ buf Hov ltac:(lia)) as Hb.
  unfold walled. split_and!; rewrite ?rd_wr_eq, ?rd_wr_ne by lia; rewrite ?rd_wr_eq, ?rd_wr_ne by lia;
    rewrite ?rd_wr_eq, ?rd_wr_ne by lia; rewrite ?rd_wr_eq, ?rd_wr_ne by lia; done.
Qed.

Lemma ret_val_harmless : harmless y lit [RTC] k0 (ret_val, 4).
Proof. destruct Hm as [_ _ _ Hub (_ & Ha & _)]. apply buffer_harmless; [exact Hub|by constructor]. Qed.

(** A store into [ret_val]. *)
Lemma ret_val_stored t scr f k v :
  runs t scr f k → walled (kmem k) buf →
  runs t scr f (set_mem (wr32 (kmem k) ret_val v) k) ∧ walled (wr32 (kmem k) ret_val v) buf.
Proof.
  intros Hrun Hw. destruct Hm as [_ _ _ Hub (_ & _ & Ha)].
  assert (changes_only [(ret_val, 4)] (kmem k) (wr32 (kmem k) ret_val v)) as Hc.
  { apply (same_except_changes ret_val 4); [apply same_except_wr32; lia|by left]. }
  split; [exact (store_running y ns lit [RTC] k0 sto rdy t scr f k ret_val 4 _ Hrun ret_val_harmless Hub Hc)|].
  apply (walled_kept buf (kmem k) _ [(ret_val, 4)] Hw Hc). by constructor.
Qed.

Lemma setup_spec t n i scr f k sched :
  let x := entry_file k0 i RTC in
  runs t scr f k → first_free t = Some n → list_find (λ l, l = RTC) ns = Some (i, RTC) → f_kind x = Clock →
  ∃ k1 m, pingpong_setup y kesp kebp lit buf ret_val (k, sched) = Ok ((k1, sched), Z.of_nat n) ∧
    pong y ns lit buf k0 sto rdy t n x scr f k1 ∧ s32 (rd32 m ret_val) = 32 ∧
    dev (kcon (term k1)) = snd (rtc_write m (Z.of_nat n) ret_val 4 (dev (kcon (term k)))).
Proof.
  intros x Hrun Hfree Hi Hk. pose proof Hm as [_ (Hbr & Hrr & _) Hub Hur (_ & _ & Ha)]. unfold pingpong_setup, with_mem, pmem. cbn [fst snd].
  destruct (fill_spaces_spec buf 0 BUFMAX (kmem k)) as (m1 & -> & Hov); [by split|done|]. rewrite bind_Ok.
  change (BUFMAX - 0) with 81 in Hov. rewrite Z.add_0_r in Hov. pose proof (walls_built _ _ Hov) as Hw1. cbv zeta.
  change (BUFMAX - 1) with 80. change (BUFMAX - 2) with 79. change (BUFMAX - 3) with 78. change START with 1.
  set (m2 := wr (wr (wr (wr m1 _ _) _ _) _ _) _ _) in *.
  assert (runs t scr f (set_mem m2 k)) as Hrun1.
  { apply (store_running y ns lit [RTC] k0 sto rdy t scr f k buf BUFMAX m2 Hrun (buf_harmless y lit buf ret_val garbage k0 Hm) Hub).
    intros a Ho. apply Forall_cons in Ho as [Ho _]. unfold inside, BUFMAX, SCREENWIDTH, ENDING in Ho. cbn [fst snd] in Ho.
    unfold m2. rewrite !rd_wr_ne by lia. apply (overlay_out _ _ _ _ _ _ Hov). lia. }
  destruct (first_free_lt t n (proj1 (w_table _ _ _ _ (ru_world _ _ _ _ _ _ _ _ _ _ _ Hrun)))
    (w_standard _ _ _ _ (ru_world _ _ _ _ _ _ _ _ _ _ _ Hrun)) Hfree) as [Hn Hnone].
  destruct (open_effect y kesp kebp ns Hy lit [RTC] k0 sto rdy (pong_placed y lit buf ret_val garbage k0 Hm) t scr f (set_mem m2 k) sched RTC Hrun1
    ltac:(by left) ltac:(by_decide)) as ([[k2 rest] fd] & -> & -> & He & Hc2 & Hop).
  change (text_of RTC) with RTC in Hop.
  rewrite (open_entry y ns lit [RTC] k0 sto rdy t scr f (set_mem m2 k) i RTC Hrun1), Hfree in Hop by done.
  destruct Hop as [-> Hrun2]. fold x in Hrun2. rewrite bind_Ok. cbn [fst snd].
  assert (walled (kmem k2) buf) as Hw2.
  { apply (walled_kept buf m2 _ _ Hw1 Hc2). pose proof (λ j r Hr, Forall_lookup_1 _ _ j r (proj2 Hub) Hr) as Hreg.
    constructor; [exact (Hreg 7%nat _ eq_refl)|]. constructor; [exact (Hreg 6%nat _ eq_refl)|done]. }
  destruct (ret_val_stored _ _ _ k2 32 Hrun2 Hw2) as [Hrun3 Hw3].
  set (k3 := set_mem (wr32 (kmem k2) ret_val 32) k2) in *.
  pose proof (clock_write_running y kesp kebp ns Hy lit [RTC] k0 sto rdy _ _ _ k3 sched n x ret_val 4 Hrun3
    ltac:(by apply list_lookup_insert_eq, (lookup_lt_Some _ _ _ Hnone)) Hk ltac:(lia) ltac:(lia)) as Hwr.
  destruct (rtc_write _ _ _ _ _) as [r d] eqn:Ew. destruct Hwr as (k4 & -> & Hm4 & Hd4 & Hrun4). rewrite bind_Ok.
  assert (walled (kmem k4) buf) as Hw4 by (by rewrite Hm4).
  destruct (ret_val_stored _ _ _ k4 (u32 (s32 r)) Hrun4 Hw4) as [Hrun5 Hw5].
  eexists _, (kmem k3). split; [reflexivity|]. split.
  { split; [exact Hw5|]. exists 0. exact Hrun5. }
  split; [change (kmem k3) with (wr32 (kmem k2) ret_val 32); by rewrite rd32_wr32_eq|].
  change (dev (kcon (term k4)) = snd (rtc_write (kmem k3) (Z.of_nat n) ret_val 4 (dev (kcon (term k))))).
  rewrite Hd4. change (dev (kcon (term k3))) with (dev (kcon (term k2))) in Ew. rewrite He in Ew.
  change (dev (kcon (term (set_mem (kmem k2) (set_mem m2 k))))) with (dev (kcon (term k))) in Ew. by rewrite Ew.
Qed.
End pong_spec.

(** ** Properties *)

(** C4: pingpong plays for ever, at the pace of the clock.  Started where the
    directory has the clock and a descriptor is free, it sets the clock to 32
    ticks a second, and for every number [m] of rounds the first [m] letters
    from A on, beginning again behind Z, are each moved through the columns 2 to
    77 and back, one frame of 80 characters for every tick, whatever the screen
    held: the program neither ends nor faults. *)
Theorem pingpong_bounces `{Cmos D, Hotkeys D fs} y kesp kebp ns lit buf ret_val garbage (k : kernel D) t scr f sto rdy
    n i m sched :
  tables_ok y → pong_memory y lit buf ret_val garbage k →
  running y ns lit [codes "rtc"] k sto rdy t scr f k → first_free t = Some n →
  list_find (λ l, l = codes "rtc") ns = Some (i, codes "rtc") →
  let x := entry_file k i (codes "rtc") in
  f_kind x = Clock →
  let a := cmos_reg (dev (kcon (term k))) 0xA in
  0 ≤ a < 256 →
  let ticks := concat (replicate m round_ticks) ++ sched in
  ∃ k1, pingpong_setup y kesp kebp lit buf ret_val (k, ticks) = Ok ((k1, ticks), Z.of_nat n) ∧
    (∃ rate, 0 ≤ rate < 16 ∧ Z.shiftr 32768 (rate - 1) = 32 ∧
      cmos_reg (dev (kcon (term k1))) 0xA = a - a mod 16 + rate) ∧
    returns (pingpong_rounds y kesp kebp buf garbage m (Z.of_nat n) ((k1, ticks), STARTCHAR))
      (λ '((k', rest), c), rest = sched ∧ c = letter m ∧ ∃ pos,
        running y ns lit [codes "rtc"] k sto rdy (<[n := Some (set_pos pos x)]> t) (show (pong_output m) scr) f k').
Proof.
  intros Hy Hm Hrun Hfree Hi x Hk a Ha ticks.
  destruct (setup_spec y kesp kebp ns Hy lit buf ret_val garbage k sto rdy Hm t n i scr f k ticks Hrun Hfree Hi Hk)
    as (k1 & m1 & E & Hp & Hf & Hd). fold x in Hp. exists k1. split; [exact E|]. split.
  - pose proof (rtc_write_sets_rate m1 (Z.of_nat n) ret_val 4 (dev (kcon (term k))) Ha) as Hr. cbv zeta in Hr.
    rewrite Hf in Hr. destruct (rtc_write _ _ _ _ _) as [r d]. cbn [snd] in Hd. rewrite Hd.
    rewrite decide_True in Hr by (split; [done|unfold accepted; set_solver]).
    destruct Hr as (_ & _ & rate & Hrate & Hs & Hreg). exists rate. split; [done|]. split; [by apply Hs|exact Hreg].
  - destruct (first_free_lt t n (proj1 (w_table _ _ _ _ (ru_world _ _ _ _ _ _ _ _ _ _ _ Hrun)))
      (w_standard _ _ _ _ (ru_world _ _ _ _ _ _ _ _ _ _ _ Hrun)) Hfree) as [_ Hnone].
    eapply returns_mono; [exact (rounds_spec y kesp kebp ns Hy lit buf ret_val garbage k sto rdy Hm t n x f
      (lookup_lt_Some _ _ _ Hnone) Hk m scr k1 sched 0 Hp)|].
    intros [[k2 rest] c] (-> & -> & _ & Hrun2). by split_and!.
Qed.

(** A directory with the clock in it, over a concrete clock chip. *)
Definition pong_names : list (list Z) := [97] :: codes "rtc" :: replicate 61 [].
Definition pong_texts : list (list Z) := [codes "rtc"].
Definition pong_mem : mem :=
  wr32 (wr_bytes (prog_mem pong_texts) 0x10080 (codes "rtc" ++ [0])) 0x100A0 0.
Definition pong_kernel : kernel chip :=
  Kernel (Kb (clear (Con pong_mem 0 0 chip_boot)) demo_fs no_mods empty_line 0) boot_paging ∅ 1 0 1 0 0.

Lemma cleared_represents {D} (d : D) m : represents (clear (Con m 0 0 d)) empty_line idle.
Proof.
  constructor; cbn [t_screen typed stored ready erasable idle]; try done.
  - exact (proj1 (clear_shows (Con m 0 0 d))).
  - apply (holds_nil 1024).
  - unfold line_max. split; [cbn; lia|done].
  - apply (holds_nil 1024).
  - unfold line_max. split; [cbn; lia|done].
Qed.

Lemma pong_running :
  running demo_layout pong_names (place pong_texts) pong_texts pong_kernel [] false prog_table blank_screen demo_fs
    pong_kernel.
Proof.
  constructor; [apply bare_world; by_decide|by constructor| |by_decide|done].
  exists 0. exact (cleared_represents chip_boot pong_mem).
Qed.

Lemma pingpong_bounces_witness :
  ∃ k1, @pingpong_setup chip _ (quiet_hotkeys chip fs) demo_layout 0 0 (place pong_texts) 0x8049000 0x8049100
      (pong_kernel, round_ticks ++ []) = Ok ((k1, round_ticks ++ []), 2) ∧
    cmos_reg (dev (kcon (term k1))) 0xA = 0x2B ∧
    returns (@pingpong_rounds chip _ (quiet_hotkeys chip fs) demo_layout 0 0 0x8049000 0x8049104 1 2
      ((k1, round_ticks ++ []), STARTCHAR)) (λ '((k', rest), c), rest = [] ∧ c = 66 ∧ ∃ pos,
        running demo_layout pong_names (place pong_texts) pong_texts pong_kernel [] false
          (<[2%nat := Some (set_pos pos (File Clock (codes "rtc") 0 0))]> prog_table)
          (show (pong_output 1) blank_screen) demo_fs k').
Proof.
  assert (pong_memory demo_layout (place pong_texts) 0x8049000 0x8049100 0x8049104 pong_kernel) as Hm.
  { constructor; by_decide || (repeat split; by_decide). }
  assert (entry_file pong_kernel 1 (codes "rtc") = File Clock (codes "rtc") 0 0) as Ex by by_decide.
  destruct (@pingpong_bounces chip _ _ (quiet_hotkeys chip fs) demo_layout 0 0 pong_names (place pong_texts) 0x8049000
    0x8049100 0x8049104 pong_kernel prog_table blank_screen demo_fs [] false 2 1 1 [] demo_tables_ok Hm pong_running
    eq_refl ltac:(reflexivity) ltac:(by rewrite Ex) ltac:(by_decide)) as (k1 & E & (rate & Hr & Hs & Hreg) & Hrounds).
  rewrite Ex in Hrounds. exists k1. split; [exact E|]. split; [|exact Hrounds].
  assert (Forall (λ r, Z.shiftr 32768 (r - 1) = 32 → r = 0xB) (seqZ 0 16)) as Hall by by_decide.
  rewrite Forall_forall in Hall. rewrite Hreg, (Hall rate); [reflexivity|apply elem_of_seqZ; lia|exact Hs].
Defined.
