(* ===== verification/UserSig.v ===== *)
(** * ece391sigtest.c: the signal test

    The program writes through a null pointer and expects a signal.  This
    kernel has no signals: the handlers are refused, and the write ends in the
    page fault handler of idt.c. *)

From S2P Require Import Prelude Memory LibString Ports Pic Rtc Console Printing Keyboard Paging FileSys.
From S2P Require Import FsScreen Process Syscall Descriptors ReadWrite Typing Calls Exec Execute Frame Idt UserLib User UserRun UserLs.

Definition SYS_SET_HANDLER := 9.
Definition SEGFAULT := 1.
Definition ALARM := 3.
Definition SIGTEST_BUFSIZE := 1024.
Definition INSTALLING := line_of "Installing signal handlers".

(** ** The program *)

Section program.
Context `{PortIO D, Hotkeys D fs} (y : layout) (kesp kebp : Z) (lit : list Z → Z).
Implicit Types p : @proc D.

Definition ece391_set_handler (signum handler : Z) p : res (proc * Z) :=
  do_call y kesp kebp SYS_SET_HANDLER signum handler 0 p.

Definition say_text (s : list Z) p : res proc := ece391_fdputs y kesp kebp 1 (lit s) p.

(** A store of user code: a page fault, unless the address is mapped for it. *)
Definition user_store (a v : Z) p : proc + proc :=
  match translate (paging_symbols y) (pages (fst p)) a with
  | Some mp => if user mp && writable mp then inl (store a v p) else inr p
  | None => inr p
  end.

(** The switch of the two handlers, and the handlers; [signum] is at
    [signum_at], above the context the kernel is to restore. *)
Definition say_signum (head : list Z) (signum : Z) p : res proc :=
  p ← say_text head p;
  say_text (match signum with
            | 0 => line_of "0" | 1 => line_of "1" | 2 => line_of "2" | 3 => line_of "3"
            | _ => line_of "invalid"
            end) p.

Definition segfault_sighandler (buf badbuf charbuf signum_at : Z) p : res proc :=
  p ← say_signum (codes "Segfault signal handler called, signum: ") (s32 (rd32 (pmem p) signum_at)) p;
  p ← say_text (line_of "Press enter to continue...") p;
  '(p, _) ← ece391_read y kesp kebp 0 buf 1 p;
  let m := wr32 (pmem p) badbuf charbuf in
  let m := wr32 m (signum_at + 28) charbuf in
  say_text (line_of "Signal handler returning") (set_mem m (fst p), snd p).

Definition alarm_sighandler (signum_at : Z) p : res proc :=
  say_signum (codes "Alarm signal handler called, signum: ") (s32 (rd32 (pmem p) signum_at)) p.

(** main; its end is a status, or a page fault.  The handlers are at [segv] and
    [alrm]. *)
Definition sigtest (buf badbuf charbuf segv alrm : Z) p : res (proc * Z + proc) :=
  '(p, r) ← ece391_getargs y kesp kebp buf SIGTEST_BUFSIZE p;
  if negb (0 =? r) then p ← say_text (line_of "could not read argument") p; Ok (inl (p, 3))
  else
    p ← (if rd (pmem p) buf =? 49 then
           p ← say_text INSTALLING p;
           '(p, _) ← ece391_set_handler SEGFAULT segv p;
           '(p, _) ← ece391_set_handler ALARM alrm p;
           Ok p
         else Ok p);
    '(p, cnt) ← (p ← say_text ASK_NAME p; ece391_read y kesp kebp 0 buf (SIGTEST_BUFSIZE - 1) p);
    if -1 =? cnt then p ← say_text (line_of "Can't read name from keyboard.") p; Ok (inl (p, 3))
    else
      match user_store (rd32 (pmem p) badbuf) 1 p with
      | inr p => Ok (inr p)
      | inl p =>
          let p := store (buf + cnt) 0 p in
          p ← say_text (codes "Hello, ") p;
          p ← ece391_fdputs y kesp kebp 1 buf p;
          p ← say_text (if rd (pmem p) charbuf =? 1 then line_of "success" else line_of "failure") p;
          Ok (inl (p, 0))
      end.
End program.

(** ** What the calls leave alone *)

Section frames.
Context `{PortIO D, Hotkeys D fs} (y : layout) (kesp kebp : Z).
Implicit Types k : kernel D.

Lemma call_pages number a b c k sched k' rest r :
  plain_call number → do_call y kesp kebp number a b c (k, sched) = Ok ((k', rest), r) → pages k' = pages k.
Proof.
  intros Hn. pose proof Hn as Hr. unfold plain_call in Hr. rewrite !elem_of_cons, elem_of_nil in Hr.
  unfold do_call, asm_linkage. cbn [eax]. rewrite (s32_small number) by lia.
  assert ((number <? 1) || (10 <? number) = false) as -> by lia. cbn [fst snd].
  intros ([[k1 x] q] & ([[k2 v] q2] & E & E2)%res_bind_Ok & E3)%res_bind_Ok.
  apply dispatch_frame in E as [[Hp _ _ _ _ _] [u ->]]; [|cbn [eax]; rewrite (s32_small number) by lia; exact Hn].
  injection E2 as <- <- <-. by injection E3 as <- _ _.
Qed.

Lemma fdputs_pages s k sched k' rest :
  ece391_fdputs y kesp kebp 1 s (k, sched) = Ok (k', rest) → pages k' = pages k.
Proof.
  unfold ece391_fdputs. intros (len & _ & ([[k1 q] v] & E & [= <- _])%res_bind_Ok)%res_bind_Ok.
  eapply call_pages; [|exact E]. unfold plain_call. set_solver.
Qed.

Lemma read_pages fd b n k sched k' rest r :
  ece391_read y kesp kebp fd b n (k, sched) = Ok ((k', rest), r) → pages k' = pages k.
Proof. intros E. eapply call_pages; [|exact E]. unfold plain_call. set_solver. Qed.

(** A prompt and a read. *)
Lemma ask_pages s fd b n k sched k' rest r :
  (p ← ece391_fdputs y kesp kebp 1 s (k, sched); ece391_read y kesp kebp fd b n p) = Ok ((k', rest), r) →
  pages k' = pages k.
Proof.
  intros ([k1 s1] & E1 & E2)%res_bind_Ok. transitivity (pages k1); [by eapply read_pages|by eapply fdputs_pages].
Qed.

(** A handler is refused. *)
Lemma set_handler_refused signum handler k sched :
  ece391_set_handler y kesp kebp signum handler (k, sched) = Ok ((k, sched), -1).
Proof. by apply refused_call. Qed.
End frames.

(** ** sigtest *)

Definition page_fault_text : list Z := codes "Page falut exception!" ++ [10].

(** What it prints before it asks. *)
Definition sig_intro (args : list Z) : list Z := if hd 0 args =? 49 then INSTALLING else [].

Section sigtest_spec.
Context `{PortIO D, !KeyQueue D, Hotkeys D fs} (y : layout) (kesp kebp : Z) (ns : list (list Z)).
Context (Hy : tables_ok y) (lit ilit : list Z → Z) (buf badbuf charbuf segv alrm : Z) (k0 : kernel D).
Implicit Types k : kernel D.

(** The literals, the null pointer, and the message of the kernel's handler. *)
Definition sig_texts : list (Z * list Z) :=
  [(lit INSTALLING, INSTALLING); (lit ASK_NAME, ASK_NAME); (ilit page_fault_text, page_fault_text);
   (badbuf, []); (badbuf + 1, []); (badbuf + 2, []); (badbuf + 3, [])].

Context (Hbuf : 0 < buf < 4294967296) (Hub : user_buffer y k0 buf SIGTEST_BUFSIZE).
Context (Hlit : Forall (literal_placed y fst k0) sig_texts).
Context (Hap : Forall (λ x : Z * list Z, apart (fst x, zlen (snd x) + 1) (buf, SIGTEST_BUFSIZE)) sig_texts).

Local Notation runs t scr f k := (running y ns fst sig_texts k0 [] false t scr f k).

(** The pointer is null as long as the program relies on it. *)
Lemma badbuf_null t scr f k : runs t scr f k → rd32 (kmem k) badbuf = 0.
Proof.
  intros Hrun. pose proof (ru_texts _ _ _ _ _ _ _ _ _ _ _ Hrun) as Ht. unfold sig_texts in Ht.
  rewrite !Forall_cons in Ht. destruct Ht as (_ & _ & _ & B0 & B1 & B2 & B3 & _).
  apply cstr_nil in B0, B1, B2, B3. cbn [fst] in *. unfold rd32. by rewrite B0, B1, B2, B3.
Qed.

Lemma say_text_running t scr f k sched s :
  runs t scr f k → (lit s, s) ∈ sig_texts →
  returns (say_text y kesp kebp lit s (k, sched)) (λ '(k', rest), rest = sched ∧ runs t (show s scr) f k' ∧
    outside_video (kmem k) (kmem k') ∧ pages k' = pages k ∧ queue k' = queue k ∧ kmods (term k') = kmods (term k)).
Proof.
  intros Hrun Hs.
  destruct (puts_running y kesp kebp ns Hy fst sig_texts k0 [] false Hlit t scr f k sched _ Hrun Hs)
    as ([k' rest] & E & -> & Hrun' & _ & Ho & Hm).
  exists (k', sched). split; [exact E|]. split_and!; [done|exact Hrun'|exact Ho| | |exact Hm].
  - exact (fdputs_pages y kesp kebp _ _ _ _ _ E).
  - exact (fdputs_queue y kesp kebp ns Hy t k k' _ _ _ (ru_world _ _ _ _ _ _ _ _ _ _ _ Hrun) E).
Qed.

Lemma installs t scr f k sched args :
  runs t scr f k → cstr (kmem k) buf args →
  returns (if rd (kmem k) buf =? 49 then
             p ← say_text y kesp kebp lit INSTALLING (k, sched);
             '(p, _) ← ece391_set_handler y kesp kebp SEGFAULT segv p;
             '(p, _) ← ece391_set_handler y kesp kebp ALARM alrm p; Ok p
           else Ok (k, sched))
    (λ '(k', rest), rest = sched ∧ runs t (show (sig_intro args) scr) f k' ∧
      outside_video (kmem k) (kmem k') ∧ pages k' = pages k ∧ queue k' = queue k ∧ kmods (term k') = kmods (term k)).
Proof.
  intros Hrun Ha. rewrite (cstr_head _ _ _ Ha). unfold sig_intro. change (List.hd 0 args) with (hd 0 args).
  destruct (hd 0 args =? 49); [|apply returns_Ok; split_and!; (done || apply same_except_refl)].
  eapply returns_bind; [by apply (say_text_running t scr f k sched INSTALLING Hrun); left|].
  intros [k1 rest] (-> & Hrest). rewrite set_handler_refused, bind_Ok, set_handler_refused, bind_Ok. by apply returns_Ok.
Qed.

(** What the user may not write. *)
Lemma null_not_mapped n k :
  mapped_by (paging_symbols y) (process_entries (paging_symbols y) n) (pages k) → translate (paging_symbols y) (pages k) 0 = None.
Proof. intros Hm. rewrite (process_mapped _ n) by done. done. Qed.

Lemma text_of_pair (a : Z) (s : list Z) : text_of (a, s) = s.
Proof. done. Qed.

(** The question and the answer. *)
Lemma asks_name t scr f f0 k keys rest q t1 :
  runs t scr f k → t !! 0%nat = Some (Some f0) → f_kind f0 = Stdin → fs_sound (kfs (term k)) (kmem k) →
  types k (Tty (show ASK_NAME scr) [] [] false 0) keys q t1 →
  returns (p ← say_text y kesp kebp lit ASK_NAME (k, replicate (S (length keys)) IRQ_KEYBOARD ++ rest);
           ece391_read y kesp kebp 0 buf (SIGTEST_BUFSIZE - 1) p)
    (λ '((k', rest'), r), rest' = rest ∧ r ≠ -1 ∧ queue k' = q ∧ pages k' = pages k ∧
      ∃ pos, runs (<[0%nat := Some (set_pos pos f0)]> t) (show_char 10 (t_screen t1)) f k').
Proof.
  intros Hrun Hf0 K0 Hsnd Hty. rewrite <- (text_of_pair (lit ASK_NAME) ASK_NAME) in Hty.
  destruct (ask_running y kesp kebp ns Hy fst sig_texts k0 Hlit t scr f k f0 (lit ASK_NAME, ASK_NAME) buf
    (SIGTEST_BUFSIZE - 1) SIGTEST_BUFSIZE keys rest q t1 Hrun ltac:(right; by left) Hf0 K0 Hbuf ltac:(done) ltac:(done)
    Hub Hap Hsnd Hty) as ([[k3 s3] r3] & E3 & -> & -> & Hr3 & _ & Hq3 & _ & _ & Hrun3).
  exists ((k3, rest), zlen (typed t1) + 1). split; [exact E3|].
  split_and!; [done|lia|done| |by eexists]. exact (ask_pages y kesp kebp _ _ _ _ _ _ _ _ _ E3).
Qed.

Lemma sigtest_faults t scr f f0 k keys rest q t1 args n :
  runs t scr f k → t !! 0%nat = Some (Some f0) → f_kind f0 = Stdin →
  (∀ m, changes_only [(buf, SIGTEST_BUFSIZE)] (kmem k) m → fs_sound (kfs (term k)) m) →
  cstr (kmem k) (arg_at (current_pcb k)) args → zlen args ≤ 1023 → arg_size k ≤ SIGTEST_BUFSIZE →
  mapped_by (paging_symbols y) (process_entries (paging_symbols y) n) (pages k) →
  types k (Tty (show (sig_intro args ++ ASK_NAME) scr) [] [] false 0) keys q t1 →
  returns (sigtest y kesp kebp lit buf badbuf charbuf segv alrm (k, replicate (S (length keys)) IRQ_KEYBOARD ++ rest))
    (λ x, ∃ k' r, x = inr (k', rest) ∧ queue k' = q ∧
      runs (<[0%nat := Some (set_pos r f0)]> t) (show_char 10 (t_screen t1)) f k').
Proof.
  intros Hrun Hf0 K0 Hsnd Ha Hz Has Hpg Hty. set (sched := replicate _ _ ++ rest). unfold sigtest.
  assert (harmless y fst sig_texts k0 (buf, SIGTEST_BUFSIZE)) as Hh by by apply buffer_harmless.
  eapply returns_bind.
  { apply (getargs_running y kesp kebp ns fst sig_texts k0 [] false t scr f k sched args buf SIGTEST_BUFSIZE Hrun Ha Has
      ltac:(unfold SIGTEST_BUFSIZE; lia) Hz Hbuf Hub Hh). }
  intros [[k1 s1] r] (-> & -> & Hargs & E1 & Hc1 & Hrun1). change (negb (0 =? 0)) with false. cbv iota. unfold pmem. cbn [fst].
  eapply returns_bind; [exact (installs t scr f k1 sched args Hrun1 Hargs)|].
  intros [k2 s2] (-> & Hrun2 & Ho2 & Hp2 & Hq2 & Hm2).
  assert (pages k2 = pages k ∧ queue k2 = queue k ∧ kmods (term k2) = kmods (term k)) as (Hp & Hq & Hmods).
  { rewrite Hp2, Hq2, Hm2, E1. by split_and!. }
  assert (fs_sound (kfs (term k2)) (kmem k2)) as Hsnd2.
  { rewrite (ru_fs _ _ _ _ _ _ _ _ _ _ _ Hrun2), <- (ru_fs _ _ _ _ _ _ _ _ _ _ _ Hrun).
    eapply fs_sound_video; [exact Ho2|by apply Hsnd]. }
  assert (types k2 (Tty (show ASK_NAME (show (sig_intro args) scr)) [] [] false 0) keys q t1) as Hty2.
  { unfold types in *. by rewrite Hmods, Hq, <- show_app. }
  eapply returns_bind; [exact (asks_name t _ f f0 k2 keys rest q t1 Hrun2 Hf0 K0 Hsnd2 Hty2)|].
  intros [[k3 s3] r3] (-> & Hr3 & Hq3 & Hp3 & pos & Hrun3). rewrite (proj2 (Z.eqb_neq (-1) _)) by done.
  unfold pmem. cbn [fst]. rewrite (badbuf_null _ _ _ _ Hrun3). unfold user_store. cbn [fst].
  rewrite Hp3, Hp, (null_not_mapped n k Hpg). apply returns_Ok. by eexists _, _.
Qed.

(** The handler of the page fault. *)
Lemma page_fault_reports conv j i t scr f k e1 e2 :
  runs t scr f k → disjoint_regions VIDEO page_size conv scratch_size →
  clear_of conv (ilit page_fault_text) (zlen page_fault_text + 1) → (2 ≤ j)%nat →
  returns (run_helper conv ilit j excep_PF_helper e1 e2 i k) (λ p, spins p ∧
    shows (kcon (term (machine p))) (show page_fault_text scr)).
Proof.
  intros Hrun Hd Hcl Hj. pose proof (ru_tty _ _ _ _ _ _ _ _ _ _ _ Hrun) as [e Hrep].
  assert (cstr (kmem k) (ilit page_fault_text) page_fault_text) as Hl.
  { apply (running_text _ _ _ _ _ _ _ _ _ _ _ (ilit page_fault_text, page_fault_text) Hrun). right. right. by left. }
  eapply returns_mono.
  { apply (excep_spins conv ilit Hd j excep_PF_helper PF e1 e2 i scr k eq_refl Hj (rep_screen _ _ _ Hrep)).
    apply Forall_singleton. split_and!; [by split|by_decide|]. intros m'. apply plain_formats. by_decide. }
  intros p (Hp & c & -> & Hs & _). split; [exact Hp|exact Hs].
Qed.
End sigtest_spec.

(** ** Properties *)

(** C5: sigtest, from the keys to the end of the machine.  Its two handlers are
    refused, if it has the argument 1, it asks for a name and takes the line
    that is typed; then it writes through its null pointer.  Page 0 is not
    mapped in the page directory of any process, so the processor raises the
    page fault, whose handler prints its message below the line and, however
    many steps it is given, is still in its loop with interrupts off: no signal is delivered, the greeting is never
    printed, and control never returns to the program or its parent. *)
Theorem sigtest_ends_machine `{PortIO D, !KeyQueue D, Hotkeys D fs} y kesp kebp ns lit ilit buf badbuf charbuf segv alrm
    conv (k : kernel D) t scr f f0 keys rest q t1 args n e1 e2 i j :
  tables_ok y → (2 ≤ j)%nat → 0 < buf < 4294967296 → user_buffer y k buf SIGTEST_BUFSIZE →
  Forall (literal_placed y fst k) (sig_texts lit ilit badbuf) →
  Forall (λ x : Z * list Z, apart (fst x, zlen (snd x) + 1) (buf, SIGTEST_BUFSIZE)) (sig_texts lit ilit badbuf) →
  running y ns fst (sig_texts lit ilit badbuf) k [] false t scr f k →
  t !! 0%nat = Some (Some f0) → f_kind f0 = Stdin →
  (∀ m, changes_only [(buf, SIGTEST_BUFSIZE)] (kmem k) m → fs_sound (kfs (term k)) m) →
  cstr (kmem k) (arg_at (current_pcb k)) args → zlen args ≤ 1023 → arg_size k ≤ SIGTEST_BUFSIZE →
  mapped_by (paging_symbols y) (process_entries (paging_symbols y) n) (pages k) →
  disjoint_regions VIDEO page_size conv scratch_size →
  clear_of conv (ilit page_fault_text) (zlen page_fault_text + 1) →
  types k (Tty (show (sig_intro args ++ ASK_NAME) scr) [] [] false 0) keys q t1 →
  returns (x ← sigtest y kesp kebp lit buf badbuf charbuf segv alrm (k, replicate (S (length keys)) IRQ_KEYBOARD ++ rest);
           match x with
           | inr (k1, rest1) => p ← run_helper conv ilit j excep_PF_helper e1 e2 i k1; Ok (p, rest1)
           | inl _ => Err OutOfBounds
           end)
    (λ '(p, rest1), spins p ∧ rest1 = rest ∧
      shows (kcon (term (machine p))) (show page_fault_text (show_char 10 (t_screen t1)))).
Proof.
  intros Hy Hj Hbuf Hub Hlit Hap Hrun Hf0 K0 Hsnd Ha Hz Has Hpg Hd Hcl Hty. eapply returns_bind.
  { by apply (sigtest_faults y kesp kebp ns Hy lit ilit buf badbuf charbuf segv alrm k Hbuf Hub Hlit Hap t scr f f0 k keys rest
      q t1 args n Hrun Hf0 K0 Hsnd Ha Hz Has Hpg). }
  intros x (k1 & r & -> & _ & Hrun1). eapply returns_bind.
  { by apply (page_fault_reports y ns lit ilit badbuf k conv j i _ _ f k1 e1 e2 Hrun1). }
  intros p [Hp Hs]. by apply returns_Ok.
Qed.

(** The program with the argument 1, and the keys h and ENTER. *)
Definition sig_literals : list (list Z) := [INSTALLING; ASK_NAME].
Definition sig_ilit (s : list Z) : Z := 0x450000.
Definition sig_mem : mem :=
  wr_bytes (wr_bytes (prog_mem sig_literals) (arg_at (pcb_at 1)) [49; 0]) 0x450000 (page_fault_text ++ [0]).
Definition sig_console : con trace := set_dev (Trace [] [0x23; 0x1C]) (fresh sig_mem).
Definition sig_kernel (p : paging) : kernel trace :=
  Kernel (Kb sig_console demo_fs no_mods empty_line 0) p ∅ 1 0 1 0 0.
Definition sig_typed : tty := Tty (show (INSTALLING ++ ASK_NAME ++ codes "h") blank_screen) (codes "h") [] false 1.

Lemma sig_running p :
  running demo_layout prog_names fst (sig_texts (place sig_literals) sig_ilit 0x804B000) (sig_kernel p) [] false
    prog_table blank_screen demo_fs (sig_kernel p).
Proof.
  constructor; [apply bare_world; by_decide|by constructor| |by_decide|done].
  exists 0. exact (represents_set_dev (Trace [] [0x23; 0x1C]) (fresh_kb sig_mem) idle (proj1 (fresh_kb_ok _))).
Qed.

Lemma sig_types p :
  types (sig_kernel p) (Tty (show (sig_intro [49] ++ ASK_NAME) blank_screen) [] [] false 0) [0x23] [] sig_typed.
Proof.
  split_and!; [unfold scancodes; repeat constructor; lia|exists no_mods; vm_compute; reflexivity|].
  vm_compute. reflexivity.
Qed.

Lemma sigtest_ends_machine_witness :
  ∃ p, returns (x ← @sigtest trace _ (quiet_hotkeys trace fs) demo_layout 0 0 (place sig_literals) 0x8049000 0x804B000
                      0x804B004 0x8048100 0x8048200 (sig_kernel p, replicate 2 IRQ_KEYBOARD ++ []);
                match x with
                | inr (k1, rest1) => p ← @run_helper trace _ (quiet_hotkeys trace fs) 0x460000 sig_ilit 1000 excep_PF_helper 2 0 false k1; Ok (p, rest1)
                | inl _ => Err OutOfBounds
                end)
    (λ '(p, rest1), spins p ∧ rest1 = [] ∧
      shows (kcon (term (machine p))) (show page_fault_text (show_char 10 (t_screen sig_typed)))).
Proof.
  destruct (create_paging_result boot_symbols boot_symbols_ok 1 boot_paging boot_paging_ok ltac:(lia))
    as (p & _ & _ & Hpg & _). exists p.
  apply (@sigtest_ends_machine trace _ _ (quiet_hotkeys trace fs) demo_layout 0 0 prog_names (place sig_literals) sig_ilit
    0x8049000 0x804B000 0x804B004 0x8048100 0x8048200 0x460000 (sig_kernel p) prog_table blank_screen demo_fs
    (File Stdin (codes "STDIN") 0 0) [0x23] [] [] sig_typed [49] 1 2 0 false 1000 demo_tables_ok ltac:(lia) ltac:(lia)
    ltac:(split; [lia|by_decide]) ltac:(by_decide) ltac:(by_decide) (sig_running p) eq_refl eq_refl (λ _ _, I)
    ltac:(by_decide) ltac:(by_decide) ltac:(by_decide) Hpg ltac:(by_decide) ltac:(by_decide) (sig_types p)).
Defined.
