(* ===== verification/UserShell.v ===== *)
(** * ece391shell.c

    The shell: it reads a line, gives it to execute and says how that went,
    until the line is exit. *)

From S2P Require Import Prelude Memory LibString Ports Pic Rtc Console Keyboard Paging FileSys.
From S2P Require Import FsScreen Process Syscall Descriptors ReadWrite Typing Calls Exec ExecSpec ExecProps.
From S2P Require Import Execute Frame UserLib User UserRun UserExec.

(** ** The program *)

Definition SHELL_BUFSIZE := 1024.
Definition STARTING := line_of "Starting 391 Shell".
Definition PROMPT := codes "391OS> ".
Definition KEYBOARD_FAILED := line_of "read from keyboard failed".
Definition EXIT := codes "exit".
Definition NO_COMMAND := line_of "no such command".
Definition BY_EXCEPTION := line_of "program terminated by exception".
Definition ABNORMALLY := line_of "program terminated abnormally".

Section program.
Context `{PortIO D, Hotkeys D fs} (y : layout) (kesp kebp : Z).
Context (program : iret_frame → @proc D → res (@proc D * Z)).
Context (lit : list Z → Z) (buf : Z).
Implicit Types p : @proc D.

Local Notation puts s p := (ece391_fdputs y kesp kebp 1 (lit s) p).

(** What the shell says to the result of execute. *)
Definition shell_report (rval : Z) p : res proc :=
  if -1 =? rval then puts NO_COMMAND p
  else if 256 =? rval then puts BY_EXCEPTION p
  else if negb (0 =? rval) then puts ABNORMALLY p
  else Ok p.

(** The line as a string: without its newline, a 0 behind it. *)
Definition strip_line (cnt : Z) p : @proc D :=
  let cnt := if (0 <? cnt) && (10 =? rd (pmem p) (buf + (cnt - 1))) then cnt - 1 else cnt in
  store (buf + cnt) 0 p.

(** What the shell does with the string in its buffer. *)
Definition shell_command p : res (proc + proc * Z) :=
  c ← ece391_strcmp (pmem p) buf (lit EXIT);
  if 0 =? c then Ok (inr (p, 0))
  else if 0 =? rd (pmem p) buf then Ok (inl p)
  else
    '(p, rval) ← ece391_execute y kesp kebp program buf p;
    p ← shell_report rval p;
    Ok (inl p).

Definition shell_round p : res (proc + proc * Z) :=
  p ← puts PROMPT p;
  '(p, cnt) ← ece391_read y kesp kebp 0 buf (SHELL_BUFSIZE - 1) p;
  if -1 =? cnt then p ← puts KEYBOARD_FAILED p; Ok (inr (p, 3))
  else shell_command (strip_line cnt p).

Definition shell p : res (proc * Z) :=
  p ← puts STARTING p;
  whileM shell_round p.
End program.

(** ** The command in a line *)

(** The first word: up to the first blank of the first 32 characters. *)
Fixpoint word (n : nat) (l : list Z) : list Z :=
  match n, l with
  | S n, c :: l => if c =? 32 then [] else c :: word n l
  | _, _ => []
  end.
Definition first_word : list Z → list Z := word 32.

(** The arguments execute takes from a line: what follows the first blank among
    the first 32 characters.  Without one they are whatever text lies further
    on in the buffer. *)
Definition line_args (l args : list Z) : Prop :=
  match list_find (λ c, c = 32) (take 32 l) with
  | Some (i, _) => args = drop (S i) l
  | None => True
  end.

Lemma c_prefix_word n l rest :
  Forall (λ c, c ≠ 0) l →
  let b := take n (l ++ 0 :: rest) in
  c_prefix (take (match list_find (λ c, c = 32) b with Some (i, _) => i | None => length b end) b) = word n l.
Proof.
  intros Hl. revert n. induction Hl as [|c l Hc Hl IH]; intros [|n]; cbn [app take word list_find length c_prefix]; try done.
  - rewrite decide_False by done. destruct (list_find _ _) as [[i x]|]; done.
  - destruct (Z.eqb_spec c 32) as [->|Hne]; [by rewrite decide_True by done|].
    rewrite decide_False by done. specialize (IH n). cbv zeta in IH. rewrite <- IH.
    destruct (list_find _ _) as [[i x]|]; cbn; by rewrite (proj2 (Z.eqb_neq c 0)).
Qed.

(** There is a string at every address before a 0. *)
Lemma cstr_exists m a z : a ≤ z → rd m z = 0 → ∃ l, cstr m a l ∧ a + zlen l ≤ z.
Proof.
  intros Haz Hz. remember (Z.to_nat (z - a)) as n eqn:En. revert a Haz En.
  induction n as [|n IH]; intros a Haz En.
  - exists []. assert (a = z) as -> by lia. split; [by apply cstr_nil|cbn; lia].
  - destruct (decide (rd m a = 0)) as [|Hne]; [exists []; split; [by apply cstr_nil|cbn; lia]|].
    destruct (IH (a + 1) ltac:(lia) ltac:(lia)) as (l & Hl & Hle). exists (rd m a :: l).
    split; [by apply cstr_cons|rewrite zlen_cons; lia].
Qed.

Section line.
Context (m : mem) (a : Z) (l : list Z) (Hl : cstr m a l).

(** The bytes the parser looks at: the line, its 0, and what is behind. *)
Lemma line_bytes n : 0 ≤ n → bytes m a n = take (Z.to_nat n) (l ++ 0 :: bytes m (a + zlen l + 1) (n - 1)).
Proof.
  intros Hn. destruct (decide (n = 0)) as [->|]; [by rewrite bytes_0 by lia|].
  destruct Hl as (_ & Hb & Hz). assert (bytes m a (n + zlen l) = l ++ 0 :: bytes m (a + zlen l + 1) (n - 1)) as <-.
  { rewrite (Z.add_comm n), bytes_app, Hb, (bytes_cons _ (a + zlen l)), Hz by lia. done. }
  rewrite bytes_app by lia. pose proof (zlen_bytes m a n Hn) as Hlen.
  rewrite take_app_length' by lia. done.
Qed.

Lemma parsed_first_word : parsed_name m a = first_word l.
Proof.
  pose proof (c_prefix_word 32 l (bytes m (a + zlen l + 1) (32 - 1)) (proj1 Hl)) as Hw.
  pose proof (line_bytes 32 ltac:(lia)) as Hb. change (Z.to_nat 32) with 32%nat in Hb.
  cbv zeta in Hw. rewrite <- Hb in Hw. unfold first_word. rewrite <- Hw. unfold parsed_name. f_equal.
  pose proof (parse_end_range m a) as Hr. pose proof (zlen_bytes m a 32 ltac:(lia)) as Hlen.
  replace 32 with (parse_end m a + (32 - parse_end m a)) at 2 by lia. rewrite bytes_app by lia.
  rewrite take_app_length'; [done|]. apply Nat2Z.inj. rewrite zlen_bytes by lia.
  unfold parse_end. destruct (list_find _ _) as [[i x]|]; [done|]. lia.
Qed.

(** The arguments, when a 0 ends the buffer behind the line. *)
Lemma parsed_args last :
  a + 32 < last → a + zlen l < last → rd m last = 0 →
  ∃ args, cstr m (a + parse_end m a + 1) args ∧ line_args l args ∧ a + parse_end m a + 1 + zlen args ≤ last.
Proof.
  intros H32 Hlast Hz. pose proof (parse_end_range m a) as Hr.
  destruct (cstr_exists m (a + parse_end m a + 1) last ltac:(lia) Hz) as (args & Ha & Hle).
  exists args. split_and!; [done| |done]. unfold line_args.
  destruct (list_find (λ c, c = 32) (take 32 l)) as [[i x]|] eqn:E; [|done].
  assert (parse_end m a = Z.of_nat i) as Ei.
  { unfold parse_end. pose proof (line_bytes 32 ltac:(lia)) as Hb. change (Z.to_nat 32) with 32%nat in Hb.
    rewrite Hb, take_app. by rewrite (list_find_app_l _ _ _ _ _ E). }
  apply list_find_Some in E as (Hi & _ & _). apply lookup_take_Some in Hi as [Hi _]. apply lookup_lt_Some in Hi.
  apply (cstr_unique m (a + parse_end m a + 1)); [done|].
  pose proof (cstr_drop m a (take (S i) l) (drop (S i) l)) as Hd. rewrite take_drop, length_take in Hd.
  specialize (Hd Hl). rewrite Ei. by replace (a + Z.of_nat i + 1) with (a + Z.of_nat (S i `min` length l)) by lia.
Qed.
End line.

(** ** One command *)

(** The strings the shell relies on: the two names execute copies, its own
    messages, and the 0 at the end of its buffer, as an empty string there. *)
Definition shell_texts : list (list Z) :=
  [[]; codes "STDIN"; codes "STDOUT"; STARTING; PROMPT; KEYBOARD_FAILED; EXIT; NO_COMMAND; BY_EXCEPTION; ABNORMALLY].

(** What the shell says to the result of execute. *)
Definition verdict_of (rval : Z) : list Z :=
  if -1 =? rval then NO_COMMAND else if 256 =? rval then BY_EXCEPTION
  else if negb (0 =? rval) then ABNORMALLY else [].

Section shell_spec.
Context `{PortIO D, !KeyQueue D, Hotkeys D fs} (y : layout) (kesp kebp : Z) (ns : list (list Z)).
Context (Hy : tables_ok y) (Hsym : symbols_ok (paging_symbols y)).
Context (Hesp : 0 ≤ kesp < 4294967296) (Hebp : 0 ≤ kebp < 4294967296).
Context (program : iret_frame → @proc D → res (@proc D * Z)).
Context (lit : list Z → Z) (buf : Z) (k0 : kernel D) (n : Z).
Context (Hlit : Forall (literal_placed y lit k0) shell_texts) (Hpar : parent_ok y lit shell_texts k0 n).
Context (Hbuf : USER_PROG_START ≤ buf < 4294960000) (Hend : lit [] = buf + 1023).
Context (Hub : user_buffer y k0 buf 1023) (Hap : Forall (λ s, apart (lit s, zlen s + 1) (buf, 1023)) shell_texts).
Implicit Types k : kernel D.

Local Notation runs t scr f k := (running y ns lit shell_texts k0 [] false t scr f k).
Local Notation ready k := (can_execute y kesp n k).

(** What the shell prints for a line: nothing for an empty one, its complaint
    for a command that execute refuses, and the output of a program that runs,
    with a complaint behind it if the low byte of its status is not 0. *)
Inductive answers : list Z → list Z → Prop :=
  | answers_empty : answers [] []
  | answers_refused l : l ≠ [] → refused ns (first_word l) k0 → answers l NO_COMMAND
  | answers_ran l kf out status :
      l ≠ [] → names_inode ns (kmem k0) (kfs (term k0)) (first_word l) kf →
      executable (content (kmem k0) (kfs (term k0)) kf) →
      (∀ args, line_args l args →
         runs_as y kesp kebp n program (content (kmem k0) (kfs (term k0)) kf) args out status) →
      answers l (out ++ verdict_of (u8 status)).

(** The directory and the files are those of the start. *)
Lemma found_now t scr f k l kf :
  runs t scr f k → names_inode ns (kmem k0) (kfs (term k0)) l kf →
  names_inode ns (kmem k) (kfs (term k)) l kf ∧
  content (kmem k) (kfs (term k)) kf = content (kmem k0) (kfs (term k0)) kf.
Proof.
  intros Hrun (Hl & i & Hi & Hkf). pose proof (ru_same _ _ _ _ _ _ _ _ _ _ _ Hrun) as Hsame.
  pose proof (running_exec_mem y ns lit shell_texts k0 n Hpar t scr f k Hrun) as Hem.
  assert (names_inode ns (kmem k) (kfs (term k)) l kf) as Hf.
  { split; [done|]. exists i. split; [done|]. rewrite <- Hkf.
    pose proof Hi as (Hx & _)%list_find_Some. apply lookup_lt_Some in Hx.
    destruct (fs_names _ _ _ _ (em_fs _ _ _ _ _ Hem)) as [Hlen _].
    exact (proj2 (sf_entries _ _ _ Hsame (Z.of_nat i) ltac:(lia))). }
  split; [exact Hf|]. apply (sf_content _ _ _ Hsame). rewrite <- (sf_inodes _ _ _ Hsame).
  exact (names_inode_valid y ns n _ _ l kf Hem Hf).
Qed.

Lemma refused_now t scr f k l : runs t scr f k → refused ns l k0 → refused ns l k.
Proof.
  intros Hrun [Hmiss|(kf & Hf & Hlen & Hmagic)]; [by left|right]. exists kf.
  destruct (found_now t scr f k l kf Hrun Hf) as [Hf' ->]. done.
Qed.

(** The line in the buffer is a command for execute. *)
Lemma line_command t scr f k l :
  runs t scr f k → cstr (kmem k) buf l → zlen l ≤ 128 →
  ∃ args, command_ok y ns n buf (first_word l) args k ∧ line_args l args.
Proof.
  intros Hrun Hl Hz. unfold USER_PROG_START in Hbuf.
  assert (rd (kmem k) (buf + 1023) = 0) as Hend0.
  { rewrite <- Hend. apply cstr_nil. apply (running_text _ _ _ _ _ _ _ _ _ _ _ [] Hrun). by left. }
  destruct (parsed_args (kmem k) buf l Hl (buf + 1023) ltac:(lia) ltac:(lia) Hend0) as (args & Ha & Hla & Hle).
  exists args. split; [|done]. pose proof (running_exec_mem y ns lit shell_texts k0 n Hpar t scr f k Hrun) as Hem.
  pose proof (running_counter y ns lit shell_texts k0 n Hpar t scr f k Hrun) as Hc.
  pose proof (pa_counter _ _ _ _ _ Hpar) as [_ Hn]. pose proof (parse_end_range (kmem k) buf) as Hr.
  constructor; [split; [done|lia]|lia|exact Hem|by apply parsed_first_word|exact Ha|lia|].
  pose proof (em_low _ _ _ _ _ Hem) as Hlow.
  pose proof (Forall_lookup_1 _ _ 9%nat _ Hlow eq_refl) as [_ L9].
  pose proof (Forall_lookup_1 _ _ 10%nat _ Hlow eq_refl) as [_ L10].
  unfold USER_PROG_START in *. cbn [fst snd] in *.
  rewrite !Forall_cons. unfold apart, disjoint_regions. cbn [fst snd]. split_and!; [lia|lia|done].
Qed.

Lemma report_prints t scr f k sched rval :
  runs t scr f k → ready k →
  returns (shell_report y kesp kebp lit rval (k, sched)) (λ '(k', rest), rest = sched ∧
    runs t (show (verdict_of rval) scr) f k' ∧ ready k' ∧ kmods (term k') = kmods (term k) ∧ queue k' = queue k).
Proof.
  intros Hrun Hcan. unfold shell_report, verdict_of.
  repeat case_match; try (apply (puts_ready y kesp kebp ns Hy lit shell_texts k0 Hlit n t scr f); [done|done|];
    unfold shell_texts; clear; set_solver).
  by apply returns_Ok.
Qed.

Lemma command_answered t scr f k sched l text :
  runs t scr f k → ready k → cstr (kmem k) buf l → zlen l ≤ 128 →
  if decide (l = EXIT) then
    shell_command y kesp kebp program lit buf (k, sched) = Ok (inr ((k, sched), 0))
  else answers l text →
    returns (shell_command y kesp kebp program lit buf (k, sched)) (λ x, ∃ k' f', x = inl (k', sched) ∧
      runs t (show text scr) f' k' ∧ ready k' ∧ kmods (term k') = kmods (term k) ∧ queue k' = queue k).
Proof.
  intros Hrun Hcan Hl Hz. unfold shell_command, pmem. cbn [fst].
  assert (cstr (kmem k) (lit EXIT) EXIT) as Hx.
  { apply (running_text _ _ _ _ _ _ _ _ _ _ _ EXIT Hrun). unfold shell_texts. clear. set_solver. }
  rewrite (ece391_strcmp_cstr _ _ _ l EXIT Hl Hx), bind_Ok by lia.
  pose proof (first_difference_0 l EXIT (cstr_text _ _ _ Hl) (cstr_text _ _ _ Hx)) as Hd.
  destruct (decide (l = EXIT)) as [->|Hne]; [by rewrite (proj2 Hd)|].
  rewrite (proj2 (Z.eqb_neq 0 _)) by (intros E; apply Hne, Hd; done). rewrite (cstr_head _ _ _ Hl).
  pose proof (ru_fs _ _ _ _ _ _ _ _ _ _ _ Hrun) as Ef. pose proof (ru_tty _ _ _ _ _ _ _ _ _ _ _ Hrun) as [e Hrep].
  assert (l ≠ [] → (0 =? hd 0 l) = false) as Hhd.
  { destruct l as [|c l']; [done|]. intros _. apply Z.eqb_neq. destruct Hl as [Hnz _].
    apply Forall_cons in Hnz as [Hc _]. cbn. congruence. }
  unfold USER_PROG_START in Hbuf. destruct (line_command t scr f k l Hrun Hl Hz) as (args & Hco & Hla).
  inversion 1 as [|l1 Hne1 Href|l1 kf out status Hne1 Hf Hexec Hprog]; subst l text.
  - apply returns_Ok. by exists k, f.
  - rewrite Hhd by done. eapply returns_bind.
    { apply (execute_refused y kesp kebp ns lit shell_texts k0 n Hpar t scr f e k sched buf (first_word l1) args Hrun Hrep Hcan);
        [lia|done|]. by eapply refused_now. }
    intros [[k1 s1] v] (-> & -> & Hrun1 & Hcan1 & Hm1 & Hq1).
    eapply returns_bind; [by apply (report_prints t scr _ k1 sched (-1) Hrun1)|].
    intros [k2 s2] (-> & Hrun2 & Hcan2 & Hm2 & Hq2). apply returns_Ok. exists k2, (kfs (term k1)).
    split_and!; [done|exact Hrun2|done|congruence|congruence].
  - rewrite Hhd by done. destruct (found_now t scr f k _ kf Hrun Hf) as [Hf' Hcont]. rewrite <- Hcont in Hexec.
    eapply returns_bind.
    { apply (execute_ran y kesp kebp ns Hy Hsym lit shell_texts k0 n Hpar t scr f e k sched program buf (first_word l1) kf
        args out status Hrun Hrep Hcan Hesp Hebp ltac:(lia) Hco Hf' Hexec). rewrite Hcont. by apply Hprog. }
    intros [[k1 s1] v] (-> & -> & Hrun1 & Hcan1 & Hm1 & Hq1).
    eapply returns_bind; [by apply (report_prints t _ _ k1 sched (u8 status) Hrun1)|].
    intros [k2 s2] (-> & Hrun2 & Hcan2 & Hm2 & Hq2). apply returns_Ok. exists k2, (kfs (term k1)).
    rewrite <- show_app in Hrun2. split_and!; [done|exact Hrun2|done|congruence|congruence].
Qed.

(** ** One round *)

(** The line, once it is typed, is a string in the buffer. *)
Lemma line_stripped t scr f k sched l :
  runs t scr f k → ready k → bytes (kmem k) buf (zlen l + 1) = l ++ [10] → zlen l ≤ 128 → Forall (λ c, c ≠ 0) l →
  ∃ k', strip_line buf (zlen l + 1) (k, sched) = (k', sched) ∧ runs t scr f k' ∧ ready k' ∧
    cstr (kmem k') buf l ∧ kmods (term k') = kmods (term k) ∧ queue k' = queue k.
Proof.
  intros Hrun Hcan Hb Hz Hnz. unfold strip_line, pmem. cbn [fst].
  assert (rd (kmem k) (buf + (zlen l + 1 - 1)) = 10) as ->.
  { rewrite Z.add_simpl_r. rewrite bytes_snoc in Hb by lia. apply app_inj_2 in Hb as [_ Hb]; [by injection Hb|done]. }
  assert ((if (0 <? zlen l + 1) && (10 =? 10) then zlen l + 1 - 1 else zlen l + 1) = zlen l) as ->
    by (rewrite (proj2 (Z.ltb_lt 0 _)); [cbn; lia|lia]).
  assert (harmless y lit shell_texts k0 (buf, 1023)) as Hh by by apply buffer_harmless.
  destruct (put_running y ns lit shell_texts k0 [] false t scr f k sched buf 1023 (zlen l) 0 Hrun Hh Hub ltac:(lia))
    as [-> Hrun']. set (k' := set_mem _ k) in *. exists k'. split_and!; [done|exact Hrun'| | |done|done].
  - apply (can_execute_kept y kesp n k); [done|done|done|].
    eapply (changes_same_bytes [(buf, 1023)]).
    + apply (wr_changes _ (buf, 1023)); [by left|]. unfold inside. cbn. lia.
    + constructor; [|done]. rewrite (running_pcb _ _ _ _ _ _ _ _ _ _ _ Hrun).
      pose proof (Forall_lookup_1 _ _ 6%nat _ (proj2 Hub) eq_refl) as Hx. apply apart_sym in Hx.
      eapply apart_part; [exact Hx|lia..].
  - apply (terminated _ _ l [10]); [exact Hb|done].
Qed.

(** The interrupts of the keys of a line and its ENTER. *)
Definition presses (keys : list Z) : list irq := replicate (S (length keys)) IRQ_KEYBOARD.

Lemma round_answered t scr f k f0 keys rest q m t1 text :
  runs t scr f k → ready k → t !! 0%nat = Some (Some f0) → f_kind f0 = Stdin → fs_sound (kfs (term k)) (kmem k) →
  scancodes keys → type_keys (kmods (term k)) (Tty (show PROMPT scr) [] [] false 0) keys = Some (m, t1) →
  queue k = keys ++ 0x1C :: q → Forall (λ c, c ≠ 0) (typed t1) →
  let round := shell_round y kesp kebp program lit buf (k, presses keys ++ rest) in
  let t' := <[0%nat := Some (set_pos (u32 (f_pos f0 + (zlen (typed t1) + 1))) f0)]> t in
  let scr1 := show_char 10 (t_screen t1) in
  if decide (typed t1 = EXIT) then
    returns round (λ x, ∃ k', x = inr ((k', rest), 0) ∧ queue k' = q ∧ runs t' scr1 f k')
  else answers (typed t1) text →
    returns round (λ x, ∃ k' f', x = inl (k', rest) ∧ queue k' = q ∧ kmods (term k') = update_mods 0x1C m ∧
      runs t' (show text scr1) f' k' ∧ ready k').
Proof.
  intros Hrun Hcan Hf0 K0 Hsnd Hsc Hkeys Hqu Hnz. cbv zeta. set (l := typed t1) in *.
  set (t' := <[0%nat := _]> t). set (scr1 := show_char 10 _).
  assert (returns (p ← ece391_fdputs y kesp kebp 1 (lit PROMPT) (k, presses keys ++ rest);
                   ece391_read y kesp kebp 0 buf (SHELL_BUFSIZE - 1) p)
    (λ '((k', rest'), r), ∃ k2, rest' = rest ∧ -1 < r ∧ strip_line buf r (k', rest) = (k2, rest) ∧ cstr (kmem k2) buf l ∧
      zlen l ≤ 128 ∧ queue k2 = q ∧ kmods (term k2) = update_mods 0x1C m ∧ runs t' scr1 f k2 ∧ ready k2)) as Hread.
  { unfold USER_PROG_START in Hbuf.
    destruct (ask_running y kesp kebp ns Hy lit shell_texts k0 Hlit t scr f k f0 PROMPT buf (SHELL_BUFSIZE - 1) 1023
      keys rest q t1 Hrun) as ([[k1 s1] r] & E & -> & -> & Hr & Hb & Hq1 & Hblk & Hmods & Hrun1);
      try (unfold SHELL_BUFSIZE; done || lia); [unfold shell_texts; clear; set_solver|by split; [|split; [by eexists|]]|].
    assert (ready k1) as Hcan1.
    { pose proof E as ([k3 r3] & E3%fdputs_frame & E4)%res_bind_Ok.
      apply do_call_frame in E4; [|unfold plain_call, SYS_READ; by_decide].
      apply (can_execute_kept y kesp n k); [done|by etransitivity; [apply E4|apply E3]..|done]. }
    eexists. split; [exact E|]. fold l in Hr, Hb, Hrun1 |- *. fold t' in Hrun1.
    destruct (line_stripped t' scr1 f k1 rest l Hrun1 Hcan1 Hb ltac:(lia) Hnz) as (k2 & Es & Hrun2 & Hcan2 & Hl & Hm2 & Hq2).
    exists k2. split_and!; [done|lia|exact Es|exact Hl|lia|congruence|rewrite Hm2; by apply Hmods|exact Hrun2|done]. }
  assert (∀ Q, (∀ k2, cstr (kmem k2) buf l → zlen l ≤ 128 → queue k2 = q → kmods (term k2) = update_mods 0x1C m →
      runs t' scr1 f k2 → ready k2 → returns (shell_command y kesp kebp program lit buf (k2, rest)) Q) →
    returns (shell_round y kesp kebp program lit buf (k, presses keys ++ rest)) Q) as Hround.
  { intros Q HQ. unfold shell_round. eapply returns_bind2; [exact Hread|].
    intros [[k1 s1] r] (k2 & -> & Hr & Es & Hl & Hz & Hq2 & Hm2 & Hrun2 & Hcan2).
    rewrite (proj2 (Z.eqb_neq (-1) r)) by lia. rewrite Es. by apply HQ. }
  destruct (decide (l = EXIT)) as [Hx|Hne]; [|intros Hans]; apply Hround; intros k2 Hl Hz Hq2 Hm2 Hrun2 Hcan2;
    pose proof (command_answered t' scr1 f k2 rest l text Hrun2 Hcan2 Hl Hz) as Hc.
  - rewrite decide_True in Hc by done. rewrite Hc. apply returns_Ok. by exists k2.
  - rewrite decide_False in Hc by done. eapply returns_mono; [exact (Hc Hans)|].
    intros x (k3 & f3 & -> & Hrun3 & Hcan3 & Hm3 & Hq3). exists k3, f3. split_and!; [done|congruence|congruence|done|done].
Qed.

(** ** A session *)

(** [dialogue m scr lines scr']: with the modifier keys in state [m], the
    screen [scr] and the keys of the [lines] to come, each with an ENTER behind
    it, the session ends with exit and leaves the screen [scr']. *)
Inductive dialogue : mods → screen → list (list Z) → screen → Prop :=
  | dialogue_exit m scr keys m1 t1 :
      scancodes keys → type_keys m (Tty (show PROMPT scr) [] [] false 0) keys = Some (m1, t1) →
      typed t1 = EXIT → dialogue m scr [keys] (show_char 10 (t_screen t1))
  | dialogue_line m scr keys m1 t1 text lines scr' :
      scancodes keys → type_keys m (Tty (show PROMPT scr) [] [] false 0) keys = Some (m1, t1) →
      Forall (λ c, c ≠ 0) (typed t1) → typed t1 ≠ EXIT → answers (typed t1) text →
      dialogue (update_mods 0x1C m1) (show text (show_char 10 (t_screen t1))) lines scr' →
      dialogue m scr (keys :: lines) scr'.

Definition all_keys (lines : list (list Z)) : list Z := concat ((λ keys, keys ++ [0x1C]) <$> lines).
Definition all_presses (lines : list (list Z)) : list irq := concat (presses <$> lines).

Context (Hsnd : ∀ k t, world y ns t k → same_files y k0 k → fs_sound (kfs (term k)) (kmem k)).

(** A state of the shell between two rounds. *)
Definition in_session (opened : table) (rest : list irq) (q : list Z) (scr' : screen) (p : @proc D) : Prop :=
  ∃ lines t scr f f0, tail t = opened ∧ snd p = all_presses lines ++ rest ∧ queue (fst p) = all_keys lines ++ q ∧
    runs t scr f (fst p) ∧ ready (fst p) ∧ t !! 0%nat = Some (Some f0) ∧ f_kind f0 = Stdin ∧
    dialogue (kmods (term (fst p))) scr lines scr'.

Lemma session_round opened rest q scr' p :
  in_session opened rest q scr' p →
  returns (shell_round y kesp kebp program lit buf p) (λ x,
    match x with
    | inl p' => in_session opened rest q scr' p' ∧ zlen rest ≤ zlen (snd p') < zlen (snd p)
    | inr ((k', rest'), v) => v = 0 ∧ rest' = rest ∧ queue k' = q ∧ ∃ t' f', tail t' = opened ∧ runs t' scr' f' k'
    end).
Proof.
  destruct p as [k sched]. intros (lines & t & scr & f & f0 & Hopen & Hs & Hq & Hrun & Hcan & Hf0 & K0 & Hd). cbn [fst snd] in *.
  subst sched. pose proof (Hsnd k t (ru_world _ _ _ _ _ _ _ _ _ _ _ Hrun) (ru_same _ _ _ _ _ _ _ _ _ _ _ Hrun)) as Hsound.
  inversion Hd as [m scr0 keys m1 t1 Hsc Hkeys Hx|m scr0 keys m1 t1 text lines1 scr1 Hsc Hkeys Hnz Hx Hans Hd1]; subst.
  - unfold all_presses, all_keys in *. cbn [fmap list_fmap concat app] in *. rewrite app_nil_r in *. rewrite <- app_assoc in Hq.
    assert (Forall (λ c, c ≠ 0) (typed t1)) as Hnz by (rewrite Hx; by_decide).
    pose proof (round_answered t scr f k f0 keys rest q m1 t1 [] Hrun Hcan Hf0 K0 Hsound Hsc Hkeys Hq Hnz) as Hr.
    cbv zeta in Hr. rewrite decide_True in Hr by done. eapply returns_mono; [exact Hr|].
    intros x (k1 & -> & Hq1 & Hrun1). split_and!; [done|done|done|]. eexists _, _. split; [|exact Hrun1]. by destruct t.
  - unfold all_presses, all_keys in *. cbn [fmap list_fmap concat app] in *. rewrite <- !app_assoc in *. cbn [app] in Hq.
    pose proof (round_answered t scr f k f0 keys (concat (presses <$> lines1) ++ rest) _ m1 t1 text Hrun Hcan Hf0 K0 Hsound
      Hsc Hkeys Hq Hnz) as Hr.
    cbv zeta in Hr. rewrite decide_False in Hr by done. eapply returns_mono; [exact (Hr Hans)|].
    intros x (k1 & f1 & -> & Hq1 & Hm1 & Hrun1 & Hcan1). split.
    + set (x0 := set_pos (u32 (f_pos f0 + (zlen (typed t1) + 1))) f0) in *.
      eexists lines1, (<[0%nat := Some x0]> t), _, f1, x0. cbn [fst snd]. rewrite Hm1.
      split_and!; [by destruct t|done|exact Hq1|exact Hrun1|done| |exact K0|exact Hd1].
      apply list_lookup_insert_eq. by eapply lookup_lt_Some.
    + cbn [snd]. rewrite !length_app. unfold presses at 3. rewrite length_replicate. lia.
Qed.

Lemma session_ends t scr f f0 k lines rest q scr' :
  runs t scr f k → ready k → t !! 0%nat = Some (Some f0) → f_kind f0 = Stdin →
  queue k = all_keys lines ++ q → dialogue (kmods (term k)) (show STARTING scr) lines scr' →
  zlen (all_presses lines) ≤ 4294967296 →
  returns (shell y kesp kebp program lit buf (k, all_presses lines ++ rest)) (λ '((k', rest'), v),
    v = 0 ∧ rest' = rest ∧ queue k' = q ∧ ∃ t' f', tail t' = tail t ∧ runs t' scr' f' k').
Proof.
  intros Hrun Hcan Hf0 K0 Hq Hd Hlen. unfold shell. eapply returns_bind.
  { apply (puts_ready y kesp kebp ns Hy lit shell_texts k0 Hlit n t scr f k _ STARTING Hrun Hcan).
    unfold shell_texts. clear. set_solver. }
  intros [k1 s1] (-> & Hrun1 & Hcan1 & Hm1 & Hq1).
  apply whileM_total with (I := in_session (tail t) rest q scr') (V := λ p, zlen (snd p) - zlen rest).
  - exists lines, t, (show STARTING scr), f, f0. cbn [fst snd]. rewrite Hm1, Hq1. by split_and!.
  - cbn [snd]. rewrite length_app. lia.
  - intros p Hp. eapply returns_mono; [by apply (session_round (tail t) rest q scr' p)|].
    intros [p'|[[k' rest'] v]]; [|done]. intros [Hp' Hlt]. split; [done|lia].
Qed.
End shell_spec.

(** ** Property *)

(** What the shell's session supposes of its surroundings: the kernel's tables
    and paging, its literals, buffer and control block, apart from one another,
    and commands of the function keys that stay sound. *)
Record shell_ok `{PortIO D, !KeyQueue D, Hotkeys D fs} (y : layout) (kesp kebp : Z) (ns : list (list Z))
    (lit : list Z → Z) (buf : Z) (k : kernel D) (n : Z) : Prop := {
  so_tables : tables_ok y;
  so_symbols : symbols_ok (paging_symbols y);
  so_stack : 0 ≤ kesp < 4294967296 ∧ 0 ≤ kebp < 4294967296;
  so_literals : Forall (literal_placed y lit k) shell_texts;
  so_parent : parent_ok y lit shell_texts k n;
  so_range : USER_PROG_START ≤ buf < 4294960000;
  so_end : lit [] = buf + 1023;
  so_buffer : user_buffer y k buf 1023;
  so_apart : Forall (λ s, apart (lit s, zlen s + 1) (buf, 1023)) shell_texts;
  so_keys (k' : kernel D) t : world y ns t k' → same_files y k k' → fs_sound (kfs (term k')) (kmem k')
}.

(** C2: a session with the shell, from the keys to the screen.  The user types
    lines, the last of them exit; every key is an interrupt that arrives while
    the shell waits in read.  For every line the shell prompts, echoes what is
    typed and answers: nothing to an empty line, its complaint to a command that
    is no program, and else what the program prints, run by execute to its halt,
    with a complaint behind it if its status is not 0.  At exit the shell ends
    with 0, having taken no key and no interrupt more, and its files, its
    strings and what it has open are as they were. *)
Theorem shell_session `{PortIO D, !KeyQueue D, Hotkeys D fs} y kesp kebp ns program lit buf (k : kernel D) n
    t scr f f0 lines rest q scr' :
  shell_ok y kesp kebp ns lit buf k n →
  running y ns lit shell_texts k [] false t scr f k → can_execute y kesp n k →
  t !! 0%nat = Some (Some f0) → f_kind f0 = Stdin →
  queue k = all_keys lines ++ q →
  dialogue y kesp kebp ns program k n (kmods (term k)) (show STARTING scr) lines scr' →
  zlen (all_presses lines) ≤ 4294967296 →
  returns (shell y kesp kebp program lit buf (k, all_presses lines ++ rest)) (λ '((k', rest'), v),
    v = 0 ∧ rest' = rest ∧ queue k' = q ∧ ∃ t' f',
      tail t' = tail t ∧ running y ns lit shell_texts k [] false t' scr' f' k').
Proof.
  intros [Hy Hsym [Hesp Hebp] Hlit Hpar Hbuf Hend Hub Hap Hsnd] Hrun Hcan Hf0 K0 Hq Hd Hlen.
  exact (session_ends y kesp kebp ns Hy Hsym Hesp Hebp program lit buf k n Hlit Hpar Hbuf Hend Hub Hap Hsnd
    t scr f f0 k lines rest q scr' Hrun Hcan Hf0 K0 Hq Hd Hlen).
Qed.

(** ** A concrete session

    The disk of Execute.v with the program a, as process 1, and a machine code
    that returns 3 at once.  The keys: a, b, an empty line and exit. *)
Definition shell_lit (s : list Z) : Z :=
  if decide (s = []) then 0x80493FF
  else if decide (s = codes "STDIN") then lit_STDIN demo_layout
  else if decide (s = codes "STDOUT") then lit_STDOUT demo_layout
  else place shell_texts s.

Definition shell_mem : mem :=
  let m := wr_bytes exec_disk 0x800 (bytes exec_disk 0x10000 64) in
  let m := put_stream (file_array_at (pcb_at 1) 0) (stdin_at demo_layout) "STDIN" (demo_literals m) in
  let m := put_stream (file_array_at (pcb_at 1) 1) (stdout_at demo_layout) "STDOUT" m in
  foldr (λ s m, wr_bytes m (shell_lit s) (s ++ [0])) (wr m (pcb_at 1) 1) shell_texts.

Definition shell_lines : list (list Z) := [[0x1E]; [0x30]; []; [0x12; 0x2D; 0x17; 0x14]].

Definition shell_kernel : kernel trace :=
  Kernel (Kb (set_dev (Trace [] (all_keys shell_lines)) (fresh shell_mem)) demo_fs no_mods empty_line 0)
    exec_paging ∅ 1 0 1 0 0.

Definition return_3 {D} (f : iret_frame) (p : @proc D) : res (@proc D * Z) := Ok (p, 3).

Lemma shell_world : world demo_layout demo_names prog_table shell_kernel.
Proof. apply bare_world; by_decide. Qed.

Lemma shell_running :
  running demo_layout demo_names shell_lit shell_texts shell_kernel [] false prog_table blank_screen demo_fs shell_kernel.
Proof.
  constructor; [exact shell_world|by constructor| |by_decide|reflexivity]. exists 0.
  exact (represents_set_dev (Trace [] (all_keys shell_lines)) (fresh_kb shell_mem) idle (proj1 (fresh_kb_ok _))).
Qed.

Lemma shell_ready : can_execute demo_layout 0x7FFF00 1 shell_kernel.
Proof.
  constructor; [exact (proj1 exec_paging_ok)|exact (proj2 exec_paging_ok)|].
  intros _. split; by_decide.
Qed.

Lemma shell_parent : parent_ok demo_layout shell_lit shell_texts shell_kernel 1.
Proof. constructor; by_decide. Qed.

Lemma shell_suits :
  @shell_ok trace _ _ (quiet_hotkeys trace fs) demo_layout 0x7FFF00 0x7FFF40 demo_names shell_lit 0x8049000 shell_kernel 1.
Proof.
  constructor; [exact demo_tables_ok|exact boot_symbols_ok|lia|by_decide|exact shell_parent|by_decide|by_decide| |by_decide|done].
  split; [lia|by_decide].
Qed.

(** The program a returns 3 whatever its arguments are. *)
Lemma return_3_runs content args :
  runs_as demo_layout 0x7FFF00 0x7FFF40 1 (@return_3 trace) content args [] 3.
Proof.
  intros k k1 sched Hs. apply returns_Ok. split_and!; [done|done|].
  pose proof (started_child demo_layout 1 _ _ _ _ _ k k1 boot_symbols_ok ltac:(lia) Hs) as Hran.
  constructor; [exact Hran|exact (proj1 (st_paging _ _ _ _ _ _ _ _ _ Hs))|apply changes_only_refl|apply fs_same_refl| |done].
  intros scr e Hrep. by exists e.
Qed.

Local Notation demo_answers := (answers demo_layout 0x7FFF00 0x7FFF40 demo_names
  (@return_3 trace) shell_kernel 1).
Local Notation demo_dialogue := (dialogue demo_layout 0x7FFF00 0x7FFF40 demo_names
  (@return_3 trace) shell_kernel 1).

Lemma shell_content : content (kmem shell_kernel) demo_fs 0 = exec_content.
Proof. by_decide. Qed.

Lemma answers_a : demo_answers (codes "a") ABNORMALLY.
Proof.
  apply (answers_ran demo_layout 0x7FFF00 0x7FFF40 demo_names return_3 shell_kernel 1 (codes "a") 0 [] 3);
    [done| | |intros args _; apply return_3_runs].
  - change (first_word (codes "a")) with [97]. split; [cbn; lia|]. exists 0%nat. split; [reflexivity|by_decide].
  - change (kfs (term shell_kernel)) with demo_fs. rewrite shell_content. split; [by_decide|reflexivity].
Qed.

Lemma answers_b : demo_answers (codes "b") NO_COMMAND.
Proof. apply answers_refused; [done|]. left. right. reflexivity. Qed.

(** The screen after a line [l] and its answer. *)
Definition after_line (scr : screen) (l text : list Z) : screen := show text (show_char 10 (show l (show PROMPT scr))).

Definition shell_screen : screen :=
  show_char 10 (show EXIT (show PROMPT
    (after_line (after_line (after_line (show STARTING blank_screen) (codes "a") ABNORMALLY) (codes "b") NO_COMMAND) [] []))).

Lemma dialogue_step keys l e text lines scr scr' :
  scancodes keys →
  (∀ scr, type_keys no_mods (Tty scr [] [] false 0) keys = Some (no_mods, Tty (show l scr) l [] false e)) →
  Forall (λ c, c ≠ 0) l → l ≠ EXIT → demo_answers l text →
  demo_dialogue no_mods (after_line scr l text) lines scr' → demo_dialogue no_mods scr (keys :: lines) scr'.
Proof.
  intros Hsc Hk Hnz Hne Ha Hd. unfold after_line in Hd.
  pose proof (dialogue_line demo_layout 0x7FFF00 0x7FFF40 demo_names (@return_3 trace) shell_kernel 1 no_mods scr keys
    no_mods (Tty (show l (show PROMPT scr)) l [] false e) text lines scr' Hsc (Hk (show PROMPT scr))) as Hx.
  cbn [typed t_screen] in Hx. assert (update_mods 0x1C no_mods = no_mods) as Em by reflexivity.
  rewrite Em in Hx. exact (Hx Hnz Hne Ha Hd).
Qed.

Lemma dialogue_last keys l e scr :
  scancodes keys →
  (∀ scr, type_keys no_mods (Tty scr [] [] false 0) keys = Some (no_mods, Tty (show l scr) l [] false e)) → l = EXIT →
  demo_dialogue no_mods scr [keys] (show_char 10 (show l (show PROMPT scr))).
Proof.
  intros Hsc Hk Hl.
  pose proof (dialogue_exit demo_layout 0x7FFF00 0x7FFF40 demo_names (@return_3 trace) shell_kernel 1 no_mods scr
    keys no_mods (Tty (show l (show PROMPT scr)) l [] false e) Hsc (Hk (show PROMPT scr)) Hl) as Hx.
  cbn [typed t_screen] in Hx. exact Hx.
Qed.

Lemma shell_dialogue : demo_dialogue no_mods (show STARTING blank_screen) shell_lines shell_screen.
Proof.
  apply (dialogue_step [0x1E] (codes "a") 1 ABNORMALLY); [by_decide|reflexivity|by_decide|by_decide|exact answers_a|].
  apply (dialogue_step [0x30] (codes "b") 1 NO_COMMAND); [by_decide|reflexivity|by_decide|by_decide|exact answers_b|].
  apply (dialogue_step [] [] 0 []); [by_decide|reflexivity|by_decide|by_decide|constructor|].
  apply (dialogue_last [0x12; 0x2D; 0x17; 0x14] EXIT 4); [by_decide|reflexivity|reflexivity].
Qed.

Lemma shell_session_witness :
  returns (@shell trace _ (quiet_hotkeys trace fs) demo_layout 0x7FFF00 0x7FFF40 (@return_3 trace) shell_lit 0x8049000
      (shell_kernel, all_presses shell_lines ++ []))
    (λ '((k', rest'), v), v = 0 ∧ rest' = [] ∧ queue k' = [] ∧ ∃ t' f', tail t' = tail prog_table ∧
       running demo_layout demo_names shell_lit shell_texts shell_kernel [] false t' shell_screen f' k').
Proof.
  exact (@shell_session trace _ _ (quiet_hotkeys trace fs) demo_layout 0x7FFF00 0x7FFF40 demo_names return_3 shell_lit
    0x8049000 shell_kernel 1 prog_table blank_screen demo_fs (File Stdin (codes "STDIN") 0 0) shell_lines [] []
    shell_screen shell_suits shell_running shell_ready eq_refl eq_refl eq_refl shell_dialogue ltac:(by_decide)).
Defined.
