(* ===== verification/UserGrep.v ===== *)
(** * ece391grep.c: the lines of the files that hold a pattern

    The text of a file as lines, the program, and the rules that take it
    through its buffer: a line that the buffer cuts is moved to its front and
    completed by the next read. *)

From S2P Require Import Prelude Memory LibString Ports Pic Rtc Console Keyboard Paging FileSys.
From S2P Require Import FsScreen Process Syscall Descriptors ReadWrite Typing Calls Exec UserLib User UserRun.

(** ** The program *)

Definition GREP_BUFSIZE := 1024.
Definition GREP_SBUFSIZE := 33.

Section programs.
Context `{PortIO D, Hotkeys D fs} (y : layout) (kesp kebp : Z) (lit : list Z → Z).
Implicit Types p : @proc D.

Definition puts (s : list Z) p : res proc := ece391_fdputs y kesp kebp 1 (lit s) p.

(** do_one_file, for a pattern at [s], a name at [fname] and the array [data]. *)
Section file.
Context (s fname data : Z).

Definition find_line_end (m : mem) (last line_start : Z) : res Z :=
  while (λ line_end,
    if (line_end <? last) && negb (10 =? rd m (data + line_end)) then inl (line_end + 1)
    else inr (Ok line_end)) line_start.

Definition print_line (line_start : Z) p : res proc :=
  p ← ece391_fdputs y kesp kebp 1 fname p;
  p ← puts (codes ":") p;
  p ← ece391_fdputs y kesp kebp 1 (data + line_start) p;
  puts [10] p.

(** The elements of [s] are signed, those of [data] are not. *)
Definition search_line (s_len line_start line_end : Z) p : res proc :=
  whileM (λ '(p, check),
    if check <? line_end then
      if s8 (rd (pmem p) s) =? rd (pmem p) (data + check) then
        r ← ece391_strncmp (pmem p) (data + check) s (u32 s_len);
        if 0 =? r then p ← print_line line_start p; Ok (inr p) else Ok (inl (p, check + 1))
      else Ok (inl (p, check + 1))
    else Ok (inr p)) (p, line_start).

(** The inner loop; the result has the new [last]. *)
Definition search_lines (s_len cnt last : Z) p : res (proc * Z) :=
  whileM (λ '(p, line_start),
    line_end ← find_line_end (pmem p) last line_start;
    if negb (10 =? rd (pmem p) (data + line_end)) && negb (0 =? cnt) && negb (line_start =? 0) then
      let p := store (data + line_end) 0 p in
      m ← ece391_strcpy (pmem p) data (data + line_start);
      Ok (inr ((set_mem m (fst p), snd p), last - line_start))
    else
      let p := store (data + line_end) 0 p in
      p ← search_line s_len line_start line_end p;
      let line_start := line_end + 1 in
      if last <=? line_start then Ok (inr (p, 0)) else Ok (inl (p, line_start))) (p, 0).

(** The outer loop; false after a read that failed. *)
Definition search_file (s_len fd : Z) p : res (proc * bool) :=
  whileM (λ '(p, last),
    '(p, cnt) ← ece391_read y kesp kebp fd (data + last) (GREP_BUFSIZE - last) p;
    if -1 =? cnt then p ← puts (line_of "file read failed") p; Ok (inr (p, false))
    else
      '(p, last) ← search_lines s_len cnt (last + cnt) p;
      if 0 =? cnt then Ok (inr (p, true)) else Ok (inl (p, last))) (p, 0).

Definition do_one_file p : res (proc * Z) :=
  len ← ece391_strlen (pmem p) s;
  let s_len := s32 len in
  '(p, fd) ← ece391_open y kesp kebp fname p;
  if -1 =? fd then p ← puts (line_of "file open failed") p; Ok (p, -1)
  else
    '(p, read) ← search_file s_len fd p;
    if negb read then Ok (p, -1)
    else
      '(p, r) ← ece391_close y kesp kebp fd p;
      if -1 =? r then p ← puts (line_of "file close failed") p; Ok (p, -1) else Ok (p, 0).
End file.

(** A round of main's loop, over the entries of the directory [fd]. *)
Definition grep_round (buf search data fd : Z) p : res (proc + proc * Z) :=
  '(p, cnt) ← ece391_read y kesp kebp fd buf (GREP_SBUFSIZE - 1) p;
  if 0 =? cnt then Ok (inr (p, 0))
  else if -1 =? cnt then p ← puts (line_of "directory entry read failed") p; Ok (inr (p, 3))
  else if 46 =? rd (pmem p) buf then Ok (inl p)
  else
    let p := store (buf + cnt) 0 p in
    '(p, r) ← do_one_file search buf data p;
    if negb (0 =? r) then Ok (inr (p, 3)) else Ok (inl p).

Definition grep (buf search data : Z) p : res (proc * Z) :=
  '(p, r) ← ece391_getargs y kesp kebp search GREP_BUFSIZE p;
  if negb (0 =? r) then p ← puts (line_of "could not read argument") p; Ok (p, 3)
  else
    '(p, fd) ← ece391_open y kesp kebp (lit (codes ".")) p;
    if -1 =? fd then p ← puts (line_of "directory open failed") p; Ok (p, 2)
    else whileM (grep_round buf search data fd) p.
End programs.

(** ** The lines of a text *)

(** [c] in lines, when [p] is the line so far.  A line ends at a newline, at
    the end of the text, or after 1024 characters. *)
Fixpoint lines_from (p c : list Z) : list (list Z) :=
  match c with
  | [] => match p with [] => [] | _ => [p] end
  | x :: c' =>
      if x =? 10 then p :: lines_from [] c'
      else if zlen p + 1 =? GREP_BUFSIZE then (p ++ [x]) :: lines_from [] c'
      else lines_from (p ++ [x]) c'
  end.

(** [pat] occurs in the line [l].  A pattern whose first character is above 127
    is never found. *)
Fixpoint occurs (pat l : list Z) : bool :=
  match l with
  | [] => false
  | _ :: l' => bool_decide (pat `prefix_of` l) || occurs pat l'
  end.

Definition found (pat l : list Z) : bool := (1 <=? hd 0 pat) && (hd 0 pat <? 128) && occurs pat l.

(** What grep prints for the text [c], begun with [p], of the file [name]. *)
Definition match_line (name pat l : list Z) : list Z :=
  if found pat l then name ++ codes ":" ++ l ++ [10] else [].
Definition matches (name pat p c : list Z) : list Z := concat (match_line name pat <$> lines_from p c).

Lemma occurs_spec pat l : pat ≠ [] → occurs pat l = true ↔ ∃ l1 l2, l = l1 ++ pat ++ l2.
Proof.
  intros Hp. induction l as [|a l IH]; cbn.
  - split; [done|]. intros (l1 & l2 & E). destruct l1, pat; done.
  - rewrite orb_true_iff, bool_decide_eq_true, IH. split.
    + intros [[l2 ->]|(l1 & l2 & ->)]; [by exists [], l2|by exists (a :: l1), l2].
    + intros ([|b l1] & l2 & E); [left; by exists l2|right]. injection E as _ ->. by exists l1, l2.
Qed.

Lemma found_spec pat l : found pat l = true ↔ 1 ≤ hd 0 pat < 128 ∧ ∃ l1 l2, l = l1 ++ pat ++ l2.
Proof.
  unfold found. rewrite !andb_true_iff, Z.leb_le, Z.ltb_lt. destruct pat as [|c pat]; [cbn; lia|].
  rewrite occurs_spec by done. tauto.
Qed.

Lemma lines_pending p l r :
  Forall (λ c, c ≠ 10) l → zlen p + zlen l < GREP_BUFSIZE → lines_from p (l ++ r) = lines_from (p ++ l) r.
Proof.
  intros Hl. revert p; induction Hl as [|x l Hx Hl IH]; intros p Hz; [by rewrite app_nil_r|].
  cbn [app lines_from]. rewrite zlen_cons in Hz. rewrite (proj2 (Z.eqb_neq x 10)), (proj2 (Z.eqb_neq _ _)) by (done || lia).
  rewrite IH by (rewrite zlen_app; cbn; lia). by rewrite <- app_assoc.
Qed.

Lemma lines_line p l r :
  Forall (λ c, c ≠ 10) l → zlen p + zlen l < GREP_BUFSIZE →
  lines_from p (l ++ 10 :: r) = (p ++ l) :: lines_from [] r.
Proof. intros Hl Hz. by rewrite lines_pending. Qed.

Lemma lines_full l r :
  Forall (λ c, c ≠ 10) l → zlen l = GREP_BUFSIZE → lines_from [] (l ++ r) = l :: lines_from [] r.
Proof.
  intros Hl Hz. destruct l as [|x l' _] using rev_ind; [done|].
  apply Forall_app in Hl as [Hl Hx]. apply Forall_cons in Hx as [Hx _]. rewrite zlen_app in Hz. cbn in Hz, Hx.
  rewrite <- app_assoc, lines_pending by (done || cbn; lia). cbn [app lines_from].
  by rewrite (proj2 (Z.eqb_neq x 10)), (proj2 (Z.eqb_eq _ _)) by (done || lia).
Qed.

Section matching.
Context (name pat : list Z).
Local Notation matches := (matches name pat).
Local Notation match_line := (match_line name pat).

Lemma matches_pending l r :
  Forall (λ c, c ≠ 10) l → zlen l < GREP_BUFSIZE → matches [] (l ++ r) = matches l r.
Proof. intros Hl Hz. unfold matches. by rewrite lines_pending. Qed.

Lemma matches_line l r :
  Forall (λ c, c ≠ 10) l → zlen l < GREP_BUFSIZE → matches [] (l ++ 10 :: r) = match_line l ++ matches [] r.
Proof. intros Hl Hz. unfold matches. by rewrite lines_line. Qed.

(** A last or a full line. *)
Lemma matches_last l r :
  Forall (λ c, c ≠ 10) l → (zlen l < GREP_BUFSIZE ∧ r = []) ∨ zlen l = GREP_BUFSIZE →
  matches [] (l ++ r) = match_line l ++ matches [] r.
Proof.
  intros Hl [[Hz ->]|Hz]; unfold matches; [|by rewrite lines_full].
  rewrite lines_pending by done. cbn. destruct l as [|x l]; [|done]. unfold match_line, found.
  cbn. by rewrite andb_false_r.
Qed.
End matching.

(** ** A line of the buffer *)

Lemma find_line_end_spec data m last start :
  0 ≤ start ≤ last → last ≤ GREP_BUFSIZE →
  returns (find_line_end data m last start) (λ stop, start ≤ stop ≤ last ∧
    Forall (λ c, c ≠ 10) (bytes m (data + start) (stop - start)) ∧ (stop < last → rd m (data + stop) = 10)).
Proof.
  unfold GREP_BUFSIZE. intros Hs Hl. unfold find_line_end. apply while_total with
    (I := λ stop, start ≤ stop ≤ last ∧ Forall (λ c, c ≠ 10) (bytes m (data + start) (stop - start)))
    (V := λ stop, last - stop).
  - split; [lia|]. replace (start - start) with 0 by lia. by rewrite bytes_0.
  - lia.
  - intros stop (Hstop & Hno). destruct (Z.ltb_spec stop last); cbn [andb]; cycle 1.
    { apply returns_Ok. split_and!; [lia|lia|done|lia]. }
    destruct (Z.eqb_spec 10 (rd m (data + stop))); cbn [negb].
    { apply returns_Ok. split_and!; [lia|lia|done|done]. }
    split; [|lia]. split; [lia|]. replace (stop + 1 - start) with (stop - start + 1) by lia.
    rewrite bytes_snoc by lia. apply Forall_app. split; [done|].
    constructor; [|done]. by replace (data + start + (stop - start)) with (data + stop) by lia.
Qed.

Section search.
Context `{PortIO D, Hotkeys D fs} (y : layout) (kesp kebp : Z) (ns : list (list Z)).
Context (Hy : tables_ok y) (lit : list Z → Z) (k0 : kernel D) (sto : list Z) (rdy : bool).
Context (texts : list (Z * list Z)) (Hlit : Forall (literal_placed y fst k0) texts).
Context (s fname data : Z) (pat name : list Z).
Context (Hpat : (s, pat) ∈ texts) (Hname : (fname, name) ∈ texts).
Context (Hcolon : (lit (codes ":"), codes ":") ∈ texts) (Hnl : (lit [10], [10]) ∈ texts).
Context (Hdata : 0 < data < 4294960000) (Hub : user_buffer y k0 data (GREP_BUFSIZE + 1)).
Context (Hap : Forall (λ x : Z * list Z, apart (fst x, zlen (snd x) + 1) (data, GREP_BUFSIZE + 1)) texts).
Implicit Types k : kernel D.

Local Notation runs t scr f k := (running y ns fst texts k0 sto rdy t scr f k).

Lemma data_harmless a n : 0 ≤ a → 0 ≤ n → a + n ≤ GREP_BUFSIZE + 1 →
  user_buffer y k0 (data + a) n ∧ harmless y fst texts k0 (data + a, n).
Proof.
  intros Ha Hn Hle. assert (user_buffer y k0 (data + a) n) as Hb.
  { split; [lia|]. eapply Forall_impl; [apply Hub|]. intros r Hr. eapply apart_part; [exact Hr|lia..]. }
  split; [done|]. apply buffer_harmless; [done|]. eapply Forall_impl; [exact Hap|]. intros x Hx.
  apply apart_sym in Hx. apply apart_sym. eapply apart_part; [exact Hx|lia..].
Qed.

(** Printing leaves the buffer alone. *)
Lemma data_kept m m' a :
  outside_video m m' → 0 ≤ a ≤ GREP_BUFSIZE → rd m' (data + a) = rd m (data + a).
Proof.
  intros Ho Ha. pose proof (Forall_lookup_1 _ _ 5%nat _ (proj2 Hub) eq_refl) as Hv.
  apply (same_except_rd VIDEO page_size); [exact Ho|].
  unfold apart, disjoint_regions in *. cbn [fst snd] in Hv. lia.
Qed.

Lemma print_line_prints t scr f k sched start l :
  runs t scr f k → 0 ≤ start → start + zlen l ≤ GREP_BUFSIZE → cstr (kmem k) (data + start) l →
  returns (print_line y kesp kebp lit fname data start (k, sched)) (λ '(k', rest), rest = sched ∧
    runs t (show (name ++ codes ":" ++ l ++ [10]) scr) f k' ∧ outside_video (kmem k) (kmem k')).
Proof.
  intros Hrun Hs Hz Hl. unfold print_line, puts. unfold GREP_BUFSIZE in *.
  eapply returns_bind; [exact (puts_running y kesp kebp ns Hy fst texts k0 sto rdy Hlit t scr f k sched _ Hrun Hname)|].
  intros [k1 r1] (-> & Hrun1 & _ & Ho1 & _). eapply returns_bind;
    [exact (puts_running y kesp kebp ns Hy fst texts k0 sto rdy Hlit t _ f k1 sched _ Hrun1 Hcolon)|].
  intros [k2 r2] (-> & Hrun2 & _ & Ho2 & _). pose proof (same_except_trans _ _ _ _ _ Ho1 Ho2) as Ho12.
  assert (cstr (kmem k2) (data + start) l) as Hl2.
  { eapply (cstr_frame VIDEO page_size); [exact Ho12| |exact Hl].
    pose proof (Forall_lookup_1 _ _ 5%nat _ (proj2 Hub) eq_refl) as Hv.
    unfold apart, disjoint_regions, GREP_BUFSIZE in *. cbn [fst snd] in Hv. lia. }
  eapply returns_bind.
  { apply (fdputs_running y kesp kebp ns Hy fst texts k0 sto rdy Hlit t _ f k2 sched (data + start) l Hrun2); [lia|done|lia]. }
  intros [k3 r3] (-> & Hrun3 & _ & Ho3 & _).
  eapply returns_mono; [exact (puts_running y kesp kebp ns Hy fst texts k0 sto rdy Hlit t _ f k3 sched _ Hrun3 Hnl)|].
  intros [k4 r4] (-> & Hrun4 & _ & Ho4 & _). rewrite <- !show_app in Hrun4. split_and!; [done|exact Hrun4|].
  eapply same_except_trans; [exact Ho12|]. by eapply same_except_trans.
Qed.

(** The characters from [check] on, compared with the pattern. *)
Lemma pattern_here m c l :
  cstr m s pat → zlen pat ≤ 1024 → cstr m c l → l ≠ [] →
  if s8 (rd m s) =? rd m c then
    returns (ece391_strncmp m c s (u32 (s32 (zlen pat))))
      (λ r, (0 =? r) = (1 <=? hd 0 pat) && (hd 0 pat <? 128) && bool_decide (pat `prefix_of` l))
  else (1 <=? hd 0 pat) && (hd 0 pat <? 128) && bool_decide (pat `prefix_of` l) = false.
Proof.
  intros Hs Hz Hl Hne. rewrite (cstr_head _ _ _ Hs), (cstr_head _ _ _ Hl).
  pose proof (cstr_text _ _ _ Hs) as Ts. pose proof (cstr_text _ _ _ Hl) as Tl.
  destruct l as [|b l]; [done|]. apply Forall_cons in Tl as [Hb Tl]. cbn in Hb. cbn [hd].
  destruct (Z.eqb_spec (s8 (hd 0 pat)) b) as [E|E].
  - destruct pat as [|a q]; [cbn in E; change (s8 0) with 0 in E; lia|]. cbn [hd] in *.
    pose proof (proj1 (proj1 (Forall_cons _ _ _) Ts)) as Ha. cbn in Ha.
    assert (a < 128 ∧ s8 a = a) as [Ha8 _].
    { revert E. unfold s8. destruct (decide (a < 128)); [|zlia]. split; [done|zlia]. }
    rewrite (proj2 (Z.leb_le 1 a)), (proj2 (Z.ltb_lt a 128)) by lia. cbn [andb].
    rewrite s32_small, u32_small by lia.
    rewrite (ece391_strncmp_cstr m c s (b :: l) (a :: q)) by (done || lia). apply returns_Ok.
    rewrite Nat2Z.id, (take_ge (a :: q)) by done.
    assert (a :: q `prefix_of` b :: l ↔ first_difference (take (length (a :: q)) (b :: l)) (a :: q) = 0) as Hd.
    { rewrite first_difference_0 by (done || by apply Forall_take, Forall_cons).
      split; [intros [r ->]; by rewrite take_app_length|intros <-; apply prefix_take]. }
    set (d := first_difference _ _) in *. case_bool_decide as Hp; destruct (Z.eqb_spec 0 d) as [Ed|Ed]; try done.
    + by apply Hd in Hp.
    + by destruct Hp; apply Hd.
  - destruct pat as [|a q]; [done|]. cbn [hd] in *. pose proof (proj1 (proj1 (Forall_cons _ _ _) Ts)) as Ha. cbn in Ha.
    destruct (Z.ltb_spec a 128) as [H8|]; [|by rewrite andb_false_r].
    rewrite bool_decide_false; [by rewrite andb_false_r|]. intros [r Er]. injection Er as -> _.
    apply E. unfold s8. zlia.
Qed.

Lemma search_line_prints t scr f k sched start l :
  runs t scr f k → 0 ≤ start → start + zlen l ≤ GREP_BUFSIZE → cstr (kmem k) (data + start) l →
  returns (search_line y kesp kebp lit s fname data (s32 (zlen pat)) start (start + zlen l) (k, sched))
    (λ '(k', rest), rest = sched ∧ runs t (show (match_line name pat l) scr) f k' ∧
      outside_video (kmem k) (kmem k')).
Proof.
  intros Hrun Hs Hz Hl. unfold GREP_BUFSIZE in *. pose proof (running_text _ _ _ _ _ _ _ _ _ _ _ _ Hrun Hpat) as Hps.
  pose proof Hlit as Hpl. rewrite Forall_forall in Hpl. destruct (Hpl _ Hpat) as (_ & Hpz & _).
  change (text_of (s, pat)) with pat in *. change (fst (s, pat)) with s in *.
  set (first := (1 <=? hd 0 pat) && (hd 0 pat <? 128)).
  unfold search_line. apply whileM_total with
    (I := λ '(p, check), p = (k, sched) ∧ start ≤ check ≤ start + zlen l ∧ ∃ l', cstr (kmem k) (data + check) l' ∧
       zlen l' = start + zlen l - check ∧ first && occurs pat l = first && occurs pat l')
    (V := λ '(p, check), start + zlen l - check).
  - split_and!; [done|lia|lia|]. exists l. split_and!; [done|lia|done].
  - lia.
  - intros [p check] (-> & Hck & l' & Hl' & Hz' & Ho). cbn [pmem fst].
    destruct (Z.ltb_spec check (start + zlen l)); cycle 1.
    { apply returns_Ok. destruct l' as [|b l']; [|cbn in Hz'; lia]. unfold match_line, found. fold first.
      rewrite Ho. cbn. rewrite andb_false_r. by split_and!. }
    pose proof (pattern_here (kmem k) (data + check) l' Hps Hpz Hl') as Hh. unfold pmem. cbn [fst].
    destruct l' as [|b l']; [cbn in Hz'; lia|]. specialize (Hh ltac:(done)).
    assert (first && bool_decide (pat `prefix_of` b :: l') = false →
      check + 1 ≤ start + zlen l ∧ cstr (kmem k) (data + (check + 1)) l' ∧
      zlen l' = start + zlen l - (check + 1) ∧ first && occurs pat l = first && occurs pat l') as Hnext.
    { intros Hno. apply cstr_cons in Hl' as (_ & _ & Hl'). rewrite zlen_cons in Hz'.
      split_and!; [lia|by rewrite Z.add_assoc|lia|]. rewrite Ho. cbn [occurs].
      destruct first; [|done]. cbn [andb] in *. by rewrite Hno. }
    fold first in Hh. destruct (s8 (rd (kmem k) s) =? rd (kmem k) (data + check)).
    + eapply returns_bind; [exact Hh|]. intros r ->. destruct (first && bool_decide _) eqn:Hb.
      * eapply returns_bind; [by apply (print_line_prints t scr f k sched start l)|].
        intros [k' rest] (-> & Hrun' & Hout). apply returns_Ok. unfold match_line, found. fold first.
        rewrite Ho. apply andb_true_iff in Hb as [-> Hb]. cbn [occurs]. rewrite Hb. by split_and!.
      * apply returns_Ok. destruct (Hnext eq_refl) as (N1 & N2 & N3 & N4).
        split; [|lia]. split_and!; [done|lia|lia|]. by exists l'.
    + apply returns_Ok. destruct (Hnext Hh) as (N1 & N2 & N3 & N4).
      split; [|lia]. split_and!; [done|lia|lia|]. by exists l'.
Qed.

(** ** The lines of the buffer *)

(** No read sets the last element of the array, and the program tests it. *)
Definition guarded k : Prop := rd (kmem k) (data + GREP_BUFSIZE) ≠ 10.

(** The line [l] of the buffer is made a string and searched. *)
Lemma line_searched t scr f k sched start l :
  runs t scr f k → 0 ≤ start → start + zlen l ≤ GREP_BUFSIZE → guarded k →
  bytes (kmem k) (data + start) (zlen l) = l → Forall (λ c, c ≠ 0) l →
  returns (search_line y kesp kebp lit s fname data (s32 (zlen pat)) start (start + zlen l)
             (store (data + (start + zlen l)) 0 (k, sched)))
    (λ '(k', rest), rest = sched ∧ runs t (show (match_line name pat l) scr) f k' ∧ guarded k' ∧
      ∀ a n, start + zlen l < a → 0 ≤ n → a + n ≤ GREP_BUFSIZE + 1 →
        bytes (kmem k') (data + a) n = bytes (kmem k) (data + a) n).
Proof.
  intros Hrun Hs Hz Hg Hb Hnz. destruct (data_harmless 0 (GREP_BUFSIZE + 1)) as [_ Hh]; [unfold GREP_BUFSIZE; lia..|].
  rewrite Z.add_0_r in Hh.
  destruct (put_running y ns fst texts k0 sto rdy t scr f k sched data (GREP_BUFSIZE + 1) (start + zlen l) 0 Hrun Hh Hub)
    as [-> Hrun1]; [lia|]. set (k1 := set_mem _ k) in *.
  assert (cstr (kmem k1) (data + start) l) as Hl.
  { unfold k1. change (kmem (set_mem _ k)) with (wr (kmem k) (data + (start + zlen l)) 0). rewrite Z.add_assoc.
    apply (terminated _ _ l []); [by rewrite app_nil_r, Z.add_0_r|done]. }
  eapply returns_mono; [by apply (search_line_prints t scr f k1 sched start l)|].
  intros [k2 rest] (-> & Hrun2 & Hout).
  assert (∀ a, 0 ≤ a ≤ GREP_BUFSIZE →
    rd (kmem k2) (data + a) = rd (wr (kmem k) (data + (start + zlen l)) 0) (data + a)) as Hkeep
    by (intros a; exact (data_kept _ _ a Hout)).
  split_and!; [done|exact Hrun2| |].
  - unfold guarded. rewrite Hkeep by (unfold GREP_BUFSIZE; lia).
    destruct (decide (start + zlen l = GREP_BUFSIZE)) as [->|E]; [by rewrite rd_wr_eq|].
    by rewrite rd_wr_ne by lia.
  - intros a n Ha Hn Hle. apply bytes_ext. intros i Hi. rewrite <- !Z.add_assoc, Hkeep by lia. apply rd_wr_ne. lia.
Qed.

(** A cut line [q] is moved to the front. *)
Lemma line_moved t scr f k sched start q :
  runs t scr f k → 0 < start → start + zlen q ≤ GREP_BUFSIZE → guarded k →
  bytes (kmem k) (data + start) (zlen q) = q → Forall (λ c, c ≠ 0) q →
  let p := store (data + (start + zlen q)) 0 (k, sched) in
  returns (ece391_strcpy (pmem p) data (data + start)) (λ m, let k' := set_mem m (fst p) in
    runs t scr f k' ∧ guarded k' ∧ bytes (kmem k') data (zlen q) = q).
Proof.
  intros Hrun Hs Hz Hg Hb Hnz p. destruct (data_harmless 0 (GREP_BUFSIZE + 1)) as [_ Hh]; [unfold GREP_BUFSIZE; lia..|].
  rewrite Z.add_0_r in Hh. unfold GREP_BUFSIZE in *.
  destruct (put_running y ns fst texts k0 sto rdy t scr f k sched data 1025 (start + zlen q) 0 Hrun Hh Hub)
    as [Ep Hrun1]; [lia|]. unfold p. rewrite Ep. unfold pmem. cbn [fst]. set (k1 := set_mem _ k) in *.
  assert (cstr (kmem k1) (data + start) q) as Hq.
  { unfold k1. change (kmem (set_mem _ k)) with (wr (kmem k) (data + (start + zlen q)) 0). rewrite Z.add_assoc.
    apply (terminated _ _ q []); [by rewrite app_nil_r, Z.add_0_r|done]. }
  eapply returns_mono; [apply (ece391_strcpy_cstr (kmem k1) data (data + start) q Hq); [lia|left; lia]|].
  intros m Hm. cbv zeta. pose proof (wr_bytes_same_except _ _ _ _ Hm) as Hse. rewrite zlen_app in Hse. cbn in Hse.
  split_and!.
  - apply (store_running y ns fst texts k0 sto rdy t scr f k1 data 1025 m Hrun1 Hh Hub).
    apply (same_except_changes data 1025); [|by left]. eapply same_except_weaken; [exact Hse|lia..].
  - unfold guarded, GREP_BUFSIZE. change (kmem (set_mem m k1)) with m. rewrite Hse by lia. unfold k1.
    change (kmem (set_mem _ k)) with (wr (kmem k) (data + (start + zlen q)) 0).
    destruct (decide (start + zlen q = 1024)) as [->|]; [by rewrite rd_wr_eq|]. by rewrite rd_wr_ne by lia.
  - change (kmem (set_mem m k1)) with m. eapply wr_bytes_cstr; [|exact Hm].
    exact (cstr_text _ _ _ Hq).
Qed.

(** What one pass over the buffer [b] leaves, when [r] is still to be read:
    a cut line [p] at the front, and [out], the matches before it, on the screen. *)
Record passed (t : table) (scr : screen) (f : fs) (cnt : Z) (b r p out : list Z) k (last : Z) : Prop := {
  pd_run : runs t (show out scr) f k;
  pd_guard : guarded k;
  pd_last : last = zlen p ∧ zlen p < GREP_BUFSIZE ∧ (cnt = 0 → p = []);
  pd_front : bytes (kmem k) data (zlen p) = p;
  pd_text : Forall (λ c, c ≠ 0) p ∧ Forall (λ c, c ≠ 10) p;
  pd_matches : matches name pat [] (b ++ r) = out ++ matches name pat p r
}.

(** Between two lines: [q] is the rest of the buffer. *)
Record passing (t : table) (scr : screen) (f : fs) (b r q out : list Z) k (start : Z) : Prop := {
  pg_run : runs t (show out scr) f k;
  pg_guard : guarded k;
  pg_start : 0 ≤ start ∧ start + zlen q = zlen b;
  pg_rest : bytes (kmem k) (data + start) (zlen q) = q;
  pg_text : Forall (λ c, c ≠ 0) q;
  pg_matches : matches name pat [] (b ++ r) = out ++ matches name pat [] (q ++ r)
}.

Lemma bytes_parts m a l1 l2 :
  bytes m a (zlen (l1 ++ l2)) = l1 ++ l2 → bytes m a (zlen l1) = l1 ∧ bytes m (a + zlen l1) (zlen l2) = l2.
Proof.
  rewrite zlen_app, bytes_app by lia. intros E. pose proof (zlen_bytes m a (zlen l1) ltac:(lia)).
  by apply app_inj_1 in E; [|lia].
Qed.

Lemma next_line m start q :
  bytes m (data + start) (zlen q) = q → 0 ≤ start → start + zlen q ≤ GREP_BUFSIZE →
  returns (find_line_end data m (start + zlen q) start) (λ stop, ∃ l, stop = start + zlen l ∧
    Forall (λ c, c ≠ 10) l ∧ (q = l ∨ ∃ q', q = l ++ 10 :: q' ∧ rd m (data + stop) = 10)).
Proof.
  intros Hq Hs Hz. eapply returns_mono; [apply find_line_end_spec; lia|].
  intros stop ([H1 H2] & Hno & Hend). exists (bytes m (data + start) (stop - start)).
  rewrite zlen_bytes by lia. split_and!; [lia|done|].
  assert (q = bytes m (data + start) (stop - start) ++ bytes m (data + stop) (start + zlen q - stop)) as E.
  { rewrite <- Hq at 1. replace (zlen q) with (stop - start + (start + zlen q - stop)) at 1 by lia.
    rewrite bytes_app by lia. by replace (data + start + (stop - start)) with (data + stop) by lia. }
  destruct (decide (stop = start + zlen q)) as [Ed|Hlt].
  - left. replace (start + zlen q - stop) with 0 in E by lia. rewrite (bytes_0 m (data + stop) 0), app_nil_r in E by done. exact E.
  - right. exists (bytes m (data + stop + 1) (start + zlen q - stop - 1)). rewrite <- Hend by lia.
    split; [|done]. rewrite (bytes_cons m (data + stop)) in E by lia. exact E.
Qed.

(** A last line that is not moved is complete or fills the buffer. *)
Lemma line_ends k start (q b r : list Z) cnt :
  guarded k → 0 ≤ start → start + zlen q = zlen b → zlen b ≤ GREP_BUFSIZE →
  zlen b = GREP_BUFSIZE ∨ r = [] → (cnt = 0 → r = []) →
  negb (10 =? rd (kmem k) (data + (start + zlen q))) && negb (0 =? cnt) && negb (start =? 0) = false →
  (zlen q < GREP_BUFSIZE ∧ r = []) ∨ zlen q = GREP_BUFSIZE.
Proof.
  intros Hg Hs Hq Hz Hfull Hend E. destruct (decide (zlen q = GREP_BUFSIZE)) as [|Hne]; [by right|left].
  split; [lia|]. destruct Hfull as [Hf|]; [|done]. apply Hend. rewrite Hq, Hf in E. unfold guarded in Hg.
  rewrite (proj2 (Z.eqb_neq 10 _)), (proj2 (Z.eqb_neq start 0)) in E by (done || lia). cbn [negb andb] in E.
  by destruct (Z.eqb_spec 0 cnt).
Qed.

(** A pass ends, whatever the end of the buffer does to its last line. *)
Lemma search_lines_spec t scr f k sched cnt b r :
  runs t scr f k → guarded k → bytes (kmem k) data (zlen b) = b → Forall (λ c, c ≠ 0) b →
  zlen b ≤ GREP_BUFSIZE → zlen b = GREP_BUFSIZE ∨ r = [] → (cnt = 0 → r = []) →
  returns (search_lines y kesp kebp lit s fname data (s32 (zlen pat)) cnt (zlen b) (k, sched))
    (λ '((k', rest), last), rest = sched ∧ ∃ p out, passed t scr f cnt b r p out k' last).
Proof.
  intros Hrun Hg Hb Hnz Hz Hfull Hend. unfold search_lines. apply whileM_total with
    (I := λ '((k1, rest), start), rest = sched ∧ ∃ q out, passing t scr f b r q out k1 start)
    (V := λ '(p, start), zlen b - start).
  - split; [done|]. exists b, []. constructor; rewrite ?Z.add_0_r; done || lia.
  - unfold GREP_BUFSIZE in Hz. lia.
  - intros [[k1 rest] start] (-> & q & out & [Hr1 Hg1 [Hs Hq] Hbq Hnq Hm]). unfold pmem. cbn [fst].
    rewrite <- Hq in Hz |- *. eapply returns_bind; [apply (next_line (kmem k1) start q Hbq); lia|].
    intros stop (l & -> & Hno & Hl).
    destruct (negb (10 =? _) && negb (0 =? cnt) && negb (start =? 0)) eqn:E.
    + rewrite !andb_true_iff, !negb_true_iff, !Z.eqb_neq in E. destruct E as [[E1 E2] E3].
      destruct Hl as [->|(q' & _ & ?)]; [|done].
      eapply returns_bind; [apply (line_moved t (show out scr) f k1 sched start l Hr1); (done || lia)|].
      intros m (Hr2 & Hg2 & Hb2). apply returns_Ok. split; [done|]. exists l, out.
      constructor; [exact Hr2|exact Hg2|split_and!; [lia|lia|done]|exact Hb2|done|].
      rewrite Hm. f_equal. apply matches_pending; [done|lia].
    + assert (start + zlen l ≤ GREP_BUFSIZE ∧ Forall (λ c, c ≠ 0) l ∧ bytes (kmem k1) (data + start) (zlen l) = l)
        as (Hzl & Hnl0 & Hbl).
      { destruct Hl as [<-|(q' & -> & _)]; [done|]. rewrite zlen_app in Hz.
        apply Forall_app in Hnq as [Hnq _].
        apply bytes_parts in Hbq as [Hbq _]. by split_and!; [lia|..]. }
      eapply returns_bind; [apply (line_searched t (show out scr) f k1 sched start l Hr1); done|].
      intros [k2 rest] (-> & Hr2 & Hg2 & Hkeep). rewrite <- show_app in Hr2. destruct Hl as [<-|(q' & -> & Hn)].
      * rewrite (proj2 (Z.leb_le _ _)) by lia. apply returns_Ok. split; [done|]. exists [], (out ++ match_line name pat q).
        constructor; [exact Hr2|exact Hg2|done|by apply bytes_0|done|].
        rewrite Hm, <- app_assoc. f_equal. apply matches_last; [done|].
        apply (line_ends k1 start q b r cnt); done || lia.
      * rewrite zlen_app, zlen_cons in Hq, Hz. rewrite !zlen_app, !zlen_cons.
        apply Forall_app in Hnq as [_ [_ Hnq']%Forall_cons].
        rewrite <- app_assoc, <- app_comm_cons, matches_line, app_assoc in Hm by (done || lia).
        destruct (Z.leb_spec (start + (zlen l + (1 + zlen q'))) (start + zlen l + 1)); apply returns_Ok.
        { destruct q'; [|cbn in *; lia]. split; [done|]. exists [], (out ++ match_line name pat l).
          constructor; [exact Hr2|exact Hg2|done|by apply bytes_0|done|exact Hm]. }
        split; [|lia]. split; [done|]. exists q', (out ++ match_line name pat l).
        constructor; [exact Hr2|exact Hg2|lia| |done|exact Hm].
        rewrite Hkeep by lia. apply bytes_parts in Hbq as [_ Hbq].
        change (10 :: q') with ([10] ++ q') in Hbq. apply bytes_parts in Hbq as [_ Hbq].
        rewrite <- Hbq at 2. f_equal. cbn. lia.
Qed.

(** ** A whole file *)

(** A read changes the elements it fills, and no other. *)
Lemma data_read m m' a n j :
  changes_only [(file_read_dentry y, 40); (data + a, n); (current_pcb k0, 1424)] m m' →
  0 ≤ j ≤ GREP_BUFSIZE → j < a ∨ a + n ≤ j → rd m' (data + j) = rd m (data + j).
Proof.
  intros Hc Hj Ha. pose proof (Forall_lookup_1 _ _ 8%nat _ (proj2 Hub) eq_refl) as H8.
  pose proof (Forall_lookup_1 _ _ 6%nat _ (proj2 Hub) eq_refl) as H6.
  unfold apart, disjoint_regions in H6, H8. cbn [fst snd] in H6, H8.
  apply Hc. rewrite !Forall_cons. unfold inside. cbn [fst snd]. split_and!; [lia|lia|lia|done].
Qed.

(** Between two reads of the file [x]: [p] is the cut line, [pos] characters
    are read. *)
Record pending (t : table) (n : nat) (x : file) (c : list Z) (scr : screen) (f : fs) (pos : Z) (p out : list Z)
    k (last : Z) : Prop := {
  pn_run : ∃ f', entry_counter f' = entry_counter f ∧ runs (<[n := Some (set_pos pos x)]> t) (show out scr) f' k;
  pn_guard : guarded k;
  pn_pos : 0 ≤ pos ≤ zlen c;
  pn_last : last = zlen p ∧ zlen p < GREP_BUFSIZE;
  pn_front : bytes (kmem k) data (zlen p) = p;
  pn_text : Forall (λ c, c ≠ 0) p ∧ Forall (λ c, c ≠ 10) p;
  pn_matches : matches name pat [] c = out ++ matches name pat p (drop (Z.to_nat pos) c)
}.

(** The files grep is sure to read to their end: texts whose last block is not
    full. *)
Definition plain (c : list Z) : Prop := Forall (λ c, c ≠ 0) c ∧ (c = [] ∨ zlen c mod FS_UNIT_SIZE ≠ 0).

Lemma pending_read t n x c scr f pos p out k sched last :
  c = content (kmem k0) (kfs (term k0)) (f_inode x) → plain c →
  0 ≤ f_inode x < inodes_num (boot_block_at y) (kmem k0) → f_kind x = Regular → (n < length t)%nat →
  pending t n x c scr f pos p out k last →
  returns (ece391_read y kesp kebp (Z.of_nat n) (data + last) (GREP_BUFSIZE - last) (k, sched))
    (λ '((k', rest), cnt), rest = sched ∧ cnt = Z.min (GREP_BUFSIZE - zlen p) (zlen c - pos) ∧ guarded k' ∧
      let l := slice pos (GREP_BUFSIZE - zlen p) c in
      bytes (kmem k') data (zlen (p ++ l)) = p ++ l ∧
      ∃ f', entry_counter f' = entry_counter f ∧ runs (<[n := Some (set_pos (pos + cnt) x)]> t) (show out scr) f' k').
Proof.
  intros Ec [Hnz Hmod] Hino Hk Hlt [(f1 & Hf1 & Hrun) Hg Hpos [-> Hp] Hb _ _].
  destruct (data_harmless (zlen p) (GREP_BUFSIZE - zlen p)) as [Hub' Hh]; [lia..|]. unfold GREP_BUFSIZE in *.
  assert (<[n := Some (set_pos pos x)]> t !! n = Some (Some (set_pos pos x))) as Hx by (by apply list_lookup_insert_eq).
  eapply returns_mono.
  { apply (file_running y kesp kebp ns Hy fst texts k0 sto rdy Hlit _ _ f1 k sched n (set_pos pos x) (data + zlen p)
      (1024 - zlen p) Hrun Hx Hk); cbn [f_inode f_pos set_pos]; rewrite <- ?Ec; done || lia. }
  cbn [f_inode f_pos set_pos]. rewrite <- Ec. intros [[k2 rest] cnt] (-> & -> & Hl & Hch & f2 & Hf2 & Hrun2).
  rewrite list_insert_insert_eq in Hrun2. split_and!; [done|done| | |].
  - unfold guarded, GREP_BUFSIZE. by rewrite (data_read _ _ _ _ _ Hch) by (unfold GREP_BUFSIZE; lia).
  - rewrite zlen_app, bytes_app, zlen_slice by lia. f_equal; [|exact Hl]. etransitivity; [|exact Hb].
    apply bytes_ext. intros i Hi. apply (data_read _ _ _ _ _ Hch); unfold GREP_BUFSIZE; lia.
  - exists f2. split; [by rewrite Hf2|exact Hrun2].
Qed.

Lemma slice_then pos n (c : list Z) :
  0 ≤ pos ≤ zlen c → 0 ≤ n →
  drop (Z.to_nat pos) c = slice pos n c ++ drop (Z.to_nat (pos + Z.min n (zlen c - pos))) c.
Proof.
  intros Hp Hn. unfold slice. rewrite <- (take_drop (Z.to_nat n) (drop (Z.to_nat pos) c)) at 1. f_equal.
  rewrite drop_drop. destruct (decide (n ≤ zlen c - pos)); [f_equal; lia|].
  by rewrite !drop_ge by lia.
Qed.

(** One round: a read, and a pass over what the buffer then holds. *)
Lemma pending_round t n x c scr f pos p out k sched last :
  c = content (kmem k0) (kfs (term k0)) (f_inode x) → plain c →
  0 ≤ f_inode x < inodes_num (boot_block_at y) (kmem k0) → f_kind x = Regular → (n < length t)%nat →
  pending t n x c scr f pos p out k last →
  returns ('(p1, cnt) ← ece391_read y kesp kebp (Z.of_nat n) (data + last) (GREP_BUFSIZE - last) (k, sched);
           '(p1, last') ← search_lines y kesp kebp lit s fname data (s32 (zlen pat)) cnt (last + cnt) p1;
           Ok (p1, cnt, last'))
    (λ '((k', rest), cnt, last'), rest = sched ∧ 0 ≤ cnt ∧ pos + cnt ≤ zlen c ∧ ∃ p' out',
      pending t n x c scr f (pos + cnt) p' out' k' last' ∧ (cnt = 0 → pos = zlen c ∧ p' = [])).
Proof.
  intros Ec Hplain Hino Hk Hlt Hpn. pose proof Hpn as [_ _ Hpos [Hlast Hp] _ [Hnz Hno] Hm].
  eapply returns_bind; [by apply (pending_read t n x c scr f pos p out k sched last Ec)|]. unfold GREP_BUFSIZE in *.
  intros [[k2 rest] cnt] (-> & -> & Hg2 & Hb2 & f2 & Hf2 & Hrun2). set (cnt := Z.min _ _) in *.
  set (l := slice pos (1024 - zlen p) c) in *.
  assert (drop (Z.to_nat pos) c = l ++ drop (Z.to_nat (pos + cnt)) c) as Hd by (apply slice_then; lia).
  assert (zlen l = cnt) as Hl by (apply zlen_slice; lia).
  assert (last + cnt = zlen (p ++ l)) as -> by (rewrite zlen_app; lia).
  assert (pos = zlen c → drop (Z.to_nat (pos + cnt)) c = []) as Hend by (intros ->; apply drop_ge; lia).
  eapply returns_bind.
  { apply (search_lines_spec _ (show out scr) f2 k2 sched cnt (p ++ l) (drop (Z.to_nat (pos + cnt)) c) Hrun2 Hg2 Hb2);
      rewrite ?zlen_app; unfold GREP_BUFSIZE; [|lia| |intros; apply Hend; lia].
    - apply Forall_app. split; [done|]. apply Forall_take, Forall_drop, Hplain.
    - destruct (decide (1024 - zlen p ≤ zlen c - pos)); [left; lia|right; apply drop_ge; lia]. }
  intros [[k3 rest] last'] (-> & p' & out' & [Hr3 Hg3 [Hl3 [Hp3 Hz3]] Hf3 Ht3 Hm3]). apply returns_Ok.
  split_and!; [done|lia|lia|]. exists p', (out ++ out'). split; [|intros; split; [lia|by apply Hz3]].
  constructor; [|done|lia|done|done|done|].
  - exists f2. split; [done|]. by rewrite show_app.
  - rewrite Hm, Hd, <- app_assoc, <- Hm3, <- app_assoc, matches_pending by (done || unfold GREP_BUFSIZE; lia). done.
Qed.

Lemma search_file_spec t n x scr f k sched :
  let c := content (kmem k0) (kfs (term k0)) (f_inode x) in
  plain c → 0 ≤ f_inode x < inodes_num (boot_block_at y) (kmem k0) → f_kind x = Regular →
  runs t scr f k → t !! n = Some (Some x) → f_pos x = 0 → guarded k →
  returns (search_file y kesp kebp lit s fname data (s32 (zlen pat)) (Z.of_nat n) (k, sched))
    (λ '((k', rest), ok), ok = true ∧ rest = sched ∧ guarded k' ∧ ∃ f' pos, entry_counter f' = entry_counter f ∧
      runs (<[n := Some (set_pos pos x)]> t) (show (matches name pat [] c) scr) f' k').
Proof.
  intros c Hplain Hino Hk Hrun Ht Hx Hg. pose proof (lookup_lt_Some _ _ _ Ht) as Hlt.
  assert (∀ f1 k1 scr1 pos, runs (<[n := Some (set_pos pos x)]> t) scr1 f1 k1 →
    rd32 (kmem k1) (fileposition_at (descriptor k1 (Z.of_nat n))) = pos) as Hat.
  { intros f1 k1 scr1 pos Hr1. etransitivity; [eapply running_position; [exact Hr1|by apply list_lookup_insert_eq]|done]. }
  pose proof (inode_lengths _ _ _ (fs_mounted _ _ _ _ (io_fs _ _ _ _ (w_image _ _ _ _ (ru_world _ _ _ _ _ _ _ _ _ _ _ Hrun))))) as Hmax.
  specialize (Hmax (f_inode x)). rewrite (sf_inodes _ _ _ (ru_same _ _ _ _ _ _ _ _ _ _ _ Hrun)) in Hmax.
  specialize (Hmax Hino). rewrite <- zlen_content, (sf_content _ _ _ (ru_same _ _ _ _ _ _ _ _ _ _ _ Hrun) _ Hino) in Hmax.
  fold c in Hmax. unfold max_file, FS_UNIT_SIZE in Hmax.
  apply whileM_total with
    (I := λ '((k1, rest), last), rest = sched ∧ ∃ pos p out, pending t n x c scr f pos p out k1 last)
    (V := λ '((k1, rest), last), 1 + (zlen c - rd32 (kmem k1) (fileposition_at (descriptor k1 (Z.of_nat n))))).
  - split; [done|]. exists 0, [], []. constructor; [|done|lia|done|by apply bytes_0|done|done].
    exists f. split; [done|]. rewrite list_insert_id; [exact Hrun|]. rewrite Ht. destruct x. cbn in Hx. by subst.
  - erewrite running_position by done. lia.
  - intros [[k1 rest] last] (-> & pos & p & out & Hpn). destruct Hpn as [(f1 & Hf1 & Hr1) ? ? ? ? ? ?] eqn:E. clear E.
    destruct (pending_round t n x c scr f pos p out k1 sched last eq_refl Hplain Hino Hk Hlt Hpn)
      as ([[[k2 rest] cnt] last'] & E & -> & Hc0 & Hc1 & p' & out' & Hpn' & Hz).
    apply res_bind_Ok in E as ([[k3 r3] cnt3] & -> & E). apply res_bind_Ok in E as ([p4 last4] & E4 & [= -> <- ->]).
    rewrite bind_Ok, (proj2 (Z.eqb_neq (-1) _)), E4, bind_Ok by lia.
    rewrite (Hat _ _ _ _ Hr1). destruct (Z.eqb_spec 0 cnt3) as [<-|Hne]; apply returns_Ok.
    + destruct (Hz eq_refl) as [-> ->]. destruct Hpn' as [(f2 & Hf2 & Hr2) Hg2 _ _ _ _ Hm2]. split_and!; [done|done|done|].
      exists f2, (zlen c + 0). split; [done|]. rewrite drop_ge in Hm2 by lia. rewrite app_nil_r in Hm2. rewrite Hm2. exact Hr2.
    + destruct (pn_run _ _ _ _ _ _ _ _ _ _ _ Hpn') as (f2 & _ & Hr2). rewrite (Hat _ _ _ _ Hr2).
      split; [split; [done|by eexists _, _, _]|lia].
Qed.

(** ** do_one_file *)

(** The text of an open file, the interrupts its reading waits for, and the
    files grep reads to their end. *)
Definition file_text (x : file) : list Z :=
  match f_kind x with Regular => content (kmem k0) (kfs (term k0)) (f_inode x) | _ => [] end.
Definition file_waits (x : file) : list irq := match f_kind x with Clock => [IRQ_RTC] | _ => [] end.
Definition searchable (x : file) : Prop :=
  match f_kind x with Regular => plain (file_text x) | Clock => True | _ => False end.

(** A call that spares the buffer spares its last element. *)
Lemma guarded_kept k k' rs :
  guarded k → changes_only rs (kmem k) (kmem k') → Forall (λ r, apart (data, GREP_BUFSIZE + 1) r) rs → guarded k'.
Proof.
  intros Hg Hc Ha. unfold guarded in *. rewrite Hc; [done|]. eapply Forall_impl; [exact Ha|]. intros r Hr.
  unfold inside, apart, disjoint_regions, GREP_BUFSIZE in *. cbn [fst snd] in Hr. lia.
Qed.

Lemma search_clock t n x scr f k sched :
  f_kind x = Clock → runs t scr f k → t !! n = Some (Some x) → guarded k →
  returns (search_file y kesp kebp lit s fname data (s32 (zlen pat)) (Z.of_nat n) (k, IRQ_RTC :: sched))
    (λ '((k', rest), ok), ok = true ∧ rest = sched ∧ guarded k' ∧
      ∃ pos, runs (<[n := Some (set_pos pos x)]> t) scr f k').
Proof.
  intros Hk Hrun Ht Hg. apply whileM_total with (I := λ q, q = ((k, IRQ_RTC :: sched), 0)) (V := λ _, 0); [done|lia|].
  intros [p last] [= -> ->]. rewrite Z.add_0_r. eapply returns_bind.
  { apply (clock_running y kesp kebp ns Hy fst texts k0 sto rdy Hlit t scr f k sched n x data (GREP_BUFSIZE - 0) Hrun Ht Hk);
      unfold GREP_BUFSIZE; lia. }
  intros [[k1 rest] cnt] (-> & -> & Hc & pos & Hrun1). change (-1 =? 0) with false. cbv iota.
  assert (guarded k1) as Hg1.
  { apply (guarded_kept k k1 _ Hg Hc). constructor; [|done]. exact (Forall_lookup_1 _ _ 6%nat _ (proj2 Hub) eq_refl). }
  eapply returns_bind.
  { apply (search_lines_spec _ scr f k1 sched 0 [] [] Hrun1 Hg1); [by apply bytes_0|done|done|by right|done]. }
  intros [[k2 rest] last'] (-> & p' & out & [Hr2 Hg2 [_ [_ Hz2]] _ _ Hm2]). apply returns_Ok.
  rewrite (Hz2 eq_refl) in Hm2. cbn in Hm2. rewrite app_nil_r in Hm2. subst out. split_and!; [done|done|done|]. by exists pos.
Qed.

(** The loop on either kind of file. *)
Lemma search_any t n x scr f k sched :
  searchable x → 0 ≤ f_inode x < inodes_num (boot_block_at y) (kmem k0) → f_pos x = 0 →
  runs t scr f k → t !! n = Some (Some x) → guarded k →
  returns (search_file y kesp kebp lit s fname data (s32 (zlen pat)) (Z.of_nat n) (k, file_waits x ++ sched))
    (λ '((k', rest), ok), ok = true ∧ rest = sched ∧ guarded k' ∧ ∃ f' pos, entry_counter f' = entry_counter f ∧
      runs (<[n := Some (set_pos pos x)]> t) (show (matches name pat [] (file_text x)) scr) f' k').
Proof.
  unfold searchable, file_text, file_waits. intros Hs Hino Hpos Hrun Ht Hg. destruct (f_kind x) eqn:Hk; try done.
  - eapply returns_mono; [by apply (search_clock t n x scr f k sched Hk Hrun Ht)|].
    intros [[k' rest] ok] (-> & -> & Hg' & pos & Hrun'). split_and!; [done|done|done|]. by exists f, pos.
  - by apply (search_file_spec t n x scr f k sched).
Qed.

Lemma do_one_file_spec t n i scr f k sched :
  let x := entry_file k0 i name in
  runs t scr f k → guarded k → first_free t = Some n → searchable x →
  0 < zlen name ≤ 31 → take 5 name ≠ codes "stdin" → take 5 name ≠ codes "stdou" →
  list_find (λ n, n = name) ns = Some (i, name) →
  returns (do_one_file y kesp kebp lit s fname data (k, file_waits x ++ sched)) (λ '((k', rest), r),
    r = 0 ∧ rest = sched ∧ guarded k' ∧ ∃ f', entry_counter f' = entry_counter f ∧
      runs t (show (matches name pat [] (file_text x)) scr) f' k').
Proof.
  intros x Hrun Hg Hfree Hs Hz Hn1 Hn2 Hi. unfold do_one_file, pmem. cbn [fst].
  pose proof (ru_world _ _ _ _ _ _ _ _ _ _ _ Hrun) as Hw.
  destruct (first_free_lt t n (proj1 (w_table _ _ _ _ Hw)) (w_standard _ _ _ _ Hw) Hfree) as [Hn Hnone].
  pose proof (lookup_lt_Some _ _ _ Hnone) as Hlt.
  assert (cstr (kmem k) s pat) as Hps by exact (running_text _ _ _ _ _ _ _ _ _ _ _ _ Hrun Hpat).
  pose proof Hlit as Hpl. rewrite Forall_forall in Hpl. destruct (Hpl _ Hpat) as (_ & Hpz & _).
  change (text_of (s, pat)) with pat in Hpz. change (ece391_strlen (kmem k) s) with (strlen (kmem k) s).
  rewrite (strlen_cstr _ _ pat Hps), bind_Ok by lia.
  pose proof (entry_range y ns fst texts k0 sto rdy t scr f k i name Hrun Hi) as Hino. fold x in Hino.
  pose proof (λ j r Hr, Forall_lookup_1 _ _ j r (proj2 Hub) Hr) as Hreg.
  eapply returns_bind; [apply (open_effect y kesp kebp ns Hy fst texts k0 sto rdy Hlit t scr f k (file_waits x ++ sched)
    (fname, name) Hrun Hname); cbn; lia|].
  intros [[k1 rest] fd] (-> & _ & Hc1 & Hop). change (text_of (fname, name)) with name in Hop.
  rewrite (open_entry y ns fst texts k0 sto rdy t scr f k i name Hrun) in Hop by (done || (destruct name; [cbn in Hz; lia|done])).
  rewrite Hfree in Hop. destruct Hop as [-> Hrun1]. fold x in Hrun1. rewrite (proj2 (Z.eqb_neq (-1) _)) by lia.
  assert (guarded k1) as Hg1.
  { apply (guarded_kept k k1 _ Hg Hc1). constructor; [exact (Hreg 7%nat _ eq_refl)|]. constructor; [exact (Hreg 6%nat _ eq_refl)|done]. }
  assert (<[n := Some x]> t !! n = Some (Some x)) as Hx by (by apply list_lookup_insert_eq).
  eapply returns_bind; [by apply (search_any _ n x scr f k1 sched Hs Hino eq_refl Hrun1)|].
  intros [[k2 rest] ok] (-> & -> & Hg2 & f2 & pos & Hf2 & Hrun2). cbn [negb]. rewrite list_insert_insert_eq in Hrun2.
  eapply returns_bind; [apply (close_effect y kesp kebp ns Hy fst texts k0 sto rdy Hlit _ _ f2 k2 sched (Z.of_nat n) Hrun2); lia|].
  intros [[k3 rest] r] (-> & Hc3 & Hcl). unfold close_spec in Hcl. rewrite Nat2Z.id, list_lookup_insert_eq in Hcl by done.
  rewrite (proj2 (Z.leb_le 2 _)), (proj2 (Z.leb_le _ 7)) in Hcl by lia. cbn [andb] in Hcl.
  rewrite list_insert_insert_eq, list_insert_id in Hcl by done. destruct Hcl as [-> Hrun3].
  apply returns_Ok. split_and!; [done|done| |by exists f2].
  apply (guarded_kept k2 k3 _ Hg2 Hc3). constructor; [exact (Hreg 6%nat _ eq_refl)|done].
Qed.
End search.

(** ** The directory *)

Lemma first_free_insert t n x x' :
  first_free (<[n := Some x]> t) = first_free (<[n := Some x']> t).
Proof.
  unfold first_free. revert t; induction n as [|n IH]; intros [|o t]; try done.
  cbn. destruct (decide (o = None)); [done|].
  specialize (IH t). cbn in IH. destruct (list_find _ (<[n:=Some x]> t)) as [[i u]|], (list_find _ (<[n:=Some x']> t)) as [[j w]|];
    cbn in *; congruence.
Qed.

Section main.
Context `{PortIO D, Hotkeys D fs} (y : layout) (kesp kebp : Z) (ns : list (list Z)).
Context (Hy : tables_ok y) (lit : list Z → Z) (buf search data : Z) (pat : list Z).
Context (k0 : kernel D) (sto : list Z) (rdy : bool).
Implicit Types k : kernel D.

Definition grep_literals : list (list Z) := [codes "."; codes ":"; [10]].

(** Where the program keeps its arrays and literals. *)
Record grep_memory : Prop := {
  gm_literals : Forall (literal_placed y lit k0) grep_literals;
  gm_range : 0 < buf < 4294960000 ∧ 0 < search < 4294960000 ∧ 0 < data < 4294960000;
  gm_buf : user_buffer y k0 buf SBUFSIZE;
  gm_search : user_buffer y k0 search GREP_BUFSIZE;
  gm_data : user_buffer y k0 data (GREP_BUFSIZE + 1);
  gm_apart : Forall (λ s, Forall (apart (lit s, zlen s + 1))
    [(buf, SBUFSIZE); (search, GREP_BUFSIZE); (data, GREP_BUFSIZE + 1)]) grep_literals;
  gm_arrays : apart (buf, SBUFSIZE) (search, GREP_BUFSIZE) ∧ apart (buf, SBUFSIZE) (data, GREP_BUFSIZE + 1) ∧
    apart (search, GREP_BUFSIZE) (data, GREP_BUFSIZE + 1)
}.

(** What is found of the file [l], and the interrupts its reading takes. *)
Definition file_named (l : list Z) : option file :=
  match list_find (λ n, n = l) ns with Some (i, _) => Some (entry_file k0 i l) | None => None end.
Definition grep_file (l : list Z) : list Z :=
  if 46 =? hd 0 l then []
  else match file_named l with Some x => matches l pat [] (file_text k0 x) | None => [] end.
Definition grep_wait (l : list Z) : list irq :=
  if 46 =? hd 0 l then [] else match file_named l with Some x => file_waits x | None => [] end.

(** An entry grep can deal with: a dot file, the clock, or a text. *)
Definition greppable (l : list Z) : Prop :=
  0 < zlen l ≤ 31 ∧ (hd 0 l ≠ 46 → take 5 l ≠ codes "stdin" ∧ take 5 l ≠ codes "stdou" ∧
    match file_named l with Some x => searchable k0 x | None => True end).

Definition base_texts : list (Z * list Z) := (search, pat) :: ((λ s, (lit s, s)) <$> grep_literals).

Context (Hm : grep_memory) (Hpat : zlen pat ≤ 1023).
Local Notation runs texts t scr f k := (running y ns fst texts k0 sto rdy t scr f k).

(** A string in one of the arrays. *)
Lemma array_placed a n l : 0 < a < 4294960000 → user_buffer y k0 a n → zlen l < n → zlen l ≤ 1024 →
  literal_placed y fst k0 (a, l).
Proof.
  intros Ha [_ Hub] Hl Hz. split_and!; cbn; [lia|lia|done|].
  eapply Forall_impl; [exact Hub|]. intros r Hr. eapply apart_part; [exact Hr|cbn; lia..].
Qed.

Lemma base_placed : Forall (literal_placed y fst k0) base_texts.
Proof.
  destruct Hm as [Hl (_ & Hs & _) _ Hub _ _ _]. constructor.
  - apply (array_placed search GREP_BUFSIZE pat Hs Hub); unfold GREP_BUFSIZE; lia.
  - apply Forall_fmap. eapply Forall_impl; [exact Hl|]. intros s Hx. exact Hx.
Qed.

Lemma base_apart r :
  r ∈ [(buf, SBUFSIZE); (data, GREP_BUFSIZE + 1)] →
  Forall (λ x : Z * list Z, apart (fst x, zlen (snd x) + 1) r) base_texts.
Proof.
  destruct Hm as [_ _ _ _ _ Ha (A1 & A2 & A3)]. intros Hr. constructor.
  - cbn [fst snd]. apply (apart_part search GREP_BUFSIZE); [|lia|unfold GREP_BUFSIZE; lia].
    apply elem_of_cons in Hr as [->|Hr]; [by apply apart_sym|]. by apply list_elem_of_singleton in Hr as ->.
  - apply Forall_fmap. eapply Forall_impl; [exact Ha|]. intros s Hx. rewrite Forall_forall in Hx. cbn [fst snd compose].
    apply Hx. clear -Hr. set_solver.
Qed.

Local Notation num := (s32 (dentries_num (boot_block_at y) (kmem k0))).

(** The name of the entry becomes a string the program relies on. *)
Lemma entry_string t scr f k l sched :
  runs base_texts t scr f k → bytes (kmem k) buf SBUFSIZE = listed l → 0 < zlen l ≤ 31 → Forall (λ c, c ≠ 0) l →
  rd (kmem k) buf = hd 0 l ∧
  let p := store (buf + zlen l) 0 (k, sched) in
  snd p = sched ∧ runs ((buf, l) :: base_texts) t scr f (fst p) ∧ changes_only [(buf, SBUFSIZE)] (kmem k) (kmem (fst p)).
Proof.
  intros Hrun Hb Hz Hnz. unfold SBUFSIZE in *. destruct Hm as [_ (Hr & _) Hub _ _ _ _].
  unfold listed in Hb. rewrite take_ge in Hb by lia. set (z := replicate _ _) in Hb.
  assert (zlen l + zlen z = 33) as Hlz by (unfold z; rewrite length_replicate; lia). clearbody z.
  destruct l as [|c l']; [cbn in Hz; lia|]. set (l := c :: l') in *. split.
  { rewrite (bytes_cons _ _ 33) in Hb by lia. by injection Hb. }
  assert (harmless y fst base_texts k0 (buf, 33)) as Hh by (apply buffer_harmless; [exact Hub|apply base_apart; by left]).
  cbv zeta. destruct (put_running y ns fst base_texts k0 sto rdy t scr f k sched buf 33 (zlen l) 0 Hrun Hh Hub)
    as [-> Hrun1]; [lia|]. cbn [fst snd]. split_and!; [done| |].
  - apply (running_texts _ _ _ base_texts); [exact Hrun1|]. constructor; [|exact (ru_texts _ _ _ _ _ _ _ _ _ _ _ Hrun1)].
    rewrite <- Hlz in Hb. exact (terminated _ _ l z Hb Hnz).
  - eapply wr_changes; [by left|]. unfold inside. cbn [fst snd]. lia.
Qed.

(** A file of the directory. *)
Lemma grep_one_file t n scr f k sched l :
  runs ((buf, l) :: base_texts) t scr f k → guarded data k → first_free t = Some n → l ∈ ns →
  greppable l → hd 0 l ≠ 46 →
  returns (do_one_file y kesp kebp lit search buf data (k, grep_wait l ++ sched)) (λ '((k', rest), r),
    r = 0 ∧ rest = sched ∧ guarded data k' ∧ ∃ f', entry_counter f' = entry_counter f ∧
      runs base_texts t (show (grep_file l) scr) f' k').
Proof.
  intros Hrun Hg Hfree Hin [Hz Hok] Hd. destruct (Hok Hd) as (N1 & N2 & Hs). clear Hok.
  unfold grep_wait, grep_file. rewrite (proj2 (Z.eqb_neq 46 _)) by done.
  destruct (list_find (λ n, n = l) ns) as [[i q]|] eqn:Hi; cycle 1.
  { exfalso. apply list_find_None in Hi. rewrite Forall_forall in Hi. by apply (Hi l). }
  assert (q = l) as -> by (by apply list_find_Some in Hi as (_ & ? & _)).
  unfold file_named in *. rewrite Hi in Hs |- *. destruct Hm as [_ (Hbr & _ & Hdr) Hub _ Hud _ (_ & Abd & _)].
  eapply returns_mono.
  { apply (do_one_file_spec y kesp kebp ns Hy lit k0 sto rdy ((buf, l) :: base_texts)) with (pat := pat) (i := i) (t := t)
      (n := n) (f := f) (scr := scr); try done.
    - constructor; [|exact base_placed]. by apply (array_placed buf SBUFSIZE); unfold SBUFSIZE; [..|lia|lia].
    - right. by left.
    - by left.
    - right; right. apply list_elem_of_fmap. exists (codes ":"). split; [done|]. right. by left.
    - right; right. apply list_elem_of_fmap. exists [10]. split; [done|]. right. right. by left.
    - constructor; [|apply base_apart; right; by left]. cbn [fst snd].
      apply (apart_part buf SBUFSIZE); [done|lia|unfold SBUFSIZE; lia]. }
  intros [[k' rest] r] (-> & -> & Hg' & f' & Hf' & Hrun'). split_and!; [done|done|done|]. exists f'. split; [done|].
  apply (running_texts _ _ _ ((buf, l) :: base_texts)); [exact Hrun'|].
  pose proof (ru_texts _ _ _ _ _ _ _ _ _ _ _ Hrun') as Ht. by apply Forall_cons in Ht as [_ Ht].
Qed.

(** The entries in turn. *)
Definition grep_names : list (list Z) := take (Z.to_nat num) ns.
Definition grep_output (l : list (list Z)) : list Z := concat (grep_file <$> l).
Definition grep_waits (l : list (list Z)) : list irq := concat (grep_wait <$> l).

(** Before the entry [j]: the files before it are searched. *)
Record at_entry (t : table) (n : nat) (x : file) (scr : screen) (sched : list irq) (j : Z) (p : @proc D) : Prop := {
  ae_sched : snd p = grep_waits (drop (Z.to_nat j) grep_names) ++ sched;
  ae_guard : guarded data (fst p);
  ae_entry : 0 ≤ j ≤ num;
  ae_run : ∃ f pos, entry_counter f = j ∧
    runs base_texts (<[n := Some (set_pos pos x)]> t) (show (grep_output (take (Z.to_nat j) grep_names)) scr) f (fst p)
}.

Context (t : table) (n : nat) (x : file) (Hx : f_kind x = Directory) (Hn : (n < length t)%nat).
Context (n2 : nat) (Hfree : first_free (<[n := Some x]> t) = Some n2).
Context (Hnum : 0 ≤ num ≤ 63) (Hok : Forall greppable grep_names).

Lemma entry_read scr sched j p :
  at_entry t n x scr sched j p →
  returns (ece391_read y kesp kebp (Z.of_nat n) buf (GREP_SBUFSIZE - 1) p) (λ '((k', rest), cnt),
    rest = snd p ∧ guarded data k' ∧
    (num ≤ j → cnt = 0) ∧ (j < num → ∃ l, grep_names !! Z.to_nat j = Some l ∧ cnt = Z.min 32 (zlen l) ∧
      bytes (kmem k') buf SBUFSIZE = listed l) ∧
    ∃ f' pos, entry_counter f' = (if num <=? j then 0 else j + 1) ∧
      runs base_texts (<[n := Some (set_pos pos x)]> t) (show (grep_output (take (Z.to_nat j) grep_names)) scr) f' k').
Proof.
  destruct p as [k rest]. intros [_ Hg Hj (f & pos & Hf & Hrun)]. cbn [fst snd] in *.
  destruct Hm as [_ (Hbr & _ & _) Hub _ Hud _ (_ & Abd & _)].
  assert (<[n := Some (set_pos pos x)]> t !! n = Some (Some (set_pos pos x))) as Hx' by (by apply list_lookup_insert_eq).
  eapply returns_mono.
  { apply (directory_running y kesp kebp ns Hy fst base_texts k0 sto rdy base_placed _ _ f k rest n _ buf (GREP_SBUFSIZE - 1)
      Hrun Hx' Hx); [lia|lia|lia|unfold GREP_SBUFSIZE; lia|exact Hub|].
    apply buffer_harmless; [exact Hub|apply base_apart; by left]. }
  intros [[k' rest'] cnt] Hres. rewrite Hf in Hres. pose proof Hrun as [Hw _ _ _ _].
  assert (∀ k2, changes_only [(buf, SBUFSIZE); (current_pcb k0, 1424)] (kmem k) (kmem k2) → guarded data k2) as Hgk.
  { intros k2 Hc. apply (guarded_kept data k k2 _ Hg Hc). constructor; [by apply apart_sym|].
    constructor; [exact (Forall_lookup_1 _ _ 6%nat _ (proj2 Hud) eq_refl)|done]. }
  destruct (Z.leb_spec num j).
  - destruct Hres as (-> & -> & _ & Hc & f' & pos' & Hf' & Hrun'). rewrite list_insert_insert_eq in Hrun'.
    split_and!; [done|by apply Hgk|done|lia|]. by exists f', pos'.
  - cbv zeta in Hres. destruct Hres as (-> & -> & Hb & Hc & f' & pos' & Hf' & Hrun'). rewrite list_insert_insert_eq in Hrun'.
    destruct (fs_names _ _ _ _ (io_fs _ _ _ _ (w_image _ _ _ _ Hw))) as [Hlen _].
    split_and!; [done|by apply Hgk|lia| |by exists f', pos'].
    intros _. eexists. split_and!; [|done|exact Hb]. unfold grep_names. rewrite lookup_take_lt by lia.
    apply list_lookup_lookup_total_lt. lia.
Qed.

Lemma entry_next l j :
  0 ≤ j → grep_names !! Z.to_nat j = Some l →
  grep_output (take (Z.to_nat (j + 1)) grep_names) = grep_output (take (Z.to_nat j) grep_names) ++ grep_file l ∧
  grep_waits (drop (Z.to_nat j) grep_names) = grep_wait l ++ grep_waits (drop (Z.to_nat (j + 1)) grep_names).
Proof.
  intros Hj Hl. replace (Z.to_nat (j + 1)) with (S (Z.to_nat j)) by lia. unfold grep_output, grep_waits. split.
  - rewrite (take_S_r _ _ _ Hl), fmap_app, concat_app. cbn. by rewrite app_nil_r.
  - by rewrite (drop_S _ _ _ Hl).
Qed.

Lemma names_text t' scr f k l : runs base_texts t' scr f k → l ∈ ns → Forall (λ c, c ≠ 0) l.
Proof.
  intros [Hw _ _ _ _] Hl. destruct (fs_names _ _ _ _ (io_fs _ _ _ _ (w_image _ _ _ _ Hw))) as [_ Hcs].
  apply list_elem_of_lookup in Hl as [i Hi]. by destruct (Hcs _ _ Hi) as [[Hnz _] _].
Qed.

(** A round ends the loop after the last entry, and otherwise deals with one. *)
Lemma grep_round_spec scr sched j p :
  at_entry t n x scr sched j p →
  returns (grep_round y kesp kebp lit buf search data (Z.of_nat n) p) (λ r,
    if num <=? j then ∃ k', r = inr ((k', sched), 0) ∧ ∃ f' pos, entry_counter f' = 0 ∧
      runs base_texts (<[n := Some (set_pos pos x)]> t) (show (grep_output grep_names) scr) f' k'
    else ∃ p', r = inl p' ∧ at_entry t n x scr sched (j + 1) p').
Proof.
  intros Hat. pose proof Hat as [Hs _ Hj _]. unfold grep_round.
  eapply returns_bind; [exact (entry_read scr sched j p Hat)|].
  intros [[k1 rest] cnt] (-> & Hg1 & Hend & Hmore & f1 & pos & Hf1 & Hrun1). rewrite Hs.
  assert (length grep_names ≤ Z.to_nat num)%nat as Hlen by (unfold grep_names; rewrite length_take; lia).
  destruct (Z.leb_spec num j) as [Hle|Hlt].
  { rewrite (Hend Hle), drop_ge by lia. cbn. apply returns_Ok. exists k1. split; [done|]. exists f1, pos.
    rewrite take_ge in Hrun1 by lia. by split. }
  destruct (Hmore Hlt) as (l & Hl & -> & Hb). clear Hend Hmore.
  pose proof (Forall_lookup_1 _ _ _ _ Hok Hl) as Hgl. pose proof (proj1 Hgl) as Hz.
  assert (l ∈ ns) as Hin by (apply list_elem_of_lookup_2 in Hl; exact (subseteq_take _ _ _ Hl)).
  rewrite Z.min_r by lia. rewrite (proj2 (Z.eqb_neq 0 _)), (proj2 (Z.eqb_neq (-1) _)) by lia.
  destruct (entry_next l j (proj1 Hj) Hl) as [Ho Hwt]. rewrite Hwt, <- app_assoc. unfold pmem. cbn [fst].
  destruct (entry_string _ _ _ k1 l (grep_wait l ++ grep_waits (drop (Z.to_nat (j + 1)) grep_names) ++ sched) Hrun1 Hb Hz
    (names_text _ _ _ _ _ Hrun1 Hin)) as (-> & E2 & Hrun2 & Hc2). cbv zeta in *.
  destruct (Z.eqb_spec 46 (hd 0 l)) as [Hd|Hd].
  { apply returns_Ok. eexists. split; [done|]. constructor; [|exact Hg1|lia|].
    - cbn [snd]. unfold grep_wait. by rewrite <- Hd.
    - exists f1, pos. split; [done|]. rewrite Ho. unfold grep_file. rewrite <- Hd. cbn. by rewrite app_nil_r. }
  set (p2 := store _ _ _) in *. destruct p2 as [k2 rest]. cbn [fst snd] in *. subst rest.
  assert (guarded data k2) as Hg2.
  { apply (guarded_kept data k1 k2 _ Hg1 Hc2). constructor; [|done]. apply apart_sym, gm_arrays; exact Hm. }
  eapply returns_bind.
  { apply (grep_one_file (<[n := Some (set_pos pos x)]> t) n2 _ f1 k2 _ l Hrun2 Hg2); [|done|done|by intros ?].
    by rewrite (first_free_insert t n _ x). }
  intros [[k3 rest] r] (-> & -> & Hg3 & f3 & Hf3 & Hrun3). apply returns_Ok. eexists. split; [done|].
  constructor; [done|exact Hg3|lia|]. exists f3, pos. split; [by rewrite Hf3|].
  cbn [fst]. rewrite Ho, show_app. exact Hrun3.
Qed.

Lemma grep_loop scr f k sched :
  runs base_texts (<[n := Some x]> t) scr f k → guarded data k → entry_counter f = 0 → f_pos x = 0 →
  returns (whileM (grep_round y kesp kebp lit buf search data (Z.of_nat n)) (k, grep_waits grep_names ++ sched))
    (λ '((k', rest), v), v = 0 ∧ rest = sched ∧ ∃ f' pos, entry_counter f' = 0 ∧
      runs base_texts (<[n := Some (set_pos pos x)]> t) (show (grep_output grep_names) scr) f' k').
Proof.
  intros Hrun Hg Hf Hp. apply whileM_total with
    (I := λ p, ∃ j, j = entry_counter (kfs (term (fst p))) ∧ at_entry t n x scr sched j p)
    (V := λ p, num - entry_counter (kfs (term (fst p)))).
  - exists 0. cbn [fst]. rewrite (ru_fs _ _ _ _ _ _ _ _ _ _ _ Hrun), Hf. split; [done|].
    constructor; [done|exact Hg|lia|]. exists f, 0. split; [done|]. by destruct x; cbn in Hp; subst.
  - cbn [fst]. rewrite (ru_fs _ _ _ _ _ _ _ _ _ _ _ Hrun), Hf. lia.
  - intros p (j & Hj & Hat). destruct (grep_round_spec scr sched j p Hat) as (r & -> & Hr). apply returns_Ok.
    destruct (Z.leb_spec num j) as [|Hlt].
    + destruct Hr as (k' & -> & Hr). by split_and!.
    + destruct Hr as (p' & -> & Hat'). pose proof Hat' as [_ _ _ (f' & pos & Hf' & Hrun')].
      assert (entry_counter (kfs (term (fst p'))) = j + 1) as E by (by rewrite (ru_fs _ _ _ _ _ _ _ _ _ _ _ Hrun')).
      split; [by exists (j + 1)|]. rewrite E, <- Hj. lia.
Qed.
End main.

Section grep_spec.
Context `{PortIO D, Hotkeys D fs} (y : layout) (kesp kebp : Z) (ns : list (list Z)).
Context (Hy : tables_ok y) (lit : list Z → Z) (buf search data : Z) (pat : list Z).
Implicit Types k : kernel D.

Definition literal_texts : list (Z * list Z) := (λ s, (lit s, s)) <$> grep_literals.

(** A process that is to run grep: its memory, its argument, a directory it can
    open, and two free descriptors. *)
Record grep_start (t : table) (scr : screen) (f : fs) (sto : list Z) (rdy : bool) (i n n2 : nat) k : Prop := {
  gs_memory : grep_memory y lit buf search data k;
  gs_running : running y ns fst literal_texts k sto rdy t scr f k;
  gs_argument : cstr (kmem k) (arg_at (current_pcb k)) pat ∧ zlen pat ≤ 1023 ∧ arg_size k ≤ GREP_BUFSIZE;
  gs_guarded : guarded data k;
  gs_dot : list_find (λ n, n = codes ".") ns = Some (i, codes ".");
  gs_directory : f_kind (entry_file k i (codes ".")) = Directory;
  gs_free : first_free t = Some n ∧ first_free (<[n := Some (entry_file k i (codes "."))]> t) = Some n2;
  gs_counter : entry_counter f = 0 ∧ 0 ≤ s32 (dentries_num (boot_block_at y) (kmem k)) ≤ 63;
  gs_entries : Forall (greppable ns k) (grep_names y ns k)
}.

Lemma grep_prints t scr f sto rdy i n n2 k sched :
  grep_start t scr f sto rdy i n n2 k →
  returns (grep y kesp kebp lit buf search data (k, grep_waits ns k (grep_names y ns k) ++ sched))
    (λ '((k', rest), v), v = 0 ∧ rest = sched ∧ ∃ f' pos, entry_counter f' = 0 ∧
      running y ns fst (base_texts lit search pat) k sto rdy
        (<[n := Some (set_pos pos (entry_file k i (codes ".")))]> t)
        (show (grep_output ns pat k (grep_names y ns k)) scr) f' k').
Proof.
  intros [Hm Hrun (Ha & Hz & Has) Hg Hdot Hdir [Hfree Hfree2] [Hf Hnum] Hok].
  pose proof Hm as [Hl (_ & Hsr & _) _ Hub Hud Hap (_ & _ & Asd)]. pose proof (ru_world _ _ _ _ _ _ _ _ _ _ _ Hrun) as Hw.
  assert (Forall (literal_placed y fst k) literal_texts) as Hpl.
  { apply Forall_fmap. eapply Forall_impl; [exact Hl|]. intros s Hs. exact Hs. }
  destruct (first_free_lt t n (proj1 (w_table _ _ _ _ Hw)) (w_standard _ _ _ _ Hw) Hfree) as [Hn Hnone].
  unfold grep. set (waits := grep_waits _ _ _). eapply returns_bind.
  { apply (getargs_running y kesp kebp ns fst literal_texts k sto rdy t scr f k (waits ++ sched) pat search GREP_BUFSIZE
      Hrun Ha Has); [unfold GREP_BUFSIZE; lia|lia|lia|exact Hub|].
    apply buffer_harmless; [exact Hub|]. apply Forall_fmap. eapply Forall_impl; [exact Hap|]. intros s Hs.
    rewrite Forall_forall in Hs. apply Hs. right. by left. }
  intros [[k1 rest] r] (-> & -> & Hpat & _ & Hc1 & Hrun1). change (negb (0 =? 0)) with false. cbv iota.
  assert (running y ns fst (base_texts lit search pat) k sto rdy t scr f k1) as Hb1.
  { apply (running_texts _ _ _ literal_texts); [exact Hrun1|]. constructor; [exact Hpat|apply Hrun1]. }
  pose proof (base_placed y lit buf search data pat k Hm Hz) as Hbp.
  assert ((lit (codes "."), codes ".") ∈ base_texts lit search pat) as Hdl by (right; by left).
  eapply returns_bind.
  { apply (open_effect y kesp kebp ns Hy fst _ k sto rdy Hbp t scr f k1 (waits ++ sched) _ Hb1 Hdl). cbn. lia. }
  intros [[k2 rest] fd] (-> & _ & Hc2 & Hop). change (text_of (lit (codes "."), codes ".")) with (codes ".") in Hop.
  rewrite (open_entry y ns fst (base_texts lit search pat) k sto rdy t scr f k1 i (codes ".") Hb1) in Hop by done.
  rewrite Hfree in Hop. destruct Hop as [-> Hrun2]. rewrite (proj2 (Z.eqb_neq (-1) _)) by lia.
  assert (guarded data k2) as Hg2.
  { apply (guarded_kept data k1 k2 [(open_temp y, 40); (current_pcb k, 1424)]);
      [apply (guarded_kept data k k1 [(search, GREP_BUFSIZE)] Hg Hc1); constructor; [by apply apart_sym|done]|exact Hc2|].
    pose proof (λ j r Hr, Forall_lookup_1 _ _ j r (proj2 Hud) Hr) as Hreg.
    constructor; [exact (Hreg 7%nat _ eq_refl)|]. constructor; [exact (Hreg 6%nat _ eq_refl)|done]. }
  by apply (grep_loop y kesp kebp ns Hy lit buf search data pat k sto rdy Hm Hz t n (entry_file k i (codes "."))
    Hdir (lookup_lt_Some _ _ _ Hnone) n2 Hfree2 Hnum Hok scr f k2 sched).
Qed.
End grep_spec.

(** The two kinds of entries. *)
Lemma greppable_file {D} ns (k : kernel D) l x c :
  file_named ns k l = Some x → 0 < zlen l ≤ 31 → take 5 l ≠ codes "stdin" → take 5 l ≠ codes "stdou" →
  (f_kind x = Regular ∧ file_text k x = c ∧ plain c) ∨ f_kind x = Clock → greppable ns k l.
Proof.
  intros Hf Hz N1 N2 Hx. split; [done|]. intros _. rewrite Hf. split_and!; [done|done|]. unfold searchable.
  destruct Hx as [(-> & -> & Hp)| ->]; done.
Qed.

(** ** Properties *)

(** C1: grep prints the lines that hold its pattern.  Started with a pattern as
    its argument, a directory it can open and two free descriptors, it ends
    with status 0 after it has gone through the directory once: of every entry
    whose name does not begin with a dot it prints, in the order of the text,
    the lines in which the pattern occurs, each behind the name and a colon, a
    line of more than 1024 characters in pieces of 1024, although it reads the
    text in pieces of at most 1024 characters that cut lines anywhere.  It
    waits for one interrupt of the clock where the entry is the clock.  Every
    file it opened is closed again, and the directory is at its start.  The
    names searched have 1 to 31 characters and do not begin with stdin or
    stdou; the texts have no 0, their last block is not full, and the byte
    behind the 1024 of the buffer is not a newline (see the findings).  Only a
    pattern whose first character is from 1 to 127 occurs anywhere: the program
    compares it as a signed char. *)
Theorem grep_searches `{PortIO D, Hotkeys D fs} y kesp kebp ns lit buf search data pat (k : kernel D) t scr f sto rdy
    i n n2 sched :
  tables_ok y → grep_start y ns lit buf search data pat t scr f sto rdy i n n2 k →
  returns (grep y kesp kebp lit buf search data (k, grep_waits ns k (grep_names y ns k) ++ sched))
    (λ '((k', rest), v), v = 0 ∧ rest = sched ∧ ∃ f' pos, entry_counter f' = 0 ∧
      running y ns fst (base_texts lit search pat) k sto rdy
        (<[n := Some (set_pos pos (entry_file k i (codes ".")))]> t)
        (show (grep_output ns pat k (grep_names y ns k)) scr) f' k') ∧
  (∀ l, found pat l = true ↔ 1 ≤ hd 0 pat < 128 ∧ ∃ l1 l2, l = l1 ++ pat ++ l2).
Proof. intros Hy Hs. split; [by eapply grep_prints|apply found_spec]. Qed.

(** A directory of a file of three lines, itself, and the clock; the pattern y. *)
Definition grep_demo_names : list (list Z) := [97] :: [46] :: codes "rtc" :: replicate 60 [].
Definition grep_demo_text : list Z := codes "xyz" ++ [10] ++ codes "abc" ++ [10] ++ codes "y".
Definition grep_demo_mem : mem :=
  let m := wr32 (wr_bytes (prog_mem grep_literals) 0x100C0 (codes "rtc" ++ [0])) 0x800 3 in
  let m := wr_bytes (wr32 m 0x11000 9) 0x12000 grep_demo_text in
  wr_bytes m (arg_at (pcb_at 1)) [121; 0].
Definition grep_demo : kernel trace := prog_kernel grep_demo_mem [].

Lemma grep_demo_start :
  grep_start demo_layout grep_demo_names (place grep_literals) 0x8049000 0x8049100 0x8049600 [121] prog_table
    blank_screen demo_fs [] false 1 2 3 grep_demo.
Proof.
  assert (world demo_layout grep_demo_names prog_table grep_demo) as Hw by (apply bare_world; by_decide).
  constructor.
  - constructor; by_decide || (repeat split; by_decide).
  - constructor; [exact Hw|by constructor| |by_decide|done]. exists 0.
    exact (represents_set_dev (Trace [] []) (fresh_kb grep_demo_mem) idle (proj1 (fresh_kb_ok _))).
  - split_and!; by_decide.
  - unfold guarded. by_decide.
  - reflexivity.
  - by_decide.
  - by_decide.
  - by_decide.
  - change (grep_names demo_layout grep_demo_names grep_demo) with [[97]; [46]; codes "rtc"].
    assert (file_text grep_demo (entry_file grep_demo 0 [97]) = grep_demo_text) as Ht by by_decide.
    assert (f_kind (entry_file grep_demo 0 [97]) = Regular ∧ f_kind (entry_file grep_demo 2 (codes "rtc")) = Clock)
      as [K1 K2] by by_decide.
    apply Forall_cons_2; [|apply Forall_cons_2; [split; [cbn; lia|intros Hne; destruct Hne; reflexivity]|]].
    2: apply Forall_cons_2; [|constructor].
    + apply (greppable_file _ _ _ (entry_file grep_demo 0 [97]) grep_demo_text); [reflexivity|cbn; lia|done|done|].
      left. split; [exact K1|]. split; [exact Ht|]. split; [by_decide|right; by_decide].
    + apply (greppable_file _ _ _ (entry_file grep_demo 2 (codes "rtc")) []); [reflexivity|cbn; lia|done|done|].
      right. exact K2.
Qed.

Lemma grep_searches_witness :
  returns (@grep trace _ (quiet_hotkeys trace fs) demo_layout 0 0 (place grep_literals) 0x8049000 0x8049100 0x8049600
      (grep_demo, [IRQ_RTC]))
    (λ '((k', rest), v), v = 0 ∧ rest = [] ∧ ∃ f' pos, entry_counter f' = 0 ∧
      running demo_layout grep_demo_names fst (base_texts (place grep_literals) 0x8049100 [121]) grep_demo [] false
        (<[2%nat := Some (set_pos pos (entry_file grep_demo 1 (codes ".")))]> prog_table)
        (show (line_of "a:xyz" ++ line_of "a:y") blank_screen) f' k').
Proof.
  assert (grep_output grep_demo_names [121] grep_demo (grep_names demo_layout grep_demo_names grep_demo) =
    line_of "a:xyz" ++ line_of "a:y") as Ho by by_decide.
  assert (grep_waits grep_demo_names grep_demo (grep_names demo_layout grep_demo_names grep_demo) = [IRQ_RTC]) as Hq
    by (vm_compute; reflexivity).
  pose proof (proj1 (@grep_searches trace _ (quiet_hotkeys trace fs) demo_layout 0 0 grep_demo_names (place grep_literals)
    0x8049000 0x8049100 0x8049600 [121] grep_demo prog_table blank_screen demo_fs [] false 1 2 3 []
    demo_tables_ok grep_demo_start)) as Hx.
  rewrite Ho, Hq in Hx. exact Hx.
Defined.
